(* ===== verification/_CoqProject ===== *)
-Q . S2P
Prelude.v
Text.v
Float64.v
Rounding.v
VarDiff.v
Db.v
WorkerRepository.v
AccountingEventRepository.v
RoundRepository.v
ShareRepository.v
FoundBlockRepository.v
PayoutRepository.v
Frames.v
Pplns.v
Plan.v
Json.v
AccountingService.v
PayoutService.v
PayoutBalance.v
PayoutSubmission.v
AccountingSystem.v
Lifecycle.v
Job.v
JobCache.v
Protocol.v
Session.v
Validator.v
JsonRpc.v
Signer.v
Server.v
BlockFound.v
Conversation.v
Template.v
PayoutHandler.v
Consumer.v
Pagination.v
HttpApi.v
Config.v
Startup.v
Shutdown.v
Pool.v
PoolPayout.v
Testing.v
DbTesting.v
VarDiffTests.v
PayoutTests.v
RepositoryTests.v
ShareTests.v
BlockTests.v
BatchTests.v
ServiceTests.v
PayoutServiceTests.v
StratumTests.v
ValidatorTests.v
JobCacheTests.v
TemplateTests.v
ShutdownTests.v
ConfigTests.v
ClientTests.v
ApiTests.v
ConsumerTests.v
ServerTests.v
