(* ===== verification/Prelude.v ===== *)
(** * A mining pool server for Lotus: verification library

    The program (under [src/src]) is a Stratum mining pool server. It takes work from
    a node, hands jobs to miners over TCP, validates the shares that come back,
    submits the blocks that are found, keeps the books in a SQLite database, and pays
    the miners of a matured block by PPLNS. This library models its parts as
    executable functions and proves what makes them correct.

    ** The parts, and where they are modelled

    Shared by all files:
    - [Prelude]: errors, panics and the state monad of fallible code; relations kept by
      stateful code ([Keeps], [keeps]) and absence of panics ([NoPanic], [no_panic], and
      [Safe], [safe] under an invariant);
      machine integers; sums; sorting.
    - [Text]: order, prefixes and splitting of strings, decimal numbers, SQL [LIKE].
    - [Float64]: IEEE 754 doubles with the operations and casts of the code. [Rounding]:
      the error of these operations against rational numbers, and of the division of an
      amount by floating-point shares.
    - [Json]: JSON values and the accessors that the code uses.

    The books ([accounting/]):
    - [Db]: [schema.rs] and the row types: tables, transactions, the declared
      constraints as the invariant [db_wf].
    - [WorkerRepository], [AccountingEventRepository], [RoundRepository],
      [ShareRepository], [FoundBlockRepository], [PayoutRepository]: the repositories of
      the same names, one definition per method. [Frames]: which tables each leaves alone.
    - [AccountingService], [PayoutService], [PayoutSubmission]: [service.rs]; the first has
      shares, rounds, blocks and maturation, the second the creation, submission and
      confirmation of payouts, the third the theorems on submission. [PayoutBalance]: what
      a creation writes against the reward.
    - [AccountingSystem]: the calls of the service as a step relation, the databases that
      are reachable by them, and their invariants. [Lifecycle]: the rows over time, their
      statuses and what of them never changes.

    Payouts ([payout/]):
    - [Pplns]: [pplns.rs] and [mod.rs], the window of shares that are paid.
    - [Plan]: [plan.rs], the distribution of a reward.
    - [PayoutHandler]: [handler.rs], the task that pays matured blocks.
    - [Signer]: [signer/internal.rs] and [signer/external.rs].

    Stratum ([stratum_protocol/], [share_processing/]):
    - [VarDiff]: [difficulty.rs], the variable difficulty of a session.
    - [Job]: [job.rs], [params.rs] and [accounting/chain_tip.rs].
    - [Protocol]: [protocol.rs]. [Session]: [session.rs].
    - [Validator]: [validator.rs], and [node_integration/block_builder.rs].
    - [Server]: [server.rs]: a connection as a loop over what arrives. [BlockFound]: what a
      share that solves a block does. [Conversation]: the responses and messages on a
      connection.

    The node ([node_integration/]):
    - [JobCache]: [job_cache.rs]. [Template]: [template.rs].
    - [JsonRpc]: [json_rpc/client.rs].
    - [Consumer]: [nng/consumer.rs], the events of the node.

    Around it:
    - [Pagination], [HttpApi]: [http_api/]: pages, the token check, every endpoint.
    - [Config]: [config.rs]. [Shutdown]: [shutdown/mod.rs].
    - [Startup]: [main.rs] up to the spawning of the tasks, and [nng/rpc_client.rs].
    - [Pool]: the tasks that [main.rs] and [server.rs] spawn, over what they share: the
      whole running pool as a state with one step per turn of a task, and the start of the
      program. [PoolPayout]: from a matured block to its payout batch.

    The unit tests of the code ([#[cfg(test)]]), as executable definitions that run on the
    model, with lemmas that all of them pass:
    - [Testing], [DbTesting]: assertions, [unwrap], mock requests, and raw inserts.
    - [VarDiffTests], [ValidatorTests] ([share_processing/]); [StratumTests], [ServerTests]
      ([stratum_protocol/]); [RepositoryTests], [ShareTests], [BlockTests], [BatchTests],
      [ServiceTests], [PayoutServiceTests] ([accounting/]); [PayoutTests] and, with the signers
      and the clients of the node, [ClientTests] ([payout/]); [JobCacheTests],
      [TemplateTests], [ConsumerTests] ([node_integration/]); [ApiTests] ([http_api/]);
      [ConfigTests]; [ShutdownTests].

    ** How code is modelled

    A function that can fail returns [result], with [Panic] apart from errors because it
    unwinds through every caller. Code with state is in the monad [M S]: the state
    after an error is the one the code left behind, and only [transaction] rolls back.
    The text of an error is kept without the library's part of it. Logging is left out.
    Integers are in [Z] with their casts and wrap-around written out, floats are
    [SpecFloat] at 53 bits. A table is its rows in insertion order and the counter of
    [AUTOINCREMENT]; a statement is a function on the database. Tasks share the
    database behind a lock: in [AccountingSystem] one call of the service is one step, in
    any order with those of other tasks; in [Pool] one turn of a task is one step.

    Library code is a parameter: [SqlOrder] (the order of rows that SQL leaves open),
    [Hashing] and [LotusLib] (hex, hashes, headers, blocks), [LotusAddress], [TxLib] and
    [ConfigLib] (addresses, scripts, transactions, URLs), [KeyLib] (private keys), [MokaCache] (the cache),
    [HttpNode] and [NngLib] (the node), [Broadcast] and [JobChannel] (the channels of the
    shutdown and of new jobs), the JSON and TOML parsers and the web framework's decoding of a request. Where a theorem relies
    on the behaviour of one, the class has it as a law, and an instance shows that the
    laws can hold. Fuel occurs once, in printing a decimal number: the number of bits is
    enough digits ([show_fuel_enough]).

    ** What the theorems show

    - The money: a plan gives out the net reward exactly and each miner its part of it within
      1.5 units, by bounds on the rounding errors that are proved for every sum, quotient and
      product in it ([payout_plan_conserves]), with leftover units to the largest fractions ([remainder_to_largest_fractions]); the
      window is the shortest run of the newest shares that reaches the threshold
      ([pplns_window_spec]); creating a payout records exactly the plan and one event
      ([create_payout_spec]), which adds up to the reward less the fee ([payout_balances]),
      and succeeds when it should ([create_payout_succeeds]); a block
      that the pool found gets its batch once it has enough confirmations, in every
      interleaving ([found_block_gets_batch], from what [block_found_spec] leaves); a
      batch is submitted only under an id that the signer returned for it
      ([process_pending_only_signed]); the transaction pays the plan
      ([payout_tx_spec]).
    - The system: every reachable database satisfies its schema and the assertions of its
      readers ([reachable_invariant]) and no block is paid twice
      ([one_batch_per_block]); the books are an audit trail, except for the payouts and
      snapshots of a batch that is still pending ([history_append_only]); every status is one
      of those documented ([status_types]). The server, the consumer, the handler, the API and the
      startup code act on the database only through these calls
      ([connection_refines], [consumer_refines], [handler_refines], [api_refines],
      [startup_spec]), and so does the pool that they make up, in every interleaving
      ([pool_refines]): the invariants hold whatever miners, node and clients send. The
      pool also keeps its counters, identities and jobs consistent ([pool_invariant]) and
      its sessions well-formed ([pool_sessions]), and brings every connection up to the
      latest job ([latest_job_delivered]).
    - Shares: when a share is accepted and when it is a block
      ([validate_share_spec]); what a submission does ([handle_submit_spec]); that work
      for an old job is refused after a clean one ([clean_job_stales]); what a share that
      solves a block does ([block_found_spec]); that every line is answered once, in order,
      with messages of the right types ([requests_answered], [messages_typed]); the invariant of
      a session along a connection ([connection_session_invariant]); the block that is
      built ([built_block_hash], and with its size when the size assertion fails,
      [built_block_size]); that recording is idempotent, and
      when it is not ([record_share_idempotent],
      [record_share_suffixless_duplicates]).
    - The chain: maturation, reorganizations, reconciliation and confirmation change
      exactly the blocks, rounds and batches they should ([check_maturation_spec],
      [reorg_spec], [reconcile_found_blocks_spec], [reconcile_submitted_spec],
      [confirm_connected_spec], [confirm_equals_reconcile], [matured_block_is_paid]).
    - The rest: bounds of the difficulty ([vardiff_stays_in_range]), the job cache
      ([job_cache_spec]), new work ([work_changed_spec], [coalesce_spec]), sessions
      ([assigned_jobs_spec], [worker_name_roundtrip]), the token check and totality of
      the API ([auth_protects], [api_answers], [trigger_payout_once]), pages
      ([pages_cover]), the configuration ([load_spec]) and the shutdown
      ([shutdown_terminates]).

    ** What is not modelled

    Sockets and log output, which have no logic beyond calling what is modelled; the
    decoding of a private key and the signature, the encoding of blocks and transactions, JSON, TOML, URLs and the
    routing of requests, which are library code; the unit tests of that code, of a
    new server, of a live node, of the lock of the payout handler and of a schema that is created twice; concurrency below one call of the
    accounting service, and in [Pool] below one turn of a task; the 64-bit bound of a dust
    balance, beyond which SQLite would store a real; and the room of the coalescer's output
    channel, which is taken to suffice. *)
From Stdlib Require Import ZArith Lia Sorted Permutation String Ascii.
From stdpp Require Import base option list numbers strings sets fin_sets gmap.

#[local] Open Scope Z_scope.

#[global] Arguments String.append : simpl nomatch.

(** * Results and effects

    [anyhow::Result<T>] is a value or an error; a Rust [assert!] or a
    panicking library call is [Panic]: it is not an error value and unwinds
    through every caller. *)

Inductive error : Type :=
  | SqliteConstraint (what : string)
  | ToSqlConversion
  | QueryReturnedNoRows
  | Anyhow (msg : string).

Inductive result (A : Type) : Type :=
  | Ok (a : A)
  | Err (e : error)
  | Panic.
Arguments Ok {A} _.
Arguments Err {A} _.
Arguments Panic {A}.

#[global] Instance error_eq_dec : EqDecision error.
Proof. solve_decision. Defined.

#[global] Instance result_eq_dec {A} `{EqDecision A} : EqDecision (result A).
Proof. solve_decision. Defined.

#[global] Instance result_ret : MRet result := @Ok.

#[global] Instance result_bind : MBind result := λ A B f r,
  match r with Ok a => f a | Err e => Err e | Panic => Panic end.

#[global] Instance result_fmap : FMap result := λ A B f r,
  match r with Ok a => Ok (f a) | Err e => Err e | Panic => Panic end.

(** [Result::ok], [Result::unwrap_or] *)
Definition ok {A} (r : result A) : option A :=
  match r with Ok a => Some a | _ => None end.

Definition unwrap_or {A} (d : A) (r : result A) : result A :=
  match r with Ok a => Ok a | Err _ => Ok d | Panic => Panic end.

(** [Option::ok_or_else] *)
Definition ok_or {A} (e : error) (o : option A) : result A :=
  match o with Some a => Ok a | None => Err e end.

Definition is_ok {A} (r : result A) : bool :=
  match r with Ok _ => true | _ => false end.

(** Stateful code that can fail: the state after an error is the state the
    code left behind, it is not rolled back unless the code does so. *)
Definition M (S A : Type) : Type := S → result A * S.

#[global] Instance M_ret {S} : MRet (M S) := λ A a s, (Ok a, s).

#[global] Instance M_bind {S} : MBind (M S) := λ A B f c s,
  match c s with
  | (Ok a, s') => f a s'
  | (Err e, s') => (Err e, s')
  | (Panic, s') => (Panic, s')
  end.

Definition mfail {S A} (e : error) : M S A := λ s, (Err e, s).
Definition mpanic {S A} : M S A := λ s, (Panic, s).
Definition mget {S} : M S S := λ s, (Ok s, s).
Definition mput {S} (s : S) : M S unit := λ _, (Ok tt, s).
Definition mlift {S A} (r : result A) : M S A := λ s, (r, s).

(** [match call() { Ok(v) => .., Err(e) => .. }]: the error becomes a value,
    a panic does not. *)
Definition mtry {S A} (c : M S A) : M S (A + error) := λ s,
  match c s with
  | (Ok a, s') => (Ok (inl a), s')
  | (Err e, s') => (Ok (inr e), s')
  | (Panic, s') => (Panic, s')
  end.

(** [let _ = call();] *)
Definition mignore {S A} (c : M S A) : M S unit := mtry c ;; mret tt.

(** [for x in xs { body }]: stops at the first error that [?] propagates. *)
Fixpoint mfor {S A} (xs : list A) (body : A → M S unit) : M S unit :=
  match xs with
  | [] => mret tt
  | x :: xs' => body x ;; mfor xs' body
  end.

(** An invariant that the body keeps is kept by the whole loop, whether it
    finishes, fails or panics. *)
Lemma mfor_inv {S A} (I : S → Prop) (xs : list A) (body : A → M S unit) (s : S) :
  (∀ x s, x ∈ xs → I s → I (body x s).2) →
  I s → I (mfor xs body s).2.
Proof.
  revert s; induction xs as [|x xs IH]; intros s Hbody Hs; [done|].
  unfold mfor; fold (@mfor S A); unfold mbind, M_bind.
  pose proof (Hbody x s ltac:(set_solver) Hs) as Hx.
  destruct (body x s) as [[[]|e|] s']; simpl in *; try done.
  apply IH; [|done]. intros y t Hy; apply Hbody; set_solver.
Qed.

(** A binary relation that is reflexive, transitive and kept by the body
    relates the states before and after the loop. *)
Lemma mfor_rel {S A} (R : S → S → Prop) `{!Reflexive R, !Transitive R}
    (xs : list A) (body : A → M S unit) (s : S) :
  (∀ x s, x ∈ xs → R s (body x s).2) → R s (mfor xs body s).2.
Proof.
  intros Hbody. apply (mfor_inv (R s)); [|done].
  intros x t Hx Hst. etrans; [exact Hst|by apply Hbody].
Qed.

(** When every turn of the loop succeeds and acts on a part of the state as a
    function, the loop succeeds and acts as the fold of that function. *)
Lemma mfor_fold {S A T} (part : S → T) (g : A → T → T) (xs : list A) (body : A → M S unit) s :
  (∀ x s, (body x s).1 = Ok tt ∧ part (body x s).2 = g x (part s)) →
  (mfor xs body s).1 = Ok tt ∧
  part (mfor xs body s).2 = foldl (λ t x, g x t) (part s) xs.
Proof.
  intros Hb. revert s. induction xs as [|x xs IH]; intros s; [done|]. simpl.
  unfold mbind, M_bind. destruct (Hb x s) as [H1 H2].
  destruct (body x s) as [r s']. simpl in *. subst r. rewrite <-H2. apply IH.
Qed.

(** The loop succeeds when every turn does, under an invariant. *)
Lemma mfor_total {S A} (I : S → Prop) (xs : list A) (body : A → M S unit) s :
  (∀ x s, x ∈ xs → I s → (body x s).1 = Ok tt ∧ I (body x s).2) →
  I s → (mfor xs body s).1 = Ok tt ∧ I (mfor xs body s).2.
Proof.
  revert s. induction xs as [|x xs IH]; intros s Hb Hs; [done|]. simpl.
  unfold mbind, M_bind. destruct (Hb x s ltac:(set_solver) Hs) as [H1 H2].
  destruct (body x s) as [r s']. simpl in *. subst r.
  apply IH; [|done]. intros; apply Hb; set_solver.
Qed.

Lemma mignore_ok {S A} (c : M S A) s : (c s).1 ≠ Panic → (mignore c s).1 = Ok tt.
Proof. unfold mignore, mtry, mbind, M_bind. by destruct (c s) as [[]]. Qed.

Lemma mignore_run {S A} (c : M S A) s a s' : c s = (Ok a, s') → mignore c s = (Ok tt, s').
Proof. intros E. unfold mignore, mtry, mbind, M_bind. by rewrite E. Qed.

Lemma bind_run {S A B} (c : M S A) (f : A → M S B) s a s' : c s = (Ok a, s') → (c ≫= f) s = f a s'.
Proof. intros E. unfold mbind, M_bind. by rewrite E. Qed.

(** A sequence that succeeds is made of calls that succeed. *)
Lemma bind_ok {S A B} (c : M S A) (f : A → M S B) s b s' :
  (c ≫= f) s = (Ok b, s') → ∃ a s1, c s = (Ok a, s1) ∧ f a s1 = (Ok b, s').
Proof. unfold mbind, M_bind. destruct (c s) as [[a|e|] s1]; naive_solver. Qed.

Lemma mignore_snd {S A} (c : M S A) s : (mignore c s).2 = (c s).2.
Proof.
  unfold mignore, mtry, mbind, M_bind. by destruct (c s) as [[]].
Qed.

(** * Relations kept by stateful code

    [Keeps R c]: running [c] from any state moves along [R], whatever the
    outcome. For a preorder [R] it is compositional, so an invariant, a
    monotone quantity or an append-only log is proved statement by statement
    and lifted to whole operations by [keeps]. *)
Section Keeps.
Context {S : Type} (R : S → S → Prop) `{!PreOrder R}.

Definition Keeps {A} (c : M S A) : Prop := ∀ s, R s (c s).2.

Lemma Keeps_ret {A} (a : A) : Keeps (mret a).
Proof. intros s. reflexivity. Qed.
Lemma Keeps_fail {A} e : Keeps (mfail (A:=A) e).
Proof. intros s. reflexivity. Qed.
Lemma Keeps_panic {A} : Keeps (mpanic (A:=A)).
Proof. intros s. reflexivity. Qed.
Lemma Keeps_get : Keeps mget.
Proof. intros s. reflexivity. Qed.
Lemma Keeps_lift {A} (r : result A) : Keeps (mlift r).
Proof. intros s. reflexivity. Qed.

Lemma Keeps_bind {A B} (c : M S A) (f : A → M S B) :
  Keeps c → (∀ a, Keeps (f a)) → Keeps (c ≫= f).
Proof.
  intros Hc Hf s. pose proof (Hc s) as H1. unfold mbind, M_bind.
  destruct (c s) as [[a|e|] s']; simpl in *; try done.
  etrans; [exact H1|apply Hf].
Qed.

Lemma Keeps_try {A} (c : M S A) : Keeps c → Keeps (mtry c).
Proof.
  intros Hc s. pose proof (Hc s). unfold mtry.
  by destruct (c s) as [[a|e|] s'].
Qed.

Lemma Keeps_ignore {A} (c : M S A) : Keeps c → Keeps (mignore c).
Proof.
  intros Hc. apply Keeps_bind; [by apply Keeps_try|intros; apply Keeps_ret].
Qed.

Lemma Keeps_for {A} (xs : list A) (body : A → M S unit) :
  (∀ x, Keeps (body x)) → Keeps (mfor xs body).
Proof.
  intros Hb. induction xs as [|x xs IH]; simpl; [apply Keeps_ret|].
  apply Keeps_bind; [apply Hb|done].
Qed.

Lemma Keeps_if {A} (b : bool) (c d : M S A) : Keeps c → Keeps d → Keeps (if b then c else d).
Proof. by destruct b. Qed.
End Keeps.

#[global] Instance invariant_preorder {S} (I : S → Prop) : PreOrder (λ s t, I s → I t).
Proof. split; red; auto. Qed.

Create HintDb keeps.
#[global] Hint Extern 0 (PreOrder _) => typeclasses eauto : keeps.
#[global] Hint Resolve Keeps_ret Keeps_fail Keeps_panic Keeps_get Keeps_lift : keeps.

(** Decompose an operation into its statements; a statement is closed by the
    lemmas of the [keeps] database. *)
Ltac keeps_step :=
  intros;
  first
    [ solve [eauto 3 with keeps]
    | apply Keeps_bind; [typeclasses eauto| |]
    | apply Keeps_try
    | apply Keeps_ignore; [typeclasses eauto|]
    | apply Keeps_for; [typeclasses eauto|]
    | match goal with
      | |- Keeps _ (match ?x with _ => _ end) => destruct x eqn:?
      end ].
Ltac keeps := repeat keeps_step; intros.

(** Code that gives a value or an error in every state. *)
Definition NoPanic {S A} (c : M S A) : Prop := ∀ s, (c s).1 ≠ Panic.

Lemma NoPanic_ret {S A} (a : A) : NoPanic (S:=S) (mret a).
Proof. done. Qed.
Lemma NoPanic_fail {S A} e : NoPanic (S:=S) (mfail (A:=A) e).
Proof. done. Qed.
Lemma NoPanic_bind {S A B} (c : M S A) (f : A → M S B) :
  NoPanic c → (∀ a, NoPanic (f a)) → NoPanic (c ≫= f).
Proof.
  intros Hc Hf s. pose proof (Hc s). unfold mbind, M_bind.
  destruct (c s) as [[a|e|] s']; simpl in *; [apply Hf|done|done].
Qed.
Lemma NoPanic_try {S A} (c : M S A) : NoPanic c → NoPanic (mtry c).
Proof. intros Hc s. pose proof (Hc s). unfold mtry. by destruct (c s) as [[] ?]. Qed.
Lemma NoPanic_ignore {S A} (c : M S A) : NoPanic c → NoPanic (mignore c).
Proof. intros Hc. apply NoPanic_bind; [by apply NoPanic_try|done]. Qed.
Lemma NoPanic_for {S A} (xs : list A) (body : A → M S unit) :
  (∀ x, NoPanic (body x)) → NoPanic (mfor xs body).
Proof. intros Hb. induction xs as [|x xs IH]; [done|]. by apply NoPanic_bind. Qed.
#[global] Hint Resolve NoPanic_ret NoPanic_fail : keeps.

Ltac no_panic :=
  repeat (intros; first
    [ solve [eauto 3 with keeps]
    | apply NoPanic_bind
    | apply NoPanic_try
    | apply NoPanic_ignore
    | apply NoPanic_for
    | match goal with
      | |- NoPanic (match ?x with _ => _ end) => destruct x eqn:?
      end ]).

(** Code that gives a value or an error in every state with the property [I], and keeps it. *)
Definition Safe {S A} (I : S → Prop) (c : M S A) : Prop := ∀ s, I s → (c s).1 ≠ Panic ∧ I (c s).2.

Section Safe.
Context {S : Type} (I : S → Prop).

Lemma Safe_of {A} (c : M S A) : NoPanic c → Keeps (λ s s', I s → I s') c → Safe I c.
Proof. intros H1 H2 s Hs. split; [apply H1|by apply H2]. Qed.
Lemma Safe_ret {A} (a : A) : Safe I (mret a).
Proof. by intros s Hs. Qed.
Lemma Safe_fail {A} e : Safe I (mfail (A:=A) e).
Proof. by intros s Hs. Qed.
Lemma Safe_lift {A} (r : result A) : r ≠ Panic → Safe I (mlift r).
Proof. by intros Hr s Hs. Qed.
Lemma Safe_bind {A B} (c : M S A) (f : A → M S B) :
  Safe I c → (∀ a, Safe I (f a)) → Safe I (c ≫= f).
Proof.
  intros Hc Hf s Hs. destruct (Hc s Hs) as [H1 H2]. unfold mbind, M_bind.
  destruct (c s) as [[a|e|] s']; simpl in *; [by apply Hf|done|done].
Qed.
Lemma Safe_try {A} (c : M S A) : Safe I c → Safe I (mtry c).
Proof.
  intros Hc s Hs. destruct (Hc s Hs) as [H1 H2]. unfold mtry. by destruct (c s) as [[] ?].
Qed.
Lemma Safe_ignore {A} (c : M S A) : Safe I c → Safe I (mignore c).
Proof. intros Hc. apply Safe_bind; [by apply Safe_try|intros; apply Safe_ret]. Qed.
Lemma Safe_for {A} (xs : list A) (body : A → M S unit) :
  (∀ x, Safe I (body x)) → Safe I (mfor xs body).
Proof. intros Hb. induction xs as [|x xs IH]; [apply Safe_ret|]. by apply Safe_bind. Qed.
End Safe.
#[global] Hint Resolve Safe_ret Safe_fail Safe_lift : keeps.

Ltac safe :=
  repeat (intros; first
    [ solve [eauto 3 with keeps]
    | apply Safe_bind
    | apply Safe_try
    | apply Safe_ignore
    | apply Safe_for
    | match goal with
      | |- Safe _ (match ?x with _ => _ end) => destruct x eqn:?
      end ]).

(** Unfold the monad and split on the outcome of every call. *)
Ltac munfold :=
  unfold mbind, M_bind, result_bind, mret, M_ret, mget, mput, mlift, mfail,
    mpanic, mtry, mignore in *.

Ltac mcases :=
  repeat (simpl in *;
    match goal with
    | |- context [match ?c ?s with (_, _) => _ end] =>
        destruct (c s) as [[?|?|] ?] eqn:?
    | |- context [match ?x with _ => _ end] => destruct x eqn:?
    end).

(** * Machine integers *)

Definition u64_max : Z := 2 ^ 64 - 1.
Definition i64_min : Z := - 2 ^ 63.
Definition i64_max : Z := 2 ^ 63 - 1.
Definition i32_min : Z := - 2 ^ 31.
Definition i32_max : Z := 2 ^ 31 - 1.

Definition in_u64 (z : Z) : Prop := 0 ≤ z ≤ u64_max.
Definition in_i64 (z : Z) : Prop := i64_min ≤ z ≤ i64_max.
Definition in_i32 (z : Z) : Prop := i32_min ≤ z ≤ i32_max.

(** Unsigned wrap-around at [w] bits and its two's-complement reading: the
    [as] casts, and the release-mode arithmetic operators. *)
Definition wrap_u (w z : Z) : Z := z `mod` 2 ^ w.
Definition wrap_s (w z : Z) : Z :=
  let r := z `mod` 2 ^ w in if r <? 2 ^ (w - 1) then r else r - 2 ^ w.

Definition as_u64 : Z → Z := wrap_u 64.
Definition as_i64 : Z → Z := wrap_s 64.
Definition as_i32 : Z → Z := wrap_s 32.

Lemma wrap_u_id w z : 0 ≤ z < 2 ^ w → wrap_u w z = z.
Proof. intros. by apply Z.mod_small. Qed.

Lemma wrap_s_id w z : 0 < w → - 2 ^ (w - 1) ≤ z < 2 ^ (w - 1) → wrap_s w z = z.
Proof.
  intros Hw Hz. unfold wrap_s.
  assert (2 ^ w = 2 * 2 ^ (w - 1)) as Hp.
  { rewrite <-Z.pow_succ_r by lia. f_equal; lia. }
  destruct (decide (0 ≤ z)).
  - rewrite Z.mod_small by lia. rewrite (proj2 (Z.ltb_lt _ _)); lia.
  - rewrite <-(Z_mod_plus_full z 1 (2 ^ w)), Z.mod_small by lia.
    rewrite (proj2 (Z.ltb_ge _ _)); lia.
Qed.

Lemma as_u64_id z : in_u64 z → as_u64 z = z.
Proof. unfold in_u64, u64_max. intros. apply wrap_u_id. lia. Qed.

Lemma as_i64_id z : in_i64 z → as_i64 z = z.
Proof.
  unfold in_i64, i64_min, i64_max. intros. apply wrap_s_id; simpl; lia.
Qed.

Lemma as_i32_id z : in_i32 z → as_i32 z = z.
Proof.
  unfold in_i32, i32_min, i32_max. intros. apply wrap_s_id; simpl; lia.
Qed.

Lemma wrap_s_range w z : 0 < w → - 2 ^ (w - 1) ≤ wrap_s w z < 2 ^ (w - 1).
Proof.
  intros Hw. unfold wrap_s.
  assert (2 ^ w = 2 * 2 ^ (w - 1)) as Hp.
  { rewrite <-Z.pow_succ_r by lia. f_equal; lia. }
  pose proof (Z.mod_pos_bound z (2 ^ w) ltac:(lia)).
  destruct (Z.ltb_spec (z `mod` 2 ^ w) (2 ^ (w - 1))); lia.
Qed.

(** Wrapping is a matter of the residue, so a wrapping sum is the wrapped sum. *)
Lemma wrap_s_mod w z : 0 < w → wrap_s w z `mod` 2 ^ w = z `mod` 2 ^ w.
Proof.
  intros Hw. unfold wrap_s. assert (0 < 2 ^ w) by lia.
  destruct (_ <? _); [by apply Z.mod_mod; lia|].
  rewrite <-(Z_mod_plus_full _ 1 (2 ^ w)). replace (_ - _ + _) with (z `mod` 2 ^ w) by lia.
  by apply Z.mod_mod; lia.
Qed.

Lemma wrap_s_add_l w a b : 0 < w → wrap_s w (wrap_s w a + b) = wrap_s w (a + b).
Proof.
  intros Hw. assert (∀ x y, x `mod` 2 ^ w = y `mod` 2 ^ w → wrap_s w x = wrap_s w y) as H.
  { intros x y E. unfold wrap_s. by rewrite E. }
  apply H. rewrite Z.add_mod, wrap_s_mod, <-Z.add_mod by lia. done.
Qed.

Lemma as_i64_add_l a b : as_i64 (as_i64 a + b) = as_i64 (a + b).
Proof. by apply wrap_s_add_l. Qed.

Lemma as_i64_range z : in_i64 (as_i64 z).
Proof. pose proof (wrap_s_range 64 z). unfold in_i64, as_i64, i64_min, i64_max in *. simpl in *. lia. Qed.

(** * Sums *)

Definition sumZ {A} (f : A → Z) (l : list A) : Z := foldr (λ x acc, f x + acc) 0 l.

Lemma sumZ_app {A} (f : A → Z) l k : sumZ f (l ++ k) = sumZ f l + sumZ f k.
Proof. induction l; simpl; lia. Qed.

#[global] Instance sumZ_perm {A} (f : A → Z) : Proper ((≡ₚ) ==> (=)) (sumZ f).
Proof. induction 1; simpl; lia. Qed.

Lemma sumZ_map {A B} (g : A → B) (f : B → Z) l : sumZ f (map g l) = sumZ (λ x, f (g x)) l.
Proof. induction l; simpl; congruence. Qed.

Lemma sumZ_ext {A} (f g : A → Z) l : (∀ x, x ∈ l → f x = g x) → sumZ f l = sumZ g l.
Proof.
  induction l as [|x l IH]; intros H; [done|]. simpl.
  rewrite (H x) by set_solver. rewrite IH; [done|]. intros; apply H; set_solver.
Qed.

Lemma sumZ_add {A} (f g : A → Z) l : sumZ (λ x, f x + g x) l = sumZ f l + sumZ g l.
Proof. induction l; simpl; lia. Qed.

Lemma sumZ_nonneg {A} (f : A → Z) l : (∀ x, x ∈ l → 0 ≤ f x) → 0 ≤ sumZ f l.
Proof.
  induction l as [|x l IH]; intros H; [done|]. simpl.
  pose proof (H x ltac:(set_solver)).
  pose proof (IH ltac:(intros; apply H; set_solver)). lia.
Qed.

(** [iter().sum::<i64>()] *)
Definition sum_i64 (l : list Z) : Z := fold_left (λ acc x, as_i64 (acc + x)) l 0.

Lemma fold_sum_i64 l a :
  as_i64 a = a → fold_left (λ acc x, as_i64 (acc + x)) l a = as_i64 (a + sumZ (λ x, x) l).
Proof.
  revert a; induction l as [|x l IH]; intros a Ha; simpl; [by rewrite Z.add_0_r|].
  rewrite IH by apply as_i64_id, as_i64_range.
  rewrite as_i64_add_l. f_equal. lia.
Qed.

Lemma sum_i64_spec l : sum_i64 l = as_i64 (sumZ (λ x, x) l).
Proof. unfold sum_i64. by rewrite fold_sum_i64. Qed.

Lemma sumZ_ge_elem {A} (f : A → Z) l x :
  (∀ y, y ∈ l → 0 ≤ f y) → x ∈ l → f x ≤ sumZ f l.
Proof.
  induction l as [|y l IH]; intros H Hx; [set_solver|]. simpl.
  pose proof (H y ltac:(set_solver)).
  pose proof (sumZ_nonneg f l ltac:(intros; apply H; set_solver)).
  apply elem_of_cons in Hx as [->|Hx]; [lia|].
  specialize (IH ltac:(intros; apply H; set_solver) Hx). lia.
Qed.

(** * Stable sorting ([slice::sort_by])

    [isort le] inserts from the right and puts an element before the first
    one it is not greater than, so elements that compare equal keep their
    order. *)
Section Sorting.
Context {A : Type} (le : A → A → bool).

Fixpoint insert_sorted (x : A) (l : list A) : list A :=
  match l with
  | [] => [x]
  | y :: l' => if le x y then x :: l else y :: insert_sorted x l'
  end.

Definition isort (l : list A) : list A := foldr insert_sorted [] l.

Lemma insert_sorted_perm x l : insert_sorted x l ≡ₚ x :: l.
Proof.
  induction l as [|y l IH]; simpl; [done|]. destruct (le x y); [done|].
  rewrite IH. by constructor.
Qed.

Lemma isort_perm l : isort l ≡ₚ l.
Proof.
  induction l as [|x l IH]; simpl; [done|]. by rewrite insert_sorted_perm, IH.
Qed.

Hypothesis le_total : ∀ x y, le x y = true ∨ le y x = true.
Hypothesis le_trans : ∀ x y z, le x y = true → le y z = true → le x z = true.

Lemma insert_sorted_sorted x l :
  StronglySorted (λ a b, le a b = true) l →
  StronglySorted (λ a b, le a b = true) (insert_sorted x l).
Proof.
  induction 1 as [|y l Hl IH Hy]; simpl; [by repeat constructor|].
  destruct (le x y) eqn:E.
  - constructor; [by constructor|]. constructor; [done|].
    eapply Forall_impl; [exact Hy|]. eauto.
  - constructor; [done|]. rewrite insert_sorted_perm. constructor; [|done].
    destruct (le_total x y); congruence.
Qed.

Lemma isort_sorted l : StronglySorted (λ a b, le a b = true) (isort l).
Proof.
  induction l; simpl; [constructor|]. by apply insert_sorted_sorted.
Qed.
End Sorting.

Lemma insert_sorted_ext {A} (le le' : A → A → bool) x l :
  (∀ y, y ∈ l → le x y = le' x y) → insert_sorted le x l = insert_sorted le' x l.
Proof.
  induction l as [|y l IH]; intros H; simpl; [done|].
  rewrite (H y) by set_solver. destruct (le' x y); [done|].
  rewrite IH; [done|]. intros; apply H; set_solver.
Qed.

Lemma isort_ext {A} (le le' : A → A → bool) l :
  (∀ x y, x ∈ l → y ∈ l → le x y = le' x y) → isort le l = isort le' l.
Proof.
  induction l as [|x l IH]; intros H; simpl; [done|].
  rewrite IH by (intros; apply H; set_solver). apply insert_sorted_ext.
  intros y. rewrite isort_perm. intros Hy. apply H; set_solver.
Qed.

Lemma StronglySorted_take_drop {A} (R : A → A → Prop) k l x y :
  StronglySorted R l → x ∈ take k l → y ∈ drop k l → R x y.
Proof.
  intros Hs. revert k. induction Hs as [|z l Hs IH Hz]; intros [|k]; simpl;
    [set_solver..|]. intros [->|Hx]%elem_of_cons Hy; [|eauto].
  rewrite Forall_forall in Hz. apply Hz.
  rewrite <-(take_drop k l). apply elem_of_app. by right.
Qed.

Lemma isort_map_perm {A B} (le : A → A → bool) (f : A → B) l : map f (isort le l) ≡ₚ map f l.
Proof. by rewrite isort_perm. Qed.

(** * List inclusion for foreign keys *)

Lemma subset_snoc {A} (l k : list A) x : l ⊆ k → l ⊆ k ++ [x].
Proof. intros H y Hy. apply elem_of_app. auto. Qed.

Lemma snoc_subset {A} (l k : list A) x : l ⊆ k → x ∈ k → l ++ [x] ⊆ k.
Proof.
  intros H Hx y Hy. apply elem_of_app in Hy as [Hy|Hy]; [auto|].
  by apply list_elem_of_singleton in Hy as ->.
Qed.

Lemma elem_of_snoc {A} (l : list A) x y : y ∈ l ++ [x] ↔ y ∈ l ∨ y = x.
Proof. rewrite elem_of_app, list_elem_of_singleton. done. Qed.

Create HintDb fk.
#[global] Hint Resolve subset_snoc snoc_subset : fk.

(** * [List.find] and [List.filter] *)

Lemma find_app {A} (p : A → bool) l k :
  List.find p (l ++ k) = match List.find p l with Some x => Some x | None => List.find p k end.
Proof. induction l as [|x l IH]; simpl; [done|]. by destruct (p x). Qed.

Lemma find_none_filter {A} (p : A → bool) l : List.find p l = None → List.filter p l = [].
Proof. induction l as [|x l IH]; simpl; [done|]. by destruct (p x). Qed.

Lemma elem_of_filter_b {A} (p : A → bool) l x : x ∈ List.filter p l ↔ x ∈ l ∧ p x = true.
Proof. by rewrite !list_elem_of_In, filter_In. Qed.

Lemma find_some_elem {A} (p : A → bool) l x : List.find p l = Some x → x ∈ l ∧ p x = true.
Proof. intros H. apply find_some in H. by rewrite list_elem_of_In. Qed.

Lemma find_none_elem {A} (p : A → bool) l x : List.find p l = None → x ∈ l → p x = false.
Proof. intros H Hx. eapply find_none; [exact H|]. by apply list_elem_of_In. Qed.

Lemma elem_of_map {A B} (f : A → B) l y : y ∈ map f l ↔ ∃ x, y = f x ∧ x ∈ l.
Proof.
  rewrite list_elem_of_In, in_map_iff. setoid_rewrite list_elem_of_In. naive_solver.
Qed.

Lemma existsb_key_fresh {A} (k : A → string) x l :
  existsb (λ r, String.eqb (k r) x) l = false → x ∉ map k l.
Proof.
  intros H (r & -> & Hr)%elem_of_map.
  assert (existsb (λ r', String.eqb (k r') (k r)) l = true); [|congruence].
  apply existsb_exists. exists r. by rewrite <-list_elem_of_In, String.eqb_refl.
Qed.

Lemma existsb_find {A} (p : A → bool) l : existsb p l = true → ∃ x, List.find p l = Some x.
Proof.
  induction l as [|y l IH]; simpl; [done|]. destruct (p y); simpl; eauto.
Qed.

Lemma find_existsb {A} (p : A → bool) l x : List.find p l = Some x → existsb p l = true.
Proof.
  intros [Hx Hp]%find_some. apply existsb_exists. eauto.
Qed.

Lemma existsb_find_none {A} (p : A → bool) l : existsb p l = false → List.find p l = None.
Proof. induction l as [|y l IH]; simpl; [done|]. by destruct (p y). Qed.

(** Looking an element up by its key among the elements selected by [p]. *)
Lemma find_by_key {A K} `{EqDecision K} (key : A → K) (p : A → bool) l b :
  NoDup (map key l) → b ∈ l →
  List.find (λ x, bool_decide (key b = key x)) (rev (List.filter p l)) =
  if p b then Some b else None.
Proof.
  intros Hd Hb. destruct (List.find _ _) as [x|] eqn:E.
  - apply find_some in E as [Hx Hk%bool_decide_eq_true].
    apply in_rev, filter_In in Hx as [Hx Hp].
    assert (x = b) as ->; [|by rewrite Hp].
    apply list_elem_of_In in Hx. clear Hp p.
    induction l as [|y l IH]; [set_solver|]. simpl in Hd. apply NoDup_cons in Hd as [Hy Hd].
    assert (∀ z, z ∈ l → key z ≠ key y) as Hne.
    { intros z Hz Hz'. apply Hy. rewrite <-Hz'. apply elem_of_map. eauto. }
    apply elem_of_cons in Hx as [->|Hx]; apply elem_of_cons in Hb as [->|Hb]; eauto.
    + by destruct (Hne _ Hb).
    + by destruct (Hne _ Hx).
  - destruct (p b) eqn:Hp; [|done].
    pose proof (find_none _ _ E b) as Hn. simpl in Hn.
    rewrite bool_decide_true in Hn by done. discriminate Hn.
    apply in_rev. rewrite rev_involutive. apply filter_In. by rewrite <-list_elem_of_In.
Qed.

Lemma find_map {A} (p : A → bool) (f : A → A) l :
  (∀ x, p (f x) = p x) → List.find p (map f l) = f <$> List.find p l.
Proof. intros H. induction l as [|x l IH]; [done|]. simpl. rewrite H. by destruct (p x). Qed.

(** * The end of a list *)

(** The last [n] elements of a list. *)
Definition lastn {A} (n : nat) (l : list A) : list A := drop (length l - n) l.

Lemma lastn_snoc {A} n (l : list A) x :
  (1 ≤ n)%nat → lastn n (lastn n l ++ [x]) = lastn n (l ++ [x]).
Proof.
  intros Hn. unfold lastn. rewrite !length_app, length_drop. cbn [length].
  destruct (decide (length l ≤ n)%nat).
  - by replace (length l - n)%nat with 0%nat by lia; rewrite drop_0, Nat.sub_0_r.
  - rewrite !drop_app_le by (rewrite ?length_drop; lia). rewrite drop_drop. f_equal. f_equal. lia.
Qed.

Lemma elem_of_drop_inv {A} n (x : A) l : x ∈ drop n l → x ∈ l.
Proof. rewrite <-(take_drop n l) at 2. set_solver. Qed.
