(* ===== verification/Text.v ===== *)
(** Strings as the Rust code uses them: byte strings with the lexicographic
    order of [str::cmp], decimal printing and parsing of machine integers,
    splitting on separators, and the SQL [LIKE] operator. *)
From Stdlib Require Import ZArith Lia String Ascii.
From stdpp Require Import base option list numbers strings sets gmap.
From S2P Require Import Prelude.
#[local] Open Scope string_scope.
#[local] Open Scope Z_scope.

(** * Order *)

Lemma ascii_compare_trans a b c :
  Ascii.compare a b = Lt → Ascii.compare b c = Lt → Ascii.compare a c = Lt.
Proof. unfold Ascii.compare. rewrite !N.compare_lt_iff. lia. Qed.

Lemma string_compare_refl s : String.compare s s = Eq.
Proof.
  induction s as [|c s IH]; [done|]. simpl.
  unfold Ascii.compare. by rewrite N.compare_refl.
Qed.

Lemma string_compare_lt_trans s t u :
  String.compare s t = Lt → String.compare t u = Lt → String.compare s u = Lt.
Proof.
  revert t u; induction s as [|a s IH]; intros [|b t] [|c u]; simpl; try done.
  destruct (Ascii.compare a b) eqn:E1, (Ascii.compare b c) eqn:E2; intros H1 H2;
    try done; try apply Ascii.compare_eq_iff in E1; try apply Ascii.compare_eq_iff in E2;
    subst; rewrite ?E1, ?E2; try done.
  - unfold Ascii.compare. rewrite N.compare_refl. eauto.
  - by rewrite (ascii_compare_trans _ _ _ E1 E2).
Qed.

(** [str::cmp] as the boolean "not greater". *)
Definition str_leb (s t : string) : bool := String.leb s t.
Definition str_ltb (s t : string) : bool := String.ltb s t.

Lemma str_leb_total s t : str_leb s t = true ∨ str_leb t s = true.
Proof. apply String.leb_total. Qed.

Lemma str_leb_spec s t : str_leb s t = true ↔ str_ltb s t = true ∨ s = t.
Proof.
  unfold str_leb, str_ltb, String.leb, String.ltb.
  destruct (String.compare s t) eqn:E; split; try done; auto.
  - intros _. right. by apply String.compare_eq_iff.
  - intros [| ->]; [done|]. by rewrite string_compare_refl in E.
Qed.

Lemma str_ltb_trans s t u : str_ltb s t = true → str_ltb t u = true → str_ltb s u = true.
Proof.
  unfold str_ltb, String.ltb.
  destruct (String.compare s t) eqn:E1, (String.compare t u) eqn:E2; try done.
  by rewrite (string_compare_lt_trans _ _ _ E1 E2).
Qed.

Lemma str_ltb_irrefl s : str_ltb s s = false.
Proof. unfold str_ltb, String.ltb. by rewrite string_compare_refl. Qed.

Lemma str_leb_trans s t u : str_leb s t = true → str_leb t u = true → str_leb s u = true.
Proof.
  rewrite !str_leb_spec. intros [H1| ->] [H2| ->]; eauto using str_ltb_trans.
Qed.

Lemma str_leb_ltb s t : str_leb s t = negb (str_ltb t s).
Proof.
  unfold str_leb, str_ltb, String.leb, String.ltb.
  rewrite String.compare_antisym. by destruct (String.compare t s).
Qed.

Lemma str_ltb_ne s t : str_ltb s t = true → s ≠ t.
Proof. intros H ->. by rewrite str_ltb_irrefl in H. Qed.

(** * Concatenation *)

Lemma string_app_assoc (s t u : string) : (s ++ t ++ u = (s ++ t) ++ u)%string.
Proof. induction s; simpl; congruence. Qed.

Lemma string_length_app (s t : string) :
  String.length (s ++ t) = (String.length s + String.length t)%nat.
Proof. induction s; simpl; congruence. Qed.

Lemma string_app_inv_head (s t u : string) : (s ++ t = s ++ u)%string → t = u.
Proof. induction s; simpl; [done|]. intros [=]. auto. Qed.

Fixpoint str_all (P : ascii → bool) (s : string) : bool :=
  match s with
  | EmptyString => true
  | String c s' => P c && str_all P s'
  end.

Lemma str_all_app P s t : str_all P (s ++ t)%string = str_all P s && str_all P t.
Proof. induction s; simpl; [done|]. by rewrite IHs, andb_assoc. Qed.

Definition str_has (c : ascii) (s : string) : bool :=
  negb (str_all (λ d, negb (Ascii.eqb c d)) s).

(** Two strings that are split at their first separator in two ways are
    split in the same way. *)
Lemma split_at_sep (c : ascii) (a b a' b' : string) :
  str_has c a = false → str_has c a' = false →
  (a ++ String c b = a' ++ String c b')%string → a = a' ∧ b = b'.
Proof.
  unfold str_has. rewrite !negb_false_iff.
  revert a'; induction a as [|x a IH]; intros [|y a']; simpl; intros Ha Ha' Heq.
  - by simplify_eq.
  - simplify_eq. by rewrite Ascii.eqb_refl in Ha'.
  - simplify_eq. by rewrite Ascii.eqb_refl in Ha.
  - apply andb_true_iff in Ha as [_ Ha]. apply andb_true_iff in Ha' as [_ Ha'].
    simplify_eq. by destruct (IH a' Ha Ha') as [-> ->].
Qed.

(** [str::strip_prefix] *)
Fixpoint strip_prefix (p s : string) : option string :=
  match p, s with
  | EmptyString, _ => Some s
  | String c p', String d s' => if Ascii.eqb c d then strip_prefix p' s' else None
  | String _ _, EmptyString => None
  end.

Definition starts_with (p s : string) : bool :=
  match strip_prefix p s with Some _ => true | None => false end.

Lemma strip_prefix_app p s : strip_prefix p (p ++ s)%string = Some s.
Proof. induction p; simpl; [done|]. by rewrite Ascii.eqb_refl. Qed.

Lemma strip_prefix_Some p s t : strip_prefix p s = Some t ↔ s = (p ++ t)%string.
Proof.
  split; [|intros ->; apply strip_prefix_app].
  revert s; induction p as [|c p IH]; intros [|d s]; simpl; try naive_solver.
  destruct (Ascii.eqb_spec c d) as [->|]; [|done]. intros ?. f_equal; auto.
Qed.

(** [s.rfind(c)] followed by the two slices around it: the text before and
    after the last occurrence of [c]. *)
Fixpoint rsplit_at (c : ascii) (s : string) : option (string * string) :=
  match s with
  | EmptyString => None
  | String d s' =>
      match rsplit_at c s' with
      | Some (l, r) => Some (String d l, r)
      | None => if Ascii.eqb d c then Some (EmptyString, s') else None
      end
  end.

Lemma rsplit_at_none c s : str_has c s = false → rsplit_at c s = None.
Proof.
  unfold str_has. rewrite negb_false_iff.
  induction s as [|d s IH]; simpl; [done|]. rewrite andb_true_iff. intros [Hd Hs].
  rewrite (IH Hs). destruct (Ascii.eqb_spec d c) as [->|]; [|done].
  by rewrite Ascii.eqb_refl in Hd.
Qed.

Lemma rsplit_at_app c s t :
  str_has c t = false → rsplit_at c (s ++ String c t)%string = Some (s, t).
Proof.
  intros Ht. induction s as [|d s IH]; simpl.
  - by rewrite (rsplit_at_none _ _ Ht), Ascii.eqb_refl.
  - by rewrite IH.
Qed.

Lemma rsplit_at_Some c s l r : rsplit_at c s = Some (l, r) → s = (l ++ String c r)%string.
Proof.
  revert l r. induction s as [|d s IH]; intros l r; simpl; [done|].
  destruct (rsplit_at c s) as [[l' r']|].
  - intros [= <- <-]. simpl. f_equal. by apply IH.
  - destruct (Ascii.eqb_spec d c) as [->|]; intros [= <- <-]. done.
Qed.

(** [s.splitn(2, c)]: the text before the first [c], and the rest if there
    is a [c]. *)
Fixpoint split_once (c : ascii) (s : string) : string * option string :=
  match s with
  | EmptyString => (EmptyString, None)
  | String d s' =>
      if Ascii.eqb d c then (EmptyString, Some s')
      else let '(l, r) := split_once c s' in (String d l, r)
  end.

Lemma split_once_spec c s :
  match split_once c s with
  | (l, Some r) => s = (l ++ String c r)%string ∧ str_has c l = false
  | (l, None) => s = l ∧ str_has c s = false
  end.
Proof.
  unfold str_has. induction s as [|d s IH]; simpl; [done|].
  destruct (Ascii.eqb_spec d c) as [->|Hne]; [done|].
  destruct (split_once c s) as [l [r|]]; simpl.
  - destruct IH as [-> IH]. split; [done|].
    destruct (Ascii.eqb_spec c d); [congruence|done].
  - destruct IH as [-> IH]. split; [done|].
    destruct (Ascii.eqb_spec c d); [congruence|done].
Qed.

(** * Decimal integers *)

Definition digit_char (d : Z) : ascii := ascii_of_N (Z.to_N (48 + d)).

Definition char_digit (c : ascii) : option Z :=
  let n := Z.of_N (N_of_ascii c) in
  if (48 <=? n) && (n <=? 57) then Some (n - 48) else None.

Lemma char_digit_char d : 0 ≤ d < 10 → char_digit (digit_char d) = Some d.
Proof.
  intros. unfold char_digit, digit_char. rewrite N_ascii_embedding by lia.
  rewrite Z2N.id by lia.
  rewrite (proj2 (Z.leb_le _ _)), (proj2 (Z.leb_le _ _)) by lia.
  simpl. f_equal. lia.
Qed.

(** [Display] of an unsigned integer, most significant digit first. The fuel
    is the number of bits: every step divides by ten. *)
Fixpoint show_digits (fuel : nat) (n : Z) (acc : string) : string :=
  match fuel with
  | O => acc
  | S fuel' =>
      let acc' := String (digit_char (n `mod` 10)) acc in
      if n <? 10 then acc' else show_digits fuel' (n `div` 10) acc'
  end.

Definition show_fuel (n : Z) : nat := S (Z.to_nat (Z.log2 n)).

Definition show_u (n : Z) : string := show_digits (show_fuel n) n EmptyString.

(** [Display] of a signed integer. *)
Definition show_i (n : Z) : string :=
  if n <? 0 then String "-" (show_u (- n)) else show_u n.

(** [str::parse::<uN>]: an optional [+], at least one digit, checked against
    the largest value of the type. *)
Fixpoint parse_digits (max : Z) (s : string) (acc : Z) : option Z :=
  match s with
  | EmptyString => Some acc
  | String c s' =>
      match char_digit c with
      | None => None
      | Some d =>
          let acc' := acc * 10 + d in
          if max <? acc' then None else parse_digits max s' acc'
      end
  end.

Definition parse_u (max : Z) (s : string) : option Z :=
  match s with
  | EmptyString => None
  | String "+" EmptyString => None
  | String "+" s' => parse_digits max s' 0
  | _ => parse_digits max s 0
  end.

Definition parse_u64 : string → option Z := parse_u u64_max.

(** [str::parse::<i64>]: a sign and at least one digit. *)
Definition parse_i64 (s : string) : option Z :=
  match s with
  | String "-" EmptyString => None
  | String "-" s' => Z.opp <$> parse_digits (- i64_min) s' 0
  | _ => parse_u i64_max s
  end.

(** Enough fuel: ten to the fuel exceeds the number. *)
Lemma show_fuel_enough n : 0 ≤ n → n < 10 ^ Z.of_nat (show_fuel n).
Proof.
  intros. unfold show_fuel. destruct (decide (n = 0)) as [->|]; [done|].
  pose proof (Z.log2_spec n ltac:(lia)) as [_ Hn].
  pose proof (Z.log2_nonneg n).
  replace (Z.of_nat (S (Z.to_nat (Z.log2 n)))) with (Z.succ (Z.log2 n)) by lia.
  eapply Z.lt_le_trans; [exact Hn|]. apply Z.pow_le_mono_l. lia.
Qed.

Lemma parse_show_digits max fuel n t :
  0 ≤ n ≤ max → n < 10 ^ Z.of_nat fuel → (0 < fuel)%nat →
  parse_digits max (show_digits fuel n t) 0 = parse_digits max t n.
Proof.
  revert n t; induction fuel as [|fuel IH]; intros n t Hn Hf Hpos; [lia|].
  pose proof (Z.mod_pos_bound n 10 ltac:(lia)) as Hm.
  simpl show_digits. destruct (Z.ltb_spec n 10).
  - rewrite Z.mod_small by lia. simpl.
    rewrite char_digit_char, (proj2 (Z.ltb_ge _ _)) by lia. done.
  - rewrite Nat2Z.inj_succ, Z.pow_succ_r in Hf by lia.
    rewrite IH; [| |apply Z.div_lt_upper_bound; lia|].
    + simpl. rewrite char_digit_char by lia.
      replace (n `div` 10 * 10 + n `mod` 10) with n by (rewrite (Z.div_mod n 10) at 1; lia).
      by rewrite (proj2 (Z.ltb_ge _ _)) by lia.
    + split; [apply Z.div_pos; lia|]. transitivity n; [|lia]. apply Z.div_le_upper_bound; lia.
    + destruct fuel; [|lia]. simpl in Hf. lia.
Qed.

Definition is_digit (c : ascii) : bool :=
  match char_digit c with Some _ => true | None => false end.

Lemma show_digits_digits fuel n t :
  str_all is_digit t = true → 0 ≤ n → str_all is_digit (show_digits fuel n t) = true.
Proof.
  revert n t; induction fuel as [|fuel IH]; intros n t Ht Hn; [done|]. simpl.
  pose proof (Z.mod_pos_bound n 10 ltac:(lia)).
  assert (str_all is_digit (String (digit_char (n `mod` 10)) t) = true).
  { simpl. unfold is_digit at 1. by rewrite char_digit_char, Ht by lia. }
  destruct (n <? 10); [done|]. apply IH; [done|]. apply Z.div_pos; lia.
Qed.

Lemma show_u_digits n : 0 ≤ n → str_all is_digit (show_u n) = true.
Proof. intros. by apply show_digits_digits. Qed.

Lemma show_digits_nonempty fuel n t :
  (0 < fuel)%nat ∨ t ≠ EmptyString → show_digits fuel n t ≠ EmptyString.
Proof.
  revert n t; induction fuel as [|fuel IH]; intros n t H; simpl; [intuition lia|].
  destruct (n <? 10); [done|]. apply IH. by right.
Qed.

(** Printing and parsing an unsigned integer is the identity. *)
Lemma parse_show_u max n : 0 ≤ n ≤ max → parse_u max (show_u n) = Some n.
Proof.
  intros Hn.
  assert (parse_u max (show_u n) = parse_digits max (show_u n) 0) as ->.
  { pose proof (show_u_digits n ltac:(lia)) as Hd.
    pose proof (show_digits_nonempty (show_fuel n) n EmptyString
      ltac:(left; unfold show_fuel; lia)) as Hne.
    unfold show_u in *. destruct (show_digits _ n _) as [|c s]; [done|].
    simpl in Hd. unfold parse_u. apply andb_true_iff in Hd as [Hc _].
    destruct (decide (c = "+"%char)) as [->|Hc']; [done|].
    repeat case_match; simplify_eq; done. }
  unfold show_u. rewrite parse_show_digits; [done|lia| |unfold show_fuel; lia].
  by apply show_fuel_enough; lia.
Qed.

Lemma show_u_inj n m : 0 ≤ n → 0 ≤ m → show_u n = show_u m → n = m.
Proof.
  intros Hn Hm H.
  pose proof (parse_show_u (Z.max n m) n ltac:(lia)) as E1.
  pose proof (parse_show_u (Z.max n m) m ltac:(lia)) as E2.
  rewrite H in E1. congruence.
Qed.

Lemma digits_no_char c s : is_digit c = false → str_all is_digit s = true → str_has c s = false.
Proof.
  unfold str_has. rewrite negb_false_iff. intros Hc.
  induction s as [|d s IH]; simpl; [done|]. rewrite !andb_true_iff. intros [Hd Hs].
  split; [|auto]. destruct (Ascii.eqb_spec c d); [congruence|done].
Qed.

Lemma show_u_no_char c n : 0 ≤ n → is_digit c = false → str_has c (show_u n) = false.
Proof. eauto using digits_no_char, show_u_digits. Qed.

Lemma show_i_no_char c n :
  is_digit c = false → c ≠ "-"%char → str_has c (show_i n) = false.
Proof.
  intros Hc Hne. unfold show_i. destruct (Z.ltb_spec n 0); [|by apply show_u_no_char].
  pose proof (show_u_no_char c (- n) ltac:(lia) Hc) as Hs. unfold str_has in *. simpl.
  destruct (Ascii.eqb_spec c "-"); done.
Qed.

Lemma show_i_inj n m : show_i n = show_i m → n = m.
Proof.
  unfold show_i. destruct (Z.ltb_spec n 0), (Z.ltb_spec m 0); intros Heq.
  - simplify_eq. apply show_u_inj in Heq; lia.
  - pose proof (show_u_no_char "-" m ltac:(lia) eq_refl) as Hs. by rewrite <-Heq in Hs.
  - pose proof (show_u_no_char "-" n ltac:(lia) eq_refl) as Hs. by rewrite Heq in Hs.
  - by apply show_u_inj in Heq.
Qed.

(** * SQL [LIKE]

    [%] matches any text, [_] one character, other characters match without
    regard to ASCII case. *)

Definition ascii_lower (c : ascii) : ascii :=
  let n := N_of_ascii c in
  if ((65 <=? n) && (n <=? 90))%N then ascii_of_N (n + 32) else c.

Fixpoint sql_like (p s : string) : bool :=
  match p with
  | EmptyString => String.eqb s EmptyString
  | String c p' =>
      if Ascii.eqb c "%"
      then (fix any (s : string) : bool :=
              sql_like p' s || match s with EmptyString => false | String _ s' => any s' end) s
      else match s with
           | EmptyString => false
           | String d s' =>
               (Ascii.eqb c "_" || Ascii.eqb (ascii_lower c) (ascii_lower d)) && sql_like p' s'
           end
  end.

(** [sql_like] finds every text that starts with the given one. *)
Lemma sql_like_prefix h t : sql_like (h ++ "%")%string (h ++ t)%string = true.
Proof.
  induction h as [|c h IH]; simpl.
  - induction t as [|d t IHt]; [done|]. rewrite IHt. apply orb_true_r.
  - destruct (Ascii.eqb_spec c "%") as [->|].
    + rewrite orb_true_iff. right. destruct (h ++ t)%string; by rewrite IH.
    + by rewrite IH, Ascii.eqb_refl, orb_true_r.
Qed.
