(* ===== verification/Float64.v ===== *)
(** [f64] as IEEE 754 binary64 values, with the operations of the Rust code:
    the arithmetic is the executable specification of the standard library
    ([SpecFloat] at 53 bits of precision), which rounds to nearest even; the
    casts, [floor], [min], [max] and [clamp] are written out. The file proves
    that comparison is a total preorder away from NaN, which is what every
    theorem about difficulties relies on. *)
From Stdlib Require Import ZArith Lia Floats.SpecFloat.
From stdpp Require Import base option list numbers sets.
From S2P Require Import Prelude.
#[local] Open Scope Z_scope.

Definition f64 : Type := spec_float.

Definition f64_prec : Z := 53.
Definition f64_emax : Z := 1024.

Definition f64_add : f64 → f64 → f64 := SFadd f64_prec f64_emax.
Definition f64_sub : f64 → f64 → f64 := SFsub f64_prec f64_emax.
Definition f64_mul : f64 → f64 → f64 := SFmul f64_prec f64_emax.
Definition f64_div : f64 → f64 → f64 := SFdiv f64_prec f64_emax.
Definition f64_abs : f64 → f64 := SFabs.

Definition f64_lt : f64 → f64 → bool := SFltb.
Definition f64_le : f64 → f64 → bool := SFleb.
Definition f64_gt (x y : f64) : bool := f64_lt y x.
Definition f64_ge (x y : f64) : bool := f64_le y x.
Definition f64_partial_cmp : f64 → f64 → option comparison := SFcompare.

Definition f64_nan (x : f64) : bool := match x with S754_nan => true | _ => false end.

Definition f64_zero : f64 := S754_zero false.

(** [z as f64] for an integer [z]. *)
Definition f64_of_Z (z : Z) : f64 := binary_normalize f64_prec f64_emax z 0 false.

(** The decimal literal [n / d], for [n] and [d] below [2^53]: both are exact,
    so the quotient is rounded once, as the literal is. *)
Definition f64_lit (n d : Z) : f64 := f64_div (f64_of_Z n) (f64_of_Z d).

Definition f64_epsilon : f64 := f64_lit 1 (2 ^ 52).

(** [f64::floor] *)
Definition f64_floor (x : f64) : f64 :=
  match x with
  | S754_finite s m e =>
      if 0 <=? e then x
      else f64_of_Z ((if s then Z.neg m else Z.pos m) `div` 2 ^ (- e))
  | _ => x
  end.

(** The value of a finite float, truncated toward zero. *)
Definition f64_trunc (x : f64) : Z :=
  match x with
  | S754_finite s m e =>
      let a := if 0 <=? e then Z.pos m * 2 ^ e else Z.pos m `div` 2 ^ (- e) in
      if s then - a else a
  | _ => 0
  end.

(** [x as iN], [x as uN]: saturating, NaN becomes zero. *)
Definition f64_as_int (lo hi : Z) (x : f64) : Z :=
  match x with
  | S754_nan => 0
  | S754_infinity true => lo
  | S754_infinity false => hi
  | _ => Z.max lo (Z.min hi (f64_trunc x))
  end.

Definition f64_as_i64 : f64 → Z := f64_as_int i64_min i64_max.
Definition f64_as_u64 : f64 → Z := f64_as_int 0 u64_max.

Definition f64_min (x y : f64) : f64 :=
  if f64_nan x then y else if f64_nan y then x else if f64_lt x y then x else y.

Definition f64_max (x y : f64) : f64 :=
  if f64_nan x then y else if f64_nan y then x else if f64_lt x y then y else x.

(** [x.clamp(lo, hi)] panics unless [lo <= hi]. *)
Definition f64_clamp (x lo hi : f64) : result f64 :=
  if f64_le lo hi then
    Ok (let x := if f64_lt x lo then lo else x in if f64_gt x hi then hi else x)
  else Panic.

(** [Iterator::sum] *)
Definition f64_sum (l : list f64) : f64 := fold_left f64_add l f64_zero.

(** * Durations and instants, in nanoseconds *)

Definition ns_per_sec : Z := 1000000000.

Definition round_half_even (n d : Z) : Z :=
  let q := n `div` d in
  let r := n `mod` d in
  match 2 * r ?= d with
  | Lt => q
  | Gt => q + 1
  | Eq => if Z.even q then q else q + 1
  end.

(** [Duration::from_secs_f64]: exact, rounded to the nearest nanosecond;
    panics when the value is negative, NaN or does not fit. *)
Definition duration_from_secs_f64 (x : f64) : result Z :=
  match x with
  | S754_zero _ => Ok 0
  | S754_finite false m e =>
      let ns := if 0 <=? e then Z.pos m * 2 ^ e * ns_per_sec
                else round_half_even (Z.pos m * ns_per_sec) (2 ^ (- e)) in
      if ns <? 2 ^ 64 * ns_per_sec then Ok ns else Panic
  | _ => Panic
  end.

(** [Duration::as_secs_f64] *)
Definition duration_as_secs_f64 (ns : Z) : f64 :=
  f64_add (f64_of_Z (ns `div` ns_per_sec))
    (f64_div (f64_of_Z (ns `mod` ns_per_sec)) (f64_of_Z ns_per_sec)).

(** [Instant::duration_since]: zero when the other instant is later. *)
Definition duration_since (now earlier : Z) : Z := Z.max 0 (now - earlier).

(** * Comparison is a total preorder away from NaN *)

(** A float that is not NaN is placed by its class, then by exponent and
    mantissa, reversed for negative numbers. *)
Definition f64_key (x : f64) : Z * Z * Z :=
  match x with
  | S754_infinity true => (-2, 0, 0)
  | S754_finite true m e => (-1, - e, Z.neg m)
  | S754_zero _ => (0, 0, 0)
  | S754_finite false m e => (1, e, Z.pos m)
  | S754_infinity false => (2, 0, 0)
  | S754_nan => (3, 0, 0)
  end.

Definition key_cmp (k l : Z * Z * Z) : comparison :=
  let '(a, b, c) := k in
  let '(a', b', c') := l in
  match a ?= a' with
  | Eq => match b ?= b' with Eq => c ?= c' | o => o end
  | o => o
  end.

Lemma f64_compare_key x y :
  f64_nan x = false → f64_nan y = false →
  f64_partial_cmp x y = Some (key_cmp (f64_key x) (f64_key y)).
Proof.
  destruct x as [sx|[]| |[] mx ex], y as [sy|[]| |[] my ey];
    intros Hx Hy; try discriminate; try reflexivity.
  - simpl. f_equal. rewrite Z.compare_opp, (Z.compare_antisym ex ey).
    by destruct (ex ?= ey).
Qed.

Ltac zcmp :=
  repeat match goal with
  | H : context [?a ?= ?b] |- _ => destruct (Z.compare_spec a b)
  | |- context [?a ?= ?b] => destruct (Z.compare_spec a b)
  end; subst; try done; try lia.

Lemma key_cmp_antisym k l : key_cmp k l = CompOpp (key_cmp l k).
Proof. destruct k as [[a b] c], l as [[a' b'] c']. simpl. zcmp. Qed.

Lemma key_cmp_le_trans k l m :
  key_cmp k l ≠ Gt → key_cmp l m ≠ Gt → key_cmp k m ≠ Gt.
Proof.
  destruct k as [[a b] c], l as [[a' b'] c'], m as [[a'' b''] c'']. simpl. zcmp.
Qed.

Lemma f64_le_key x y :
  f64_le x y = true ↔
  f64_nan x = false ∧ f64_nan y = false ∧ key_cmp (f64_key x) (f64_key y) ≠ Gt.
Proof.
  unfold f64_le, SFleb. change SFcompare with f64_partial_cmp.
  destruct (f64_nan x) eqn:Hx; [by destruct x; split; try done; intros (?&?&?)|].
  destruct (f64_nan y) eqn:Hy; [by destruct x, y; split; try done; intros (?&?&?)|].
  rewrite f64_compare_key by done.
  destruct (key_cmp _ _); split; try done; intros (_ & _ & ?); done.
Qed.

Lemma f64_lt_key x y :
  f64_lt x y = true ↔
  f64_nan x = false ∧ f64_nan y = false ∧ key_cmp (f64_key x) (f64_key y) = Lt.
Proof.
  unfold f64_lt, SFltb. change SFcompare with f64_partial_cmp.
  destruct (f64_nan x) eqn:Hx; [by destruct x; split; try done; intros (?&?&?)|].
  destruct (f64_nan y) eqn:Hy; [by destruct x, y; split; try done; intros (?&?&?)|].
  rewrite f64_compare_key by done.
  destruct (key_cmp _ _); split; try done; intros (_ & _ & ?); done.
Qed.

Lemma f64_le_trans x y z : f64_le x y = true → f64_le y z = true → f64_le x z = true.
Proof.
  rewrite !f64_le_key. intros (? & ? & ?) (? & ? & ?).
  split_and!; eauto using key_cmp_le_trans.
Qed.

Lemma f64_le_refl x : f64_nan x = false → f64_le x x = true.
Proof.
  intros. rewrite f64_le_key. split_and!; try done.
  pose proof (key_cmp_antisym (f64_key x) (f64_key x)). by destruct (key_cmp _ _).
Qed.

Lemma f64_lt_le_total x y :
  f64_nan x = false → f64_nan y = false → f64_lt x y = negb (f64_le y x).
Proof.
  intros Hx Hy. apply eq_true_iff_eq. rewrite negb_true_iff, <-not_true_iff_false.
  rewrite f64_lt_key, f64_le_key, (key_cmp_antisym (f64_key y)).
  destruct (key_cmp (f64_key x) (f64_key y)); simpl; intuition congruence.
Qed.

Lemma f64_le_total x y :
  f64_nan x = false → f64_nan y = false → f64_le x y = true ∨ f64_le y x = true.
Proof.
  intros Hx Hy. rewrite !f64_le_key, (key_cmp_antisym (f64_key y)).
  destruct (key_cmp (f64_key x) (f64_key y)); simpl; intuition congruence.
Qed.

Lemma f64_lt_le x y : f64_lt x y = true → f64_le x y = true.
Proof. rewrite f64_lt_key, f64_le_key. intros (? & ? & ->). done. Qed.

Lemma f64_le_not_nan x y : f64_le x y = true → f64_nan x = false ∧ f64_nan y = false.
Proof. rewrite f64_le_key. tauto. Qed.

Lemma f64_lt_not_nan x y : f64_lt x y = true → f64_nan x = false ∧ f64_nan y = false.
Proof. rewrite f64_lt_key. tauto. Qed.

Lemma f64_lt_irrefl x : f64_lt x x = false.
Proof.
  destruct (f64_nan x) eqn:E; [by destruct x|]. rewrite f64_lt_le_total by done.
  by rewrite f64_le_refl.
Qed.

(** [clamp] returns a value of the interval, the argument itself when it is
    in it, and panics exactly when the interval is empty. *)
Lemma f64_clamp_range x lo hi y :
  f64_nan x = false → f64_clamp x lo hi = Ok y →
  f64_le lo y = true ∧ f64_le y hi = true.
Proof.
  intros Hx. unfold f64_clamp, f64_gt. destruct (f64_le lo hi) eqn:E; [|done].
  destruct (f64_le_not_nan _ _ E) as [Hlo Hhi]. intros [= <-].
  destruct (f64_lt x lo) eqn:E1.
  - rewrite (f64_lt_le_total hi lo), E by done. simpl. auto using f64_le_refl.
  - rewrite f64_lt_le_total, negb_false_iff in E1 by done.
    destruct (f64_lt hi x) eqn:E2; [auto using f64_le_refl|].
    rewrite f64_lt_le_total, negb_false_iff in E2 by done. done.
Qed.

Lemma f64_clamp_id x lo hi :
  f64_le lo x = true → f64_le x hi = true → f64_clamp x lo hi = Ok x.
Proof.
  intros H1 H2. destruct (f64_le_not_nan _ _ H1) as [? ?].
  destruct (f64_le_not_nan _ _ H2) as [? ?].
  unfold f64_clamp, f64_gt. rewrite (f64_le_trans _ _ _ H1 H2).
  rewrite (f64_lt_le_total x lo), H1 by done. simpl.
  by rewrite (f64_lt_le_total hi x), H2 by done.
Qed.

Lemma f64_clamp_panic x lo hi : f64_clamp x lo hi = Panic ↔ f64_le lo hi = false.
Proof. unfold f64_clamp. by destruct (f64_le lo hi). Qed.

Create HintDb f64.
#[global] Hint Resolve f64_le_refl f64_lt_le : f64.

(** Concrete values used by the witnesses of the components. *)
Example f64_one_plus_two : f64_add (f64_of_Z 1) (f64_of_Z 2) = f64_of_Z 3.
Proof. reflexivity. Qed.

Example f64_floor_neg : f64_floor (f64_lit (-5) 2) = f64_of_Z (-3).
Proof. reflexivity. Qed.

(** * Products of finite floats are not NaN *)

Definition f64_finite (x : f64) : bool :=
  match x with S754_zero _ | S754_finite _ _ _ => true | _ => false end.

Lemma shr_1_nonneg r : 0 ≤ shr_m r → 0 ≤ shr_m (shr_1 r).
Proof. destruct r as [[|[]|[]] ? ?]; simpl; lia. Qed.

Lemma iter_pos_shr_nonneg p r : 0 ≤ shr_m r → 0 ≤ shr_m (SpecFloat.iter_pos shr_1 p r).
Proof.
  revert r; induction p as [p IH|p IH|]; intros r Hr; simpl;
    auto using shr_1_nonneg.
Qed.

Lemma shr_fexp_nonneg m e l : 0 ≤ m → 0 ≤ shr_m (shr_fexp f64_prec f64_emax m e l).1.
Proof.
  intros Hm. unfold shr_fexp, shr.
  assert (0 ≤ shr_m (shr_record_of_loc m l)) by by destruct l as [|[]].
  case_match; simpl; auto using iter_pos_shr_nonneg.
Qed.

Lemma round_nearest_even_nonneg m l : 0 ≤ m → 0 ≤ round_nearest_even m l.
Proof. intros. destruct l as [|[]]; simpl; try lia. destruct (Z.even m); lia. Qed.

Lemma binary_round_aux_not_nan s m e l :
  0 ≤ m → f64_nan (binary_round_aux f64_prec f64_emax s m e l) = false.
Proof.
  intros Hm. unfold binary_round_aux.
  pose proof (shr_fexp_nonneg m e l Hm) as H1.
  destruct (shr_fexp _ _ m e l) as [r e']. simpl in H1.
  pose proof (shr_fexp_nonneg _ e' loc_Exact
    (round_nearest_even_nonneg _ (loc_of_shr_record r) H1)) as H2.
  destruct (shr_fexp _ _ _ e' loc_Exact) as [r' e'']. simpl in H2.
  destruct (shr_m r'); [done| |lia]. by destruct (_ <=? _).
Qed.

Lemma f64_mul_not_nan x y :
  f64_nan x = false → match y with S754_finite _ _ _ => True | _ => False end →
  f64_nan (f64_mul x y) = false.
Proof.
  destruct x, y; try done. intros _ _. by apply binary_round_aux_not_nan.
Qed.

Lemma f64_mul_finite_not_nan x y :
  f64_finite x = true → f64_finite y = true → f64_nan (f64_mul x y) = false.
Proof.
  destruct x, y; try done. intros _ _. by apply binary_round_aux_not_nan.
Qed.

Lemma binary_normalize_not_nan m e s :
  f64_nan (binary_normalize f64_prec f64_emax m e s) = false.
Proof.
  destruct m as [|m|m]; [done|..]; unfold binary_normalize, binary_round;
    destruct (shl_align _ _ _) as [mz ez]; by apply binary_round_aux_not_nan.
Qed.

Lemma f64_sub_finite_not_nan x y :
  f64_finite x = true → f64_finite y = true → f64_nan (f64_sub x y) = false.
Proof.
  destruct x as [[]| | |], y as [[]| | |]; try done.
  intros _ _. apply binary_normalize_not_nan.
Qed.

(** A float strictly between two finite bounds of the same sign is finite and
    not zero. *)
Lemma f64_between_pos lo hi x :
  (∃ m e, lo = S754_finite false m e) → (∃ m e, hi = S754_finite false m e) →
  f64_le lo x = true → f64_le x hi = true →
  match x with S754_finite _ _ _ => True | _ => False end.
Proof. intros (? & ? & ->) (? & ? & ->). by destruct x as [|[]| |]. Qed.

(** * Signs

    A float that is not negative: NaN counts, because the operations below can
    produce it. *)

Definition f64_not_neg (x : f64) : bool :=
  match x with S754_infinity true | S754_finite true _ _ => false | _ => true end.

Lemma binary_round_aux_not_neg m e l :
  0 ≤ m → f64_not_neg (binary_round_aux f64_prec f64_emax false m e l) = true.
Proof.
  intros Hm. unfold binary_round_aux.
  destruct (shr_fexp _ _ m e l) as [r e'].
  destruct (shr_fexp _ _ _ e' loc_Exact) as [r' e'']. simpl.
  destruct (shr_m r'); [done| |done]. by destruct (_ <=? _).
Qed.

Lemma binary_normalize_not_neg m e s :
  0 ≤ m → f64_not_neg (binary_normalize f64_prec f64_emax m e s) = true.
Proof.
  intros Hm. destruct m as [|m|m]; [done| |lia].
  unfold binary_normalize, binary_round. destruct (shl_align _ _ _) as [mz ez].
  by apply binary_round_aux_not_neg.
Qed.

Lemma f64_of_Z_not_neg z : 0 ≤ z → f64_not_neg (f64_of_Z z) = true.
Proof. apply binary_normalize_not_neg. Qed.

Lemma f64_add_not_neg x y :
  f64_not_neg x = true → f64_not_neg y = true → f64_not_neg (f64_add x y) = true.
Proof.
  destruct x as [[]|[]| |[]], y as [[]|[]| |[]]; try done. intros _ _.
  apply binary_normalize_not_neg. simpl. lia.
Qed.

Lemma f64_mul_not_neg x y :
  f64_not_neg x = true → f64_not_neg y = true → f64_not_neg (f64_mul x y) = true.
Proof.
  destruct x as [[]|[]| |[]], y as [[]|[]| |[]]; try done. intros _ _.
  by apply binary_round_aux_not_neg.
Qed.

Lemma div_core_nonneg m1 e1 m2 e2 :
  0 ≤ (SFdiv_core_binary f64_prec f64_emax (Z.pos m1) e1 (Z.pos m2) e2).1.1.
Proof.
  unfold SFdiv_core_binary.
  set (m' := match _ with Z0 => Z.pos m1 | _ => _ end).
  assert (0 ≤ m').
  { subst m'. case_match; try lia. apply Z.shiftl_nonneg. lia. }
  pose proof (Z.div_pos m' (Z.pos m2) ltac:(lia) ltac:(lia)) as Hq.
  unfold Z.div in Hq. by destruct (Z.div_eucl m' (Z.pos m2)) as [q r].
Qed.

(** A divisor without a minus sign, a negative zero excluded. *)
Definition f64_plus (x : f64) : bool :=
  match x with S754_zero true | S754_infinity true | S754_finite true _ _ => false | _ => true end.

Lemma f64_div_not_neg x y :
  f64_not_neg x = true → f64_plus y = true → f64_not_neg (f64_div x y) = true.
Proof.
  destruct x as [[]|[]| |[] m1 e1], y as [[]|[]| |[] m2 e2]; try done. intros _ _.
  unfold f64_div, SFdiv. pose proof (div_core_nonneg m1 e1 m2 e2) as H.
  destruct (SFdiv_core_binary _ _ _ _ _ _) as [[q e] l].
  by apply binary_round_aux_not_neg.
Qed.

Lemma f64_pos_plus x : f64_gt x f64_zero = true → f64_plus x = true.
Proof. by destruct x as [|[]| |[]]. Qed.

Lemma f64_of_Z_plus z : 0 ≤ z → f64_plus (f64_of_Z z) = true.
Proof.
  intros Hz. destruct z as [|m|m]; [done| |lia].
  unfold f64_of_Z, binary_normalize, binary_round, binary_round_aux.
  destruct (shl_align _ _ _) as [mz ez]. destruct (shr_fexp _ _ (Z.pos mz) ez _) as [r e'].
  destruct (shr_fexp _ _ _ e' loc_Exact) as [r' e'']. simpl.
  destruct (shr_m r'); [done| |done]. by destruct (_ <=? _).
Qed.

Lemma f64_trunc_nonneg x : f64_not_neg x = true → 0 ≤ f64_trunc x.
Proof.
  destruct x as [|[]| |[] m e]; simpl; try done. intros _.
  destruct (Z.leb_spec 0 e); [lia|]. apply Z.div_pos; lia.
Qed.

Lemma f64_as_i64_nonneg x : f64_not_neg x = true → 0 ≤ f64_as_i64 x.
Proof.
  intros H. pose proof (f64_trunc_nonneg x H).
  unfold f64_as_i64, f64_as_int, i64_min, i64_max.
  destruct x as [|[]| |]; try done; lia.
Qed.

Lemma f64_floor_not_neg x : f64_not_neg x = true → f64_not_neg (f64_floor x) = true.
Proof.
  destruct x as [|[]| |[] m e]; simpl; try done. intros _.
  destruct (Z.leb_spec 0 e); [done|]. apply f64_of_Z_not_neg. apply Z.div_pos; lia.
Qed.

Lemma f64_as_i64_range x : in_i64 (f64_as_i64 x).
Proof.
  unfold in_i64, f64_as_i64, f64_as_int, i64_min, i64_max. destruct x as [|[]| |]; lia.
Qed.

Lemma fold_add_not_neg l a :
  f64_not_neg a = true → (∀ x, x ∈ l → f64_not_neg x = true) →
  f64_not_neg (fold_left f64_add l a) = true.
Proof.
  revert a; induction l as [|x l IH]; intros a Ha Hl; simpl; [done|].
  apply IH; [|intros; apply Hl; set_solver].
  apply f64_add_not_neg; [done|]. apply Hl. set_solver.
Qed.

#[global] Arguments f64_add : simpl never.
#[global] Arguments f64_sub : simpl never.
#[global] Arguments f64_mul : simpl never.
#[global] Arguments f64_div : simpl never.
#[global] Arguments f64_of_Z : simpl never.
#[global] Arguments f64_lit : simpl never.
#[global] Arguments f64_le : simpl never.
#[global] Arguments f64_lt : simpl never.
#[global] Arguments f64_gt : simpl never.
#[global] Arguments f64_ge : simpl never.
