(* ===== verification/Rounding.v ===== *)
(** The error of floating-point arithmetic on values that are not negative: a rounded sum,
    product or quotient misses the exact one by at most [unit_roundoff] of it, and by
    [underflow] where the format runs out of exponents. Values are compared as rational
    numbers. *)
From Stdlib Require Import ZArith Lia QArith Qpower Lqa Floats.SpecFloat.
From stdpp Require Import base option list numbers.
From S2P Require Import Prelude Float64.
#[local] Open Scope Z_scope.

(** * Powers of two *)

Definition p2 (e : Z) : Q := Qpower (inject_Z 2) e.

Lemma p2_pos e : (0 < p2 e)%Q.
Proof. by apply Qpower_0_lt. Qed.
Lemma p2_plus a b : (p2 (a + b) == p2 a * p2 b)%Q.
Proof. by apply Qpower_plus. Qed.
Lemma p2_le a b : a ≤ b → (p2 a <= p2 b)%Q.
Proof. intros. by apply Qpower_le_compat_l. Qed.
Lemma p2_Z e : 0 ≤ e → (p2 e == inject_Z (2 ^ e))%Q.
Proof. intros. symmetry. by apply Zpower_Qpower. Qed.
Lemma p2_0 : (p2 0 == 1)%Q.
Proof. reflexivity. Qed.
Lemma p2_1 : (p2 1 == 2)%Q.
Proof. reflexivity. Qed.
Lemma p2_half e : (p2 (e - 1) * 2 == p2 e)%Q.
Proof. rewrite <-p2_1, <-p2_plus. by replace (e - 1 + 1) with e by lia. Qed.

#[export] Hint Resolve p2_pos : core.

Lemma inject_Z_nonneg m : 0 ≤ m → (0 <= inject_Z m)%Q.
Proof. intros H. change 0%Q with (inject_Z 0). by rewrite <-Zle_Qle. Qed.

Lemma Zdigits2_bounds m :
  0 < m → 0 < Zdigits2 m ∧ 2 ^ (Zdigits2 m - 1) ≤ m < 2 ^ Zdigits2 m.
Proof.
  destruct m as [|p|p]; [lia| |lia]. intros _. unfold Zdigits2.
  induction p as [p IH|p IH|]; [| |simpl; lia]; simpl digits2_pos; rewrite Pos2Z.inj_succ;
    (replace (2 ^ Z.succ (Z.pos (digits2_pos p))) with (2 * 2 ^ Z.pos (digits2_pos p))
       by (rewrite Z.pow_succ_r by lia; lia));
    replace (2 ^ (Z.succ (Z.pos (digits2_pos p)) - 1)) with (2 * 2 ^ (Z.pos (digits2_pos p) - 1))
      by (rewrite <-Z.pow_succ_r by lia; f_equal; lia); lia.
Qed.

(** * Shifting to the right *)

(** Where a value lies between an integer and the next, by the two bits of a record. *)
Definition between (r : shr_record) (y : Q) : Prop :=
  let m := inject_Z (shr_m r) in
  match shr_r r, shr_s r with
  | false, false => y == m
  | false, true => m < y /\ y < m + (1#2)
  | true, false => y == m + (1#2)
  | true, true => m + (1#2) < y /\ y < m + 1
  end%Q.

Lemma between_eq r y y' : between r y → (y == y')%Q → between r y'.
Proof. unfold between. destruct (shr_r r), (shr_s r); intros; lra. Qed.

Lemma between_range r y : between r y → (inject_Z (shr_m r) <= y /\ y < inject_Z (shr_m r) + 1)%Q.
Proof. unfold between. destruct (shr_r r), (shr_s r); intros; lra. Qed.

Lemma shr_1_spec m r s :
  0 ≤ m → shr_1 (Build_shr_record m r s) = Build_shr_record (m / 2) (Z.odd m) (r || s).
Proof.
  destruct m as [|[p|p|]|p]; intros; try lia; simpl; try done.
  - f_equal. by rewrite (Z.div_unique (Z.pos p~1) 2 (Z.pos p) 1) by lia.
  - f_equal. by rewrite (Z.div_unique (Z.pos p~0) 2 (Z.pos p) 0) by lia.
Qed.

Lemma between_shr_1 r y : 0 ≤ shr_m r → between r y → between (shr_1 r) (y / 2).
Proof.
  destruct r as [m r s]. cbn [shr_m]. intros Hm Hb. rewrite shr_1_spec by done.
  assert (inject_Z m == 2 * inject_Z (m / 2) + inject_Z (Z.b2z (Z.odd m)))%Q as E.
  { rewrite <-(inject_Z_mult 2), <-inject_Z_plus.
    by rewrite <-Z.div2_div, <-Z.div2_odd. }
  assert (y / 2 * 2 == y)%Q as Ey by field. revert Ey. generalize (y / 2)%Q. intros z Ey.
  unfold between in *. cbn [shr_m shr_r shr_s] in *.
  destruct (Z.odd m), r, s; cbn [orb Z.b2z] in *; change (inject_Z 1) with 1%Q in *;
    change (inject_Z 0) with 0%Q in *; try split; lra.
Qed.

Lemma iter_shr p r y y' :
  0 ≤ shr_m r → between r y → (y' * p2 (Z.pos p) == y)%Q →
  between (SpecFloat.iter_pos shr_1 p r) y'.
Proof.
  revert r y y'. induction p as [p IH|p IH|]; intros r y y' Hm Hb E; simpl.
  - apply (IH _ (y' * p2 (Z.pos p))%Q); [auto using iter_pos_shr_nonneg, shr_1_nonneg| |reflexivity].
    apply (IH _ (y / 2)%Q); [by apply shr_1_nonneg|by apply between_shr_1|].
    rewrite <-E. replace (Z.pos p~1) with (Z.pos p + Z.pos p + 1) by lia.
    rewrite !p2_plus, p2_1. field.
  - apply (IH _ (y' * p2 (Z.pos p))%Q); [auto using iter_pos_shr_nonneg| |reflexivity].
    apply (IH _ y); [done..|]. rewrite <-E. replace (Z.pos p~0) with (Z.pos p + Z.pos p) by lia.
    rewrite p2_plus. ring.
  - eapply between_eq; [by apply between_shr_1|]. rewrite <-E, p2_1. field.
Qed.

(** * Rounding *)

(** [x] is within [d] of [y]. *)
Definition near (x y d : Q) : Prop := (y - d <= x /\ x <= y + d)%Q.

Definition unit_roundoff : Q := p2 (-53).
Definition underflow : Q := p2 (-1075).

(** The exponent of the last place of a number below [2 ^ e]. *)
Lemma fexp_f64 e : fexp f64_prec f64_emax e = Z.max (e - 53) (-1074).
Proof. reflexivity. Qed.

(** The value of a finite float. *)
Definition val (x : f64) : Q :=
  match x with
  | S754_finite s m e => inject_Z (if s then Z.neg m else Z.pos m) * p2 e
  | _ => 0
  end%Q.

(** A double that is finite and not negative. *)
Definition double (x : f64) : Prop :=
  match x with S754_zero _ => True | S754_finite s m e => s = false ∧ -1074 ≤ e | _ => False end.

Lemma val_nonneg x : double x → (0 <= val x)%Q.
Proof.
  destruct x as [s|s| |s m e]; cbn [double]; [|done..|]; unfold val.
  - intros _. apply Qle_refl.
  - intros [-> _]. apply Qmult_le_0_compat; [done|]. apply Qlt_le_weak, p2_pos.
Qed.

Lemma round_nearest_spec r y :
  between r y →
  let m := round_nearest_even (shr_m r) (loc_of_shr_record r) in
  (m = shr_m r ∨ m = shr_m r + 1) ∧ near (inject_Z m) y (1#2).
Proof.
  destruct r as [m r s]. unfold between, near. cbn [shr_m shr_r shr_s].
  assert (inject_Z (m + 1) == inject_Z m + 1)%Q as E by by rewrite inject_Z_plus.
  destruct r, s; cbn [loc_of_shr_record round_nearest_even]; intros H;
    [| destruct (Z.even m)| |]; (split; [auto|]); try rewrite E; split; lra.
Qed.

Lemma shr_fexp_spec m e l y :
  0 ≤ m → between (shr_record_of_loc m l) y →
  let '(r, e1) := shr_fexp f64_prec f64_emax m e l in
  e1 = Z.max e (fexp f64_prec f64_emax (Zdigits2 m + e)) ∧ 0 ≤ shr_m r ∧
  (∀ y', (y' * p2 (e1 - e) == y)%Q → between r y') ∧
  (e1 = e → r = shr_record_of_loc m l).
Proof.
  intros Hm Hb. pose proof (shr_fexp_nonneg m e l Hm) as Hnn. unfold shr_fexp, shr in *.
  set (k := fexp _ _ (Zdigits2 m + e) - e) in *.
  assert (fexp f64_prec f64_emax (Zdigits2 m + e) = e + k) as -> by lia.
  destruct k as [|p|p]; cbn [fst] in Hnn.
  - split_and!; [lia|done| |done]. intros y' E. eapply between_eq; [done|].
    rewrite <-E. replace (e - e) with 0 by lia. rewrite p2_0. ring.
  - split_and!; [lia|done| |lia]. intros y' E. eapply iter_shr; [|exact Hb|].
    + by destruct l as [|[]].
    + rewrite <-E. by replace (e + Z.pos p - e) with (Z.pos p) by lia.
  - split_and!; [lia|done| |done]. intros y' E. eapply between_eq; [done|].
    rewrite <-E. replace (e - e) with 0 by lia. rewrite p2_0. ring.
Qed.

(** A rounded mantissa that has become too long is a power of two, and loses nothing. *)
Lemma renormalize m e :
  0 ≤ m ≤ 2 ^ 53 → -1074 ≤ e →
  ∃ m' e', shr_fexp f64_prec f64_emax m e loc_Exact = (Build_shr_record m' false false, e') ∧
    0 ≤ m' ∧ e ≤ e' ≤ e + 1 ∧ (inject_Z m' * p2 e' == inject_Z m * p2 e)%Q.
Proof.
  intros Hm He. destruct (decide (m = 2 ^ 53)) as [->|Hne].
  - exists (2 ^ 52), (e + 1). unfold shr_fexp, shr. rewrite fexp_f64.
    change (Zdigits2 (2 ^ 53)) with 54. replace (Z.max (54 + e - 53) (-1074) - e) with 1 by lia.
    split_and!; [reflexivity|lia..|]. rewrite p2_plus, p2_1.
    change (inject_Z (2 ^ 53)) with (inject_Z (2 ^ 52 * 2)). rewrite inject_Z_mult.
    change (inject_Z 2) with 2%Q. ring.
  - exists m, e. assert (Zdigits2 m ≤ 53) as Hd.
    { destruct (decide (m = 0)) as [->|]; [simpl; lia|].
      destruct (Zdigits2_bounds m ltac:(lia)) as (H1 & H2 & _).
      destruct (Z.le_gt_cases (Zdigits2 m) 53); [done|].
      assert (2 ^ 53 ≤ 2 ^ (Zdigits2 m - 1)) by (apply Z.pow_le_mono_r; lia). lia. }
    unfold shr_fexp, shr. rewrite fexp_f64.
    assert (Z.max (Zdigits2 m + e - 53) (-1074) - e ≤ 0) as Hk by lia.
    destruct (Z.max (Zdigits2 m + e - 53) (-1074) - e); [|lia|];
      (split_and!; [reflexivity|lia..|reflexivity]).
Qed.

Lemma mantissa_bounds m l e y :
  0 ≤ m → between (shr_record_of_loc m l) y →
  (0 <= y /\ y * p2 e < p2 (Zdigits2 m + e))%Q ∧
  (0 < m → (p2 (Zdigits2 m - 1 + e) <= y * p2 e)%Q).
Proof.
  intros Hm Hb%between_range. pose proof (p2_pos e) as He.
  assert (shr_m (shr_record_of_loc m l) = m) as Er by (by destruct l as [|[]]). rewrite Er in Hb.
  assert (0 <= inject_Z m)%Q as Hm' by (by apply (inject_Z_nonneg m)).
  assert (m + 1 ≤ 2 ^ Zdigits2 m) as Hd.
  { destruct (decide (m = 0)) as [->|]; [done|]. destruct (Zdigits2_bounds m); lia. }
  assert (0 ≤ Zdigits2 m) as Hp by (destruct m; simpl; lia).
  split; [split; [lra|]|].
  - rewrite p2_plus. apply Qmult_lt_r; [done|]. rewrite p2_Z by done.
    apply Qlt_le_trans with (inject_Z (m + 1)); [rewrite inject_Z_plus; change (inject_Z 1) with 1%Q; lra|].
    by rewrite <-Zle_Qle.
  - intros Hpos. rewrite p2_plus. apply Qmult_le_r; [done|].
    destruct (Zdigits2_bounds m Hpos) as (H1 & H2 & _). rewrite p2_Z by lia.
    apply Qle_trans with (inject_Z m); [by rewrite <-Zle_Qle|lra].
Qed.

Lemma near_scale x y d c : (0 < c)%Q → near x y d → near (x * c) (y * c) (d * c).
Proof.
  intros Hc [H1 H2]. apply (Qmult_le_r _ _ c Hc) in H1, H2.
  split; [apply Qle_trans with ((y - d) * c)%Q|apply Qle_trans with ((y + d) * c)%Q]; lra || nra.
Qed.
Lemma near_refl x d : (0 <= d)%Q → near x x d.
Proof. intros Hd. split; lra. Qed.
Lemma near_weaken x y d d' : near x y d → (d <= d')%Q → near x y d'.
Proof. intros [H1 H2] H. split; lra. Qed.

Lemma shr_fexp_id m e l :
  fexp f64_prec f64_emax (Zdigits2 m + e) ≤ e →
  shr_fexp f64_prec f64_emax m e l = (shr_record_of_loc m l, e).
Proof.
  intros H. unfold shr_fexp, shr. by destruct (fexp _ _ _ - e) eqn:E; [|lia|].
Qed.

(** A double, or infinity when the exponent is out of range. *)
Definition make_double (m e : Z) : f64 :=
  match m with
  | Z.pos p => if e <=? 971 then S754_finite false p e else S754_infinity false
  | _ => S754_zero false
  end.

Lemma make_double_spec m e :
  0 ≤ m → -1074 ≤ e →
  (make_double m e = S754_infinity false ∧ 971 < e) ∨
  double (make_double m e) ∧ (val (make_double m e) == inject_Z m * p2 e)%Q.
Proof.
  intros Hm He. destruct m as [|p|p]; [|simpl|lia].
  - right. split; [done|]. unfold val, make_double. change (inject_Z 0) with 0%Q. ring.
  - destruct (Z.leb_spec e 971); [right|by left]. by split.
Qed.

(** A mantissa that fits is kept. *)
Lemma round_exact m e :
  0 ≤ m → fexp f64_prec f64_emax (Zdigits2 m + e) ≤ e →
  binary_round_aux f64_prec f64_emax false m e loc_Exact = make_double m e.
Proof.
  intros Hm H. unfold binary_round_aux. rewrite (shr_fexp_id _ _ _ H). simpl.
  rewrite (shr_fexp_id _ _ _ H). simpl. unfold make_double. by destruct m; [|simpl|lia].
Qed.

(** A mantissa that is too long is rounded to a neighbour. *)
Lemma round_inexact m e l y :
  0 ≤ m → between (shr_record_of_loc m l) y →
  let e1 := fexp f64_prec f64_emax (Zdigits2 m + e) in
  e ≤ e1 →
  let v := (y * p2 e)%Q in
  ∃ m' e', binary_round_aux f64_prec f64_emax false m e l = make_double m' e' ∧
    0 ≤ m' ∧ e1 ≤ e' ≤ e1 + 1 ∧ near (inject_Z m' * p2 e') v (p2 (e1 - 1)).
Proof.
  intros Hm Hb e1 He v. destruct (mantissa_bounds m l e y Hm Hb) as ([Hy Hlt] & _). fold v in Hlt.
  pose proof (shr_fexp_spec m e l y Hm Hb) as Hs. unfold binary_round_aux.
  destruct (shr_fexp f64_prec f64_emax m e l) as [r e1']. fold e1 in Hs.
  rewrite Z.max_r in Hs by done. destruct Hs as (-> & Hr & Hbr & _).
  set (m1 := round_nearest_even (shr_m r) (loc_of_shr_record r)).
  set (y1 := (v / p2 e1)%Q).
  assert (y1 * p2 e1 == v)%Q as Ev by (unfold y1; field; pose proof (p2_pos e1); lra).
  assert (between r y1) as Hb1.
  { apply Hbr. apply (Qmult_inj_r _ _ (p2 e)); [pose proof (p2_pos e); lra|].
    rewrite <-Qmult_assoc, <-p2_plus. replace (e1 - e + e) with e1 by lia. exact Ev. }
  destruct (round_nearest_spec r y1 Hb1) as [Hm1 Hnear]. fold m1 in Hm1, Hnear.
  assert (shr_m r < 2 ^ 53) as Hr53.
  { apply between_range in Hb1 as [H1 _]. rewrite Zlt_Qlt.
    apply Qle_lt_trans with y1; [done|]. apply (Qmult_lt_r _ _ (p2 e1)); [done|]. rewrite Ev.
    apply Qlt_le_trans with (p2 (Zdigits2 m + e)); [done|].
    rewrite <-p2_Z, <-p2_plus by lia. apply p2_le. subst e1. rewrite fexp_f64. lia. }
  destruct (renormalize m1 e1) as (m' & e' & -> & Hm' & He' & E'); [lia|subst e1; rewrite fexp_f64; lia|].
  exists m', e'. split; [|split; [done|split; [done|]]].
  - simpl. unfold make_double. by destruct m'; [|simpl|lia].
  - apply (near_scale _ _ _ (p2 e1)) in Hnear; [|done]. destruct Hnear as [H1 H2].
    pose proof (p2_half e1) as Hh. unfold near. rewrite E'. rewrite Ev in H1, H2. split; lra.
Qed.

(** [x] is [v] rounded: to a double that misses [v] by at most [d] over its relative error,
    or, when [v] is huge, to infinity. *)
Definition rounds (x : f64) (v d : Q) : Prop :=
  (x = S754_infinity false ∧ (p2 970 <= v)%Q) ∨
  (double x ∧ near (val x) v (unit_roundoff * v + d)).

Lemma unit_roundoff_pos : (0 < unit_roundoff)%Q.
Proof. apply p2_pos. Qed.
Lemma underflow_pos : (0 < underflow)%Q.
Proof. apply p2_pos. Qed.
#[export] Hint Resolve unit_roundoff_pos underflow_pos : core.

Lemma rounds_weaken x v d d' : (d <= d')%Q → rounds x v d → rounds x v d'.
Proof.
  intros Hd [H|[H1 H2]]; [by left|right]. split; [done|]. eapply near_weaken; [done|]. lra.
Qed.

Lemma rounds_eq x v v' d : (v == v')%Q → rounds x v d → rounds x v' d.
Proof.
  intros E [[H1 H2]|[H1 H2]]; [left|right]; (split; [done|]); [lra|]. unfold near in *.
  split; rewrite <-E; apply H2.
Qed.

Lemma make_double_rounds m e v d d' :
  0 ≤ m → -1074 ≤ e → near (inject_Z m * p2 e) v d' →
  (971 < e → (p2 970 <= v)%Q) → (d' <= unit_roundoff * v + d)%Q →
  rounds (make_double m e) v d.
Proof.
  intros Hm He Hn Hbig Hd. destruct (make_double_spec m e Hm He) as [[-> H]|[H E]]; [left; auto|right].
  split; [done|]. eapply near_weaken; [|exact Hd]. unfold near in *. by rewrite E.
Qed.

(** The bounds of a rounded mantissa that lost digits. *)
Lemma round_inexact_rounds m e l y :
  0 ≤ m → between (shr_record_of_loc m l) y →
  e ≤ fexp f64_prec f64_emax (Zdigits2 m + e) →
  rounds (binary_round_aux f64_prec f64_emax false m e l) (y * p2 e) underflow ∧
  (-1074 < fexp f64_prec f64_emax (Zdigits2 m + e) →
   rounds (binary_round_aux f64_prec f64_emax false m e l) (y * p2 e) 0).
Proof.
  intros Hm Hb He. destruct (round_inexact m e l y Hm Hb He) as (m' & e' & -> & Hm' & He' & Hn).
  destruct (mantissa_bounds m l e y Hm Hb) as ([Hy _] & Hlow).
  pose proof (Qmult_le_0_compat _ _ Hy (Qlt_le_weak _ _ (p2_pos e))) as Hv.
  pose proof (Qmult_le_0_compat _ _ (Qlt_le_weak _ _ unit_roundoff_pos) Hv) as Hu.
  revert Hlow Hv Hu Hn. generalize (y * p2 e)%Q. intros v Hlow Hv Hu Hn.
  rewrite fexp_f64 in *. set (e1 := Z.max (Zdigits2 m + e - 53) (-1074)) in *.
  assert (-1074 < e1 → (p2 (e1 + 52) <= v)%Q) as Hrel.
  { intros H1. assert (m ≠ 0) by (intros ->; simpl in *; lia).
    apply Qle_trans with (p2 (Zdigits2 m - 1 + e)); [apply p2_le; lia|]. apply Hlow. lia. }
  assert (-1074 < e1 → (p2 (e1 - 1) <= unit_roundoff * v)%Q) as Herr.
  { intros H1. replace (e1 - 1) with (-53 + (e1 + 52)) by lia. rewrite p2_plus.
    apply Qmult_le_l; auto. }
  assert (971 < e' → (p2 970 <= v)%Q) as Hbig.
  { intros H1. apply Qle_trans with (p2 (e1 + 52)); [apply p2_le; lia|]. apply Hrel. lia. }
  split; [|intros Hlt]; eapply make_double_rounds; try exact Hn; try done; try lia.
  - destruct (decide (-1074 < e1)) as [H1|H1]; [pose proof (Herr H1); pose proof underflow_pos; lra|].
    replace (e1 - 1) with (-1075) by lia. change (p2 (-1075)) with underflow. lra.
  - specialize (Herr Hlt). lra.
Qed.

(** An exact mantissa has no underflow: its exponent is in range already. *)
Lemma round_exact_rounds m e :
  0 ≤ m → -1074 ≤ e →
  rounds (binary_round_aux f64_prec f64_emax false m e loc_Exact) (inject_Z m * p2 e) 0.
Proof.
  intros Hm He. pose proof (p2_pos e) as Hp. pose proof (inject_Z_nonneg m Hm) as Hz.
  destruct (Z.le_gt_cases (fexp f64_prec f64_emax (Zdigits2 m + e)) e) as [H|H].
  - rewrite round_exact by done.
    pose proof (Qmult_le_0_compat _ _ Hz (Qlt_le_weak _ _ Hp)) as Hv.
    pose proof (Qmult_le_0_compat _ _ (Qlt_le_weak _ _ unit_roundoff_pos) Hv) as Hu.
    destruct (decide (m = 0)) as [->|Hne].
    { right. split; [done|]. change (val (make_double 0 e)) with 0%Q.
      assert (inject_Z 0 * p2 e == 0)%Q as E by apply Qmult_0_l. unfold near. split; rewrite E; lra. }
    eapply (make_double_rounds _ _ _ _ 0%Q); [done..|by apply near_refl| |by rewrite Qplus_0_r].
    intros Hbig. apply Qle_trans with (1 * p2 e)%Q; [rewrite Qmult_1_l; apply p2_le; lia|].
    apply Qmult_le_r; [done|]. change 1%Q with (inject_Z 1). rewrite <-Zle_Qle. lia.
  - apply round_inexact_rounds; [done|reflexivity|lia|lia].
Qed.

Lemma Zdigits2_ge k m : 0 ≤ k → 2 ^ k ≤ m → k + 1 ≤ Zdigits2 m.
Proof.
  intros Hk Hm. destruct (Zdigits2_bounds m) as (H1 & _ & H2); [lia|].
  destruct (Z.le_gt_cases (k + 1) (Zdigits2 m)); [done|].
  assert (2 ^ Zdigits2 m ≤ 2 ^ k) by (apply Z.pow_le_mono_r; lia). lia.
Qed.

Lemma Zdigits2_le k m : 0 ≤ m → 0 ≤ k → m < 2 ^ k → Zdigits2 m ≤ k.
Proof.
  intros Hp Hk Hm. destruct (decide (m = 0)) as [->|]; [simpl; lia|].
  destruct (Zdigits2_bounds m) as (H1 & H2 & _); [lia|].
  destruct (Z.le_gt_cases (Zdigits2 m) k); [done|].
  assert (2 ^ k ≤ 2 ^ (Zdigits2 m - 1)) by (apply Z.pow_le_mono_r; lia). lia.
Qed.

(** * The operations *)

Lemma shl_align_spec p e e' :
  let '(p', e1) := shl_align p e e' in
  e1 = Z.min e e' ∧ Z.pos p' = Z.pos p * 2 ^ (e - e1) ∧
  (inject_Z (Z.pos p') * p2 e1 == inject_Z (Z.pos p) * p2 e)%Q.
Proof.
  unfold shl_align. destruct (e' - e) as [|d|d] eqn:E.
  - split_and!; [lia|by rewrite Z.sub_diag, Z.mul_1_r|done].
  - split_and!; [lia|by rewrite Z.sub_diag, Z.mul_1_r|done].
  - assert (Z.pos (Pos.iter xO p d) = Z.pos p * 2 ^ Z.pos d) as Hs.
    { rewrite <-Pos2Z.inj_pow, <-Pos2Z.inj_mul. f_equal. clear E.
      induction d as [|d IH] using Pos.peano_ind; [simpl; lia|].
      rewrite Pos.iter_succ, IH, Pos.pow_succ_r. lia. }
    split_and!; [lia|by replace (e - e') with (Z.pos d) by lia|].
    rewrite Hs, inject_Z_mult, <-p2_Z, <-Qmult_assoc, <-p2_plus by lia.
    by replace (Z.pos d + e') with e by lia.
Qed.

Lemma normalize_rounds m e :
  0 ≤ m → -1074 ≤ e →
  rounds (binary_normalize f64_prec f64_emax m e false) (inject_Z m * p2 e) 0.
Proof.
  intros Hm He. destruct m as [|p|p]; [| |lia].
  - right. split; [done|]. change (val _) with 0%Q.
    assert (inject_Z 0 * p2 e == 0)%Q as E by apply Qmult_0_l. unfold near. split; rewrite E; lra.
  - unfold binary_normalize, binary_round.
    pose proof (shl_align_spec p e (fexp f64_prec f64_emax (Z.pos (digits2_pos p) + e))) as H.
    destruct (shl_align _ _ _) as [p' e1]. destruct H as (-> & _ & E).
    eapply rounds_eq; [exact E|]. apply round_exact_rounds; [lia|]. rewrite fexp_f64. lia.
Qed.

(** The sum of two doubles. *)
Lemma f64_add_rounds x y :
  double x → double y → rounds (f64_add x y) (val x + val y) 0.
Proof.
  intros Hx Hy.
  assert (∀ z v, double z → (v == val z)%Q → rounds z v 0) as Hid.
  { intros z v Hz E. right. split; [done|]. pose proof (val_nonneg z Hz).
    pose proof (Qmult_le_0_compat _ _ (Qlt_le_weak _ _ unit_roundoff_pos) H).
    unfold near. split; rewrite E; lra. }
  destruct x as [sx|sx| |sx mx ex]; cbn [double] in Hx; try done;
    destruct y as [sy|sy| |sy my ey]; cbn [double] in Hy; try done.
  - destruct sx, sy; apply Hid; reflexivity || done.
  - apply Hid; [done|]. simpl. ring.
  - apply Hid; [done|]. simpl. ring.
  - destruct Hx as [-> Hx], Hy as [-> Hy].
    change (f64_add _ _) with (binary_normalize f64_prec f64_emax
      (Z.pos (shl_align mx ex (Z.min ex ey)).1 + Z.pos (shl_align my ey (Z.min ex ey)).1)
      (Z.min ex ey) false).
    pose proof (shl_align_spec mx ex (Z.min ex ey)) as Ha.
    pose proof (shl_align_spec my ey (Z.min ex ey)) as Hb.
    destruct (shl_align mx _ _) as [p e1], (shl_align my _ _) as [q e2].
    destruct Ha as (-> & _ & Ea), Hb as (-> & _ & Eb). cbn [fst].
    eapply rounds_eq; [|apply normalize_rounds; lia].
    rewrite inject_Z_plus, Qmult_plus_distr_l. cbn [val].
    rewrite <-Ea, <-Eb. by replace (Z.min ex (Z.min ex ey)) with (Z.min ex ey) by lia;
      replace (Z.min ey (Z.min ex ey)) with (Z.min ex ey) by lia.
Qed.

(** The product of two doubles. *)
Lemma f64_mul_rounds x y :
  double x → double y → rounds (f64_mul x y) (val x * val y) underflow.
Proof.
  intros Hx Hy. pose proof underflow_pos as Hu.
  assert (∀ s v, (v == 0)%Q → rounds (S754_zero s) v underflow) as Hz.
  { intros s v E. right. split; [done|]. unfold near. simpl. split; rewrite E; lra. }
  destruct x as [sx|sx| |sx mx ex]; cbn [double] in Hx; try done;
    destruct y as [sy|sy| |sy my ey]; cbn [double] in Hy; try done;
    try (apply Hz; simpl; ring).
  destruct Hx as [-> Hx], Hy as [-> Hy].
  change (f64_mul _ _) with
    (binary_round_aux f64_prec f64_emax false (Z.pos (mx * my)) (ex + ey) loc_Exact).
  apply (rounds_eq _ (inject_Z (Z.pos (mx * my)) * p2 (ex + ey))).
  { cbn [val]. rewrite Pos2Z.inj_mul, inject_Z_mult, p2_plus. ring. }
  destruct (Z.le_gt_cases (-1074) (ex + ey)).
  - apply (rounds_weaken _ _ 0); [lra|]. by apply round_exact_rounds.
  - apply round_inexact_rounds; [done|reflexivity|]. rewrite fexp_f64. lia.
Qed.

(** The location that a division reports is the one of the quotient. *)
Lemma new_location_spec d q r :
  0 < d → 0 ≤ r < d →
  between (shr_record_of_loc q (new_location d r)) (inject_Z (d * q + r) / inject_Z d).
Proof.
  intros Hd Hr. assert (0 < inject_Z d)%Q as Hd' by (change 0%Q with (inject_Z 0); by rewrite <-Zlt_Qlt).
  set (t := (inject_Z r / inject_Z d)%Q).
  assert (t * inject_Z d == inject_Z r)%Q as Et by (unfold t; field; lra).
  apply (between_eq _ (inject_Z q + t));
    [|rewrite inject_Z_plus, inject_Z_mult; unfold t; field; lra].
  assert (∀ a b, a * d < b * r → (inject_Z a < inject_Z b * t)%Q) as Hlo.
  { intros a b H. apply (Qmult_lt_r _ _ _ Hd'). rewrite <-Qmult_assoc, Et, <-!inject_Z_mult.
    by rewrite <-Zlt_Qlt. }
  assert (∀ a b, b * r < a * d → (inject_Z b * t < inject_Z a)%Q) as Hhi.
  { intros a b H. apply (Qmult_lt_r _ _ _ Hd'). rewrite <-Qmult_assoc, Et, <-!inject_Z_mult.
    by rewrite <-Zlt_Qlt. }
  pose proof (Hlo 0 1) as L0. pose proof (Hlo 1 2) as L1. pose proof (Hhi 1 2) as H1.
  pose proof (Hhi 1 1) as H2.
  assert (2 * r = d → (t == (1#2))%Q) as Heq.
  { intros H. apply (Qmult_inj_r _ _ (inject_Z d)); [lra|]. rewrite Et, <-H, inject_Z_mult.
    change (inject_Z 2) with 2%Q. ring. }
  assert (r = 0 → (t == 0)%Q) as Hz.
  { intros ->. unfold t. change (inject_Z 0) with 0%Q. field. lra. }
  change (inject_Z 0) with 0%Q in *. change (inject_Z 1) with 1%Q in *. change (inject_Z 2) with 2%Q in *.
  clearbody t. unfold between, new_location, new_location_even, new_location_odd.
  destruct (Z.even d) eqn:Ev; (destruct (Z.eqb_spec r 0) as [E|E];
    [cbn [shr_record_of_loc shr_m shr_r shr_s]; specialize (Hz E); lra|]).
  - destruct (Z.compare_spec (2 * r) d) as [C|C|C]; cbn [shr_record_of_loc shr_m shr_r shr_s]; [specialize (Heq C); lra|split..].
    + pose proof (L0 ltac:(lia)). lra.
    + pose proof (H1 ltac:(lia)). lra.
    + pose proof (L1 ltac:(lia)). lra.
    + pose proof (H2 ltac:(lia)). lra.
  - assert (2 * r ≠ d) by (intros <-; by rewrite Z.even_mul in Ev).
    destruct (Z.compare_spec (2 * r + 1) d) as [C|C|C]; cbn [shr_record_of_loc shr_m shr_r shr_s]; split;
      first [pose proof (L0 ltac:(lia)); lra|pose proof (H1 ltac:(lia)); lra
            |pose proof (L1 ltac:(lia)); lra|pose proof (H2 ltac:(lia)); lra].
Qed.

(** The division of mantissas keeps enough digits. *)
Lemma div_core_spec p e1 q e2 :
  let '(m, e, l) := SFdiv_core_binary f64_prec f64_emax (Z.pos p) e1 (Z.pos q) e2 in
  0 ≤ m ∧ e ≤ fexp f64_prec f64_emax (Zdigits2 m + e) ∧
  ∃ y, between (shr_record_of_loc m l) y ∧
    (y * p2 e == inject_Z (Z.pos p) * p2 e1 / (inject_Z (Z.pos q) * p2 e2))%Q.
Proof.
  unfold SFdiv_core_binary. rewrite fexp_f64.
  set (d1 := Zdigits2 (Z.pos p)). set (d2 := Zdigits2 (Z.pos q)).
  set (e := Z.min (Z.max (d1 + e1 - (d2 + e2) - 53) (-1074)) (e1 - e2)).
  set (s := e1 - e2 - e). assert (0 ≤ s) as Hs by lia.
  replace (match s with Z0 => Z.pos p | Z.pos _ => Z.shiftl (Z.pos p) s | Z.neg _ => 0 end)
    with (Z.pos p * 2 ^ s)
    by (rewrite <-Z.shiftl_mul_pow2 by done; by destruct s as [|?|?]; [apply Z.shiftl_0_r| |lia]).
  pose proof (Z_div_mod (Z.pos p * 2 ^ s) (Z.pos q) ltac:(lia)) as Hdm.
  destruct (Z.div_eucl _ _) as [m r]. destruct Hdm as [Em Hr].
  destruct (Zdigits2_bounds (Z.pos p)) as (Hp0 & Hp1 & _); [lia|]. fold d1 in Hp0, Hp1.
  destruct (Zdigits2_bounds (Z.pos q)) as (Hq0 & _ & Hq1); [lia|]. fold d2 in Hq0, Hq1.
  assert (0 < 2 ^ s) by (apply Z.pow_pos_nonneg; lia).
  assert (0 ≤ m) as Hm by nia.
  assert (d1 + s - d2 ≤ Zdigits2 m) as Hdig.
  { destruct (Z.le_gt_cases (d1 + s - d2) 0); [destruct m; simpl; lia|].
    assert (2 ^ (d1 + s - d2 - 1) ≤ m); [|pose proof (Zdigits2_ge (d1 + s - d2 - 1) m); lia].
    assert (2 ^ (d1 + s - d2 - 1) * 2 ^ d2 ≤ Z.pos p * 2 ^ s); [|nia].
    rewrite <-Z.pow_add_r by lia. replace (d1 + s - d2 - 1 + d2) with (d1 - 1 + s) by lia.
    rewrite Z.pow_add_r by lia. by apply Z.mul_le_mono_nonneg_r; [lia|]. }
  split_and!; [done|rewrite fexp_f64; lia|].
  exists (inject_Z (Z.pos q * m + r) / inject_Z (Z.pos q))%Q. split; [by apply new_location_spec|].
  assert (0 < inject_Z (Z.pos q))%Q as Hq by done.
  pose proof (p2_pos e2). rewrite <-Em, inject_Z_mult, <-p2_Z by done.
  assert (p2 e1 == p2 s * p2 e * p2 e2)%Q as -> by (rewrite <-!p2_plus; by replace (s + e + e2) with e1 by lia).
  field. split; lra.
Qed.

(** The quotient of two doubles. *)
Lemma f64_div_rounds x y :
  double x → double y → (0 < val y)%Q → rounds (f64_div x y) (val x / val y) underflow.
Proof.
  intros Hx Hy Hpos. pose proof underflow_pos as Hu.
  destruct y as [sy|sy| |sy my ey]; cbn [double] in Hy; try done. destruct Hy as [-> Hy].
  destruct x as [sx|sx| |sx mx ex]; cbn [double] in Hx; try done.
  - right. split; [done|]. unfold near. cbn [val f64_div SFdiv].
    assert (0 / val (S754_finite false my ey) == 0)%Q as E by (apply Qmult_0_l).
    change (val (f64_div _ _)) with 0%Q. cbn [val] in E. split; rewrite E; lra.
  - destruct Hx as [-> Hx]. pose proof (div_core_spec mx ex my ey) as H.
    unfold f64_div, SFdiv. destruct (SFdiv_core_binary _ _ _ _ _ _) as [[m e] l].
    destruct H as (Hm & He & v & Hb & E). eapply rounds_eq; [exact E|].
    by apply round_inexact_rounds.
Qed.

(** An integer becomes the nearest double. *)
Lemma f64_of_Z_rounds z : 0 ≤ z → rounds (f64_of_Z z) (inject_Z z) 0.
Proof.
  intros Hz. eapply rounds_eq; [|apply normalize_rounds; [exact Hz|lia]]. rewrite p2_0. ring.
Qed.

(** Integers of 53 bits are exact. *)
Lemma f64_of_Z_exact z :
  0 ≤ z < 2 ^ 53 → double (f64_of_Z z) ∧ (val (f64_of_Z z) == inject_Z z)%Q.
Proof.
  intros [Hz Hlt]. destruct z as [|p|p]; [done| |lia].
  pose proof (Zdigits2_le 53 (Z.pos p) Hz ltac:(lia) Hlt) as Hd.
  destruct (Zdigits2_bounds (Z.pos p)) as (H0 & H1 & H2); [lia|].
  unfold f64_of_Z, binary_normalize, binary_round.
  pose proof (shl_align_spec p 0 (fexp f64_prec f64_emax (Z.pos (digits2_pos p) + 0))) as H.
  change (Z.pos (digits2_pos p)) with (Zdigits2 (Z.pos p)) in *. rewrite fexp_f64 in *.
  destruct (shl_align _ _ _) as [p' e]. destruct H as (He & Ep & E).
  assert (Zdigits2 (Z.pos p') + e ≤ Zdigits2 (Z.pos p)) as Hd'.
  { pose proof (Zdigits2_le (Zdigits2 (Z.pos p) - e) (Z.pos p') ltac:(lia) ltac:(lia)) as Hle.
    assert (Z.pos p' < 2 ^ (Zdigits2 (Z.pos p) - e)); [|lia].
    replace (Zdigits2 (Z.pos p) - e) with (Zdigits2 (Z.pos p) + (0 - e)) by lia.
    rewrite Ep, Z.pow_add_r by lia. apply Z.mul_lt_mono_pos_r; [|done].
    apply Z.pow_pos_nonneg; lia. }
  rewrite round_exact by (rewrite ?fexp_f64; lia).
  destruct (make_double_spec (Z.pos p') e) as [[_ Hbad]|[Hok Hv]]; [lia|lia|lia|].
  split; [done|]. rewrite Hv, E, p2_0. ring.
Qed.

Lemma f64_trunc_spec x :
  double x → (inject_Z (f64_trunc x) <= val x /\ val x < inject_Z (f64_trunc x) + 1)%Q.
Proof.
  destruct x as [s|s| |s m e]; cbn [double]; try done; unfold val, f64_trunc.
  intros [-> _]. destruct (Z.leb_spec 0 e) as [He|He].
  - rewrite inject_Z_mult, p2_Z by done. split; lra.
  - pose proof (p2_pos e) as Hp. assert (0 < 2 ^ (- e)) as Hpow by (apply Z.pow_pos_nonneg; lia).
    assert (p2 e * inject_Z (2 ^ (- e)) == 1)%Q as E.
    { rewrite <-p2_Z, <-p2_plus by lia. by replace (e + - e) with 0 by lia. }
    pose proof (Z.mul_div_le (Z.pos m) (2 ^ (- e)) Hpow) as Hle.
    pose proof (Z.mul_succ_div_gt (Z.pos m) (2 ^ (- e)) Hpow) as Hgt.
    set (q := Z.pos m `div` 2 ^ (- e)) in *. rewrite Zle_Qle in Hle. rewrite Zlt_Qlt in Hgt.
    unfold Z.succ in Hgt. rewrite inject_Z_mult in Hle, Hgt. rewrite inject_Z_plus in Hgt.
    change (inject_Z 1) with 1%Q in Hgt.
    assert (∀ y, y * inject_Z (2 ^ (- e)) * p2 e == y)%Q as Ec
      by (intros y; rewrite <-Qmult_assoc, (Qmult_comm _ (p2 e)), E; ring).
    split.
    + apply (Qmult_le_r _ _ _ Hp) in Hle. rewrite (Qmult_comm (inject_Z (2 ^ (- e)))), Ec in Hle. exact Hle.
    + apply (Qmult_lt_r _ _ _ Hp) in Hgt. rewrite (Qmult_comm (inject_Z (2 ^ (- e)))), Ec in Hgt. exact Hgt.
Qed.

Lemma f64_trunc_val x z : double x → (val x == inject_Z z)%Q → f64_trunc x = z.
Proof.
  intros [H1 H2]%f64_trunc_spec E. rewrite E in H1, H2.
  change 1%Q with (inject_Z 1) in H2. rewrite <-inject_Z_plus, <-Zlt_Qlt in H2.
  rewrite <-Zle_Qle in H1. lia.
Qed.

(** [floor] and the cast to [i64] take the integer part. *)
Lemma f64_floor_as_i64 x :
  double x → (val x < inject_Z (2 ^ 53))%Q → f64_as_i64 (f64_floor x) = f64_trunc x.
Proof.
  intros Hx Hlt. pose proof (f64_trunc_spec x Hx) as [Ht _].
  assert (0 ≤ f64_trunc x) as H0.
  { apply f64_trunc_nonneg. by destruct x as [|[]| |[]]; try destruct Hx. }
  assert (f64_trunc x < 2 ^ 53) as H53.
  { rewrite Zlt_Qlt. by eapply Qle_lt_trans. }
  assert (∀ y, double y → f64_trunc y = f64_trunc x → f64_as_i64 y = f64_trunc x) as Hi.
  { intros y Hy E. unfold f64_as_i64, f64_as_int, i64_min, i64_max. rewrite E.
    destruct y as [| | |]; try done; simpl in E; lia. }
  destruct x as [s|s| |s m e]; cbn [double] in Hx; try done. destruct Hx as [-> He].
  unfold f64_floor. destruct (Z.leb_spec 0 e) as [H|H]; [by apply Hi|].
  assert (f64_trunc (S754_finite false m e) = Z.pos m `div` 2 ^ (- e)) as E.
  { unfold f64_trunc. by destruct (Z.leb_spec 0 e); [lia|]. }
  rewrite E in *. destruct (f64_of_Z_exact (Z.pos m `div` 2 ^ (- e))) as [Hd Hv]; [lia|].
  apply Hi; [done|by apply f64_trunc_val].
Qed.

(** * Sums and shares *)

(** A float that is not negative, NaN excluded; a sum that stays finite has finite terms only. *)
Definition plus (x : f64) : Prop := double x ∨ x = S754_infinity false.

Lemma rounds_plus x v d : rounds x v d → plus x.
Proof. intros [[-> _]|[H _]]; [by right|by left]. Qed.

Lemma plus_add x y : plus x → plus y → plus (f64_add x y).
Proof.
  intros [Hx|Hx] [Hy|Hy]; [by eapply rounds_plus, f64_add_rounds| | |subst; by right]; subst;
    [destruct x as [| | |s m e]|destruct y as [| | |s m e]]; cbn [double] in *; try done; by right.
Qed.

Lemma plus_add_double x y : plus x → plus y → double (f64_add x y) → double x ∧ double y.
Proof.
  intros [Hx|Hx] [Hy|Hy] H; [done| | |subst; done]; subst;
    [destruct x as [| | |s m e]|destruct y as [| | |s m e]]; cbn [double] in *; done.
Qed.

Lemma plus_div x y : plus x → double y → (0 < val y)%Q → plus (f64_div x y).
Proof.
  intros [Hx| ->] Hy Hpos; [by eapply rounds_plus, f64_div_rounds|].
  destruct y as [| | |s m e]; cbn [double] in Hy; try done. destruct Hy as [-> _]. by right.
Qed.

(** The values of a list of floats, added up. *)
Fixpoint sumQ (l : list f64) : Q :=
  match l with [] => 0 | x :: l' => val x + sumQ l' end%Q.

Lemma sumQ_nonneg l : Forall double l → (0 <= sumQ l)%Q.
Proof.
  induction 1 as [|x l Hx _ IH]; simpl; [lra|]. pose proof (val_nonneg x Hx). lra.
Qed.

Lemma fold_add_double l a :
  plus a → Forall plus l → double (fold_left f64_add l a) → double a ∧ Forall double l.
Proof.
  revert a; induction l as [|x l IH]; intros a Ha Hl H; simpl in H; [by split|].
  apply Forall_cons_1 in Hl as [Hx Hl]. apply IH in H as [H1 H2]; [|by apply plus_add|done].
  apply plus_add_double in H1 as [? ?]; [|done..]. split; [done|by constructor].
Qed.

Lemma error_step k s s' u t :
  (0 <= k -> 0 < u -> 2 * (k + 1) * u <= 1 -> 0 <= s ->
   s * (1 - u) <= s' <= s * (1 + u) ->
   s' * (1 - k * u) <= t <= s' * (1 + 2 * k * u) ->
   s * (1 - (k + 1) * u) <= t /\ t <= s * (1 + 2 * (k + 1) * u))%Q.
Proof.
  intros Hk Hu Hku Hs [Hl1 Hu1] [Hl2 Hu2].
  assert (0 <= 1 - k * u)%Q as H1 by nra. assert (0 <= 1 + 2 * k * u)%Q as H2 by nra.
  assert (0 <= s * u)%Q as Hsu by nra. assert (0 <= s * u * (k * u))%Q as Hsk.
  { apply Qmult_le_0_compat; [done|]. nra. }
  assert (0 <= s * u * (1 - 2 * (k * u)))%Q as Hsk2.
  { apply Qmult_le_0_compat; [done|]. lra. }
  apply (Qmult_le_compat_r _ _ (1 - k * u)) in Hl1; [|done].
  apply (Qmult_le_compat_r _ _ (1 + 2 * k * u)) in Hu1; [|done].
  split; lra.
Qed.

(** The error of a sum grows with the number of its terms. *)
Lemma fold_add_error l a :
  double a → Forall double l → double (fold_left f64_add l a) →
  (2 * inject_Z (Z.of_nat (length l)) * unit_roundoff <= 1)%Q →
  let n := inject_Z (Z.of_nat (length l)) in
  let s := (val a + sumQ l)%Q in
  (s * (1 - n * unit_roundoff) <= val (fold_left f64_add l a) /\
   val (fold_left f64_add l a) <= s * (1 + 2 * n * unit_roundoff))%Q.
Proof.
  set (u := unit_roundoff). pose proof unit_roundoff_pos as Hu. fold u in Hu.
  revert a; induction l as [|x l IH]; intros a Ha Hl Hd Hn; simpl fold_left in *.
  - simpl. change (inject_Z 0) with 0%Q. split; ring_simplify; lra.
  - apply Forall_cons_1 in Hl as [Hx Hl].
    destruct (fold_add_double l (f64_add a x)) as [Hax _]; [apply plus_add; by left| |done|].
    { eapply Forall_impl; [|exact Hl]. by left. }
    cbn [length sumQ] in *. rewrite Nat2Z.inj_succ, <-Z.add_1_r, inject_Z_plus in *.
    change (inject_Z 1) with 1%Q in *.
    assert (0 <= inject_Z (Z.of_nat (length l)))%Q as Hk by (apply inject_Z_nonneg; lia).
    specialize (IH (f64_add a x) Hax Hl Hd). revert IH Hn Hk.
    generalize (inject_Z (Z.of_nat (length l))) (val (fold_left f64_add l (f64_add a x))).
    intros k t IH Hn Hk. destruct IH as [IH1 IH2]; [lra|].
    destruct (f64_add_rounds a x Ha Hx) as [[E _]|[_ [E1 E2]]]; [rewrite E in Hax; done|].
    fold u in E1, E2. pose proof (val_nonneg a Ha). pose proof (val_nonneg x Hx).
    pose proof (sumQ_nonneg l Hl).
    assert (0 <= sumQ l * u)%Q by nra. rewrite Qplus_assoc.
    apply (error_step k (val a + val x + sumQ l) (val (f64_add a x) + sumQ l) u t); lra.
Qed.

(** The share of [n] that goes to the part [w] of a total [t]. *)
Definition share (t : f64) (n : Z) (w : f64) : f64 := f64_mul (f64_div w t) (f64_of_Z n).

Lemma share_arith q n r x u d :
  (0 <= q -> 1 <= n -> 0 < u -> u <= 1#4 -> 0 < d ->
   near r q (u * q + d) -> near x (r * n) (u * (r * n) + d) ->
   near x (n * q) (3 * u * (n * q) + 3 * n * d))%Q.
Proof.
  intros Hq Hn Hu Hu1 Hd [R1 R2] [X1 X2].
  apply (Qmult_le_compat_r _ _ n) in R1; [|lra]. apply (Qmult_le_compat_r _ _ n) in R2; [|lra].
  assert (0 <= n * q)%Q as Hnq by nra. assert (d <= n * d)%Q as Hnd by nra.
  assert (u * (r * n) <= u * (n * q + u * (n * q) + n * d))%Q as Hur by nra.
  assert (u * (u * (n * q)) <= (1#4) * (u * (n * q)))%Q.
  { apply Qmult_le_compat_r; [done|]. nra. }
  assert (u * (n * d) <= (1#4) * (n * d))%Q by (apply Qmult_le_compat_r; lra).
  assert (0 <= u * (n * q))%Q by nra.
  split; lra.
Qed.

Lemma not_infinite x v d : rounds x v d → (v < p2 970)%Q → double x ∧ near (val x) v (unit_roundoff * v + d).
Proof. intros [[_ H]|H] Hlt; [lra|done]. Qed.

Lemma small_unit_roundoff : (unit_roundoff <= 1#4)%Q.
Proof. done. Qed.
Lemma small_underflow : (underflow <= 1#4)%Q.
Proof. done. Qed.

(** A share has a relative error of three roundings. *)
Lemma share_error t n w :
  double w → double t → (0 < val t)%Q → 1 ≤ n ≤ 2 ^ 50 → (val w <= 2 * val t)%Q →
  let v := (inject_Z n * (val w / val t))%Q in
  double (share t n w) ∧
  near (val (share t n w)) v (3 * unit_roundoff * v + 3 * inject_Z n * underflow) ∧
  (val (share t n w) < inject_Z (2 ^ 53))%Q.
Proof.
  intros Hw Ht Htp Hn Hle v. pose proof unit_roundoff_pos as Hu. pose proof underflow_pos as Hd.
  pose proof small_unit_roundoff as Hu'. pose proof small_underflow as Hd'.
  assert (0 <= val w / val t /\ val w / val t <= 2)%Q as [Hq Hq2].
  { split; [|by apply Qle_shift_div_r].
    apply Qle_shift_div_l; [done|]. rewrite Qmult_0_l. by apply val_nonneg. }
  assert (1 <= inject_Z n)%Q as Hn1 by (change 1%Q with (inject_Z 1); rewrite <-Zle_Qle; lia).
  assert (inject_Z n <= inject_Z (2 ^ 50))%Q as Hn2 by (rewrite <-Zle_Qle; lia).
  destruct (not_infinite _ _ _ (f64_div_rounds w t Hw Ht Htp)) as [Hr Hrn].
  { apply Qle_lt_trans with 2%Q; done. }
  destruct (f64_of_Z_exact n) as [Hnd Hnv]; [lia|].
  unfold v, share. revert Hrn Hr. generalize (f64_div w t). intros r Hrn Hr.
  revert Hq Hq2 Hrn. generalize (val w / val t)%Q. intros q Hq Hq2 Hrn.
  pose proof (val_nonneg r Hr) as Hr0.
  assert (val r <= 3)%Q as Hr3 by (destruct Hrn as [_ Hr3]; nra).
  assert (val r * val (f64_of_Z n) <= 3 * inject_Z (2 ^ 50))%Q as Hp.
  { rewrite Hnv. apply Qle_trans with (3 * inject_Z n)%Q; [apply Qmult_le_compat_r; lra|].
    apply Qmult_le_l; lra. }
  destruct (not_infinite _ _ _ (f64_mul_rounds r (f64_of_Z n) Hr Hnd)) as [Hx Hxn].
  { eapply Qle_lt_trans; [exact Hp|]. done. }
  split; [done|]. split.
  - apply (share_arith q (inject_Z n) (val r) _ unit_roundoff underflow); try done.
    unfold near in *. by rewrite <-Hnv.
  - destruct Hxn as [_ Hxn].
    pose proof (Qmult_le_0_compat _ _ Hr0 (val_nonneg _ Hnd)) as Hp0. revert Hp0 Hp Hxn.
    generalize (val r * val (f64_of_Z n))%Q. intros p Hp0 Hp Hxn.
    pose proof (Qmult_le_compat_r _ _ p Hu' Hp0).
    change (inject_Z (2 ^ 53)) with (8 * inject_Z (2 ^ 50))%Q in *.
    assert (1 <= inject_Z (2 ^ 50))%Q by done.
    revert Hp H0. generalize (inject_Z (2 ^ 50)). intros b Hp Hb. lra.
Qed.

Lemma shares_error t n l :
  Forall double l → double t → (0 < val t)%Q → 1 ≤ n ≤ 2 ^ 50 → (sumQ l <= 2 * val t)%Q →
  let v := (inject_Z n * (sumQ l / val t))%Q in
  Forall double (map (share t n) l) ∧
  near (sumQ (map (share t n) l)) v
    (3 * unit_roundoff * v + 3 * inject_Z n * underflow * inject_Z (Z.of_nat (length l))) ∧
  Forall (λ x, (val x < inject_Z (2 ^ 53))%Q) (map (share t n) l).
Proof.
  intros Hl Ht Htp Hn. induction Hl as [|w l Hw Hl IH]; intros Hle v; cbn [map sumQ length].
  - split; [constructor|split; [|constructor]]. assert (v == 0)%Q as E by (unfold v; simpl; field; lra).
    change (inject_Z (Z.of_nat 0)) with 0%Q. unfold near. rewrite E. split; lra.
  - cbn [sumQ] in Hle. pose proof (val_nonneg w Hw). pose proof (sumQ_nonneg l Hl).
    destruct (share_error t n w) as (Hd & [E1 E2] & Hlt); [done..|lra|].
    destruct IH as (Hds & [S1 S2] & Hlts); [lra|].
    split; [by constructor|split; [|by constructor]].
    change (Z.pos (Pos.of_succ_nat (length l))) with (Z.of_nat (S (length l))).
    rewrite Nat2Z.inj_succ, <-Z.add_1_r, inject_Z_plus. change (inject_Z 1) with 1%Q.
    assert (v == inject_Z n * (val w / val t) + inject_Z n * (sumQ l / val t))%Q as Ev
      by (unfold v; cbn [sumQ]; field; lra).
    unfold near. rewrite Ev. split; lra.
Qed.

Lemma sum_trunc l :
  Forall double l →
  (inject_Z (sumZ f64_trunc l) <= sumQ l /\
   sumQ l <= inject_Z (sumZ f64_trunc l) + inject_Z (Z.of_nat (length l)))%Q.
Proof.
  induction 1 as [|x l Hx _ [IH1 IH2]]; [done|]. apply f64_trunc_spec in Hx as [H1 H2].
  change (sumZ f64_trunc (x :: l)) with (f64_trunc x + sumZ f64_trunc l).
  cbn [sumQ length]. rewrite Nat2Z.inj_succ, <-Z.add_1_r, !inject_Z_plus.
  change (inject_Z 1) with 1%Q. split; lra.
Qed.

Lemma total_arith n k u d q v s :
  (0 <= k -> 1 <= n -> 0 < u -> 0 < d -> d <= (1#8) * u -> (k + 3) * n * u <= 1#8 ->
   0 <= q -> q <= 2 ->
   q * (1 - k * u) <= 1 -> 1 <= q * (1 + 2 * k * u) -> v == n * q ->
   near s v (3 * u * v + 3 * n * d * k) -> n - 1 < s /\ s < n + 1)%Q.
Proof.
  intros Hk Hn Hu Hd Hdu Hb Hq Hq2 Hlo Hhi Ev [S1 S2]. rewrite Ev in S1, S2.
  assert (0 <= n * u)%Q as Hnu by nra. assert (0 <= n * u * k)%Q as Hnuk by nra.
  assert (n * d * k <= (1#8) * (n * u * k))%Q as Hnd by nra.
  apply (Qmult_le_compat_r _ _ n) in Hlo; [|lra]. apply (Qmult_le_compat_r _ _ n) in Hhi; [|lra].
  assert (n * u * q <= n * u * 2)%Q as H1 by (rewrite !(Qmult_comm (n * u)); by apply Qmult_le_compat_r).
  assert (n * u * k * q <= n * u * k * 2)%Q as H2
    by (rewrite !(Qmult_comm (n * u * k)); by apply Qmult_le_compat_r).
  assert (0 <= n * u * q)%Q by nra. assert (0 <= n * u * k * q)%Q by nra.
  split; lra.
Qed.

Lemma fair_arith n u d q x w :
  (1 <= n -> 0 < u -> 0 < d -> d <= (1#8) * u -> 3 * n * u <= 1#8 -> 0 <= q -> q <= 2 ->
   near x (n * q) (3 * u * (n * q) + 3 * n * d) -> w <= x -> x < w + 1 ->
   near w (n * q) (3#2) /\ near (w + 1) (n * q) (3#2))%Q.
Proof.
  intros Hn Hu Hd Hdu Hb Hq Hq2 [X1 X2] Hw Hw1.
  assert (0 <= n * u)%Q as Hnu by nra. assert (n * d <= (1#8) * (n * u))%Q as Hnd by nra.
  assert (n * u * q <= n * u * 2)%Q as H1 by (rewrite !(Qmult_comm (n * u)); by apply Qmult_le_compat_r).
  split; split; lra.
Qed.

(** A total that was computed in floating point, and its division among its terms. *)
Section Shares.
Context (t : f64) (n : Z) (l : list f64).
Hypothesis terms_plus : Forall plus l.
Hypothesis total_sum : t = f64_sum l.
Hypothesis total_double : double t.
Hypothesis total_pos : (0 < val t)%Q.
Hypothesis n_pos : 1 ≤ n.
Hypothesis n_small : (Z.of_nat (length l) + 3) * n ≤ 2 ^ 50.

Let k : Q := inject_Z (Z.of_nat (length l)).

Lemma terms_double : Forall double l.
Proof.
  destruct (fold_add_double l f64_zero) as [_ H]; [by left|done| |done].
  by rewrite total_sum in total_double.
Qed.

Lemma count_nonneg : (0 <= k)%Q.
Proof. apply inject_Z_nonneg. lia. Qed.

Lemma n_at_least_1 : (1 <= inject_Z n)%Q.
Proof. change 1%Q with (inject_Z 1). rewrite <-Zle_Qle. done. Qed.

Lemma error_budget : ((k + 3) * inject_Z n * unit_roundoff <= 1#8)%Q.
Proof.
  apply Qle_trans with (inject_Z (2 ^ 50) * unit_roundoff)%Q; [|done].
  apply Qmult_le_r; [done|]. unfold k. change 3%Q with (inject_Z 3).
  rewrite <-inject_Z_plus, <-inject_Z_mult, <-Zle_Qle. done.
Qed.

(** The computed total against the exact sum. *)
Lemma total_close :
  (sumQ l <= 2 * val t /\
   sumQ l / val t * (1 - k * unit_roundoff) <= 1 /\
   1 <= sumQ l / val t * (1 + 2 * k * unit_roundoff))%Q.
Proof.
  pose proof unit_roundoff_pos as Hu. pose proof count_nonneg as Hk.
  pose proof n_at_least_1 as Hn1. pose proof error_budget as Hku.
  assert (k * unit_roundoff <= 1#8)%Q as Hku1.
  { apply Qle_trans with ((k + 3) * inject_Z n * unit_roundoff)%Q; [|done].
    apply Qmult_le_compat_r; [nra|lra]. }
  pose proof terms_double as Hl. pose proof total_double as Ht. pose proof total_pos as Htp.
  rewrite total_sum in Ht.
  destruct (fold_add_error l f64_zero) as [T1 T2]; [done|done|done|fold k; lra|].
  change (fold_left f64_add l f64_zero) with (f64_sum l) in T1, T2. rewrite <-total_sum in T1, T2.
  change (val f64_zero) with 0%Q in T1, T2. rewrite Qplus_0_l in T1, T2. fold k in T1, T2.
  pose proof (sumQ_nonneg l Hl) as HS.
  assert (sumQ l == sumQ l / val t * val t)%Q as Eq by (field; lra).
  split; [nra|split]; apply (Qmult_le_r _ _ (val t)); try done.
  - revert T1. rewrite Eq at 1. intros T1. lra.
  - revert T2. rewrite Eq at 1. intros T2. lra.
Qed.

(** The errors of the shares add up to less than one. *)
Lemma shares_total_error :
  Forall double (map (share t n) l) ∧
  Forall (λ x, (val x < inject_Z (2 ^ 53))%Q) (map (share t n) l) ∧
  (inject_Z n - 1 < sumQ (map (share t n) l) /\ sumQ (map (share t n) l) < inject_Z n + 1)%Q.
Proof.
  destruct total_close as (HS2 & T1 & T2). pose proof (sumQ_nonneg l terms_double) as HS.
  pose proof error_budget as Hb. pose proof n_at_least_1. pose proof count_nonneg.
  destruct (shares_error t n l terms_double total_double total_pos) as (Hd & Hnear & Hlt);
    [nia|done|]. split; [done|split; [done|]]. fold k in Hnear.
  eapply (total_arith (inject_Z n) k unit_roundoff underflow (sumQ l / val t));
    try exact Hnear; try done.
  - apply Qle_shift_div_l; [exact total_pos|]. lra.
  - by apply Qle_shift_div_r.
Qed.

(** Rounding the shares down leaves at most one unit for each of them, and never hands out
    more than there is. *)
Lemma shares_floor :
  0 ≤ n - sumZ (λ w, f64_as_i64 (f64_floor (share t n w))) l ≤ Z.of_nat (length l).
Proof.
  destruct shares_total_error as (Hd & Hlt & H1 & H2).
  destruct (sum_trunc _ Hd) as [S1 S2]. rewrite length_map in S2.
  assert (sumZ (λ w, f64_as_i64 (f64_floor (share t n w))) l = sumZ f64_trunc (map (share t n) l)) as ->.
  { rewrite sumZ_map. apply sumZ_ext. intros w Hw. rewrite Forall_forall in Hd, Hlt.
    apply f64_floor_as_i64; [apply Hd|apply Hlt]; by apply in_map, list_elem_of_In. }
  set (s := sumZ f64_trunc (map (share t n) l)) in *.
  change 1%Q with (inject_Z 1) in H1, H2.
  assert (inject_Z s < inject_Z (n + 1))%Q as U by (rewrite inject_Z_plus; lra).
  assert (inject_Z (n - 1) < inject_Z (s + Z.of_nat (length l)))%Q as L.
  { unfold Z.sub. rewrite !inject_Z_plus, inject_Z_opp. lra. }
  rewrite <-Zlt_Qlt in U, L. lia.
Qed.

Lemma term_le_sum w : w ∈ l → double w ∧ (val w <= sumQ l)%Q.
Proof.
  intros Hw. pose proof terms_double as Hl. clear -Hw Hl.
  induction Hl as [|x l Hx Hl IH]; [by apply not_elem_of_nil in Hw|]. simpl.
  pose proof (val_nonneg x Hx). pose proof (sumQ_nonneg l Hl).
  apply elem_of_cons in Hw as [->|Hw]; [split; [done|lra]|].
  destruct (IH Hw). split; [done|lra].
Qed.

(** A rounded share, with or without a unit of the rest, is within three halves of the
    proportional one. *)
Lemma share_fair w :
  w ∈ l →
  let v := (inject_Z n * (val w / val t))%Q in
  let whole := f64_as_i64 (f64_floor (share t n w)) in
  near (inject_Z whole) v (3#2) ∧ near (inject_Z (whole + 1)) v (3#2).
Proof.
  intros Hw v whole. destruct (term_le_sum w Hw) as [Hd Hle].
  destruct total_close as (HS2 & _). pose proof error_budget as Hb. pose proof n_at_least_1 as Hn1.
  pose proof count_nonneg as Hk. pose proof unit_roundoff_pos as Hu.
  destruct (share_error t n w Hd total_double total_pos) as (Hx & Hnear & Hlt); [nia|lra|].
  unfold whole. rewrite f64_floor_as_i64 by done. destruct (f64_trunc_spec _ Hx) as [F1 F2].
  unfold near. rewrite inject_Z_plus. change (inject_Z 1) with 1%Q.
  eapply (fair_arith (inject_Z n) unit_roundoff underflow (val w / val t)); try exact Hnear; try done.
  - apply Qle_trans with ((k + 3) * inject_Z n * unit_roundoff)%Q; [|done].
    apply Qmult_le_r; [done|]. apply Qmult_le_compat_r; lra.
  - apply Qle_shift_div_l; [exact total_pos|]. pose proof (val_nonneg w Hd). lra.
  - apply Qle_shift_div_r; [exact total_pos|]. lra.
Qed.
End Shares.

(** A double above zero. *)
Lemma double_pos x : double x → f64_gt x f64_zero = true → (0 < val x)%Q.
Proof.
  destruct x as [s|s| |s m e]; cbn [double]; [by destruct s|done|done|]. intros [-> _] _.
  cbn [val]. apply Qmult_lt_0_compat; [done|apply p2_pos].
Qed.

Lemma double_not_neg x : double x → f64_not_neg x = true.
Proof. by destruct x as [[]| | |[]]; try intros [? _]. Qed.

(** Integers as floats. *)
Lemma plus_of_Z z : 0 ≤ z → plus (f64_of_Z z).
Proof. intros H. by eapply rounds_plus, f64_of_Z_rounds. Qed.

Lemma f64_of_Z_pos z : 0 < z → in_i64 z → double (f64_of_Z z) ∧ (0 < val (f64_of_Z z))%Q.
Proof.
  intros Hz [_ Hi]. pose proof small_unit_roundoff as Hu.
  assert (1 <= inject_Z z)%Q as H1 by (change 1%Q with (inject_Z 1); rewrite <-Zle_Qle; lia).
  destruct (not_infinite _ _ _ (f64_of_Z_rounds z ltac:(lia))) as [Hd [Hn _]].
  { apply Qle_lt_trans with (inject_Z i64_max); [by rewrite <-Zle_Qle|done]. }
  split; [done|]. apply (Qmult_le_compat_r _ _ (inject_Z z)) in Hu; [|lra]. lra.
Qed.

Lemma f64_of_Z_double z : 0 ≤ z → in_i64 z → double (f64_of_Z z).
Proof.
  intros Hz Hi. destruct (decide (z = 0)) as [->|]; [done|]. apply f64_of_Z_pos; [lia|done].
Qed.

Lemma plus_mul x y : plus x → double y → (0 < val y)%Q → plus (f64_mul x y).
Proof.
  intros [Hx| ->] Hy Hpos; [by eapply rounds_plus, f64_mul_rounds|].
  destruct y as [| | |s m e]; cbn [double] in Hy; try done. destruct Hy as [-> _]. by right.
Qed.

Lemma plus_not_neg x : plus x → f64_not_neg x = true.
Proof. intros [H| ->]; [by apply double_not_neg|done]. Qed.

Lemma plus_sub_not_nan x y : plus x → double y → f64_nan (f64_sub x y) = false.
Proof.
  intros [Hx| ->] Hy.
  - apply f64_sub_finite_not_nan; [by destruct x|by destruct y].
  - by destruct y.
Qed.
