(* ===== verification/VarDiff.v ===== *)
(** Per-session variable difficulty: [share_processing/difficulty.rs].

    [VarDiff] keeps the pool difficulty of one connection between the
    configured floor and the network difficulty, and moves it by at most a
    factor of 1.5 up and 0.67 down at every retarget. Instants and durations
    are nanoseconds. A [clamp] with an empty interval panics, and so does a
    retarget interval that is not a duration: both are [Panic]. *)
From Stdlib Require Import ZArith Lia String Init.Byte Floats.SpecFloat.
From stdpp Require Import base option list numbers strings sets gmap.
From S2P Require Import Prelude Float64.
#[local] Open Scope Z_scope.

(** Library code: the [hex] crate's decoder and the difficulty of a target. *)
Class Hashing := {
  hex_decode : string → option (list byte);
  target_to_difficulty : list byte → option f64;
}.

(** [src/src/share_processing/difficulty.rs:11-15 network_target_hex_to_difficulty]
    [hex::decode] and [target_to_difficulty] are library code. *)
Definition network_target_hex_to_difficulty
    (hex_decode : string → option (list byte))
    (target_to_difficulty : list byte → option f64) (hex : string) : option f64 :=
  bytes ← hex_decode hex;
  if (length bytes =? 32)%nat then target_to_difficulty bytes else None.

(** [src/src/share_processing/difficulty.rs:19-31 VarDiffConfig] *)
Record VarDiffConfig := mkVarDiffConfig {
  min_floor : f64;
  initial_pct : f64;
  target_secs : f64;
  retarget_secs : f64;
  variance_percent : f64;
}.

(** [src/src/share_processing/difficulty.rs:34-42 VarDiffConfig::default] *)
Definition VarDiffConfig_default : VarDiffConfig :=
  mkVarDiffConfig (f64_lit 1 1000) (f64_lit 2 100) (f64_of_Z 20) (f64_of_Z 60)
    (f64_lit 30 100).

(** [src/src/share_processing/difficulty.rs:51-61 VarDiff] *)
Record VarDiff := mkVarDiff {
  vd_config : VarDiffConfig;
  vd_current : f64;
  vd_max : f64;
  vd_last_retarget : Z;
  vd_share_timestamps : list Z;
}.

(** [src/src/share_processing/difficulty.rs:68-77 VarDiff::new] *)
Definition VarDiff_new (config : VarDiffConfig) (n_diff : f64) (now : Z) : result VarDiff :=
  initial ← f64_clamp (f64_mul (initial_pct config) n_diff) (min_floor config) n_diff;
  Ok (mkVarDiff config initial n_diff now []).

(** [src/src/share_processing/difficulty.rs:80-82 VarDiff::current] *)
Definition current (v : VarDiff) : f64 := vd_current v.

(** [src/src/share_processing/difficulty.rs:86-88 VarDiff::record_share] *)
Definition record_share (v : VarDiff) (now : Z) : VarDiff :=
  mkVarDiff (vd_config v) (vd_current v) (vd_max v) (vd_last_retarget v)
    (vd_share_timestamps v ++ [now]).

(** [src/src/share_processing/difficulty.rs:95-106 VarDiff::update_max] *)
Definition update_max (v : VarDiff) (new_n_diff : f64) : option f64 * VarDiff :=
  let old_current := vd_current v in
  let cur := if f64_gt old_current new_n_diff then new_n_diff else old_current in
  let v' := mkVarDiff (vd_config v) cur new_n_diff (vd_last_retarget v)
              (vd_share_timestamps v) in
  if f64_gt (f64_abs (f64_sub cur old_current)) f64_epsilon
  then (Some cur, v') else (None, v').

(** [src/src/share_processing/difficulty.rs:126-131 VarDiff::maybe_retarget (part)]
    The shares since the last retarget. *)
Definition share_count (v : VarDiff) : f64 :=
  f64_of_Z (Z.of_nat (length (filter (λ t, vd_last_retarget v ≤ t) (vd_share_timestamps v)))).

(** [src/src/share_processing/difficulty.rs:137-139 VarDiff::maybe_retarget (part)]
    The observed share rate over the expected one. *)
Definition retarget_ratio (v : VarDiff) (now : Z) : f64 :=
  let window_secs := duration_as_secs_f64 (duration_since now (vd_last_retarget v)) in
  f64_div (share_count v) (f64_div window_secs (target_secs (vd_config v))).

(** [src/src/share_processing/difficulty.rs:146-150 VarDiff::maybe_retarget (part)]
    The bounded step: at most 1.5 times, at least 0.67 times. *)
Definition retarget_factor (ratio : f64) : f64 :=
  if f64_gt ratio (f64_of_Z 1) then f64_min ratio (f64_lit 3 2)
  else f64_max ratio (f64_lit 67 100).

(** [src/src/share_processing/difficulty.rs:120-161 VarDiff::maybe_retarget] *)
Definition maybe_retarget (v : VarDiff) (now : Z) : result (option f64 * VarDiff) :=
  interval ← duration_from_secs_f64 (retarget_secs (vd_config v));
  if duration_since now (vd_last_retarget v) <? interval then Ok (None, v)
  else if f64_lt (share_count v) (f64_of_Z 1) then Ok (None, v)
  else
    let ratio := retarget_ratio v now in
    if f64_le (f64_abs (f64_sub ratio (f64_of_Z 1))) (variance_percent (vd_config v))
    then Ok (None, v)
    else
      new_diff ← f64_clamp (f64_mul (vd_current v) (retarget_factor ratio))
                   (min_floor (vd_config v)) (vd_max v);
      if f64_lt (f64_abs (f64_sub new_diff (vd_current v))) f64_epsilon
      then Ok (None, v)
      else Ok (Some new_diff, mkVarDiff (vd_config v) new_diff (vd_max v) now []).

(** * Invariant: the difficulty is in [[min_floor, max]] *)

Definition in_range (v : VarDiff) : Prop :=
  f64_le (min_floor (vd_config v)) (vd_current v) = true ∧
  f64_le (vd_current v) (vd_max v) = true.

Lemma in_range_max v : in_range v → f64_le (min_floor (vd_config v)) (vd_max v) = true.
Proof. intros [? ?]. eauto using f64_le_trans. Qed.

Lemma record_share_range v now : in_range v → in_range (record_share v now).
Proof. done. Qed.

Lemma update_max_range v n :
  in_range v → f64_le (min_floor (vd_config v)) n = true → in_range (update_max v n).2.
Proof.
  intros [H1 H2] Hn. destruct (f64_le_not_nan _ _ H2), (f64_le_not_nan _ _ Hn).
  assert (in_range (mkVarDiff (vd_config v)
    (if f64_gt (vd_current v) n then n else vd_current v) n
    (vd_last_retarget v) (vd_share_timestamps v))) as Hr.
  { unfold in_range, f64_gt; simpl. destruct (f64_lt n (vd_current v)) eqn:E.
    - auto using f64_le_refl.
    - by rewrite f64_lt_le_total, negb_false_iff in E. }
  unfold update_max. by destruct (f64_gt (f64_abs _) _).
Qed.

Lemma retarget_factor_finite ratio :
  match retarget_factor ratio with S754_finite _ _ _ => True | _ => False end.
Proof.
  assert (f64_lt (f64_of_Z 1) (f64_lit 3 2) = true) as H32 by reflexivity.
  unfold retarget_factor, f64_gt.
  destruct (f64_lt (f64_of_Z 1) ratio) eqn:E.
  - apply (f64_between_pos (f64_of_Z 1) (f64_lit 3 2)); [by repeat eexists..| |];
      destruct (f64_lt_not_nan _ _ E) as [_ Hn]; unfold f64_min; rewrite Hn;
      destruct (f64_lt ratio (f64_lit 3 2)) eqn:E'; simpl; auto with f64.
  - unfold f64_max. destruct (f64_nan ratio) eqn:Hn; [done|]. simpl.
    destruct (f64_lt ratio (f64_lit 67 100)) eqn:E'; [done|].
    rewrite f64_lt_le_total, negb_false_iff in E, E' by done.
    by apply (f64_between_pos (f64_lit 67 100) (f64_of_Z 1)); [by repeat eexists..| |].
Qed.

(** The step never leaves [[0.67, 1.5]]. *)
Lemma retarget_factor_bounds ratio :
  f64_le (f64_lit 67 100) (retarget_factor ratio) = true ∧
  f64_le (retarget_factor ratio) (f64_lit 3 2) = true.
Proof.
  unfold retarget_factor, f64_gt.
  destruct (f64_lt (f64_of_Z 1) ratio) eqn:E.
  - destruct (f64_lt_not_nan _ _ E) as [_ Hn]. unfold f64_min. rewrite Hn. simpl.
    destruct (f64_lt ratio (f64_lit 3 2)) eqn:E'; [|done].
    split; [|auto with f64]. eapply f64_le_trans; [|by apply f64_lt_le]. done.
  - unfold f64_max. destruct (f64_nan ratio) eqn:Hn; [done|]. simpl.
    destruct (f64_lt ratio (f64_lit 67 100)) eqn:E'; [done|].
    rewrite f64_lt_le_total, negb_false_iff in E, E' by done.
    split; [done|]. by eapply f64_le_trans.
Qed.

Lemma retarget_product_not_nan v ratio :
  in_range v → f64_nan (f64_mul (vd_current v) (retarget_factor ratio)) = false.
Proof.
  intros [H _]. destruct (f64_le_not_nan _ _ H) as [_ ?].
  apply f64_mul_not_nan; [done|]. apply retarget_factor_finite.
Qed.

(** What a retarget does: it leaves the controller alone and reports nothing,
    or it moves the difficulty. *)
Definition retargeted (v : VarDiff) (now : Z) (d : f64) (v' : VarDiff) : Prop :=
  (∃ interval, duration_from_secs_f64 (retarget_secs (vd_config v)) = Ok interval ∧
     interval ≤ duration_since now (vd_last_retarget v)) ∧
  f64_le (f64_of_Z 1) (share_count v) = true ∧
  f64_le (f64_abs (f64_sub (retarget_ratio v now) (f64_of_Z 1)))
    (variance_percent (vd_config v)) = false ∧
  (∃ factor, f64_le (f64_lit 67 100) factor = true ∧ f64_le factor (f64_lit 3 2) = true ∧
     f64_clamp (f64_mul (vd_current v) factor) (min_floor (vd_config v)) (vd_max v) = Ok d) ∧
  v' = mkVarDiff (vd_config v) d (vd_max v) now [].

Lemma share_count_not_nan v : f64_nan (share_count v) = false.
Proof.
  unfold share_count, f64_of_Z, binary_normalize.
  destruct (Z.of_nat _); [done|..]; unfold binary_round;
    destruct (shl_align _ _ _); by apply binary_round_aux_not_nan.
Qed.

Lemma maybe_retarget_cases v now o v' :
  maybe_retarget v now = Ok (o, v') →
  match o with None => v' = v | Some d => retargeted v now d v' end.
Proof.
  unfold maybe_retarget, mbind, result_bind.
  destruct (duration_from_secs_f64 _) as [interval|e|] eqn:Ed; try done.
  destruct (Z.ltb_spec (duration_since now (vd_last_retarget v)) interval); [by intros [= <- <-]|].
  destruct (f64_lt (share_count v) (f64_of_Z 1)) eqn:Ec; [by intros [= <- <-]|].
  destruct (f64_le (f64_abs _) _) eqn:Ev; [by intros [= <- <-]|].
  destruct (f64_clamp _ _ _) as [d|e|] eqn:Ek; try done.
  destruct (f64_lt (f64_abs _) _) eqn:Ee; intros [= <- <-]; [done|].
  rewrite f64_lt_le_total, negb_false_iff in Ec by (done || apply share_count_not_nan).
  pose proof (retarget_factor_bounds (retarget_ratio v now)) as [? ?].
  split_and!; eauto 10.
Qed.

Lemma maybe_retarget_range v now o v' :
  in_range v → maybe_retarget v now = Ok (o, v') → in_range v' ∧ vd_config v' = vd_config v.
Proof.
  intros Hv H. pose proof (maybe_retarget_cases _ _ _ _ H) as Hc.
  destruct o as [d|]; [|by subst]. destruct Hc as (_ & _ & _ & _ & ->).
  split; [|done]. revert H. unfold maybe_retarget, mbind, result_bind.
  destruct (duration_from_secs_f64 _); try done. repeat (case_match; try done).
  intros [= <-]. by eapply f64_clamp_range; [apply retarget_product_not_nan|].
Qed.

Lemma maybe_retarget_total v now interval :
  in_range v → duration_from_secs_f64 (retarget_secs (vd_config v)) = Ok interval →
  is_ok (maybe_retarget v now) = true.
Proof.
  intros Hv Hi. unfold maybe_retarget, mbind, result_bind. rewrite Hi.
  unfold f64_clamp. rewrite (in_range_max v Hv). repeat case_match; done.
Qed.

(** * Histories of one session

    An accepted share is recorded and may retarget at once; a new job
    updates the ceiling (the only two callers, in [stratum_protocol/server.rs]). *)
Inductive vd_event : Type :=
  | AcceptedShare (now : Z)
  | NewJob (n_diff : f64).

Definition vd_step (v : VarDiff) (e : vd_event) : result VarDiff :=
  match e with
  | AcceptedShare now => snd <$> maybe_retarget (record_share v now) now
  | NewJob n => Ok (update_max v n).2
  end.

Fixpoint vd_run (v : VarDiff) (es : list vd_event) : result VarDiff :=
  match es with
  | [] => Ok v
  | e :: es' => v' ← vd_step v e; vd_run v' es'
  end.

(** Every network difficulty seen is at or above the floor. *)
Definition above_floor (floor : f64) (es : list vd_event) : bool :=
  forallb (λ e, match e with NewJob n => f64_le floor n | _ => true end) es.

Lemma vd_step_range v e interval :
  in_range v → duration_from_secs_f64 (retarget_secs (vd_config v)) = Ok interval →
  above_floor (min_floor (vd_config v)) [e] = true →
  ∃ v', vd_step v e = Ok v' ∧ in_range v' ∧ vd_config v' = vd_config v.
Proof.
  intros Hv Hi He. destruct e as [now|n]; simpl in *.
  - pose proof (maybe_retarget_total (record_share v now) now interval
      (record_share_range v now Hv) Hi) as Ht.
    destruct (maybe_retarget (record_share v now) now) as [[o v']|e|] eqn:E; try done.
    destruct (maybe_retarget_range _ _ _ _ (record_share_range v now Hv) E).
    exists v'. done.
  - rewrite andb_true_r in He. exists (update_max v n).2. split_and!; [done| |].
    + by apply update_max_range.
    + unfold update_max. by destruct (f64_gt (f64_abs _) _).
Qed.

Lemma vd_run_range v es interval :
  in_range v → duration_from_secs_f64 (retarget_secs (vd_config v)) = Ok interval →
  above_floor (min_floor (vd_config v)) es = true →
  ∃ v', vd_run v es = Ok v' ∧ in_range v' ∧ vd_config v' = vd_config v.
Proof.
  revert v; induction es as [|e es IH]; intros v Hv Hi He; [by exists v|].
  simpl in He. apply andb_true_iff in He as [He Hes].
  destruct (vd_step_range v e interval Hv Hi) as (v1 & E1 & Hr1 & Hc1).
  { simpl. by rewrite He. }
  destruct (IH v1) as (v2 & E2 & Hr2 & Hc2); rewrite ?Hc1; try done.
  exists v2. simpl. unfold mbind, result_bind. rewrite E1, E2. by rewrite Hc2.
Qed.

(** C25: From creation on, through any history of accepted shares and new
    jobs whose network difficulty is not below the floor, the controller
    never panics and its difficulty stays between the floor and the current
    network difficulty. *)
Theorem vardiff_stays_in_range (config : VarDiffConfig) (n_diff : f64) (now : Z)
    (es : list vd_event) (interval : Z) :
  duration_from_secs_f64 (retarget_secs config) = Ok interval →
  f64_finite (initial_pct config) = true → f64_finite n_diff = true →
  f64_le (min_floor config) n_diff = true →
  above_floor (min_floor config) es = true →
  ∃ v v', VarDiff_new config n_diff now = Ok v ∧ vd_run v es = Ok v' ∧
    f64_le (min_floor config) (current v') = true ∧ f64_le (current v') (vd_max v') = true.
Proof.
  intros Hi Hp Hn Hfl Hes.
  pose proof (f64_mul_finite_not_nan _ _ Hp Hn) as Hnan.
  destruct (f64_clamp (f64_mul (initial_pct config) n_diff) (min_floor config) n_diff)
    as [c|e|] eqn:Ec.
  - pose proof (f64_clamp_range _ _ _ _ Hnan Ec) as [? ?].
    destruct (vd_run_range (mkVarDiff config c n_diff now []) es interval)
      as (v' & E & [H1 H2] & Hc); try done.
    exists (mkVarDiff config c n_diff now []), v'.
    unfold VarDiff_new, mbind, result_bind. rewrite Ec. simpl in Hc. by rewrite Hc in H1.
  - unfold f64_clamp in Ec. by rewrite Hfl in Ec.
  - apply f64_clamp_panic in Ec. congruence.
Qed.

Definition ex_events : list vd_event :=
  AcceptedShare 5000000000 :: AcceptedShare 9000000000 :: AcceptedShare 20000000000 ::
  AcceptedShare 25000000000 :: AcceptedShare 30000000000 :: NewJob (f64_of_Z 90) ::
  [AcceptedShare 61000000000].

Lemma vardiff_stays_in_range_witness :
  ∃ v v', VarDiff_new VarDiffConfig_default (f64_of_Z 100) 0 = Ok v ∧
    vd_run v ex_events = Ok v' ∧
    f64_le (min_floor VarDiffConfig_default) (current v') = true ∧
    f64_le (current v') (vd_max v') = true.
Proof.
  apply (vardiff_stays_in_range VarDiffConfig_default (f64_of_Z 100) 0 ex_events 60000000000);
    vm_compute; reflexivity.
Defined.

(** A retarget that reports nothing leaves the controller unchanged; one
    that reports a difficulty happens no earlier than the configured
    interval, with at least one share and outside the dead band, multiplies
    by a factor in [[0.67, 1.5]], clamps to the range, and starts a new
    window. *)
Theorem maybe_retarget_spec (v : VarDiff) (now : Z) :
  match maybe_retarget v now with
  | Ok (None, v') => v' = v
  | Ok (Some d, v') => retargeted v now d v'
  | Err _ => False
  | Panic => duration_from_secs_f64 (retarget_secs (vd_config v)) = Panic ∨
             f64_le (min_floor (vd_config v)) (vd_max v) = false
  end.
Proof.
  destruct (maybe_retarget v now) as [[o v']|e|] eqn:E.
  - pose proof (maybe_retarget_cases _ _ _ _ E). by destruct o.
  - revert E. unfold maybe_retarget, mbind, result_bind, f64_clamp, duration_from_secs_f64.
    repeat case_match; done.
  - revert E. unfold maybe_retarget, mbind, result_bind.
    destruct (duration_from_secs_f64 _) as [|e|] eqn:Ei; [|done|by left].
    repeat (case_match; try done). intros _. right. by eapply f64_clamp_panic.
Qed.

(** Creating a session panics exactly when the network difficulty is
    below the configured floor (or is not a number): [clamp] needs a
    non-empty interval. With the default floor of 0.001 that is every
    network whose difficulty is smaller, such as a regression-test chain. *)
Theorem VarDiff_new_panics (config : VarDiffConfig) (n_diff : f64) (now : Z) :
  VarDiff_new config n_diff now = Panic ↔ f64_le (min_floor config) n_diff = false.
Proof.
  rewrite <-(f64_clamp_panic (f64_mul (initial_pct config) n_diff)).
  unfold VarDiff_new, mbind, result_bind. by destruct (f64_clamp _ _ _).
Qed.

Example VarDiff_new_regtest : VarDiff_new VarDiffConfig_default (f64_lit 46 100000000000) 0 = Panic.
Proof. reflexivity. Qed.

(** A new ceiling is stored and the difficulty is lowered to it when it
    was above, and only then; the caller is told the new difficulty exactly
    when it moved by more than the machine epsilon. *)
Theorem update_max_spec (v : VarDiff) (n : f64) :
  f64_nan (vd_current v) = false → f64_nan n = false →
  let '(o, v') := update_max v n in
  vd_config v' = vd_config v ∧ vd_max v' = n ∧ f64_le (vd_current v') n = true ∧
  (vd_current v' = vd_current v ∧ f64_le (vd_current v) n = true ∨
   vd_current v' = n ∧ f64_lt n (vd_current v) = true) ∧
  vd_last_retarget v' = vd_last_retarget v ∧
  vd_share_timestamps v' = vd_share_timestamps v ∧
  o = (if f64_gt (f64_abs (f64_sub (vd_current v') (vd_current v))) f64_epsilon
       then Some (vd_current v') else None).
Proof.
  intros Hc Hn. unfold update_max.
  change (f64_gt (vd_current v) n) with (f64_lt n (vd_current v)).
  destruct (f64_lt n (vd_current v)) eqn:E.
  - destruct (f64_gt _ _) eqn:E'; simpl; rewrite E'; auto 10 with f64.
  - rewrite f64_lt_le_total, negb_false_iff in E by done.
    destruct (f64_gt _ _) eqn:E'; simpl; rewrite E'; auto 10.
Qed.

Definition ex_vardiff : VarDiff :=
  mkVarDiff VarDiffConfig_default (f64_of_Z 150) (f64_of_Z 200) 0 [].

Lemma update_max_spec_witness :
  f64_nan (vd_current ex_vardiff) = false ∧ f64_nan (f64_of_Z 50) = false ∧
  let '(o, v') := update_max ex_vardiff (f64_of_Z 50) in
  vd_config v' = vd_config ex_vardiff ∧ vd_max v' = f64_of_Z 50 ∧
  f64_le (vd_current v') (f64_of_Z 50) = true ∧
  (vd_current v' = vd_current ex_vardiff ∧ f64_le (vd_current ex_vardiff) (f64_of_Z 50) = true ∨
   vd_current v' = f64_of_Z 50 ∧ f64_lt (f64_of_Z 50) (vd_current ex_vardiff) = true) ∧
  vd_last_retarget v' = vd_last_retarget ex_vardiff ∧
  vd_share_timestamps v' = vd_share_timestamps ex_vardiff ∧
  o = (if f64_gt (f64_abs (f64_sub (vd_current v') (vd_current ex_vardiff))) f64_epsilon
       then Some (vd_current v') else None).
Proof.
  split; [vm_compute; reflexivity|]. split; [vm_compute; reflexivity|].
  apply (update_max_spec ex_vardiff (f64_of_Z 50)); vm_compute; reflexivity.
Defined.
