(* ===== verification/Db.v ===== *)
(** The accounting database: [accounting/schema.rs] and the row types of the
    repositories.

    A table is the list of its rows in rowid order together with its
    AUTOINCREMENT counter. A column that no statement reads ([created_at] of
    most tables, [found_blocks.extranonce1], [dust_balances.updated_at]) is
    left out. [CURRENT_TIMESTAMP] is the field [clock] of the database. The
    repositories bind a [u64] as a signed 64-bit integer and fail when it does
    not fit. A row id that an insert did not use is not skipped: SQLite allows
    gaps after a conflict, and nothing here relies on there being none. *)
From Stdlib Require Import ZArith Lia String Sorted.
From stdpp Require Import base option list numbers strings sets gmap.
From S2P Require Import Prelude Text Float64.
#[local] Open Scope Z_scope.

(** * Rows *)

(** [src/src/accounting/worker_repository.rs:8-12 Worker] *)
Record Worker := mkWorker {
  w_id : Z;
  w_payout_address : string;
  w_worker_suffix : option string;
}.

(** [src/src/accounting/share_repository.rs:10-23 Share] *)
Record Share := mkShare {
  s_id : Z;
  s_worker_id : Z;
  s_session_id : string;
  s_job_id : string;
  s_template_id : Z;
  s_template_epoch : Z;
  s_extranonce1 : string;
  s_extranonce2 : string;
  s_ntime_hex_6b : string;
  s_nonce_hex_8b : string;
  s_difficulty : f64;
  s_dedupe_key : string;
}.

(** [src/src/accounting/share_repository.rs:28-42 ShareOutcome] *)
Record ShareOutcome := mkShareOutcome {
  o_id : Z;
  o_share_id : Z;
  o_session_id : string;
  o_worker_id : Z;
  o_job_id : string;
  o_round_id : option Z;
  o_dedupe_key : string;
  o_status : string;
  o_reject_reason : option string;
  o_node_result : option string;
  o_low_diff_ok : option bool;
  o_network_target_ok : option bool;
  o_block_hash : option string;
}.

(** [src/src/accounting/share_repository.rs:47-55 AuthorizationEvent] *)
Record AuthorizationEvent := mkAuthorizationEvent {
  ae_id : Z;
  ae_session_id : string;
  ae_worker_name : string;
  ae_payout_address : string;
  ae_worker_suffix : option string;
  ae_authorized : bool;
  ae_reason : option string;
}.

(** [src/src/accounting/round_repository.rs:8-14 Round] *)
Record Round := mkRound {
  r_id : Z;
  r_start_template_id : Z;
  r_end_template_id : option Z;
  r_status : string;
  r_found_block_hash : option string;
}.

(** [src/src/accounting/found_block_repository.rs:8-28 FoundBlock] *)
Record FoundBlock := mkFoundBlock {
  fb_id : Z;
  fb_round_id : Z;
  fb_block_hash : string;
  fb_height : Z;
  fb_status : string;
  fb_worker_id : option Z;
  fb_template_id : option Z;
  fb_persist_source : option string;
  fb_orphan_reason : option string;
  fb_matured_at : option string;
  fb_coinbase_value : Z;
  fb_coinbase_txid : option string;
  fb_network_target_hex : string;
}.

(** [src/src/accounting/payout_repository.rs:8-22 PayoutBatch] *)
Record PayoutBatch := mkPayoutBatch {
  pb_id : Z;
  pb_round_id : Z;
  pb_status : string;
  pb_total_amount : Z;
  pb_pool_fee_amount : Z;
  pb_pool_fee_address : option string;
  pb_miner_count : Z;
  pb_retry_key : option string;
  pb_last_error : option string;
  pb_next_retry_at : option string;
  pb_attempt_count : Z;
  pb_signed_payload_ref : option string;
  pb_submitted_txid : option string;
}.

(** [src/src/accounting/payout_repository.rs:26-33 Payout] *)
Record Payout := mkPayout {
  p_id : Z;
  p_batch_id : Z;
  p_worker_id : Z;
  p_payout_address : string;
  p_amount : Z;
  p_dust_carried_forward : Z;
}.

(** [src/src/accounting/payout_repository.rs:37-45 PayoutShareSnapshot] *)
Record PayoutShareSnapshot := mkPayoutShareSnapshot {
  ps_id : Z;
  ps_batch_id : Z;
  ps_share_id : Z;
  ps_share_outcome_id : Z;
  ps_payout_address : string;
  ps_work_units : f64;
  ps_share_created_at : string;
}.

(** [src/src/accounting/accounting_event_repository.rs:9-24 AccountingEvent] *)
Record AccountingEvent := mkAccountingEvent {
  ev_id : Z;
  ev_event_type : string;
  ev_status : string;
  ev_session_id : option string;
  ev_worker_id : option Z;
  ev_worker_name : option string;
  ev_payout_address : option string;
  ev_round_id : option Z;
  ev_template_id : option Z;
  ev_template_epoch : option Z;
  ev_job_id : option string;
  ev_block_hash : option string;
  ev_height : option Z;
  ev_payload_json : option string;
}.

(** Rows of the two tables whose [created_at] column is read. *)
Record ShareRow := mkShareRow { sr_share : Share; sr_created_at : string }.
Record OutcomeRow := mkOutcomeRow { or_outcome : ShareOutcome; or_created_at : string }.

(** [src/src/accounting/schema.rs:201-207 dust_balances (part)] *)
Record DustBalance := mkDustBalance { d_payout_address : string; d_balance : Z }.

(** * Tables *)

Record table (R : Type) := mkTable { rows : list R; seq : Z }.
Arguments mkTable {R} _ _.
Arguments rows {R} _.
Arguments seq {R} _.

Definition empty_table {R} : table R := mkTable [] 0.

(** An insert takes the next rowid. *)
Definition insert_row {R} (mk : Z → R) (t : table R) : Z * table R :=
  (seq t + 1, mkTable (rows t ++ [mk (seq t + 1)]) (seq t + 1)).

(** [UPDATE .. WHERE p] and [DELETE .. WHERE p] *)
Definition update_rows {R} (p : R → bool) (f : R → R) (t : table R) : table R :=
  mkTable (map (λ r, if p r then f r else r) (rows t)) (seq t).

Definition delete_rows {R} (p : R → bool) (t : table R) : table R :=
  mkTable (List.filter (λ r, negb (p r)) (rows t)) (seq t).

#[global] Arguments insert_row : simpl never.
#[global] Arguments update_rows : simpl never.
#[global] Arguments delete_rows : simpl never.

(** [src/src/accounting/schema.rs:9-209 init_schema (part)] *)
Record Db := mkDb {
  workers : table Worker;
  authorization_events : table AuthorizationEvent;
  shares : table ShareRow;
  share_outcomes : table OutcomeRow;
  rounds : table Round;
  accounting_events : table AccountingEvent;
  found_blocks : table FoundBlock;
  payout_batches : table PayoutBatch;
  payouts : table Payout;
  payout_share_snapshots : table PayoutShareSnapshot;
  dust_balances : table DustBalance;
  clock : string;
}.

(** [src/src/accounting/schema.rs:9-209 init_schema (part)]
    A fresh database: every table empty. *)
Definition fresh_db (now : string) : Db :=
  mkDb empty_table empty_table empty_table empty_table empty_table empty_table
    empty_table empty_table empty_table empty_table empty_table now.

(** [src/src/accounting/schema.rs:4-211 init_schema]
    Every statement is a [CREATE .. IF NOT EXISTS]: a database with the tables, which an
    earlier run left, stays as it is. *)
Definition init_schema (stored : option Db) (now : string) : Db := default (fresh_db now) stored.

Definition set_workers (d : Db) t : Db :=
  mkDb t (authorization_events d) (shares d) (share_outcomes d) (rounds d)
    (accounting_events d) (found_blocks d) (payout_batches d) (payouts d)
    (payout_share_snapshots d) (dust_balances d) (clock d).
Definition set_authorization_events (d : Db) t : Db :=
  mkDb (workers d) t (shares d) (share_outcomes d) (rounds d)
    (accounting_events d) (found_blocks d) (payout_batches d) (payouts d)
    (payout_share_snapshots d) (dust_balances d) (clock d).
Definition set_shares (d : Db) t : Db :=
  mkDb (workers d) (authorization_events d) t (share_outcomes d) (rounds d)
    (accounting_events d) (found_blocks d) (payout_batches d) (payouts d)
    (payout_share_snapshots d) (dust_balances d) (clock d).
Definition set_share_outcomes (d : Db) t : Db :=
  mkDb (workers d) (authorization_events d) (shares d) t (rounds d)
    (accounting_events d) (found_blocks d) (payout_batches d) (payouts d)
    (payout_share_snapshots d) (dust_balances d) (clock d).
Definition set_rounds (d : Db) t : Db :=
  mkDb (workers d) (authorization_events d) (shares d) (share_outcomes d) t
    (accounting_events d) (found_blocks d) (payout_batches d) (payouts d)
    (payout_share_snapshots d) (dust_balances d) (clock d).
Definition set_accounting_events (d : Db) t : Db :=
  mkDb (workers d) (authorization_events d) (shares d) (share_outcomes d) (rounds d)
    t (found_blocks d) (payout_batches d) (payouts d)
    (payout_share_snapshots d) (dust_balances d) (clock d).
Definition set_found_blocks (d : Db) t : Db :=
  mkDb (workers d) (authorization_events d) (shares d) (share_outcomes d) (rounds d)
    (accounting_events d) t (payout_batches d) (payouts d)
    (payout_share_snapshots d) (dust_balances d) (clock d).
Definition set_payout_batches (d : Db) t : Db :=
  mkDb (workers d) (authorization_events d) (shares d) (share_outcomes d) (rounds d)
    (accounting_events d) (found_blocks d) t (payouts d)
    (payout_share_snapshots d) (dust_balances d) (clock d).
Definition set_payouts (d : Db) t : Db :=
  mkDb (workers d) (authorization_events d) (shares d) (share_outcomes d) (rounds d)
    (accounting_events d) (found_blocks d) (payout_batches d) t
    (payout_share_snapshots d) (dust_balances d) (clock d).
Definition set_payout_share_snapshots (d : Db) t : Db :=
  mkDb (workers d) (authorization_events d) (shares d) (share_outcomes d) (rounds d)
    (accounting_events d) (found_blocks d) (payout_batches d) (payouts d)
    t (dust_balances d) (clock d).
Definition set_dust_balances (d : Db) t : Db :=
  mkDb (workers d) (authorization_events d) (shares d) (share_outcomes d) (rounds d)
    (accounting_events d) (found_blocks d) (payout_batches d) (payouts d)
    (payout_share_snapshots d) t (clock d).

(** * Statements *)

Abbreviation DbM := (M Db).

(** A statement on the whole database. *)
Definition stmt {A} (f : Db → result A * Db) : DbM A := f.

(** A query: it reads the database and changes nothing. *)
Definition query {A} (f : Db → result A) : DbM A := λ d, (f d, d).

(** Binding a [u64] parameter. *)
Definition bind_u64 (z : Z) : DbM Z :=
  if z <=? i64_max then mret z else mfail ToSqlConversion.

Definition bind_opt_u64 (o : option Z) : DbM (option Z) :=
  match o with Some z => z ← bind_u64 z; mret (Some z) | None => mret None end.

(** A constraint of the schema: the statement fails and changes nothing. *)
Definition constraint (holds : bool) (what : string) : DbM unit :=
  if holds then mret tt else mfail (SqliteConstraint what).

(** [BEGIN TRANSACTION .. COMMIT], or [ROLLBACK] when the body fails. *)
Definition transaction {A} (body : DbM A) : DbM A := λ d,
  match body d with
  | (Ok a, d') => (Ok a, d')
  | (Err e, _) => (Err e, d)
  | (Panic, _) => (Panic, d)
  end.

Definition has_id {R} (id : R → Z) (i : Z) (t : table R) : bool :=
  existsb (λ r, id r =? i) (rows t).

Definition fk_opt {R} (id : R → Z) (o : option Z) (t : table R) : bool :=
  match o with Some i => has_id id i t | None => true end.

(** [query_row] with at most one expected row: the first one found. *)
Definition select_one {R} (p : R → bool) (t : table R) : option R := List.find p (rows t).

(** The order of [ORDER BY key] is fixed up to rows with equal keys: SQLite
    returns some sorted arrangement of the rows. *)
Class SqlOrder := {
  sql_order_by : ∀ {A : Type}, (A → A → bool) → list A → list A;
  sql_order_perm : ∀ A (le : A → A → bool) l, sql_order_by le l ≡ₚ l;
  sql_order_sorted : ∀ A (le : A → A → bool) l,
    (∀ x y, le x y = true ∨ le y x = true) →
    (∀ x y z, le x y = true → le y z = true → le x z = true) →
    StronglySorted (λ x y, le x y = true) (sql_order_by le l);
}.

(** The arrangement that keeps rowid order among equal keys. *)
#[export] Instance stable_order : SqlOrder := {|
  sql_order_by A := isort;
  sql_order_perm A := isort_perm;
  sql_order_sorted A le l := λ H1 H2, isort_sorted le H1 H2 l;
|}.

(** A statement panics only where its body does. *)
Ltac stmt_no_panic := intros; intros ?; unfold stmt, query, ok_or; repeat case_match; simpl in *; congruence.

(** * Well-formedness: the constraints the schema declares *)

Definition tids {R} (id : R → Z) (t : table R) : list Z := map id (rows t).

Record table_ok {R} (id : R → Z) (t : table R) : Prop := {
  ids_sorted : StronglySorted Z.lt (tids id t);
  ids_bound : Forall (λ i, 1 ≤ i ≤ seq t) (tids id t);
  seq_nonneg : 0 ≤ seq t;
}.

Definition sr_id (r : ShareRow) : Z := s_id (sr_share r).
Definition or_id (r : OutcomeRow) : Z := o_id (or_outcome r).
Definition worker_key (w : Worker) : option (string * string) :=
  (λ s, (w_payout_address w, s)) <$> w_worker_suffix w.

(** Primary keys, the [NOT NULL] difficulty, [UNIQUE] and [FOREIGN KEY]
    constraints. A worker without a
    suffix has [NULL] in a unique column and is never a duplicate. *)
Record db_wf (d : Db) : Prop := {
  wf_workers : table_ok w_id (workers d);
  wf_auth : table_ok ae_id (authorization_events d);
  wf_shares : table_ok sr_id (shares d);
  wf_outcomes : table_ok or_id (share_outcomes d);
  wf_rounds : table_ok r_id (rounds d);
  wf_events : table_ok ev_id (accounting_events d);
  wf_blocks : table_ok fb_id (found_blocks d);
  wf_batches : table_ok pb_id (payout_batches d);
  wf_payouts : table_ok p_id (payouts d);
  wf_snapshots : table_ok ps_id (payout_share_snapshots d);
  nn_difficulty : Forall (λ r, f64_nan (s_difficulty (sr_share r)) = false) (rows (shares d));
  uq_worker : NoDup (omap worker_key (rows (workers d)));
  uq_share : NoDup (map (λ r, s_dedupe_key (sr_share r)) (rows (shares d)));
  uq_outcome : NoDup (map (λ r, o_dedupe_key (or_outcome r)) (rows (share_outcomes d)));
  uq_block : NoDup (map fb_block_hash (rows (found_blocks d)));
  uq_retry : NoDup (omap pb_retry_key (rows (payout_batches d)));
  uq_dust : NoDup (map d_payout_address (rows (dust_balances d)));
  fk_share_worker :
    map (λ r, s_worker_id (sr_share r)) (rows (shares d)) ⊆ tids w_id (workers d);
  fk_outcome_share :
    map (λ r, o_share_id (or_outcome r)) (rows (share_outcomes d)) ⊆ tids sr_id (shares d);
  fk_outcome_worker :
    map (λ r, o_worker_id (or_outcome r)) (rows (share_outcomes d)) ⊆ tids w_id (workers d);
  fk_block_round : map fb_round_id (rows (found_blocks d)) ⊆ tids r_id (rounds d);
  fk_block_worker : omap fb_worker_id (rows (found_blocks d)) ⊆ tids w_id (workers d);
  fk_batch_round : map pb_round_id (rows (payout_batches d)) ⊆ tids r_id (rounds d);
  fk_payout_batch : map p_batch_id (rows (payouts d)) ⊆ tids pb_id (payout_batches d);
  fk_payout_worker : map p_worker_id (rows (payouts d)) ⊆ tids w_id (workers d);
  fk_snap_batch :
    map ps_batch_id (rows (payout_share_snapshots d)) ⊆ tids pb_id (payout_batches d);
  fk_snap_share :
    map ps_share_id (rows (payout_share_snapshots d)) ⊆ tids sr_id (shares d);
  fk_snap_outcome :
    map ps_share_outcome_id (rows (payout_share_snapshots d)) ⊆ tids or_id (share_outcomes d);
}.

Definition wf_rel (d d' : Db) : Prop := db_wf d → db_wf d'.
#[export] Instance wf_rel_preorder : PreOrder wf_rel.
Proof. split; red; unfold wf_rel; auto. Qed.

(** ** Generic lemmas on tables *)

Lemma StronglySorted_snoc (l : list Z) x :
  StronglySorted Z.lt l → Forall (λ y, y < x) l → StronglySorted Z.lt (l ++ [x]).
Proof.
  induction 1 as [|y l Hl IH Hy]; intros Hx; simpl; [by repeat constructor|].
  apply Forall_cons in Hx as [? ?]. constructor; [auto|].
  apply Forall_app. split; [done|]. by constructor.
Qed.

Lemma StronglySorted_filter {A} (R : A → A → Prop) (f : A → bool) l :
  StronglySorted R l → StronglySorted R (List.filter f l).
Proof.
  induction 1 as [|y l Hl IH Hy]; simpl; [constructor|].
  destruct (f y); [|done]. constructor; [done|].
  apply Forall_forall. intros z Hz. apply list_elem_of_In, filter_In in Hz as [Hz _].
  rewrite Forall_forall in Hy. apply Hy. by apply list_elem_of_In.
Qed.

Lemma StronglySorted_lt_NoDup (l : list Z) : StronglySorted Z.lt l → NoDup l.
Proof.
  induction 1 as [|y l Hl IH Hy]; constructor; [|done].
  rewrite Forall_forall in Hy. intros Hin. apply Hy in Hin. lia.
Qed.

Lemma NoDup_snoc {A} (l : list A) x : NoDup l → x ∉ l → NoDup (l ++ [x]).
Proof.
  intros. apply NoDup_app. split_and!; [done| |apply NoDup_singleton].
  intros y Hy Hin. apply list_elem_of_singleton in Hin as ->. done.
Qed.

Lemma tids_insert_row {R} (id : R → Z) mk (t : table R) :
  (∀ i, id (mk i) = i) → tids id (insert_row mk t).2 = tids id t ++ [seq t + 1].
Proof. intros H. unfold tids, insert_row. simpl. rewrite map_app. simpl. by rewrite H. Qed.

Lemma rows_insert_row {R} mk (t : table R) :
  rows (insert_row mk t).2 = rows t ++ [mk (seq t + 1)].
Proof. done. Qed.

Lemma insert_row_ok {R} (id : R → Z) mk (t : table R) :
  (∀ i, id (mk i) = i) → table_ok id t → table_ok id (insert_row mk t).2.
Proof.
  intros H [H1 H2 H3]. split.
  - rewrite tids_insert_row by done. apply StronglySorted_snoc; [done|].
    eapply Forall_impl; [exact H2|]. unfold insert_row. simpl. lia.
  - rewrite tids_insert_row by done. apply Forall_app. split.
    + eapply Forall_impl; [exact H2|]. unfold insert_row. simpl. lia.
    + constructor; [unfold insert_row; simpl; lia|done].
  - unfold insert_row. simpl. lia.
Qed.

Lemma tids_update_rows {R} (id : R → Z) p f (t : table R) :
  (∀ r, id (f r) = id r) → tids id (update_rows p f t) = tids id t.
Proof.
  intros H. unfold tids, update_rows. simpl. rewrite map_map. apply map_ext.
  intros r. by destruct (p r).
Qed.

Lemma update_rows_ok {R} (id : R → Z) p f (t : table R) :
  (∀ r, id (f r) = id r) → table_ok id t → table_ok id (update_rows p f t).
Proof. intros H [H1 H2 H3]. by split; rewrite ?tids_update_rows. Qed.

Lemma map_update_rows {R B} (g : R → B) p f (t : table R) :
  (∀ r, g (f r) = g r) → map g (rows (update_rows p f t)) = map g (rows t).
Proof.
  intros H. unfold update_rows. simpl. rewrite map_map. apply map_ext. intros r. by destruct (p r).
Qed.

Lemma omap_update_rows {R B} (g : R → option B) p f (t : table R) :
  (∀ r, g (f r) = g r) → omap g (rows (update_rows p f t)) = omap g (rows t).
Proof.
  intros H. unfold update_rows. simpl. induction (rows t) as [|r l IH]; [done|]. simpl.
  assert (g (if p r then f r else r) = g r) as -> by by destruct (p r).
  destruct (g r); simpl; [f_equal|]; exact IH.
Qed.

(** A loop of updates by key: each row is changed by the element with its key. *)
Lemma update_loop {R K} `{EqDecision K} (key : R → K) (g : R → R → R) (l : list R) xs :
  NoDup (map key xs) → (∀ x b, key (g x b) = key b) →
  foldl (λ l x, map (λ b, if bool_decide (key b = key x) then g x b else b) l) l xs =
  map (λ b, match List.find (λ x, bool_decide (key b = key x)) xs with
            | Some x => g x b | None => b end) l.
Proof.
  intros Hd Hg. revert l. induction xs as [|x xs IH]; intros l; simpl.
  - by rewrite map_id.
  - simpl in Hd. apply NoDup_cons in Hd as [Hx Hd]. rewrite IH, map_map by done.
    apply map_ext. intros b. destruct (decide (key b = key x)) as [E|E].
    + rewrite bool_decide_true by done.
      assert (List.find (λ x0, bool_decide (key (g x b) = key x0)) xs = None) as ->; [|done].
      apply existsb_find_none, not_true_iff_false. intros (y & Hy & Hk)%existsb_exists.
      apply bool_decide_eq_true in Hk. apply Hx. rewrite <-E, <-(Hg x b), Hk.
      apply elem_of_map. exists y. by rewrite list_elem_of_In.
    + by rewrite bool_decide_false by done.
Qed.

Lemma list_map_ext_elem {A B} (f g : A → B) l : (∀ x, x ∈ l → f x = g x) → map f l = map g l.
Proof.
  induction l as [|x l IH]; intros H; [done|]. simpl. f_equal; [apply H; set_solver|].
  apply IH. intros; apply H; set_solver.
Qed.

Lemma NoDup_rev_2 {A} (l : list A) : NoDup l → NoDup (rev l).
Proof. intros H. by rewrite <-Permutation_rev. Qed.

Lemma NoDup_filter_map {A K} (key : A → K) (p : A → bool) l :
  NoDup (map key l) → NoDup (map key (List.filter p l)).
Proof.
  induction l as [|x l IH]; simpl; [done|]. intros [Hx Hd]%NoDup_cons.
  destruct (p x); [|auto]. simpl. apply NoDup_cons. split; [|auto].
  intros (y & E & Hy)%elem_of_map. apply Hx. rewrite E. apply elem_of_map.
  apply elem_of_filter_b in Hy as [Hy _]. eauto.
Qed.

(** The loop over the rows selected by [p], with an effect [g] on the row itself. *)
Lemma update_selected_loop {R K} `{EqDecision K} (key : R → K) (p : R → bool) (g : R → R → R)
    (l : list R) :
  NoDup (map key l) → (∀ x b, key (g x b) = key b) →
  foldl (λ l x, map (λ b, if bool_decide (key b = key x) then g x b else b) l) l
    (rev (List.filter p l)) =
  map (λ b, if p b then g b b else b) l.
Proof.
  intros Hd Hg. rewrite update_loop; [|..|done].
  - apply list_map_ext_elem. intros b Hb. rewrite find_by_key by done. by destruct (p b).
  - rewrite map_rev. apply NoDup_rev_2, (NoDup_filter_map key p), Hd.
Qed.

Lemma delete_rows_ok {R} (id : R → Z) p (t : table R) :
  table_ok id t → table_ok id (delete_rows p t).
Proof.
  intros [H1 H2 H3].
  assert (∀ l, sublist (List.filter (λ r : R, negb (p r)) l) l) as Hsub.
  { induction l as [|r l IH]; simpl; [done|]. by destruct (negb (p r)); constructor. }
  split; [| |done].
  - unfold tids, delete_rows in *. simpl. induction (rows t) as [|r l IH]; simpl; [constructor|].
    simpl in H1. inversion H1 as [|? ? Hl Hr]; subst.
    inversion H2; subst. specialize (IH Hl ltac:(done)).
    destruct (negb (p r)); [|done]. simpl. constructor; [done|].
    apply Forall_forall. intros z Hz. rewrite Forall_forall in Hr. apply Hr.
    apply list_elem_of_In, in_map_iff in Hz as (x & <- & Hx).
    apply filter_In in Hx as [Hx _]. apply list_elem_of_In, in_map_iff. by exists x.
  - unfold tids, delete_rows in *. simpl. apply Forall_forall. intros z Hz.
    apply list_elem_of_In, in_map_iff in Hz as (x & <- & Hx).
    apply filter_In in Hx as [Hx _]. rewrite Forall_forall in H2. apply H2.
    apply list_elem_of_In, in_map_iff. by exists x.
Qed.

Lemma map_delete_rows_subset {R B} (g : R → B) p (t : table R) :
  map g (rows (delete_rows p t)) ⊆ map g (rows t).
Proof.
  intros b Hb. apply list_elem_of_In, in_map_iff in Hb as (x & <- & Hx).
  unfold delete_rows in Hx. simpl in Hx. apply filter_In in Hx as [Hx _].
  apply list_elem_of_In, in_map_iff. by exists x.
Qed.

Lemma has_id_spec {R} (id : R → Z) i (t : table R) : has_id id i t = true ↔ i ∈ tids id t.
Proof.
  unfold has_id, tids. rewrite existsb_exists, list_elem_of_In, in_map_iff.
  split; intros (x & H1 & H2); exists x; rewrite ?Z.eqb_eq in *; auto.
Qed.

Lemma table_ok_seq_fresh {R} (id : R → Z) (t : table R) : table_ok id t → seq t + 1 ∉ tids id t.
Proof.
  intros [_ H _] Hin. rewrite Forall_forall in H. apply H in Hin. lia.
Qed.

(** Two rows of a table with the same id are the same row. *)
Lemma table_ok_inj {R} (id : R → Z) (t : table R) x y :
  table_ok id t → x ∈ rows t → y ∈ rows t → id x = id y → x = y.
Proof.
  intros [H _ _] Hx Hy Heq. apply StronglySorted_lt_NoDup in H. unfold tids in H.
  induction (rows t) as [|r l IH]; [set_solver|]. simpl in H.
  apply NoDup_cons in H as [Hr Hl].
  assert (∀ z, z ∈ l → id z ≠ id r) as Hne.
  { intros z Hz E. apply Hr. rewrite <-E. apply list_elem_of_In, in_map_iff.
    exists z. split; [done|]. by apply list_elem_of_In. }
  apply elem_of_cons in Hx as [->|Hx]; apply elem_of_cons in Hy as [->|Hy]; auto.
  - by destruct (Hne _ Hy).
  - by destruct (Hne _ Hx).
Qed.

(** Replace an updated table by a variable with the facts that matter, so that
    the other tables simplify away. *)
Ltac with_insert id mk t :=
  let t' := fresh "t'" in let Hok := fresh "Hok" in
  let Hids := fresh "Hids" in let Hrows := fresh "Hrows" in
  pose proof (insert_row_ok id mk t ltac:(done) ltac:(done)) as Hok;
  pose proof (tids_insert_row id mk t ltac:(done)) as Hids;
  pose proof (rows_insert_row mk t) as Hrows;
  revert Hok Hids Hrows; generalize (insert_row mk t).2; intros t' Hok Hids Hrows.

(** Evaluate a closed term of the goal. *)
Ltac eval_rows e := let l := eval vm_compute in e in change e with l.

Lemma transaction_snd {A} (body : DbM A) d :
  (transaction body d).2 = d ∨ (transaction body d).2 = (body d).2.
Proof. unfold transaction. destruct (body d) as [[]]; auto. Qed.

Lemma Keeps_transaction (R : Db → Db → Prop) `{!PreOrder R} {A} (body : DbM A) :
  Keeps R body → Keeps R (transaction body).
Proof.
  intros H d. destruct (transaction_snd body d) as [-> | ->]; [reflexivity|apply H].
Qed.

(** A failed transaction leaves the database as it was. *)
Lemma transaction_atomic {A} (body : DbM A) d :
  is_ok (transaction body d).1 = false → (transaction body d).2 = d.
Proof. unfold transaction. by destruct (body d) as [[]]. Qed.

Lemma Keeps_bind_u64 (R : Db → Db → Prop) `{!PreOrder R} z : Keeps R (bind_u64 z).
Proof. unfold bind_u64. destruct (z <=? i64_max); [apply Keeps_ret|apply Keeps_fail]; done. Qed.

Lemma Keeps_constraint (R : Db → Db → Prop) `{!PreOrder R} b w : Keeps R (constraint b w).
Proof. unfold constraint. destruct b; [apply Keeps_ret|apply Keeps_fail]; done. Qed.

Lemma bind_query {A B} (f : Db → result A) (k : A → DbM B) d :
  (query f ≫= k) d = match f d with Ok a => k a d | Err e => (Err e, d) | Panic => (Panic, d) end.
Proof. unfold mbind, M_bind, query. by destruct (f d). Qed.

Lemma transaction_ok {A} (body : DbM A) d a d' :
  transaction body d = (Ok a, d') ↔ body d = (Ok a, d').
Proof. unfold transaction. destruct (body d) as [[]]; naive_solver. Qed.

Lemma transaction_is_ok {A} (body : DbM A) d : is_ok (transaction body d).1 = is_ok (body d).1.
Proof. unfold transaction. by destruct (body d) as [[]]. Qed.

Lemma Keeps_query (R : Db → Db → Prop) `{!PreOrder R} {A} (f : Db → result A) :
  Keeps R (query f).
Proof. intros d. reflexivity. Qed.

Lemma Keeps_bind_opt_u64 (R : Db → Db → Prop) `{!PreOrder R} o : Keeps R (bind_opt_u64 o).
Proof.
  destruct o; simpl; [|by apply Keeps_ret].
  apply Keeps_bind; [done|by apply Keeps_bind_u64|intros; by apply Keeps_ret].
Qed.

#[export] Hint Resolve Keeps_bind_u64 Keeps_bind_opt_u64 Keeps_constraint Keeps_transaction
  Keeps_query : keeps.

(** After a bind the code goes on with the argument itself. *)
Lemma Keeps_after_bind_u64 (R : Db → Db → Prop) `{!PreOrder R} {A} z (f : Z → DbM A) :
  (z ≤ i64_max → Keeps R (f z)) → Keeps R (bind_u64 z ≫= f).
Proof.
  intros H d. unfold bind_u64. munfold.
  destruct (Z.leb_spec z i64_max); [by apply H|reflexivity].
Qed.

Lemma Keeps_after_bind_opt_u64 (R : Db → Db → Prop) `{!PreOrder R} {A} o (f : option Z → DbM A) :
  Keeps R (f o) → Keeps R (bind_opt_u64 o ≫= f).
Proof.
  intros H. destruct o as [z|]; [|done]. intros d. unfold bind_opt_u64, bind_u64. munfold.
  destruct (Z.leb_spec z i64_max); [by apply H|reflexivity].
Qed.

(** A successful bind returns its argument, which fits. *)
Lemma bind_u64_ok z d z' d' : bind_u64 z d = (Ok z', d') → z' = z ∧ d' = d ∧ z ≤ i64_max.
Proof.
  unfold bind_u64. destruct (Z.leb_spec z i64_max); [|done]. by intros [= <- <-].
Qed.

Lemma bind_opt_u64_ok o d o' d' :
  bind_opt_u64 o d = (Ok o', d') → o' = o ∧ d' = d ∧ (∀ z, o = Some z → z ≤ i64_max).
Proof.
  destruct o as [z|]; simpl; munfold; [|by intros [= <- <-]].
  destruct (bind_u64 z d) as [[z'|e|] d1] eqn:E; [|done..].
  apply bind_u64_ok in E as (-> & -> & ?). intros [= <- <-]. naive_solver.
Qed.

Lemma fresh_db_wf now : db_wf (fresh_db now).
Proof.
  assert (∀ R (id : R → Z), table_ok id empty_table) by (intros; split; try constructor; done).
  split; simpl; auto; try constructor; set_solver.
Qed.
