(* ===== verification/WorkerRepository.v ===== *)
(** [accounting/worker_repository.rs]: workers, keyed by payout address and
    optional suffix. *)
From Stdlib Require Import ZArith Lia String.
From stdpp Require Import base option list numbers strings sets gmap.
From S2P Require Import Prelude Text Float64 Db.
#[local] Open Scope Z_scope.

(** The conflict target of the upsert: a row with the same address and the
    same suffix. [NULL] is not equal to [NULL], so a worker without suffix
    never conflicts. *)
Definition conflicts (payout_address : string) (suffix : option string) (w : Worker) : bool :=
  String.eqb (w_payout_address w) payout_address &&
  match w_worker_suffix w, suffix with
  | Some a, Some b => String.eqb a b
  | _, _ => false
  end.

(** [worker_suffix.filter(|s| !s.is_empty())] *)
Definition suffix_value (worker_suffix : option string) : option string :=
  match worker_suffix with Some EmptyString => None | o => o end.

(** [src/src/accounting/worker_repository.rs:24-48 WorkerRepository::upsert]
    On a conflict the update writes the address it already has. *)
Definition upsert (payout_address : string) (worker_suffix : option string) : DbM Worker := λ d,
  let sv := suffix_value worker_suffix in
  match select_one (conflicts payout_address sv) (workers d) with
  | Some w => (Ok w, d)
  | None =>
      let mk i := mkWorker i payout_address sv in
      let '(i, t) := insert_row mk (workers d) in
      (Ok (mk i), set_workers d t)
  end.

(** [src/src/accounting/worker_repository.rs:50-68 WorkerRepository::get_by_id] *)
Definition get_by_id (d : Db) (id : Z) : option Worker :=
  select_one (λ w, w_id w =? id) (workers d).

(** [src/src/accounting/worker_repository.rs:70-86 WorkerRepository::list_all] *)
Definition list_all (d : Db) : list Worker := rows (workers d).

(** [src/src/accounting/worker_repository.rs:89-94 WorkerRepository::count] *)
Definition count (d : Db) : Z := Z.of_nat (length (rows (workers d))).

(** * Properties *)

Lemma conflicts_key a s w :
  conflicts a s w = true ↔ ∃ t, s = Some t ∧ worker_key w = Some (a, t).
Proof.
  unfold conflicts, worker_key. destruct (w_worker_suffix w) as [u|], s as [t|]; simpl;
    rewrite ?andb_true_iff, ?String.eqb_eq; naive_solver.
Qed.

Lemma upsert_worker a s d w d' :
  upsert a s d = (Ok w, d') →
  w ∈ rows (workers d') ∧ w_payout_address w = a ∧ w_worker_suffix w = suffix_value s.
Proof.
  unfold upsert, select_one. destruct (List.find _ _) as [w0|] eqn:E; intros [= <- <-].
  - apply find_some in E as [Hin Hc]. apply conflicts_key in Hc as (t & Hs & Hk).
    rewrite list_elem_of_In. split; [done|]. unfold worker_key in Hk.
    destruct (w_worker_suffix w0); simplify_eq/=. by rewrite Hs.
  - split_and!; [|done|done]. unfold insert_row. simpl. set_solver.
Qed.

Lemma upsert_ok a s d : ∃ w d', upsert a s d = (Ok w, d').
Proof. unfold upsert. destruct (select_one _ _); simpl; eauto. Qed.

Lemma set_workers_grow_wf d mk :
  (∀ i, w_id (mk i) = i) →
  (∀ k, worker_key (mk (seq (workers d) + 1)) = Some k → k ∉ omap worker_key (rows (workers d))) →
  wf_rel d (set_workers d (insert_row mk (workers d)).2).
Proof.
  intros Hid Hk []. with_insert w_id mk (workers d).
  split; simpl; auto; rewrite ?Hids; auto with fk.
  rewrite Hrows, omap_app. simpl.
  destruct (worker_key (mk _)) eqn:E; [|by rewrite app_nil_r].
  apply NoDup_snoc; [done|]. by apply Hk.
Qed.

Lemma upsert_wf a s : Keeps wf_rel (upsert a s).
Proof.
  intros d. unfold upsert, select_one.
  destruct (List.find _ _) eqn:E; simpl; [reflexivity|].
  apply (set_workers_grow_wf d (λ i, mkWorker i a (suffix_value s))); [done|].
  intros k Hk Hin. apply list_elem_of_omap in Hin as (w & Hw & Hwk).
  pose proof (find_none _ _ E w ltac:(by apply list_elem_of_In)) as Hc.
  unfold worker_key in Hk. simpl in Hk. destruct (suffix_value s) as [t|] eqn:Es; simplify_eq/=.
  assert (conflicts a (Some t) w = true); [|congruence].
  apply conflicts_key. eauto.
Qed.
#[export] Hint Resolve upsert_wf : keeps.

(** A worker with a suffix is found again: the second upsert returns the same
    row and changes nothing. *)
Lemma upsert_again a s d w d' :
  suffix_value s ≠ None → upsert a s d = (Ok w, d') → upsert a s d' = (Ok w, d').
Proof.
  intros Hs. unfold upsert, select_one.
  destruct (List.find _ _) as [w0|] eqn:E; intros [= <- <-]; [by rewrite E|].
  unfold insert_row. simpl. rewrite find_app, E. simpl.
  assert (conflicts a (suffix_value s)
    (mkWorker (seq (workers d) + 1) a (suffix_value s)) = true) as ->; [|done].
  apply conflicts_key. destruct (suffix_value s); [|done]. eauto.
Qed.

(** A worker without a suffix is a new row with a new id every time. *)
Lemma upsert_no_suffix a s d w d' :
  suffix_value s = None → upsert a s d = (Ok w, d') →
  w = mkWorker (seq (workers d) + 1) a None ∧
  d' = set_workers d (insert_row (λ i, mkWorker i a None) (workers d)).2.
Proof.
  intros Hs. unfold upsert, select_one. rewrite Hs.
  destruct (List.find _ _) as [w0|] eqn:E; [|by intros [= <- <-]].
  apply find_some in E as [_ Hc]. apply conflicts_key in Hc as (? & ? & _). done.
Qed.

Lemma upsert_frame a s d w d' :
  upsert a s d = (Ok w, d') → d' = set_workers d (workers d').
Proof.
  unfold upsert. destruct (select_one _ _); intros [= _ <-]; by destruct d.
Qed.
