(* ===== verification/AccountingEventRepository.v ===== *)
(** [accounting/accounting_event_repository.rs]: the append-only audit log. *)
From Stdlib Require Import ZArith Lia String.
From stdpp Require Import base option list numbers strings sets gmap.
From S2P Require Import Prelude Text Float64 Db.
#[local] Open Scope Z_scope.

(** [src/src/accounting/accounting_event_repository.rs:39-65 AccountingEventRepository::record_event] *)
Definition record_event (event : AccountingEvent) : DbM Z :=
  tid ← bind_opt_u64 (ev_template_id event);
  epoch ← bind_opt_u64 (ev_template_epoch event);
  stmt (λ d,
    let mk i := mkAccountingEvent i (ev_event_type event) (ev_status event)
      (ev_session_id event) (ev_worker_id event) (ev_worker_name event)
      (ev_payout_address event) (ev_round_id event) tid epoch (ev_job_id event)
      (ev_block_hash event) (ev_height event) (ev_payload_json event) in
    let '(i, t) := insert_row mk (accounting_events d) in
    (Ok i, set_accounting_events d t)).

(** The [assert!]s of the row conversion. *)
Definition nonneg_opt (o : option Z) : bool := match o with Some v => 0 <=? v | None => true end.

Definition read_event (e : AccountingEvent) : result AccountingEvent :=
  if nonneg_opt (ev_template_id e) && nonneg_opt (ev_template_epoch e) && nonneg_opt (ev_height e)
  then Ok e else Panic.

(** SQL [LIMIT l OFFSET o]: a negative limit is no limit, a negative offset is zero. *)
Definition sql_limit {A} (limit offset : Z) (l : list A) : list A :=
  let l := drop (Z.to_nat offset) l in
  if limit <? 0 then l else take (Z.to_nat limit) l.

(** [src/src/accounting/accounting_event_repository.rs:68-126 AccountingEventRepository::list_by_type] *)
Definition list_by_type (d : Db) (event_type : string) (limit offset : Z) :
    result (list AccountingEvent) :=
  let sel := sql_limit limit offset
    (rev (List.filter (λ e, String.eqb (ev_event_type e) event_type) (rows (accounting_events d)))) in
  foldr (λ e acc, e ← read_event e; es ← acc; Ok (e :: es)) (Ok []) sel.

(** [src/src/accounting/accounting_event_repository.rs:129-135 AccountingEventRepository::count_by_type] *)
Definition count_by_type (d : Db) (event_type : string) : Z :=
  Z.of_nat (length (List.filter (λ e, String.eqb (ev_event_type e) event_type)
                      (rows (accounting_events d)))).

(** * Properties *)

Lemma append_event_wf d mk :
  (∀ i, ev_id (mk i) = i) →
  wf_rel d (set_accounting_events d (insert_row mk (accounting_events d)).2).
Proof. intros Hid []. with_insert ev_id mk (accounting_events d). split; simpl; auto. Qed.

Lemma record_event_wf e : Keeps wf_rel (record_event e).
Proof.
  unfold record_event. keeps. intros d. by apply append_event_wf.
Qed.
#[export] Hint Resolve record_event_wf : keeps.

(** Recording an event touches the log only, and appends to it. *)
Lemma record_event_frame e d :
  (record_event e d).2 = d ∨
  ∃ x, ev_event_type x = ev_event_type e ∧ ev_status x = ev_status e ∧
    ev_round_id x = ev_round_id e ∧
    (record_event e d).2 = set_accounting_events d
      (mkTable (rows (accounting_events d) ++ [x]) (seq (accounting_events d) + 1)).
Proof.
  unfold record_event, bind_opt_u64, bind_u64. munfold.
  destruct (ev_template_id e) as [t|]; [destruct (t <=? i64_max)|];
    (destruct (ev_template_epoch e) as [t'|]; [destruct (t' <=? i64_max)|]); simpl; auto;
    right; eexists; (split_and!; [..|reflexivity]); done.
Qed.
