(* ===== verification/RoundRepository.v ===== *)
(** [accounting/round_repository.rs]: payout rounds. *)
From Stdlib Require Import ZArith Lia String Sorted.
From stdpp Require Import base option list numbers strings sets gmap.
From S2P Require Import Prelude Text Float64 Db.
#[local] Open Scope Z_scope.

Definition is_open (r : Round) : bool := String.eqb (r_status r) "open".

(** [src/src/accounting/round_repository.rs:29-70 RoundRepository::get_or_create_current_round] *)
Definition get_or_create_current_round (start_template_id : Z) : DbM (Round * bool) := λ d,
  match select_one is_open (rounds d) with
  | Some r => (Ok (r, false), d)
  | None =>
      (start ← bind_u64 start_template_id;
       stmt (λ d, let mk i := mkRound i start None "open" None in
            let '(i, t) := insert_row mk (rounds d) in
            (Ok (mk i, true), set_rounds d t))) d
  end.

(** [src/src/accounting/round_repository.rs:74-80 RoundRepository::close_round] *)
Definition close_round (id end_template_id : Z) (status : string) : DbM unit :=
  e ← bind_u64 end_template_id;
  stmt (λ d, (Ok tt, set_rounds d (update_rows (λ r, r_id r =? id)
          (λ r, mkRound (r_id r) (r_start_template_id r) (Some e) status (r_found_block_hash r))
          (rounds d)))).

(** The [WHERE] clause of the round lookup. *)
Definition covers (template_id : Z) (r : Round) : bool :=
  (is_open r && (r_start_template_id r <=? template_id)) ||
  (negb (is_open r) && (r_start_template_id r <=? template_id) &&
   match r_end_template_id r with None => true | Some e => template_id <=? e end).

Section Resolve.
Context {so : SqlOrder}.

(** [src/src/accounting/round_repository.rs:87-120 RoundRepository::resolve_round_for_template] *)
Definition resolve_round_for_template (template_id : Z) : DbM (Round * bool) :=
  t ← bind_u64 template_id;
  stmt (λ d,
    match head (sql_order_by (λ a b, r_start_template_id b <=? r_start_template_id a)
                  (List.filter (covers t) (rows (rounds d)))) with
    | Some r => (Ok (r, false), d)
    | None => get_or_create_current_round template_id d
    end).
End Resolve.

(** [src/src/accounting/round_repository.rs:123-143 RoundRepository::get_by_id] *)
Definition get_by_id (d : Db) (id : Z) : option Round :=
  select_one (λ r, r_id r =? id) (rounds d).

(** [src/src/accounting/round_repository.rs:146-183 RoundRepository::list] *)
Definition list_rounds (d : Db) (status_filter : option string) : list Round :=
  rev (match status_filter with
       | Some s => List.filter (λ r, String.eqb (r_status r) s) (rows (rounds d))
       | None => rows (rounds d)
       end).

(** * Properties *)

Lemma append_round_wf d mk :
  (∀ i, r_id (mk i) = i) → wf_rel d (set_rounds d (insert_row mk (rounds d)).2).
Proof.
  intros Hid []. with_insert r_id mk (rounds d).
  split; simpl; auto; rewrite Hids; auto with fk.
Qed.

Lemma update_round_wf d p f :
  (∀ r, r_id (f r) = r_id r) → wf_rel d (set_rounds d (update_rows p f (rounds d))).
Proof.
  intros Hid [].
  pose proof (update_rows_ok r_id p f (rounds d) Hid ltac:(done)) as Hok.
  pose proof (tids_update_rows r_id p f (rounds d) Hid) as Hids.
  revert Hok Hids. generalize (update_rows p f (rounds d)). intros t' Hok Hids.
  split; simpl; auto; by rewrite Hids.
Qed.

Lemma get_or_create_current_round_wf t : Keeps wf_rel (get_or_create_current_round t).
Proof.
  intros d. unfold get_or_create_current_round.
  destruct (select_one is_open (rounds d)); [reflexivity|].
  unfold bind_u64. munfold. destruct (t <=? i64_max); [|reflexivity].
  apply append_round_wf; done.
Qed.

Lemma close_round_wf i e s : Keeps wf_rel (close_round i e s).
Proof. unfold close_round. keeps. intros d. by apply update_round_wf. Qed.

Lemma resolve_round_for_template_wf `{!SqlOrder} t : Keeps wf_rel (resolve_round_for_template t).
Proof.
  unfold resolve_round_for_template. keeps. intros d.
  unfold stmt. case_match; [reflexivity|]. apply get_or_create_current_round_wf.
Qed.
#[export] Hint Resolve get_or_create_current_round_wf close_round_wf
  resolve_round_for_template_wf : keeps.

(** ** At most one round is open *)

Definition one_open (d : Db) : Prop :=
  (length (List.filter is_open (rows (rounds d))) ≤ 1)%nat.
Definition one_open_rel (d d' : Db) : Prop := one_open d → one_open d'.
#[export] Instance one_open_preorder : PreOrder one_open_rel.
Proof. split; red; unfold one_open_rel; auto. Qed.

Lemma get_or_create_one_open t : Keeps one_open_rel (get_or_create_current_round t).
Proof.
  intros d Hd. unfold get_or_create_current_round, select_one.
  destruct (List.find is_open _) eqn:E; [done|].
  unfold bind_u64. munfold. destruct (t <=? i64_max); [|done].
  unfold one_open. simpl. rewrite List.filter_app, (find_none_filter _ _ E). simpl. lia.
Qed.

Lemma close_round_one_open i e s : s ≠ "open" → Keeps one_open_rel (close_round i e s).
Proof.
  intros Hs. unfold close_round. apply Keeps_bind; [apply _|apply Keeps_bind_u64; apply _|].
  intros e' d. unfold one_open_rel, one_open. simpl.
  intros Hd. etransitivity; [|exact Hd].
  induction (rows (rounds d)) as [|r l IH]; simpl; [lia|].
  assert (length (List.filter is_open l) ≤ length (List.filter is_open (r :: l)))%nat.
  { simpl. destruct (is_open r); simpl; lia. }
  assert (∀ l', (length (List.filter is_open l') ≤ 1)%nat ∨ True) as _ by auto.
  destruct (r_id r =? i).
  - assert (is_open (mkRound (r_id r) (r_start_template_id r) (Some e') s
      (r_found_block_hash r)) = false) as -> by by apply String.eqb_neq.
    destruct (is_open r); simpl in *; try (specialize (IH ltac:(lia))); lia.
  - destruct (is_open r); simpl in *; specialize (IH ltac:(lia)); lia.
Qed.

Lemma resolve_one_open `{!SqlOrder} t : Keeps one_open_rel (resolve_round_for_template t).
Proof.
  unfold resolve_round_for_template.
  apply Keeps_bind; [apply _|apply Keeps_bind_u64; apply _|].
  intros t' d. unfold stmt. case_match; [reflexivity|]. apply get_or_create_one_open.
Qed.
#[export] Hint Resolve get_or_create_one_open resolve_one_open : keeps.

(** What the lookup answers: the covering round with the latest start, or the
    open round, or a new open round that starts here. *)
Lemma resolve_cases `{!SqlOrder} t d r b d' :
  resolve_round_for_template t d = (Ok (r, b), d') →
  (b = false ∧ d' = d ∧ r ∈ rows (rounds d) ∧ covers t r = true ∧
     (∀ r', r' ∈ rows (rounds d) → covers t r' = true →
        r_start_template_id r' ≤ r_start_template_id r)) ∨
  ((∀ r', r' ∈ rows (rounds d) → covers t r' = false) ∧
   ((b = false ∧ d' = d ∧ r ∈ rows (rounds d) ∧ is_open r = true) ∨
    (b = true ∧ (∀ r', r' ∈ rows (rounds d) → is_open r' = false) ∧
     r = mkRound (seq (rounds d) + 1) t None "open" None ∧
     d' = set_rounds d (mkTable (rows (rounds d) ++ [r]) (seq (rounds d) + 1))))).
Proof.
  unfold resolve_round_for_template, bind_u64, stmt. munfold.
  destruct (t <=? i64_max) eqn:Et; [|done].
  set (le := λ a b : Round, r_start_template_id b <=? r_start_template_id a).
  set (sel := List.filter (covers t) (rows (rounds d))).
  pose proof (sql_order_perm _ le sel) as Hp.
  pose proof (sql_order_sorted _ le sel) as Hs.
  destruct (sql_order_by le sel) as [|x l] eqn:E; simpl.
  - apply Permutation_nil in Hp. intros Hget. right. split.
    { intros r' Hr'. destruct (covers t r') eqn:Ec; [|done].
      assert (r' ∈ sel) as Hin; [|rewrite Hp in Hin; set_solver].
      apply list_elem_of_In, filter_In. by rewrite <-list_elem_of_In. }
    revert Hget. unfold get_or_create_current_round, select_one, bind_u64, stmt. munfold.
    destruct (List.find is_open _) as [r0|] eqn:Ef.
    + intros [= <- <- <-]. apply find_some in Ef as [? ?]. left. by rewrite list_elem_of_In.
    + rewrite Et. simpl. intros [= <- <- <-]. right. split_and!; try done.
      intros r' Hr'. eapply find_none; [exact Ef|]. by apply list_elem_of_In.
  - intros [= <- <- <-]. left.
    assert (x ∈ sel) as Hx by (rewrite <-Hp; set_solver).
    apply list_elem_of_In, filter_In in Hx as [Hx1 Hx2].
    split_and!; try done; [by apply list_elem_of_In|].
    intros r' Hr' Hc. assert (r' ∈ x :: l) as Hin.
    { rewrite Hp. apply list_elem_of_In, filter_In. by rewrite <-list_elem_of_In. }
    specialize (Hs ltac:(unfold le; intros; rewrite !Z.leb_le; lia)
      ltac:(unfold le; intros; rewrite !Z.leb_le in *; lia)).
    apply elem_of_cons in Hin as [->|Hin]; [done|].
    inversion Hs as [|? ? _ Hall]; subst. rewrite Forall_forall in Hall.
    apply Hall in Hin. unfold le in Hin. by apply Z.leb_le.
Qed.

(** A template that was resolved once resolves to the same round again, as long
    as the rounds have not changed since. *)
Lemma resolve_again `{!SqlOrder} t d r b d1 d2 :
  resolve_round_for_template t d = (Ok (r, b), d1) → rounds d2 = rounds d1 →
  resolve_round_for_template t d2 = (Ok (r, false), d2).
Proof.
  unfold resolve_round_for_template, bind_u64, stmt. munfold.
  destruct (t <=? i64_max) eqn:Et; [|done]. simpl.
  set (le := λ a b : Round, r_start_template_id b <=? r_start_template_id a).
  destruct (head (sql_order_by le (List.filter (covers t) (rows (rounds d))))) eqn:Eh.
  - intros [= <- <- <-] ->. by rewrite Eh.
  - unfold get_or_create_current_round, bind_u64, select_one. munfold. rewrite Et.
    destruct (List.find is_open _) as [r0|] eqn:Ef.
    + intros [= <- <- <-] ->. by rewrite Eh, Ef.
    + simpl. intros [= <- <- <-] ->. simpl. rewrite List.filter_app.
      assert (List.filter (covers t) (rows (rounds d)) = []) as ->.
      { pose proof (sql_order_perm _ le (List.filter (covers t) (rows (rounds d)))) as Hp.
        destruct (sql_order_by _ _); [|done]. by apply Permutation_nil in Hp. }
      simpl. unfold covers at 1. simpl. rewrite Z.leb_refl. simpl.
      match goal with |- context [sql_order_by le [?x]] =>
        pose proof (sql_order_perm _ le [x]) as Hp;
        symmetry in Hp; apply Permutation_length_1_inv in Hp as -> end.
      done.
Qed.
