(* ===== verification/ShareRepository.v ===== *)
(** [accounting/share_repository.rs]: raw shares, their outcomes and the
    authorization log. *)
From Stdlib Require Import ZArith Lia String Ascii.
From stdpp Require Import base option list numbers strings sets gmap.
From S2P Require Import Prelude Text Float64 Db.
#[local] Open Scope Z_scope.

(** [src/src/accounting/share_repository.rs:68-80 ShareRepository::build_dedupe_key] *)
Definition build_dedupe_key (worker_id template_id template_epoch : Z)
    (extranonce2 ntime nonce : string) : string :=
  (show_i worker_id ++ String ":"%char (show_u template_id ++ String ":"%char (show_u template_epoch ++
   String ":"%char (extranonce2 ++ String ":"%char (ntime ++ String ":"%char nonce)))))%string.

Definition share_key (r : ShareRow) : string := s_dedupe_key (sr_share r).
Definition outcome_key (r : OutcomeRow) : string := o_dedupe_key (or_outcome r).

(** The rows that the two inserts write. *)
Definition share_row (share : Share) (tid epoch : Z) (now : string) (i : Z) : ShareRow :=
  mkShareRow (mkShare i (s_worker_id share) (s_session_id share)
    (s_job_id share) tid epoch (s_extranonce1 share) (s_extranonce2 share)
    (s_ntime_hex_6b share) (s_nonce_hex_8b share) (s_difficulty share)
    (s_dedupe_key share)) now.

Definition outcome_row (share_id : Z) (outcome : ShareOutcome) (now : string) (i : Z) : OutcomeRow :=
  mkOutcomeRow (mkShareOutcome i share_id (o_session_id outcome)
    (o_worker_id outcome) (o_job_id outcome) (o_round_id outcome) (o_dedupe_key outcome)
    (o_status outcome) (o_reject_reason outcome) (o_node_result outcome)
    (o_low_diff_ok outcome) (o_network_target_ok outcome) (o_block_hash outcome)) now.

(** [src/src/accounting/share_repository.rs:245-266 ShareRepository::insert_share_and_outcome_atomic (part)]
    [INSERT OR IGNORE INTO shares]: a row with the same dedupe key, or a NaN
    difficulty (SQLite reads it as [NULL], and the column is [NOT NULL]), makes
    it a no-op; otherwise the worker must exist. Returns whether a row was
    added. *)
Definition insert_or_ignore_share (share : Share) : DbM bool :=
  tid ← bind_u64 (s_template_id share);
  epoch ← bind_u64 (s_template_epoch share);
  stmt (λ d,
    if existsb (λ r, String.eqb (share_key r) (s_dedupe_key share)) (rows (shares d))
       || f64_nan (s_difficulty share)
    then (Ok false, d)
    else if has_id w_id (s_worker_id share) (workers d) then
      (Ok true, set_shares d (insert_row (share_row share tid epoch (clock d)) (shares d)).2)
    else (Err (SqliteConstraint "FOREIGN KEY"), d)).

(** The id of the share with this dedupe key, the last inserted one included. *)
Definition select_share_id (key : string) : DbM Z := stmt (λ d,
  match List.find (λ r, String.eqb (share_key r) key) (rows (shares d)) with
  | Some r => (Ok (sr_id r), d)
  | None => (Err QueryReturnedNoRows, d)
  end).

Definition last_share_id : DbM Z := stmt (λ d, (Ok (seq (shares d)), d)).

(** [src/src/accounting/share_repository.rs:243-275 ShareRepository::insert_share_and_outcome_atomic (part)]
    Insert, then the id of the new row or of the duplicate. *)
Definition put_share (share : Share) : DbM (Z * bool) :=
  is_new ← insert_or_ignore_share share;
  id ← (if is_new : bool then last_share_id else select_share_id (s_dedupe_key share));
  mret (id, is_new).

(** [src/src/accounting/share_repository.rs:85-118 ShareRepository::insert_share] *)
Definition insert_share (share : Share) : DbM (option Z) :=
  p ← put_share share; mret (Some p.1).

(** [src/src/accounting/share_repository.rs:279-301 ShareRepository::insert_share_and_outcome_atomic (part)]
    [INSERT OR IGNORE INTO share_outcomes] *)
Definition insert_or_ignore_outcome (share_id : Z) (outcome : ShareOutcome) : DbM bool :=
  stmt (λ d,
    if existsb (λ r, String.eqb (outcome_key r) (o_dedupe_key outcome)) (rows (share_outcomes d))
    then (Ok false, d)
    else if has_id sr_id share_id (shares d) && has_id w_id (o_worker_id outcome) (workers d) then
      (Ok true, set_share_outcomes d
        (insert_row (outcome_row share_id outcome (clock d)) (share_outcomes d)).2)
    else (Err (SqliteConstraint "FOREIGN KEY"), d)).

Definition select_outcome_id (key : string) : DbM Z := stmt (λ d,
  match List.find (λ r, String.eqb (outcome_key r) key) (rows (share_outcomes d)) with
  | Some r => (Ok (or_id r), d)
  | None => (Err QueryReturnedNoRows, d)
  end).

Definition last_outcome_id : DbM Z := stmt (λ d, (Ok (seq (share_outcomes d)), d)).

(** [src/src/accounting/share_repository.rs:277-311 ShareRepository::insert_share_and_outcome_atomic (part)] *)
Definition put_outcome (share_id : Z) (outcome : ShareOutcome) : DbM (Z * bool) :=
  is_new ← insert_or_ignore_outcome share_id outcome;
  id ← (if is_new : bool then last_outcome_id else select_outcome_id (o_dedupe_key outcome));
  mret (id, is_new).

(** [src/src/accounting/share_repository.rs:122-154 ShareRepository::insert_share_outcome] *)
Definition insert_share_outcome (outcome : ShareOutcome) : DbM (option Z) :=
  p ← put_outcome (o_share_id outcome) outcome; mret (Some p.1).

(** [src/src/accounting/share_repository.rs:158-176 ShareRepository::insert_authorization_event] *)
Definition insert_authorization_event (event : AuthorizationEvent) : DbM Z := stmt (λ d,
  let mk i := mkAuthorizationEvent i (ae_session_id event) (ae_worker_name event)
    (ae_payout_address event) (ae_worker_suffix event) (ae_authorized event)
    (ae_reason event) in
  (Ok (seq (authorization_events d) + 1),
   set_authorization_events d (insert_row mk (authorization_events d)).2)).

(** [src/src/accounting/share_repository.rs:179-184 ShareRepository::count_outcomes_by_status] *)
Definition count_outcomes_by_status (d : Db) (status : string) : Z :=
  Z.of_nat (length (List.filter (λ r, String.eqb (o_status (or_outcome r)) status)
                      (rows (share_outcomes d)))).

(** [src/src/accounting/share_repository.rs:188-199 ShareRepository::sum_difficulty_since]
    The order and rounding of SQLite's [SUM] is the parameter [sql_sum]. *)
Definition sum_difficulty_since (sql_sum : list f64 → f64) (d : Db) (since : string) : f64 :=
  match flat_map (λ s, omap (λ o,
          if (o_share_id (or_outcome o) =? sr_id s) &&
             String.eqb (o_status (or_outcome o)) "accepted" &&
             str_leb since (or_created_at o)
          then Some (s_difficulty (sr_share s)) else None) (rows (share_outcomes d)))
        (rows (shares d)) with
  | [] => f64_zero
  | l => sql_sum l
  end.

(** [src/src/accounting/share_repository.rs:203-209 ShareRepository::update_outcome_node_result] *)
Definition update_outcome_node_result (dedupe_key node_result : string) : DbM Z := stmt (λ d,
  let p r := String.eqb (outcome_key r) dedupe_key in
  let f r := let o := or_outcome r in
    mkOutcomeRow (mkShareOutcome (o_id o) (o_share_id o) (o_session_id o) (o_worker_id o)
      (o_job_id o) (o_round_id o) (o_dedupe_key o) (o_status o) (o_reject_reason o)
      (Some node_result) (o_low_diff_ok o) (o_network_target_ok o) (o_block_hash o))
      (or_created_at r) in
  (Ok (Z.of_nat (length (List.filter p (rows (share_outcomes d))))),
   set_share_outcomes d (update_rows p f (share_outcomes d)))).

(** [src/src/accounting/share_repository.rs:212-217 ShareRepository::total_outcome_count] *)
Definition total_outcome_count (d : Db) : Z := Z.of_nat (length (rows (share_outcomes d))).

(** [src/src/accounting/share_repository.rs:220-225 ShareRepository::count_by_worker] *)
Definition count_by_worker (d : Db) (worker_id : Z) : Z :=
  Z.of_nat (length (List.filter (λ r, s_worker_id (sr_share r) =? worker_id) (rows (shares d)))).

(** [src/src/accounting/share_repository.rs:232-330 ShareRepository::insert_share_and_outcome_atomic] *)
Definition insert_share_and_outcome_atomic (share : Share) (outcome : ShareOutcome) :
    DbM (option Z * option Z * bool) :=
  transaction
    (s ← put_share share;
     o ← put_outcome s.1 outcome;
     mret (Some s.1, Some o.1, s.2 || o.2)).

Definition rejected (r : OutcomeRow) : bool := String.eqb (o_status (or_outcome r)) "rejected".
Definition reason_of (r : OutcomeRow) : option string := o_reject_reason (or_outcome r).

(** [src/src/accounting/share_repository.rs:333-349 ShareRepository::count_rejected_by_reason]
    One group per distinct reason, [NULL] included; the groups are added into
    a map under their reason or ["unknown"]. *)
Definition count_rejected_by_reason (d : Db) : gmap string Z :=
  let rej := List.filter rejected (rows (share_outcomes d)) in
  let groups := map (λ k, (k, Z.of_nat (length (List.filter
    (λ r, bool_decide (reason_of r = k)) rej)))) (remove_dups (map reason_of rej)) in
  fold_left (λ m g, let k := default "unknown" g.1 in <[k := default 0 (m !! k) + g.2]> m)
    groups ∅.

(** [src/src/accounting/share_repository.rs:354-387 ShareRepository::count_outcomes_by_round_with_workers] *)
Definition count_outcomes_by_round_with_workers (d : Db) (round_id : Z) :
    list (Z * string * option string * Z * Z * Z) :=
  let in_group w r := bool_decide (o_round_id (or_outcome r) = Some round_id) &&
                      (o_worker_id (or_outcome r) =? w_id w) in
  let count_status st l :=
    Z.of_nat (length (List.filter (λ r, String.eqb (o_status (or_outcome r)) st) l)) in
  omap (λ w, match List.filter (in_group w) (rows (share_outcomes d)) with
             | [] => None
             | g => Some (w_id w, w_payout_address w, w_worker_suffix w,
                          Z.of_nat (length g), count_status "accepted" g, count_status "rejected" g)
             end) (rows (workers d)).

(** [src/src/accounting/share_repository.rs:390-395 ShareRepository::total_count] *)
Definition total_count (d : Db) : Z := Z.of_nat (length (rows (shares d))).

Definition opt_filter {A} (o : option A) (f : A → bool) : bool :=
  match o with Some a => f a | None => true end.

(** [Vec::split_off] past the offset and [Vec::truncate]; [off as usize] makes
    a negative offset larger than any length. *)
Definition in_memory_page {A} (limit offset : option Z) (l : list A) : list A :=
  let l := match offset with
           | Some off => if as_u64 off <=? Z.of_nat (length l)
                         then drop (Z.to_nat (as_u64 off)) l else []
           | None => l
           end in
  match limit with Some lim => take (Z.to_nat (as_u64 lim)) l | None => l end.

(** The shares that the filters select, joined with their outcomes only when a
    status is asked for. *)
Definition select_shares (d : Db) (worker_id : option Z) (status from to : option string) :
    list Share :=
  let base := List.filter (λ r,
    opt_filter worker_id (λ w, s_worker_id (sr_share r) =? w) &&
    opt_filter from (λ f, str_leb f (sr_created_at r)) &&
    opt_filter to (λ t, str_leb (sr_created_at r) t)) (rows (shares d)) in
  flat_map (λ r,
    match status with
    | None => [sr_share r]
    | Some st => map (λ _, sr_share r) (List.filter (λ o,
        String.eqb (outcome_key o) (share_key r) && String.eqb (o_status (or_outcome o)) st)
        (rows (share_outcomes d)))
    end) base.

(** [src/src/accounting/share_repository.rs:403-500 ShareRepository::list_shares] *)
Definition list_shares (d : Db) worker_id status from to (limit offset : option Z) : list Share :=
  in_memory_page limit offset (rev (select_shares d worker_id status from to)).

(** The outcomes that the filters select. *)
Definition select_outcomes (d : Db) (worker_id : option Z) (status from to : option string) :
    list ShareOutcome :=
  map or_outcome (List.filter (λ r,
    opt_filter worker_id (λ w, o_worker_id (or_outcome r) =? w) &&
    opt_filter status (λ s, String.eqb (o_status (or_outcome r)) s) &&
    opt_filter from (λ f, str_leb f (or_created_at r)) &&
    opt_filter to (λ t, str_leb (or_created_at r) t)) (rows (share_outcomes d))).

(** [src/src/accounting/share_repository.rs:503-591 ShareRepository::list_outcomes] *)
Definition list_outcomes (d : Db) worker_id status from to (limit offset : option Z) :
    list ShareOutcome :=
  in_memory_page limit offset (rev (select_outcomes d worker_id status from to)).

(** [src/src/accounting/share_repository.rs:594-641 ShareRepository::count_shares] *)
Definition count_shares (d : Db) worker_id status from to : Z :=
  Z.of_nat (length (select_shares d worker_id status from to)).

(** [src/src/accounting/share_repository.rs:644-688 ShareRepository::count_outcomes] *)
Definition count_outcomes (d : Db) worker_id status from to : Z :=
  Z.of_nat (length (select_outcomes d worker_id status from to)).

(** * Properties *)

(** ** The schema's constraints are kept *)

Lemma insert_share_row_wf d s tid epoch :
  existsb (λ r, String.eqb (share_key r) (s_dedupe_key s)) (rows (shares d)) = false →
  f64_nan (s_difficulty s) = false →
  has_id w_id (s_worker_id s) (workers d) = true →
  wf_rel d (set_shares d (insert_row (share_row s tid epoch (clock d)) (shares d)).2).
Proof.
  intros Hk Hn Hw%has_id_spec [].
  with_insert sr_id (share_row s tid epoch (clock d)) (shares d).
  split; simpl; auto; rewrite ?Hrows, ?map_app, ?Hids; simpl; auto with fk.
  { apply Forall_app. auto. }
  apply NoDup_snoc; [done|]. by apply existsb_key_fresh in Hk.
Qed.

Lemma insert_outcome_row_wf d i o :
  existsb (λ r, String.eqb (outcome_key r) (o_dedupe_key o)) (rows (share_outcomes d)) = false →
  has_id sr_id i (shares d) && has_id w_id (o_worker_id o) (workers d) = true →
  wf_rel d (set_share_outcomes d
    (insert_row (outcome_row i o (clock d)) (share_outcomes d)).2).
Proof.
  intros Hk [Hs%has_id_spec Hw%has_id_spec]%andb_true_iff [].
  with_insert or_id (outcome_row i o (clock d)) (share_outcomes d).
  split; simpl; auto; rewrite ?Hrows, ?map_app, ?Hids; simpl; auto with fk.
  apply NoDup_snoc; [done|]. by apply existsb_key_fresh in Hk.
Qed.

Lemma update_outcome_row_wf d p f :
  (∀ r, or_id (f r) = or_id r) →
  (∀ r, o_dedupe_key (or_outcome (f r)) = o_dedupe_key (or_outcome r)) →
  (∀ r, o_share_id (or_outcome (f r)) = o_share_id (or_outcome r)) →
  (∀ r, o_worker_id (or_outcome (f r)) = o_worker_id (or_outcome r)) →
  wf_rel d (set_share_outcomes d (update_rows p f (share_outcomes d))).
Proof.
  intros Hid Hk Hs Hw [].
  pose proof (update_rows_ok or_id p f _ Hid ltac:(done)) as Hok.
  apply (tids_update_rows or_id p f (share_outcomes d)) in Hid as Hids.
  apply (map_update_rows (λ r, o_dedupe_key (or_outcome r)) p f (share_outcomes d)) in Hk.
  apply (map_update_rows (λ r, o_share_id (or_outcome r)) p f (share_outcomes d)) in Hs.
  apply (map_update_rows (λ r, o_worker_id (or_outcome r)) p f (share_outcomes d)) in Hw.
  revert Hok Hids Hk Hs Hw. generalize (update_rows p f (share_outcomes d)).
  intros t' Hok Hids Hk Hs Hw.
  split; simpl; auto; by rewrite ?Hids, ?Hk, ?Hs, ?Hw.
Qed.

Lemma insert_or_ignore_share_wf s : Keeps wf_rel (insert_or_ignore_share s).
Proof.
  unfold insert_or_ignore_share. keeps. intros d. unfold stmt.
  destruct (existsb _ _) eqn:E; [reflexivity|]. destruct (f64_nan _) eqn:En; [reflexivity|]. simpl.
  destruct (has_id _ _ _) eqn:Ew; [|reflexivity]. by apply insert_share_row_wf.
Qed.

Lemma insert_or_ignore_outcome_wf i o : Keeps wf_rel (insert_or_ignore_outcome i o).
Proof.
  intros d. unfold insert_or_ignore_outcome, stmt.
  destruct (existsb _ _) eqn:E; [reflexivity|].
  destruct (_ && _) eqn:Ew; [|reflexivity]. by apply insert_outcome_row_wf.
Qed.

Lemma select_share_id_frame key d : (select_share_id key d).2 = d.
Proof. unfold select_share_id, stmt. by destruct (List.find _ _). Qed.
Lemma select_outcome_id_frame key d : (select_outcome_id key d).2 = d.
Proof. unfold select_outcome_id, stmt. by destruct (List.find _ _). Qed.

Section Reads.
Context (R : Db → Db → Prop) `{!PreOrder R}.
Lemma Keeps_select_share_id key : Keeps R (select_share_id key).
Proof. intros d. by rewrite select_share_id_frame. Qed.
Lemma Keeps_select_outcome_id key : Keeps R (select_outcome_id key).
Proof. intros d. by rewrite select_outcome_id_frame. Qed.
Lemma Keeps_last_share_id : Keeps R last_share_id.
Proof. intros d. reflexivity. Qed.
Lemma Keeps_last_outcome_id : Keeps R last_outcome_id.
Proof. intros d. reflexivity. Qed.
End Reads.
#[export] Hint Resolve insert_or_ignore_share_wf insert_or_ignore_outcome_wf
  Keeps_select_share_id Keeps_select_outcome_id Keeps_last_share_id Keeps_last_outcome_id : keeps.

Lemma put_share_wf s : Keeps wf_rel (put_share s).
Proof. unfold put_share. keeps. Qed.
Lemma put_outcome_wf i o : Keeps wf_rel (put_outcome i o).
Proof. unfold put_outcome. keeps. Qed.
#[export] Hint Resolve put_share_wf put_outcome_wf : keeps.

Lemma insert_share_wf s : Keeps wf_rel (insert_share s).
Proof. unfold insert_share. keeps. Qed.
Lemma insert_share_outcome_wf o : Keeps wf_rel (insert_share_outcome o).
Proof. unfold insert_share_outcome. keeps. Qed.
Lemma insert_share_and_outcome_atomic_wf s o : Keeps wf_rel (insert_share_and_outcome_atomic s o).
Proof.
  unfold insert_share_and_outcome_atomic. apply Keeps_transaction; [typeclasses eauto|]. keeps.
Qed.
Lemma update_outcome_node_result_wf k n : Keeps wf_rel (update_outcome_node_result k n).
Proof. intros d. by apply update_outcome_row_wf. Qed.
Lemma insert_authorization_event_wf e : Keeps wf_rel (insert_authorization_event e).
Proof.
  intros d. unfold insert_authorization_event, stmt. intros [].
  match goal with |- context [insert_row ?m (authorization_events d)] =>
    with_insert ae_id m (authorization_events d) end.
  split; simpl; auto.
Qed.
#[export] Hint Resolve insert_share_wf insert_share_outcome_wf
  insert_share_and_outcome_atomic_wf update_outcome_node_result_wf
  insert_authorization_event_wf : keeps.

(** ** Inserting twice *)

(** A successful insert leaves a row with the key, whose id is the answer. *)
Lemma put_share_ok s d i b d' :
  put_share s d = (Ok (i, b), d') →
  s_template_id s <= i64_max ∧ s_template_epoch s <= i64_max ∧
  (∃ r, List.find (λ r, String.eqb (share_key r) (s_dedupe_key s)) (rows (shares d')) = Some r ∧
        sr_id r = i) ∧
  (if b then d' = set_shares d (insert_row
       (share_row s (s_template_id s) (s_template_epoch s) (clock d)) (shares d)).2
   else d' = d).
Proof.
  unfold put_share, insert_or_ignore_share, bind_u64, select_share_id, last_share_id, stmt. munfold.
  destruct (Z.leb_spec (s_template_id s) i64_max); [|done].
  destruct (Z.leb_spec (s_template_epoch s) i64_max); [|done].
  destruct (existsb _ _ || _) eqn:E; simpl.
  - destruct (List.find _ _) eqn:Ef; [|done]. intros [= <- <- <-]. eauto 6.
  - apply orb_false_iff in E as [E%existsb_find_none _].
    destruct (has_id _ _ _); [|done]. intros [= <- <- <-]. split_and!; [done..| |done].
    eexists. simpl. rewrite find_app, E. simpl.
    unfold share_key at 1. simpl. by rewrite String.eqb_refl.
Qed.

Lemma put_share_dup s d r :
  s_template_id s <= i64_max → s_template_epoch s <= i64_max →
  List.find (λ r, String.eqb (share_key r) (s_dedupe_key s)) (rows (shares d)) = Some r →
  put_share s d = (Ok (sr_id r, false), d).
Proof.
  intros ?%Z.leb_le ?%Z.leb_le Hf.
  unfold put_share, insert_or_ignore_share, bind_u64, select_share_id, stmt. munfold.
  rewrite H, H0, (find_existsb _ _ _ Hf). simpl. by rewrite Hf.
Qed.

Lemma put_outcome_ok sid o d i b d' :
  put_outcome sid o d = (Ok (i, b), d') →
  (∃ r, List.find (λ r, String.eqb (outcome_key r) (o_dedupe_key o)) (rows (share_outcomes d'))
        = Some r ∧ or_id r = i) ∧
  (if b then d' = set_share_outcomes d (insert_row
       (outcome_row sid o (clock d)) (share_outcomes d)).2
   else d' = d).
Proof.
  unfold put_outcome, insert_or_ignore_outcome, select_outcome_id, last_outcome_id, stmt. munfold.
  destruct (existsb _ _) eqn:E.
  - destruct (List.find _ _) eqn:Ef; [|done]. intros [= <- <- <-]. eauto 6.
  - apply existsb_find_none in E.
    destruct (_ && _); [|done]. intros [= <- <- <-]. split_and!; [|done].
    eexists. simpl. rewrite find_app, E. simpl.
    unfold outcome_key at 1. simpl. by rewrite String.eqb_refl.
Qed.

Lemma put_outcome_dup sid o d r :
  List.find (λ r, String.eqb (outcome_key r) (o_dedupe_key o)) (rows (share_outcomes d)) = Some r →
  put_outcome sid o d = (Ok (or_id r, false), d).
Proof.
  intros Hf. unfold put_outcome, insert_or_ignore_outcome, select_outcome_id, stmt. munfold.
  rewrite (find_existsb _ _ _ Hf). by rewrite Hf.
Qed.

(** What a successful atomic insert leaves behind, and that it changed only
    the two tables. *)
Lemma atomic_ok s o d a b n d' :
  insert_share_and_outcome_atomic s o d = (Ok (a, b, n), d') →
  ∃ i j sn on d1, put_share s d = (Ok (i, sn), d1) ∧ put_outcome i o d1 = (Ok (j, on), d') ∧
    a = Some i ∧ b = Some j ∧ n = sn || on.
Proof.
  unfold insert_share_and_outcome_atomic, transaction. munfold.
  destruct (put_share s d) as [[[i sn]|?|] d1] eqn:E1; simpl; try done.
  destruct (put_outcome i o d1) as [[[j on]|?|] d2] eqn:E2; simpl; try done.
  intros [= <- <- <- <-]. eauto 10.
Qed.

(** The same share sent again is answered with the same ids, is reported as a
    duplicate and changes nothing. *)
Lemma atomic_again s o d a b n d' :
  insert_share_and_outcome_atomic s o d = (Ok (a, b, n), d') →
  insert_share_and_outcome_atomic s o d' = (Ok (a, b, false), d').
Proof.
  intros (i & j & sn & on & d1 & H1 & H2 & -> & -> & ->)%atomic_ok.
  apply put_share_ok in H1 as (Ht & He & (r & Hf & <-) & _).
  pose proof H2 as ((r2 & Hf2 & <-) & Hd)%put_outcome_ok.
  assert (shares d' = shares d1) as Hsh by by destruct on; subst.
  unfold insert_share_and_outcome_atomic, transaction. munfold.
  rewrite (put_share_dup _ _ r) by (try done; by rewrite Hsh). simpl.
  by rewrite (put_outcome_dup _ _ _ r2).
Qed.

(** ** The dedupe key *)

(** The dedupe key identifies the submission. Two shares
    get the same key only when worker, template, epoch, extranonce2, ntime and
    nonce are all equal, provided the hexadecimal fields hold no colon. *)
Theorem dedupe_key_injective w t e x n c w' t' e' x' n' c' :
  in_u64 t → in_u64 t' → in_u64 e → in_u64 e' →
  str_has ":" x = false → str_has ":" x' = false →
  str_has ":" n = false → str_has ":" n' = false →
  build_dedupe_key w t e x n c = build_dedupe_key w' t' e' x' n' c' →
  w = w' ∧ t = t' ∧ e = e' ∧ x = x' ∧ n = n' ∧ c = c'.
Proof.
  unfold in_u64, build_dedupe_key. intros Ht Ht' He He' Hx Hx' Hn Hn' H.
  apply split_at_sep in H as [Hw H]; [|by apply show_i_no_char..].
  apply split_at_sep in H as [Htt H]; [|by apply show_u_no_char; [lia|]..].
  apply split_at_sep in H as [Hee H]; [|by apply show_u_no_char; [lia|]..].
  apply split_at_sep in H as [-> H]; [|done..].
  apply split_at_sep in H as [-> ->]; [|done..].
  apply show_i_inj in Hw. apply show_u_inj in Htt; [|lia..]. apply show_u_inj in Hee; [|lia..].
  done.
Qed.

Lemma dedupe_key_injective_witness :
  build_dedupe_key (-3) 17 2 "00aa" "0102" "ff" = "-3:17:2:00aa:0102:ff" ∧
  ∀ w', build_dedupe_key w' 17 2 "00aa" "0102" "ff" = "-3:17:2:00aa:0102:ff" → w' = -3.
Proof.
  split; [reflexivity|]. intros w' H.
  apply (dedupe_key_injective w' 17 2 "00aa" "0102" "ff" (-3) 17 2 "00aa" "0102" "ff");
    try reflexivity; try (unfold in_u64, u64_max; lia). rewrite H. reflexivity.
Defined.

(** ** Grouped counts *)

Lemma fold_counts_lookup (gs : list (option string * Z)) (m : gmap string Z) k :
  default 0 (fold_left (λ m g, let k := default "unknown" g.1 in
      <[k := default 0 (m !! k) + g.2]> m) gs m !! k) =
  default 0 (m !! k) + sumZ (λ g, if String.eqb (default "unknown" g.1) k then g.2 else 0) gs.
Proof.
  revert m. induction gs as [|[r n] gs IH]; intros m; simpl; [lia|]. rewrite IH. simpl.
  destruct (String.eqb_spec (default "unknown" r) k) as [->|Hne].
  - rewrite lookup_insert_eq. simpl. lia.
  - by rewrite lookup_insert_ne by done.
Qed.

Definition count_if {A} (p : A → bool) (l : list A) : Z := Z.of_nat (length (List.filter p l)).

Lemma count_if_cons {A} (p : A → bool) x l :
  count_if p (x :: l) = (if p x then 1 else 0) + count_if p l.
Proof. unfold count_if. simpl. destruct (p x); simpl; lia. Qed.

Lemma sum_single {K} `{EqDecision K} (P : K → bool) (x : K) ks :
  NoDup ks → x ∈ ks →
  sumZ (λ k, if P k then (if bool_decide (x = k) then 1 else 0) else 0) ks =
  if P x then 1 else 0.
Proof.
  intros Hd Hx. induction Hd as [|k ks Hk Hd IH]; [set_solver|]. simpl.
  destruct (decide (x = k)) as [->|Hne].
  - rewrite bool_decide_true by done.
    assert (sumZ (λ k', if P k' then if bool_decide (k = k') then 1 else 0 else 0) ks = 0) as ->;
      [|destruct (P k); lia].
    clear IH. induction ks as [|y ks IHk]; [done|]. simpl. apply NoDup_cons in Hd as [_ Hd].
    rewrite IHk by (try done; set_solver).
    rewrite bool_decide_false by set_solver. by destruct (P y).
  - rewrite bool_decide_false by done. rewrite IH by set_solver. by destruct (P k).
Qed.

(** Counting by group and adding up the groups counts every row once. *)
Lemma sum_groups {A K} `{EqDecision K} (f : A → K) (P : K → bool) l ks :
  NoDup ks → (∀ x, x ∈ l → f x ∈ ks) →
  sumZ (λ k, if P k then count_if (λ x, bool_decide (f x = k)) l else 0) ks =
  count_if (λ x, P (f x)) l.
Proof.
  intros Hd. induction l as [|x l IH]; intros Hin.
  - transitivity (sumZ (λ _ : K, 0) ks); [|clear; unfold count_if; induction ks; simpl in *; lia].
    apply sumZ_ext. intros k _. by destruct (P k).
  - rewrite count_if_cons, <-IH by set_solver.
    rewrite <-(sum_single P (f x) ks), <-sumZ_add by (try done; set_solver).
    apply sumZ_ext. intros k _. rewrite count_if_cons. destruct (P k); lia.
Qed.

(** The statistics per reason are exact: a
    reason's entry is the number of rejected outcomes with it, outcomes without
    a reason counting as ["unknown"]. *)
Theorem count_rejected_by_reason_spec d k :
  default 0 (count_rejected_by_reason d !! k) =
  Z.of_nat (length (List.filter (λ r, rejected r &&
    String.eqb (default "unknown" (reason_of r)) k) (rows (share_outcomes d)))).
Proof.
  unfold count_rejected_by_reason. rewrite fold_counts_lookup, lookup_empty, sumZ_map. simpl.
  pose proof (sum_groups reason_of (λ o, String.eqb (default "unknown" o) k)
    (List.filter rejected (rows (share_outcomes d)))
    (remove_dups (map reason_of (List.filter rejected (rows (share_outcomes d)))))
    (NoDup_remove_dups _)) as H.
  unfold count_if in H. etransitivity; [apply H|].
  - intros x Hx. apply elem_of_remove_dups, elem_of_map. eauto.
  - do 2 f_equal. clear H. induction (rows (share_outcomes d)) as [|r l IH]; [done|]. simpl.
    destruct (rejected r); simpl; [|done]. destruct (String.eqb _ k); congruence.
Qed.
