(* ===== verification/FoundBlockRepository.v ===== *)
(** [accounting/found_block_repository.rs]: blocks found by the pool and their
    status, from [immature] to [matured], [orphaned] or [paid]. *)
From Stdlib Require Import ZArith Lia String.
From stdpp Require Import base option list numbers strings sets gmap.
From S2P Require Import Prelude Text Float64 Db.
#[local] Open Scope Z_scope.

(** [src/src/accounting/found_block_repository.rs:42-86 FoundBlockRepository::record_found_block] *)
Definition record_found_block (round_id : Z) (block_hash : string) (height : Z)
    (worker_id template_id : option Z) (persist_source : option string)
    (coinbase_value : Z) (network_target_hex : string) : DbM FoundBlock :=
  tid ← bind_opt_u64 template_id;
  value ← bind_u64 coinbase_value;
  stmt (λ d,
    if existsb (λ b, String.eqb (fb_block_hash b) block_hash) (rows (found_blocks d))
    then (Err (SqliteConstraint "UNIQUE"), d)
    else if has_id r_id round_id (rounds d) && fk_opt w_id worker_id (workers d) then
      let mk i := mkFoundBlock i round_id block_hash height "immature" worker_id tid
        persist_source None None value None network_target_hex in
      let '(i, t) := insert_row mk (found_blocks d) in
      (Ok (mk i), set_found_blocks d t)
    else (Err (SqliteConstraint "FOREIGN KEY"), d)).

(** The column updates. *)
Definition with_status (status : string) (b : FoundBlock) : FoundBlock :=
  mkFoundBlock (fb_id b) (fb_round_id b) (fb_block_hash b) (fb_height b) status
    (fb_worker_id b) (fb_template_id b) (fb_persist_source b) (fb_orphan_reason b)
    (fb_matured_at b) (fb_coinbase_value b) (fb_coinbase_txid b) (fb_network_target_hex b).
Definition with_orphan_reason (reason : option string) (b : FoundBlock) : FoundBlock :=
  mkFoundBlock (fb_id b) (fb_round_id b) (fb_block_hash b) (fb_height b) (fb_status b)
    (fb_worker_id b) (fb_template_id b) (fb_persist_source b) reason
    (fb_matured_at b) (fb_coinbase_value b) (fb_coinbase_txid b) (fb_network_target_hex b).
Definition with_matured_at (at_ : string) (b : FoundBlock) : FoundBlock :=
  mkFoundBlock (fb_id b) (fb_round_id b) (fb_block_hash b) (fb_height b) (fb_status b)
    (fb_worker_id b) (fb_template_id b) (fb_persist_source b) (fb_orphan_reason b)
    (Some at_) (fb_coinbase_value b) (fb_coinbase_txid b) (fb_network_target_hex b).
Definition with_coinbase_txid (txid : string) (b : FoundBlock) : FoundBlock :=
  mkFoundBlock (fb_id b) (fb_round_id b) (fb_block_hash b) (fb_height b) (fb_status b)
    (fb_worker_id b) (fb_template_id b) (fb_persist_source b) (fb_orphan_reason b)
    (fb_matured_at b) (fb_coinbase_value b) (Some txid) (fb_network_target_hex b).

Definition update_blocks (p : FoundBlock → bool) (f : Db → FoundBlock → FoundBlock) : DbM unit :=
  stmt (λ d, (Ok tt, set_found_blocks d (update_rows p (f d) (found_blocks d)))).

(** [src/src/accounting/found_block_repository.rs:89-96 FoundBlockRepository::mark_orphaned] *)
Definition mark_orphaned (block_hash reason : string) : DbM unit :=
  update_blocks (λ b, String.eqb (fb_block_hash b) block_hash)
    (λ _ b, with_orphan_reason (Some reason) (with_status "orphaned" b)).

(** [src/src/accounting/found_block_repository.rs:100-107 FoundBlockRepository::un_orphan] *)
Definition un_orphan (block_hash : string) : DbM unit :=
  update_blocks (λ b, String.eqb (fb_block_hash b) block_hash &&
                      String.eqb (fb_status b) "orphaned")
    (λ _ b, with_orphan_reason None (with_status "immature" b)).

(** A row read with [v as u64]: the debug assertions are not in a release
    build. *)
Definition read_block (b : FoundBlock) : FoundBlock :=
  mkFoundBlock (fb_id b) (fb_round_id b) (fb_block_hash b) (fb_height b) (fb_status b)
    (fb_worker_id b) (as_u64 <$> fb_template_id b) (fb_persist_source b) (fb_orphan_reason b)
    (fb_matured_at b) (as_u64 (fb_coinbase_value b)) (fb_coinbase_txid b)
    (fb_network_target_hex b).

(** A row read after [assert!]s that its unsigned columns are not negative. *)
Definition readable (b : FoundBlock) : bool :=
  match fb_template_id b with Some t => 0 <=? t | None => true end &&
  (0 <=? fb_coinbase_value b).
Definition read_block_checked (b : FoundBlock) : result FoundBlock :=
  if readable b then Ok (read_block b) else Panic.

(** [src/src/accounting/found_block_repository.rs:110-151 FoundBlockRepository::get_by_hash] *)
Definition get_by_hash (d : Db) (block_hash : string) : option FoundBlock :=
  read_block <$> select_one (λ b, String.eqb (fb_block_hash b) block_hash) (found_blocks d).

(** [src/src/accounting/found_block_repository.rs:155-196 FoundBlockRepository::get_by_round_id] *)
Definition get_by_round_id (d : Db) (round_id : Z) : result (option FoundBlock) :=
  match last (List.filter (λ b, fb_round_id b =? round_id) (rows (found_blocks d))) with
  | Some b => Some <$> read_block_checked b
  | None => Ok None
  end.

(** [src/src/accounting/found_block_repository.rs:199-204 FoundBlockRepository::update_status] *)
Definition update_status (id : Z) (status : string) : DbM unit :=
  update_blocks (λ b, fb_id b =? id) (λ _, with_status status).

(** [src/src/accounting/found_block_repository.rs:207-212 FoundBlockRepository::update_coinbase_txid] *)
Definition update_coinbase_txid (id : Z) (coinbase_txid : string) : DbM unit :=
  update_blocks (λ b, fb_id b =? id) (λ _, with_coinbase_txid coinbase_txid).

(** [src/src/accounting/found_block_repository.rs:218-225 FoundBlockRepository::mark_matured] *)
Definition mark_matured (id : Z) : DbM unit :=
  update_blocks (λ b, fb_id b =? id) (λ d b, with_matured_at (clock d) (with_status "matured" b)).

(** [src/src/accounting/found_block_repository.rs:228-288 FoundBlockRepository::list] *)
Definition list_blocks (d : Db) (status_filter : option string) : result (list FoundBlock) :=
  mapM read_block_checked (rev (match status_filter with
    | Some s => List.filter (λ b, String.eqb (fb_status b) s) (rows (found_blocks d))
    | None => rows (found_blocks d)
    end)).

(** * Properties *)

Lemma insert_block_wf d mk :
  (∀ i, fb_id (mk i) = i) →
  fb_block_hash (mk (seq (found_blocks d) + 1)) ∉ map fb_block_hash (rows (found_blocks d)) →
  has_id r_id (fb_round_id (mk (seq (found_blocks d) + 1))) (rounds d) = true →
  fk_opt w_id (fb_worker_id (mk (seq (found_blocks d) + 1))) (workers d) = true →
  wf_rel d (set_found_blocks d (insert_row mk (found_blocks d)).2).
Proof.
  intros Hid Hh Hr%has_id_spec Hw []. with_insert fb_id mk (found_blocks d).
  split; simpl; auto; rewrite ?Hrows, ?map_app, ?omap_app; simpl; auto with fk.
  - by apply NoDup_snoc.
  - destruct (fb_worker_id _) as [w|]; [apply has_id_spec in Hw; auto with fk|].
    by rewrite app_nil_r.
Qed.

Lemma record_found_block_wf r h n w t p v k : Keeps wf_rel (record_found_block r h n w t p v k).
Proof.
  unfold record_found_block. keeps. intros d. unfold stmt.
  destruct (existsb _ _) eqn:E; [reflexivity|].
  destruct (_ && _) eqn:Efk; [|reflexivity].
  apply andb_true_iff in Efk as [Hr Hw]. apply existsb_key_fresh in E.
  match goal with |- context [insert_row ?m _] => by apply (insert_block_wf d m) end.
Qed.

(** An update that keeps the key columns keeps every constraint. *)
Lemma update_blocks_wf p f :
  (∀ d b, fb_id (f d b) = fb_id b ∧ fb_block_hash (f d b) = fb_block_hash b ∧
          fb_round_id (f d b) = fb_round_id b ∧ fb_worker_id (f d b) = fb_worker_id b) →
  Keeps wf_rel (update_blocks p f).
Proof.
  intros H d []. unfold update_blocks, stmt. simpl.
  assert (∀ b, fb_id (f d b) = fb_id b) as Hid by apply H.
  pose proof (update_rows_ok fb_id p (f d) _ Hid ltac:(done)) as Hok.
  pose proof (map_update_rows fb_block_hash p (f d) (found_blocks d) ltac:(apply H)) as H1.
  pose proof (map_update_rows fb_round_id p (f d) (found_blocks d) ltac:(apply H)) as H2.
  pose proof (omap_update_rows fb_worker_id p (f d) (found_blocks d) ltac:(apply H)) as H3.
  revert Hok H1 H2 H3. generalize (update_rows p (f d) (found_blocks d)).
  intros t' Hok H1 H2 H3. split; simpl; auto; by rewrite ?H1, ?H2, ?H3.
Qed.

Lemma mark_orphaned_wf h r : Keeps wf_rel (mark_orphaned h r).
Proof. by apply update_blocks_wf. Qed.
Lemma un_orphan_wf h : Keeps wf_rel (un_orphan h).
Proof. by apply update_blocks_wf. Qed.
Lemma update_status_wf i s : Keeps wf_rel (update_status i s).
Proof. by apply update_blocks_wf. Qed.
Lemma update_coinbase_txid_wf i t : Keeps wf_rel (update_coinbase_txid i t).
Proof. by apply update_blocks_wf. Qed.
Lemma mark_matured_wf i : Keeps wf_rel (mark_matured i).
Proof. by apply update_blocks_wf. Qed.
#[export] Hint Resolve record_found_block_wf mark_orphaned_wf un_orphan_wf update_status_wf
  update_coinbase_txid_wf mark_matured_wf : keeps.

(** ** The assertions of the readers *)

(** Every stored block has unsigned columns that fit a signed column. *)
Definition stored_ok (b : FoundBlock) : Prop :=
  0 ≤ fb_coinbase_value b ≤ i64_max ∧ (∀ t, fb_template_id b = Some t → 0 ≤ t ≤ i64_max).
Definition blocks_ok (d : Db) : Prop := Forall stored_ok (rows (found_blocks d)).
Definition blocks_rel (d d' : Db) : Prop := blocks_ok d → blocks_ok d'.
#[export] Instance blocks_rel_preorder : PreOrder blocks_rel.
Proof. split; red; unfold blocks_rel; auto. Qed.

Lemma record_found_block_blocks r h n w t p v k :
  in_u64 v → (∀ z, t = Some z → in_u64 z) →
  Keeps blocks_rel (record_found_block r h n w t p v k).
Proof.
  intros Hv Ht d Hd. unfold record_found_block, stmt. unfold mbind, M_bind.
  destruct (bind_opt_u64 t d) as [[t'|?|] d1] eqn:E1; cbn [fst snd].
  2,3: pose proof (Keeps_bind_opt_u64 blocks_rel t d Hd) as Hk; by rewrite E1 in Hk.
  apply bind_opt_u64_ok in E1 as (-> & -> & Htb).
  destruct (bind_u64 v d) as [[v'|?|] d1] eqn:E2; cbn [fst snd].
  2,3: pose proof (Keeps_bind_u64 blocks_rel v d Hd) as Hk; by rewrite E2 in Hk.
  apply bind_u64_ok in E2 as (-> & -> & Hvb).
  destruct (existsb _ _); [done|]. destruct (_ && _); [|done].
  unfold blocks_ok, insert_row. simpl. apply Forall_app. split; [done|].
  constructor; [|done]. split; simpl; [unfold in_u64 in Hv; lia|].
  intros z ->. specialize (Ht z eq_refl). specialize (Htb z eq_refl). unfold in_u64 in Ht. lia.
Qed.

Lemma update_blocks_blocks p f :
  (∀ d b, fb_coinbase_value (f d b) = fb_coinbase_value b ∧
          fb_template_id (f d b) = fb_template_id b) →
  Keeps blocks_rel (update_blocks p f).
Proof.
  intros H d Hd. unfold update_blocks, stmt, blocks_ok, update_rows. simpl.
  apply Forall_map. eapply Forall_impl; [exact Hd|]. intros b Hb. simpl.
  destruct (p b); [|done]. unfold stored_ok. destruct (H d b) as [-> ->]. done.
Qed.

(** Reading a stored block gives it back. *)
Lemma read_block_id b : stored_ok b → read_block_checked b = Ok b ∧ read_block b = b.
Proof.
  intros [Hv Ht]. assert (read_block b = b) as Hr.
  { unfold read_block. destruct b as [? ? ? ? ? ? t ? ? ? v ? ?]. simpl in *. f_equal.
    - destruct t as [t|]; [|done]. simpl. f_equal. apply as_u64_id.
      specialize (Ht t eq_refl). unfold in_u64, u64_max, i64_max in *. lia.
    - apply as_u64_id. unfold in_u64, u64_max, i64_max in *. lia. }
  split; [|done]. unfold read_block_checked, readable.
  rewrite (proj2 (Z.leb_le 0 _)) by apply Hv. rewrite Hr, andb_true_r.
  destruct (fb_template_id b) as [t|]; [|done].
  by rewrite (proj2 (Z.leb_le 0 t)) by by apply Ht.
Qed.

Lemma mapM_ok {A B} (f : A → result B) (g : A → B) l :
  (∀ x, x ∈ l → f x = Ok (g x)) → mapM f l = Ok (map g l).
Proof.
  induction l as [|x l IH]; intros H; [done|]. simpl. rewrite (H x) by set_solver. simpl.
  rewrite IH by (intros; apply H; set_solver). done.
Qed.

(** Listing never panics. *)
Lemma list_blocks_total d o : blocks_ok d → is_ok (list_blocks d o) = true.
Proof.
  intros Hd. unfold list_blocks. rewrite (mapM_ok _ id); [done|].
  intros b Hb%list_elem_of_In%in_rev. apply read_block_id.
  unfold blocks_ok in Hd. rewrite Forall_forall in Hd. apply Hd.
  destruct o; [apply filter_In in Hb as [Hb _]|]; by try apply list_elem_of_In.
Qed.

(** Listing by status gives the stored blocks, newest first. *)
Lemma list_blocks_ok d s :
  blocks_ok d → list_blocks d (Some s) =
    Ok (rev (List.filter (λ b, String.eqb (fb_status b) s) (rows (found_blocks d)))).
Proof.
  intros Hd. unfold list_blocks. rewrite (mapM_ok _ id); [by rewrite map_id|].
  intros b Hb. apply read_block_id. unfold blocks_ok in Hd. rewrite Forall_forall in Hd. apply Hd.
  rewrite list_elem_of_In, <-in_rev in Hb. apply filter_In in Hb as [Hb _].
  by apply list_elem_of_In.
Qed.

Lemma get_by_hash_ok d h :
  blocks_ok d →
  get_by_hash d h = List.find (λ b, String.eqb (fb_block_hash b) h) (rows (found_blocks d)).
Proof.
  intros Hd. unfold get_by_hash, select_one. destruct (List.find _ _) as [b|] eqn:E; [|done].
  simpl. f_equal. apply read_block_id. apply find_some_elem in E as [Hb _].
  unfold blocks_ok in Hd. rewrite Forall_forall in Hd. auto.
Qed.
