(* ===== verification/PayoutRepository.v ===== *)
(** [accounting/payout_repository.rs]: payout batches, the payouts and share
    snapshots of a batch, and the dust carried forward per address. *)
From Stdlib Require Import ZArith Lia String.
From stdpp Require Import base option list numbers strings sets gmap.
From S2P Require Import Prelude Text Float64 Db.
#[local] Open Scope Z_scope.

(** [src/src/accounting/payout_repository.rs:59-98 PayoutRepository::create_payout_batch] *)
Definition create_payout_batch (round_id total_amount pool_fee_amount : Z)
    (pool_fee_address : option string) (miner_count : Z) (retry_key : string) : DbM PayoutBatch :=
  stmt (λ d,
    if existsb (λ b, bool_decide (pb_retry_key b = Some retry_key)) (rows (payout_batches d))
    then (Err (SqliteConstraint "UNIQUE"), d)
    else if has_id r_id round_id (rounds d) then
      let mk i := mkPayoutBatch i round_id "pending" total_amount pool_fee_amount
        pool_fee_address miner_count (Some retry_key) None None 0 None None in
      let '(i, t) := insert_row mk (payout_batches d) in
      (Ok (mk i), set_payout_batches d t)
    else (Err (SqliteConstraint "FOREIGN KEY"), d)).

(** [src/src/accounting/payout_repository.rs:101-131 PayoutRepository::get_batch_by_id] *)
Definition get_batch_by_id (d : Db) (id : Z) : option PayoutBatch :=
  select_one (λ b, pb_id b =? id) (payout_batches d).

(** [src/src/accounting/payout_repository.rs:134-183 PayoutRepository::list_batches] *)
Definition list_batches (d : Db) (status_filter : option string) : list PayoutBatch :=
  rev (match status_filter with
       | Some s => List.filter (λ b, String.eqb (pb_status b) s) (rows (payout_batches d))
       | None => rows (payout_batches d)
       end).

(** [src/src/accounting/payout_repository.rs:186-218 PayoutRepository::get_batches_by_block_hash]
    A join without an order: the rows are given in batch order. *)
Definition get_batches_by_block_hash (d : Db) (block_hash : string) : list PayoutBatch :=
  flat_map (λ pb, map (λ _, pb) (List.filter (λ fb,
      (fb_round_id fb =? pb_round_id pb) && String.eqb (fb_block_hash fb) block_hash)
      (rows (found_blocks d)))) (rows (payout_batches d)).

Definition with_batch_status (status : string) (txid : option string) (b : PayoutBatch) : PayoutBatch :=
  mkPayoutBatch (pb_id b) (pb_round_id b) status (pb_total_amount b) (pb_pool_fee_amount b)
    (pb_pool_fee_address b) (pb_miner_count b) (pb_retry_key b) (pb_last_error b)
    (pb_next_retry_at b) (pb_attempt_count b) (pb_signed_payload_ref b) txid.

Definition update_batch (id : Z) (f : PayoutBatch → PayoutBatch) : DbM unit := stmt (λ d,
  (Ok tt, set_payout_batches d (update_rows (λ b, pb_id b =? id) f (payout_batches d)))).

(** [src/src/accounting/payout_repository.rs:221-226 PayoutRepository::update_batch_status] *)
Definition update_batch_status (id : Z) (status : string) : DbM unit :=
  update_batch id (λ b, with_batch_status status (pb_submitted_txid b) b).

(** [src/src/accounting/payout_repository.rs:229-236 PayoutRepository::mark_batch_submitted] *)
Definition mark_batch_submitted (id : Z) (txid : string) : DbM unit :=
  update_batch id (with_batch_status "submitted" (Some txid)).

(** [src/src/accounting/payout_repository.rs:239-268 PayoutRepository::record_payout] *)
Definition record_payout (batch_id worker_id : Z) (payout_address : string)
    (amount dust_carried_forward : Z) : DbM Payout := stmt (λ d,
  if has_id pb_id batch_id (payout_batches d) && has_id w_id worker_id (workers d) then
    let mk i := mkPayout i batch_id worker_id payout_address amount dust_carried_forward in
    let '(i, t) := insert_row mk (payouts d) in
    (Ok (mk i), set_payouts d t)
  else (Err (SqliteConstraint "FOREIGN KEY"), d)).

(** [src/src/accounting/payout_repository.rs:271-292 PayoutRepository::get_payouts_by_batch] *)
Definition get_payouts_by_batch (d : Db) (batch_id : Z) : list Payout :=
  List.filter (λ p, p_batch_id p =? batch_id) (rows (payouts d)).

(** [src/src/accounting/payout_repository.rs:296-314 PayoutRepository::get_or_create_dust_balance] *)
Definition get_or_create_dust_balance (payout_address : string) : DbM (Z * bool) := stmt (λ d,
  match select_one (λ b, String.eqb (d_payout_address b) payout_address) (dust_balances d) with
  | Some b => (Ok (d_balance b, false), d)
  | None => (Ok (0, true), set_dust_balances d
              (insert_row (λ _, mkDustBalance payout_address 0) (dust_balances d)).2)
  end).

(** [src/src/accounting/payout_repository.rs:317-326 PayoutRepository::update_dust_balance] *)
Definition update_dust_balance (payout_address : string) (balance : Z) : DbM unit := stmt (λ d,
  let p b := String.eqb (d_payout_address b) payout_address in
  let mk := mkDustBalance payout_address balance in
  if existsb p (rows (dust_balances d))
  then (Ok tt, set_dust_balances d (update_rows p (λ _, mk) (dust_balances d)))
  else (Ok tt, set_dust_balances d (insert_row (λ _, mk) (dust_balances d)).2)).

(** The insert of one snapshot; a NaN weight is [NULL] and the column is
    [NOT NULL]. *)
Definition snapshot_share (snap : PayoutShareSnapshot) : DbM unit := stmt (λ d,
  if f64_nan (ps_work_units snap) then (Err (SqliteConstraint "NOT NULL"), d)
  else if has_id pb_id (ps_batch_id snap) (payout_batches d) &&
          has_id sr_id (ps_share_id snap) (shares d) &&
          has_id or_id (ps_share_outcome_id snap) (share_outcomes d)
  then
    let mk i := mkPayoutShareSnapshot i (ps_batch_id snap) (ps_share_id snap)
      (ps_share_outcome_id snap) (ps_payout_address snap) (ps_work_units snap)
      (ps_share_created_at snap) in
    (Ok tt, set_payout_share_snapshots d (insert_row mk (payout_share_snapshots d)).2)
  else (Err (SqliteConstraint "FOREIGN KEY"), d)).

(** [src/src/accounting/payout_repository.rs:329-352 PayoutRepository::snapshot_shares] *)
Definition snapshot_shares (snapshots : list PayoutShareSnapshot) : DbM Z :=
  mfor snapshots snapshot_share ;; mret (Z.of_nat (length snapshots)).

(** [src/src/accounting/payout_repository.rs:355-359 PayoutRepository::delete_payouts_by_batch] *)
Definition delete_payouts_by_batch (batch_id : Z) : DbM unit := stmt (λ d,
  (Ok tt, set_payouts d (delete_rows (λ p, p_batch_id p =? batch_id) (payouts d)))).

(** [src/src/accounting/payout_repository.rs:362-369 PayoutRepository::delete_snapshots_by_batch] *)
Definition delete_snapshots_by_batch (batch_id : Z) : DbM unit := stmt (λ d,
  (Ok tt, set_payout_share_snapshots d
    (delete_rows (λ p, ps_batch_id p =? batch_id) (payout_share_snapshots d)))).

(** [src/src/accounting/payout_repository.rs:372-394 PayoutRepository::get_snapshots_by_batch] *)
Definition get_snapshots_by_batch (d : Db) (batch_id : Z) : list PayoutShareSnapshot :=
  List.filter (λ p, ps_batch_id p =? batch_id) (rows (payout_share_snapshots d)).

(** * Properties *)

Lemma insert_batch_wf d mk :
  (∀ i, pb_id (mk i) = i) →
  (∀ k, pb_retry_key (mk (seq (payout_batches d) + 1)) = Some k →
        k ∉ omap pb_retry_key (rows (payout_batches d))) →
  has_id r_id (pb_round_id (mk (seq (payout_batches d) + 1))) (rounds d) = true →
  wf_rel d (set_payout_batches d (insert_row mk (payout_batches d)).2).
Proof.
  intros Hid Hk Hr%has_id_spec []. with_insert pb_id mk (payout_batches d).
  split; simpl; auto; rewrite ?Hids, ?Hrows, ?map_app, ?omap_app; simpl; auto with fk.
  destruct (pb_retry_key _) eqn:E; [|by rewrite app_nil_r]. apply NoDup_snoc; auto.
Qed.

Lemma create_payout_batch_wf r t f a n k : Keeps wf_rel (create_payout_batch r t f a n k).
Proof.
  intros d. unfold create_payout_batch, stmt.
  destruct (existsb _ _) eqn:E; [reflexivity|]. destruct (has_id _ _ _) eqn:Er; [|reflexivity].
  match goal with |- context [insert_row ?m _] => apply (insert_batch_wf d m) end; [done| |done].
  intros ? [= <-] (b & Hb & Hk)%list_elem_of_omap.
  assert (existsb (λ b, bool_decide (pb_retry_key b = Some k)) (rows (payout_batches d)) = true);
    [|congruence].
  apply existsb_exists. exists b. rewrite <-list_elem_of_In, Hk. split; [done|].
  by apply bool_decide_eq_true.
Qed.

Lemma update_batch_wf i f :
  (∀ b, pb_id (f b) = pb_id b) → (∀ b, pb_round_id (f b) = pb_round_id b) →
  (∀ b, pb_retry_key (f b) = pb_retry_key b) → Keeps wf_rel (update_batch i f).
Proof.
  intros Hid Hr Hk d []. unfold update_batch, stmt. simpl.
  set (p := λ b, pb_id b =? i).
  pose proof (update_rows_ok pb_id p f _ Hid ltac:(done)) as Hok.
  apply (tids_update_rows pb_id p f (payout_batches d)) in Hid.
  apply (map_update_rows pb_round_id p f (payout_batches d)) in Hr.
  apply (omap_update_rows pb_retry_key p f (payout_batches d)) in Hk.
  revert Hok Hid Hr Hk. generalize (update_rows p f (payout_batches d)). intros t' Hok Hid Hr Hk.
  split; simpl; auto; by rewrite ?Hid, ?Hr, ?Hk.
Qed.

Lemma update_batch_status_wf i s : Keeps wf_rel (update_batch_status i s).
Proof. by apply update_batch_wf. Qed.
Lemma mark_batch_submitted_wf i t : Keeps wf_rel (mark_batch_submitted i t).
Proof. by apply update_batch_wf. Qed.

Lemma insert_payout_wf d mk :
  (∀ i, p_id (mk i) = i) →
  has_id pb_id (p_batch_id (mk (seq (payouts d) + 1))) (payout_batches d) = true →
  has_id w_id (p_worker_id (mk (seq (payouts d) + 1))) (workers d) = true →
  wf_rel d (set_payouts d (insert_row mk (payouts d)).2).
Proof.
  intros Hid Hb%has_id_spec Hw%has_id_spec []. with_insert p_id mk (payouts d).
  split; simpl; auto; rewrite ?Hrows, ?map_app; simpl; auto with fk.
Qed.

Lemma record_payout_wf b w a n c : Keeps wf_rel (record_payout b w a n c).
Proof.
  intros d. unfold record_payout, stmt. destruct (_ && _) eqn:E; [|reflexivity].
  apply andb_true_iff in E as [Hb Hw].
  match goal with |- context [insert_row ?m _] => by apply (insert_payout_wf d m) end.
Qed.

Lemma insert_snapshot_wf d mk :
  (∀ i, ps_id (mk i) = i) →
  has_id pb_id (ps_batch_id (mk (seq (payout_share_snapshots d) + 1))) (payout_batches d) = true →
  has_id sr_id (ps_share_id (mk (seq (payout_share_snapshots d) + 1))) (shares d) = true →
  has_id or_id (ps_share_outcome_id (mk (seq (payout_share_snapshots d) + 1)))
    (share_outcomes d) = true →
  wf_rel d (set_payout_share_snapshots d (insert_row mk (payout_share_snapshots d)).2).
Proof.
  intros Hid Hb%has_id_spec Hs%has_id_spec Ho%has_id_spec [].
  with_insert ps_id mk (payout_share_snapshots d).
  split; simpl; auto; rewrite ?Hrows, ?map_app; simpl; auto with fk.
Qed.

Lemma snapshot_share_wf s : Keeps wf_rel (snapshot_share s).
Proof.
  intros d. unfold snapshot_share, stmt. destruct (f64_nan _); [reflexivity|].
  destruct (_ && _) eqn:E; [|reflexivity].
  apply andb_true_iff in E as [[Hb Hs]%andb_true_iff Ho].
  match goal with |- context [insert_row ?m _] => by apply (insert_snapshot_wf d m) end.
Qed.
#[export] Hint Resolve create_payout_batch_wf update_batch_status_wf mark_batch_submitted_wf
  record_payout_wf snapshot_share_wf : keeps.

Lemma snapshot_shares_wf l : Keeps wf_rel (snapshot_shares l).
Proof. unfold snapshot_shares. keeps. Qed.

Lemma delete_payouts_by_batch_wf b : Keeps wf_rel (delete_payouts_by_batch b).
Proof.
  intros d []. unfold delete_payouts_by_batch, stmt. set (p := λ p : Payout, _).
  pose proof (delete_rows_ok p_id p (payouts d) ltac:(done)) as Hok.
  pose proof (map_delete_rows_subset p_batch_id p (payouts d)) as H1.
  pose proof (map_delete_rows_subset p_worker_id p (payouts d)) as H2.
  revert Hok H1 H2. generalize (delete_rows p (payouts d)). intros t' Hok H1 H2.
  split; simpl; auto; etransitivity; eauto.
Qed.

Lemma delete_snapshots_by_batch_wf b : Keeps wf_rel (delete_snapshots_by_batch b).
Proof.
  intros d []. unfold delete_snapshots_by_batch, stmt. set (p := λ p : PayoutShareSnapshot, _).
  pose proof (delete_rows_ok ps_id p (payout_share_snapshots d) ltac:(done)) as Hok.
  pose proof (map_delete_rows_subset ps_batch_id p (payout_share_snapshots d)) as H1.
  pose proof (map_delete_rows_subset ps_share_id p (payout_share_snapshots d)) as H2.
  pose proof (map_delete_rows_subset ps_share_outcome_id p (payout_share_snapshots d)) as H3.
  revert Hok H1 H2 H3. generalize (delete_rows p (payout_share_snapshots d)).
  intros t' Hok H1 H2 H3. split; simpl; auto; etransitivity; eauto.
Qed.

Lemma set_dust_wf d t :
  NoDup (map d_payout_address (rows t)) → wf_rel d (set_dust_balances d t).
Proof. intros Ht []. by split. Qed.

Lemma insert_dust_nodup d a v :
  existsb (λ b, String.eqb (d_payout_address b) a) (rows (dust_balances d)) = false →
  db_wf d →
  NoDup (map d_payout_address (rows (insert_row (λ _, mkDustBalance a v) (dust_balances d)).2)).
Proof.
  intros Hk%existsb_key_fresh []. rewrite rows_insert_row, map_app. by apply NoDup_snoc.
Qed.

Lemma get_or_create_dust_balance_wf a : Keeps wf_rel (get_or_create_dust_balance a).
Proof.
  intros d Hd. unfold get_or_create_dust_balance, select_one, stmt.
  destruct (List.find _ _) eqn:E; [done|]. apply set_dust_wf; [|done].
  apply insert_dust_nodup; [|done].
  destruct (existsb _ _) eqn:Ex; [|done]. apply existsb_find in Ex as [x Hx]. simplify_eq.
Qed.

Lemma update_dust_balance_wf a v : Keeps wf_rel (update_dust_balance a v).
Proof.
  intros d Hd. unfold update_dust_balance, stmt.
  destruct (existsb _ _) eqn:E; simpl; apply set_dust_wf; try done; [|by apply insert_dust_nodup].
  apply uq_dust in Hd. unfold update_rows. simpl. rewrite map_map.
  erewrite map_ext; [exact Hd|]. intros b. simpl.
  by destruct (String.eqb_spec (d_payout_address b) a).
Qed.
#[export] Hint Resolve snapshot_shares_wf delete_payouts_by_batch_wf delete_snapshots_by_batch_wf
  get_or_create_dust_balance_wf update_dust_balance_wf : keeps.
