(* ===== verification/Frames.v ===== *)
(** Which part of the database each repository call can change. A view [view]
    of the database that does not depend on the table a call writes is the same
    after the call; the lemmas are hints of the [keeps] database, so that the
    frame of a whole operation follows from its calls. *)
From Stdlib Require Import ZArith Lia String.
From stdpp Require Import base option list numbers strings sets gmap.
From S2P Require Import Prelude Text Float64 Db WorkerRepository AccountingEventRepository RoundRepository ShareRepository FoundBlockRepository PayoutRepository.
#[local] Open Scope Z_scope.

Definition Same {T} (view : Db → T) (d d' : Db) : Prop := view d' = view d.
#[export] Instance Same_preorder {T} (view : Db → T) : PreOrder (Same view).
Proof. split; red; unfold Same; congruence. Qed.

Lemma Keeps_impl (R R' : Db → Db → Prop) {A} (c : DbM A) :
  (∀ d d', R d d' → R' d d') → Keeps R c → Keeps R' c.
Proof. intros H Hc d. apply H, Hc. Qed.

Section Frames.
Context {T : Type} (view : Db → T).

Lemma upsert_same a s :
  (∀ d t, view (set_workers d t) = view d) → Keeps (Same view) (upsert a s).
Proof. intros H d. unfold upsert, Same. destruct (select_one _ _); simpl; auto. Qed.

Lemma record_event_same e :
  (∀ d t, view (set_accounting_events d t) = view d) → Keeps (Same view) (record_event e).
Proof. intros H. unfold record_event. keeps. intros d. apply H. Qed.

Section RoundFrames.
Hypothesis H : ∀ d t, view (set_rounds d t) = view d.
Lemma get_or_create_current_round_same t : Keeps (Same view) (get_or_create_current_round t).
Proof.
  intros d. unfold get_or_create_current_round, Same, bind_u64.
  destruct (select_one _ _); [done|]. munfold. destruct (t <=? i64_max); [|done]. apply H.
Qed.
Lemma close_round_same i e s : Keeps (Same view) (close_round i e s).
Proof. unfold close_round. keeps. intros d. apply H. Qed.
Lemma resolve_round_for_template_same {so : SqlOrder} t :
  Keeps (Same view) (resolve_round_for_template t).
Proof.
  unfold resolve_round_for_template. keeps. intros d. unfold stmt.
  destruct (head _); [reflexivity|]. apply get_or_create_current_round_same.
Qed.
End RoundFrames.

Lemma insert_or_ignore_share_same s :
  (∀ d t, view (set_shares d t) = view d) → Keeps (Same view) (insert_or_ignore_share s).
Proof.
  intros H. unfold insert_or_ignore_share. keeps. intros d. unfold stmt, Same.
  destruct (_ || _); [done|]. destruct (has_id _ _ _); [apply H|done].
Qed.
Lemma insert_or_ignore_outcome_same i o :
  (∀ d t, view (set_share_outcomes d t) = view d) →
  Keeps (Same view) (insert_or_ignore_outcome i o).
Proof.
  intros H d. unfold insert_or_ignore_outcome, stmt, Same.
  destruct (existsb _ _); [done|]. destruct (_ && _); [apply H|done].
Qed.
Lemma insert_share_and_outcome_atomic_same s o :
  (∀ d t, view (set_shares d t) = view d) → (∀ d t, view (set_share_outcomes d t) = view d) →
  Keeps (Same view) (insert_share_and_outcome_atomic s o).
Proof.
  intros H1 H2. apply Keeps_transaction; [typeclasses eauto|].
  pose proof (insert_or_ignore_share_same s H1).
  pose proof (λ i, insert_or_ignore_outcome_same i o H2).
  unfold put_share, put_outcome. keeps.
Qed.
Lemma update_outcome_node_result_same k n :
  (∀ d t, view (set_share_outcomes d t) = view d) →
  Keeps (Same view) (update_outcome_node_result k n).
Proof. intros H d. apply H. Qed.
Lemma insert_authorization_event_same e :
  (∀ d t, view (set_authorization_events d t) = view d) →
  Keeps (Same view) (insert_authorization_event e).
Proof. intros H d. apply H. Qed.

Section BlockFrames.
Hypothesis H : ∀ d t, view (set_found_blocks d t) = view d.
Lemma record_found_block_same r h n w t p v k :
  Keeps (Same view) (record_found_block r h n w t p v k).
Proof.
  unfold record_found_block. keeps. intros d. unfold stmt, Same.
  destruct (existsb _ _); [done|]. destruct (_ && _); [apply H|done].
Qed.
Lemma update_blocks_same p f : Keeps (Same view) (update_blocks p f).
Proof. intros d. apply H. Qed.
Lemma mark_orphaned_same h r : Keeps (Same view) (mark_orphaned h r).
Proof. apply update_blocks_same. Qed.
Lemma un_orphan_same h : Keeps (Same view) (un_orphan h).
Proof. apply update_blocks_same. Qed.
Lemma update_status_same i s : Keeps (Same view) (update_status i s).
Proof. apply update_blocks_same. Qed.
Lemma update_coinbase_txid_same i t : Keeps (Same view) (update_coinbase_txid i t).
Proof. apply update_blocks_same. Qed.
Lemma mark_matured_same i : Keeps (Same view) (mark_matured i).
Proof. apply update_blocks_same. Qed.
End BlockFrames.

Section BatchFrames.
Hypothesis H : ∀ d t, view (set_payout_batches d t) = view d.
Lemma create_payout_batch_same r t f a n k : Keeps (Same view) (create_payout_batch r t f a n k).
Proof.
  intros d. unfold create_payout_batch, stmt, Same.
  destruct (existsb _ _); [done|]. destruct (has_id _ _ _); [apply H|done].
Qed.
Lemma update_batch_status_same i s : Keeps (Same view) (update_batch_status i s).
Proof. intros d. apply H. Qed.
Lemma mark_batch_submitted_same i t : Keeps (Same view) (mark_batch_submitted i t).
Proof. intros d. apply H. Qed.
End BatchFrames.

Lemma record_payout_same b w a n c :
  (∀ d t, view (set_payouts d t) = view d) → Keeps (Same view) (record_payout b w a n c).
Proof.
  intros H d. unfold record_payout, stmt, Same. destruct (_ && _); [apply H|done].
Qed.
Lemma delete_payouts_by_batch_same b :
  (∀ d t, view (set_payouts d t) = view d) → Keeps (Same view) (delete_payouts_by_batch b).
Proof. intros H d. apply H. Qed.
Lemma snapshot_share_same s :
  (∀ d t, view (set_payout_share_snapshots d t) = view d) → Keeps (Same view) (snapshot_share s).
Proof.
  intros H d. unfold snapshot_share, stmt, Same. destruct (f64_nan _); [done|].
  destruct (_ && _); [apply H|done].
Qed.
Lemma delete_snapshots_by_batch_same b :
  (∀ d t, view (set_payout_share_snapshots d t) = view d) →
  Keeps (Same view) (delete_snapshots_by_batch b).
Proof. intros H d. apply H. Qed.
End Frames.

#[export] Hint Extern 1 (∀ (d : Db) t, _ = _) => reflexivity : keeps.
#[export] Hint Resolve upsert_same record_event_same get_or_create_current_round_same
  close_round_same resolve_round_for_template_same insert_share_and_outcome_atomic_same
  update_outcome_node_result_same insert_authorization_event_same record_found_block_same
  mark_orphaned_same un_orphan_same update_status_same update_coinbase_txid_same mark_matured_same
  create_payout_batch_same update_batch_status_same mark_batch_submitted_same record_payout_same
  delete_payouts_by_batch_same snapshot_share_same delete_snapshots_by_batch_same : keeps.
