(* ===== verification/Pplns.v ===== *)
(** [payout/pplns.rs] and [payout/mod.rs]: the PPLNS window of a found block
    and the pool's part of the coinbase value. *)
From Stdlib Require Import ZArith Lia String Sorted.
From stdpp Require Import base option list numbers strings sets gmap.
From S2P Require Import Prelude Text Float64 Db.
#[local] Open Scope Z_scope.

(** [src/src/payout/pplns.rs:9-16 PplnsShareEntry] *)
Record PplnsShareEntry := mkPplnsShareEntry {
  pe_share_id : Z;
  pe_share_outcome_id : Z;
  pe_worker_id : Z;
  pe_payout_address : string;
  pe_difficulty : f64;
  pe_created_at : string;
}.

(** [src/src/payout/pplns.rs:36-57 calculate_pplns_window (part)]
    The join and the [WHERE] clause of the window query. *)
Definition pplns_eligible (d : Db) (found_at : string) : list PplnsShareEntry :=
  omap (λ r, let o := or_outcome r in
    if String.eqb (o_status o) "accepted" && str_leb (or_created_at r) found_at then
      s ← select_one (λ s, sr_id s =? o_share_id o) (shares d);
      w ← select_one (λ w, w_id w =? o_worker_id o) (workers d);
      i ← o_round_id o;
      _ ← select_one (λ r, r_id r =? i) (rounds d);
      Some (mkPplnsShareEntry (o_share_id o) (o_id o) (o_worker_id o) (w_payout_address w)
              (s_difficulty (sr_share s)) (or_created_at r))
    else None) (rows (share_outcomes d)).

(** [src/src/payout/pplns.rs:61-69 calculate_pplns_window (part)]
    [iter().position] with the running sum in its closure. *)
Fixpoint cutoff_index (threshold cumulative : f64) (l : list PplnsShareEntry) : option nat :=
  match l with
  | [] => None
  | e :: l' =>
      let cumulative := f64_add cumulative (pe_difficulty e) in
      if f64_ge cumulative threshold then Some O
      else S <$> cutoff_index threshold cumulative l'
  end.

Definition created_desc (a b : PplnsShareEntry) : bool :=
  str_leb (pe_created_at b) (pe_created_at a).

Section Window.
Context {so : SqlOrder}.

(** [src/src/payout/pplns.rs:30-74 calculate_pplns_window] *)
Definition calculate_pplns_window (d : Db) (found_at : string)
    (n_multiplier network_difficulty : f64) : list PplnsShareEntry :=
  let all_shares := sql_order_by created_desc (pplns_eligible d found_at) in
  let threshold := f64_mul n_multiplier network_difficulty in
  match cutoff_index threshold f64_zero all_shares with
  | Some idx => take (S idx) all_shares
  | None => all_shares
  end.
End Window.

(** [src/src/payout/mod.rs:26-29 reward_from_coinbase] *)
Definition reward_from_coinbase (coinbase_value : Z) : Z :=
  let minerfund := coinbase_value `div` 2 in
  as_i64 (coinbase_value - minerfund).

(** * Properties *)

(** For every coinbase value of the coin's range
    the pool keeps the larger half: the miner fund and the reward add up to the
    coinbase value, and the odd satoshi goes to the miner. *)
Theorem reward_from_coinbase_spec v :
  in_i64 v → 0 ≤ v →
  reward_from_coinbase v + v `div` 2 = v ∧
  v `div` 2 ≤ reward_from_coinbase v ≤ v `div` 2 + 1 ∧
  reward_from_coinbase v = (v + 1) `div` 2.
Proof.
  intros Hv Hpos. unfold reward_from_coinbase.
  pose proof (Z.div_mod v 2). pose proof (Z.mod_pos_bound v 2).
  rewrite as_i64_id by (unfold in_i64, i64_min in *; lia).
  split_and!; try lia.
  apply (Z.div_unique _ 2 _ (1 - v `mod` 2)); lia.
Qed.

Lemma reward_from_coinbase_spec_witness :
  reward_from_coinbase 39949002901 = 19974501451 ∧
  reward_from_coinbase 39949002901 = (39949002901 + 1) `div` 2.
Proof.
  split; [reflexivity|]. apply (reward_from_coinbase_spec 39949002901);
    [unfold in_i64, i64_min, i64_max; lia|lia].
Defined.

(** Where the running sum first reaches the threshold. *)
Lemma cutoff_index_spec th c l :
  match cutoff_index th c l with
  | Some i =>
      (i < length l)%nat ∧
      f64_ge (fold_left f64_add (map pe_difficulty (take (S i) l)) c) th = true ∧
      ∀ k, (0 < k ≤ i)%nat →
        f64_ge (fold_left f64_add (map pe_difficulty (take k l)) c) th = false
  | None =>
      ∀ k, (0 < k ≤ length l)%nat →
        f64_ge (fold_left f64_add (map pe_difficulty (take k l)) c) th = false
  end.
Proof.
  revert c. induction l as [|e l IH]; intros c; simpl; [lia|].
  destruct (f64_ge (f64_add c (pe_difficulty e)) th) eqn:E; simpl.
  - split_and!; [lia|done|intros; lia].
  - specialize (IH (f64_add c (pe_difficulty e))).
    destruct (cutoff_index th _ l) as [i|]; simpl.
    + destruct IH as (Hi & Hge & Hlt). split_and!; [lia|done|].
      intros [|[|k]] Hk; [lia| |]; simpl; [done|].
      apply (Hlt (S k)). lia.
    + intros [|[|k]] Hk; [lia| |]; simpl; [done|].
      apply (IH (S k)). lia.
Qed.

(** C8: the window is the shortest run of the most recent
    accepted shares that reaches the threshold. It is a prefix of the shares
    eligible at [found_at] taken newest first; no shorter prefix reaches
    [n_multiplier * network_difficulty]; and shares are left out only when the
    window itself reaches it. *)
Theorem pplns_window_spec `{!SqlOrder} d found_at n_multiplier network_difficulty :
  let window := calculate_pplns_window d found_at n_multiplier network_difficulty in
  let work l := f64_sum (map pe_difficulty l) in
  let threshold := f64_mul n_multiplier network_difficulty in
  ∃ older,
    window ++ older ≡ₚ pplns_eligible d found_at ∧
    StronglySorted (λ a b, str_leb (pe_created_at b) (pe_created_at a) = true) (window ++ older) ∧
    (∀ k, (0 < k < length window)%nat → f64_ge (work (take k window)) threshold = false) ∧
    (older ≠ [] → f64_ge (work window) threshold = true).
Proof.
  intros window work threshold. unfold window, calculate_pplns_window, work, f64_sum.
  set (l := sql_order_by created_desc (pplns_eligible d found_at)).
  assert (StronglySorted (λ a b, created_desc a b = true) l) as Hs.
  { apply sql_order_sorted; unfold created_desc.
    - intros. apply str_leb_total.
    - intros x y z Hxy Hyz. by eapply str_leb_trans. }
  assert (l ≡ₚ pplns_eligible d found_at) as Hp by apply sql_order_perm.
  fold threshold. pose proof (cutoff_index_spec threshold f64_zero l) as Hc.
  destruct (cutoff_index _ _ _) as [i|].
  - destruct Hc as (Hi & Hge & Hlt). exists (drop (S i) l).
    rewrite take_drop. split_and!; [done|done| |done].
    intros k. rewrite length_take. intros Hk. rewrite take_take, Nat.min_l by lia.
    apply Hlt. lia.
  - exists []. rewrite app_nil_r. split_and!; [done|done| |done].
    intros k Hk. apply Hc. lia.
Qed.

(** The window holds entries of accepted outcomes only. *)
Lemma pplns_window_subset `{!SqlOrder} d f n nd e :
  e ∈ calculate_pplns_window d f n nd → e ∈ pplns_eligible d f.
Proof.
  unfold calculate_pplns_window. intros He.
  rewrite <-(sql_order_perm _ created_desc (pplns_eligible d f)).
  destruct (cutoff_index _ _ _) as [i|]; [|done].
  rewrite <-(take_drop (S i)). apply elem_of_app. by left.
Qed.

(** An entry of the window weighs as much as a share of the database. *)
Lemma pplns_window_difficulty `{!SqlOrder} d f n nd e :
  e ∈ calculate_pplns_window d f n nd →
  ∃ s, s ∈ rows (shares d) ∧ pe_difficulty e = s_difficulty (sr_share s).
Proof.
  intros He%pplns_window_subset. unfold pplns_eligible in He.
  apply list_elem_of_omap in He as (r & _ & He).
  destruct (_ && _); [|done]. unfold select_one in He. simpl in He.
  destruct (List.find _ (rows (shares d))) as [s|] eqn:Es; [|done].
  destruct (List.find _ (rows (workers d))) as [w|]; [|done]. simpl in He.
  destruct (o_round_id _) as [i|]; [|done]. simpl in He.
  destruct (List.find _ (rows (rounds d))); [|done]. injection He as <-.
  apply find_some_elem in Es as [Hs _]. by exists s.
Qed.

(** An eligible entry points to rows of the database, and its weight is a
    number. *)
Lemma pplns_eligible_rows d f e :
  db_wf d → e ∈ pplns_eligible d f →
  pe_share_id e ∈ tids sr_id (shares d) ∧ pe_share_outcome_id e ∈ tids or_id (share_outcomes d) ∧
  pe_worker_id e ∈ tids w_id (workers d) ∧ f64_nan (pe_difficulty e) = false ∧
  ∃ w, w ∈ rows (workers d) ∧ w_id w = pe_worker_id e ∧
       w_payout_address w = pe_payout_address e.
Proof.
  intros Hwf He. unfold pplns_eligible in He. apply list_elem_of_omap in He as (r & Hr & He).
  destruct (_ && _); [|done]. unfold select_one in He. simpl in He.
  destruct (List.find _ (rows (shares d))) as [s|] eqn:Es; [|done].
  destruct (List.find _ (rows (workers d))) as [w|] eqn:Ew; [|done]. simpl in He.
  destruct (o_round_id _) as [i|]; [|done]. simpl in He.
  destruct (List.find _ (rows (rounds d))); [|done]. injection He as <-. simpl.
  apply find_some_elem in Es as [Hs Es%Z.eqb_eq]. apply find_some_elem in Ew as [Hw Ew%Z.eqb_eq].
  unfold tids. split_and!; [apply elem_of_map; eauto|apply elem_of_map; by exists r|
    apply elem_of_map; eauto| |eauto].
  pose proof (nn_difficulty d Hwf) as Hn. rewrite Forall_forall in Hn. auto.
Qed.
