(* ===== verification/Plan.v ===== *)
(** [payout/plan.rs]: how the reward of a block is split among the miners of
    its PPLNS window. *)
From Stdlib Require Import ZArith Lia QArith String Sorted.
From stdpp Require Import base option list numbers strings sets gmap sorting.
From S2P Require Import Prelude Text Float64 Rounding Db Pplns.
#[local] Open Scope Z_scope.

(** [src/src/payout/plan.rs:5-10 PayoutOutput] *)
Record PayoutOutput := mkPayoutOutput {
  po_payout_address : string;
  po_worker_id : Z;
  po_amount : Z;
  po_dust_carried_forward : Z;
}.

(** [src/src/payout/plan.rs:14-26 PayoutPlan] *)
Record PayoutPlan := mkPayoutPlan {
  pp_round_id : Z;
  pp_block_height : Z;
  pp_block_hash : string;
  pp_network_difficulty : f64;
  pp_total_work_units : f64;
  pp_gross_reward : Z;
  pp_pool_fee_amount : Z;
  pp_pool_fee_address : option string;
  pp_outputs : list PayoutOutput;
  pp_dust_carried_forward_total : Z;
  pp_retry_key : string;
}.

(** [src/src/payout/plan.rs:111-116 build_payout_plan (part)] *)
Record Alloc := mkAlloc {
  al_address : string;
  al_worker_id : Z;
  al_whole : Z;
  al_fractional : f64;
}.

(** A [BTreeMap] keyed by strings is its list of entries in key order;
    [entry(k)] updates the entry or inserts one in its place. *)
Fixpoint btree_entry {V} (k : string) (f : option V → V) (m : list (string * V)) :
    list (string * V) :=
  match m with
  | [] => [(k, f None)]
  | (k', v) :: m' =>
      match String.compare k k' with
      | Lt => (k, f None) :: m
      | Eq => (k', f (Some v)) :: m'
      | Gt => (k', v) :: btree_entry k f m'
      end
  end.

(** [src/src/payout/plan.rs:67-75 build_payout_plan (part)] *)
Definition aggregate_work (shares : list PplnsShareEntry) : list (string * (Z * f64)) :=
  fold_left (λ m s, btree_entry (pe_payout_address s) (λ o,
      let '(w, u) := default (pe_worker_id s, f64_zero) o in (w, f64_add u (pe_difficulty s))) m)
    shares [].

(** [src/src/payout/plan.rs:77-92 build_payout_plan (part)] *)
Definition add_dust (gross_reward : Z) (dust_balances : list (string * Z))
    (m : list (string * (Z * f64))) : list (string * (Z * f64)) :=
  let dust_map := fold_left (λ (dm : gmap string Z) ab, <[ab.1 := ab.2]> dm) dust_balances ∅ in
  map (λ e, let '(addr, (w, u)) := e in
    (addr, (w,
      match dust_map !! addr with
      | Some dust => if (0 <? gross_reward) && (0 <? dust)
                     then f64_add u (f64_div (f64_of_Z dust) (f64_of_Z gross_reward)) else u
      | None => u
      end))) m.

(** [src/src/payout/plan.rs:94-94 build_payout_plan (part)] *)
Definition total_work (m : list (string * (Z * f64))) : f64 := f64_sum (map (λ e, e.2.2) m).

(** [src/src/payout/plan.rs:96-102 build_payout_plan (part)] *)
Definition pool_fee (gross_reward fee_bps : Z) : Z :=
  if 0 <? gross_reward
  then as_i64 (as_u64 (as_u64 gross_reward * fee_bps) `div` 10000) else 0.

(** [src/src/payout/plan.rs:119-129 build_payout_plan (part)] *)
Definition alloc_of (total_work_units : f64) (net_reward : Z) (e : string * (Z * f64)) : Alloc :=
  let '(addr, (wid, work)) := e in
  let fractional_reward := f64_mul (f64_div work total_work_units) (f64_of_Z net_reward) in
  let whole := f64_as_i64 (f64_floor fractional_reward) in
  mkAlloc addr wid whole (f64_sub fractional_reward (f64_of_Z whole)).

(** [src/src/payout/plan.rs:136-141 build_payout_plan (part)]
    The comparator puts [b] after [a] unless [b]'s fraction is strictly larger. *)
Definition fractional_desc (a b : Alloc) : bool :=
  match f64_partial_cmp (al_fractional b) (al_fractional a) with
  | Some Gt => false
  | _ => true
  end.

(** [src/src/payout/plan.rs:142-148 build_payout_plan (part)] *)
Fixpoint give_remainder (remainder : Z) (l : list Alloc) : list Alloc :=
  match l with
  | [] => []
  | a :: l' =>
      if remainder <=? 0 then l
      else mkAlloc (al_address a) (al_worker_id a) (as_i64 (al_whole a + 1)) (al_fractional a)
             :: give_remainder (remainder - 1) l'
  end.

(** [src/src/payout/plan.rs:150-151 build_payout_plan (part)] *)
Definition address_asc (a b : Alloc) : bool := str_leb (al_address a) (al_address b).

(** [src/src/payout/plan.rs:153-173 build_payout_plan (part)] *)
Definition clip (min_payout_sat : Z) (a : Alloc) : PayoutOutput :=
  if al_whole a <? min_payout_sat
  then mkPayoutOutput (al_address a) (al_worker_id a) 0 (al_whole a)
  else mkPayoutOutput (al_address a) (al_worker_id a) (al_whole a) 0.

(** [src/src/payout/plan.rs:117-151 build_payout_plan (part)] *)
Definition distribute (total_work_units : f64) (net_reward : Z) (work : list (string * (Z * f64))) :
    list Alloc :=
  let allocs := map (alloc_of total_work_units net_reward) work in
  let remainder := as_i64 (net_reward - sum_i64 (map al_whole allocs)) in
  isort address_asc (give_remainder remainder (isort fractional_desc allocs)).

(** [src/src/payout/plan.rs:55-195 build_payout_plan]
    The total of an empty sum is a zero of either sign, which the guard does
    not tell apart. *)
Definition build_payout_plan (round_id block_height : Z) (block_hash : string)
    (network_difficulty : f64) (gross_reward fee_bps : Z) (fee_address : option string)
    (min_payout_sat : Z) (dust_balances : list (string * Z)) (shares : list PplnsShareEntry) :
    PayoutPlan :=
  let work_by_addr := add_dust gross_reward dust_balances (aggregate_work shares) in
  let total_work_units := total_work work_by_addr in
  let pool_fee_amount := pool_fee gross_reward fee_bps in
  let net_reward := as_i64 (gross_reward - pool_fee_amount) in
  let outputs :=
    if f64_gt total_work_units f64_zero && (0 <? net_reward)
    then map (clip min_payout_sat) (distribute total_work_units net_reward work_by_addr)
    else [] in
  let dust_carried_forward_total := sum_i64 (map po_dust_carried_forward outputs) in
  mkPayoutPlan round_id block_height block_hash network_difficulty total_work_units gross_reward
    pool_fee_amount fee_address outputs dust_carried_forward_total
    (block_hash ++ ":" ++ show_u (Z.of_nat (length outputs)))%string.

(** * Properties *)

(** ** The map of work by address *)

Definition keys_sorted {V} (m : list (string * V)) : Prop :=
  StronglySorted (λ a b, str_ltb a b = true) (map fst m).

Lemma string_compare_gt s t : String.compare s t = Gt → str_ltb t s = true.
Proof.
  intros H. unfold str_ltb, String.ltb. rewrite String.compare_antisym, H. done.
Qed.

Lemma btree_entry_keys {V} k (f : option V → V) m :
  ∀ a, a ∈ map fst (btree_entry k f m) ↔ a = k ∨ a ∈ map fst m.
Proof.
  intros a. induction m as [|[k' v] m IH]; simpl.
  - rewrite list_elem_of_singleton. set_solver.
  - destruct (String.compare k k') eqn:E; simpl; rewrite ?elem_of_cons; [|done|rewrite IH; naive_solver].
    apply String.compare_eq_iff in E as ->. naive_solver.
Qed.

Lemma btree_entry_sorted {V} k (f : option V → V) m :
  keys_sorted m → keys_sorted (btree_entry k f m).
Proof.
  unfold keys_sorted. induction m as [|[k' v] m IH]; simpl; intros H; [by repeat constructor|].
  inversion H as [|? ? Hm Hk]; subst.
  destruct (String.compare k k') eqn:E; simpl.
  - by constructor.
  - assert (str_ltb k k' = true) as Hlt by (unfold str_ltb, String.ltb; by rewrite E).
    constructor; [done|]. constructor; [done|].
    eapply Forall_impl; [exact Hk|]. intros x Hx. by eapply str_ltb_trans.
  - constructor; [by apply IH|]. apply Forall_forall. intros x Hx.
    apply btree_entry_keys in Hx as [->|Hx]; [by apply string_compare_gt|].
    rewrite Forall_forall in Hk. auto.
Qed.

(** An invariant of the aggregation, by induction on the shares from the left. *)
Lemma aggregate_ind (P : list PplnsShareEntry → list (string * (Z * f64)) → Prop) shares :
  P [] [] →
  (∀ l m s, P l m → P (l ++ [s]) (btree_entry (pe_payout_address s) (λ o,
      let '(w, u) := default (pe_worker_id s, f64_zero) o in
      (w, f64_add u (pe_difficulty s))) m)) →
  P shares (aggregate_work shares).
Proof.
  intros H0 Hs. unfold aggregate_work.
  induction shares as [|s l IH] using rev_ind; [done|]. rewrite fold_left_app. by apply Hs.
Qed.

Lemma aggregate_sorted shares : keys_sorted (aggregate_work shares).
Proof.
  apply (aggregate_ind (λ _ m, keys_sorted m)); [constructor|]. intros. by apply btree_entry_sorted.
Qed.

Lemma aggregate_keys shares a :
  a ∈ map fst (aggregate_work shares) ↔ ∃ s, s ∈ shares ∧ pe_payout_address s = a.
Proof.
  apply (aggregate_ind (λ l m, a ∈ map fst m ↔ ∃ s, s ∈ l ∧ pe_payout_address s = a));
    [set_solver|].
  intros l m s IH. rewrite btree_entry_keys, IH. setoid_rewrite elem_of_snoc. naive_solver.
Qed.

Lemma btree_entry_elem {V} k (f : option V → V) m a v :
  (a, v) ∈ btree_entry k f m →
  (a, v) ∈ m ∨ (a = k ∧ ∃ v0, (k, v0) ∈ m ∧ v = f (Some v0)) ∨
  (a = k ∧ v = f None).
Proof.
  induction m as [|[k' v'] m IH]; simpl; [set_solver|].
  destruct (String.compare k k') eqn:E; rewrite !elem_of_cons.
  - apply String.compare_eq_iff in E as ->. intros [[= -> ->]|H]; [|auto].
    right; left. split; [done|]. exists v'. rewrite elem_of_cons. auto.
  - intros [[= -> ->]|[H|H]]; auto.
  - intros [H|H]; [auto|]. apply IH in H as [H|[(-> & v0 & H & ->)|H]]; auto.
    right; left. split; [done|]. exists v0. rewrite elem_of_cons. auto.
Qed.

(** An address keeps the worker of a share that pays to it. *)
Lemma aggregate_worker shares a w u :
  (a, (w, u)) ∈ aggregate_work shares →
  ∃ s, s ∈ shares ∧ pe_payout_address s = a ∧ pe_worker_id s = w.
Proof.
  revert a w u. apply (aggregate_ind (λ l m, ∀ a w u, (a, (w, u)) ∈ m →
    ∃ s, s ∈ l ∧ pe_payout_address s = a ∧ pe_worker_id s = w)); [set_solver|].
  intros l m s IH a w u [H|[(-> & [w0 u0] & H & E)|[-> E]]]%btree_entry_elem; simpl in *.
  - apply IH in H as (x & ? & ? & ?). exists x. rewrite elem_of_snoc. auto.
  - simplify_eq. apply IH in H as (x & ? & ? & ?). exists x. rewrite elem_of_snoc. auto.
  - simplify_eq. exists s. rewrite elem_of_snoc. auto.
Qed.

(** A property of the difficulties that zero has and addition keeps is one of the work. *)
Lemma aggregate_closed (P : f64 → Prop) shares a w u :
  P f64_zero → (∀ x y, P x → P y → P (f64_add x y)) →
  (∀ s, s ∈ shares → P (pe_difficulty s)) →
  (a, (w, u)) ∈ aggregate_work shares → P u.
Proof.
  intros H0 Hadd Hd. revert a w u. revert Hd.
  apply (aggregate_ind (λ l m, (∀ s, s ∈ l → P (pe_difficulty s)) →
    ∀ a w u, (a, (w, u)) ∈ m → P u)); [set_solver|].
  intros l m s IH Hd a w u H.
  assert (P (pe_difficulty s)) by (apply Hd, elem_of_snoc; auto).
  assert (∀ a w u, (a, (w, u)) ∈ m → P u).
  { apply IH. intros; apply Hd, elem_of_snoc; auto. }
  apply btree_entry_elem in H as [H|[(-> & [w0 u0] & H & E)|[-> E]]]; simpl in *;
    simplify_eq; eauto.
Qed.

Lemma add_dust_keys g b m : map fst (add_dust g b m) = map fst m.
Proof.
  unfold add_dust. rewrite map_map. apply map_ext. by intros [a [w u]].
Qed.

Lemma add_dust_elem g b m a w u :
  (a, (w, u)) ∈ add_dust g b m →
  ∃ u0, (a, (w, u0)) ∈ m ∧
    (u = u0 ∨ ∃ dust, 0 < g ∧ 0 < dust ∧ u = f64_add u0 (f64_div (f64_of_Z dust) (f64_of_Z g))).
Proof.
  unfold add_dust. intros ([a0 [w0 u0]] & E & Hin)%elem_of_map. simplify_eq.
  exists u0. split; [done|]. destruct (_ !! a0) as [dust|]; [|auto].
  destruct (Z.ltb_spec 0 g), (Z.ltb_spec 0 dust); simpl; eauto.
Qed.

Lemma work_plus shares gross dust :
  in_i64 gross → (∀ s, s ∈ shares → double (pe_difficulty s)) →
  Forall plus (map (λ e, e.2.2) (add_dust gross dust (aggregate_work shares))).
Proof.
  intros Hg Hd. apply Forall_forall. intros u0 ([a [w u]] & -> & He)%elem_of_map. simpl.
  assert (∀ a w u, (a, (w, u)) ∈ aggregate_work shares → plus u) as Hw.
  { intros a' w' u'. apply aggregate_closed; [by left|apply plus_add|].
    intros s Hs. left. by apply Hd. }
  apply add_dust_elem in He as (u0 & Hin & [->|(d & Hg0 & Hd0 & ->)]); [eauto|].
  destruct (f64_of_Z_pos gross Hg0 Hg) as [Hgd Hgp].
  apply plus_add; [eauto|]. apply plus_div; [|done..]. apply plus_of_Z. lia.
Qed.

(** ** Allocation *)

Lemma alloc_of_whole_nonneg total net e :
  f64_gt total f64_zero = true → 0 ≤ net → f64_not_neg e.2.2 = true →
  0 ≤ al_whole (alloc_of total net e).
Proof.
  destruct e as [a [w u]]. simpl. intros Ht Hn Hu.
  apply f64_as_i64_nonneg, f64_floor_not_neg, f64_mul_not_neg.
  - apply f64_div_not_neg; [done|]. by apply f64_pos_plus.
  - by apply f64_of_Z_not_neg.
Qed.

Lemma alloc_of_address total net e : al_address (alloc_of total net e) = e.1.
Proof. by destruct e as [a [w u]]. Qed.
Lemma alloc_of_worker total net e : al_worker_id (alloc_of total net e) = e.2.1.
Proof. by destruct e as [a [w u]]. Qed.

Lemma give_remainder_map {B} (f : Alloc → B) r l :
  (∀ a n, f (mkAlloc (al_address a) (al_worker_id a) n (al_fractional a)) = f a) →
  map f (give_remainder r l) = map f l.
Proof.
  intros Hf. revert r. induction l as [|a l IH]; intros r; simpl; [done|].
  destruct (r <=? 0); [done|]. simpl. by rewrite Hf, IH.
Qed.

(** Each of the first [r] allocations gets one more satoshi. *)
Lemma give_remainder_sum r l :
  (∀ a, a ∈ l → 0 ≤ al_whole a < i64_max) →
  sumZ al_whole (give_remainder r l) =
  sumZ al_whole l + Z.min (Z.max 0 r) (Z.of_nat (length l)).
Proof.
  revert r. induction l as [|a l IH]; intros r H; simpl; [lia|].
  destruct (Z.leb_spec r 0); simpl; [lia|].
  rewrite IH by (intros; apply H; set_solver).
  pose proof (H a ltac:(set_solver)) as Ha.
  rewrite as_i64_id by (unfold in_i64, i64_min, i64_max in *; lia). lia.
Qed.

Lemma give_remainder_zero r l : r ≤ 0 → give_remainder r l = l.
Proof. intros H%Z.leb_le. destruct l; simpl; [done|]. by rewrite H. Qed.

Lemma give_remainder_nonneg r l :
  (∀ a, a ∈ l → 0 ≤ al_whole a < i64_max) → ∀ a, a ∈ give_remainder r l → 0 ≤ al_whole a.
Proof.
  revert r. induction l as [|a l IH]; intros r H b; simpl; [set_solver|].
  destruct (Z.leb_spec r 0); simpl; [intros Hb; by apply H|].
  intros [->|Hb]%elem_of_cons; [|eapply IH; [|exact Hb]; intros; apply H; set_solver].
  pose proof (H a ltac:(set_solver)) as Ha. simpl.
  rewrite as_i64_id; unfold in_i64, i64_min, i64_max in *; lia.
Qed.

Lemma address_asc_total a b : address_asc a b = true ∨ address_asc b a = true.
Proof. apply str_leb_total. Qed.
Lemma address_asc_trans a b c :
  address_asc a b = true → address_asc b c = true → address_asc a c = true.
Proof. apply str_leb_trans. Qed.

Lemma str_sorted_unique (l k : list string) :
  StronglySorted (λ a b, str_ltb a b = true) l →
  StronglySorted (λ a b, str_leb a b = true) k → l ≡ₚ k → l = k.
Proof.
  intros Hl Hk Hp.
  assert (StronglySorted (λ a b, str_leb a b = true) l) as Hl'.
  { clear -Hl. induction Hl as [|x l Hl IH Hx]; constructor; [done|].
    eapply Forall_impl; [exact Hx|]. intros y Hy. apply str_leb_spec. by left. }
  eapply StronglySorted_unique; [|exact Hl'|exact Hk|exact Hp].
  intros x y Hxy Hyx. rewrite str_leb_ltb in Hyx. apply negb_true_iff in Hyx.
  apply str_leb_spec in Hxy as [?|?]; [congruence|done].
Qed.

Lemma StronglySorted_map {A B} (f : A → B) (R : B → B → Prop) l :
  StronglySorted (λ a b, R (f a) (f b)) l → StronglySorted R (map f l).
Proof.
  induction 1 as [|x l Hl IH Hx]; simpl; constructor; [done|]. by apply Forall_map.
Qed.

(** The allocations come back in address order, one per address. *)
Lemma distribute_addresses total net work :
  keys_sorted work → map al_address (distribute total net work) = map fst work.
Proof.
  intros Hs. symmetry. apply str_sorted_unique; [done| |].
  - apply (StronglySorted_map al_address (λ a b, str_leb a b = true)).
    apply isort_sorted; [apply address_asc_total|apply address_asc_trans].
  - unfold distribute. rewrite isort_map_perm, give_remainder_map by done.
    rewrite isort_map_perm, map_map. apply reflexive_eq, map_ext. intros e. by rewrite alloc_of_address.
Qed.

Lemma distribute_workers total net work :
  map (λ a, (al_address a, al_worker_id a)) (distribute total net work) ≡ₚ
  map (λ e, (e.1, e.2.1)) work.
Proof.
  unfold distribute. rewrite isort_map_perm, give_remainder_map by done.
  rewrite isort_map_perm, map_map. apply reflexive_eq, map_ext.
  intros e. by rewrite alloc_of_address, alloc_of_worker.
Qed.

Lemma clip_sum m a : po_amount (clip m a) + po_dust_carried_forward (clip m a) = al_whole a.
Proof. unfold clip. destruct (_ <? _); simpl; lia. Qed.

Lemma clip_address m a : po_payout_address (clip m a) = al_address a.
Proof. unfold clip. by destruct (_ <? _). Qed.

Lemma clip_worker m a : po_worker_id (clip m a) = al_worker_id a.
Proof. unfold clip. by destruct (_ <? _). Qed.

(** The rounded-down allocations lie within the net reward and miss it by at
    most one satoshi each. *)
Definition remainder_ok (net : Z) (allocs : list Alloc) : Prop :=
  0 ≤ net - sumZ al_whole allocs ≤ Z.of_nat (length allocs).

Lemma distribute_exact total net work :
  in_i64 net →
  (∀ a, a ∈ map (alloc_of total net) work → 0 ≤ al_whole a) →
  remainder_ok net (map (alloc_of total net) work) →
  sumZ al_whole (distribute total net work) = net ∧
  ∀ a, a ∈ distribute total net work → 0 ≤ al_whole a.
Proof.
  unfold remainder_ok, distribute. set (allocs := map (alloc_of total net) work).
  intros Hnet Hnn Hrem.
  pose proof (sumZ_nonneg al_whole allocs Hnn) as Hpos.
  assert (sum_i64 (map al_whole allocs) = sumZ al_whole allocs) as ->.
  { rewrite sum_i64_spec, sumZ_map. apply as_i64_id. unfold in_i64, i64_min in *. lia. }
  rewrite as_i64_id by (unfold in_i64, i64_min in *; lia).
  set (s := isort fractional_desc allocs).
  assert (s ≡ₚ allocs) as Hp by apply isort_perm.
  assert (∀ a, a ∈ s → 0 ≤ al_whole a ≤ sumZ al_whole allocs) as Hs.
  { intros a. rewrite Hp. intros Ha. split; [auto|]. by apply sumZ_ge_elem. }
  rewrite (isort_perm address_asc). setoid_rewrite (isort_perm address_asc).
  destruct (decide (net = sumZ al_whole allocs)) as [E|Hne].
  - rewrite give_remainder_zero by lia. split; [by rewrite Hp|]. intros a Ha. by apply Hs.
  - assert (∀ a, a ∈ s → 0 ≤ al_whole a < i64_max) as Hs'.
    { intros a Ha. apply Hs in Ha. unfold in_i64 in Hnet. lia. }
    split; [|by apply give_remainder_nonneg].
    rewrite give_remainder_sum by done. rewrite Hp. lia.
Qed.

Lemma give_remainder_elem r l a :
  a ∈ give_remainder r l → ∃ b, b ∈ l ∧ al_address a = al_address b ∧
    (al_whole a = al_whole b ∨ al_whole a = as_i64 (al_whole b + 1)).
Proof.
  revert r. induction l as [|b l IH]; intros r; simpl; [set_solver|].
  destruct (r <=? 0); [intros Ha; exists a; auto|].
  intros [->|Ha]%elem_of_cons; [exists b; split; [set_solver|]; simpl; auto|].
  apply IH in Ha as (c & Hc & H). exists c. split; [set_solver|done].
Qed.

(** An allocation is a share rounded down, or one satoshi more. *)
Lemma distribute_elem total net work a :
  a ∈ distribute total net work →
  ∃ w u, (al_address a, (w, u)) ∈ work ∧
    let whole := f64_as_i64 (f64_floor (share total net u)) in
    (al_whole a = whole ∨ al_whole a = as_i64 (whole + 1)).
Proof.
  unfold distribute. rewrite isort_perm. intros (b & Hb & -> & H)%give_remainder_elem.
  rewrite isort_perm in Hb. apply elem_of_map in Hb as ([k [w u]] & -> & He). by exists w, u.
Qed.

Lemma distribute_length total net work : length (distribute total net work) = length work.
Proof.
  pose proof (Permutation_length (distribute_workers total net work)) as H.
  by rewrite !length_map in H.
Qed.

(** The work of a plan whose total stays finite, divided among the miners. *)
Section Allocation.
Context (work : list (string * (Z * f64))) (total : f64) (net : Z).
Hypothesis work_is_plus : Forall plus (map (λ e, e.2.2) work).
Hypothesis total_is_sum : total = total_work work.
Hypothesis total_is_double : double total.
Hypothesis total_is_pos : f64_gt total f64_zero = true.
Hypothesis net_pos : 0 < net.
Hypothesis net_small : (Z.of_nat (length work) + 3) * net ≤ 2 ^ 50.

Lemma count_small : (Z.of_nat (length (map (λ e, e.2.2) work)) + 3) * net ≤ 2 ^ 50.
Proof. by rewrite length_map. Qed.

Lemma net_in_i64 : in_i64 net.
Proof. unfold in_i64, i64_min, i64_max. nia. Qed.

Lemma allocations_ok : remainder_ok net (map (alloc_of total net) work).
Proof.
  pose proof (shares_floor total net _ work_is_plus total_is_sum total_is_double
    (double_pos _ total_is_double total_is_pos) ltac:(lia) count_small) as H.
  rewrite sumZ_map, length_map in H. unfold remainder_ok. rewrite sumZ_map, length_map.
  rewrite (sumZ_ext _ (λ e, f64_as_i64 (f64_floor (share total net e.2.2)))); [exact H|].
  by intros [k [w u]] _.
Qed.

Lemma allocations_nonneg a : a ∈ map (alloc_of total net) work → 0 ≤ al_whole a.
Proof.
  intros (e & -> & He)%elem_of_map. apply alloc_of_whole_nonneg; [done|lia|].
  apply double_not_neg.
  pose proof (terms_double total _ work_is_plus total_is_sum total_is_double) as H.
  rewrite Forall_forall in H. apply H, elem_of_map. by exists e.
Qed.

Lemma distribute_conserves :
  sumZ al_whole (distribute total net work) = net ∧
  ∀ a, a ∈ distribute total net work → 0 ≤ al_whole a.
Proof. apply distribute_exact; auto using net_in_i64, allocations_nonneg, allocations_ok. Qed.

(** An allocation is within three halves of a satoshi of the miner's part of the net reward. *)
Lemma distribute_fair a :
  a ∈ distribute total net work →
  ∃ w u, (al_address a, (w, u)) ∈ work ∧
    near (inject_Z (al_whole a)) (inject_Z net * (val u / val total)) (3#2).
Proof.
  intros (w & u & He & H)%distribute_elem. exists w, u. split; [done|].
  destruct (share_fair total net _ work_is_plus total_is_sum total_is_double
    (double_pos _ total_is_double total_is_pos) ltac:(lia) count_small u) as [F1 F2];
    [apply elem_of_map; by exists (al_address a, (w, u))|].
  assert (al_whole (alloc_of total net (al_address a, (w, u))) ≤ net) as Hle.
  { destruct allocations_ok as [H0 _].
    pose proof (sumZ_ge_elem al_whole _ (alloc_of total net (al_address a, (w, u))) allocations_nonneg).
    apply Z.le_trans with (2 := Zle_0_minus_le _ _ H0), H1. apply elem_of_map. eauto. }
  simpl in Hle. change (f64_mul _ _) with (share total net u) in Hle.
  destruct H as [->| ->]; [done|]. rewrite as_i64_id; [done|].
  pose proof (allocations_nonneg (alloc_of total net (al_address a, (w, u)))
    ltac:(apply elem_of_map; eauto)) as Hnn. simpl in Hnn.
  change (f64_mul _ _) with (share total net u) in Hnn. unfold in_i64, i64_min, i64_max. nia.
Qed.
End Allocation.

(** The outputs of a plan are its clipped allocations. *)
Lemma plan_outputs_eq round height hash nd gross fee_bps fee_addr min_sat dust shares :
  let plan := build_payout_plan round height hash nd gross fee_bps fee_addr min_sat dust shares in
  let net := gross - pp_pool_fee_amount plan in
  let work := add_dust gross dust (aggregate_work shares) in
  let total := pp_total_work_units plan in
  f64_gt total f64_zero = true → 0 < net → in_i64 net →
  pp_outputs plan = map (clip min_sat) (distribute total net work).
Proof.
  intros plan net work total Htp Hnet Hni. unfold net, total in *. simpl in *.
  rewrite Htp, as_i64_id by done. by rewrite (proj2 (Z.ltb_lt _ _) Hnet).
Qed.

(** What they pay and carry forward. *)
Lemma plan_outputs_sum round height hash nd gross fee_bps fee_addr min_sat dust shares :
  let plan := build_payout_plan round height hash nd gross fee_bps fee_addr min_sat dust shares in
  let net := gross - pp_pool_fee_amount plan in
  (∀ s, s ∈ shares → double (pe_difficulty s)) →
  in_i64 gross → 0 < net → (Z.of_nat (length (pp_outputs plan)) + 3) * net ≤ 2 ^ 50 →
  double (pp_total_work_units plan) → f64_gt (pp_total_work_units plan) f64_zero = true →
  sumZ (λ o, po_amount o + po_dust_carried_forward o) (pp_outputs plan) = net ∧
  Forall (λ o, 0 ≤ po_amount o ∧ 0 ≤ po_dust_carried_forward o ∧
    ∃ w u, (po_payout_address o, (w, u)) ∈ add_dust gross dust (aggregate_work shares) ∧
      near (inject_Z (po_amount o + po_dust_carried_forward o))
        (inject_Z net * (val u / val (pp_total_work_units plan))) (3#2)) (pp_outputs plan).
Proof.
  intros plan net Hd Hg Hnet Hsmall Htd Htp.
  pose proof (work_plus shares gross dust Hg Hd) as Hw.
  assert (in_i64 net) as Hni by (unfold in_i64, i64_min, i64_max; nia).
  pose proof (plan_outputs_eq round height hash nd gross fee_bps fee_addr min_sat dust shares
    Htp Hnet Hni) as Ho. fold plan net in Ho.
  rewrite Ho in *. rewrite length_map, distribute_length in Hsmall.
  destruct (distribute_conserves _ _ net Hw eq_refl Htd Htp Hnet Hsmall) as [Hsum Hge].
  split; [rewrite sumZ_map; etransitivity; [|exact Hsum]; apply sumZ_ext; intros a _; apply clip_sum|].
  apply Forall_forall. intros o (a & -> & Ha)%elem_of_map. rewrite clip_address, clip_sum.
  split_and!; [by apply Hge in Ha; unfold clip; destruct (_ <? _)..|by apply distribute_fair].
Qed.

(** C1: no satoshi is lost or created, and every miner gets its part. For
    difficulties that are finite doubles and not negative, and a total of work that
    stays finite, what the plan pays and what it carries forward as dust add up to the
    net reward exactly, in spite of the rounding of every sum, quotient and product; the
    dust total is the sum of the dust of the outputs, no amount is negative, and each
    output is within three halves of a satoshi of the net reward times the work of its
    address over the total. The bound on the reward (times the number of miners, [2^50])
    is what keeps the accumulated rounding error below one satoshi. *)
Theorem payout_plan_conserves round height hash nd gross fee_bps fee_addr min_sat dust shares :
  let plan := build_payout_plan round height hash nd gross fee_bps fee_addr min_sat dust shares in
  let net := gross - pp_pool_fee_amount plan in
  let work := add_dust gross dust (aggregate_work shares) in
  let total := pp_total_work_units plan in
  (∀ s, s ∈ shares → double (pe_difficulty s)) →
  in_i64 gross → 0 < net →
  (Z.of_nat (length (pp_outputs plan)) + 3) * net ≤ 2 ^ 50 →
  double total → f64_gt total f64_zero = true →
  sumZ (λ o, po_amount o + po_dust_carried_forward o) (pp_outputs plan) = net ∧
  pp_dust_carried_forward_total plan = sumZ po_dust_carried_forward (pp_outputs plan) ∧
  Forall (λ o, 0 ≤ po_amount o ∧ 0 ≤ po_dust_carried_forward o ∧
    ∃ w u, (po_payout_address o, (w, u)) ∈ work ∧
      near (inject_Z (po_amount o + po_dust_carried_forward o))
        (inject_Z net * (val u / val total)) (3#2)) (pp_outputs plan).
Proof.
  intros plan net work total Hd Hg Hnet Hsmall Htd Htp.
  destruct (plan_outputs_sum round height hash nd gross fee_bps fee_addr min_sat dust shares
    Hd Hg Hnet Hsmall Htd Htp) as [Hs Hf]. fold plan net work total in Hs, Hf.
  split_and!; [done| |done].
  transitivity (sum_i64 (map po_dust_carried_forward (pp_outputs plan))); [done|].
  rewrite sum_i64_spec, sumZ_map. rewrite sumZ_add in Hs. rewrite Forall_forall in Hf.
  pose proof (sumZ_nonneg po_amount (pp_outputs plan) ltac:(intros; by apply Hf)).
  pose proof (sumZ_nonneg po_dust_carried_forward (pp_outputs plan) ltac:(intros; by apply Hf)).
  apply as_i64_id. unfold in_i64, i64_min, i64_max. nia.
Qed.

(** A window with three shares of two miners. *)
Definition example_shares : list PplnsShareEntry :=
  [ mkPplnsShareEntry 1 1 7 "lotus_b" (f64_of_Z 2) "2026-05-20 12:00:03";
    mkPplnsShareEntry 2 2 3 "lotus_a" (f64_of_Z 1) "2026-05-20 12:00:02";
    mkPplnsShareEntry 3 3 7 "lotus_b" (f64_of_Z 4) "2026-05-20 12:00:01" ].

Lemma payout_plan_conserves_witness :
  let plan := build_payout_plan 1 100 "00ab" (f64_of_Z 5) 100000 100 None 20000 [] example_shares in
  sumZ (λ o, po_amount o + po_dust_carried_forward o) (pp_outputs plan) = 99000 ∧
  map po_amount (pp_outputs plan) = [0; 84857].
Proof.
  intros plan. split; [|vm_compute; reflexivity].
  apply (payout_plan_conserves 1 100 "00ab" (f64_of_Z 5) 100000 100 None 20000 [] example_shares);
    try (vm_compute; repeat split; intros; discriminate); try (vm_compute; reflexivity).
  intros s Hs. unfold example_shares in Hs. rewrite !elem_of_cons, elem_of_nil in Hs.
  destruct Hs as [->|[->|[->|[]]]]; vm_compute; (split; [reflexivity|discriminate]).
Defined.

(** The payment threshold is respected by every
    output: a miner is paid at least the minimum and carries nothing, or is paid
    nothing and carries less than the minimum as dust. *)
Theorem payout_outputs_clipped round height hash nd gross fee_bps fee_addr min_sat dust shares :
  Forall (λ o,
    (min_sat ≤ po_amount o ∧ po_dust_carried_forward o = 0) ∨
    (po_amount o = 0 ∧ po_dust_carried_forward o < min_sat))
  (pp_outputs (build_payout_plan round height hash nd gross fee_bps fee_addr min_sat dust shares)).
Proof.
  simpl. destruct (_ && _); [|constructor]. apply Forall_map, Forall_forall.
  intros a _. unfold clip. destruct (Z.ltb_spec (al_whole a) min_sat); simpl; auto.
Qed.

(** The addresses of the outputs are the keys of the work map. *)
Lemma plan_addresses round height hash nd gross fee_bps fee_addr min_sat dust shares :
  let plan := build_payout_plan round height hash nd gross fee_bps fee_addr min_sat dust shares in
  map po_payout_address (pp_outputs plan) =
  if f64_gt (pp_total_work_units plan) f64_zero &&
     (0 <? as_i64 (gross - pp_pool_fee_amount plan))
  then map fst (aggregate_work shares) else [].
Proof.
  simpl. destruct (_ && _); [|done]. rewrite map_map.
  erewrite map_ext; [|intros a; apply clip_address].
  rewrite distribute_addresses; [apply add_dust_keys|].
  unfold keys_sorted. rewrite add_dust_keys. apply aggregate_sorted.
Qed.

Lemma plan_sorted round height hash nd gross fee_bps fee_addr min_sat dust shares :
  StronglySorted (λ a b, str_ltb a b = true) (map po_payout_address (pp_outputs
    (build_payout_plan round height hash nd gross fee_bps fee_addr min_sat dust shares))).
Proof.
  rewrite plan_addresses. destruct (_ && _); [|constructor]. apply aggregate_sorted.
Qed.

Lemma plan_workers round height hash nd gross fee_bps fee_addr min_sat dust shares o :
  o ∈ pp_outputs
    (build_payout_plan round height hash nd gross fee_bps fee_addr min_sat dust shares) →
  ∃ s, s ∈ shares ∧ pe_payout_address s = po_payout_address o ∧ pe_worker_id s = po_worker_id o.
Proof.
  simpl. destruct (_ && _); [|set_solver].
  set (work := add_dust gross dust (aggregate_work shares)).
  intros (a & -> & Hin)%elem_of_map. rewrite clip_address, clip_worker.
  assert ((al_address a, al_worker_id a) ∈ map (λ e, (e.1, e.2.1)) work) as Hw.
  { rewrite <-(distribute_workers (total_work work) (as_i64 (gross - pool_fee gross fee_bps))).
    apply elem_of_map. by exists a. }
  apply elem_of_map in Hw as ([k [w u]] & [= -> ->] & Hw).
  apply add_dust_elem in Hw as (u0 & Hw & _). by eapply aggregate_worker.
Qed.

(** The outputs are the addresses of the window,
    each exactly once and in ascending order, and every output names the worker
    of a share in the window that pays to its address. There are no outputs when
    there is no work or nothing to pay. *)
Theorem payout_outputs_addresses round height hash nd gross fee_bps fee_addr min_sat dust shares :
  let plan := build_payout_plan round height hash nd gross fee_bps fee_addr min_sat dust shares in
  StronglySorted (λ a b, str_ltb a b = true) (map po_payout_address (pp_outputs plan)) ∧
  Forall (λ o, ∃ s, s ∈ shares ∧ pe_payout_address s = po_payout_address o ∧
                    pe_worker_id s = po_worker_id o) (pp_outputs plan) ∧
  (if f64_gt (pp_total_work_units plan) f64_zero &&
      (0 <? as_i64 (gross - pp_pool_fee_amount plan))
   then ∀ s, s ∈ shares → pe_payout_address s ∈ map po_payout_address (pp_outputs plan)
   else pp_outputs plan = []).
Proof.
  intros plan. split_and!; [apply plan_sorted|apply Forall_forall; intros o; apply plan_workers|].
  unfold plan. rewrite plan_addresses. destruct (_ && _) eqn:E.
  - intros s Hs. apply aggregate_keys. eauto.
  - revert E. simpl. by intros ->.
Qed.

(** The pool's fee is the gross reward times the basis points
    over ten thousand, rounded down; it lies between zero and the gross reward,
    and the fee and the net reward add up to the gross reward. *)
Theorem pool_fee_spec gross fee_bps :
  in_i64 gross → 0 ≤ fee_bps ≤ 10000 → gross * fee_bps ≤ u64_max →
  (0 < gross → pool_fee gross fee_bps = (gross * fee_bps) `div` 10000) ∧
  0 ≤ pool_fee gross fee_bps ≤ Z.max 0 gross ∧
  pool_fee gross fee_bps + as_i64 (gross - pool_fee gross fee_bps) = gross.
Proof.
  intros Hg Hb Hm. unfold pool_fee. destruct (Z.ltb_spec 0 gross) as [Hpos|Hneg].
  - rewrite (as_u64_id gross) by (unfold in_u64, u64_max, in_i64, i64_max in *; lia).
    rewrite as_u64_id by (unfold in_u64; nia).
    assert (0 ≤ (gross * fee_bps) `div` 10000 ≤ gross).
    { split; [apply Z.div_pos; nia|]. apply Z.div_le_upper_bound; nia. }
    rewrite (as_i64_id ((gross * fee_bps) `div` 10000)) by (unfold in_i64, i64_min in *; lia).
    rewrite as_i64_id by (unfold in_i64, i64_min in *; lia). lia.
  - split_and!; try lia. rewrite Z.sub_0_r, as_i64_id by done. lia.
Qed.

Lemma pool_fee_spec_witness :
  pool_fee 100000 100 = 1000 ∧ (0 < 100000 → pool_fee 100000 100 = (100000 * 100) `div` 10000).
Proof.
  split; [reflexivity|]. apply (pool_fee_spec 100000 100);
    unfold in_i64, u64_max, i64_min, i64_max; lia.
Defined.

(** ** Who gets the remainder *)

Definition bump (a : Alloc) : Alloc :=
  mkAlloc (al_address a) (al_worker_id a) (as_i64 (al_whole a + 1)) (al_fractional a).

Lemma give_remainder_split r l :
  give_remainder r l = map bump (take (Z.to_nat r) l) ++ drop (Z.to_nat r) l.
Proof.
  revert r. induction l as [|a l IH]; intros r; simpl; [by rewrite take_nil, drop_nil|].
  destruct (Z.leb_spec r 0).
  - by replace (Z.to_nat r) with O by lia.
  - replace (Z.to_nat r) with (S (Z.to_nat (r - 1))) by lia. simpl. by rewrite IH.
Qed.

(** The comparator on fractions that are numbers, extended to a total preorder. *)
Definition fractional_key_desc (a b : Alloc) : bool :=
  match key_cmp (f64_key (al_fractional b)) (f64_key (al_fractional a)) with
  | Gt => false | _ => true end.

Lemma fractional_desc_key a b :
  f64_nan (al_fractional a) = false → f64_nan (al_fractional b) = false →
  fractional_desc a b = fractional_key_desc a b.
Proof. intros Ha Hb. unfold fractional_desc. by rewrite f64_compare_key. Qed.

Lemma fractional_key_desc_total a b :
  fractional_key_desc a b = true ∨ fractional_key_desc b a = true.
Proof.
  unfold fractional_key_desc. rewrite (key_cmp_antisym (f64_key (al_fractional a))).
  destruct (key_cmp _ _); auto.
Qed.

Lemma fractional_key_desc_trans a b c :
  fractional_key_desc a b = true → fractional_key_desc b c = true →
  fractional_key_desc a c = true.
Proof.
  unfold fractional_key_desc. intros H1 H2.
  pose proof (key_cmp_le_trans (f64_key (al_fractional c)) (f64_key (al_fractional b))
    (f64_key (al_fractional a))) as H.
  destruct (key_cmp (f64_key (al_fractional c)) (f64_key (al_fractional a))); try done.
  exfalso. apply H; [intros E; by rewrite E in H2|intros E; by rewrite E in H1|done].
Qed.

Lemma fractional_sorted l :
  Forall (λ a, f64_nan (al_fractional a) = false) l →
  StronglySorted (λ a b, f64_ge (al_fractional a) (al_fractional b) = true)
    (isort fractional_desc l).
Proof.
  intros Hn. rewrite Forall_forall in Hn.
  rewrite (isort_ext fractional_desc fractional_key_desc)
    by (intros; apply fractional_desc_key; auto).
  pose proof (isort_sorted _ fractional_key_desc_total fractional_key_desc_trans l) as Hs.
  assert (∀ a, a ∈ isort fractional_key_desc l → f64_nan (al_fractional a) = false) as Hi.
  { intros a. rewrite isort_perm. auto. }
  induction Hs as [|x k Hk IH Hx]; constructor; [apply IH; set_solver|].
  apply Forall_forall. intros y Hy. rewrite Forall_forall in Hx. specialize (Hx y Hy).
  unfold f64_ge. apply f64_le_key. split_and!; [apply Hi; set_solver..|].
  unfold fractional_key_desc in Hx. intros E. by rewrite E in Hx.
Qed.

Lemma alloc_of_fraction total net e :
  double e.2.2 → double total → f64_gt total f64_zero = true → 0 < net → in_i64 net →
  f64_nan (al_fractional (alloc_of total net e)) = false.
Proof.
  destruct e as [k [w u]]. simpl. intros Hu Ht Hp Hn Hi.
  destruct (f64_of_Z_pos net Hn Hi) as [Hd Hpos].
  assert (plus (f64_mul (f64_div u total) (f64_of_Z net))) as Hx.
  { apply plus_mul; [|done..]. apply plus_div; [by left|done|by apply double_pos]. }
  apply plus_sub_not_nan, f64_of_Z_double; [done| |apply f64_as_i64_range].
  by apply f64_as_i64_nonneg, f64_floor_not_neg, plus_not_neg.
Qed.

(** The satoshis that rounding down left over
    go to the miners with the largest fractional parts: the allocations are the
    rounded-down ones, with one more satoshi for as many of them as there are
    satoshis left, and no miner without one has a larger fraction than a miner
    with one. *)
Theorem remainder_to_largest_fractions total net work :
  let allocs := map (alloc_of total net) work in
  let remainder := as_i64 (net - sum_i64 (map al_whole allocs)) in
  double total → f64_gt total f64_zero = true → 0 < net → in_i64 net →
  Forall (λ e, double e.2.2) work →
  ∃ lucky others,
    lucky ++ others ≡ₚ allocs ∧
    distribute total net work ≡ₚ map bump lucky ++ others ∧
    Z.of_nat (length lucky) = Z.min (Z.max 0 remainder) (Z.of_nat (length allocs)) ∧
    ∀ a b, a ∈ lucky → b ∈ others → f64_ge (al_fractional a) (al_fractional b) = true.
Proof.
  intros allocs remainder Ht Hp Hpos Hnet Hw.
  assert (Forall (λ a, f64_nan (al_fractional a) = false) allocs) as Hn.
  { apply Forall_map. eapply Forall_impl; [exact Hw|]. intros e He. by apply alloc_of_fraction. }
  exists (take (Z.to_nat remainder) (isort fractional_desc allocs)),
         (drop (Z.to_nat remainder) (isort fractional_desc allocs)).
  split_and!.
  - by rewrite take_drop, isort_perm.
  - unfold distribute. fold allocs. fold remainder. by rewrite isort_perm, give_remainder_split.
  - rewrite length_take, (Permutation_length (isort_perm _ _)). lia.
  - intros a b Ha Hb.
    exact (StronglySorted_take_drop _ _ _ _ _ (fractional_sorted _ Hn) Ha Hb).
Qed.

Lemma remainder_to_largest_fractions_witness :
  let work := [("a"%string, (1, f64_of_Z 1)); ("b"%string, (2, f64_of_Z 2))] in
  map al_whole (distribute (f64_of_Z 3) 100 work) = [33; 67] ∧
  ∃ lucky others, distribute (f64_of_Z 3) 100 work ≡ₚ map bump lucky ++ others ∧
    length lucky = 1%nat.
Proof.
  intros work. split; [vm_compute; reflexivity|].
  destruct (remainder_to_largest_fractions (f64_of_Z 3) 100 work) as (l & o & _ & Hd & Hl & _).
  - vm_compute. split; [reflexivity|discriminate].
  - reflexivity.
  - reflexivity.
  - split; vm_compute; discriminate.
  - repeat constructor; vm_compute; discriminate.
  - exists l, o. split; [exact Hd|]. apply Nat2Z.inj. rewrite Hl. vm_compute. reflexivity.
Defined.
