(* ===== verification/Json.v ===== *)
(** JSON values as the code sees them through [serde_json::Value]: the six
    constructors and the accessors that the source calls. An object keeps each
    key once; indexing a value that is not an object, or a key that is missing,
    gives [Null]. *)
From Stdlib Require Import ZArith Lia String.
From stdpp Require Import base option list numbers strings sets gmap.
From S2P Require Import Prelude Text Float64.
#[local] Open Scope Z_scope.

(** A number is an integer of 64 bits or a float. *)
Inductive Num : Type :=
  | PosInt (n : Z)
  | NegInt (n : Z)
  | Float (x : f64).

Inductive Value : Type :=
  | Null
  | Bool (b : bool)
  | Number (n : Num)
  | Str (s : string)
  | Array (l : list Value)
  | Object (l : list (string * Value)).

Definition get (v : Value) (k : string) : option Value :=
  match v with
  | Object l => snd <$> List.find (λ e, String.eqb (fst e) k) l
  | _ => None
  end.

(** [v["k"]] *)
Definition index (v : Value) (k : string) : Value := default Null (get v k).

Definition as_array (v : Value) : option (list Value) :=
  match v with Array l => Some l | _ => None end.
Definition as_object (v : Value) : option Value :=
  match v with Object _ => Some v | _ => None end.
Definition as_str (v : Value) : option string :=
  match v with Str s => Some s | _ => None end.
Definition as_f64 (v : Value) : option f64 :=
  match v with
  | Number (PosInt n) | Number (NegInt n) => Some (f64_of_Z n)
  | Number (Float x) => Some x
  | _ => None
  end.
Definition num_as_i64 (v : Value) : option Z :=
  match v with
  | Number (PosInt n) => if n <=? i64_max then Some n else None
  | Number (NegInt n) => Some n
  | _ => None
  end.
Definition num_as_u64 (v : Value) : option Z :=
  match v with Number (PosInt n) => Some n | _ => None end.
