(* ===== verification/AccountingService.v ===== *)
(** [accounting/service.rs], the part that records shares, rounds and blocks:
    [AccountingService::record_share], the round operations,
    [record_found_block], [reconcile_found_blocks] and [check_maturation].
    A repository's connection is the database itself; a call that takes the
    lock is atomic, and the calls of one operation follow each other. *)
From Stdlib Require Import ZArith Lia String Ascii Sorted.
From stdpp Require Import base option list numbers strings sets gmap.
From S2P Require Import Prelude Text Float64 Db WorkerRepository AccountingEventRepository RoundRepository ShareRepository FoundBlockRepository.
#[local] Open Scope Z_scope.

(** An event with the fields that the service sets; the others are [None]. *)
Definition round_event (event_type status : string) (round_id template_id : Z) : AccountingEvent :=
  mkAccountingEvent 0 event_type status None None None None (Some round_id) (Some template_id)
    None None None None None.

Section Service.
Context {so : SqlOrder}.

(** [src/src/accounting/service.rs:160-184 AccountingService::get_or_create_current_round] *)
Definition svc_get_or_create_current_round (start_template_id : Z) : DbM Round :=
  rn ← RoundRepository.get_or_create_current_round start_template_id;
  (if rn.2 : bool
   then mignore (record_event (round_event "round_opened" "open" (r_id rn.1) start_template_id))
   else mret tt) ;;
  mret rn.1.

(** [src/src/accounting/service.rs:188-210 AccountingService::resolve_round_for_template] *)
Definition svc_resolve_round_for_template (template_id : Z) : DbM Round :=
  rn ← RoundRepository.resolve_round_for_template template_id;
  (if rn.2 : bool
   then mignore (record_event (round_event "round_opened" "open" (r_id rn.1) template_id))
   else mret tt) ;;
  mret rn.1.

(** [src/src/accounting/service.rs:213-233 AccountingService::close_round] *)
Definition svc_close_round (id end_template_id : Z) (status : string) : DbM unit :=
  RoundRepository.close_round id end_template_id status ;;
  mignore (record_event (round_event "round_closed" status id end_template_id)).

(** [src/src/accounting/service.rs:236-243 AccountingService::update_share_outcome_node_result] *)
Definition update_share_outcome_node_result (dedupe_key node_result : string) : DbM Z :=
  update_outcome_node_result dedupe_key node_result.

(** The arguments of [record_share], in the order of the source. *)
Record ShareSubmission := mkShareSubmission {
  sub_payout_address : string;
  sub_worker_suffix : option string;
  sub_session_id : string;
  sub_job_id : string;
  sub_template_id : Z;
  sub_template_epoch : Z;
  sub_extranonce1 : string;
  sub_extranonce2 : string;
  sub_ntime_hex : string;
  sub_nonce_hex : string;
  sub_difficulty : f64;
  sub_status : string;
  sub_reject_reason : option string;
  sub_low_diff_ok : bool;
  sub_network_target_ok : bool;
  sub_block_hash : option string;
}.

(** [src/src/accounting/service.rs:79-86 AccountingService::record_share (part)] *)
Definition submission_key (a : ShareSubmission) (worker_id : Z) : string :=
  build_dedupe_key worker_id (sub_template_id a) (sub_template_epoch a) (sub_extranonce2 a)
    (sub_ntime_hex a) (sub_nonce_hex a).

(** [src/src/accounting/service.rs:89-102 AccountingService::record_share (part)] *)
Definition submission_share (a : ShareSubmission) (worker_id : Z) : Share :=
  mkShare 0 worker_id (sub_session_id a) (sub_job_id a) (sub_template_id a)
    (sub_template_epoch a) (sub_extranonce1 a) (sub_extranonce2 a) (sub_ntime_hex a)
    (sub_nonce_hex a) (sub_difficulty a) (submission_key a worker_id).

(** [src/src/accounting/service.rs:105-119 AccountingService::record_share (part)] *)
Definition submission_outcome (a : ShareSubmission) (worker_id : Z) (round_id : option Z) :
    ShareOutcome :=
  mkShareOutcome 0 0 (sub_session_id a) worker_id (sub_job_id a) round_id
    (submission_key a worker_id) (sub_status a) (sub_reject_reason a) None
    (Some (sub_low_diff_ok a)) (Some (sub_network_target_ok a)) (sub_block_hash a).

(** [src/src/accounting/service.rs:130-151 AccountingService::record_share (part)] *)
Definition submission_event (a : ShareSubmission) (worker : Worker) (round_id : option Z) :
    AccountingEvent :=
  let full_worker_name :=
    match w_worker_suffix worker with
    | Some suffix => (w_payout_address worker ++ "." ++ suffix)%string
    | None => w_payout_address worker
    end in
  mkAccountingEvent 0 "share_outcome" (sub_status a) (Some (sub_session_id a))
    (Some (w_id worker)) (Some full_worker_name) (Some (w_payout_address worker)) round_id
    (Some (sub_template_id a)) (Some (sub_template_epoch a)) (Some (sub_job_id a))
    (sub_block_hash a) None None.

(** [src/src/accounting/service.rs:53-156 AccountingService::record_share] *)
Definition record_share (a : ShareSubmission) :
    DbM (option Z * option Z * option Z * string) :=
  worker ← upsert (sub_payout_address a) (sub_worker_suffix a);
  round ← svc_resolve_round_for_template (sub_template_id a);
  let round_id := Some (r_id round) in
  let dedupe_key := submission_key a (w_id worker) in
  ids ← insert_share_and_outcome_atomic (submission_share a (w_id worker))
          (submission_outcome a (w_id worker) round_id);
  let '(share_id, outcome_id, is_new) := ids in
  match (is_new : bool), share_id, outcome_id with
  | true, Some _, Some _ =>
      record_event (submission_event a worker round_id) ;; mret tt
  | _, _, _ => mret tt
  end ;;
  mret (share_id, outcome_id, round_id, dedupe_key).

(** [src/src/accounting/service.rs:246-286 AccountingService::record_found_block] *)
Definition svc_record_found_block (round_id : Z) (block_hash : string) (height : Z)
    (worker_id template_id : option Z) (persist_source : option string)
    (coinbase_value : Z) (network_target_hex : string) : DbM FoundBlock :=
  block ← record_found_block round_id block_hash height worker_id template_id persist_source
            coinbase_value network_target_hex;
  mignore (record_event (mkAccountingEvent 0 "found_block_observed" "confirmed" None worker_id
    None None (Some round_id) template_id None None (Some block_hash) (Some height) None)) ;;
  mret block.

(** [src/src/accounting/service.rs:289-291 AccountingService::record_event] *)
Definition svc_record_event (event : AccountingEvent) : DbM Z := record_event event.

(** [src/src/accounting/service.rs:1107-1129 AccountingService::check_maturation]
    [tip_height - block.height + 1] wraps in 32 bits, and
    [min_confirmations as i32] truncates. *)
Definition matures (tip_height min_confirmations : Z) (b : FoundBlock) : bool :=
  as_i32 min_confirmations <=? as_i32 (as_i32 (tip_height - fb_height b) + 1).

(** [src/src/accounting/service.rs:1107-1129 AccountingService::check_maturation] *)
Definition check_maturation (tip_height min_confirmations : Z) : DbM (list FoundBlock) :=
  immature ← query (λ d, list_blocks d (Some "immature"%string));
  mfor immature (λ b,
    if matures tip_height min_confirmations b then mark_matured (fb_id b) else mret tt) ;;
  mret (List.filter (matures tip_height min_confirmations) immature).

(** [src/src/accounting/service.rs:938-997 AccountingService::reconcile_found_blocks (part)]
    One block of the loop. The node's answer for a height is an argument. *)
Definition reconcile_block (tip_height : Z) (get_block_hash : Z → result (option string))
    (block : FoundBlock) : DbM unit :=
  if tip_height <? fb_height block then
    mignore (mark_orphaned (fb_block_hash block) "block_not_found") ;;
    mignore (svc_close_round (fb_round_id block) 0 "orphaned")
  else
    match get_block_hash (fb_height block) with
    | Ok (Some canonical_hash) =>
        if String.eqb canonical_hash (fb_block_hash block) then mret tt
        else mignore (mark_orphaned (fb_block_hash block) "reorg_detected") ;;
             mignore (svc_close_round (fb_round_id block) 0 "orphaned")
    | Ok None => mret tt
    | Err _ => mret tt
    | Panic => mpanic
    end.

(** [src/src/accounting/service.rs:927-1000 AccountingService::reconcile_found_blocks] *)
Definition reconcile_found_blocks (tip_height : Z)
    (get_block_hash : Z → result (option string)) : DbM unit :=
  confirmed ← query (λ d, list_blocks d (Some "immature"%string));
  mfor confirmed (reconcile_block tip_height get_block_hash).
End Service.

(** * Every operation keeps the constraints of the schema *)

Section Wf.
Context {so : SqlOrder}.

Lemma svc_get_or_create_current_round_wf t : Keeps wf_rel (svc_get_or_create_current_round t).
Proof. unfold svc_get_or_create_current_round. keeps. Qed.
Lemma svc_resolve_wf t : Keeps wf_rel (svc_resolve_round_for_template t).
Proof. unfold svc_resolve_round_for_template. keeps. Qed.
Lemma svc_close_round_wf i e s : Keeps wf_rel (svc_close_round i e s).
Proof. unfold svc_close_round. keeps. Qed.
#[local] Hint Resolve svc_get_or_create_current_round_wf svc_resolve_wf svc_close_round_wf : keeps.
Lemma record_share_wf a : Keeps wf_rel (record_share a).
Proof. unfold record_share. keeps. Qed.
Lemma svc_record_found_block_wf r h n w t p v k :
  Keeps wf_rel (svc_record_found_block r h n w t p v k).
Proof. unfold svc_record_found_block. keeps. Qed.
Lemma check_maturation_wf t m : Keeps wf_rel (check_maturation t m).
Proof. unfold check_maturation. keeps. Qed.
Lemma reconcile_block_wf t g b : Keeps wf_rel (reconcile_block t g b).
Proof. unfold reconcile_block. keeps. Qed.
#[local] Hint Resolve reconcile_block_wf : keeps.
Lemma reconcile_found_blocks_wf t g : Keeps wf_rel (reconcile_found_blocks t g).
Proof. unfold reconcile_found_blocks. keeps. Qed.
End Wf.
#[export] Hint Resolve svc_get_or_create_current_round_wf svc_resolve_wf svc_close_round_wf
  record_share_wf svc_record_found_block_wf check_maturation_wf reconcile_found_blocks_wf : keeps.

(** * Maturation *)

Definition immature (b : FoundBlock) : bool := String.eqb (fb_status b) "immature".

Lemma update_rows_map {R} p f (t : table R) :
  rows (update_rows p f t) = map (λ b, if p b then f b else b) (rows t).
Proof. done. Qed.

Lemma bool_decide_eqb_Z (a b : Z) : (a =? b) = bool_decide (a = b).
Proof. apply eq_true_iff_eq. by rewrite Z.eqb_eq, bool_decide_eq_true. Qed.

Lemma bool_decide_eqb_str (a b : string) : String.eqb a b = bool_decide (a = b).
Proof. apply eq_true_iff_eq. by rewrite String.eqb_eq, bool_decide_eq_true. Qed.

(** The loop of updates, as one table. *)
Lemma matured_loop tip m xs s :
  foldl (λ t x, if matures tip m x then (mark_matured (fb_id x) t).2 else t) s xs =
  set_found_blocks s (mkTable (foldl (λ l x, map (λ b,
    if bool_decide (fb_id b = fb_id x)
    then (if matures tip m x then with_matured_at (clock s) (with_status "matured" b) else b)
    else b) l) (rows (found_blocks s)) xs) (seq (found_blocks s))).
Proof.
  revert s. induction xs as [|x xs IH]; intros s; simpl; [by destruct s as [? ? ? ? ? ? []]|].
  destruct (matures tip m x) eqn:Em; rewrite IH; simpl; do 3 f_equal.
  - apply map_ext. intros b. by rewrite bool_decide_eqb_Z.
  - rewrite <-(map_id (rows (found_blocks s))) at 1.
    apply map_ext. intros b. by destruct (bool_decide _).
Qed.

Lemma filter_and {A} (p q : A → bool) l :
  List.filter (λ x, p x && q x) l = List.filter q (List.filter p l).
Proof.
  induction l as [|x l IH]; [done|]. simpl. destruct (p x); simpl; [|done].
  by destruct (q x); rewrite IH.
Qed.

Lemma filter_ext_elem {A} (p q : A → bool) l :
  (∀ x, x ∈ l → p x = q x) → List.filter p l = List.filter q l.
Proof.
  induction l as [|x l IH]; intros H; [done|]. simpl. rewrite (H x) by set_solver.
  rewrite IH by (intros; apply H; set_solver). done.
Qed.

(** Maturation as one update of the table, whatever the tip. *)
Lemma check_maturation_run d tip min_confirmations :
  db_wf d → blocks_ok d →
  let ripe b := immature b && matures tip min_confirmations b in
  check_maturation tip min_confirmations d =
    (Ok (rev (List.filter ripe (rows (found_blocks d)))),
     set_found_blocks d (mkTable
       (map (λ b, if ripe b then with_matured_at (clock d) (with_status "matured" b) else b)
          (rows (found_blocks d))) (seq (found_blocks d)))).
Proof.
  intros Hwf Hb ripe.
  unfold check_maturation. unfold mbind, M_bind, query. rewrite list_blocks_ok by done.
  fold immature. set (body := λ b, if matures tip min_confirmations b then _ else _).
  destruct (mfor_fold (λ s : Db, s)
    (λ b s, if matures tip min_confirmations b then (mark_matured (fb_id b) s).2 else s)
    (rev (List.filter immature (rows (found_blocks d)))) body d) as [H1 H2].
  { intros x s. unfold body. by destruct (matures _ _ x). }
  destruct (mfor _ body d) as [r d'] eqn:E. simpl in H1, H2. subst r d'.
  rewrite matured_loop. unfold mret, M_ret. f_equal.
  - f_equal. by rewrite List.filter_rev, <-filter_and.
  - f_equal. f_equal. rewrite (update_selected_loop fb_id immature
      (λ x b, if matures tip min_confirmations x
              then with_matured_at (clock d) (with_status "matured" b) else b)).
    + apply list_map_ext_elem. intros b Hin. unfold ripe. by destruct (immature b).
    + apply StronglySorted_lt_NoDup, Hwf.
    + intros x b. by destruct (matures _ _ x).
Qed.

(** C29: maturation promotes exactly the immature blocks with
    enough confirmations, [tip - height + 1 >= min_confirmations], stamps them
    with the current time, reports them newest first, and changes nothing else.
    It always succeeds. *)
Theorem check_maturation_spec d tip min_confirmations :
  db_wf d → blocks_ok d →
  0 ≤ tip < i32_max → 0 ≤ min_confirmations ≤ i32_max →
  Forall (λ b, 0 ≤ fb_height b ≤ i32_max) (rows (found_blocks d)) →
  let ripe b := immature b && (min_confirmations <=? tip - fb_height b + 1) in
  check_maturation tip min_confirmations d =
    (Ok (rev (List.filter ripe (rows (found_blocks d)))),
     set_found_blocks d (mkTable
       (map (λ b, if ripe b then with_matured_at (clock d) (with_status "matured" b) else b)
          (rows (found_blocks d))) (seq (found_blocks d)))).
Proof.
  intros Hwf Hb Htip Hmin Hh ripe.
  assert (∀ b, b ∈ rows (found_blocks d) →
    immature b && matures tip min_confirmations b = ripe b) as Hm.
  { intros b Hin. rewrite Forall_forall in Hh. specialize (Hh b Hin). unfold ripe, matures.
    unfold i32_max in *.
    rewrite (as_i32_id (tip - _)), !as_i32_id by (unfold in_i32, i32_min, i32_max; lia). done. }
  rewrite check_maturation_run by done. f_equal.
  - f_equal. f_equal. by apply filter_ext_elem.
  - f_equal. f_equal. apply list_map_ext_elem. intros b Hin. by rewrite Hm.
Qed.

(** A database with one open round and two found blocks. *)
Definition example_db : Db :=
  let d0 := fresh_db "2026-05-20 12:00:00" in
  let d1 := (svc_get_or_create_current_round 17 d0).2 in
  let d2 := (svc_record_found_block 1 "00aa" 100 None (Some 17) None 260000000 "00ff" d1).2 in
  (svc_record_found_block 1 "00bb" 110 None (Some 18) None 260000000 "00ff" d2).2.

Lemma example_db_wf : db_wf example_db.
Proof.
  unfold example_db. do 2 apply svc_record_found_block_wf.
  apply svc_get_or_create_current_round_wf, fresh_db_wf.
Qed.

Lemma example_blocks_ok : blocks_ok example_db.
Proof.
  unfold blocks_ok. eval_rows (rows (found_blocks example_db)).
  repeat apply Forall_cons_2; [..|apply Forall_nil_2];
    (split; [simpl; unfold i64_max; lia|intros t [= <-]; unfold i64_max; lia]).
Qed.

Lemma check_maturation_spec_witness :
  (check_maturation 105 5 example_db).1 =
    Ok [mkFoundBlock 1 1 "00aa" 100 "immature" None (Some 17) None None None 260000000 None "00ff"].
Proof.
  rewrite (check_maturation_spec example_db 105 5 example_db_wf example_blocks_ok);
    [reflexivity|unfold i32_max; lia|unfold i32_max; lia|].
  eval_rows (rows (found_blocks example_db)).
  repeat apply Forall_cons_2; [..|apply Forall_nil_2]; simpl; unfold i32_max; lia.
Defined.

(** * Reconciliation with the chain at startup *)

(** Why a block is orphaned, if it is. *)
Definition verdict (tip_height : Z) (get_block_hash : Z → result (option string))
    (b : FoundBlock) : option string :=
  if tip_height <? fb_height b then Some "block_not_found"
  else match get_block_hash (fb_height b) with
       | Ok (Some h) => if String.eqb h (fb_block_hash b) then None else Some "reorg_detected"
       | _ => None
       end.

Definition orphan (reason : string) (b : FoundBlock) : FoundBlock :=
  with_orphan_reason (Some reason) (with_status "orphaned" b).

Definition orphan_round (r : Round) : Round :=
  mkRound (r_id r) (r_start_template_id r) (Some 0) "orphaned" (r_found_block_hash r).

Lemma record_event_part {T} (part : Db → T) e d :
  (∀ d t, part (set_accounting_events d t) = part d) → part (record_event e d).2 = part d.
Proof. intros H. destruct (record_event_frame e d) as [->|(x & _ & _ & _ & ->)]; auto. Qed.

Lemma record_event_no_panic e d : (record_event e d).1 ≠ Panic.
Proof.
  unfold record_event, bind_opt_u64, bind_u64. munfold.
  destruct (ev_template_id e) as [t|]; [destruct (t <=? i64_max)|]; simpl; try done;
    (destruct (ev_template_epoch e) as [t'|]; [destruct (t' <=? i64_max)|]); done.
Qed.

(** Closing a round always succeeds: it updates the round and logs the event. *)
Lemma svc_close_round_run i e s d :
  e ≤ i64_max →
  svc_close_round i e s d =
    (Ok tt, (record_event (round_event "round_closed" s i e) (set_rounds d
      (update_rows (λ r, r_id r =? i)
        (λ r, mkRound (r_id r) (r_start_template_id r) (Some e) s (r_found_block_hash r))
        (rounds d)))).2).
Proof.
  intros He%Z.leb_le. unfold svc_close_round, close_round, bind_u64. rewrite He.
  unfold mbind, M_bind, mret, M_ret, stmt. set (d1 := set_rounds _ _).
  pose proof (mignore_ok _ d1 (record_event_no_panic (round_event "round_closed" s i e) d1)) as H1.
  pose proof (mignore_snd (record_event (round_event "round_closed" s i e)) d1) as H2.
  destruct (mignore _ d1). simpl in *. by subst.
Qed.

Definition orphan_block (b : FoundBlock) (reason : string) : DbM unit :=
  mignore (mark_orphaned (fb_block_hash b) reason) ;;
  mignore (svc_close_round (fb_round_id b) 0 "orphaned").

(** What orphaning a block does to the blocks and the rounds. *)
Lemma orphan_block_part b reason d :
  (orphan_block b reason d).1 = Ok tt ∧
  (rows (found_blocks (orphan_block b reason d).2), rows (rounds (orphan_block b reason d).2)) =
  (map (λ x, if bool_decide (fb_block_hash x = fb_block_hash b) then orphan reason x else x)
       (rows (found_blocks d)),
   map (λ r, if r_id r =? fb_round_id b then orphan_round r else r) (rows (rounds d))).
Proof.
  assert (orphan_block b reason d = (Ok tt, (svc_close_round (fb_round_id b) 0 "orphaned"
    (mark_orphaned (fb_block_hash b) reason d).2).2)) as ->.
  { unfold orphan_block.
    rewrite (bind_run _ _ d tt (mark_orphaned (fb_block_hash b) reason d).2) by done.
    rewrite svc_close_round_run by done.
    by rewrite (mignore_run _ _ tt _ (svc_close_round_run _ 0 _ _ ltac:(done))). }
  split; [done|]. rewrite svc_close_round_run by done. cbn [fst snd].
  etransitivity; [by apply (record_event_part (λ d, (rows (found_blocks d), rows (rounds d))))|].
  simpl. f_equal. apply map_ext. intros x. by rewrite bool_decide_eqb_str.
Qed.

(** One turn of the reconciliation. *)
Lemma reconcile_block_part tip g b d :
  (∀ h, g h ≠ Panic) →
  (reconcile_block tip g b d).1 = Ok tt ∧
  (rows (found_blocks (reconcile_block tip g b d).2),
   rows (rounds (reconcile_block tip g b d).2)) =
  match verdict tip g b with
  | Some reason =>
      (map (λ x, if bool_decide (fb_block_hash x = fb_block_hash b) then orphan reason x else x)
         (rows (found_blocks d)),
       map (λ r, if r_id r =? fb_round_id b then orphan_round r else r) (rows (rounds d)))
  | None => (rows (found_blocks d), rows (rounds d))
  end.
Proof.
  intros Hg. unfold reconcile_block, verdict.
  destruct (_ <? _); [apply orphan_block_part|].
  specialize (Hg (fb_height b)). destruct (g _) as [[h|]|e|]; try done.
  destruct (String.eqb h _); [done|apply orphan_block_part].
Qed.

(** Repeated closing of rounds. *)
Lemma orphan_rounds_loop (p : FoundBlock → bool) xs l :
  foldl (λ l b, if p b then map (λ r, if r_id r =? fb_round_id b then orphan_round r else r) l
                else l) l xs =
  map (λ r, if existsb (λ b, p b && (r_id r =? fb_round_id b)) xs then orphan_round r else r) l.
Proof.
  revert l. induction xs as [|b xs IH]; intros l; simpl; [by rewrite map_id|].
  rewrite IH. destruct (p b); [|done]. rewrite map_map. apply map_ext. intros r. simpl.
  destruct (r_id r =? fb_round_id b); [|done]. by destruct (existsb _ xs).
Qed.

Lemma existsb_rev {A} (p : A → bool) l : existsb p (rev l) = existsb p l.
Proof.
  apply eq_true_iff_eq. rewrite !existsb_exists. by setoid_rewrite <-in_rev.
Qed.

Lemma existsb_filter {A} (p q : A → bool) l :
  existsb p (List.filter q l) = existsb (λ x, q x && p x) l.
Proof. induction l as [|x l IH]; [done|]. simpl. by destruct (q x); simpl; rewrite IH. Qed.

Lemma existsb_ext {A} (p q : A → bool) l : (∀ x, p x = q x) → existsb p l = existsb q l.
Proof. intros H. induction l as [|x l IH]; [done|]. simpl. by rewrite H, IH. Qed.

(** The effect of one block on the lists of blocks and rounds, and the effect
    of a list of blocks on each list apart. *)
Definition orphan_step (v : FoundBlock → option string) (b : FoundBlock)
    (t : list FoundBlock * list Round) : list FoundBlock * list Round :=
  match v b with
  | Some reason =>
      (map (λ x, if bool_decide (fb_block_hash x = fb_block_hash b) then orphan reason x else x) t.1,
       map (λ r, if r_id r =? fb_round_id b then orphan_round r else r) t.2)
  | None => t
  end.

Lemma reconcile_fold v xs l k :
  foldl (λ t b, orphan_step v b t) (l, k) xs =
  (foldl (λ l b, map (λ x, if bool_decide (fb_block_hash x = fb_block_hash b)
            then match v b with Some reason => orphan reason x | None => x end else x) l) l xs,
   foldl (λ l b, if bool_decide (is_Some (v b))
            then map (λ r, if r_id r =? fb_round_id b then orphan_round r else r) l else l) k xs).
Proof.
  revert l k. induction xs as [|b xs IH]; intros l k; [done|]. simpl. unfold orphan_step at 2.
  destruct (v b) as [reason|]; simpl; rewrite IH; [done|]. f_equal. f_equal.
  rewrite <-(map_id l) at 1. apply map_ext. intros x. by destruct (bool_decide _).
Qed.

(** C30: at startup these immature blocks, and no others, are orphaned: those above the
    tip with [block_not_found], and those at whose height the node has another hash with
    [reorg_detected]. A block at or below the tip for whose height the node has no block,
    or gives no answer, is left alone. The rounds of the orphaned blocks are closed as orphaned and no other
    block or round changes. *)
Theorem reconcile_found_blocks_spec d tip get_block_hash :
  db_wf d → blocks_ok d → (∀ h, get_block_hash h ≠ Panic) →
  let gone b := if immature b then verdict tip get_block_hash b else None in
  let '(r, d') := reconcile_found_blocks tip get_block_hash d in
  r = Ok tt ∧
  rows (found_blocks d') =
    map (λ b, match gone b with Some reason => orphan reason b | None => b end)
      (rows (found_blocks d)) ∧
  rows (rounds d') =
    map (λ r, if existsb (λ b, match gone b with Some _ => r_id r =? fb_round_id b | None => false end)
                   (rows (found_blocks d))
              then orphan_round r else r) (rows (rounds d)).
Proof.
  intros Hwf Hb Hg gone. unfold reconcile_found_blocks. unfold mbind, M_bind, query.
  rewrite list_blocks_ok by done. fold immature.
  set (xs := rev (List.filter immature (rows (found_blocks d)))).
  set (v := verdict tip get_block_hash).
  destruct (mfor_fold (λ d, (rows (found_blocks d), rows (rounds d))) (orphan_step v) xs (reconcile_block tip get_block_hash) d) as [H1 H2].
  { intros b s. pose proof (reconcile_block_part tip get_block_hash b s Hg) as [-> ->]. done. }
  destruct (mfor _ _ d) as [r d'] eqn:E. simpl in H1, H2. split; [done|].
  rewrite reconcile_fold in H2. injection H2 as -> ->. clear E. split.
  - unfold xs. rewrite (update_selected_loop fb_block_hash immature
      (λ b x, match v b with Some reason => orphan reason x | None => x end)).
    + apply map_ext. intros b. unfold gone, v. by destruct (immature b).
    + apply Hwf.
    + intros b x. by destruct (v b).
  - rewrite orphan_rounds_loop. apply map_ext. intros rd. unfold xs.
    rewrite existsb_rev, existsb_filter. erewrite existsb_ext; [reflexivity|].
    intros b. unfold gone, v. destruct (immature b); [|done]. simpl.
    by destruct (verdict _ _ b).
Qed.

Lemma reconcile_found_blocks_spec_witness :
  let g h := if h =? 100 then Ok (Some "00cc"%string) else Ok None in
  map fb_status (rows (found_blocks (reconcile_found_blocks 105 g example_db).2)) =
    ["orphaned"; "orphaned"]%string ∧
  map fb_orphan_reason (rows (found_blocks (reconcile_found_blocks 105 g example_db).2)) =
    [Some "reorg_detected"; Some "block_not_found"]%string.
Proof.
  intros g.
  pose proof (reconcile_found_blocks_spec example_db 105 g example_db_wf example_blocks_ok) as H.
  destruct (reconcile_found_blocks 105 g example_db) as [r d'].
  destruct H as (_ & H & _); [intros h; unfold g; by destruct (h =? 100)|].
  simpl. rewrite H. split; vm_compute; reflexivity.
Defined.

(** * Shares *)

Section Shares.
Context {so : SqlOrder}.

(** Resolving a round in the service leaves every table but the rounds and the
    log alone, and the rounds are those that the repository left. *)
Lemma svc_resolve_run t d r d' :
  svc_resolve_round_for_template t d = (Ok r, d') →
  ∃ b d1, resolve_round_for_template t d = (Ok (r, b), d1) ∧ rounds d' = rounds d1 ∧
    d' = set_accounting_events (set_rounds d (rounds d')) (accounting_events d') ∧
    (b = false → d' = d).
Proof.
  unfold svc_resolve_round_for_template.
  destruct (resolve_round_for_template t d) as [[[r0 b]|e|] d1] eqn:E;
    unfold mbind, M_bind; rewrite E; [|done..]. cbn [fst snd].
  assert (d1 = set_rounds d (rounds d1)) as Hd1.
  { apply resolve_cases in E as [(_ & -> & _)|[_ [(_ & -> & _)|(_ & _ & _ & ->)]]]; by destruct d. }
  assert (b = false → d1 = d) as Hb.
  { intros ->. by apply resolve_cases in E as [(_ & -> & _)|[_ [(_ & -> & _)|(? & _)]]]. }
  destruct b.
  - set (ev := round_event _ _ _ _).
    pose proof (mignore_ok _ _ (record_event_no_panic ev d1)) as Hok.
    pose proof (mignore_snd (record_event ev) d1) as Hsnd.
    destruct (mignore (record_event ev) d1) as [x d2]. simpl in Hok, Hsnd. subst x.
    intros [= <- <-]. exists true, d1. split; [done|]. rewrite Hsnd.
    destruct (record_event_frame ev d1) as [->|(x & _ & _ & _ & ->)];
      (split_and!; [done| |done]); rewrite Hd1; by destruct d.
  - intros [= <- <-]. exists false, d1. split_and!; try done. rewrite Hd1. by destruct d.
Qed.

Lemma svc_resolve_again t d r d' d2 :
  svc_resolve_round_for_template t d = (Ok r, d') → rounds d2 = rounds d' →
  svc_resolve_round_for_template t d2 = (Ok r, d2).
Proof.
  intros (b & d1 & Hres & Hr & _ & _)%svc_resolve_run Hd2.
  unfold svc_resolve_round_for_template. unfold mbind, M_bind.
  rewrite (resolve_again _ _ _ _ _ d2 Hres) by congruence. done.
Qed.

(** The atomic insert touches the shares and the outcomes only. *)
Lemma atomic_frame s o d :
  let d' := (insert_share_and_outcome_atomic s o d).2 in
  d' = set_share_outcomes (set_shares d (shares d')) (share_outcomes d').
Proof.
  simpl. unfold insert_share_and_outcome_atomic, transaction. munfold.
  destruct (put_share s d) as [[[i b]|e|] d1] eqn:E1; simpl; try by destruct d.
  destruct (put_outcome i o d1) as [[[j b']|e|] d2] eqn:E2; simpl; try by destruct d.
  apply put_share_ok in E1 as (_ & _ & _ & H1). apply put_outcome_ok in E2 as (_ & H2).
  destruct b, b'; subst; by destruct d.
Qed.

(** The log is not read by the atomic insert. *)
Lemma atomic_log s o d t x :
  insert_share_and_outcome_atomic s o d = (Ok x, d) →
  insert_share_and_outcome_atomic s o (set_accounting_events d t) =
    (Ok x, set_accounting_events d t).
Proof.
  destruct x as [[a b] n]. intros H. pose proof H as H0. apply atomic_again in H.
  rewrite H0 in H. injection H as ->.
  apply atomic_ok in H0 as (i & j & sn & on & d1 & H1 & H2 & -> & -> & E).
  symmetry in E. apply orb_false_iff in E as [-> ->].
  pose proof H1 as (Ht & He & (r & Hf & <-) & ->)%put_share_ok.
  pose proof H2 as ((r2 & Hf2 & <-) & _)%put_outcome_ok.
  unfold insert_share_and_outcome_atomic, transaction. munfold.
  rewrite (put_share_dup _ _ r) by done. simpl. by rewrite (put_outcome_dup _ _ _ r2).
Qed.

(** The steps of a successful [record_share]. *)
Lemma record_share_run a d sid oid rid key d' :
  record_share a d = (Ok (sid, oid, rid, key), d') →
  ∃ w d1 r d2 n d3,
    upsert (sub_payout_address a) (sub_worker_suffix a) d = (Ok w, d1) ∧
    svc_resolve_round_for_template (sub_template_id a) d1 = (Ok r, d2) ∧
    insert_share_and_outcome_atomic (submission_share a (w_id w))
      (submission_outcome a (w_id w) (Some (r_id r))) d2 = (Ok (sid, oid, n), d3) ∧
    rid = Some (r_id r) ∧ key = submission_key a (w_id w) ∧
    (if n then d' = (record_event (submission_event a w (Some (r_id r))) d3).2 else d' = d3).
Proof.
  unfold record_share. unfold mbind, M_bind.
  destruct (upsert _ _ d) as [[w|e|] d1] eqn:E1; [|done..].
  destruct (svc_resolve_round_for_template _ d1) as [[r|e|] d2] eqn:E2; [|done..].
  destruct (insert_share_and_outcome_atomic _ _ d2) as [[[[s o] n]|e|] d3] eqn:E3; [|done..].
  pose proof E3 as (i & j & _ & _ & _ & _ & _ & -> & -> & _)%atomic_ok.
  destruct n.
  - destruct (record_event _ d3) as [[x|e|] d4] eqn:E4; [|done..].
    intros [= <- <- <- <- <-]. eexists _, _, _, _, true, _. split_and!; try done.
    by rewrite E4.
  - intros [= <- <- <- <- <-]. by eexists _, _, _, _, false, _.
Qed.

(** C17: a miner with a worker suffix can send a share
    twice and have it counted once: the second call returns the same share,
    outcome, round and key as the first (not the empty answer that its documentation
    gives for a duplicate), and leaves the whole database unchanged. *)
Theorem record_share_idempotent a d x d' :
  suffix_value (sub_worker_suffix a) ≠ None →
  record_share a d = (Ok x, d') → record_share a d' = (Ok x, d').
Proof.
  destruct x as [[[sid oid] rid] key]. intros Hs H.
  apply record_share_run in H as (w & d1 & r & d2 & n & d3 & H1 & H2 & H3 & -> & -> & Hd').
  assert (∃ t, d' = set_accounting_events d3 t) as [t Ht].
  { destruct n; [|subst; exists (accounting_events d3); by destruct d3].
    destruct (record_event_frame (submission_event a w (Some (r_id r))) d3) as [E|(x & _ & _ & _ & E)];
      rewrite E in Hd'; subst; [exists (accounting_events d3); by destruct d3|by eexists]. }
  pose proof (atomic_frame (submission_share a (w_id w))
    (submission_outcome a (w_id w) (Some (r_id r))) d2) as Hfr. rewrite H3 in Hfr. simpl in Hfr.
  pose proof H2 as (b & d1' & _ & _ & Hd2 & _)%svc_resolve_run.
  assert (workers d' = workers d1) as Hw by (rewrite Ht, Hfr, Hd2; by destruct d1).
  assert (upsert (sub_payout_address a) (sub_worker_suffix a) d' = (Ok w, d')) as Hu.
  { pose proof (upsert_again _ _ _ _ _ Hs H1) as Hu. unfold upsert in Hu |- *. rewrite Hw.
    destruct (select_one _ (workers d1)); [by injection Hu as ->|].
    exfalso. revert Hu. unfold insert_row. intros [= _ Hd]. apply (f_equal (seq ∘ workers)) in Hd.
    simpl in Hd. lia. }
  assert (rounds d' = rounds d2) as Hr by (rewrite Ht, Hfr; by destruct d2).
  assert (insert_share_and_outcome_atomic (submission_share a (w_id w))
    (submission_outcome a (w_id w) (Some (r_id r))) d' = (Ok (sid, oid, false), d')) as Hi.
  { apply atomic_again in H3. subst d'. revert H3. apply atomic_log. }
  unfold record_share. rewrite (bind_run _ _ _ _ _ Hu).
  rewrite (bind_run _ _ _ _ _ (svc_resolve_again _ _ _ _ _ H2 Hr)).
  rewrite (bind_run _ _ _ _ _ Hi). done.
Qed.

(** Every recorded key starts with the id of its worker. *)
Definition keyed (d : Db) : Prop :=
  Forall (λ r, ∃ rest, share_key r =
    (show_i (s_worker_id (sr_share r)) ++ String ":"%char rest)%string) (rows (shares d)).

Lemma submission_key_worker a w :
  ∃ rest, submission_key a w = (show_i w ++ String ":"%char rest)%string.
Proof. unfold submission_key, build_dedupe_key. eauto. Qed.

(** A worker that has no share yet has no share with its key. *)
Lemma keyed_fresh a w d :
  keyed d → (∀ r, r ∈ rows (shares d) → s_worker_id (sr_share r) ≠ w) →
  List.find (λ r, String.eqb (share_key r) (submission_key a w)) (rows (shares d)) = None.
Proof.
  intros Hk Hw. apply existsb_find_none, not_true_iff_false.
  intros (r & Hr & E%String.eqb_eq)%existsb_exists. apply list_elem_of_In in Hr.
  unfold keyed in Hk. rewrite Forall_forall in Hk. destruct (Hk r Hr) as [rest Hrest].
  destruct (submission_key_worker a w) as [rest' Hrest']. rewrite Hrest, Hrest' in E.
  apply split_at_sep in E as [E%show_i_inj _]; [by apply (Hw r Hr)|by apply show_i_no_char..].
Qed.

(** Without a worker suffix nothing is
    deduplicated: every successful call inserts a worker row of its own and a
    new share, whatever was recorded before, so a share sent twice counts twice. *)
Theorem record_share_suffixless_duplicates a d sid oid rid key d' :
  suffix_value (sub_worker_suffix a) = None → db_wf d → keyed d →
  record_share a d = (Ok (sid, oid, rid, key), d') →
  tids w_id (workers d') = tids w_id (workers d) ++ [seq (workers d) + 1] ∧
  tids sr_id (shares d') = tids sr_id (shares d) ++ [seq (shares d) + 1] ∧
  sid = Some (seq (shares d) + 1).
Proof.
  intros Hs Hwf Hk Hrec.
  apply record_share_run in Hrec as (w & d1 & r & d2 & n & d3 & H1 & H2 & H3 & -> & -> & Hd').
  apply upsert_no_suffix in H1 as [-> ->]; [|done]. cbn [w_id] in *.
  pose proof H2 as (_ & _ & _ & _ & Hd2 & _)%svc_resolve_run.
  assert (shares d2 = shares d) as Hsh by by rewrite Hd2.
  pose proof (atomic_frame (submission_share a (seq (workers d) + 1))
    (submission_outcome a (seq (workers d) + 1) (Some (r_id r))) d2) as Hfr.
  rewrite H3 in Hfr. simpl in Hfr.
  assert (workers d' = workers d3 ∧ shares d' = shares d3) as [-> ->].
  { destruct n; [|by subst]. subst d'. split; by apply record_event_part. }
  apply atomic_ok in H3 as (i & j & sn & on & d4 & H4 & H5 & -> & -> & ->).
  assert (shares d3 = shares d4) as ->.
  { apply put_outcome_ok in H5 as [_ H5]. by destruct on; subst. }
  apply put_share_ok in H4 as (_ & _ & (row & Hf & <-) & H4).
  pose proof (keyed_fresh a (seq (workers d) + 1) d Hk) as Hfresh.
  assert (∀ r, r ∈ rows (shares d) → s_worker_id (sr_share r) ≠ seq (workers d) + 1) as Hne.
  { intros r' Hr' E. apply (table_ok_seq_fresh w_id (workers d)); [apply Hwf|].
    apply (fk_share_worker d Hwf). apply elem_of_map. by exists r'. }
  specialize (Hfresh Hne). destruct sn; subst d4.
  - split_and!.
    + rewrite Hfr, Hd2. unfold tids. simpl. by rewrite map_app.
    + unfold tids. simpl. by rewrite map_app, Hsh.
    + simpl in Hf. rewrite Hsh, find_app in Hf. cbn [s_dedupe_key submission_share] in Hf.
      rewrite Hfresh in Hf. simpl in Hf. destruct (String.eqb _ _); [|done].
      by injection Hf as <-.
  - rewrite Hsh in Hf. cbn [s_dedupe_key submission_share] in Hf. congruence.
Qed.
End Shares.

Definition example_submission (suffix : option string) : ShareSubmission :=
  mkShareSubmission "lotus_abc" suffix "sess-1" "job-17-3" 17 3 "00000001" "00aa" "0102" "ff"
    (f64_of_Z 1) "accepted" None true false None.

Lemma record_share_idempotent_witness :
  let a := example_submission (Some "rig1"%string) in
  let d' := (record_share a (fresh_db "2026-05-20 12:00:00")).2 in
  record_share a d' = (Ok (Some 1, Some 1, Some 1, "1:17:3:00aa:0102:ff"%string), d').
Proof.
  intros a d'. apply (record_share_idempotent a (fresh_db "2026-05-20 12:00:00"));
    [discriminate|]. vm_compute. reflexivity.
Defined.

Lemma keyed_init now : keyed (fresh_db now).
Proof. constructor. Qed.

(** The same suffixless share twice: two shares. *)
Lemma record_share_suffixless_duplicates_witness :
  let a := example_submission None in
  let d1 := (record_share a (fresh_db "2026-05-20 12:00:00")).2 in
  tids sr_id (shares (record_share a d1).2) = [1; 2] ∧
  tids w_id (workers (record_share a d1).2) = [1; 2].
Proof.
  intros a d1.
  destruct (record_share_suffixless_duplicates a d1 (Some 2) (Some 2) (Some 1)
    "2:17:3:00aa:0102:ff" (record_share a d1).2) as (H1 & H2 & _).
  - reflexivity.
  - apply record_share_wf, fresh_db_wf.
  - constructor; [|constructor]. exists "17:3:00aa:0102:ff"%string. reflexivity.
  - vm_compute. reflexivity.
  - rewrite H1, H2. split; reflexivity.
Defined.

(** * Recording a share never panics *)

Section NoPanic.
Context {so : SqlOrder}.

Lemma bind_u64_no_panic z : NoPanic (bind_u64 z).
Proof. unfold bind_u64. no_panic. Qed.
Lemma upsert_no_panic a o : NoPanic (upsert a o).
Proof. unfold upsert. stmt_no_panic. Qed.
#[local] Hint Resolve bind_u64_no_panic upsert_no_panic : keeps.
#[local] Hint Extern 2 (NoPanic (record_event _)) => intros ?; apply record_event_no_panic : keeps.

Lemma transaction_no_panic {A} (c : DbM A) : NoPanic c → NoPanic (transaction c).
Proof. intros H d. pose proof (H d). unfold transaction. by destruct (c d) as [[] ?]. Qed.

Lemma resolve_round_no_panic t : NoPanic (svc_resolve_round_for_template t).
Proof.
  unfold svc_resolve_round_for_template. no_panic.
  unfold RoundRepository.resolve_round_for_template. no_panic. intros z d. unfold stmt.
  destruct (head _); [done|]. unfold RoundRepository.get_or_create_current_round.
  destruct (select_one is_open _); [done|].
  apply (NoPanic_bind (bind_u64 t)); [apply bind_u64_no_panic|]. intros y. stmt_no_panic.
Qed.

Lemma insert_submission_no_panic s o : NoPanic (insert_share_and_outcome_atomic s o).
Proof.
  apply transaction_no_panic.
  unfold put_share, put_outcome, insert_or_ignore_share, insert_or_ignore_outcome,
    last_share_id, last_outcome_id, select_share_id, select_outcome_id.
  no_panic; stmt_no_panic.
Qed.
#[local] Hint Resolve resolve_round_no_panic insert_submission_no_panic : keeps.

Lemma record_share_no_panic a : NoPanic (record_share a).
Proof. unfold record_share. no_panic. Qed.
End NoPanic.
