(* ===== verification/PayoutService.v ===== *)
(** [accounting/service.rs], the part that pays: [create_payout_for_found_block],
    [rebuild_payout_plan_for_batch], [process_pending_payouts] and
    [reconcile_submitted_payouts], with the [Signer] interface of
    [payout/signer/mod.rs]. *)
From Stdlib Require Import ZArith Lia String Sorted Init.Byte.
From stdpp Require Import base option list numbers strings sets gmap.
From S2P Require Import Prelude Text Float64 Json Db VarDiff AccountingEventRepository FoundBlockRepository PayoutRepository Pplns Plan AccountingService.
#[local] Open Scope Z_scope.

(** [src/src/payout/signer/mod.rs:12-23 SignedBatchData] *)
Record SignedBatchData := mkSignedBatchData {
  sb_plan : PayoutPlan;
  sb_coinbase_txid : string;
  sb_coinbase_vout : Z;
  sb_coinbase_amount : Z;
  sb_coinbase_script_pubkey_hex : string;
}.

(** The payout settings that the handler passes to every call. *)
Record PayoutParams := mkPayoutParams {
  fee_bps : Z;
  fee_address : option string;
  min_payout_sat : Z;
  n_multiplier : f64;
}.

Section Payouts.
Context {so : SqlOrder} {hashing : Hashing}.

(** The network difficulty of a block, one when its target does not parse. *)
Definition block_difficulty (b : FoundBlock) : f64 :=
  default (f64_of_Z 1)
    (network_target_hex_to_difficulty hex_decode target_to_difficulty (fb_network_target_hex b)).

(** [src/src/accounting/service.rs:334-351 AccountingService::create_payout_for_found_block (part)]
    [LIMIT 1] without an order: any of the matching rows. *)
Definition select_found_at (d : Db) (block_hash : string) : option string :=
  or_created_at <$> head (sql_order_by (λ _ _, true) (List.filter (λ r, let o := or_outcome r in
    bool_decide (o_block_hash o = Some block_hash) && String.eqb (o_status o) "accepted" &&
    bool_decide (o_network_target_ok o = Some true)) (rows (share_outcomes d)))).

(** [src/src/accounting/service.rs:366-377 AccountingService::create_payout_for_found_block (part)] *)
Definition read_dust (d : Db) : list (string * Z) :=
  map (λ b, (d_payout_address b, d_balance b)) (rows (dust_balances d)).

(** [src/src/accounting/service.rs:379-391 AccountingService::create_payout_for_found_block (part)] *)
Definition plan_for (d : Db) (pp : PayoutParams) (b : FoundBlock) (shares : list PplnsShareEntry) :
    PayoutPlan :=
  build_payout_plan (fb_round_id b) (fb_height b) (fb_block_hash b) (block_difficulty b)
    (reward_from_coinbase (fb_coinbase_value b)) (fee_bps pp) (fee_address pp)
    (min_payout_sat pp) (read_dust d) shares.

(** [src/src/accounting/service.rs:393-409 AccountingService::create_payout_for_found_block (part)] *)
Definition count_existing (d : Db) (block_hash : string) : Z :=
  Z.of_nat (length (List.filter (λ b, match pb_retry_key b with
    | Some k => sql_like (block_hash ++ "%") k
    | None => false
    end) (rows (payout_batches d)))).

(** [src/src/accounting/service.rs:433-447 AccountingService::create_payout_for_found_block (part)]
    The payout rows of a batch, and the snapshots of the shares behind them. *)
Definition record_outputs (batch_id : Z) (outputs : list PayoutOutput) : DbM unit :=
  mfor outputs (λ o,
    record_payout batch_id (po_worker_id o) (po_payout_address o) (po_amount o)
      (po_dust_carried_forward o) ;;
    mret tt).

(** [src/src/accounting/service.rs:449-463 AccountingService::create_payout_for_found_block (part)] *)
Definition snapshots_of (batch_id : Z) (outputs : list PayoutOutput)
    (shares : list PplnsShareEntry) : list PayoutShareSnapshot :=
  flat_map (λ o, map (λ s, mkPayoutShareSnapshot 0 batch_id (pe_share_id s)
      (pe_share_outcome_id s) (pe_payout_address s) (pe_difficulty s) (pe_created_at s))
    (List.filter (λ s, String.eqb (pe_payout_address s) (po_payout_address o)) shares)) outputs.

(** [src/src/accounting/service.rs:490-497 AccountingService::create_payout_for_found_block (part)]
    [INSERT .. ON CONFLICT DO UPDATE SET balance = balance + ?2]. The balance has no bound
    here; SQLite makes a sum beyond 64 bits, more than all coins there can be, a real. *)
Definition add_to_dust_balance (payout_address : string) (dust : Z) : DbM unit := stmt (λ d,
  let p b := String.eqb (d_payout_address b) payout_address in
  if existsb p (rows (dust_balances d))
  then (Ok tt, set_dust_balances d (update_rows p
         (λ b, mkDustBalance (d_payout_address b) (d_balance b + dust)) (dust_balances d)))
  else (Ok tt, set_dust_balances d
         (insert_row (λ _, mkDustBalance payout_address dust) (dust_balances d)).2)).

(** [src/src/accounting/service.rs:484-499 AccountingService::create_payout_for_found_block (part)] *)
Definition carry_dust (outputs : list PayoutOutput) : DbM unit :=
  let outputs_by_addr := fold_left (λ m o,
    btree_entry (po_payout_address o) (λ _, po_dust_carried_forward o) m) outputs [] in
  mfor outputs_by_addr (λ ad, if 0 <? ad.2 then add_to_dust_balance ad.1 ad.2 else mret tt).

(** [src/src/accounting/service.rs:501-510 AccountingService::create_payout_for_found_block (part)] *)
Definition created_event (b : FoundBlock) : AccountingEvent :=
  mkAccountingEvent 0 "payout_batch_created" "pending" None None None None
    (Some (fb_round_id b)) None None None (Some (fb_block_hash b)) (Some (fb_height b)) None.

(** [src/src/accounting/service.rs:416-513 AccountingService::create_payout_for_found_block (part)]
    The body of the transaction. *)
Definition write_batch (found_block : FoundBlock) (plan : PayoutPlan)
    (shares : list PplnsShareEntry) : DbM Z :=
  batch ← create_payout_batch (fb_round_id found_block) (pp_gross_reward plan)
            (pp_pool_fee_amount plan) (pp_pool_fee_address plan)
            (Z.of_nat (length (pp_outputs plan))) (pp_retry_key plan);
  record_outputs (pb_id batch) (pp_outputs plan) ;;
  mfor (snapshots_of (pb_id batch) (pp_outputs plan) shares) snapshot_share ;;
  carry_dust (pp_outputs plan) ;;
  record_event (created_event found_block) ;;
  mret (pb_id batch).

(** [src/src/accounting/service.rs:303-525 AccountingService::create_payout_for_found_block] *)
Definition create_payout_for_found_block (found_block : FoundBlock) (pp : PayoutParams) : DbM Z :=
  found_at ← query (λ d, ok_or (Anyhow "no accepted share_outcome with network_target_ok=1")
                           (select_found_at d (fb_block_hash found_block)));
  shares ← query (λ d, Ok (calculate_pplns_window d found_at (n_multiplier pp)
                             (block_difficulty found_block)));
  plan ← query (λ d, Ok (plan_for d pp found_block shares));
  existing ← query (λ d, Ok (count_existing d (fb_block_hash found_block)));
  if 0 <? existing then mfail (Anyhow "payout batch already exists for block hash")
  else transaction (write_batch found_block plan shares).

(** [src/src/accounting/service.rs:539-735 AccountingService::rebuild_payout_plan_for_batch] *)
Definition rebuild_payout_plan_for_batch (batch_id : Z) (pp : PayoutParams) :
    DbM (list PayoutOutput) :=
  batch ← query (λ d, ok_or (Anyhow "batch not found") (get_batch_by_id d batch_id));
  if negb (String.eqb (pb_status batch) "pending")
  then mfail (Anyhow "only pending batches can be rebuilt")
  else
  fb ← query (λ d, get_by_round_id d (pb_round_id batch));
  found_block ← mlift (ok_or (Anyhow "no found_block for round") fb);
  found_at ← query (λ d, ok_or (Anyhow "no accepted share_outcome with network_target_ok=1")
                           (select_found_at d (fb_block_hash found_block)));
  shares ← query (λ d, Ok (calculate_pplns_window d found_at (n_multiplier pp)
                             (block_difficulty found_block)));
  if bool_decide (shares = []) then mfail (Anyhow "PPLNS window is empty")
  else
  plan ← query (λ d, Ok (plan_for d pp found_block shares));
  if bool_decide (pp_outputs plan = []) then mfail (Anyhow "rebuild produced empty outputs")
  else transaction
    (delete_payouts_by_batch batch_id ;;
     delete_snapshots_by_batch batch_id ;;
     record_outputs batch_id (pp_outputs plan) ;;
     mfor (snapshots_of batch_id (pp_outputs plan) shares) snapshot_share ;;
     carry_dust (pp_outputs plan) ;;
     mret (pp_outputs plan)).

(** [src/src/accounting/service.rs:766-787 AccountingService::process_pending_payouts (part)]
    The coinbase transaction id in the node's answer to [getblock]: the id of
    the first transaction, given as an object or as a string. *)
Definition coinbase_txid_of (block_data : Value) : option string :=
  txs ← as_array (index block_data "tx");
  tx_entry ← head txs;
  let cb_txid := default EmptyString
    (match (o ← as_object tx_entry; v ← get o "txid"; as_str v) with
     | Some s => Some s
     | None => as_str tx_entry
     end) in
  if String.eqb cb_txid "" then None else Some cb_txid.

(** [src/src/constants.rs:14-14 SATS_PER_XPI_F64 (part)] *)
Definition SATS_PER_XPI_F64 : f64 := f64_of_Z 1000000.

(** [src/src/accounting/service.rs:814-818 AccountingService::process_pending_payouts (part)] *)
Definition spendable (vout : Value) : bool :=
  negb (bool_decide (as_str (index (index vout "scriptPubKey") "type") = Some "nulldata"%string)) &&
  f64_gt (default f64_zero (as_f64 (index vout "value"))) f64_zero.

Fixpoint find_index {A} (p : A → bool) (i : Z) (l : list A) : option (Z * A) :=
  match l with
  | [] => None
  | x :: l' => if p x then Some (i, x) else find_index p (i + 1) l'
  end.

(** [src/src/accounting/service.rs:806-833 AccountingService::process_pending_payouts (part)]
    Amount in satoshis, index and script of the first spendable output. *)
Definition coinbase_output_of (raw_tx : Value) : option (Z * Z * string) :=
  vouts ← as_array (index raw_tx "vout");
  iv ← find_index spendable 0 vouts;
  let value_xpi := default f64_zero (as_f64 (index iv.2 "value")) in
  let script := default EmptyString (as_str (index (index iv.2 "scriptPubKey") "hex")) in
  Some (f64_as_i64 (f64_mul value_xpi SATS_PER_XPI_F64), wrap_u 32 iv.1, script).

(** The node and the signer, as the payout service calls them. *)
Record PayoutEnv := mkPayoutEnv {
  rpc_get_block : string → result Value;
  rpc_get_raw_transaction : string → result Value;
  sign_and_submit : SignedBatchData → result string;
}.

(** [src/src/accounting/service.rs:872-879 AccountingService::process_pending_payouts (part)] *)
Definition output_of_payout (p : Payout) : PayoutOutput :=
  mkPayoutOutput (p_payout_address p) (p_worker_id p) (p_amount p) (p_dust_carried_forward p).

(** [src/src/accounting/service.rs:882-902 AccountingService::process_pending_payouts (part)] *)
Definition signed_data (batch : PayoutBatch) (found_block : FoundBlock)
    (outputs : list PayoutOutput) (txid : string) (cb : Z * Z * string) : SignedBatchData :=
  let '(amount, vout, script) := cb in
  mkSignedBatchData (mkPayoutPlan (pb_round_id batch) (fb_height found_block)
      (fb_block_hash found_block) f64_zero f64_zero (pb_total_amount batch)
      (pb_pool_fee_amount batch) (pb_pool_fee_address batch) outputs 0
      (default EmptyString (pb_retry_key batch)))
    txid vout amount script.

(** [src/src/accounting/service.rs:762-798 AccountingService::process_pending_payouts (part)]
    The coinbase id of a block, asked of the node and stored when it is not
    known yet. [None]: the batch is skipped. *)
Definition resolve_coinbase_txid (env : PayoutEnv) (found_block : FoundBlock) :
    DbM (option string) :=
  match fb_coinbase_txid found_block with
  | Some txid => mret (Some txid)
  | None =>
      match rpc_get_block env (fb_block_hash found_block) with
      | Ok block_data =>
          match coinbase_txid_of block_data with
          | Some cb_txid =>
              mignore (update_coinbase_txid (fb_id found_block) cb_txid) ;; mret (Some cb_txid)
          | None => mret None
          end
      | Err _ => mret None
      | Panic => mpanic
      end
  end.

(** [src/src/accounting/service.rs:840-880 AccountingService::process_pending_payouts (part)]
    The stored outputs of a batch, rebuilt when there are none. *)
Definition batch_outputs (batch : PayoutBatch) (pp : PayoutParams) :
    DbM (option (list PayoutOutput)) :=
  payouts ← query (λ d, Ok (get_payouts_by_batch d (pb_id batch)));
  if bool_decide (payouts = []) then
    r ← mtry (rebuild_payout_plan_for_batch (pb_id batch) pp);
    match r with inl out => mret (Some out) | inr _ => mret None end
  else mret (Some (map output_of_payout payouts)).

(** [src/src/accounting/service.rs:753-913 AccountingService::process_pending_payouts (part)]
    One batch of the loop; [continue] is [mret tt]. *)
Definition process_batch (env : PayoutEnv) (pp : PayoutParams) (batch : PayoutBatch) : DbM unit :=
  fb ← query (λ d, get_by_round_id d (pb_round_id batch));
  match fb with
  | None => mret tt
  | Some found_block =>
      txid ← resolve_coinbase_txid env found_block;
      match txid with
      | None => mret tt
      | Some coinbase_txid =>
          raw ← mtry (mlift (rpc_get_raw_transaction env coinbase_txid));
          match raw with
          | inr _ => mret tt
          | inl raw_tx =>
              match coinbase_output_of raw_tx with
              | None => mret tt
              | Some cb =>
                  outs ← batch_outputs batch pp;
                  match outs with
                  | None => mret tt
                  | Some outputs =>
                      r ← mtry (mlift (sign_and_submit env
                                 (signed_data batch found_block outputs coinbase_txid cb)));
                      match r with
                      | inl txid => mignore (mark_batch_submitted (pb_id batch) txid)
                      | inr _ => mret tt
                      end
                  end
              end
          end
      end
  end.

(** [src/src/accounting/service.rs:738-915 AccountingService::process_pending_payouts] *)
Definition process_pending_payouts (env : PayoutEnv) (pp : PayoutParams) : DbM unit :=
  pending ← query (λ d, Ok (list_batches d (Some "pending"%string)));
  mfor pending (process_batch env pp).

(** [src/src/accounting/service.rs:1036-1066 AccountingService::reconcile_submitted_payouts (part)]
    Whether the batch was recorded as confirmed. *)
Definition confirm_batch (batch : PayoutBatch) : DbM bool :=
  r ← mtry (update_batch_status (pb_id batch) "confirmed");
  match r with
  | inr _ => mret false
  | inl _ =>
      fb ← mtry (query (λ d, get_by_round_id d (pb_round_id batch)));
      match fb with
      | inl (Some b) => mignore (update_status (fb_id b) "paid")
      | _ => mret tt
      end ;;
      mret true
  end.

(** [src/src/accounting/service.rs:1025-1093 AccountingService::reconcile_submitted_payouts (part)]
    A batch is confirmed when the node counts at least one confirmation. *)
Definition tx_confirmed (check_tx : string → result (option Z)) (batch : PayoutBatch) : result bool :=
  match pb_submitted_txid batch with
  | None => Ok false
  | Some txid =>
      match check_tx txid with
      | Ok (Some confirmations) => Ok (0 <? confirmations)
      | Ok None | Err _ => Ok false
      | Panic => Panic
      end
  end.

(** [src/src/accounting/service.rs:1024-1094 AccountingService::reconcile_submitted_payouts (part)] *)
Fixpoint reconcile_submitted_loop (check_tx : string → result (option Z))
    (batches : list PayoutBatch) : DbM (list (Z * string * string)) :=
  match batches with
  | [] => mret []
  | batch :: rest =>
      confirmed ← mlift (tx_confirmed check_tx batch);
      pushed ← (if confirmed : bool then confirm_batch batch else mret false);
      reconciled ← reconcile_submitted_loop check_tx rest;
      mret (if pushed : bool
            then (pb_id batch, default EmptyString (pb_submitted_txid batch), "confirmed"%string)
                   :: reconciled
            else reconciled)
  end.

(** [src/src/accounting/service.rs:1013-1097 AccountingService::reconcile_submitted_payouts] *)
Definition reconcile_submitted_payouts (check_tx : string → result (option Z)) :
    DbM (list (Z * string * string)) :=
  submitted ← query (λ d, Ok (list_batches d (Some "submitted"%string)));
  reconcile_submitted_loop check_tx submitted.
End Payouts.

(** * Every operation keeps the constraints of the schema *)

Lemma add_to_dust_balance_wf a v : Keeps wf_rel (add_to_dust_balance a v).
Proof.
  intros d Hd. unfold add_to_dust_balance, stmt.
  destruct (existsb _ _) eqn:E; simpl; apply set_dust_wf; try done; [|by apply insert_dust_nodup].
  apply uq_dust in Hd. unfold update_rows. simpl. rewrite map_map.
  erewrite map_ext; [exact Hd|]. intros b. simpl. by destruct (String.eqb _ a).
Qed.
#[export] Hint Resolve add_to_dust_balance_wf : keeps.

Lemma carry_dust_wf o : Keeps wf_rel (carry_dust o).
Proof. unfold carry_dust. keeps. Qed.
Lemma record_outputs_wf b o : Keeps wf_rel (record_outputs b o).
Proof. unfold record_outputs. keeps. Qed.
#[export] Hint Resolve carry_dust_wf record_outputs_wf : keeps.

Section PayoutWf.
Context {so : SqlOrder} {hashing : Hashing}.

Lemma create_payout_wf b pp : Keeps wf_rel (create_payout_for_found_block b pp).
Proof. unfold create_payout_for_found_block, write_batch. keeps. apply Keeps_transaction; keeps. Qed.
Lemma rebuild_payout_wf i pp : Keeps wf_rel (rebuild_payout_plan_for_batch i pp).
Proof. unfold rebuild_payout_plan_for_batch. keeps. apply Keeps_transaction; keeps. Qed.
#[local] Hint Resolve rebuild_payout_wf : keeps.
Lemma process_batch_wf env pp b : Keeps wf_rel (process_batch env pp b).
Proof.
  unfold process_batch, resolve_coinbase_txid, batch_outputs. keeps.
Qed.
#[local] Hint Resolve process_batch_wf : keeps.
Lemma process_pending_payouts_wf env pp : Keeps wf_rel (process_pending_payouts env pp).
Proof. unfold process_pending_payouts. keeps. Qed.
End PayoutWf.

Lemma confirm_batch_wf b : Keeps wf_rel (confirm_batch b).
Proof. unfold confirm_batch. keeps. Qed.
#[export] Hint Resolve confirm_batch_wf : keeps.
Lemma reconcile_submitted_loop_wf c l : Keeps wf_rel (reconcile_submitted_loop c l).
Proof. induction l as [|b l IH]; simpl; keeps. Qed.
#[export] Hint Resolve reconcile_submitted_loop_wf : keeps.
Lemma reconcile_submitted_payouts_wf c : Keeps wf_rel (reconcile_submitted_payouts c).
Proof. unfold reconcile_submitted_payouts. keeps. Qed.
#[export] Hint Resolve create_payout_wf rebuild_payout_wf process_pending_payouts_wf
  reconcile_submitted_payouts_wf : keeps.

(** * Creating a payout *)

(** ** What each statement of the transaction does *)

Lemma record_payout_run b w a n c d p d' :
  record_payout b w a n c d = (Ok p, d') →
  p = mkPayout (seq (payouts d) + 1) b w a n c ∧
  d' = set_payouts d (mkTable (rows (payouts d) ++ [p]) (seq (payouts d) + 1)).
Proof.
  unfold record_payout, stmt. destruct (_ && _); [|done]. by intros [= <- <-].
Qed.

Lemma record_outputs_run bid outs d d' :
  record_outputs bid outs d = (Ok tt, d') →
  ∃ ps n, d' = set_payouts d (mkTable (rows (payouts d) ++ ps) n) ∧
    map output_of_payout ps = outs ∧ Forall (λ p, p_batch_id p = bid) ps.
Proof.
  unfold record_outputs. revert d. induction outs as [|o outs IH]; intros d; simpl.
  - intros [= <-]. exists [], (seq (payouts d)). rewrite app_nil_r. split_and!; try done.
    by destruct d as [? ? ? ? ? ? ? ? []].
  - unfold mbind, M_bind.
    destruct (record_payout _ _ _ _ _ d) as [[p|?|] d1] eqn:E; [|done..]. cbn.
    apply record_payout_run in E as [-> ->]. intros H. apply IH in H as (ps & n & -> & Hm & Hf).
    exists (mkPayout (seq (payouts d) + 1) bid (po_worker_id o) (po_payout_address o)
      (po_amount o) (po_dust_carried_forward o) :: ps), n. simpl.
    rewrite <-app_assoc, Hm. split_and!; [done|by destruct o|by constructor].
Qed.

Definition snapshot_data (s : PayoutShareSnapshot) : PayoutShareSnapshot :=
  mkPayoutShareSnapshot 0 (ps_batch_id s) (ps_share_id s) (ps_share_outcome_id s)
    (ps_payout_address s) (ps_work_units s) (ps_share_created_at s).

Lemma snapshots_run snaps d d' :
  mfor snaps snapshot_share d = (Ok tt, d') →
  ∃ ss n, d' = set_payout_share_snapshots d (mkTable (rows (payout_share_snapshots d) ++ ss) n) ∧
    map snapshot_data ss = map snapshot_data snaps.
Proof.
  revert d. induction snaps as [|s snaps IH]; intros d; simpl.
  - intros [= <-]. exists [], (seq (payout_share_snapshots d)). rewrite app_nil_r.
    split; [|done]. by destruct d as [? ? ? ? ? ? ? ? ? []].
  - unfold mbind, M_bind. unfold snapshot_share at 1, stmt.
    destruct (f64_nan _); [done|]. destruct (_ && _); [|done]. intros H.
    apply IH in H as (ss & n & -> & Hm). eexists (_ :: ss), n. simpl.
    rewrite <-app_assoc. split; [done|]. by rewrite Hm.
Qed.

(** The balance of an address, zero when it has none. *)
Definition dust_balance (d : Db) (a : string) : Z :=
  match List.find (λ b, String.eqb (d_payout_address b) a) (rows (dust_balances d)) with
  | Some b => d_balance b
  | None => 0
  end.

Lemma add_to_dust_balance_run a v d :
  (add_to_dust_balance a v d).1 = Ok tt ∧
  (add_to_dust_balance a v d).2 =
    set_dust_balances d (dust_balances (add_to_dust_balance a v d).2) ∧
  ∀ x, dust_balance (add_to_dust_balance a v d).2 x =
       dust_balance d x + if String.eqb a x then v else 0.
Proof.
  unfold add_to_dust_balance, stmt. destruct (existsb _ _) eqn:E; simpl.
  - split_and!; [done|by destruct d|]. intros x. unfold dust_balance. simpl.
    rewrite find_map by (intros b; by destruct (String.eqb (d_payout_address b) a)).
    destruct (List.find _ _) as [b|] eqn:Ex; simpl.
    + apply find_some in Ex as [_ <-%String.eqb_eq]. rewrite (String.eqb_sym a).
      destruct (String.eqb _ a); simpl; lia.
    + destruct (String.eqb_spec a x) as [->|]; [|done].
      apply existsb_find in E as [b0 Hb0]. congruence.
  - split_and!; [done|by destruct d|]. intros x. unfold dust_balance. simpl.
    rewrite find_app. apply existsb_find_none in E.
    destruct (String.eqb_spec a x) as [->|Hne]; simpl.
    + by rewrite E, String.eqb_refl.
    + clear E. destruct (List.find _ (rows (dust_balances d))); simpl; [lia|].
      by rewrite (proj2 (String.eqb_neq a x) Hne).
Qed.

(** What a list of outputs adds to the dust of an address. *)
Definition dust_of (outs : list PayoutOutput) (a : string) : Z :=
  sumZ (λ o, if String.eqb (po_payout_address o) a
             then Z.max 0 (po_dust_carried_forward o) else 0) outs.

Lemma btree_entry_last {V} k (f : option V → V) (m : list (string * V)) :
  (∀ a, a ∈ map fst m → str_ltb a k = true) → btree_entry k f m = m ++ [(k, f None)].
Proof.
  induction m as [|[k' v] m IH]; intros H; [done|]. simpl.
  assert (str_ltb k' k = true) as Hlt by (apply H; simpl; set_solver).
  assert (String.compare k k' = Gt) as ->.
  { unfold str_ltb, String.ltb in Hlt. rewrite String.compare_antisym in Hlt.
    by destruct (String.compare k k'). }
  rewrite IH by (intros; apply H; simpl; set_solver). done.
Qed.

Lemma collect_sorted (outs : list PayoutOutput) m :
  (∀ a b, a ∈ map fst m → b ∈ map po_payout_address outs → str_ltb a b = true) →
  StronglySorted (λ a b, str_ltb a b = true) (map po_payout_address outs) →
  fold_left (λ m o, btree_entry (po_payout_address o) (λ _, po_dust_carried_forward o) m) outs m =
  m ++ map (λ o, (po_payout_address o, po_dust_carried_forward o)) outs.
Proof.
  revert m. induction outs as [|o outs IH]; intros m Hm Hs; simpl; [by rewrite app_nil_r|].
  simpl in Hs. inversion Hs as [|? ? Hs' Ho]; subst.
  rewrite btree_entry_last by (intros; apply Hm; [done|simpl; set_solver]).
  rewrite IH; [by rewrite <-app_assoc| |done].
  intros a b. rewrite map_app, elem_of_app. simpl. rewrite list_elem_of_singleton.
  intros [Ha| ->] Hb; [apply Hm; [done|simpl; set_solver]|].
  rewrite Forall_forall in Ho. auto.
Qed.

Lemma carry_dust_run outs d :
  StronglySorted (λ a b, str_ltb a b = true) (map po_payout_address outs) →
  (carry_dust outs d).1 = Ok tt ∧
  (carry_dust outs d).2 = set_dust_balances d (dust_balances (carry_dust outs d).2) ∧
  ∀ x, dust_balance (carry_dust outs d).2 x = dust_balance d x + dust_of outs x.
Proof.
  intros Hs. unfold carry_dust. rewrite collect_sorted by (done || set_solver). simpl.
  clear Hs. revert d. induction outs as [|o outs IH]; intros d; simpl.
  - split_and!; [done|by destruct d|]. intros x. unfold dust_of. simpl. lia.
  - unfold mbind, M_bind. destruct (Z.ltb_spec 0 (po_dust_carried_forward o)) as [Hpos|Hneg].
    + destruct (add_to_dust_balance_run (po_payout_address o) (po_dust_carried_forward o) d)
        as (H1 & H2 & H3).
      destruct (add_to_dust_balance _ _ d) as [r d1]. simpl in H1, H2, H3. subst r.
      destruct (IH d1) as (H4 & H5 & H6). split_and!; [done|rewrite H5, H2; by destruct d|].
      intros x. rewrite H6, H3. unfold dust_of. simpl. destruct (String.eqb _ x); lia.
    + simpl. destruct (IH d) as (H4 & H5 & H6). split_and!; [done|done|].
      intros x. rewrite H6. unfold dust_of. simpl. destruct (String.eqb _ x); lia.
Qed.

Section Create.
Context {so : SqlOrder} {hashing : Hashing}.

(** The batch row of a plan. *)
Definition batch_row (b : FoundBlock) (plan : PayoutPlan) (id : Z) : PayoutBatch :=
  mkPayoutBatch id (fb_round_id b) "pending" (pp_gross_reward plan) (pp_pool_fee_amount plan)
    (pp_pool_fee_address plan) (Z.of_nat (length (pp_outputs plan))) (Some (pp_retry_key plan))
    None None 0 None None.

(** The row of the event that announces the batch of a block. *)
Definition created_event_row (b : FoundBlock) (id : Z) : AccountingEvent :=
  mkAccountingEvent id "payout_batch_created" "pending" None None None None
    (Some (fb_round_id b)) None None None (Some (fb_block_hash b)) (Some (fb_height b)) None.

Lemma created_event_run b d :
  record_event (created_event b) d =
    (Ok (seq (accounting_events d) + 1),
     set_accounting_events d (mkTable
       (rows (accounting_events d) ++ [created_event_row b (seq (accounting_events d) + 1)])
       (seq (accounting_events d) + 1))).
Proof. reflexivity. Qed.

Lemma create_payout_batch_run r t f a n k d batch d' :
  create_payout_batch r t f a n k d = (Ok batch, d') →
  batch = mkPayoutBatch (seq (payout_batches d) + 1) r "pending" t f a n (Some k)
            None None 0 None None ∧
  d' = set_payout_batches d
         (mkTable (rows (payout_batches d) ++ [batch]) (seq (payout_batches d) + 1)).
Proof.
  unfold create_payout_batch, stmt. destruct (existsb _ _); [done|].
  destruct (has_id _ _ _); [|done]. by intros [= <- <-].
Qed.

Lemma snapshots_of_data id outs shares :
  map snapshot_data (snapshots_of id outs shares) = snapshots_of id outs shares.
Proof.
  unfold snapshots_of. induction outs as [|o l IH]; [done|]. simpl. rewrite map_app, IH. f_equal.
  rewrite map_map. by apply map_ext.
Qed.

(** What the transaction leaves behind. *)
Lemma write_batch_run b plan shares d id d' :
  write_batch b plan shares d = (Ok id, d') →
  StronglySorted (λ a b, str_ltb a b = true) (map po_payout_address (pp_outputs plan)) →
  id = seq (payout_batches d) + 1 ∧
  rows (payout_batches d') = rows (payout_batches d) ++ [batch_row b plan id] ∧
  (∃ ps, rows (payouts d') = rows (payouts d) ++ ps ∧
    map output_of_payout ps = pp_outputs plan ∧ Forall (λ p, p_batch_id p = id) ps) ∧
  (∃ ss, rows (payout_share_snapshots d') = rows (payout_share_snapshots d) ++ ss ∧
    map snapshot_data ss = snapshots_of id (pp_outputs plan) shares) ∧
  (∀ a, dust_balance d' a = dust_balance d a + dust_of (pp_outputs plan) a) ∧
  rows (accounting_events d') = rows (accounting_events d) ++
    [created_event_row b (seq (accounting_events d) + 1)] ∧
  workers d' = workers d ∧ authorization_events d' = authorization_events d ∧
  Db.shares d' = Db.shares d ∧ share_outcomes d' = share_outcomes d ∧
  clock d' = clock d ∧ rounds d' = rounds d ∧ found_blocks d' = found_blocks d.
Proof.
  intros H Hs. unfold write_batch in H.
  apply bind_ok in H as (batch & d1 & H1 & H). apply bind_ok in H as ([] & d2 & H2 & H).
  apply bind_ok in H as ([] & d3 & H3 & H). apply bind_ok in H as ([] & d4 & H4 & H).
  apply bind_ok in H as (ev & d5 & H5 & H). injection H as <- <-.
  apply create_payout_batch_run in H1 as [-> ->]. cbn [pb_id] in *.
  set (id := seq (payout_batches d) + 1) in *.
  apply record_outputs_run in H2 as (ps & n & -> & Hout & Hbid).
  apply snapshots_run in H3 as (ss & n' & -> & Hss).
  match type of H4 with carry_dust _ ?dd = _ =>
    destruct (carry_dust_run (pp_outputs plan) dd Hs) as (_ & Hd4 & Hdust) end.
  rewrite H4 in Hd4, Hdust. cbn [snd] in Hd4, Hdust.
  rewrite created_event_run in H5. injection H5 as _ <-.
  split; [done|]. split; [by rewrite Hd4|]. split; [exists ps; by rewrite Hd4|]. split.
  { exists ss. split; [by rewrite Hd4|]. by rewrite Hss, snapshots_of_data. }
  split; [exact Hdust|]. split_and!; by rewrite Hd4.
Qed.

(** A call that succeeds found the block's share and no batch for the block,
    and wrote the plan of the block's window. *)
Lemma create_payout_run b pp d id d' :
  create_payout_for_found_block b pp d = (Ok id, d') →
  ∃ found_at, select_found_at d (fb_block_hash b) = Some found_at ∧
  let shares := calculate_pplns_window d found_at (n_multiplier pp) (block_difficulty b) in
  count_existing d (fb_block_hash b) = 0 ∧
  write_batch b (plan_for d pp b shares) shares d = (Ok id, d').
Proof.
  unfold create_payout_for_found_block. rewrite bind_query.
  destruct (select_found_at d (fb_block_hash b)) as [fa|]; [|done]. cbn [ok_or].
  rewrite !bind_query. destruct (Z.ltb_spec 0 (count_existing d (fb_block_hash b))); [done|].
  rewrite transaction_ok. intros Htx. exists fa. split; [done|]. cbn zeta.
  split; [unfold count_existing in *; lia|exact Htx].
Qed.

(** A creation that fails leaves the database as it was. *)
Lemma create_payout_rollback b pp d :
  is_ok (create_payout_for_found_block b pp d).1 = false →
  (create_payout_for_found_block b pp d).2 = d.
Proof.
  unfold create_payout_for_found_block. rewrite bind_query.
  destruct (select_found_at d (fb_block_hash b)) as [fa|]; [|done]. cbn [ok_or].
  rewrite !bind_query. destruct (_ <? _); [done|]. apply transaction_atomic.
Qed.

Lemma create_payout_no_panic b pp : NoPanic (create_payout_for_found_block b pp).
Proof.
  unfold create_payout_for_found_block.
  assert (∀ plan shares, NoPanic (transaction (write_batch b plan shares))) as Ht.
  { intros plan shares. apply transaction_no_panic.
    unfold write_batch, record_outputs, carry_dust, create_payout_batch, record_payout,
      snapshot_share, add_to_dust_balance.
    no_panic; first [stmt_no_panic|intros d; apply record_event_no_panic]. }
  no_panic; stmt_no_panic.
Qed.

(** A payout that cannot be created leaves no trace:
    whenever the call does not return a batch, the database is as it was. *)
Theorem create_payout_atomic b pp d :
  is_ok (create_payout_for_found_block b pp d).1 = false →
  (create_payout_for_found_block b pp d).2 = d.
Proof. apply create_payout_rollback. Qed.

Lemma fresh_batch_filter {A} (f : A → Z) (i : Z) l k :
  Forall (λ x, f x ≠ i) l → Forall (λ x, f x = i) k →
  List.filter (λ x, f x =? i) (l ++ k) = k.
Proof.
  intros Hl Hk. rewrite List.filter_app.
  assert (List.filter (λ x, f x =? i) l = []) as ->.
  { induction Hl as [|x l Hx Hl IH]; [done|]. simpl. by rewrite (proj2 (Z.eqb_neq _ _) Hx). }
  induction Hk as [|x k Hx Hk IH]; [done|]. simpl. rewrite Hx, Z.eqb_refl. by f_equal.
Qed.

Lemma other_batch_filter {A} (f : A → Z) (i j : Z) l k :
  Forall (λ x, f x = j) k → i ≠ j →
  List.filter (λ x, f x =? i) (l ++ k) = List.filter (λ x, f x =? i) l.
Proof.
  intros Hk Hij. rewrite List.filter_app.
  assert (List.filter (λ x, f x =? i) k = []) as ->; [|by rewrite app_nil_r].
  induction Hk as [|x k Hx _ IH]; [done|]. simpl. by rewrite (proj2 (Z.eqb_neq _ _)) by congruence.
Qed.

(** Snapshots with the data of those of a batch are of the batch. *)
Lemma snapshots_batch id outs shares ss :
  map snapshot_data ss = snapshots_of id outs shares →
  Forall (λ s, ps_batch_id s = id) ss.
Proof.
  intros Hsd. apply Forall_forall. intros s Hs.
  assert (snapshot_data s ∈ snapshots_of id outs shares) as Hin
    by (rewrite <-Hsd; apply elem_of_map; eauto).
  unfold snapshots_of in Hin. apply list_elem_of_In, in_flat_map in Hin as (o & _ & Hin).
  apply in_map_iff in Hin as (e & He & _). by injection He as <-.
Qed.

(** The payouts of the batch that a transaction wrote. *)
Lemma write_batch_payouts b plan shares d id d' :
  db_wf d → write_batch b plan shares d = (Ok id, d') →
  StronglySorted (λ a b, str_ltb a b = true) (map po_payout_address (pp_outputs plan)) →
  map output_of_payout (get_payouts_by_batch d' id) = pp_outputs plan.
Proof.
  intros Hwf Hrun Hs. apply write_batch_run in Hrun as (-> & _ & (ps & Hps & Hout & Hbid) & _); [|done].
  unfold get_payouts_by_batch. rewrite Hps, fresh_batch_filter; [done| |done].
  apply Forall_forall. intros p Hp E.
  assert (seq (payout_batches d) + 1 ∉ tids pb_id (payout_batches d)) as Hfresh
    by apply table_ok_seq_fresh, Hwf.
  apply Hfresh. rewrite <-E. apply (fk_payout_batch d Hwf), elem_of_map. eauto.
Qed.

(** C2: what a created payout records. The batch gets the next
    id, is pending and carries the totals of the plan for the block's PPLNS
    window, the gross reward as its total; its payouts are the outputs of the plan, in
    order; its snapshots are the shares of the window that each output pays for; every
    address's dust grows by what the plan carries forward for it; one event
    [payout_batch_created] with the round, hash and height of the block is logged; and
    workers, authorizations, shares, outcomes, rounds, blocks, and the payouts and
    snapshots of other batches stay as they were. *)
Theorem create_payout_spec b pp d id d' :
  db_wf d → create_payout_for_found_block b pp d = (Ok id, d') →
  ∃ found_at, select_found_at d (fb_block_hash b) = Some found_at ∧
  let shares := calculate_pplns_window d found_at (n_multiplier pp) (block_difficulty b) in
  let plan := plan_for d pp b shares in
  rows (payout_batches d') = rows (payout_batches d) ++ [batch_row b plan id] ∧
  map output_of_payout (get_payouts_by_batch d' id) = pp_outputs plan ∧
  map snapshot_data (get_snapshots_by_batch d' id) = snapshots_of id (pp_outputs plan) shares ∧
  (∀ a, dust_balance d' a = dust_balance d a + dust_of (pp_outputs plan) a) ∧
  rows (accounting_events d') = rows (accounting_events d) ++
    [created_event_row b (seq (accounting_events d) + 1)] ∧
  (∀ i, i ≠ id → get_payouts_by_batch d' i = get_payouts_by_batch d i ∧
                 get_snapshots_by_batch d' i = get_snapshots_by_batch d i) ∧
  workers d' = workers d ∧ authorization_events d' = authorization_events d ∧
  Db.shares d' = Db.shares d ∧ share_outcomes d' = share_outcomes d ∧
  clock d' = clock d ∧ rounds d' = rounds d ∧ found_blocks d' = found_blocks d.
Proof.
  intros Hwf (fa & Hfa & _ & Hrun)%create_payout_run. exists fa. split; [done|].
  intros shares plan. fold shares plan in Hrun.
  pose proof (write_batch_payouts _ _ _ _ _ _ Hwf Hrun (plan_sorted _ _ _ _ _ _ _ _ _ _)) as Hpay.
  apply write_batch_run in Hrun
    as (-> & Hb & (ps & Hps & Hout & Hbid) & (ss & Hss & Hsd) & Hdust & Hev & Hfr);
    [|apply plan_sorted].
  set (id := seq (payout_batches d) + 1) in *.
  assert (id ∉ tids pb_id (payout_batches d)) as Hfresh by apply table_ok_seq_fresh, Hwf.
  assert (Forall (λ s, ps_batch_id s = id) ss) as Hsid by (by eapply snapshots_batch).
  split; [done|]. split_and!; try done; try apply Hfr.
  - unfold get_snapshots_by_batch. rewrite Hss, fresh_batch_filter; [done| |done].
    apply Forall_forall. intros s Hs E. apply Hfresh. rewrite <-E.
    apply (fk_snap_batch d Hwf), elem_of_map. eauto.
  - intros i Hi. unfold get_payouts_by_batch, get_snapshots_by_batch.
    rewrite Hps, Hss, !other_batch_filter with (j := id) by done. done.
Qed.

(** A batch with a retry key of the block blocks the block. *)
Lemma count_existing_pos d h x :
  Some (h ++ x)%string ∈ map pb_retry_key (rows (payout_batches d)) → 0 < count_existing d h.
Proof.
  intros (pb & E & Hin)%elem_of_map. unfold count_existing.
  assert (pb ∈ List.filter (λ b, match pb_retry_key b with
    | Some k => sql_like (h ++ "%") k | None => false end) (rows (payout_batches d))) as Hf.
  { apply elem_of_filter_b. split; [done|]. rewrite <-E. apply sql_like_prefix. }
  destruct (List.filter _ _); [set_solver|simpl; lia].
Qed.

Lemma create_payout_blocked b pp d :
  0 < count_existing d (fb_block_hash b) →
  is_ok (create_payout_for_found_block b pp d).1 = false ∧
  (create_payout_for_found_block b pp d).2 = d.
Proof.
  intros Hc%Z.ltb_lt. unfold create_payout_for_found_block. rewrite bind_query.
  destruct (select_found_at d (fb_block_hash b)); [|done]. cbn [ok_or].
  by rewrite !bind_query, Hc.
Qed.

(** A block is paid by at most one batch. Once a batch has
    been created for a block, creating another one for the same block hash fails
    and changes nothing, with any parameters and in any later state that still
    holds the batch. *)
Theorem create_payout_once b pp d id d' b2 pp2 d2 :
  create_payout_for_found_block b pp d = (Ok id, d') →
  map pb_retry_key (rows (payout_batches d')) ⊆ map pb_retry_key (rows (payout_batches d2)) →
  fb_block_hash b2 = fb_block_hash b →
  is_ok (create_payout_for_found_block b2 pp2 d2).1 = false ∧
  (create_payout_for_found_block b2 pp2 d2).2 = d2.
Proof.
  intros (fa & _ & _ & Hrun)%create_payout_run Hsub Heq. apply create_payout_blocked.
  apply write_batch_run in Hrun as (_ & Hb & _); [|apply plan_sorted].
  rewrite Heq. eapply count_existing_pos. apply Hsub. rewrite Hb, map_app.
  apply elem_of_app. right. simpl. by apply list_elem_of_singleton.
Qed.

(** The statements of the transaction succeed when the rows they refer to exist. *)
Lemma record_outputs_ok bid outs d :
  has_id pb_id bid (payout_batches d) = true →
  (∀ o, o ∈ outs → has_id w_id (po_worker_id o) (workers d) = true) →
  (record_outputs bid outs d).1 = Ok tt.
Proof.
  intros Hb Hw. unfold record_outputs.
  apply (mfor_total (λ s, payout_batches s = payout_batches d ∧ workers s = workers d)); [|done].
  intros o s Ho [Hbs Hws]. unfold mbind, M_bind, record_payout, stmt.
  rewrite Hbs, Hws, Hb, (Hw o Ho). done.
Qed.

Lemma snapshots_ok snaps d :
  (∀ s, s ∈ snaps → f64_nan (ps_work_units s) = false ∧
     has_id pb_id (ps_batch_id s) (payout_batches d) = true ∧
     has_id sr_id (ps_share_id s) (Db.shares d) = true ∧
     has_id or_id (ps_share_outcome_id s) (share_outcomes d) = true) →
  (mfor snaps snapshot_share d).1 = Ok tt.
Proof.
  intros H. apply (mfor_total (λ s, payout_batches s = payout_batches d ∧
    Db.shares s = Db.shares d ∧ share_outcomes s = share_outcomes d)); [|done].
  intros x s Hx (Hb & Hs & Ho). destruct (H x Hx) as (H1 & H2 & H3 & H4).
  unfold snapshot_share, stmt. by rewrite H1, Hb, Hs, Ho, H2, H3, H4.
Qed.

Lemma record_event_ok b d : is_ok (record_event (created_event b) d).1 = true.
Proof. done. Qed.

(** The retry key of a plan is new when no batch exists for its block. *)
Lemma retry_key_fresh d pp b shares :
  count_existing d (fb_block_hash b) = 0 →
  existsb (λ x, bool_decide (pb_retry_key x = Some (pp_retry_key (plan_for d pp b shares))))
    (rows (payout_batches d)) = false.
Proof.
  intros Hc. apply not_true_iff_false. intros (x & Hx & Ex%bool_decide_eq_true)%existsb_exists.
  assert (0 < count_existing d (fb_block_hash b)); [|lia].
  eapply count_existing_pos. apply elem_of_map. exists x. rewrite Ex.
  split; [done|by apply list_elem_of_In].
Qed.

(** The transaction succeeds when the window points to existing rows. *)
Lemma write_batch_ok b plan shares d :
  existsb (λ x, bool_decide (pb_retry_key x = Some (pp_retry_key plan)))
    (rows (payout_batches d)) = false →
  fb_round_id b ∈ tids r_id (rounds d) →
  StronglySorted (λ a b, str_ltb a b = true) (map po_payout_address (pp_outputs plan)) →
  (∀ o, o ∈ pp_outputs plan → po_worker_id o ∈ tids w_id (workers d)) →
  (∀ e, e ∈ shares → pe_share_id e ∈ tids sr_id (Db.shares d) ∧
     pe_share_outcome_id e ∈ tids or_id (share_outcomes d) ∧
     f64_nan (pe_difficulty e) = false) →
  is_ok (write_batch b plan shares d).1 = true.
Proof.
  intros Hk Hr Hs Ho He. unfold write_batch.
  rewrite (bind_run _ _ d (batch_row b plan (seq (payout_batches d) + 1)) (set_payout_batches d
    (insert_row (batch_row b plan) (payout_batches d)).2))
    by (unfold create_payout_batch, stmt; rewrite Hk, (proj2 (has_id_spec _ _ _) Hr); done).
  set (d1 := set_payout_batches d _). set (id := seq (payout_batches d) + 1).
  cbn [batch_row pb_id].
  assert (has_id pb_id id (payout_batches d1) = true) as Hb.
  { apply has_id_spec. unfold d1, tids. simpl. rewrite map_app. apply elem_of_app. right.
    simpl. by apply list_elem_of_singleton. }
  assert ((record_outputs id (pp_outputs plan) d1).1 = Ok tt) as H1.
  { apply record_outputs_ok; [done|]. intros o Hin. apply has_id_spec. by apply Ho. }
  destruct (record_outputs id (pp_outputs plan) d1) as [r d2] eqn:E2. simpl in H1. subst r.
  rewrite (bind_run _ _ _ _ _ E2). apply record_outputs_run in E2 as (ps & n & E2 & _).
  assert ((mfor (snapshots_of id (pp_outputs plan) shares) snapshot_share d2).1 = Ok tt) as H3.
  { apply snapshots_ok. intros s Hin. unfold snapshots_of in Hin.
    apply list_elem_of_In, in_flat_map in Hin as (o & _ & Hin).
    apply in_map_iff in Hin as (e & <- & Hin). apply filter_In in Hin as [Hin _].
    apply list_elem_of_In, He in Hin as (? & ? & ?).
    rewrite E2. simpl. split_and!; [done|done|by apply has_id_spec..]. }
  destruct (mfor _ _ d2) as [r d3] eqn:E3. simpl in H3. subst r. rewrite (bind_run _ _ _ _ _ E3).
  destruct (carry_dust_run (pp_outputs plan) d3 Hs) as (H4 & _).
  destruct (carry_dust _ d3) as [r d4] eqn:E4. simpl in H4. subst r.
  by rewrite (bind_run _ _ _ _ _ E4).
Qed.

(** The creation succeeds when nothing stands in its way. *)
Lemma create_payout_ok b pp d :
  db_wf d → select_found_at d (fb_block_hash b) ≠ None →
  count_existing d (fb_block_hash b) = 0 → fb_round_id b ∈ tids r_id (rounds d) →
  is_ok (create_payout_for_found_block b pp d).1 = true.
Proof.
  intros Hwf Hfa Hc Hr. unfold create_payout_for_found_block. rewrite bind_query.
  destruct (select_found_at d (fb_block_hash b)) as [fa|]; [|done]. cbn [ok_or].
  rewrite !bind_query, Hc. cbn [Z.ltb Z.compare]. rewrite transaction_is_ok.
  assert (∀ e, e ∈ calculate_pplns_window d fa (n_multiplier pp) (block_difficulty b) →
    e ∈ pplns_eligible d fa) as Hel by (intros e; apply pplns_window_subset).
  apply write_batch_ok; [by apply retry_key_fresh|done|apply plan_sorted| |].
  - intros o (s & Hs & _ & <-)%plan_workers. by apply (pplns_eligible_rows d fa), Hel.
  - intros e He. by apply Hel, (pplns_eligible_rows d fa) in He as (? & ? & _ & ? & _).
Qed.

(** A payout can always be created when it should be:
    if the block's share was accepted as a block, the block's round exists and no
    batch exists for the block, the call returns a batch. *)
Theorem create_payout_succeeds b pp d :
  db_wf d → select_found_at d (fb_block_hash b) ≠ None →
  count_existing d (fb_block_hash b) = 0 → fb_round_id b ∈ tids r_id (rounds d) →
  is_ok (create_payout_for_found_block b pp d).1 = true.
Proof. apply create_payout_ok. Qed.
End Create.

(** ** A pool with one accepted block *)

#[export] Instance example_hashing : Hashing := {|
  hex_decode s := if String.eqb s "00ff" then Some (repeat x00 32) else None;
  target_to_difficulty _ := Some (f64_of_Z 2);
|}.

Definition example_params : PayoutParams := mkPayoutParams 100 None 546 (f64_of_Z 2).

(** Two shares of two miners; the second is the block [00aa]. *)
Definition example_pool : Db :=
  let d0 := fresh_db "2026-05-20 12:00:00" in
  let d1 := (record_share (mkShareSubmission "lotus_a" (Some "r"%string) "s1" "j1" 17 1 "01" "00"
              "01" "0a" (f64_of_Z 1) "accepted" None true false None) d0).2 in
  let d2 := (record_share (mkShareSubmission "lotus_b" (Some "r"%string) "s2" "j1" 17 1 "02" "00"
              "01" "0b" (f64_of_Z 3) "accepted" None true true (Some "00aa"%string)) d1).2 in
  (svc_record_found_block 1 "00aa" 100 (Some 2) (Some 17) None 260000000 "00ff" d2).2.

Definition example_block : FoundBlock :=
  mkFoundBlock 1 1 "00aa" 100 "immature" (Some 2) (Some 17) None None None 260000000 None "00ff".

Lemma example_pool_wf : db_wf example_pool.
Proof.
  unfold example_pool. apply svc_record_found_block_wf. do 2 apply record_share_wf.
  apply fresh_db_wf.
Qed.

Lemma create_payout_atomic_witness :
  (create_payout_for_found_block example_block example_params (fresh_db "x")).2 = fresh_db "x".
Proof. apply (create_payout_atomic example_block example_params (fresh_db "x")). reflexivity. Defined.

Lemma create_payout_spec_witness :
  let d' := (create_payout_for_found_block example_block example_params example_pool).2 in
  map (λ o, (po_payout_address o, po_amount o))
    (map output_of_payout (get_payouts_by_batch d' 1)) =
  [("lotus_a"%string, 32175000); ("lotus_b"%string, 96525000)].
Proof.
  intros d'.
  destruct (create_payout_spec example_block example_params example_pool 1 d' example_pool_wf)
    as (fa & Hfa & _ & Hout & _).
  - vm_compute. reflexivity.
  - rewrite Hout. vm_compute in Hfa. injection Hfa as <-. vm_compute. reflexivity.
Defined.

Lemma create_payout_once_witness :
  let d' := (create_payout_for_found_block example_block example_params example_pool).2 in
  is_ok (create_payout_for_found_block example_block example_params d').1 = false.
Proof.
  intros d'. apply (create_payout_once example_block example_params example_pool 1 d').
  - vm_compute. reflexivity.
  - reflexivity.
  - reflexivity.
Defined.

Lemma create_payout_succeeds_witness :
  is_ok (create_payout_for_found_block example_block example_params example_pool).1 = true.
Proof.
  apply (create_payout_succeeds example_block example_params example_pool example_pool_wf).
  - vm_compute. discriminate.
  - vm_compute. reflexivity.
  - vm_compute. left.
Defined.
