(* ===== verification/PayoutSubmission.v ===== *)
(** What signing, submitting and confirming payouts does to the batches:
    theorems about [process_pending_payouts], [rebuild_payout_plan_for_batch],
    [reconcile_submitted_payouts] and the dust balances. *)
From Stdlib Require Import ZArith Lia String Sorted.
From stdpp Require Import base option list numbers strings sets gmap.
From S2P Require Import Prelude Text Float64 Json Db VarDiff WorkerRepository AccountingEventRepository RoundRepository ShareRepository FoundBlockRepository PayoutRepository Frames Pplns Plan AccountingService PayoutService.
#[local] Open Scope Z_scope.

(** * Processing pending batches *)

Definition batch_rows (d : Db) : list PayoutBatch := rows (payout_batches d).

Lemma add_to_dust_balance_same {T} (view : Db → T) a v :
  (∀ d t, view (set_dust_balances d t) = view d) → Keeps (Same view) (add_to_dust_balance a v).
Proof.
  intros H d. unfold add_to_dust_balance, stmt, Same. destruct (existsb _ _); apply H.
Qed.
#[export] Hint Resolve add_to_dust_balance_same : keeps.

Lemma carry_dust_same {T} (view : Db → T) o :
  (∀ d t, view (set_dust_balances d t) = view d) → Keeps (Same view) (carry_dust o).
Proof. intros H. unfold carry_dust. keeps. Qed.
Lemma record_outputs_same {T} (view : Db → T) b o :
  (∀ d t, view (set_payouts d t) = view d) → Keeps (Same view) (record_outputs b o).
Proof. intros H. unfold record_outputs. keeps. Qed.
#[export] Hint Resolve carry_dust_same record_outputs_same : keeps.

Section Submit.
Context {so : SqlOrder} {hashing : Hashing}.

Lemma rebuild_batches_same i pp : Keeps (Same batch_rows) (rebuild_payout_plan_for_batch i pp).
Proof. unfold rebuild_payout_plan_for_batch. keeps. apply Keeps_transaction; keeps. Qed.
#[local] Hint Resolve rebuild_batches_same : keeps.

Lemma resolve_coinbase_txid_same env b : Keeps (Same batch_rows) (resolve_coinbase_txid env b).
Proof. unfold resolve_coinbase_txid. keeps. Qed.
Lemma batch_outputs_same b pp : Keeps (Same batch_rows) (batch_outputs b pp).
Proof. unfold batch_outputs. keeps. Qed.

(** The signer accepted a transaction for this batch. *)
Definition signed_for (env : PayoutEnv) (batch : PayoutBatch) (txid : string) : Prop :=
  ∃ fb outs cb_txid cb, sign_and_submit env (signed_data batch fb outs cb_txid cb) = Ok txid.

(** One batch: nothing happens to the batches, or the signer accepted this one
    and it is marked as submitted under the signer's id. *)
Lemma process_batch_effect env pp x d r d' :
  process_batch env pp x d = (r, d') →
  batch_rows d' = batch_rows d ∨
  ∃ txid, signed_for env x txid ∧
    batch_rows d' = map (λ b, if pb_id b =? pb_id x then with_batch_status "submitted" (Some txid) b
                              else b) (batch_rows d).
Proof.
  unfold process_batch. rewrite bind_query.
  destruct (get_by_round_id d (pb_round_id x)) as [[fb|]|?|]; [|intros [= _ <-]; by left..].
  pose proof (resolve_coinbase_txid_same env fb d) as H1. unfold Same in H1.
  unfold mbind at 1, M_bind at 1.
  destruct (resolve_coinbase_txid env fb d) as [[[txid|]|?|] d1]; simpl in H1;
    [|intros [= _ <-]; by left..].
  unfold mbind at 1, M_bind at 1, mtry at 1, mlift at 1.
  destruct (rpc_get_raw_transaction env txid) as [raw|?|]; [|intros [= _ <-]; by left..].
  destruct (coinbase_output_of raw) as [cb|]; [|intros [= _ <-]; by left].
  pose proof (batch_outputs_same x pp d1) as H2. unfold Same in H2.
  unfold mbind at 1, M_bind at 1.
  destruct (batch_outputs x pp d1) as [[[outs|]|?|] d2]; simpl in H2;
    [|intros [= _ <-]; left; congruence..].
  unfold mbind at 1, M_bind at 1, mtry at 1, mlift at 1.
  destruct (sign_and_submit _ _) as [id|?|] eqn:Es; [|intros [= _ <-]; left; congruence..].
  intros H. right. exists id. split; [by exists fb, outs, txid, cb|].
  apply (f_equal snd) in H. rewrite mignore_snd in H. simpl in H. subst d'.
  unfold batch_rows in *. simpl. by rewrite H2, H1.
Qed.

(** A batch after processing: untouched, or, if it is one of [xs], submitted
    under an id that the signer returned for it. *)
Definition processed (env : PayoutEnv) (xs : list PayoutBatch) (b b' : PayoutBatch) : Prop :=
  b' = b ∨ ∃ txid, b ∈ xs ∧ signed_for env b txid ∧
                   b' = with_batch_status "submitted" (Some txid) b.

Lemma Forall2_refl_sub {A} (R : A → A → Prop) l : (∀ x, R x x) → Forall2 R l l.
Proof. intros H. induction l; by constructor. Qed.

(** One turn, as a map over the batches that touches one of them at most. *)
Lemma process_batch_map env pp x d :
  NoDup (map pb_id (batch_rows d)) → x ∈ batch_rows d →
  ∃ g, batch_rows (process_batch env pp x d).2 = map g (batch_rows d) ∧
    ∀ b, b ∈ batch_rows d →
      processed env [x] b (g b) ∧ pb_id (g b) = pb_id b ∧ (pb_id b ≠ pb_id x → g b = b).
Proof.
  intros Hd Hx. destruct (process_batch env pp x d) as [r d1] eqn:E. simpl.
  apply process_batch_effect in E as [E|(txid & Hs & E)].
  - exists (λ b, b). rewrite map_id. split; [done|]. intros b _. split_and!; [by left|done|done].
  - eexists. split; [exact E|]. intros b Hb. simpl.
    destruct (Z.eqb_spec (pb_id b) (pb_id x)) as [Heq|Hne]; [|split_and!; [by left|done|done]].
    split_and!; [|done|done]. right. exists txid.
    assert (b = x) as ->; [|split_and!; [set_solver|done|done]].
    pose proof (find_by_key pb_id (λ _, true) _ b Hd Hb) as H1.
    pose proof (find_by_key pb_id (λ _, true) _ x Hd Hx) as H2. rewrite Heq in H1. congruence.
Qed.

Lemma Forall2_map_r {A} (R : A → A → Prop) g l : (∀ x, x ∈ l → R x (g x)) → Forall2 R l (map g l).
Proof.
  induction l as [|x l IH]; intros H; constructor; [apply H; set_solver|].
  apply IH. intros; apply H; set_solver.
Qed.

Lemma process_loop_effect env pp xs d :
  NoDup (map pb_id xs) → NoDup (map pb_id (batch_rows d)) →
  (∀ x, x ∈ xs → x ∈ batch_rows d) →
  Forall2 (processed env xs) (batch_rows d) (batch_rows (mfor xs (process_batch env pp) d).2).
Proof.
  revert d. induction xs as [|x xs IH]; intros d Hx Hd Hin; simpl.
  { apply Forall2_refl_sub. intros b. by left. }
  simpl in Hx. apply NoDup_cons in Hx as [Hx Hxs].
  destruct (process_batch_map env pp x d Hd ltac:(apply Hin; set_solver)) as (g & Hg & Hgb).
  assert (Forall2 (processed env [x]) (batch_rows d) (batch_rows (process_batch env pp x d).2)) as H1.
  { rewrite Hg. apply Forall2_map_r. intros b Hb. by apply Hgb. }
  unfold mbind, M_bind. destruct (process_batch env pp x d) as [r d1]. simpl in Hg, H1.
  destruct r as [[]|?|]; simpl.
  2,3: eapply Forall2_impl; [exact H1|]; intros b b' [->|(t & Ht & ?)]; [by left|];
       right; exists t; (split; [set_solver|done]).
  assert (∀ y, y ∈ xs → y ∈ batch_rows d1) as Hin1.
  { intros y Hy. rewrite Hg. assert (y ∈ batch_rows d) as Hyd by (apply Hin; set_solver).
    destruct (Hgb y Hyd) as (_ & _ & Hk). apply elem_of_map. exists y. split; [|done].
    symmetry. apply Hk. intros E'. apply Hx. rewrite <-E'. apply elem_of_map. eauto. }
  assert (NoDup (map pb_id (batch_rows d1))) as Hd1.
  { rewrite Hg, map_map. erewrite list_map_ext_elem; [exact Hd|]. intros b Hb. by apply Hgb. }
  eapply Forall2_trans; [|exact H1|exact (IH d1 Hxs Hd1 Hin1)].
  intros b b1 b2 [->|(t & Ht & Hs & ->)] [->|(t2 & Ht2 & Hs2 & ->)].
  - by left.
  - right. exists t2. split_and!; [apply elem_of_cons; auto|done|done].
  - right. exists t. apply list_elem_of_singleton in Ht as ->. split_and!; [by left|done|done].
  - exfalso. apply Hx. apply list_elem_of_singleton in Ht as ->.
    apply elem_of_map. eexists. split; [|exact Ht2]. done.
Qed.

(** C12: money moves only through the signer. After
    processing, every batch is as it was, or it was pending, the signer accepted
    a transaction built from this batch, and it is now submitted under the id
    that the signer returned. In particular a batch that was submitted or
    confirmed is never signed again. This holds whatever the node answers, and
    also when processing stops with an error or a panic. *)
Theorem process_pending_only_signed env pp d :
  db_wf d →
  Forall2 (λ b b', b' = b ∨
      pb_status b = "pending"%string ∧
      ∃ fb outs cb_txid cb txid,
        sign_and_submit env (signed_data b fb outs cb_txid cb) = Ok txid ∧
        b' = with_batch_status "submitted" (Some txid) b)
    (batch_rows d) (batch_rows (process_pending_payouts env pp d).2).
Proof.
  intros Hwf. unfold process_pending_payouts. rewrite bind_query.
  assert (NoDup (map pb_id (batch_rows d))) as Hd by apply StronglySorted_lt_NoDup, Hwf.
  assert (∀ x, x ∈ list_batches d (Some "pending"%string) →
    x ∈ batch_rows d ∧ pb_status x = "pending"%string) as Hp.
  { intros x Hx. unfold list_batches in Hx. rewrite list_elem_of_In, <-in_rev, filter_In in Hx.
    destruct Hx as [Hx Hs%String.eqb_eq]. by rewrite <-list_elem_of_In in Hx. }
  eapply Forall2_impl; [apply (process_loop_effect env pp (list_batches d (Some "pending"%string)))|].
  - unfold list_batches. rewrite map_rev. apply NoDup_rev_2, NoDup_filter_map, Hd.
  - done.
  - intros x Hx. by apply Hp.
  - intros b b' [->|(txid & Hb & (fb & outs & ct & cb & Hs) & ->)]; [by left|right].
    split; [by apply Hp|]. by exists fb, outs, ct, cb, txid.
Qed.
End Submit.

(** A node that knows the coinbase of the example block, and a signer. *)
Definition example_env : PayoutEnv := mkPayoutEnv
  (λ _, Ok (Object [("tx"%string, Array [Str "cb01"])]))
  (λ _, Ok (Object [("vout"%string, Array [
     Object [("value"%string, Number (PosInt 0));
             ("scriptPubKey"%string, Object [("type"%string, Str "nulldata")])];
     Object [("value"%string, Number (PosInt 130));
             ("scriptPubKey"%string, Object [("hex"%string, Str "76a9")])]])]))
  (λ data, if String.eqb (sb_coinbase_txid data) "cb01" then Ok "paytx"%string
           else Err (Anyhow "unknown")).

Definition example_pending : Db :=
  (create_payout_for_found_block example_block example_params example_pool).2.

Lemma example_pending_wf : db_wf example_pending.
Proof. unfold example_pending. apply create_payout_wf, example_pool_wf. Qed.

Lemma process_pending_only_signed_witness :
  map (λ b, (pb_status b, pb_submitted_txid b))
    (batch_rows (process_pending_payouts example_env example_params example_pending).2) =
    [("submitted"%string, Some "paytx"%string)] ∧
  Forall2 (λ b b', b' = b ∨ pb_status b = "pending"%string) (batch_rows example_pending)
    (batch_rows (process_pending_payouts example_env example_params example_pending).2).
Proof.
  split; [vm_compute; reflexivity|].
  eapply Forall2_impl; [apply (process_pending_only_signed example_env example_params example_pending
    example_pending_wf)|].
  intros b b' [->|[-> _]]; auto.
Defined.

(** * Rebuilding the payouts of a batch *)

Section Rebuild.
Context {so : SqlOrder} {hashing : Hashing}.

Lemma delete_payouts_run i d :
  delete_payouts_by_batch i d =
    (Ok tt, set_payouts d (delete_rows (λ p, p_batch_id p =? i) (payouts d))).
Proof. done. Qed.

Lemma filter_deleted (i j : Z) l :
  i ≠ j →
  List.filter (λ p, p_batch_id p =? j) (List.filter (λ p, negb (p_batch_id p =? i)) l) =
  List.filter (λ p, p_batch_id p =? j) l.
Proof.
  intros Hne. induction l as [|p l IH]; [done|]. simpl.
  destruct (Z.eqb_spec (p_batch_id p) i) as [E|E]; simpl.
  - by rewrite (proj2 (Z.eqb_neq (p_batch_id p) j)) by congruence.
  - by rewrite IH.
Qed.

(** Rebuilding works on a pending batch only, and
    replaces its payouts: afterwards the payouts of the batch are exactly the
    outputs that it returns, there is at least one, the payouts of other batches
    and all batches are unchanged. *)
Theorem rebuild_replaces_payouts batch_id pp d outs d' :
  rebuild_payout_plan_for_batch batch_id pp d = (Ok outs, d') →
  (∃ batch, get_batch_by_id d batch_id = Some batch ∧ pb_status batch = "pending"%string) ∧
  outs ≠ [] ∧ map output_of_payout (get_payouts_by_batch d' batch_id) = outs ∧
  (∀ i, i ≠ batch_id → get_payouts_by_batch d' i = get_payouts_by_batch d i) ∧
  batch_rows d' = batch_rows d.
Proof.
  intros Hr. pose proof (rebuild_batches_same batch_id pp d) as Hsame.
  unfold Same in Hsame. rewrite Hr in Hsame. revert Hr.
  unfold rebuild_payout_plan_for_batch. rewrite bind_query.
  destruct (get_batch_by_id d batch_id) as [batch|]; [|done]. cbn [ok_or].
  destruct (String.eqb_spec (pb_status batch) "pending") as [Hst|]; [|done]. cbn [negb].
  rewrite bind_query. destruct (get_by_round_id d (pb_round_id batch)) as [fb|?|]; [|done..].
  unfold mbind at 1, M_bind at 1, mlift at 1. destruct fb as [fb|]; [|done]. cbn [ok_or].
  rewrite bind_query. destruct (select_found_at d (fb_block_hash fb)) as [fa|]; [|done]. cbn [ok_or].
  rewrite bind_query. set (shares := calculate_pplns_window _ _ _ _).
  destruct (bool_decide (shares = [])); [done|]. rewrite bind_query.
  set (plan := plan_for _ _ _ _).
  destruct (bool_decide_reflect (pp_outputs plan = [])) as [|Hne]; [done|].
  rewrite transaction_ok. rewrite (bind_run _ _ _ _ _ (delete_payouts_run _ _)).
  intros H. apply bind_ok in H as ([] & d2 & H2 & H). apply bind_ok in H as ([] & d3 & H3 & H).
  apply bind_ok in H as ([] & d4 & H4 & H). apply bind_ok in H as ([] & d5 & H5 & H).
  injection H as <- <-.
  assert (payouts d5 = payouts d3) as Hp.
  { pose proof (carry_dust_same payouts (pp_outputs plan) ltac:(done) d4) as Hc.
    rewrite H5 in Hc. unfold Same in Hc. simpl in Hc. rewrite Hc.
    apply snapshots_run in H4 as (ss & n & -> & _). done. }
  assert (payouts d2 = delete_rows (λ p, p_batch_id p =? batch_id) (payouts d)) as Hp2.
  { revert H2. unfold delete_snapshots_by_batch, stmt. by intros [= <-]. }
  apply record_outputs_run in H3 as (ps & n & -> & Hout & Hbid). simpl in Hp. rewrite Hp2 in Hp.
  unfold delete_rows in Hp. simpl in Hp.
  split_and!; [eauto|done| | |done].
  - unfold get_payouts_by_batch. rewrite Hp. simpl.
    rewrite fresh_batch_filter; [done| |done]. apply Forall_forall.
    intros p [_ Hn]%elem_of_filter_b E. by rewrite E, Z.eqb_refl in Hn.
  - intros i Hi. unfold get_payouts_by_batch. rewrite Hp. simpl. rewrite List.filter_app, filter_deleted by done.
    assert (List.filter (λ p, p_batch_id p =? i) ps = []) as ->; [|by rewrite app_nil_r].
    clear -Hbid Hi. induction Hbid as [|p ps Hp _ IH]; [done|]. simpl.
    by rewrite (proj2 (Z.eqb_neq _ _)) by congruence.
Qed.
End Rebuild.

Lemma rebuild_replaces_payouts_witness :
  let d := (delete_payouts_by_batch 1 example_pending).2 in
  let d' := (rebuild_payout_plan_for_batch 1 example_params d).2 in
  get_payouts_by_batch d 1 = [] ∧
  map po_payout_address (map output_of_payout (get_payouts_by_batch d' 1)) =
    ["lotus_a"; "lotus_b"]%string.
Proof.
  intros d d'. split; [vm_compute; reflexivity|].
  destruct (rebuild_replaces_payouts 1 example_params d
    [mkPayoutOutput "lotus_a" 1 32175000 0; mkPayoutOutput "lotus_b" 2 96525000 0] d')
    as (_ & _ & -> & _); [vm_compute; reflexivity|reflexivity].
Defined.

(** * Dust is only ever added *)

Definition dust_rel (d d' : Db) : Prop := ∀ a, dust_balance d a ≤ dust_balance d' a.
#[export] Instance dust_rel_preorder : PreOrder dust_rel.
Proof. split; [by intros d a|]. intros d1 d2 d3 H1 H2 a. etrans; eauto. Qed.

Lemma Same_dust d d' : Same dust_balances d d' → dust_rel d d'.
Proof. unfold Same, dust_rel, dust_balance. by intros -> a. Qed.

Lemma add_to_dust_balance_dust a v : 0 ≤ v → Keeps dust_rel (add_to_dust_balance a v).
Proof.
  intros Hv d x. destruct (add_to_dust_balance_run a v d) as (_ & _ & ->).
  destruct (String.eqb a x); lia.
Qed.

#[export] Hint Extern 5 (Keeps dust_rel _) =>
  apply (Keeps_impl (Same dust_balances)); [exact Same_dust|solve [eauto 3 with keeps]] : keeps.

Lemma carry_dust_dust o : Keeps dust_rel (carry_dust o).
Proof.
  unfold carry_dust. apply Keeps_for; [typeclasses eauto|]. intros [a v]. simpl.
  destruct (Z.ltb_spec 0 v); [apply add_to_dust_balance_dust; lia|keeps].
Qed.
#[export] Hint Resolve carry_dust_dust : keeps.

Section Dust.
Context {so : SqlOrder} {hashing : Hashing}.

Lemma create_payout_dust b pp : Keeps dust_rel (create_payout_for_found_block b pp).
Proof.
  unfold create_payout_for_found_block, write_batch. keeps. apply Keeps_transaction; keeps.
Qed.
Lemma rebuild_payout_dust i pp : Keeps dust_rel (rebuild_payout_plan_for_batch i pp).
Proof. unfold rebuild_payout_plan_for_batch. keeps. apply Keeps_transaction; keeps. Qed.
#[local] Hint Resolve rebuild_payout_dust : keeps.
Lemma process_pending_payouts_dust env pp : Keeps dust_rel (process_pending_payouts env pp).
Proof.
  unfold process_pending_payouts, process_batch, resolve_coinbase_txid, batch_outputs. keeps.
Qed.
End Dust.
#[export] Hint Resolve create_payout_dust rebuild_payout_dust process_pending_payouts_dust : keeps.

(** * Confirming submitted batches *)

Section Confirm.
Context (check_tx : string → result (option Z)).

(** Whether the node counts a confirmation for the batch's transaction. *)
Definition confirmed (b : PayoutBatch) : bool :=
  match pb_submitted_txid b with
  | Some txid => match check_tx txid with Ok (Some n) => 0 <? n | _ => false end
  | None => false
  end.

Definition submitted (b : PayoutBatch) : bool := String.eqb (pb_status b) "submitted".

(** The block that a confirmed batch marks as paid: the latest of its round. *)
Definition paid_block (blocks : list FoundBlock) (round_id : Z) : option Z :=
  fb_id <$> last (List.filter (λ b, fb_round_id b =? round_id) blocks).

Definition pay_block (blocks : list FoundBlock) (round_id : Z) : list FoundBlock :=
  map (λ b, if bool_decide (paid_block blocks round_id = Some (fb_id b))
            then with_status "paid" b else b) blocks.

Lemma get_by_round_id_ok d r :
  blocks_ok d →
  get_by_round_id d r = Ok (last (List.filter (λ b, fb_round_id b =? r) (rows (found_blocks d)))).
Proof.
  intros Hd. unfold get_by_round_id. destruct (last _) as [b|] eqn:E; [|done].
  apply last_Some_elem_of, elem_of_filter_b in E as [E _].
  unfold blocks_ok in Hd. rewrite Forall_forall in Hd. apply Hd, read_block_id in E as [-> _]. done.
Qed.

Lemma confirm_batch_run x d :
  blocks_ok d →
  (confirm_batch x d).1 = Ok true ∧ blocks_ok (confirm_batch x d).2 ∧
  rows (payout_batches (confirm_batch x d).2) =
    map (λ b, if bool_decide (pb_id b = pb_id x)
              then with_batch_status "confirmed" (pb_submitted_txid b) b else b)
      (rows (payout_batches d)) ∧
  rows (found_blocks (confirm_batch x d).2) = pay_block (rows (found_blocks d)) (pb_round_id x).
Proof.
  intros Hd. unfold confirm_batch. unfold mbind, M_bind, mtry, query.
  set (d1 := (update_batch_status (pb_id x) "confirmed" d).2).
  change (update_batch_status (pb_id x) "confirmed" d) with (Ok tt, d1). cbn [fst snd].
  rewrite get_by_round_id_ok by done. change (found_blocks d1) with (found_blocks d).
  assert (rows (payout_batches d1) = map (λ b, if bool_decide (pb_id b = pb_id x)
    then with_batch_status "confirmed" (pb_submitted_txid b) b else b) (rows (payout_batches d)))
    as Hb.
  { unfold d1, update_batch_status, update_batch, stmt. simpl. apply map_ext.
    intros b. by rewrite bool_decide_eqb_Z. }
  unfold pay_block, paid_block.
  destruct (last (List.filter (λ b, fb_round_id b =? pb_round_id x) (rows (found_blocks d))))
    as [fb|]; simpl.
  - split_and!; [done| |done|].
    + by apply (update_blocks_blocks (λ b, fb_id b =? fb_id fb) (λ _, with_status "paid")
        ltac:(done) d1).
    + apply map_ext. intros b. rewrite bool_decide_eqb_Z.
      do 2 case_bool_decide; congruence.
  - split_and!; [done|done|done|]. rewrite <-(map_id (rows (found_blocks d))) at 1.
    apply map_ext. intros b. done.
Qed.

Lemma paid_block_pay l r r' : paid_block (pay_block l r') r = paid_block l r.
Proof.
  unfold paid_block at 1, pay_block.
  set (f := λ b, if bool_decide _ then _ else b).
  assert (∀ b, fb_round_id (f b) = fb_round_id b) as H1 by (intros b; unfold f; by case_bool_decide).
  assert (∀ b, fb_id (f b) = fb_id b) as H2 by (intros b; unfold f; by case_bool_decide).
  assert (∀ k, List.filter (λ b, fb_round_id b =? r) (map f k) =
    map f (List.filter (λ b, fb_round_id b =? r) k)) as ->.
  { induction k as [|b k IH]; [done|]. simpl. rewrite H1. destruct (_ =? _); simpl; by rewrite IH. }
  unfold paid_block. generalize (List.filter (λ b, fb_round_id b =? r) l). intros k.
  change (map f k) with (f <$> k). rewrite fmap_last. destruct (last k); simpl; by rewrite ?H2.
Qed.

(** Paying the blocks of a list of rounds. *)
Lemma pay_blocks_loop (p : PayoutBatch → bool) xs l :
  foldl (λ l x, if p x then pay_block l (pb_round_id x) else l) l xs =
  map (λ b, if existsb (λ x, p x && bool_decide (paid_block l (pb_round_id x) = Some (fb_id b))) xs
            then with_status "paid" b else b) l.
Proof.
  revert l. induction xs as [|x xs IH]; intros l; simpl; [by rewrite map_id|].
  rewrite IH. destruct (p x); simpl; [|done].
  transitivity (map (λ b, if existsb (λ y, p y && bool_decide
      (paid_block l (pb_round_id y) = Some (fb_id b))) xs then with_status "paid" b else b)
    (pay_block l (pb_round_id x))).
  { apply map_ext. intros b. erewrite existsb_ext; [reflexivity|]. intros y.
    by rewrite paid_block_pay. }
  unfold pay_block. rewrite map_map. apply map_ext. intros b.
  case_bool_decide; simpl; [|done]. by destruct (existsb _ xs).
Qed.

(** What the loop answers and what it does to the batches and the blocks. *)
Lemma reconcile_loop_run xs d :
  (∀ t, check_tx t ≠ Panic) → blocks_ok d →
  (reconcile_submitted_loop check_tx xs d).1 =
    Ok (map (λ b, (pb_id b, default EmptyString (pb_submitted_txid b), "confirmed"%string))
          (List.filter confirmed xs)) ∧
  rows (payout_batches (reconcile_submitted_loop check_tx xs d).2) =
    foldl (λ l x, map (λ b, if bool_decide (pb_id b = pb_id x)
        then (if confirmed x then with_batch_status "confirmed" (pb_submitted_txid b) b else b)
        else b) l) (rows (payout_batches d)) xs ∧
  rows (found_blocks (reconcile_submitted_loop check_tx xs d).2) =
    foldl (λ l x, if confirmed x then pay_block l (pb_round_id x) else l)
      (rows (found_blocks d)) xs.
Proof.
  intros Hp. revert d. induction xs as [|x xs IH]; intros d Hd; [done|]. simpl.
  assert (tx_confirmed check_tx x = Ok (confirmed x)) as Ec.
  { unfold tx_confirmed, confirmed. destruct (pb_submitted_txid x) as [t|]; [|done].
    specialize (Hp t). by destruct (check_tx t) as [[]|?|]. }
  unfold mbind at 1 3 5, M_bind at 1 3 5. unfold mlift. rewrite Ec.
  destruct (confirmed x).
  - destruct (confirm_batch_run x d Hd) as (H1 & H2 & H3 & H4).
    unfold mbind, M_bind. destruct (confirm_batch x d) as [r d1]. simpl in H1, H2, H3, H4. subst r.
    destruct (IH d1 H2) as (H5 & H6 & H7). rewrite <-H3, <-H4.
    destruct (reconcile_submitted_loop check_tx xs d1) as [r d2]. simpl in *. subst r. done.
  - unfold mbind, M_bind, mret, M_ret. destruct (IH d Hd) as (H5 & H6 & H7).
    destruct (reconcile_submitted_loop check_tx xs d) as [r d2]. simpl in *. subst r.
    split_and!; [done| |done]. etransitivity; [exact H6|]. f_equal.
    rewrite <-(map_id (rows (payout_batches d))) at 1. apply map_ext. intros b.
    by case_bool_decide.
Qed.

(** The batches and the blocks after the reconciliation. *)
Lemma reconcile_rows d :
  db_wf d → blocks_ok d → (∀ t, check_tx t ≠ Panic) →
  let done_ b := submitted b && confirmed b in
  rows (payout_batches (reconcile_submitted_payouts check_tx d).2) =
    map (λ b, if done_ b then with_batch_status "confirmed" (pb_submitted_txid b) b else b)
      (rows (payout_batches d)) ∧
  rows (found_blocks (reconcile_submitted_payouts check_tx d).2) =
    map (λ fb, if existsb (λ b, done_ b &&
                   bool_decide (paid_block (rows (found_blocks d)) (pb_round_id b) = Some (fb_id fb)))
                 (rows (payout_batches d))
               then with_status "paid" fb else fb) (rows (found_blocks d)).
Proof.
  intros Hwf Hd Hp done_. unfold reconcile_submitted_payouts. rewrite bind_query.
  unfold list_batches. fold submitted. set (l := rows (payout_batches d)).
  destruct (reconcile_loop_run (rev (List.filter submitted l)) d Hp Hd) as (_ & H2 & H3).
  split.
  - rewrite H2. fold l. rewrite (update_selected_loop pb_id submitted (λ x b,
      if confirmed x then with_batch_status "confirmed" (pb_submitted_txid b) b else b)).
    + apply map_ext. intros b. unfold done_. by destruct (submitted b).
    + apply StronglySorted_lt_NoDup, Hwf.
    + intros x b. by destruct (confirmed x).
  - rewrite H3, pay_blocks_loop. apply map_ext. intros fb.
    rewrite existsb_rev, existsb_filter. erewrite existsb_ext; [reflexivity|].
    intros b. unfold done_. by rewrite andb_assoc.
Qed.

(** C31: at startup exactly the submitted batches whose
    transaction has at least one confirmation become confirmed, the latest block
    of each of their rounds becomes paid, nothing else changes among batches and
    blocks, and the confirmed batches are reported newest first. A transaction
    in the mempool, unknown to the node or not answered for leaves its batch
    submitted. *)
Theorem reconcile_submitted_spec d :
  db_wf d → blocks_ok d → (∀ t, check_tx t ≠ Panic) →
  let done_ b := submitted b && confirmed b in
  let '(r, d') := reconcile_submitted_payouts check_tx d in
  r = Ok (map (λ b, (pb_id b, default EmptyString (pb_submitted_txid b), "confirmed"%string))
            (rev (List.filter done_ (rows (payout_batches d))))) ∧
  rows (payout_batches d') =
    map (λ b, if done_ b then with_batch_status "confirmed" (pb_submitted_txid b) b else b)
      (rows (payout_batches d)) ∧
  rows (found_blocks d') =
    map (λ fb, if existsb (λ b, done_ b &&
                   bool_decide (paid_block (rows (found_blocks d)) (pb_round_id b) = Some (fb_id fb)))
                 (rows (payout_batches d))
               then with_status "paid" fb else fb) (rows (found_blocks d)).
Proof.
  intros Hwf Hd Hp done_. destruct (reconcile_rows d Hwf Hd Hp) as [H2 H3].
  assert ((reconcile_submitted_payouts check_tx d).1 =
    Ok (map (λ b, (pb_id b, default EmptyString (pb_submitted_txid b), "confirmed"%string))
      (rev (List.filter done_ (rows (payout_batches d)))))) as H1.
  { unfold reconcile_submitted_payouts. rewrite bind_query. unfold list_batches. fold submitted.
    destruct (reconcile_loop_run (rev (List.filter submitted (rows (payout_batches d)))) d Hp Hd)
      as (-> & _). by rewrite List.filter_rev, <-filter_and. }
  by destruct (reconcile_submitted_payouts check_tx d) as [r d'].
Qed.
End Confirm.

Definition example_submitted : Db :=
  (process_pending_payouts example_env example_params example_pending).2.

Lemma example_submitted_ok : blocks_ok example_submitted.
Proof.
  unfold blocks_ok. eval_rows (rows (found_blocks example_submitted)).
  apply Forall_cons_2; [|apply Forall_nil_2].
  split; [simpl; unfold i64_max; lia|intros t [= <-]; unfold i64_max; lia].
Qed.

Lemma reconcile_submitted_spec_witness :
  let check t := if String.eqb t "paytx" then Ok (Some 3) else Ok None in
  let d' := (reconcile_submitted_payouts check example_submitted).2 in
  map pb_status (rows (payout_batches d')) = ["confirmed"%string] ∧
  map fb_status (rows (found_blocks d')) = ["paid"%string].
Proof.
  intros check d'. unfold d'.
  pose proof (reconcile_submitted_spec check example_submitted) as H.
  destruct (reconcile_submitted_payouts check example_submitted) as [r d2].
  destruct H as (_ & H1 & H2).
  - apply process_pending_payouts_wf, example_pending_wf.
  - exact example_submitted_ok.
  - intros t. unfold check. by destruct (String.eqb t "paytx").
  - simpl. rewrite H1, H2. split; vm_compute; reflexivity.
Defined.
