(* ===== verification/AccountingSystem.v ===== *)
(** The accounting database over the life of the pool: a step is one call of
    the accounting service, of any kind and with any arguments of its types, or
    the passing of time. What holds in a fresh database and is kept by every
    step holds in every reachable one. *)
From Stdlib Require Import ZArith Lia String Ascii Sorted.
From stdpp Require Import base option list numbers strings sets gmap.
From S2P Require Import Prelude Text Float64 Json Db VarDiff WorkerRepository AccountingEventRepository RoundRepository ShareRepository FoundBlockRepository PayoutRepository Frames Pplns Plan AccountingService PayoutService PayoutSubmission.
#[local] Open Scope Z_scope.

Definition set_clock (d : Db) (now : string) : Db :=
  mkDb (workers d) (authorization_events d) (shares d) (share_outcomes d) (rounds d)
    (accounting_events d) (found_blocks d) (payout_batches d) (payouts d)
    (payout_share_snapshots d) (dust_balances d) now.

(** Unfold an operation of the service to its statements. *)
Ltac open_op :=
  unfold record_share, svc_record_event, svc_get_or_create_current_round,
    svc_resolve_round_for_template, svc_record_found_block,
    update_share_outcome_node_result, check_maturation, reconcile_found_blocks, reconcile_block,
    create_payout_for_found_block, write_batch, rebuild_payout_plan_for_batch,
    process_pending_payouts, process_batch, resolve_coinbase_txid, batch_outputs,
    reconcile_submitted_payouts, confirm_batch, svc_close_round, record_outputs, carry_dust.

Lemma reconcile_loop_keeps (R : Db → Db → Prop) `{!PreOrder R} c l :
  (∀ b, Keeps R (confirm_batch b)) → Keeps R (reconcile_submitted_loop c l).
Proof. intros H. induction l as [|b l IH]; simpl; keeps. Qed.

(** A relation that every statement keeps is kept by every step. *)
Ltac step_keeps R :=
  destruct 1; [first [by intros Hx|by split]|..];
  match goal with |- R ?d (?c ?d).2 => enough (Keeps R c) by auto end;
  open_op; keeps;
  try (apply Keeps_transaction; [typeclasses eauto|]; keeps);
  try (apply reconcile_loop_keeps; [typeclasses eauto|]; open_op; keeps).

Section System.
Context {so : SqlOrder} {hashing : Hashing}.

(** The statuses that the code closes a round with, and that it records a share with. *)
Definition closing (s : string) : bool := String.eqb s "found" || String.eqb s "orphaned".
Definition judged (s : string) : bool := String.eqb s "accepted" || String.eqb s "rejected".

(** One call of the service or of a repository by the server, the consumer, the payout
    handler, the API or [main], with the statuses that they write. *)
Inductive step (d : Db) : Db → Prop :=
  | step_tick now : step d (set_clock d now)
  | step_share a : judged (sub_status a) = true → step d (record_share a d).2
  | step_auth e : step d (insert_authorization_event e d).2
  | step_event e : step d (svc_record_event e d).2
  | step_current_round t : step d (svc_get_or_create_current_round t d).2
  | step_resolve t : step d (svc_resolve_round_for_template t d).2
  | step_close i e s : closing s = true → step d (svc_close_round i e s d).2
  | step_node_result k n : step d (update_share_outcome_node_result k n d).2
  | step_block r h n w t p v k :
      in_u64 v → (∀ z, t = Some z → in_u64 z) →
      step d (svc_record_found_block r h n w t p v k d).2
  | step_orphan h r : step d (mark_orphaned h r d).2
  | step_un_orphan h : step d (un_orphan h d).2
  | step_mark_matured i : step d (mark_matured i d).2
  | step_mature t m : step d (check_maturation t m d).2
  | step_reconcile_blocks t g : step d (reconcile_found_blocks t g d).2
  | step_create b pp : step d (create_payout_for_found_block b pp d).2
  | step_rebuild i pp : step d (rebuild_payout_plan_for_batch i pp d).2
  | step_process env pp : step d (process_pending_payouts env pp d).2
  | step_reconcile_payouts c : step d (reconcile_submitted_payouts c d).2
  | step_confirm_batch i : step d (update_batch_status i "confirmed" d).2
  | step_pay_block i : step d (update_status i "paid" d).2.

Inductive reachable (now : string) : Db → Prop :=
  | reachable_init : reachable now (fresh_db now)
  | reachable_step d d' : reachable now d → step d d' → reachable now d'.

(** ** Sequences of calls, for the clients of the service *)

#[export] Instance steps_preorder : PreOrder (rtc step).
Proof. split; red; intros; [reflexivity|etrans; eauto]. Qed.

Lemma reachable_steps now d d' : rtc step d d' → reachable now d → reachable now d'.
Proof. induction 1 as [|d1 d2 d3 H1 _ IH]; [done|]. intros. apply IH. by eapply reachable_step. Qed.

(** A start of the pool, with no database or with the one an earlier run left. *)
Lemma init_schema_reachable stored now :
  (∀ d, stored = Some d → reachable now d) → reachable now (init_schema stored now).
Proof. destruct stored as [d|]; intros H; [by apply H|apply reachable_init]. Qed.

Lemma call_steps {A} (m : DbM A) : (∀ d, step d (m d).2) → Keeps (rtc step) m.
Proof. intros H d. by apply rtc_once. Qed.
Lemma read_steps {A} (f : Db → result A) : Keeps (rtc step) (query f).
Proof. by intros d. Qed.

(** ** At most one open round *)

Lemma Same_one_open d d' : Same rounds d d' → one_open_rel d d'.
Proof. unfold Same, one_open_rel, one_open. by intros ->. Qed.
Lemma Same_blocks d d' : Same found_blocks d d' → blocks_rel d d'.
Proof. unfold Same, blocks_rel, blocks_ok. by intros ->. Qed.

Definition keyed_rel (d d' : Db) : Prop := keyed d → keyed d'.
#[export] Instance keyed_rel_preorder : PreOrder keyed_rel.
Proof. split; red; unfold keyed_rel; auto. Qed.
Lemma Same_keyed d d' : Same shares d d' → keyed_rel d d'.
Proof. unfold Same, keyed_rel, keyed. by intros ->. Qed.

#[local] Hint Extern 5 (Keeps one_open_rel _) =>
  apply (Keeps_impl (Same rounds)); [exact Same_one_open|solve [eauto 3 with keeps]] : keeps.
#[local] Hint Extern 5 (Keeps blocks_rel _) =>
  apply (Keeps_impl (Same found_blocks)); [exact Same_blocks|solve [eauto 3 with keeps]] : keeps.
#[local] Hint Extern 5 (Keeps keyed_rel _) =>
  apply (Keeps_impl (Same shares)); [exact Same_keyed|solve [eauto 3 with keeps]] : keeps.
#[local] Hint Extern 6 (Keeps blocks_rel _) =>
  apply update_blocks_blocks; done : keeps.

Lemma closing_open (s : string) : closing s = true → s ≠ "open"%string.
Proof. by intros H ->. Qed.
#[local] Hint Extern 4 (Keeps one_open_rel (close_round _ _ _)) =>
  apply close_round_one_open; apply closing_open; (assumption || done) : keeps.

Lemma step_wf d d' : step d d' → wf_rel d d'.
Proof.
  destruct 1; [by intros []; split|..];
  match goal with |- wf_rel ?d (?c ?d).2 => enough (Keeps wf_rel c) by auto end;
  unfold svc_record_event, update_share_outcome_node_result; eauto with keeps.
Qed.

Lemma step_one_open d d' : step d d' → one_open_rel d d'.
Proof. step_keeps one_open_rel. Qed.

#[local] Hint Resolve record_found_block_blocks : keeps.
Lemma step_blocks d d' : step d d' → blocks_rel d d'.
Proof. step_keeps blocks_rel. Qed.

Lemma insert_share_keyed a w : Keeps keyed_rel (insert_or_ignore_share (submission_share a w)).
Proof.
  unfold insert_or_ignore_share. keeps. intros d Hd. unfold stmt.
  destruct (_ || _); [done|]. destruct (has_id _ _ _); [|done].
  unfold keyed. simpl. apply Forall_app. split; [done|]. constructor; [|done].
  apply submission_key_worker.
Qed.
#[local] Hint Resolve insert_share_keyed : keeps.

Lemma insert_outcome_keyed i o : Keeps keyed_rel (insert_or_ignore_outcome i o).
Proof.
  apply (Keeps_impl (Same shares)); [exact Same_keyed|]. by apply insert_or_ignore_outcome_same.
Qed.
#[local] Hint Resolve insert_outcome_keyed : keeps.

Lemma insert_submission_keyed a w o :
  Keeps keyed_rel (insert_share_and_outcome_atomic (submission_share a w) o).
Proof.
  apply Keeps_transaction; [typeclasses eauto|]. unfold put_share, put_outcome. keeps.
Qed.
#[local] Hint Resolve insert_submission_keyed : keeps.

Lemma step_keyed d d' : step d d' → keyed_rel d d'.
Proof. step_keeps keyed_rel. Qed.

Lemma step_dust d d' : step d d' → dust_rel d d'.
Proof.
  destruct 1; [by intros x|..];
  match goal with |- dust_rel ?d (?c ?d).2 => enough (Keeps dust_rel c) by auto end;
  try solve [eauto 3 with keeps]; open_op; keeps;
  try (apply reconcile_loop_keeps; [typeclasses eauto|]; open_op; keeps).
Qed.

(** ** At most one batch per block *)

(** The block a batch pays: the part of its retry key before the last colon. *)
Definition batch_block (b : PayoutBatch) : option string :=
  key ← pb_retry_key b; fst <$> rsplit_at ":" key.

Definition blocks_paid (d : Db) : list string := omap batch_block (rows (payout_batches d)).

Definition keys_rel (d d' : Db) : Prop :=
  map pb_retry_key (rows (payout_batches d')) = map pb_retry_key (rows (payout_batches d)).
#[export] Instance keys_rel_preorder : PreOrder keys_rel.
Proof. split; red; unfold keys_rel; congruence. Qed.
Lemma Same_keys d d' : Same payout_batches d d' → keys_rel d d'.
Proof. unfold Same, keys_rel. by intros ->. Qed.

Lemma update_batch_keys i f :
  (∀ b, pb_retry_key (f b) = pb_retry_key b) → Keeps keys_rel (update_batch i f).
Proof.
  intros Hf d. unfold keys_rel, update_batch, stmt. simpl. rewrite map_map.
  apply map_ext. intros b. by destruct (_ =? _).
Qed.
#[local] Hint Extern 5 (Keeps keys_rel _) =>
  apply (Keeps_impl (Same payout_batches)); [exact Same_keys|solve [eauto 3 with keeps]] : keeps.
#[local] Hint Extern 4 (Keeps keys_rel (update_batch_status _ _)) =>
  apply update_batch_keys; done : keeps.
#[local] Hint Extern 4 (Keeps keys_rel (mark_batch_submitted _ _)) =>
  apply update_batch_keys; done : keeps.

Lemma omap_map {A B D} (g : A → B) (f : B → option D) (l : list A) :
  omap (λ x, f (g x)) l = omap f (map g l).
Proof. induction l as [|x l IH]; [done|]. csimpl. by rewrite IH. Qed.

Lemma blocks_paid_keys d d' : keys_rel d d' → blocks_paid d' = blocks_paid d.
Proof.
  unfold keys_rel, blocks_paid, batch_block. intros H.
  by rewrite !(omap_map pb_retry_key (λ k, key ← k; fst <$> rsplit_at ":" key)), H.
Qed.

(** The guard against a second batch sees the batch of a block. *)
Lemma blocks_paid_count d h : h ∈ blocks_paid d → 0 < count_existing d h.
Proof.
  intros (x & Hx & Hbx)%list_elem_of_omap.
  unfold batch_block in Hbx. destruct (pb_retry_key x) as [k|] eqn:Ek; [|done]. simpl in Hbx.
  destruct (rsplit_at ":" k) as [[l r]|] eqn:Er; [|done]. simplify_eq/=.
  apply rsplit_at_Some in Er. subst k.
  eapply count_existing_pos. apply elem_of_map. exists x. by rewrite Ek.
Qed.

(** A successful creation adds its block, a failed one adds nothing. *)
Lemma create_payout_found_blocks b pp d :
  found_blocks (create_payout_for_found_block b pp d).2 = found_blocks d.
Proof.
  pose proof (create_payout_rollback b pp d) as Hf.
  destruct (create_payout_for_found_block b pp d) as [[id|e|] d'] eqn:E; simpl in *;
    [|by rewrite Hf..].
  apply create_payout_run in E as (fa & _ & Hc & Hrun).
  apply write_batch_run in Hrun as (_ & _ & _ & _ & _ & _ & _ & _ & _ & _ & _ & _ & H); [|apply plan_sorted]. done.
Qed.

Lemma create_payout_blocks b pp d :
  let '(r, d') := create_payout_for_found_block b pp d in
  if is_ok r
  then blocks_paid d' = blocks_paid d ++ [fb_block_hash b] ∧ fb_block_hash b ∉ blocks_paid d
  else d' = d.
Proof.
  pose proof (create_payout_rollback b pp d) as Hf.
  destruct (create_payout_for_found_block b pp d) as [[id|e|] d'] eqn:E; simpl in *; [|by auto..].
  apply create_payout_run in E as (fa & _ & Hc & Hrun).
  apply write_batch_run in Hrun as (_ & Hb & _); [|apply plan_sorted].
  assert (batch_block (batch_row b (plan_for d pp b
      (calculate_pplns_window d fa (n_multiplier pp) (block_difficulty b))) id) =
    Some (fb_block_hash b)) as Hk.
  { unfold batch_block. simpl. change (":" ++ ?t)%string with (String ":" t).
    by rewrite rsplit_at_app by (apply show_u_no_char; [lia|done]). }
  split.
  - unfold blocks_paid. rewrite Hb, omap_app. f_equal. cbn [omap list_omap]. by rewrite Hk.
  - intros Hp%blocks_paid_count. lia.
Qed.

(** No other call of the service adds a batch or changes the block of one. *)
Lemma step_blocks_paid d d' :
  step d d' →
  blocks_paid d' = blocks_paid d ∨
  ∃ h, blocks_paid d' = blocks_paid d ++ [h] ∧ h ∉ blocks_paid d.
Proof.
  destruct 1;
    match goal with
    | |- context [create_payout_for_found_block ?b ?pp ?d] =>
        pose proof (create_payout_blocks b pp d) as H;
        destruct (create_payout_for_found_block b pp d) as [[] ?]; simpl in *;
        [right; eauto|left; congruence..]
    | |- blocks_paid (?c ?d).2 = _ ∨ _ =>
        left; enough (Keeps keys_rel c) as Hk by (by apply blocks_paid_keys)
    | _ => by left
    end;
    open_op; keeps;
    try (apply Keeps_transaction; [typeclasses eauto|]; keeps);
    try (apply reconcile_loop_keeps; [typeclasses eauto|]; open_op; keeps).
Qed.

Lemma process_blocks_paid env pp d :
  blocks_paid (process_pending_payouts env pp d).2 = blocks_paid d.
Proof.
  apply blocks_paid_keys. enough (Keeps keys_rel (process_pending_payouts env pp)) as H by apply H.
  open_op. keeps. apply Keeps_transaction; [typeclasses eauto|]. keeps.
Qed.

(** What the clients of the service need of a reachable database. *)
Lemma reachable_ok now d : reachable now d → db_wf d ∧ blocks_ok d.
Proof.
  induction 1 as [|d d' _ [H1 H2] Hs]; [split; [apply fresh_db_wf|constructor]|].
  split; [by apply (step_wf d)|by apply (step_blocks d)].
Qed.

(** C7: whatever calls the server, the consumer, the payout
    handler and the startup code make, and in whatever order, the database keeps
    every constraint of its schema, at most one round is open, every stored block
    passes the assertions of the functions that read it, and every share's
    deduplication key names its own worker. *)
Theorem reachable_invariant now d :
  reachable now d → db_wf d ∧ one_open d ∧ blocks_ok d ∧ keyed d.
Proof.
  induction 1 as [|d d' _ (H1 & H2 & H3 & H4) Hs].
  - split_and!; [apply fresh_db_wf|unfold one_open; simpl; lia|constructor|constructor].
  - split_and!; [by apply (step_wf d)|by apply (step_one_open d)|by apply (step_blocks d)|
      by apply (step_keyed d)].
Qed.

Lemma reachable_paid_once now d : reachable now d → NoDup (blocks_paid d).
Proof.
  induction 1 as [|d d' _ IH Hs]; [constructor|].
  destruct (step_blocks_paid d d' Hs) as [->|(h & -> & Hh)]; [done|].
  apply NoDup_app. split; [done|]. split; [|apply NoDup_singleton].
  intros x Hx ->%list_elem_of_singleton. done.
Qed.

(** C4: in every reachable database no two payout batches pay
    the same block, whatever was matured, retried, rebuilt, orphaned or restarted
    in between: a found block is paid out once. *)
Theorem one_batch_per_block now d : reachable now d → NoDup (blocks_paid d).
Proof. apply reachable_paid_once. Qed.

(** A miner's carried-forward dust is only ever added to:
    no step of the system lowers the dust balance of any address, paying a batch
    included. *)
Theorem dust_never_decreases d d' a :
  step d d' → dust_balance d a ≤ dust_balance d' a.
Proof. intros Hs. by apply step_dust. Qed.
End System.

Lemma example_pool_reachable {hashing : Hashing} : reachable "2026-05-20 12:00:00" example_pool.
Proof.
  unfold example_pool. eapply reachable_step.
  2: { apply step_block; [unfold in_u64, u64_max; lia|].
       intros z [= <-]. unfold in_u64, u64_max. lia. }
  eapply reachable_step; [|by apply step_share].
  eapply reachable_step; [apply reachable_init|by apply step_share].
Qed.

Lemma reachable_invariant_witness :
  length (rows (rounds example_pool)) = 1%nat ∧ one_open example_pool.
Proof.
  split; [vm_compute; reflexivity|].
  apply (reachable_invariant "2026-05-20 12:00:00" example_pool example_pool_reachable).
Defined.

Lemma one_batch_per_block_witness :
  let d := (create_payout_for_found_block example_block example_params example_pool).2 in
  blocks_paid d = ["00aa"%string] ∧ NoDup (blocks_paid d).
Proof.
  intros d. split; [vm_compute; reflexivity|].
  apply (one_batch_per_block "2026-05-20 12:00:00" d).
  eapply reachable_step; [apply example_pool_reachable|apply step_create].
Defined.

(** A threshold above the reward turns every share of it into dust. *)
Lemma dust_never_decreases_witness :
  let pp := mkPayoutParams 100 None 1000000000 (f64_of_Z 2) in
  let d := example_pool in
  let d' := (create_payout_for_found_block example_block pp d).2 in
  dust_balance d "lotus_b" ≤ dust_balance d' "lotus_b" ∧ dust_balance d' "lotus_b" = 96525000.
Proof.
  intros pp d d'. split; [|vm_compute; reflexivity].
  apply (dust_never_decreases d d' "lotus_b"). apply step_create.
Defined.
