(* ===== verification/Lifecycle.v ===== *)
(** The rows of the books over time: which statuses a row can have, and what of a row
    never changes again once it is written. Both are one relation per table, kept by
    every statement and so by every call of the service. What a batch pays is one more
    relation, kept by whole calls: a rebuild deletes and writes the payouts of a pending
    batch, and nothing touches those of one that has been submitted. *)
From Stdlib Require Import ZArith Lia String.
From stdpp Require Import base option list numbers strings sets gmap.
From S2P Require Import Prelude Text Float64 Json Db VarDiff WorkerRepository AccountingEventRepository RoundRepository ShareRepository FoundBlockRepository PayoutRepository Frames Pplns Plan AccountingService PayoutService PayoutSubmission AccountingSystem.
#[local] Open Scope Z_scope.

(** * Tables whose rows stay *)

Section evolves.
Context {R K : Type} (t : Db → table R) (P : R → Prop) (fixed : R → K).

(** The rows keep the property [P], and the columns [fixed] of the rows that were there
    are what they were; rows are only added, at the end. *)
Definition evolves (d d' : Db) : Prop :=
  (Forall P (rows (t d)) → Forall P (rows (t d'))) ∧
  map fixed (rows (t d)) `prefix_of` map fixed (rows (t d')).

#[export] Instance evolves_preorder : PreOrder evolves.
Proof.
  unfold evolves. split.
  - intros d. by split.
  - intros d1 d2 d3 [H1 H2] [H3 H4]. split; [auto|by etrans].
Qed.

Lemma evolves_same d d' : Same t d d' → evolves d d'.
Proof. unfold Same, evolves. by intros ->. Qed.

Lemma evolves_insert (d d' : Db) (r : R) :
  rows (t d') = rows (t d) ++ [r] → P r → evolves d d'.
Proof.
  intros E Hr. unfold evolves. rewrite E, map_app. split; [|by apply prefix_app_r].
  intros H. by apply Forall_app_2; [|apply Forall_singleton].
Qed.

Lemma evolves_update (d d' : Db) (p : R → bool) (f : R → R) :
  rows (t d') = map (λ r, if p r then f r else r) (rows (t d)) →
  (∀ r, P r → P (f r)) → (∀ r, fixed (f r) = fixed r) → evolves d d'.
Proof.
  intros E HP Hf. unfold evolves. rewrite E. split.
  - intros H. rewrite Forall_forall in *. intros r (r0 & -> & Hr)%elem_of_map.
    destruct (p r0); auto.
  - rewrite map_map. erewrite (map_ext (λ r, fixed (if p r then f r else r))); [done|].
    intros r. by destruct (p r).
Qed.
End evolves.

(** A call of the service that does not write the table. *)
#[local] Hint Extern 5 (Keeps (evolves ?t ?P ?k) _) =>
  apply (Keeps_impl (Same t)); [exact (evolves_same t P k)|solve [eauto 3 with keeps]] : keeps.

(** * What each table keeps *)

(** An open round has no end yet; a closed one has, and is found or orphaned. *)
Definition round_state (r : Round) : Prop :=
  match r_end_template_id r with
  | None => r_status r = "open"%string
  | Some _ => closing (r_status r) = true
  end.
Definition round_fixed (r : Round) : Z * Z * option string :=
  (r_id r, r_start_template_id r, r_found_block_hash r).

Definition outcome_state (r : OutcomeRow) : Prop := judged (o_status (or_outcome r)) = true.
(** All but the node's answer to a block. *)
Definition outcome_fixed (r : OutcomeRow) : ShareOutcome * string :=
  let o := or_outcome r in
  (mkShareOutcome (o_id o) (o_share_id o) (o_session_id o) (o_worker_id o) (o_job_id o)
     (o_round_id o) (o_dedupe_key o) (o_status o) (o_reject_reason o) None (o_low_diff_ok o)
     (o_network_target_ok o) (o_block_hash o), or_created_at r).

Definition block_statuses : list string := ["immature"; "matured"; "orphaned"; "paid"]%string.
Definition block_state (b : FoundBlock) : Prop := fb_status b ∈ block_statuses.
Definition block_fixed (b : FoundBlock) :
    Z * Z * string * Z * option Z * option Z * option string * Z * string :=
  (fb_id b, fb_round_id b, fb_block_hash b, fb_height b, fb_worker_id b, fb_template_id b,
   fb_persist_source b, fb_coinbase_value b, fb_network_target_hex b).

(** A batch has a transaction once it is submitted, and none before. *)
Definition batch_state (b : PayoutBatch) : Prop :=
  (pb_status b = "pending"%string ∧ pb_submitted_txid b = None) ∨
  (pb_status b = "submitted"%string ∧ is_Some (pb_submitted_txid b)) ∨
  pb_status b = "confirmed"%string.
Definition batch_fixed (b : PayoutBatch) :
    Z * Z * Z * Z * option string * Z * option string :=
  (pb_id b, pb_round_id b, pb_total_amount b, pb_pool_fee_amount b, pb_pool_fee_address b,
   pb_miner_count b, pb_retry_key b).

Abbreviation rounds_evolve := (evolves rounds round_state round_fixed).
Abbreviation outcomes_evolve := (evolves share_outcomes outcome_state outcome_fixed).
Abbreviation blocks_evolve := (evolves found_blocks block_state block_fixed).
Abbreviation batches_evolve := (evolves payout_batches batch_state batch_fixed).
Abbreviation shares_evolve := (evolves shares (λ _, True) (λ r : ShareRow, r)).
Abbreviation workers_evolve := (evolves workers (λ _, True) (λ w : Worker, w)).
Abbreviation auth_evolve :=
  (evolves authorization_events (λ _, True) (λ e : AuthorizationEvent, e)).
Abbreviation log_evolves := (evolves accounting_events (λ _, True) (λ e : AccountingEvent, e)).

Section Statements.
Context {so : SqlOrder} {hashing : Hashing}.

Lemma get_or_create_evolves n : Keeps rounds_evolve (get_or_create_current_round n).
Proof.
  intros d. unfold get_or_create_current_round, bind_u64, stmt. munfold.
  destruct (select_one _ _); [done|]. destruct (n <=? i64_max); [|done].
  by eapply evolves_insert.
Qed.
Lemma resolve_evolves n : Keeps rounds_evolve (resolve_round_for_template n).
Proof.
  unfold resolve_round_for_template. keeps. intros d. unfold stmt.
  destruct (head _); [done|]. apply get_or_create_evolves.
Qed.
Lemma close_round_evolves i e s : closing s = true → Keeps rounds_evolve (close_round i e s).
Proof.
  intros Hs. unfold close_round. keeps. intros d. by eapply evolves_update.
Qed.

Lemma insert_outcome_evolves i o :
  judged (o_status o) = true → Keeps outcomes_evolve (insert_or_ignore_outcome i o).
Proof.
  intros Ho d. unfold insert_or_ignore_outcome, stmt. destruct (existsb _ _); [done|].
  destruct (_ && _); [|done]. by eapply evolves_insert.
Qed.
Lemma node_result_evolves k n : Keeps outcomes_evolve (update_outcome_node_result k n).
Proof. intros d. by eapply evolves_update. Qed.

Lemma record_found_block_evolves r h n w i p v k :
  Keeps blocks_evolve (record_found_block r h n w i p v k).
Proof.
  unfold record_found_block. keeps. intros d. unfold stmt. destruct (existsb _ _); [done|].
  destruct (_ && _); [|done]. eapply evolves_insert; [done|]. apply list_elem_of_here.
Qed.
Lemma update_blocks_evolves p f :
  (∀ d b, block_state b → block_state (f d b)) → (∀ d b, block_fixed (f d b) = block_fixed b) →
  Keeps blocks_evolve (update_blocks p f).
Proof. intros H1 H2 d. eapply evolves_update; [reflexivity|apply H1|apply H2]. Qed.

Lemma create_batch_evolves r n f a m k : Keeps batches_evolve (create_payout_batch r n f a m k).
Proof.
  intros d. unfold create_payout_batch, stmt. destruct (existsb _ _); [done|].
  destruct (has_id _ _ _); [|done]. eapply evolves_insert; [done|]. by left.
Qed.
Lemma update_batch_evolves i f :
  (∀ b, batch_state b → batch_state (f b)) → (∀ b, batch_fixed (f b) = batch_fixed b) →
  Keeps batches_evolve (update_batch i f).
Proof. intros H1 H2 d. eapply evolves_update; [reflexivity|apply H1|apply H2]. Qed.

Lemma insert_share_evolves s : Keeps shares_evolve (insert_or_ignore_share s).
Proof.
  unfold insert_or_ignore_share. keeps. intros d. unfold stmt. destruct (_ || _); [done|].
  destruct (has_id _ _ _); [|done]. by eapply evolves_insert.
Qed.
Lemma upsert_evolves a s : Keeps workers_evolve (upsert a s).
Proof.
  intros d. unfold upsert. destruct (select_one _ _); [done|]. by eapply evolves_insert.
Qed.
Lemma record_event_evolves e : Keeps log_evolves (record_event e).
Proof. unfold record_event. keeps. intros d. by eapply evolves_insert. Qed.
Lemma insert_auth_evolves e : Keeps auth_evolve (insert_authorization_event e).
Proof. intros d. by eapply evolves_insert. Qed.
End Statements.

#[local] Hint Resolve get_or_create_evolves resolve_evolves node_result_evolves
  record_found_block_evolves create_batch_evolves upsert_evolves record_event_evolves
  insert_auth_evolves : keeps.
#[local] Hint Extern 4 (Keeps rounds_evolve (close_round _ _ _)) =>
  apply close_round_evolves; (assumption || done) : keeps.
#[local] Hint Extern 4 (Keeps blocks_evolve _) =>
  apply update_blocks_evolves; [intros; unfold block_state; simpl; set_solver|done] : keeps.
#[local] Hint Extern 4 (Keeps batches_evolve (update_batch_status _ "confirmed")) =>
  apply update_batch_evolves; [intros; by right; right|done] : keeps.
#[local] Hint Extern 4 (Keeps batches_evolve (mark_batch_submitted _ _)) =>
  apply update_batch_evolves; [intros; right; left; eauto|done] : keeps.

Section System.
Context {so : SqlOrder} {hashing : Hashing}.

Lemma insert_submission_evolves a w r :
  judged (sub_status a) = true →
  Keeps outcomes_evolve
    (insert_share_and_outcome_atomic (submission_share a w) (submission_outcome a w r)) ∧
  Keeps shares_evolve
    (insert_share_and_outcome_atomic (submission_share a w) (submission_outcome a w r)).
Proof.
  intros Ha. set (sh := submission_share a w). set (o := submission_outcome a w r).
  assert (Keeps outcomes_evolve (insert_or_ignore_share sh)).
  { apply (Keeps_impl (Same share_outcomes)); [exact (evolves_same _ _ _)|].
    by apply insert_or_ignore_share_same. }
  assert (∀ i, Keeps shares_evolve (insert_or_ignore_outcome i o)).
  { intros i. apply (Keeps_impl (Same shares)); [exact (evolves_same _ _ _)|].
    by apply insert_or_ignore_outcome_same. }
  pose proof (insert_share_evolves sh).
  assert (∀ i, Keeps outcomes_evolve (insert_or_ignore_outcome i o))
    by (intros; by apply insert_outcome_evolves).
  split; (apply Keeps_transaction; [typeclasses eauto|]); unfold put_share, put_outcome; keeps.
Qed.
#[local] Hint Extern 4 (Keeps (evolves _ _ _) (insert_share_and_outcome_atomic _ _)) =>
  apply insert_submission_evolves; assumption : keeps.

Lemma step_rounds d d' : step d d' → rounds_evolve d d'.
Proof. step_keeps (evolves rounds round_state round_fixed). Qed.
Lemma step_outcomes d d' : step d d' → outcomes_evolve d d'.
Proof. step_keeps (evolves share_outcomes outcome_state outcome_fixed). Qed.
Lemma step_found_blocks d d' : step d d' → blocks_evolve d d'.
Proof. step_keeps (evolves found_blocks block_state block_fixed). Qed.
Lemma step_batches d d' : step d d' → batches_evolve d d'.
Proof. step_keeps (evolves payout_batches batch_state batch_fixed). Qed.
Lemma step_shares d d' : step d d' → shares_evolve d d'.
Proof. step_keeps (evolves shares (λ _, True) (λ r : ShareRow, r)). Qed.
Lemma step_workers d d' : step d d' → workers_evolve d d'.
Proof. step_keeps (evolves workers (λ _, True) (λ w : Worker, w)). Qed.
Lemma step_log d d' : step d d' → log_evolves d d'.
Proof. step_keeps (evolves accounting_events (λ _, True) (λ e : AccountingEvent, e)). Qed.

Lemma step_auths d d' : step d d' → auth_evolve d d'.
Proof. step_keeps (evolves authorization_events (λ _, True) (λ e : AuthorizationEvent, e)). Qed.

(** C19: the status columns hold what they are documented to hold. In every
    reachable database a round is open and without an end or found or orphaned and with
    one; a share is accepted or rejected; a block is immature, matured, orphaned or paid; a
    batch is pending and without a transaction, submitted and with one, or confirmed. *)
Theorem status_types now d :
  reachable now d →
  Forall round_state (rows (rounds d)) ∧ Forall outcome_state (rows (share_outcomes d)) ∧
  Forall block_state (rows (found_blocks d)) ∧ Forall batch_state (rows (payout_batches d)).
Proof.
  induction 1 as [|d d' _ (H1 & H2 & H3 & H4) Hs]; [by repeat split; constructor|].
  split_and!; [by apply (step_rounds d)|by apply (step_outcomes d)|
    by apply (step_found_blocks d)|by apply (step_batches d)].
Qed.

(** The columns of the books that are written once. *)
Record append_only (d d' : Db) : Prop := {
  ao_workers : rows (workers d) `prefix_of` rows (workers d');
  ao_shares : rows (shares d) `prefix_of` rows (shares d');
  ao_auth : rows (authorization_events d) `prefix_of` rows (authorization_events d');
  ao_log : rows (accounting_events d) `prefix_of` rows (accounting_events d');
  ao_outcomes : map outcome_fixed (rows (share_outcomes d)) `prefix_of`
    map outcome_fixed (rows (share_outcomes d'));
  ao_rounds : map round_fixed (rows (rounds d)) `prefix_of` map round_fixed (rows (rounds d'));
  ao_blocks : map block_fixed (rows (found_blocks d)) `prefix_of`
    map block_fixed (rows (found_blocks d'));
  ao_batches : map batch_fixed (rows (payout_batches d)) `prefix_of`
    map batch_fixed (rows (payout_batches d'));
  ao_dust : ∀ a, dust_balance d a ≤ dust_balance d' a;
}.

#[export] Instance append_only_preorder : PreOrder append_only.
Proof.
  split; [by split|]. intros x y z [] [].
  split; try intros a; (etrans; [eauto|eauto]).
Qed.

Lemma step_append_only d d' : step d d' → append_only d d'.
Proof.
  intros H. pose proof (step_workers _ _ H) as [_ H1]. pose proof (step_shares _ _ H) as [_ H2].
  pose proof (step_log _ _ H) as [_ H3]. pose proof (step_auths _ _ H) as [_ H4].
  rewrite !map_id in H1, H2, H3, H4.
  split; [done..|apply (step_outcomes _ _ H)|apply (step_rounds _ _ H)|
    apply (step_found_blocks _ _ H)|apply (step_batches _ _ H)|
    apply (step_dust _ _ H)].
Qed.

Lemma steps_append_only d d' : rtc step d d' → append_only d d'.
Proof. induction 1 as [|x y z H _ IH]; [done|]. etrans; [by apply step_append_only|done]. Qed.

(** ** What a batch pays *)

(** The batch has been submitted or confirmed. *)
Definition gone_out (d : Db) (i : Z) : Prop :=
  ∃ b, b ∈ rows (payout_batches d) ∧ pb_id b = i ∧ pb_status b ≠ "pending"%string.

Definition same_payouts (i : Z) (d d' : Db) : Prop :=
  get_payouts_by_batch d' i = get_payouts_by_batch d i ∧
  get_snapshots_by_batch d' i = get_snapshots_by_batch d i.

(** Batches that have gone out stay out, and the payouts and snapshots of theirs stay
    as they are. *)
Definition paid_kept (d d' : Db) : Prop :=
  db_wf d → db_wf d' ∧ ∀ i, gone_out d i → gone_out d' i ∧ same_payouts i d d'.

#[export] Instance paid_kept_preorder : PreOrder paid_kept.
Proof.
  unfold paid_kept, same_payouts. split; [naive_solver|]. intros x y z H1 H2 Hwf.
  destruct (H1 Hwf) as [Hy H3]. destruct (H2 Hy) as [Hz H4]. split; [done|]. intros i Hi.
  destruct (H3 i Hi) as (H5 & H6 & H7). destruct (H4 i H5) as (H8 & H9 & H10).
  split_and!; [done|congruence..].
Qed.

Definition payout_view (d : Db) : list PayoutBatch * list Payout * list PayoutShareSnapshot :=
  (rows (payout_batches d), rows (payouts d), rows (payout_share_snapshots d)).

Lemma paid_kept_same d d' : wf_rel d d' → Same payout_view d d' → paid_kept d d'.
Proof.
  unfold Same, payout_view, wf_rel, paid_kept, gone_out, same_payouts, get_payouts_by_batch,
    get_snapshots_by_batch. intros Hw [= -> -> ->] Hwf. auto.
Qed.

Lemma keeps_paid_same {A} (c : DbM A) :
  Keeps wf_rel c → Keeps (Same payout_view) c → Keeps paid_kept c.
Proof. intros H1 H2 d. by apply paid_kept_same. Qed.

Lemma update_batch_paid i f :
  Keeps wf_rel (update_batch i f) → (∀ b, pb_id (f b) = pb_id b) →
  (∀ b, pb_status (f b) ≠ "pending"%string) → Keeps paid_kept (update_batch i f).
Proof.
  intros Hw Hid Hf d Hwf. split; [by apply Hw|]. intros j (b & Hb & <- & Hs).
  split; [|done]. exists (if pb_id b =? i then f b else b). split_and!.
  - simpl. apply elem_of_map. by exists b.
  - by destruct (_ =? _).
  - by destruct (_ =? _).
Qed.
#[local] Hint Extern 4 (Keeps paid_kept (update_batch_status _ "confirmed")) =>
  apply update_batch_paid; [solve [eauto 3 with keeps]|done|done] : keeps.
#[local] Hint Extern 4 (Keeps paid_kept (mark_batch_submitted _ _)) =>
  apply update_batch_paid; [solve [eauto 3 with keeps]|done|done] : keeps.
#[local] Hint Extern 5 (Keeps paid_kept _) =>
  apply keeps_paid_same; solve [eauto 3 with keeps] : keeps.

(** A new batch has a new id. *)
Lemma create_payout_paid b pp : Keeps paid_kept (create_payout_for_found_block b pp).
Proof.
  intros d Hwf. pose proof (create_payout_wf b pp d Hwf) as Hwf'.
  destruct (create_payout_for_found_block b pp d) as [[id|e|] d'] eqn:E; simpl in *;
    [|pose proof (create_payout_rollback b pp d) as Hr; rewrite E in Hr; simpl in Hr;
      rewrite Hr by done; by split..].
  split; [done|]. intros i (x & Hx & <- & Hs).
  apply create_payout_run in E as (fa & _ & _ & Hrun).
  apply write_batch_run in Hrun
    as (-> & Hb & (ps & Hps & _ & Hbid) & (ss & Hss & Hsd) & _); [|apply plan_sorted].
  assert (pb_id x ≠ seq (payout_batches d) + 1) as Hne.
  { intros Ex. apply (table_ok_seq_fresh pb_id (payout_batches d) (wf_batches d Hwf)).
    rewrite <-Ex. apply elem_of_map. eauto. }
  assert (Forall (λ s, ps_batch_id s = seq (payout_batches d) + 1) ss)
    by (by eapply snapshots_batch).
  split; [exists x; rewrite Hb; set_solver|]. unfold same_payouts, get_payouts_by_batch,
    get_snapshots_by_batch. by rewrite Hps, Hss, !other_batch_filter with
      (j := seq (payout_batches d) + 1) by done.
Qed.

(** Everything but the payouts of one batch. *)
Definition others_kept (i : Z) (d d' : Db) : Prop := ∀ j, j ≠ i → same_payouts j d d'.
#[export] Instance others_kept_preorder i : PreOrder (others_kept i).
Proof.
  unfold others_kept, same_payouts. split; [done|]. intros x y z H1 H2 j Hj.
  destruct (H1 j Hj), (H2 j Hj). split; congruence.
Qed.

Lemma others_kept_same i d d' : Same payout_view d d' → others_kept i d d'.
Proof.
  unfold Same, payout_view, others_kept, same_payouts, get_payouts_by_batch,
    get_snapshots_by_batch. by intros [= _ -> ->].
Qed.
#[local] Hint Extern 5 (Keeps (others_kept ?i) _) =>
  apply (Keeps_impl (Same payout_view)); [exact (others_kept_same i)|solve [eauto 3 with keeps]]
  : keeps.

Lemma filter_other_deleted {A} (f : A → Z) (i j : Z) (l : list A) :
  j ≠ i → List.filter (λ x, f x =? j) (List.filter (λ x, negb (f x =? i)) l) =
    List.filter (λ x, f x =? j) l.
Proof.
  intros Hne. induction l as [|x l IH]; [done|]. simpl.
  destruct (Z.eqb_spec (f x) i) as [E|E]; simpl; [|by rewrite IH].
  by rewrite (proj2 (Z.eqb_neq (f x) j)) by congruence.
Qed.

Lemma delete_payouts_others i : Keeps (others_kept i) (delete_payouts_by_batch i).
Proof. intros d j Hj. split; [by apply filter_other_deleted|done]. Qed.
Lemma delete_snapshots_others i : Keeps (others_kept i) (delete_snapshots_by_batch i).
Proof. intros d j Hj. split; [done|]. by apply (filter_other_deleted ps_batch_id). Qed.
Lemma record_payout_others i w a n c : Keeps (others_kept i) (record_payout i w a n c).
Proof.
  intros d j Hj. unfold record_payout, stmt. destruct (_ && _); [|done]. split; [|done].
  apply (other_batch_filter p_batch_id j i); [by constructor|done].
Qed.
Lemma snapshot_share_others i s : ps_batch_id s = i → Keeps (others_kept i) (snapshot_share s).
Proof.
  intros Hs d j Hj. unfold snapshot_share, stmt. destruct (f64_nan _); [done|].
  destruct (_ && _); [|done]. split; [done|].
  apply (other_batch_filter ps_batch_id j i); [by constructor|done].
Qed.
#[local] Hint Resolve delete_payouts_others delete_snapshots_others record_payout_others : keeps.

Lemma snapshots_others i outs shares :
  Keeps (others_kept i) (mfor (snapshots_of i outs shares) snapshot_share).
Proof.
  assert (Forall (λ s, ps_batch_id s = i) (snapshots_of i outs shares)) as H
    by (by apply (snapshots_batch i outs shares), snapshots_of_data).
  induction H as [|s l Hs _ IH]; simpl; [keeps|].
  apply Keeps_bind; [typeclasses eauto|by apply snapshot_share_others|done].
Qed.
#[local] Hint Resolve snapshots_others : keeps.

Lemma rebuild_others i pp : Keeps (others_kept i) (rebuild_payout_plan_for_batch i pp).
Proof.
  unfold rebuild_payout_plan_for_batch, record_outputs. keeps.
  apply Keeps_transaction; [typeclasses eauto|]. keeps.
Qed.

(** Only a pending batch is rebuilt. *)
Lemma rebuild_guard i pp d :
  (∃ b, get_batch_by_id d i = Some b ∧ pb_status b = "pending"%string) ∨
  (rebuild_payout_plan_for_batch i pp d).2 = d.
Proof.
  unfold rebuild_payout_plan_for_batch. rewrite bind_query.
  destruct (get_batch_by_id d i) as [b|]; [|by right]. cbn [ok_or].
  destruct (String.eqb_spec (pb_status b) "pending"); [left; eauto|by right].
Qed.

Lemma rebuild_paid i pp : Keeps paid_kept (rebuild_payout_plan_for_batch i pp).
Proof.
  intros d Hwf. split; [by apply rebuild_payout_wf|]. intros j (x & Hx & Hj & Hs). split.
  { exists x. split; [|done]. change (x ∈ batch_rows (rebuild_payout_plan_for_batch i pp d).2).
    by rewrite (rebuild_batches_same i pp d). }
  destruct (rebuild_guard i pp d) as [(b & Hb & Hp)| ->]; [|done].
  apply rebuild_others. intros ->. apply Hs. unfold get_batch_by_id in Hb.
  apply find_some in Hb as [Hb%list_elem_of_In Ei%Z.eqb_eq].
  rewrite (table_ok_inj pb_id (payout_batches d) x b (wf_batches d Hwf) Hx Hb); [done|].
  by rewrite Hj, Ei.
Qed.
#[local] Hint Resolve create_payout_paid rebuild_paid : keeps.

Lemma process_paid env pp : Keeps paid_kept (process_pending_payouts env pp).
Proof.
  unfold process_pending_payouts, process_batch, resolve_coinbase_txid, batch_outputs. keeps.
Qed.
Lemma reconcile_paid c : Keeps paid_kept (reconcile_submitted_payouts c).
Proof.
  unfold reconcile_submitted_payouts. keeps.
  apply reconcile_loop_keeps; [typeclasses eauto|]. unfold confirm_batch. keeps.
Qed.
#[local] Hint Resolve process_paid reconcile_paid : keeps.

Lemma step_paid d d' : step d d' → paid_kept d d'.
Proof.
  intros Hs. pose proof (step_wf d d' Hs) as Hw. revert Hs Hw.
  destruct 1; intros Hw; [by apply paid_kept_same|..];
  try (match goal with |- paid_kept ?d (?c ?d).2 => enough (Keeps paid_kept c) by auto end;
    solve [eauto 3 with keeps]);
  (apply paid_kept_same; [done|]);
  match goal with |- Same ?v ?d (?c ?d).2 => enough (Keeps (Same v) c) by auto end;
  open_op; keeps.
Qed.

Lemma steps_paid d d' : rtc step d d' → paid_kept d d'.
Proof. induction 1 as [|x y z H _ IH]; [done|]. etrans; [by apply step_paid|done]. Qed.

(** C13: the books are an audit trail. Whatever the pool does, no worker,
    authorization, share, outcome, round, block, batch or log entry disappears or changes
    place; workers, authorizations, shares and log entries never change; of an outcome only
    the node's answer changes, of a round only its end and status, of a block only its
    status, its reason and time and the id of its coinbase, and of a batch only its status,
    its transaction and the columns for retries; no address's dust gets less. Payouts and
    snapshots can be deleted, when a pending batch is rebuilt, and only then: once a batch
    has been submitted it never is pending again, and its payouts and snapshots stay
    exactly as they are. *)
Theorem history_append_only now d d' :
  reachable now d → rtc step d d' →
  append_only d d' ∧ ∀ i, gone_out d i → gone_out d' i ∧
    get_payouts_by_batch d' i = get_payouts_by_batch d i ∧
    get_snapshots_by_batch d' i = get_snapshots_by_batch d i.
Proof.
  intros Hd Hs. split; [by apply steps_append_only|].
  apply (steps_paid d d' Hs), (reachable_ok now d Hd).
Qed.

(** * What a payout needs is never lost *)

(** The block is in the books, and so is the share that won it. *)
Definition payable (h : string) (d : Db) : Prop :=
  h ∈ map fb_block_hash (rows (found_blocks d)) ∧ select_found_at d h ≠ None.

Definition winning (h : string) (o : ShareOutcome) : bool :=
  bool_decide (o_block_hash o = Some h) && String.eqb (o_status o) "accepted" &&
  bool_decide (o_network_target_ok o = Some true).

Lemma select_found_at_winning d h :
  select_found_at d h ≠ None ↔ Exists (λ r, winning h (or_outcome r) = true) (rows (share_outcomes d)).
Proof.
  rewrite Exists_exists. unfold select_found_at. fold (winning h).
  set (p := λ r, winning h (or_outcome r)).
  change (List.filter (λ r, let o := or_outcome r in _) (rows (share_outcomes d)))
    with (List.filter p (rows (share_outcomes d))).
  pose proof (sql_order_perm _ (λ _ _, true) (List.filter p (rows (share_outcomes d)))) as Hp.
  destruct (sql_order_by _ _) as [|x l]; simpl.
  - split; [done|]. intros (r & Hr & Hw). apply Permutation_nil in Hp.
    assert (In r (List.filter p (rows (share_outcomes d)))) as Hin
      by (apply filter_In; by rewrite <-list_elem_of_In). by rewrite Hp in Hin.
  - split; [|done]. intros _. exists x.
    assert (x ∈ List.filter p (rows (share_outcomes d))) as Hx by (rewrite <-Hp; set_solver).
    apply list_elem_of_In, filter_In in Hx. by rewrite <-list_elem_of_In in Hx.
Qed.

Lemma prefix_map_elem {A B D} (f : A → B) (g : B → D) (l l' : list A) x :
  map f l `prefix_of` map f l' → x ∈ map (λ a, g (f a)) l → x ∈ map (λ a, g (f a)) l'.
Proof.
  intros [k E] Hx. rewrite <-!(map_map f g) in *. rewrite E, map_app. apply elem_of_app. by left.
Qed.

Lemma payable_grows h d d' : append_only d d' → payable h d → payable h d'.
Proof.
  intros Ha [H1 H2]. split.
  - apply (prefix_map_elem block_fixed (λ k, k.1.1.1.1.1.1.2) _ _ h (ao_blocks _ _ Ha)). exact H1.
  - rewrite select_found_at_winning in *. rewrite Exists_exists in *.
    destruct H2 as (r & Hr & Hw).
    pose proof (prefix_map_elem outcome_fixed (λ k, winning h k.1) _ _ true (ao_outcomes _ _ Ha))
      as Hm. rewrite !elem_of_map in Hm. destruct Hm as (r' & E & Hr'); [by exists r|].
    exists r'. split; [done|]. symmetry. exact E.
Qed.

(** Some batch looks like the block's to the guard against a second one. *)
Lemma count_existing_grows h d d' :
  append_only d d' → 0 < count_existing d h → 0 < count_existing d' h.
Proof.
  intros Ha. unfold count_existing. intros Hc.
  set (p := λ b, match pb_retry_key b with Some k => sql_like (h ++ "%") k | None => false end) in *.
  assert (∀ l, 0 < Z.of_nat (length (List.filter p l)) ↔ true ∈ map p l) as Hl.
  { intros l. rewrite elem_of_map. split.
    - destruct (List.filter p l) as [|x k] eqn:E; simpl; [lia|]. intros _.
      assert (In x (List.filter p l)) as Hx by (rewrite E; by left).
      apply filter_In in Hx as [? ?]. exists x. by rewrite list_elem_of_In.
    - intros (x & Hx & Hin). assert (In x (List.filter p l)) as Hf
        by (apply filter_In; by rewrite <-list_elem_of_In).
      destruct (List.filter p l); [done|]. simpl. lia. }
  rewrite Hl in *.
  exact (prefix_map_elem batch_fixed
    (λ k, match k.2 with Some k => sql_like (h ++ "%") k | None => false end) _ _ true
    (ao_batches _ _ Ha) Hc).
Qed.
End System.

(** * Examples *)

Lemma status_types_witness :
  Forall block_state (rows (found_blocks example_pool)) ∧
  map fb_status (rows (found_blocks example_pool)) = ["immature"%string].
Proof.
  split; [|vm_compute; reflexivity].
  apply (status_types "2026-05-20 12:00:00" example_pool example_pool_reachable).
Defined.

(** The batch of the example block is submitted; then the node confirms it. *)
Lemma history_append_only_witness :
  let d1 := (process_pending_payouts example_env example_params example_pending).2 in
  let d2 := (reconcile_submitted_payouts (λ _, Ok (Some 1)) d1).2 in
  append_only d1 d2 ∧ map pb_status (rows (payout_batches d2)) = ["confirmed"%string] ∧
  length (get_payouts_by_batch d1 1) = 2%nat ∧
  get_payouts_by_batch d2 1 = get_payouts_by_batch d1 1.
Proof.
  intros d1 d2.
  destruct (history_append_only "2026-05-20 12:00:00" d1 d2) as [H1 H2].
  - eapply reachable_step; [|apply step_process].
    eapply reachable_step; [apply example_pool_reachable|apply step_create].
  - apply rtc_once, step_reconcile_payouts.
  - split; [exact H1|]. split; [vm_compute; reflexivity|]. split; [vm_compute; reflexivity|].
    apply (H2 1). eexists. split; [vm_compute; left|]. split; [reflexivity|discriminate].
Defined.
