(* ===== verification/Job.v ===== *)
(** [stratum_protocol/job.rs], [stratum_protocol/params.rs] and
    [accounting/chain_tip.rs]: mining jobs, their ids and the parameters of
    [mining.notify], the protocol's constants, and the tracked chain tip. *)
From Stdlib Require Import ZArith Lia String Ascii Init.Byte.
From stdpp Require Import base option list numbers strings sets gmap.
From S2P Require Import Prelude Text Float64 Json.
#[local] Open Scope Z_scope.

(** [src/src/stratum_protocol/job.rs:5-11 parse_template_metadata_from_job_id] *)
Definition parse_template_metadata_from_job_id (job_id : string) : option (Z * Z) :=
  stripped ← strip_prefix "job-" job_id;
  parts ← rsplit_at "-" stripped;
  template_id ← parse_u64 parts.1;
  template_epoch ← parse_u64 parts.2;
  Some (template_id, template_epoch).

(** [src/src/stratum_protocol/job.rs:14-45 MiningJob] *)
Record MiningJob := mkMiningJob {
  j_job_id : string;
  j_template_id : Z;
  j_prevhash : string;
  j_coinbase1 : string;
  j_coinbase2 : string;
  j_merkle_branches : list string;
  j_version : string;
  j_nbits : string;
  j_ntime : string;
  j_network_target_hex : string;
  j_clean_jobs : bool;
  j_template_epoch : Z;
  j_height : Z;
  j_epoch_hash : string;
  j_extended_metadata_hash : string;
  j_block_size : Z;
  j_block_bytes : list byte;
  j_coinbase_value : Z;
  j_reason : string;
}.

(** [json!(n)] of a signed integer. *)
Definition json_i64 (n : Z) : Value := Number (if 0 <=? n then PosInt n else NegInt n).

(** [src/src/stratum_protocol/job.rs:48-72 MiningJob::notify_params] *)
Definition notify_params (job : MiningJob) : Value :=
  let params :=
    [Str (j_job_id job); Str (j_prevhash job); Str (j_coinbase1 job); Str (j_coinbase2 job);
     Array (map Str (j_merkle_branches job)); Str (j_version job); Str (j_nbits job);
     Str (j_ntime job); Bool (j_clean_jobs job); json_i64 (j_height job);
     Str (j_epoch_hash job); Str (j_extended_metadata_hash job);
     Number (PosInt (j_block_size job))] in
  Array (if String.eqb (j_reason job) "" then params else params ++ [Str (j_reason job)]).

(** [src/src/stratum_protocol/params.rs:9-9 EXTRANONCE_1_SIZE (part)] *)
Definition EXTRANONCE_1_SIZE : Z := 4.
(** [src/src/stratum_protocol/params.rs:13-13 EXTRANONCE_2_SIZE (part)] *)
Definition EXTRANONCE_2_SIZE : Z := 4.
(** [src/src/stratum_protocol/params.rs:19-19 EXTRANONCE_1_HEX_CHARS (part)] *)
Definition EXTRANONCE_1_HEX_CHARS : Z := EXTRANONCE_1_SIZE * 2.
(** [src/src/stratum_protocol/params.rs:23-23 MAX_ASSIGNED_JOBS_PER_SESSION (part)] *)
Definition MAX_ASSIGNED_JOBS_PER_SESSION : nat := 128.

(** The tip is one 32-bit atomic; loads and stores are relaxed, and the only
    writer is the event consumer. *)
Definition ChainTip : Type := Z.

(** [src/src/accounting/chain_tip.rs:31-36 ChainTip::update_block_connected] *)
Definition update_block_connected (tip : ChainTip) (height : Z) : ChainTip :=
  if tip <? height then height else tip.

(** [src/src/accounting/chain_tip.rs:44-49 ChainTip::update_block_disconnected] *)
Definition update_block_disconnected (tip : ChainTip) (height : Z) : ChainTip :=
  if (height =? tip) && (0 <? tip) then tip - 1 else tip.

(** * Properties *)

(** The id that the template conversion gives a job. *)
Definition job_id_of (template_id template_epoch : Z) : string :=
  ("job-" ++ show_u template_id ++ "-" ++ show_u template_epoch)%string.

Lemma parse_job_id template_id template_epoch :
  in_u64 template_id → in_u64 template_epoch →
  parse_template_metadata_from_job_id (job_id_of template_id template_epoch) =
    Some (template_id, template_epoch).
Proof.
  intros Ht He. unfold parse_template_metadata_from_job_id, job_id_of.
  rewrite strip_prefix_app. simpl.
  change ("-" ++ show_u template_epoch)%string with (String "-" (show_u template_epoch)).
  rewrite rsplit_at_app by (apply show_u_no_char; [apply He|done]). simpl.
  unfold parse_u64. unfold in_u64 in *. rewrite !parse_show_u by done. done.
Qed.

(** The ids and epochs of a template can be read back from
    the job id that was built from them. *)
Theorem job_id_roundtrip template_id template_epoch :
  in_u64 template_id → in_u64 template_epoch →
  parse_template_metadata_from_job_id (job_id_of template_id template_epoch) =
    Some (template_id, template_epoch).
Proof. apply parse_job_id. Qed.

Lemma job_id_roundtrip_witness :
  parse_template_metadata_from_job_id "job-890-100" = Some (890, 100).
Proof. apply (job_id_roundtrip 890 100); unfold in_u64, u64_max; lia. Defined.

(** A batch of connected blocks leaves the tip at the highest of them. *)
Lemma update_block_connected_max tip hs :
  fold_left update_block_connected hs tip = fold_left Z.max hs tip.
Proof.
  revert tip. induction hs as [|h hs IH]; intros tip; [done|]. simpl. rewrite IH. f_equal.
  unfold update_block_connected. destruct (Z.ltb_spec tip h); lia.
Qed.

(** The tracked tip never goes down while blocks connect
    and is the highest height seen; connecting a block and disconnecting it again
    brings the tip back to the height below it, and disconnecting any other block
    leaves it alone. *)
Theorem chain_tip_monotone tip hs h :
  let t := fold_left update_block_connected hs tip in
  tip ≤ t ∧ Forall (λ x, x ≤ t) hs ∧ (t = tip ∨ t ∈ hs) ∧
  (0 < tip → update_block_disconnected (update_block_connected tip (tip + 1)) (tip + 1) = tip) ∧
  (h ≠ t → update_block_disconnected t h = t).
Proof.
  cbn zeta. rewrite update_block_connected_max.
  assert (∀ l z, z ≤ fold_left Z.max l z ∧ Forall (λ x, x ≤ fold_left Z.max l z) l ∧
    (fold_left Z.max l z = z ∨ fold_left Z.max l z ∈ l)) as Hm.
  { clear. induction l as [|x l IH]; intros z; simpl; [split_and!; [lia|constructor|by left]|].
    destruct (IH (Z.max z x)) as (H1 & H2 & H3). split_and!; [lia|constructor; [lia|done]|].
    destruct H3 as [->|H3]; [|right; apply elem_of_cons; by right].
    destruct (Z.max_spec z x) as [[_ ->]|[_ ->]]; [right; apply elem_of_cons; by left|by left]. }
  destruct (Hm hs tip) as (H1 & H2 & H3). split_and!; try done.
  - intros Hpos. unfold update_block_connected, update_block_disconnected.
    rewrite (proj2 (Z.ltb_lt tip (tip + 1))), Z.eqb_refl by lia.
    rewrite (proj2 (Z.ltb_lt 0 (tip + 1))) by lia. simpl. lia.
  - intros Hne. unfold update_block_disconnected. by rewrite (proj2 (Z.eqb_neq h _) Hne).
Qed.
