(* ===== verification/JobCache.v ===== *)
(** [node_integration/job_cache.rs]: the cache of recent mining jobs. The jobs
    live in a bounded concurrent map of the [moka] library, which is a parameter
    with its documented laws; the order of insertion lives in a [VecDeque]. *)
From Stdlib Require Import ZArith Lia String.
From stdpp Require Import base option list numbers strings sets fin_sets gmap.
From S2P Require Import Prelude Text Json Job.
#[local] Open Scope Z_scope.

(** * The interface of [moka::future::Cache]

    [get] shows an entry or nothing. An entry leaves the map when it is
    invalidated, and the map may drop entries of its own only when an insertion
    takes it over its capacity: as long as some set of at most [capacity] keys
    covers all the entries, nothing is lost. *)
Class MokaCache (C : Type) := {
  moka_new : Z → C;
  moka_get : C → string → option MiningJob;
  moka_insert : string → MiningJob → C → C;
  moka_invalidate : string → C → C;
  moka_invalidate_all : C → C;
  moka_capacity : C → Z;
  moka_get_new n k : moka_get (moka_new n) k = None;
  moka_get_insert c k v (keys : gset string) :
    (∀ k' w, moka_get c k' = Some w → k' ∈ keys) → k ∈ keys →
    Z.of_nat (size keys) ≤ moka_capacity c →
    moka_get (moka_insert k v c) k = Some v ∧
    ∀ k', k' ≠ k → moka_get (moka_insert k v c) k' = moka_get c k';
  moka_get_invalidate c k : moka_get (moka_invalidate k c) k = None;
  moka_get_invalidate_ne c k k' :
    k' ≠ k → moka_get (moka_invalidate k c) k' = moka_get c k';
  moka_get_invalidate_all c k : moka_get (moka_invalidate_all c) k = None;
  moka_capacity_new n : moka_capacity (moka_new n) = n;
  moka_capacity_insert c k v : moka_capacity (moka_insert k v c) = moka_capacity c;
  moka_capacity_invalidate c k : moka_capacity (moka_invalidate k c) = moka_capacity c;
  moka_capacity_invalidate_all c : moka_capacity (moka_invalidate_all c) = moka_capacity c;
}.

Lemma size_list_to_set_le (l : list string) :
  (size (list_to_set l : gset string) ≤ length l)%nat.
Proof.
  induction l as [|x l IH]; [done|]. cbn [list_to_set foldr length].
  rewrite size_union_alt, size_singleton.
  assert (size ((list_to_set l : gset string) ∖ {[x]}) ≤ size (list_to_set l : gset string))%nat
    by (apply subseteq_size; set_solver). lia.
Qed.

Section job_cache.
Context {C : Type} {moka : MokaCache C}.

(** [src/src/node_integration/job_cache.rs:11-15 JobCache] *)
Record JobCache := mkJobCache {
  jc_cache : C;
  jc_job_order : list string;
  jc_max_size : Z;
}.

(** [src/src/node_integration/job_cache.rs:19-25 JobCache::new] *)
Definition JobCache_new (max_size : Z) : JobCache := mkJobCache (moka_new max_size) [] max_size.

(** [src/src/node_integration/job_cache.rs:36-40 JobCache::insert (part)] The
    loop that drops the oldest ids while there are too many. *)
Fixpoint evict_oldest (max_size : Z) (order : list string) (c : C) : list string * C :=
  match order with
  | [] => ([], c)
  | oldest_id :: rest =>
      if max_size <? Z.of_nat (length order)
      then evict_oldest max_size rest (moka_invalidate oldest_id c)
      else (order, c)
  end.

(** [src/src/node_integration/job_cache.rs:28-44 JobCache::insert] *)
Definition insert (job : MiningJob) (self : JobCache) : JobCache :=
  let job_id := j_job_id job in
  let order := jc_job_order self ++ [job_id] in
  let kept := evict_oldest (jc_max_size self) order (jc_cache self) in
  mkJobCache (moka_insert job_id job kept.2) kept.1 (jc_max_size self).

(** [src/src/node_integration/job_cache.rs:47-49 JobCache::get] *)
Definition get_job (self : JobCache) (job_id : string) : option MiningJob :=
  moka_get (jc_cache self) job_id.

(** [src/src/node_integration/job_cache.rs:52-58 JobCache::get_latest] *)
Definition get_latest (self : JobCache) : option MiningJob :=
  latest_job_id ← last (jc_job_order self);
  moka_get (jc_cache self) latest_job_id.

(** [src/src/node_integration/job_cache.rs:61-69 JobCache::get_latest_target_hex] *)
Definition get_latest_target_hex (self : JobCache) : option string :=
  latest_job_id ← last (jc_job_order self);
  job ← moka_get (jc_cache self) latest_job_id;
  Some (j_network_target_hex job).

(** [src/src/node_integration/job_cache.rs:72-75 JobCache::len] *)
Definition len (self : JobCache) : nat := length (jc_job_order self).

(** [src/src/node_integration/job_cache.rs:78-81 JobCache::is_empty] *)
Definition is_empty (self : JobCache) : bool :=
  match jc_job_order self with [] => true | _ => false end.

(** [src/src/node_integration/job_cache.rs:84-88 JobCache::clear] *)
Definition clear (self : JobCache) : JobCache :=
  mkJobCache (moka_invalidate_all (jc_cache self)) [] (jc_max_size self).

(** * The invariant *)

(** Every job the map still shows is tracked in the order, under its own id, and
    the order is no longer than the configured size. *)
Record cache_inv (self : JobCache) : Prop := {
  ci_len : Z.of_nat (length (jc_job_order self)) ≤ jc_max_size self;
  ci_tracked k w :
    moka_get (jc_cache self) k = Some w → k ∈ jc_job_order self ∧ j_job_id w = k;
  ci_capacity : moka_capacity (jc_cache self) = jc_max_size self;
}.

(** The loop leaves the last [max_size] ids; what it drops is gone from the map
    and nothing else is. *)
Lemma evict_oldest_spec max_size order c :
  0 ≤ max_size →
  let r := evict_oldest max_size order c in
  r.1 = drop (length order - Z.to_nat max_size) order ∧
  moka_capacity r.2 = moka_capacity c ∧
  ∀ k, moka_get r.2 k =
    if bool_decide (k ∈ take (length order - Z.to_nat max_size) order)
    then None else moka_get c k.
Proof.
  intros Hm. revert c. induction order as [|o order IH]; intros c; [done|].
  unfold evict_oldest; fold (evict_oldest max_size).
  destruct (Z.ltb_spec max_size (Z.of_nat (length (o :: order)))) as [Hlt|Hge]; cbn [length] in *.
  - replace (S (length order) - Z.to_nat max_size)%nat
      with (S (length order - Z.to_nat max_size)) by lia. cbn [drop take].
    destruct (IH (moka_invalidate o c)) as (H1 & H2 & H3). split_and!; [done| |].
    + rewrite H2. apply moka_capacity_invalidate.
    + intros k. rewrite H3.
      case_bool_decide as Hin; case_bool_decide as Hin'; try done.
      * exfalso. apply Hin', elem_of_cons. by right.
      * apply elem_of_cons in Hin' as [->|]; [apply moka_get_invalidate|done].
      * apply moka_get_invalidate_ne. intros ->. by apply Hin', elem_of_cons; left.
  - by replace (S (length order) - Z.to_nat max_size)%nat with 0%nat by lia.
Qed.

(** One insertion: the order keeps the last [max_size] ids, the new job is there,
    a dropped id is gone, and every other job stays as it was. *)
Lemma insert_spec job self :
  1 ≤ jc_max_size self → cache_inv self →
  let order := jc_job_order self ++ [j_job_id job] in
  let surplus := (length order - Z.to_nat (jc_max_size self))%nat in
  jc_job_order (insert job self) = drop surplus order ∧
  moka_capacity (jc_cache (insert job self)) = jc_max_size self ∧
  get_job (insert job self) (j_job_id job) = Some job ∧
  ∀ k, k ≠ j_job_id job → get_job (insert job self) k =
    if bool_decide (k ∈ take surplus order) then None else get_job self k.
Proof.
  intros Hm [Hlen Htr Hcap] order surplus. unfold insert, get_job. cbn zeta.
  destruct (evict_oldest_spec (jc_max_size self) order (jc_cache self) ltac:(lia))
    as (H1 & H2 & H3). fold surplus in H1, H3. fold order.
  destruct (evict_oldest (jc_max_size self) order (jc_cache self)) as [kept c] eqn:E.
  cbn [fst snd] in *. subst kept.
  assert (j_job_id job ∈ drop surplus order) as Hin.
  { subst order surplus. rewrite drop_app_le; [apply elem_of_app; right; by apply list_elem_of_singleton|].
    rewrite length_app. simpl. lia. }
  destruct (moka_get_insert c (j_job_id job) job (list_to_set (drop surplus order)))
    as [H4 H5]; [| by apply elem_of_list_to_set | |].
  - intros k w Hk. apply elem_of_list_to_set. rewrite H3 in Hk.
    case_bool_decide as Hd; [done|]. destruct (Htr _ _ Hk) as [Ho _].
    assert (k ∈ order) as Hko by (subst order; apply elem_of_app; by left).
    rewrite <-(take_drop surplus order) in Hko. by apply elem_of_app in Hko as [|].
  - rewrite H2, Hcap. pose proof (size_list_to_set_le (drop surplus order)) as Hs.
    rewrite length_drop in Hs. subst surplus. lia.
  - simpl. split_and!; [done|by rewrite moka_capacity_insert, H2|done|].
    intros k Hk. by rewrite (H5 k Hk), H3.
Qed.

Lemma cache_inv_new max_size : 0 ≤ max_size → cache_inv (JobCache_new max_size).
Proof.
  intros H. split; simpl; [lia| |apply moka_capacity_new].
  intros k w. by rewrite moka_get_new.
Qed.

Lemma cache_inv_clear self : 0 ≤ jc_max_size self → cache_inv self → cache_inv (clear self).
Proof.
  intros H [_ _ Hc]. split; simpl; [lia| |by rewrite moka_capacity_invalidate_all].
  intros k w. by rewrite moka_get_invalidate_all.
Qed.

Lemma cache_inv_insert job self :
  1 ≤ jc_max_size self → cache_inv self → cache_inv (insert job self).
Proof.
  intros Hm HI. destruct (insert_spec job self Hm HI) as (Ho & Hc & Hj & Hk).
  destruct HI as [Hlen Htr _].
  change (jc_max_size (insert job self)) with (jc_max_size self).
  split; [rewrite Ho, length_drop, length_app; simpl; simpl in *; lia| |done].
  intros k w Hget. rewrite Ho.
  destruct (decide (k = j_job_id job)) as [->|Hne].
  - fold (get_job (insert job self) (j_job_id job)) in Hget. rewrite Hj in Hget.
    simplify_eq. split; [|done].
    rewrite drop_app_le; [apply elem_of_app; right; by apply list_elem_of_singleton|].
    rewrite length_app; simpl; lia.
  - fold (get_job (insert job self) k) in Hget. rewrite (Hk k Hne) in Hget.
    case_bool_decide as Hd; [done|]. destruct (Htr _ _ Hget) as [Hin Hid]. split; [|done].
    assert (k ∈ jc_job_order self ++ [j_job_id job]) as Hin' by (apply elem_of_app; by left).
    rewrite <-(take_drop (length (jc_job_order self ++ [j_job_id job])
      - Z.to_nat (jc_max_size self)) (jc_job_order self ++ [j_job_id job])) in Hin'.
    by apply elem_of_app in Hin' as [|].
Qed.

Lemma get_latest_insert job self :
  1 ≤ jc_max_size self → cache_inv self → get_latest (insert job self) = Some job.
Proof.
  intros Hm HI. destruct (insert_spec job self Hm HI) as (Ho & _ & Hg & _).
  unfold get_latest. rewrite Ho, drop_app_le; [|rewrite length_app; simpl; lia].
  by rewrite last_snoc.
Qed.

(** A lookup after an insertion gives the new job or one that was there. *)
Lemma get_job_insert job self k j :
  1 ≤ jc_max_size self → cache_inv self → get_job (insert job self) k = Some j →
  j = job ∨ get_job self k = Some j.
Proof.
  intros Hm HI. destruct (insert_spec job self Hm HI) as (_ & _ & Hg & Hk).
  destruct (decide (k = j_job_id job)) as [->|Hne]; [rewrite Hg; intros [= <-]; by left|].
  rewrite (Hk k Hne). case_bool_decide; [done|by right].
Qed.

(** * Properties *)

(** The jobs published so far, oldest first, into a fresh cache. *)
Definition inserts (jobs : list MiningJob) (self : JobCache) : JobCache :=
  fold_left (λ s j, insert j s) jobs self.

Lemma inserts_snoc jobs job self : inserts (jobs ++ [job]) self = insert job (inserts jobs self).
Proof. unfold inserts. by rewrite fold_left_app. Qed.

Lemma inserts_max_size jobs self : jc_max_size (inserts jobs self) = jc_max_size self.
Proof.
  induction jobs as [|job jobs IH] using rev_ind; [done|].
  rewrite inserts_snoc. exact IH.
Qed.

Lemma inserts_inv jobs self :
  1 ≤ jc_max_size self → cache_inv self → cache_inv (inserts jobs self).
Proof.
  intros Hm HI. induction jobs as [|job jobs IH] using rev_ind; [done|].
  rewrite inserts_snoc. apply cache_inv_insert; [by rewrite inserts_max_size|done].
Qed.

Lemma inserts_order jobs max_size :
  1 ≤ max_size →
  jc_job_order (inserts jobs (JobCache_new max_size)) =
    lastn (Z.to_nat max_size) (map j_job_id jobs).
Proof.
  intros Hm. induction jobs as [|job jobs IH] using rev_ind; [done|].
  rewrite inserts_snoc.
  pose proof (inserts_max_size jobs (JobCache_new max_size)) as Hms. simpl in Hms.
  destruct (insert_spec job (inserts jobs (JobCache_new max_size))) as (Ho & _);
    [by rewrite Hms|apply inserts_inv; [done|apply cache_inv_new; lia]|].
  rewrite Ho, IH, Hms, map_app. cbn [map].
  by rewrite <-(lastn_snoc (Z.to_nat max_size) (map j_job_id jobs)) by lia.
Qed.

(** Splitting the tracked jobs at the ones that are dropped. *)
Lemma split_tracked (old : list MiningJob) (ids : list string) x n id job o :
  ids = map j_job_id old → NoDup (map j_job_id (old ++ [x])) → id ≠ j_job_id x →
  (o = Some job ↔ job ∈ old ∧ j_job_id job = id) →
  (if bool_decide (id ∈ take (length (ids ++ [j_job_id x]) - n) (ids ++ [j_job_id x]))
   then None else o) = Some job ↔
    job ∈ lastn n (old ++ [x]) ∧ j_job_id job = id.
Proof.
  intros -> Hnd Hid Ho.
  change [j_job_id x] with (map j_job_id [x]). rewrite <-map_app.
  unfold lastn. rewrite length_map. set (L := old ++ [x]) in *.
  set (s := (length L - n)%nat).
  rewrite <-(take_drop s L), map_app in Hnd. apply NoDup_app in Hnd as (_ & Hdis & _).
  rewrite firstn_map. case_bool_decide as Hin.
  - split; [done|]. intros [Hj <-]. exfalso. apply (Hdis _ Hin).
    by apply list_elem_of_fmap_2.
  - rewrite Ho. split; intros [Hj <-]; (split; [|done]).
    + assert (job ∈ L) as HL by (subst L; set_solver).
      rewrite <-(take_drop s L) in HL. apply elem_of_app in HL as [HL|]; [|done].
      exfalso. apply Hin. by apply list_elem_of_fmap_2.
    + assert (job ∈ L) as HL by (by eapply elem_of_drop_inv).
      subst L. apply elem_of_app in HL as [|HL]; [done|]. set_solver.
Qed.

(** What the cache shows after a run of insertions of jobs with different ids:
    exactly the last [max_size] of them. *)
Lemma inserts_get jobs max_size id job :
  1 ≤ max_size → NoDup (map j_job_id jobs) →
  get_job (inserts jobs (JobCache_new max_size)) id = Some job ↔
    job ∈ lastn (Z.to_nat max_size) jobs ∧ j_job_id job = id.
Proof.
  intros Hm. revert id job. induction jobs as [|x jobs IH] using rev_ind; intros id job Hnd.
  { unfold inserts, get_job; simpl. rewrite moka_get_new. set_solver. }
  rewrite map_app in Hnd. apply NoDup_app in Hnd as (Hnd & Hfresh & _).
  rewrite inserts_snoc. set (self := inserts jobs (JobCache_new max_size)) in *.
  assert (jc_max_size self = max_size) as Hms by (apply inserts_max_size).
  assert (jc_job_order self = lastn (Z.to_nat max_size) (map j_job_id jobs)) as Hord
    by (by apply inserts_order).
  destruct (insert_spec x self) as (_ & _ & Hx & Hne);
    [lia|apply inserts_inv; [done|apply cache_inv_new; lia]|].
  rewrite Hms, Hord in Hne.
  destruct (decide (id = j_job_id x)) as [->|Hid].
  - rewrite Hx. unfold lastn. rewrite length_app, drop_app_le by (simpl; lia).
    split; [intros [= ->]; split; [set_solver|done]|].
    intros [Hin Hj]. apply elem_of_app in Hin as [Hin|Hin]; [|set_solver].
    exfalso. apply (Hfresh (j_job_id job)); [|rewrite Hj; simpl; set_solver].
    apply list_elem_of_fmap. exists job. split; [done|]. by eapply elem_of_drop_inv.
  - rewrite (Hne id Hid), <-(lastn_snoc (Z.to_nat max_size) jobs x) by lia.
    assert (lastn (Z.to_nat max_size) (map j_job_id jobs) =
      map j_job_id (lastn (Z.to_nat max_size) jobs)) as Hl.
    { unfold lastn. by rewrite length_map, skipn_map. }
    apply split_tracked; [done| |done|by apply IH].
    rewrite map_app, <-Hl. apply NoDup_app. split_and!; [| |apply NoDup_singleton].
    + eapply sublist_NoDup; [exact Hnd|apply sublist_drop].
    + intros i Hi. apply Hfresh. by eapply elem_of_drop_inv.
Qed.

(** What the cache shows under [id], from the jobs newest first: the newest one with the
    id, unless one with that id was dropped later on. An insertion drops the job that was
    inserted [max_size] insertions before it. *)
Fixpoint shown (max_size : nat) (jobs : list MiningJob) (id : string) : option MiningJob :=
  match jobs with
  | [] => None
  | job :: older =>
      if String.eqb (j_job_id job) id then Some job
      else if bool_decide (j_job_id <$> older !! (max_size - 1)%nat = Some id) then None
      else shown max_size older id
  end.

(** The id that an insertion drops, if any. *)
Lemma dropped_id (n : nat) (ids : list string) x :
  (1 ≤ n)%nat → let order := lastn n ids ++ [x] in
  ∀ id, id ∈ take (length order - n) order ↔ reverse ids !! (n - 1)%nat = Some id.
Proof.
  intros Hn order id. unfold order, lastn. rewrite length_app, length_drop. cbn [length].
  destruct (le_lt_dec n (length ids)) as [Hle|Hlt].
  - replace (length ids - (length ids - n) + 1 - n)%nat with 1%nat by lia.
    rewrite reverse_lookup by lia. replace (length ids - S (n - 1))%nat with (length ids - n)%nat by lia.
    destruct (lookup_lt_is_Some_2 ids (length ids - n)) as [y Hy]; [lia|]. rewrite Hy.
    rewrite (drop_S _ _ _ Hy). simpl. rewrite take_0, list_elem_of_singleton. naive_solver.
  - replace (length ids - (length ids - n) + 1 - n)%nat with 0%nat by lia.
    rewrite lookup_ge_None_2 by (rewrite length_reverse; lia). simpl.
    split; [by intros ?%elem_of_nil|done].
Qed.

Lemma inserts_shown jobs max_size id :
  1 ≤ max_size →
  get_job (inserts jobs (JobCache_new max_size)) id =
    shown (Z.to_nat max_size) (reverse jobs) id.
Proof.
  intros Hm. induction jobs as [|x jobs IH] using rev_ind; [apply moka_get_new|].
  rewrite inserts_snoc, reverse_snoc. set (self := inserts jobs (JobCache_new max_size)) in *.
  assert (jc_max_size self = max_size) as Hms by (apply inserts_max_size).
  assert (jc_job_order self = lastn (Z.to_nat max_size) (map j_job_id jobs)) as Hord
    by (by apply inserts_order).
  destruct (insert_spec x self) as (_ & _ & Hx & Hne);
    [lia|apply inserts_inv; [done|apply cache_inv_new; lia]|].
  cbn [shown]. destruct (String.eqb_spec (j_job_id x) id) as [<-|Hid]; [done|].
  rewrite Hne, IH, Hms, Hord by done.
  pose proof (dropped_id (Z.to_nat max_size) (map j_job_id jobs) (j_job_id x) ltac:(lia) id) as Hd.
  change (map j_job_id jobs) with (j_job_id <$> jobs) in *.
  rewrite <-fmap_reverse, list_lookup_fmap in Hd.
  case_bool_decide; case_bool_decide; naive_solver.
Qed.

(** C32: after any sequence of insertions into a fresh cache of size
    at least one, the cache tracks the ids of the last [max_size] jobs, every job
    it still shows is tracked and is shown under its own id, and the latest job is
    the one that was inserted last. A lookup finds the newest job with the id, unless a job
    with the same id has been dropped since: dropping an old entry removes a newer job of
    its id too. So with ids that are all different, and only then in general, a lookup
    finds exactly the last [max_size] jobs. A cleared cache shows nothing. *)
Theorem job_cache_spec jobs max_size :
  1 ≤ max_size →
  let self := inserts jobs (JobCache_new max_size) in
  jc_job_order self = lastn (Z.to_nat max_size) (map j_job_id jobs) ∧
  cache_inv self ∧
  get_latest self = last jobs ∧
  (∀ id, get_job self id = shown (Z.to_nat max_size) (reverse jobs) id) ∧
  (NoDup (map j_job_id jobs) → ∀ id job,
    get_job self id = Some job ↔
      job ∈ lastn (Z.to_nat max_size) jobs ∧ j_job_id job = id) ∧
  (∀ id, get_job (clear self) id = None) ∧ is_empty (clear self) = true.
Proof.
  intros Hm self. assert (cache_inv self) as HI.
  { apply inserts_inv; [done|apply cache_inv_new; lia]. }
  split_and!; [by apply inserts_order|done| |intros id; by apply inserts_shown|
    intros Hnd id job; by apply inserts_get| |done].
  - subst self. destruct jobs as [|x jobs _] using rev_ind; [done|].
    unfold get_latest. rewrite inserts_order, map_app by done.
    unfold lastn. rewrite drop_app_le by (rewrite length_app; simpl; lia).
    cbn [map]. rewrite !last_snoc. simpl. rewrite inserts_snoc.
    assert (jc_max_size (inserts jobs (JobCache_new max_size)) = max_size) as Hms
      by (apply inserts_max_size).
    by destruct (insert_spec x (inserts jobs (JobCache_new max_size))) as (_ & _ & ? & _);
      [lia|apply inserts_inv; [done|apply cache_inv_new; lia]|].
  - intros id. apply moka_get_invalidate_all.
Qed.
End job_cache.

(** * A map that meets the interface *)

(** The simplest bounded map: an insertion that does not fit is refused. *)
Record BoundedMap := mkBoundedMap { bm_entries : gmap string MiningJob; bm_capacity : Z }.

Definition bm_insert (k : string) (v : MiningJob) (c : BoundedMap) : BoundedMap :=
  let m := <[k := v]> (bm_entries c) in
  if Z.of_nat (size m) <=? bm_capacity c then mkBoundedMap m (bm_capacity c) else c.

Lemma bm_insert_fits c k v (keys : gset string) :
  (∀ k' w, bm_entries c !! k' = Some w → k' ∈ keys) → k ∈ keys →
  Z.of_nat (size keys) ≤ bm_capacity c →
  bm_entries (bm_insert k v c) = <[k := v]> (bm_entries c).
Proof.
  intros Hk Hin Hs. unfold bm_insert. rewrite <-(size_dom (D := gset string)).
  assert (size (dom (<[k := v]> (bm_entries c)) : gset string) ≤ size keys)%nat.
  { apply subseteq_size. intros x. rewrite dom_insert, elem_of_union, elem_of_singleton.
    intros [->|[w Hw]%elem_of_dom]; [done|by eapply Hk]. }
  by rewrite (proj2 (Z.leb_le _ _)) by lia.
Qed.

#[global] Program Instance BoundedMap_moka : MokaCache BoundedMap := {|
  moka_new n := mkBoundedMap ∅ n;
  moka_get c k := bm_entries c !! k;
  moka_insert := bm_insert;
  moka_invalidate k c := mkBoundedMap (delete k (bm_entries c)) (bm_capacity c);
  moka_invalidate_all c := mkBoundedMap ∅ (bm_capacity c);
  moka_capacity := bm_capacity |}.
Next Obligation. done. Qed.
Next Obligation.
  simpl. intros c k v keys H1 H2 H3. rewrite (bm_insert_fits c k v keys) by done.
  split; [apply lookup_insert_eq|intros; by apply lookup_insert_ne].
Qed.
Next Obligation. intros. apply lookup_delete_eq. Qed.
Next Obligation. intros. by apply lookup_delete_ne. Qed.
Next Obligation. done. Qed.
Next Obligation. done. Qed.
Next Obligation. simpl. intros. unfold bm_insert. by destruct (_ <=? _). Qed.
Next Obligation. done. Qed.
Next Obligation. done. Qed.

(** A job that only differs from the others by its id. *)
Definition example_job (id : string) : MiningJob :=
  mkMiningJob id 890 "" "" "" [] "00000001" "10d0091c" "6adc0c6a0000"
    "0000000009d01000000000000000000000000000000000000000000000000000" true 100 1292529
    "" "" 2588 [] 260000000 "".

(** The third job has the id of the first, and goes with it. *)
Lemma job_cache_spec_witness :
  let self := inserts (map example_job ["job-1-1"; "job-2-1"; "job-1-1"; "job-4-1"])
    (JobCache_new (C := BoundedMap) 3) in
  get_latest self = Some (example_job "job-4-1") ∧
  jc_job_order self = ["job-2-1"; "job-1-1"; "job-4-1"] ∧ cache_inv self ∧
  get_job self "job-2-1" = Some (example_job "job-2-1") ∧ get_job self "job-1-1" = None.
Proof.
  destruct (job_cache_spec (C := BoundedMap)
    (map example_job ["job-1-1"; "job-2-1"; "job-1-1"; "job-4-1"]) 3) as (H1 & H2 & H3 & H4 & _);
    [lia|]. split_and!; [exact H3|exact H1|exact H2| |];
    (etransitivity; [apply H4|vm_compute; reflexivity]).
Defined.
