(* ===== verification/Protocol.v ===== *)
(** [stratum_protocol/protocol.rs]: the methods of the protocol, requests,
    responses, and the decoding of one line of input. The JSON parser is the
    library's and a parameter. *)
From Stdlib Require Import ZArith Lia String.
From stdpp Require Import base option list numbers strings sets gmap.
From S2P Require Import Prelude Text Float64 Json Job.
#[local] Open Scope Z_scope.

(** [src/src/stratum_protocol/protocol.rs:5-16 Method] *)
Inductive Method : Type :=
  | Subscribe
  | Authorize
  | Notify
  | SetDifficulty
  | Submit
  | Ping
  | ExtranonceSubscribe
  | SetExtranonce
  | SuggestDifficulty
  | Unknown (name : string).

#[global] Instance Method_eq_dec : EqDecision Method.
Proof. solve_decision. Defined.

(** [src/src/stratum_protocol/protocol.rs:19-32 Method::parse] *)
Definition parse_method (s : string) : Method :=
  if String.eqb s "mining.subscribe" then Subscribe
  else if String.eqb s "mining.authorize" then Authorize
  else if String.eqb s "mining.notify" then Notify
  else if String.eqb s "mining.set_difficulty" then SetDifficulty
  else if String.eqb s "mining.submit" then Submit
  else if String.eqb s "mining.ping" then Ping
  else if String.eqb s "mining.extranonce.subscribe" then ExtranonceSubscribe
  else if String.eqb s "mining.set_extranonce" then SetExtranonce
  else if String.eqb s "mining.suggest_difficulty" then SuggestDifficulty
  else Unknown s.

(** [src/src/stratum_protocol/protocol.rs:36-41 StratumRequest] *)
Record StratumRequest := mkStratumRequest {
  rq_id : Value;
  rq_method : Method;
  rq_params : Value;
}.

(** [src/src/stratum_protocol/protocol.rs:44-48 StratumResponse] *)
Record StratumResponse := mkStratumResponse {
  rs_id : Value;
  rs_result : Value;
  rs_error : Value;
}.

(** [src/src/stratum_protocol/protocol.rs:51-57 StratumResponse::ok] *)
Definition resp_ok (id result : Value) : StratumResponse := mkStratumResponse id result Null.

(** [src/src/stratum_protocol/protocol.rs:59-65 StratumResponse::err] *)
Definition resp_err (id : Value) (code : Z) (message : string) : StratumResponse :=
  mkStratumResponse id Null (Array [json_i64 code; Str message; Null]).

(** [src/src/stratum_protocol/protocol.rs:68-74 StratumResponse::rejected] *)
Definition resp_rejected (id : Value) (code : Z) (message : string) : StratumResponse :=
  mkStratumResponse id (Bool false) (Array [json_i64 code; Str message; Null]).

(** [src/src/stratum_protocol/protocol.rs:78-85 StratumError] *)
Inductive StratumError : Type :=
  | LineTooLong
  | InvalidJson (e : string)
  | InvalidRequestShape.

Definition is_null (v : Value) : bool := match v with Null => true | _ => false end.
Definition is_array (v : Value) : bool := match v with Array _ => true | _ => false end.

(** [src/src/stratum_protocol/protocol.rs:88-111 decode_request_line]
    [from_str] is [serde_json::from_str], with the text of its error. *)
Definition decode_request_line (from_str : string → Value + string) (line : string)
    (max_len : Z) : StratumRequest + StratumError :=
  if max_len <? Z.of_nat (String.length line) then inr LineTooLong
  else
    match from_str line with
    | inr e => inr (InvalidJson e)
    | inl value =>
        match get value "id" with
        | None => inr InvalidRequestShape
        | Some id =>
            match get value "method" ≫= as_str with
            | None => inr InvalidRequestShape
            | Some method =>
                let params := default (Array []) (get value "params") in
                if negb (is_array params) then inr InvalidRequestShape
                else inl (mkStratumRequest id (parse_method method) params)
            end
        end
    end.

(** * Properties *)

(** The wire names of the methods the protocol knows. *)
Definition method_name (m : Method) : string :=
  match m with
  | Subscribe => "mining.subscribe"
  | Authorize => "mining.authorize"
  | Notify => "mining.notify"
  | SetDifficulty => "mining.set_difficulty"
  | Submit => "mining.submit"
  | Ping => "mining.ping"
  | ExtranonceSubscribe => "mining.extranonce.subscribe"
  | SetExtranonce => "mining.set_extranonce"
  | SuggestDifficulty => "mining.suggest_difficulty"
  | Unknown s => s
  end.

Lemma method_name_parse s : method_name (parse_method s) = s.
Proof.
  unfold parse_method.
  repeat (case_match; [symmetry; by apply String.eqb_eq|]). done.
Qed.

(** The request that a well-shaped JSON value stands for. *)
Record request_of (value : Value) (req : StratumRequest) : Prop := {
  ro_id : get value "id" = Some (rq_id req);
  ro_method : get value "method" = Some (Str (method_name (rq_method req)));
  ro_known : rq_method req = parse_method (method_name (rq_method req));
  ro_params : is_array (rq_params req) = true ∧
    (get value "params" = Some (rq_params req) ∨
     get value "params" = None ∧ rq_params req = Array []);
}.

Lemma decode_value_spec from_str line max_len value req :
  from_str line = inl value → Z.of_nat (String.length line) ≤ max_len →
  decode_request_line from_str line max_len = inl req ↔ request_of value req.
Proof.
  intros Hv Hl. unfold decode_request_line. rewrite (proj2 (Z.ltb_ge _ _)), Hv by lia.
  split.
  - destruct (get value "id") as [id|] eqn:Ei; [|done].
    destruct (get value "method") as [[| | |m| |]|] eqn:Em; try done. simpl.
    destruct (is_array (default (Array []) (get value "params"))) eqn:Ep; [|done].
    intros [= <-]. split; simpl; rewrite ?method_name_parse; [done..|].
    destruct (get value "params"); simpl in *; eauto.
  - intros [H1 H2 H3 [H4 H5]]. rewrite H1, H2. simpl. rewrite <-H3.
    destruct req as [id m p]; simpl in *.
    destruct H5 as [->|[-> ->]]; simpl; by rewrite ?H4.
Qed.

(** A line decodes to a request exactly when it is no
    longer than the limit, parses as JSON and has an id, a string method and
    params that are an array or absent (then the empty array), and the method of
    the request is the one the wire name stands for; a line that is too long is
    refused before it is parsed, and a parsed value of another shape is refused
    as such. *)
Theorem decode_request_spec from_str line max_len :
  match decode_request_line from_str line max_len with
  | inl req => Z.of_nat (String.length line) ≤ max_len ∧
      ∃ value, from_str line = inl value ∧ request_of value req
  | inr LineTooLong => max_len < Z.of_nat (String.length line)
  | inr (InvalidJson e) => Z.of_nat (String.length line) ≤ max_len ∧ from_str line = inr e
  | inr InvalidRequestShape => Z.of_nat (String.length line) ≤ max_len ∧
      ∃ value, from_str line = inl value ∧ ∀ req, ¬ request_of value req
  end.
Proof.
  destruct (Z.ltb_spec max_len (Z.of_nat (String.length line))) as [Hl|Hl].
  { unfold decode_request_line. by rewrite (proj2 (Z.ltb_lt _ _)). }
  destruct (from_str line) as [value|e] eqn:Hv.
  - pose proof (λ req, decode_value_spec from_str line max_len value req Hv Hl) as Hspec.
    destruct (decode_request_line from_str line max_len) as [req|err] eqn:Hd.
    + split; [done|]. exists value. split; [done|]. by apply Hspec.
    + assert (err = InvalidRequestShape) as ->.
      { revert Hd. unfold decode_request_line.
        rewrite (proj2 (Z.ltb_ge _ _)), Hv by lia.
        repeat case_match; congruence. }
      split; [done|]. exists value. split; [done|].
      intros req Hr. by apply Hspec in Hr.
  - unfold decode_request_line. by rewrite (proj2 (Z.ltb_ge _ _)), Hv by lia.
Qed.
