(* ===== verification/Session.v ===== *)
(** [stratum_protocol/session.rs]: the state of one miner connection, the
    [mining.subscribe] and [mining.authorize] handlers, the jobs assigned to the
    miner, and worker names. Whether a string is a Lotus address is decided by the
    address library, a parameter. *)
From Stdlib Require Import ZArith Lia String Ascii.
From stdpp Require Import base option list numbers strings sets gmap.
From S2P Require Import Prelude Text Float64 VarDiff Json Job Protocol.
#[local] Open Scope Z_scope.

(** [str::parse::<LotusAddress>]: nothing for an address, else the error text. *)
Class LotusAddress := { address_error : string → option string }.

(** [src/src/stratum_protocol/session.rs:11-15 AssignedJob] *)
Record AssignedJob := mkAssignedJob {
  aj_job_id : string;
  aj_p_diff : f64;
  aj_ntime : string;
}.

(** [src/src/stratum_protocol/session.rs:18-30 SessionState] *)
Record SessionState := mkSessionState {
  ss_session_id : string;
  ss_extranonce1 : string;
  ss_extranonce2_size : Z;
  ss_is_subscribed : bool;
  ss_is_authorized : bool;
  ss_authorized_workers : gset string;
  ss_assigned_jobs : list AssignedJob;
  ss_vardiff : VarDiff;
}.

(** [src/src/stratum_protocol/session.rs:33-49 SessionState::new] *)
Definition SessionState_new (session_id extranonce1 : string) (vardiff_config : VarDiffConfig)
    (n_diff : f64) (now : Z) : result SessionState :=
  vardiff ← VarDiff_new vardiff_config n_diff now;
  Ok (mkSessionState session_id extranonce1 EXTRANONCE_2_SIZE false false ∅ [] vardiff).

(** [src/src/stratum_protocol/session.rs:51-62 SessionState::handle_subscribe] *)
Definition handle_subscribe (req : StratumRequest) (self : SessionState) :
    StratumResponse * SessionState :=
  let self' := mkSessionState (ss_session_id self) (ss_extranonce1 self)
    (ss_extranonce2_size self) true (ss_is_authorized self) (ss_authorized_workers self)
    (ss_assigned_jobs self) (ss_vardiff self) in
  let result := Array
    [Array [Array [Str "mining.set_difficulty"; Str (ss_session_id self)];
            Array [Str "mining.notify"; Str (ss_session_id self)]];
     Str (ss_extranonce1 self); Number (PosInt (ss_extranonce2_size self))] in
  (resp_ok (rq_id req) result, self').

(** [src/src/stratum_protocol/session.rs:131-134 WorkerName] *)
Record WorkerName := mkWorkerName {
  wn_payout_address : string;
  wn_worker_suffix : option string;
}.

#[global] Instance WorkerName_eq_dec : EqDecision WorkerName.
Proof. solve_decision. Defined.

Section session.
Context {la : LotusAddress}.

(** [src/src/stratum_protocol/session.rs:112-128 parse_worker_name] *)
Definition parse_worker_name (input : string) : result WorkerName :=
  let '(address, suffix) := split_once "." input in
  match address_error address with
  | Some e => Err (Anyhow ("invalid lotus address: " ++ e)%string)
  | None =>
      if match suffix with Some s => String.eqb s "" | None => false end
      then Err (Anyhow "worker suffix must not be empty when '.' is present")
      else Ok (mkWorkerName address suffix)
  end.

(** [arr.get(i).and_then(|v| v.as_str()).unwrap_or_default()] *)
Definition str_param (arr : list Value) (i : nat) : string :=
  default ""%string (arr !! i ≫= as_str).

(** [src/src/stratum_protocol/session.rs:64-79 SessionState::handle_authorize] *)
Definition handle_authorize (req : StratumRequest) (self : SessionState) :
    StratumResponse * SessionState :=
  if negb (ss_is_subscribed self) then (resp_err (rq_id req) 25 "not-subscribed", self)
  else
    let arr := default [] (as_array (rq_params req)) in
    let worker := str_param arr 0 in
    if negb (is_ok (parse_worker_name worker))
    then (resp_err (rq_id req) 24 "unauthorized-worker", self)
    else
      (resp_ok (rq_id req) (Bool true),
       mkSessionState (ss_session_id self) (ss_extranonce1 self) (ss_extranonce2_size self)
         (ss_is_subscribed self) true ({[worker]} ∪ ss_authorized_workers self)
         (ss_assigned_jobs self) (ss_vardiff self)).
End session.

Definition set_assigned_jobs (jobs : list AssignedJob) (self : SessionState) : SessionState :=
  mkSessionState (ss_session_id self) (ss_extranonce1 self) (ss_extranonce2_size self)
    (ss_is_subscribed self) (ss_is_authorized self) (ss_authorized_workers self)
    jobs (ss_vardiff self).

(** [src/src/stratum_protocol/session.rs:83-92 SessionState::record_assigned_job] *)
Definition record_assigned_job (job_id : string) (p_diff : f64) (ntime : string)
    (self : SessionState) : SessionState :=
  let jobs :=
    if (MAX_ASSIGNED_JOBS_PER_SESSION <=? length (ss_assigned_jobs self))%nat
    then tail (ss_assigned_jobs self) else ss_assigned_jobs self in
  set_assigned_jobs (jobs ++ [mkAssignedJob job_id p_diff ntime]) self.

(** [src/src/stratum_protocol/session.rs:95-97 SessionState::get_assigned_job] *)
Definition get_assigned_job (self : SessionState) (job_id : string) : option AssignedJob :=
  List.find (λ j, String.eqb (aj_job_id j) job_id) (ss_assigned_jobs self).

(** [src/src/stratum_protocol/session.rs:101-103 SessionState::clear_assigned_jobs] *)
Definition clear_assigned_jobs (self : SessionState) : SessionState := set_assigned_jobs [] self.

(** [src/src/stratum_protocol/session.rs:107-109 SessionState::current_difficulty] *)
Definition current_difficulty (self : SessionState) : f64 := current (ss_vardiff self).

Definition set_vardiff (v : VarDiff) (self : SessionState) : SessionState :=
  mkSessionState (ss_session_id self) (ss_extranonce1 self) (ss_extranonce2_size self)
    (ss_is_subscribed self) (ss_is_authorized self) (ss_authorized_workers self)
    (ss_assigned_jobs self) v.

(** * Worker names *)

(** The name a miner sends for a worker. *)
Definition render_worker_name (w : WorkerName) : string :=
  match wn_worker_suffix w with
  | None => wn_payout_address w
  | Some s => (wn_payout_address w ++ String "." s)%string
  end.

Lemma split_once_sep c l r :
  str_has c l = false → split_once c (l ++ String c r)%string = (l, Some r).
Proof.
  unfold str_has. rewrite negb_false_iff.
  induction l as [|d l IH]; simpl; [by rewrite Ascii.eqb_refl|].
  rewrite andb_true_iff, negb_true_iff. intros [Hd Hl].
  rewrite Ascii.eqb_sym, Hd. by rewrite IH.
Qed.

Lemma split_once_none c l : str_has c l = false → split_once c l = (l, None).
Proof.
  unfold str_has. rewrite negb_false_iff.
  induction l as [|d l IH]; simpl; [done|].
  rewrite andb_true_iff, negb_true_iff. intros [Hd Hl].
  rewrite Ascii.eqb_sym, Hd. by rewrite IH.
Qed.

Section session_props.
Context {la : LotusAddress}.

(** C35: a worker name parses to an address and a suffix
    exactly when the two are a valid address without a dot and no empty suffix,
    and the name is the two of them joined by a dot; so parsing what was printed
    gives the worker back, and two different names never parse to one worker. *)
Theorem worker_name_roundtrip (name : string) (w : WorkerName) :
  parse_worker_name name = Ok w ↔
    name = render_worker_name w ∧ str_has "." (wn_payout_address w) = false ∧
    address_error (wn_payout_address w) = None ∧ wn_worker_suffix w ≠ Some ""%string.
Proof.
  unfold parse_worker_name, render_worker_name. split.
  - pose proof (split_once_spec "." name) as Hs.
    destruct (split_once "." name) as [a o].
    destruct (address_error a) eqn:Ea; [done|].
    destruct o as [s|]; [|by destruct Hs as [-> ?]; intros [= <-]; split_and!].
    destruct Hs as [-> ?]. destruct (String.eqb_spec s ""); [done|].
    intros [= <-]. simpl. split_and!; congruence.
  - destruct w as [a [s|]]; simpl; intros (-> & Hd & He & Hs).
    + rewrite (split_once_sep "." a s Hd), He.
      destruct (String.eqb_spec s ""); [by subst|done].
    + by rewrite (split_once_none "." a Hd), He.
Qed.

(** * The session's invariant *)

Record session_wf (s : SessionState) : Prop := {
  sw_authorized : ss_is_authorized s = true ↔ ss_authorized_workers s ≠ ∅;
  sw_subscribed : ss_is_authorized s = true → ss_is_subscribed s = true;
  sw_workers w : w ∈ ss_authorized_workers s → is_ok (parse_worker_name w) = true;
  sw_assigned : (length (ss_assigned_jobs s) ≤ MAX_ASSIGNED_JOBS_PER_SESSION)%nat;
}.

Lemma session_wf_new id en cfg n now s :
  SessionState_new id en cfg n now = Ok s → session_wf s.
Proof.
  unfold SessionState_new, mbind, result_bind.
  destruct (VarDiff_new cfg n now); intros [= <-]. split; simpl; [done|done|set_solver|lia].
Qed.

Lemma session_wf_subscribe req s : session_wf s → session_wf (handle_subscribe req s).2.
Proof. intros [H1 H2 H3 H4]. by split. Qed.

Lemma session_wf_authorize req s : session_wf s → session_wf (handle_authorize req s).2.
Proof.
  intros [H1 H2 H3 H4]. unfold handle_authorize.
  destruct (ss_is_subscribed s) eqn:Es; simpl; [|by split; rewrite ?Es; auto].
  destruct (is_ok _) eqn:Ep; simpl; [|by split].
  split; simpl; [set_solver|done| |done].
  intros w. rewrite elem_of_union, elem_of_singleton. intros [->|?]; auto.
Qed.

Lemma record_assigned_length id d t s :
  (length (ss_assigned_jobs s) ≤ MAX_ASSIGNED_JOBS_PER_SESSION)%nat →
  (length (ss_assigned_jobs (record_assigned_job id d t s)) ≤ MAX_ASSIGNED_JOBS_PER_SESSION)%nat.
Proof.
  intros H. unfold record_assigned_job. cbn [ss_assigned_jobs set_assigned_jobs].
  rewrite length_app. cbn [length].
  destruct (Nat.leb_spec MAX_ASSIGNED_JOBS_PER_SESSION (length (ss_assigned_jobs s))); [|lia].
  destruct (ss_assigned_jobs s); cbn [length tail] in *; [|lia].
  unfold MAX_ASSIGNED_JOBS_PER_SESSION in *. lia.
Qed.

Lemma session_wf_record id d t s : session_wf s → session_wf (record_assigned_job id d t s).
Proof. intros [H1 H2 H3 H4]. split; [done..|]. by apply record_assigned_length. Qed.

Lemma session_wf_clear s : session_wf s → session_wf (clear_assigned_jobs s).
Proof. intros [H1 H2 H3 H4]. split; [done..|]. simpl. lia. Qed.

Lemma session_wf_vardiff v s : session_wf s → session_wf (set_vardiff v s).
Proof. intros [H1 H2 H3 H4]. by split. Qed.

(** [mining.authorize] before [mining.subscribe] is refused with
    code 25 and a name that is not a worker name with code 24, both leaving the
    session as it was; otherwise the answer is [true], the named worker (and no
    other) joins the authorized ones, and the session is authorized. *)
Theorem authorize_spec (req : StratumRequest) (s : SessionState) :
  let worker := str_param (default [] (as_array (rq_params req))) 0 in
  let r := handle_authorize req s in
  match ss_is_subscribed s, parse_worker_name worker with
  | false, _ => r = (resp_err (rq_id req) 25 "not-subscribed", s)
  | true, Ok w =>
      r.1 = resp_ok (rq_id req) (Bool true) ∧ ss_is_authorized r.2 = true ∧
      ss_assigned_jobs r.2 = ss_assigned_jobs s ∧ ss_vardiff r.2 = ss_vardiff s ∧
      (∀ x, x ∈ ss_authorized_workers r.2 ↔
        x = render_worker_name w ∨ x ∈ ss_authorized_workers s)
  | true, _ => r = (resp_err (rq_id req) 24 "unauthorized-worker", s)
  end.
Proof.
  cbn zeta. unfold handle_authorize.
  destruct (ss_is_subscribed s); [|done]. simpl.
  destruct (parse_worker_name _) as [w|e|] eqn:Ew; [|done..]. simpl.
  split_and!; [done..|]. intros x.
  rewrite elem_of_union, elem_of_singleton.
  assert (str_param (default [] (as_array (rq_params req))) 0 = render_worker_name w) as ->.
  { unfold parse_worker_name in Ew. pose proof (split_once_spec "."
      (str_param (default [] (as_array (rq_params req))) 0)) as Hs.
    destruct (split_once _ _) as [a [t|]]; destruct (address_error a); try done;
      repeat case_match; simplify_eq; by destruct Hs. }
  done.
Qed.
End session_props.

(** * Assigned jobs *)

Definition record_all (rs : list AssignedJob) (s : SessionState) : SessionState :=
  fold_left (λ s r, record_assigned_job (aj_job_id r) (aj_p_diff r) (aj_ntime r) s) rs s.

Lemma record_all_jobs rs s :
  (length (ss_assigned_jobs s) ≤ MAX_ASSIGNED_JOBS_PER_SESSION)%nat →
  ss_assigned_jobs (record_all rs s) =
    lastn MAX_ASSIGNED_JOBS_PER_SESSION (ss_assigned_jobs s ++ rs).
Proof.
  revert s. induction rs as [|r rs IH]; intros s Hs.
  { rewrite app_nil_r. unfold lastn. by rewrite (proj2 (Nat.sub_0_le _ _)). }
  simpl. rewrite IH by (by apply record_assigned_length).
  unfold record_assigned_job. destruct r as [i d t].
  cbn [ss_assigned_jobs set_assigned_jobs aj_job_id aj_p_diff aj_ntime].
  assert (MAX_ASSIGNED_JOBS_PER_SESSION ≠ 0%nat) by done.
  destruct (Nat.leb_spec MAX_ASSIGNED_JOBS_PER_SESSION (length (ss_assigned_jobs s))).
  - destruct (ss_assigned_jobs s) as [|j js]; cbn [length tail] in *; [lia|].
    rewrite <-app_assoc. cbn [app]. unfold lastn.
    change (j :: js ++ mkAssignedJob i d t :: rs) with ([j] ++ (js ++ mkAssignedJob i d t :: rs)).
    rewrite (length_app [j]). cbn [length].
    replace (1 + length (js ++ mkAssignedJob i d t :: rs) - MAX_ASSIGNED_JOBS_PER_SESSION)%nat
      with (S (length (js ++ mkAssignedJob i d t :: rs) - MAX_ASSIGNED_JOBS_PER_SESSION));
      [done|]. rewrite length_app. cbn [length]. lia.
  - by rewrite <-app_assoc.
Qed.

Lemma find_NoDup_Some {A} (key : A → string) (l : list A) k x :
  NoDup (map key l) →
  List.find (λ y, String.eqb (key y) k) l = Some x ↔ x ∈ l ∧ key x = k.
Proof.
  induction l as [|y l IH]; simpl; [set_solver|]. intros [Hy Hl]%NoDup_cons.
  destruct (String.eqb_spec (key y) k) as [<-|Hne].
  - split; [intros [= ->]; set_solver|]. intros [[->|Hx]%elem_of_cons Hk]; [done|].
    destruct Hy. rewrite <-Hk. by apply list_elem_of_fmap_2.
  - rewrite (IH Hl). set_solver.
Qed.

Lemma find_head_filter {A} (P : A → bool) l : List.find P l = head (List.filter P l).
Proof. induction l as [|x l IH]; simpl; [done|]. by destruct (P x). Qed.

(** A session remembers the last 128 jobs that it assigned
    since the assignments were cleared, in their order; a lookup returns the
    oldest remembered assignment of an id, hence, when the ids are all
    different, exactly the remembered assignments, and nothing after a clear. *)
Theorem assigned_jobs_spec (rs : list AssignedJob) (s : SessionState) :
  let s' := record_all rs (clear_assigned_jobs s) in
  let kept := lastn MAX_ASSIGNED_JOBS_PER_SESSION rs in
  ss_assigned_jobs s' = kept ∧
  (∀ id, get_assigned_job s' id =
    head (List.filter (λ r, String.eqb (aj_job_id r) id) kept)) ∧
  (∀ id, get_assigned_job s' id = None ↔ ∀ r, r ∈ kept → aj_job_id r ≠ id) ∧
  (NoDup (map aj_job_id rs) →
    ∀ id r, get_assigned_job s' id = Some r ↔ r ∈ kept ∧ aj_job_id r = id) ∧
  ∀ id, get_assigned_job (clear_assigned_jobs s') id = None.
Proof.
  intros s' kept.
  assert (ss_assigned_jobs s' = kept) as Hk by (apply record_all_jobs; simpl; lia).
  unfold get_assigned_job. rewrite Hk. split_and!; [done| | | |done].
  - intros id. apply find_head_filter.
  - intros id. split.
    + intros Hn r Hr Hid. apply list_elem_of_In in Hr.
      pose proof (find_none _ _ Hn _ Hr) as Hf. simpl in Hf. by rewrite Hid, String.eqb_refl in Hf.
    + intros Hn. destruct (List.find _ _) as [r|] eqn:E; [|done].
      apply find_some in E as [Hr Hid]. apply String.eqb_eq in Hid.
      by apply list_elem_of_In, Hn in Hr.
  - intros Hnd id r. apply find_NoDup_Some.
    eapply sublist_NoDup; [exact Hnd|]. unfold kept, lastn. rewrite <-skipn_map.
    apply sublist_drop.
Qed.
