(* ===== verification/Validator.v ===== *)
(** [share_processing/validator.rs]: the validation of a submitted share, and
    [node_integration/block_builder.rs]: the block that is built from it. The
    Lotus header and block codecs, the hashes and the big integers are library
    code: a parameter with the documented sizes. *)
From Stdlib Require Import ZArith Lia String Ascii Init.Byte.
From stdpp Require Import base option list numbers strings sets gmap.
From S2P Require Import Prelude Text Float64 VarDiff Json Job Protocol Session.
#[local] Open Scope Z_scope.

(** The value of a byte string, most significant byte first. *)
Definition be_value (bs : list byte) : Z :=
  fold_left (λ acc b, acc * 256 + Z.of_N (Byte.to_N b)) bs 0.

(** What [build_stratum_header] is given: the four parts of the coinbase, the
    branches and the fields of the header. *)
Record HeaderFields := mkHeaderFields {
  hf_coinbase1 : string;
  hf_extranonce1 : string;
  hf_extranonce2 : string;
  hf_coinbase2 : string;
  hf_merkle_branches : list string;
  hf_prevhash : string;
  hf_version : string;
  hf_nbits : string;
  hf_ntime : string;
  hf_nonce : string;
  hf_height : option Z;
  hf_epoch_hash : option string;
  hf_extended_metadata_hash : option string;
  hf_block_size : option Z;
}.

(** The Lotus libraries: [bitcoinsuite_bitcoind_stratum] (headers, targets),
    [bitcoinsuite_core] (the codecs and the hash of a header), [hex] and
    [primitive_types]. A Lotus hash has 32 bytes, a 256-bit integer of 32 bytes is
    their big-endian value. An output of a transaction is its value and whether its
    script is an [OP_RETURN]. *)
Class LotusLib := {
  LotusHeader : Type;
  LotusTx : Type;
  LotusMeta : Type;
  build_stratum_header : HeaderFields → option (list byte);
  header_deser : list byte → option LotusHeader;
  calc_hash : LotusHeader → list byte;
  header_meets_difficulty : list byte → f64 → option bool;
  hex_encode : list byte → string;
  u256_from_big_endian : list byte → Z;
  block_deser : list byte → option (LotusHeader * LotusMeta * list LotusTx);
  block_ser : LotusHeader * LotusMeta * list LotusTx → list byte;
  tx_deser : list byte → option LotusTx;
  tx_ser : LotusTx → list byte;
  tx_outputs : LotusTx → list (Z * bool);
  update_merkle_root : LotusHeader → list LotusTx → LotusHeader;
  header_height : LotusHeader → Z;
  header_epoch_hash : LotusHeader → string;
  header_extended_metadata_hash : LotusHeader → string;
  calc_hash_length h : length (calc_hash h) = 32%nat;
  u256_value bs : length bs = 32%nat → u256_from_big_endian bs = be_value bs;
}.

(** [src/src/share_processing/validator.rs:13-24 ValidationResult] *)
Record ValidationResult := mkValidationResult {
  v_accepted : bool;
  v_reject_reason : option string;
  v_low_diff_ok : bool;
  v_network_target_ok : bool;
  v_block_hash : option string;
}.

(** [src/src/share_processing/validator.rs:28-36 ValidationResult::rejected] *)
Definition rejected (reason : string) : ValidationResult :=
  mkValidationResult false (Some reason) false false None.

(** [char::is_ascii_hexdigit] *)
Definition is_hexdigit (c : ascii) : bool :=
  let n := Z.of_N (N_of_ascii c) in
  ((48 <=? n) && (n <=? 57)) || ((65 <=? n) && (n <=? 70)) || ((97 <=? n) && (n <=? 102)).

(** [src/src/share_processing/validator.rs:45-71 validate_share_format] *)
Definition validate_share_format (extranonce2 ntime nonce : string) : option string :=
  if String.eqb extranonce2 "" || negb (Nat.even (String.length extranonce2))
     || (16 <? String.length extranonce2)%nat then Some "invalid-submit-shape"%string
  else if negb (str_all is_hexdigit extranonce2) then Some "invalid-submit-shape"%string
  else if negb (String.length ntime =? 12)%nat then Some "invalid-submit-shape"%string
  else if negb (str_all is_hexdigit ntime) then Some "invalid-submit-shape"%string
  else if negb (String.length nonce =? 16)%nat then Some "invalid-submit-shape"%string
  else if negb (str_all is_hexdigit nonce) then Some "invalid-submit-shape"%string
  else None.

Section validator.
Context {hashing : Hashing} {lotus : LotusLib}.

(** The arguments that both the validator and the block builder give to
    [build_stratum_header]. *)
Definition header_fields (job : MiningJob) (extranonce1 extranonce2 ntime nonce : string) :
    HeaderFields :=
  mkHeaderFields (j_coinbase1 job) extranonce1 extranonce2 (j_coinbase2 job)
    (j_merkle_branches job) (j_prevhash job) (j_version job) (j_nbits job) ntime nonce
    (Some (j_height job)) (Some (j_epoch_hash job)) (Some (j_extended_metadata_hash job))
    (Some (j_block_size job)).

(** [dst.copy_from_slice(src)] into 32 bytes panics on another length. *)
Definition copy_32 (src : list byte) : result (list byte) :=
  if (length src =? 32)%nat then Ok src else Panic.

(** [src/src/share_processing/validator.rs:170-238 validate_share (part)] Steps 6
    to 8, from the hash of the header on. *)
Definition check_targets (job : MiningJob) (assigned : AssignedJob) (hash_le : list byte) :
    result ValidationResult :=
  hash_bytes ← copy_32 hash_le;
  let hash_be := rev hash_bytes in
  match header_meets_difficulty hash_be (aj_p_diff assigned) with
  | None => Ok (rejected "low-difficulty-share")
  | Some false => Ok (rejected "low-difficulty-share")
  | Some true =>
      match hex_decode (j_network_target_hex job) with
      | None => Ok (rejected "invalid-submit-shape")
      | Some network_target =>
          if negb (length network_target =? 32)%nat then Ok (rejected "invalid-submit-shape")
          else
            let meets_network :=
              u256_from_big_endian hash_be <=? u256_from_big_endian network_target in
            Ok (mkValidationResult true None true meets_network
                  (if meets_network then Some (hex_encode hash_be) else None))
      end
  end.

(** [src/src/share_processing/validator.rs:87-238 validate_share] *)
Definition validate_share (worker_name job_id extranonce2 ntime nonce : string)
    (session : SessionState) (job : MiningJob) : result ValidationResult :=
  if negb (bool_decide (worker_name ∈ ss_authorized_workers session))
  then Ok (rejected "unauthorized-worker")
  else
    match validate_share_format extranonce2 ntime nonce with
    | Some reason => Ok (rejected reason)
    | None =>
        match get_assigned_job session job_id with
        | None => Ok (rejected "stale-job")
        | Some assigned =>
            if negb (String.eqb ntime (aj_ntime assigned)) then Ok (rejected "ntime-mismatch")
            else
              match build_stratum_header
                      (header_fields job (ss_extranonce1 session) extranonce2 ntime nonce) with
              | None => Ok (rejected "invalid-submit-shape")
              | Some header_bytes =>
                  match header_deser header_bytes with
                  | None => Ok (rejected "invalid-submit-shape")
                  | Some header => check_targets job assigned (calc_hash header)
                  end
              end
        end
    end.

(** [src/src/node_integration/block_builder.rs:22-111 build_submit_block] The
    [assert!] on the size of the result panics. *)
Definition build_submit_block (job : MiningJob) (extranonce1 extranonce2 ntime_hex_6b
    nonce_hex_8b : string) (template_block : list byte) : result (string * string) :=
  block ← ok_or (Anyhow "block") (block_deser template_block);
  let '(_, metadata, txs) := block in
  header_bytes ← ok_or (Anyhow "header") (build_stratum_header
                   (header_fields job extranonce1 extranonce2 ntime_hex_6b nonce_hex_8b));
  header ← ok_or (Anyhow "header") (header_deser header_bytes);
  coinbase_bytes ← ok_or (Anyhow "hex")
    (hex_decode (j_coinbase1 job ++ extranonce1 ++ extranonce2 ++ j_coinbase2 job)%string);
  coinbase_tx ← ok_or (Anyhow "tx") (tx_deser coinbase_bytes);
  match txs with
  | [] => Err (Anyhow "template block has no transactions")
  | _ :: txs' =>
      let header' := update_merkle_root header (coinbase_tx :: txs') in
      hash_le ← copy_32 (calc_hash header');
      let serialized := block_ser (header', metadata, coinbase_tx :: txs') in
      if Z.abs (Z.of_nat (length serialized) - as_i64 (j_block_size job)) <=? 1
      then Ok (hex_encode serialized, hex_encode (rev hash_le))
      else Panic
  end.

(** * What makes a share good *)

(** The three submitted fields have the shape the protocol asks for. *)
Definition format_ok (extranonce2 ntime nonce : string) : Prop :=
  (0 < String.length extranonce2 ≤ 16)%nat ∧ Nat.Even (String.length extranonce2) ∧
  String.length ntime = 12%nat ∧ String.length nonce = 16%nat ∧
  str_all is_hexdigit extranonce2 = true ∧ str_all is_hexdigit ntime = true ∧
  str_all is_hexdigit nonce = true.

(** The hash of the header that the share stands for, big-endian. *)
Definition share_hash (session : SessionState) (job : MiningJob)
    (extranonce2 ntime nonce : string) : option (list byte) :=
  header_bytes ← build_stratum_header
    (header_fields job (ss_extranonce1 session) extranonce2 ntime nonce);
  header ← header_deser header_bytes;
  Some (rev (calc_hash header)).

Lemma validate_share_format_ok extranonce2 ntime nonce :
  validate_share_format extranonce2 ntime nonce = None ↔ format_ok extranonce2 ntime nonce.
Proof.
  unfold validate_share_format, format_ok. rewrite <-Nat.even_spec.
  destruct (String.eqb_spec extranonce2 "") as [->|Hne]; simpl.
  { split; [done|]. simpl. lia. }
  assert (0 < String.length extranonce2)%nat by (destruct extranonce2; simpl in *; [done|lia]).
  destruct (Nat.even _); simpl; [|naive_solver].
  destruct (Nat.ltb_spec 16 (String.length extranonce2)); simpl; [split; [done|lia]|].
  destruct (str_all is_hexdigit extranonce2); simpl; [|naive_solver].
  destruct (Nat.eqb_spec (String.length ntime) 12); simpl; [|naive_solver].
  destruct (str_all is_hexdigit ntime); simpl; [|naive_solver].
  destruct (Nat.eqb_spec (String.length nonce) 16); simpl; [|naive_solver].
  destruct (str_all is_hexdigit nonce); simpl; naive_solver lia.
Qed.

Lemma validate_share_format_reason extranonce2 ntime nonce r :
  validate_share_format extranonce2 ntime nonce = Some r → r = "invalid-submit-shape"%string.
Proof. unfold validate_share_format. repeat case_match; congruence. Qed.

(** The checks that lead to acceptance, with the hash and the network target. *)
Record share_valid (worker_name job_id extranonce2 ntime nonce : string)
    (session : SessionState) (job : MiningJob) (hash target : list byte) : Prop := {
  sv_worker : worker_name ∈ ss_authorized_workers session;
  sv_format : format_ok extranonce2 ntime nonce;
  sv_assigned : ∃ a, get_assigned_job session job_id = Some a ∧ ntime = aj_ntime a ∧
    header_meets_difficulty hash (aj_p_diff a) = Some true;
  sv_hash : share_hash session job extranonce2 ntime nonce = Some hash;
  sv_target : hex_decode (j_network_target_hex job) = Some target;
  sv_target_len : length target = 32%nat;
}.

(** The result for a share that passes all the checks. *)
Definition accepted_result (hash target : list byte) : ValidationResult :=
  let block := be_value hash <=? be_value target in
  mkValidationResult true None true block (if block then Some (hex_encode hash) else None).

Definition reject_reasons : list string :=
  ["unauthorized-worker"; "invalid-submit-shape"; "stale-job"; "ntime-mismatch";
   "low-difficulty-share"]%string.

(** The outcome from the hash on. *)
Lemma check_targets_spec job assigned header :
  let hash := rev (calc_hash header) in
  (∃ reason, check_targets job assigned (calc_hash header) = Ok (rejected reason) ∧
    (reason = "low-difficulty-share" ∨ reason = "invalid-submit-shape")%string ∧
    ¬ (header_meets_difficulty hash (aj_p_diff assigned) = Some true ∧
       ∃ t, hex_decode (j_network_target_hex job) = Some t ∧ length t = 32%nat)) ∨
  (∃ target, check_targets job assigned (calc_hash header) = Ok (accepted_result hash target) ∧
    header_meets_difficulty hash (aj_p_diff assigned) = Some true ∧
    hex_decode (j_network_target_hex job) = Some target ∧ length target = 32%nat).
Proof.
  cbn zeta. unfold check_targets, copy_32. rewrite calc_hash_length. simpl.
  destruct (header_meets_difficulty _ _) as [[]|]; [|left; eexists; naive_solver..].
  destruct (hex_decode _) as [t|] eqn:Et; [|left; eexists; naive_solver].
  destruct (Nat.eqb_spec (length t) 32) as [Hl|Hl]; simpl; [|left; eexists; naive_solver].
  right. exists t. split; [|done]. unfold accepted_result.
  rewrite !u256_value; [done|done|]. by rewrite length_rev, calc_hash_length.
Qed.

(** Every share is either rejected for one of five reasons or passes every check. *)
Lemma validate_share_cases worker_name job_id extranonce2 ntime nonce session job :
  let run := validate_share worker_name job_id extranonce2 ntime nonce session job in
  let valid := share_valid worker_name job_id extranonce2 ntime nonce session job in
  (∃ reason, run = Ok (rejected reason) ∧ reason ∈ reject_reasons ∧ ∀ h t, ¬ valid h t) ∨
  (∃ h t, run = Ok (accepted_result h t) ∧ valid h t).
Proof.
  cbn zeta. unfold validate_share. case_bool_decide as Hw; simpl.
  2: { left. eexists. split_and!; [done|set_solver|]. by intros h t []. }
  destruct (validate_share_format _ _ _) as [r|] eqn:Ef.
  { left. exists r. apply validate_share_format_reason in Ef as Hr. subst r.
    split_and!; [done|set_solver|]. intros h t [_ Hf]. apply validate_share_format_ok in Hf.
    congruence. }
  apply validate_share_format_ok in Ef.
  destruct (get_assigned_job _ _) as [a|] eqn:Ea.
  2: { left. eexists. split_and!; [done|set_solver|]. intros h t [_ _ (b & Hb & _)]. congruence. }
  destruct (String.eqb_spec ntime (aj_ntime a)) as [Hn|Hn]; simpl.
  2: { left. eexists. split_and!; [done|set_solver|].
       intros h t [_ _ (b & Hb & Hb' & _)]. congruence. }
  destruct (build_stratum_header _) as [hb|] eqn:Eh.
  2: { left. eexists. split_and!; [done|set_solver|].
       intros h t [_ _ _ Hs]. unfold share_hash in Hs. by rewrite Eh in Hs. }
  destruct (header_deser hb) as [hd|] eqn:Ed.
  2: { left. eexists. split_and!; [done|set_solver|].
       intros h t [_ _ _ Hs]. unfold share_hash in Hs. simpl in Hs. by rewrite Eh in Hs; simpl in Hs; rewrite Ed in Hs. }
  assert (share_hash session job extranonce2 ntime nonce = Some (rev (calc_hash hd))) as Hs.
  { unfold share_hash. rewrite Eh. simpl. by rewrite Ed. }
  destruct (check_targets_spec job a hd) as [(r & -> & Hr & Hno)|(t & -> & H1 & H2 & H3)].
  - left. exists r. split_and!; [done|unfold reject_reasons; set_solver|].
    intros h t [_ _ (b & Hb & _ & Hm) Hh Ht Hl]. destruct Hno.
    assert (h = rev (calc_hash hd)) as -> by congruence.
    assert (b = a) as -> by congruence. eauto.
  - right. exists (rev (calc_hash hd)), t. split; [done|]. split; try done. by exists a.
Qed.

(** C9: the validator always gives a verdict. A share is
    accepted exactly when its worker is authorized in the session, its fields are
    well formed, the job is assigned with the submitted time, the header's hash
    meets the difficulty the job was assigned with, and the network target is
    well formed; it is a block candidate, and carries a block hash, exactly when
    its hash read as a number is also at most the network target; a share that is
    not accepted carries one of five reasons and nothing else. *)
Theorem validate_share_spec worker_name job_id extranonce2 ntime nonce session job :
  let valid := share_valid worker_name job_id extranonce2 ntime nonce session job in
  ∃ v, validate_share worker_name job_id extranonce2 ntime nonce session job = Ok v ∧
    (v_accepted v = true ↔ ∃ h t, valid h t) ∧
    (v_network_target_ok v = true ↔ ∃ h t, valid h t ∧ be_value h ≤ be_value t) ∧
    (∀ s, v_block_hash v = Some s ↔
      ∃ h t, valid h t ∧ be_value h ≤ be_value t ∧ s = hex_encode h) ∧
    (v_low_diff_ok v = v_accepted v) ∧
    (v_accepted v = true ↔ v_reject_reason v = None) ∧
    (∀ r, v_reject_reason v = Some r → r ∈ reject_reasons).
Proof.
  cbn zeta.
  destruct (validate_share_cases worker_name job_id extranonce2 ntime nonce session job)
    as [(r & -> & Hr & Hno)|(h & t & -> & Hv)].
  - exists (rejected r). split_and!; simpl; try done; try naive_solver.
  - exists (accepted_result h t). unfold accepted_result.
    assert (∀ h' t', share_valid worker_name job_id extranonce2 ntime nonce session job h' t' →
      h' = h ∧ t' = t) as Hu.
    { intros h' t' [_ _ _ H1 H2 _]. destruct Hv as [_ _ _ H3 H4 _]. split; congruence. }
    destruct (Z.leb_spec (be_value h) (be_value t)); split_and!; simpl; try done;
      naive_solver lia.
Qed.

(** Which check a rejection names. An unauthorized worker is
    named before anything else; malformed fields next; then a job that is not
    assigned; then another time than the assigned one. *)
Theorem reject_reason_spec worker_name job_id extranonce2 ntime nonce session job :
  let authorized := worker_name ∈ ss_authorized_workers session in
  let formatted := format_ok extranonce2 ntime nonce in
  let reason r := validate_share worker_name job_id extranonce2 ntime nonce session job =
    Ok (rejected r) in
  (¬ authorized ↔ reason "unauthorized-worker"%string) ∧
  (authorized ∧ ¬ formatted → reason "invalid-submit-shape"%string) ∧
  (authorized ∧ formatted ∧ get_assigned_job session job_id = None ↔
    reason "stale-job"%string) ∧
  (authorized ∧ formatted ∧ (∃ a, get_assigned_job session job_id = Some a ∧ ntime ≠ aj_ntime a)
    ↔ reason "ntime-mismatch"%string).
Proof.
  cbn zeta. unfold validate_share. case_bool_decide as Hw; simpl.
  2: { split_and!; try done; naive_solver. }
  destruct (validate_share_format _ _ _) as [r|] eqn:Ef.
  { apply validate_share_format_reason in Ef as Hr. subst r.
    assert (¬ format_ok extranonce2 ntime nonce) as Hf.
    { intros H%validate_share_format_ok. congruence. }
    split_and!; try naive_solver. }
  apply validate_share_format_ok in Ef.
  destruct (get_assigned_job _ _) as [a|] eqn:Ea; [|split_and!; naive_solver].
  destruct (String.eqb_spec ntime (aj_ntime a)) as [Hn|Hn]; simpl;
    [|split_and!; naive_solver].
  assert (∀ r, (match build_stratum_header
      (header_fields job (ss_extranonce1 session) extranonce2 ntime nonce) with
    | None => Ok (rejected "invalid-submit-shape")
    | Some header_bytes =>
        match header_deser header_bytes with
        | None => Ok (rejected "invalid-submit-shape")
        | Some header => check_targets job a (calc_hash header)
        end
    end) = Ok (rejected r) → r = "invalid-submit-shape" ∨ r = "low-difficulty-share")%string
    as Hlate.
  { intros r. repeat case_match; [|naive_solver..].
    destruct (check_targets_spec job a l0) as [(r' & -> & Hr & _)|(t & -> & _)]; naive_solver. }
  split_and!; (split; [naive_solver|]) || naive_solver;
    intros H; apply Hlate in H; naive_solver.
Qed.

(** C27: when a share that is a block candidate is turned into a
    block, and the transactions of the template hash to the root that the branches
    of the job give, the block carries the hash that the validator reported, and
    its first transaction is the coinbase with the miner's extranonces. *)
Theorem built_block_hash worker_name job_id extranonce2 ntime nonce session job v block_hex hash
    header_bytes header hd meta tx txs coinbase_bytes coinbase :
  validate_share worker_name job_id extranonce2 ntime nonce session job = Ok v →
  v_network_target_ok v = true →
  build_submit_block job (ss_extranonce1 session) extranonce2 ntime nonce (j_block_bytes job) =
    Ok (block_hex, hash) →
  build_stratum_header (header_fields job (ss_extranonce1 session) extranonce2 ntime nonce) =
    Some header_bytes →
  header_deser header_bytes = Some header →
  block_deser (j_block_bytes job) = Some (hd, meta, tx :: txs) →
  hex_decode (j_coinbase1 job ++ ss_extranonce1 session ++ extranonce2 ++ j_coinbase2 job)
    = Some coinbase_bytes →
  tx_deser coinbase_bytes = Some coinbase →
  update_merkle_root header (coinbase :: txs) = header →
  v_block_hash v = Some hash ∧
  block_hex = hex_encode (block_ser (header, meta, coinbase :: txs)).
Proof.
  intros Hv Hn Hb Hh Hd Hbl Hc Htx Hroot.
  destruct (validate_share_cases worker_name job_id extranonce2 ntime nonce session job)
    as [(r & E & _ & _)|(h & t & E & Hval)]; rewrite E in Hv; simplify_eq/=.
  assert (h = rev (calc_hash header)) as ->.
  { destruct Hval as [_ _ _ Hs _ _]. unfold share_hash in Hs.
    rewrite Hh in Hs. simpl in Hs. rewrite Hd in Hs. by simplify_eq/=. }
  unfold accepted_result in Hn |- *. simpl in Hn. rewrite Hn. simpl.
  unfold build_submit_block in Hb. rewrite Hbl in Hb. simpl in Hb.
  rewrite Hh in Hb. simpl in Hb. rewrite Hd in Hb. simpl in Hb.
  rewrite Hc in Hb. simpl in Hb. rewrite Htx in Hb. simpl in Hb.
  unfold copy_32 in Hb. rewrite calc_hash_length in Hb. simpl in Hb.
  rewrite Hroot in Hb. by destruct (_ <=? 1); simplify_eq/=.
Qed.
End validator.

(** * Concrete library functions for the examples *)

(** Headers are their own 32-byte hash, here the smallest one, and every text
    decodes to the largest target. *)
#[local] Instance example_target_hashing : Hashing := {|
  hex_decode _ := Some (replicate 32 xff);
  target_to_difficulty _ := Some (f64_of_Z 1) |}.

#[local] Program Instance example_lotus : LotusLib := {|
  LotusHeader := list byte;
  LotusTx := list byte;
  LotusMeta := unit;
  build_stratum_header _ := Some (replicate 32 x00);
  header_deser bs := Some bs;
  calc_hash h := take 32 (h ++ replicate 32 x00);
  header_meets_difficulty _ _ := Some true;
  hex_encode bs := show_u (Z.of_nat (length bs));
  u256_from_big_endian := be_value;
  block_deser bs := Some (bs, tt, [bs]);
  block_ser b := concat b.2;
  tx_deser bs := Some bs;
  tx_ser bs := bs;
  tx_outputs _ := [(130000000, false)];
  update_merkle_root h _ := h;
  header_height _ := 1292529;
  header_epoch_hash _ := "";
  header_extended_metadata_hash _ := "" |}.
Next Obligation.
  intros h. cbn -[take app replicate Nat.min]. rewrite length_take, length_app.
  change (length (replicate 32 x00)) with 32%nat. lia.
Qed.
Next Obligation. done. Qed.

Definition example_worker : string := "lotus_16PSJNf1EDEfGvaYzaXJCJZrXH4pgiTo7kyW61iGi.rig".

(** A session with one authorized worker and one assigned job. *)
Definition example_session : SessionState :=
  mkSessionState "sess-1" "00000001" 4 true true {[example_worker]}
    [mkAssignedJob "job-890-100" (f64_of_Z 1) "6adc0c6a0000"] ex_vardiff.

Definition example_job : MiningJob :=
  mkMiningJob "job-890-100" 890 "" "" "" [] "00000001" "10d0091c" "6adc0c6a0000"
    "0000000009d01000000000000000000000000000000000000000000000000000" true 100 1292529
    "" "" 32 [x00] 260000000 "".

Lemma built_block_hash_witness :
  ∃ v block_hex hash,
    validate_share example_worker "job-890-100" "00000003" "6adc0c6a0000" "B02B4ABB3DD6E835"
      example_session example_job = Ok v ∧
    build_submit_block example_job "00000001" "00000003" "6adc0c6a0000" "B02B4ABB3DD6E835" [x00]
      = Ok (block_hex, hash) ∧ v_block_hash v = Some hash.
Proof.
  exists (mkValidationResult true None true true (Some "32"%string)), "32"%string, "32"%string.
  split; [vm_compute; reflexivity|]. split; [vm_compute; reflexivity|].
  apply (built_block_hash (lotus := example_lotus) example_worker "job-890-100" "00000003"
    "6adc0c6a0000" "B02B4ABB3DD6E835" example_session example_job
    (mkValidationResult true None true true (Some "32"%string)) "32" "32"
    (replicate 32 x00) (replicate 32 x00) [x00] tt [x00] [] (replicate 32 xff)
    (replicate 32 xff)); vm_compute; reflexivity.
Defined.
