(* ===== verification/JsonRpc.v ===== *)
(** [node_integration/json_rpc/client.rs]: the JSON-RPC calls to the node. The
    HTTP exchange (send a body, get a status and a JSON body, or fail) and the
    printer of JSON values are library code and parameters. *)
From Stdlib Require Import ZArith Lia String Ascii.
From stdpp Require Import base option list numbers strings sets gmap.
From S2P Require Import Prelude Text Float64 Json Job.
#[local] Open Scope Z_scope.

(** [src/src/node_integration/json_rpc/client.rs:6-10 SubmitBlockResult] *)
Record SubmitBlockResult := mkSubmitBlockResult {
  sr_accepted : bool;
  sr_block_hash : option string;
  sr_error : option string;
}.

(** How an HTTP exchange can end. *)
Inductive http_response : Type :=
  | HttpError (e : string)
  | BodyError (e : string)
  | HttpBody (status : Z) (body : Value).

Class HttpNode := {
  http_post : Value → http_response;
  display_json : Value → string;
}.

(** [str::contains] *)
Fixpoint str_contains (sub s : string) : bool :=
  starts_with sub s || match s with EmptyString => false | String _ s' => str_contains sub s' end.

Lemma str_contains_app sub a b : str_contains sub (a ++ sub ++ b)%string = true.
Proof.
  induction a as [|c a IH].
  - assert (starts_with sub (sub ++ b) = true) as Hs.
    { unfold starts_with. by rewrite strip_prefix_app. }
    change ("" ++ sub ++ b)%string with (sub ++ b)%string.
    destruct (sub ++ b)%string; simpl; by rewrite Hs.
  - simpl. by rewrite IH, orb_true_r.
Qed.

(** [e.to_string()] of an error that was made with [anyhow!]. *)
Definition error_text (e : error) : string :=
  match e with Anyhow msg => msg | _ => "" end.

Section client.
Context {node : HttpNode}.

(** [src/src/node_integration/json_rpc/client.rs:160-202 JsonRpcClient::call] *)
Definition call (method : string) (params : list Value) : result Value :=
  let request_body := Object
    [("jsonrpc"%string, Str "2.0"); ("id"%string, Number (PosInt 1));
     ("method"%string, Str method); ("params"%string, Array params)] in
  match http_post request_body with
  | HttpError e => Err (Anyhow ("JSON-RPC HTTP error: " ++ e)%string)
  | BodyError e => Err (Anyhow ("JSON-RPC response parse error: " ++ e)%string)
  | HttpBody status body =>
      match get body "error" ≫= as_object with
      | Some error =>
          let code := default (-1) (get error "code" ≫= num_as_i64) in
          let message := default "unknown error"%string (get error "message" ≫= as_str) in
          Err (Anyhow ("JSON-RPC error (code=" ++ show_i code ++ ", http=" ++ show_u status ++
                       "): " ++ message)%string)
      | None =>
          ok_or (Anyhow ("JSON-RPC response missing 'result' field: " ++ display_json body)%string)
            (get body "result")
      end
  end.

(** [src/src/node_integration/json_rpc/client.rs:38-70 JsonRpcClient::submitblock] *)
Definition submitblock (mined_block_hex : string) : result SubmitBlockResult :=
  response ← call "submitblock" [Str mined_block_hex];
  match response with
  | Null => Ok (mkSubmitBlockResult true None None)
  | Str s => Ok (mkSubmitBlockResult false None (Some s))
  | other =>
      Ok (mkSubmitBlockResult false None
            (Some ("unexpected response: " ++ display_json other)%string))
  end.

(** [src/src/node_integration/json_rpc/client.rs:73-79 JsonRpcClient::getblockcount] *)
Definition getblockcount : result Z :=
  response ← call "getblockcount" [];
  count ← ok_or (Anyhow ("getblockcount: unexpected response type: " ++
                         display_json response)%string) (num_as_i64 response);
  Ok (as_i32 count).

(** [src/src/node_integration/json_rpc/client.rs:83-107 JsonRpcClient::getblockhash] *)
Definition getblockhash (height : Z) : result (option string) :=
  match call "getblockhash" [json_i64 height] with
  | Ok val =>
      match as_str val with
      | Some hash => Ok (Some hash)
      | None => Err (Anyhow ("getblockhash: unexpected response type: " ++
                             display_json val)%string)
      end
  | Err e =>
      let err_str := error_text e in
      if str_contains "-8" err_str || str_contains "Block not found" err_str
      then Ok None else Err e
  | Panic => Panic
  end.

(** [src/src/node_integration/json_rpc/client.rs:113-119 JsonRpcClient::get_block] *)
Definition get_block (block_hash : string) : result Value :=
  call "getblock" [Str block_hash; Number (PosInt 2)].

(** [src/src/node_integration/json_rpc/client.rs:125-131 JsonRpcClient::get_raw_transaction] *)
Definition get_raw_transaction (txid : string) : result Value :=
  call "getrawtransaction" [Str txid; Bool true].

(** [src/src/node_integration/json_rpc/client.rs:137-154 JsonRpcClient::send_raw_transaction] *)
Definition send_raw_transaction (signed_tx_hex : string) : result string :=
  response ← call "sendrawtransaction" [Str signed_tx_hex];
  match response with
  | Str txid => Ok txid
  | Null => Err (Anyhow "sendrawtransaction returned null")
  | other => Err (Anyhow ("sendrawtransaction: unexpected response type: " ++
                          display_json other)%string)
  end.

(** * Properties *)

(** What the node answered with a result: no error object and a result member. *)
Definition answered (method : string) (params : list Value) (v : Value) : Prop :=
  ∃ status body, http_post (Object
    [("jsonrpc"%string, Str "2.0"); ("id"%string, Number (PosInt 1));
     ("method"%string, Str method); ("params"%string, Array params)]) = HttpBody status body ∧
    get body "error" ≫= as_object = None ∧ get body "result" = Some v.

Lemma call_ok method params v : call method params = Ok v ↔ answered method params v.
Proof.
  unfold call, answered. destruct (http_post _) as [e|e|st body]; [naive_solver..|].
  split.
  - destruct (get body "error" ≫= as_object) eqn:E; [done|].
    destruct (get body "result") eqn:R; simpl; [|done]. intros [= ->]. eauto.
  - intros (st' & body' & [= -> ->] & -> & ->). done.
Qed.

(** Errors are values: no call panics. *)
Lemma call_no_panic method params : call method params ≠ Panic.
Proof.
  unfold call. destruct (http_post _); [done..|]. destruct (_ ≫= _); [done|].
  by destruct (get _ "result").
Qed.

(** A block counts as accepted exactly when the node answered
    the submission with [null]; a string or any other result is a refusal with a
    reason, and a transport failure, an error object or a missing result is an
    error, never an acceptance. *)
Theorem submitblock_spec (hex : string) :
  (∀ r, submitblock hex = Ok r →
    sr_accepted r = true ↔ answered "submitblock" [Str hex] Null) ∧
  (answered "submitblock" [Str hex] Null → submitblock hex = Ok (mkSubmitBlockResult true None None)) ∧
  (∀ r, submitblock hex = Ok r → sr_accepted r = false → is_Some (sr_error r)) ∧
  ((∀ v, ¬ answered "submitblock" [Str hex] v) → ∃ e, submitblock hex = Err e).
Proof.
  unfold submitblock, mbind, result_bind.
  pose proof (λ v, call_ok "submitblock" [Str hex] v) as Hc.
  pose proof (call_no_panic "submitblock" [Str hex]) as Hp.
  destruct (call "submitblock" [Str hex]) as [v|e|] eqn:E; [| |done].
  - assert (answered "submitblock" [Str hex] v) as Hv by (by apply Hc).
    assert (∀ w, answered "submitblock" [Str hex] w → w = v) as Hu.
    { intros w Hw%Hc. congruence. }
    split_and!.
    + intros r Hr. split; [destruct v; naive_solver|]. intros Hn%Hu. subst v. naive_solver.
    + intros Hn%Hu. by subst v.
    + intros r Hr Ha. destruct v; naive_solver.
    + intros Hno. by destruct (Hno v).
  - split_and!; [done| |done|eauto]. intros H%Hc. done.
Qed.

(** The call gives a hash exactly when the node answered
    with that string. It says that there is no block when the node answered with
    an error object of code -8, whatever the message and the HTTP status; and
    whenever it says so the call had failed with a text that contains "-8" or
    "Block not found": a result that is not a string is an error. *)
Theorem getblockhash_spec (height : Z) :
  let body := Object
    [("jsonrpc"%string, Str "2.0"); ("id"%string, Number (PosInt 1));
     ("method"%string, Str "getblockhash"); ("params"%string, Array [json_i64 height])] in
  (∀ h, getblockhash height = Ok (Some h) ↔ answered "getblockhash" [json_i64 height] (Str h)) ∧
  (∀ status reply error, http_post body = HttpBody status reply →
    get reply "error" ≫= as_object = Some error → get error "code" = Some (Number (NegInt (-8))) →
    getblockhash height = Ok None) ∧
  (getblockhash height = Ok None → (∀ v, ¬ answered "getblockhash" [json_i64 height] v) ∧
    ∃ e, call "getblockhash" [json_i64 height] = Err e ∧
      (str_contains "-8" (error_text e) = true ∨
       str_contains "Block not found" (error_text e) = true)) ∧
  (∀ v, answered "getblockhash" [json_i64 height] v → as_str v = None →
    ∃ e, getblockhash height = Err e).
Proof.
  cbn zeta. unfold getblockhash.
  pose proof (λ v, call_ok "getblockhash" [json_i64 height] v) as Hc. split_and!.
  - intros h. destruct (call "getblockhash" [json_i64 height]) as [v|e|] eqn:E.
    + assert (answered "getblockhash" [json_i64 height] v) as Hv by (by apply Hc).
      split; [destruct v; naive_solver|]. intros Hh%Hc. by simplify_eq/=.
    + split; [by destruct (_ || _)|]. intros Hh%Hc. done.
    + split; [done|]. intros Hh%Hc. done.
  - intros status reply error Hp He Hcode. unfold call. rewrite Hp, He, Hcode. cbn [error_text].
    assert (str_contains "-8" ("JSON-RPC error (code=" ++ "-8" ++ ", http=" ++ show_u status ++
      "): " ++ default "unknown error" (get error "message" ≫= as_str))%string = true) as Hs
      by (by apply str_contains_app).
    change (show_i (default (-1) (Some (Number (NegInt (-8))) ≫= num_as_i64))) with "-8"%string.
    by rewrite Hs.
  - destruct (call "getblockhash" [json_i64 height]) as [v|e|] eqn:E; [by destruct (as_str v)| |done].
    destruct (str_contains "-8" (error_text e) || _) eqn:Ec; [|done]. intros _.
    apply orb_true_iff in Ec. split; [|eauto]. intros v Hv%Hc. congruence.
  - intros v Hv%Hc Hs. rewrite Hv, Hs. eauto.
Qed.
End client.
