(* ===== verification/Signer.v ===== *)
(** [payout/signer/internal.rs] and [payout/signer/external.rs]: the two
    implementations of the [Signer] trait that the payout service calls. Addresses,
    scripts, keys and the signing of a transaction are library code and parameters;
    the transaction that is handed to the library is modelled in full. *)
From Stdlib Require Import ZArith Lia String Init.Byte.
From stdpp Require Import base option list numbers strings sets gmap.
From S2P Require Import Prelude Text Float64 Json Db VarDiff Pplns Plan PayoutService Job JsonRpc.
#[local] Open Scope Z_scope.

(** The transaction builder of the library: one input that spends the coinbase,
    outputs with a fixed value, and at most one that takes what is left. *)
Inductive BuilderOutput (Script : Type) : Type :=
  | Fixed (value : Z) (script : Script)
  | Leftover (script : Script).
Arguments Fixed {Script} _ _.
Arguments Leftover {Script} _.

Record TxBuilder (Txid Script : Type) := mkTxBuilder {
  tb_prev_txid : Txid;
  tb_prev_vout : Z;
  tb_prev_value : Z;
  tb_prev_script : list byte;
  tb_outputs : list (BuilderOutput Script);
}.
Arguments mkTxBuilder {Txid Script} _ _ _ _ _.
Arguments tb_prev_txid {Txid Script} _.
Arguments tb_prev_vout {Txid Script} _.
Arguments tb_prev_value {Txid Script} _.
Arguments tb_prev_script {Txid Script} _.
Arguments tb_outputs {Txid Script} _.

Class TxLib := {
  Txid : Type;
  Script : Type;
  txid_from_hex_be : string → option Txid;
  lotus_address_script : string → option Script;
  tx_sign : Z → Z → TxBuilder Txid Script → result (list byte);
  tx_hex : list byte → string;
}.

(** [src/src/constants.rs:16-18 DUST_LIMIT (part)] *)
Definition DUST_LIMIT : Z := 546.

Section signer.
Context {hashing : Hashing} {txlib : TxLib}.

(** [src/src/payout/signer/internal.rs:154-159 address_to_script] *)
Definition address_to_script (address : string) : result Script :=
  ok_or (Anyhow ("invalid payout address '" ++ address ++ "'")%string)
    (lotus_address_script address).

(** [src/src/payout/signer/internal.rs:131-138 InternalSigner::build_payout_tx (part)] *)
Fixpoint miner_outputs (outputs : list PayoutOutput) : result (list (BuilderOutput Script)) :=
  match outputs with
  | [] => Ok []
  | output :: rest =>
      addr_script ← address_to_script (po_payout_address output);
      others ← miner_outputs rest;
      Ok (Fixed (po_amount output) addr_script :: others)
  end.

(** [src/src/payout/signer/internal.rs:140-147 InternalSigner::build_payout_tx (part)] *)
Definition fee_output (plan : PayoutPlan) : result (list (BuilderOutput Script)) :=
  match pp_pool_fee_address plan with
  | Some fee_address =>
      if 0 <? pp_pool_fee_amount plan then
        fee_script ← address_to_script fee_address;
        Ok [Leftover fee_script]
      else Ok []
  | None => Ok []
  end.

(** [src/src/payout/signer/internal.rs:85-150 InternalSigner::build_payout_tx] *)
Definition build_payout_tx (data : SignedBatchData) : result (TxBuilder Txid Script) :=
  match pp_outputs (sb_plan data) with
  | [] => Err (Anyhow "refusing to build payout tx with zero miner outputs")
  | outputs =>
      coinbase_txid ← ok_or (Anyhow "invalid coinbase txid")
        (txid_from_hex_be (sb_coinbase_txid data));
      coinbase_script ← ok_or (Anyhow "invalid coinbase script hex")
        (hex_decode (sb_coinbase_script_pubkey_hex data));
      miners ← miner_outputs outputs;
      fee ← fee_output (sb_plan data);
      Ok (mkTxBuilder coinbase_txid (sb_coinbase_vout data) (sb_coinbase_amount data)
            coinbase_script (miners ++ fee))
  end.

(** ** Making a signer *)

(** Reading a key, checking it against the curve and deriving its public key are calls of
    libraries, which give the text of their errors. *)
Class KeyLib := {
  SecKey : Type;
  PubKey : Type;
  from_hex_or_wif : string → list byte + string;
  seckey_from_array : list byte → SecKey + string;
  derive_pubkey : SecKey → PubKey;
}.

(** [src/src/payout/signer/internal.rs:22-27 InternalSigner] The client is an argument of the
    calls. *)
Record InternalKey {keys : KeyLib} := mkInternalKey {
  ik_seckey : SecKey;
  ik_pubkey : PubKey;
  ik_tx_fee_per_kb : Z;
}.

(** [src/src/payout/signer/internal.rs:35-58 InternalSigner::new] The conversion to an array of
    32 bytes is an [expect]. *)
Definition internal_new {keys : KeyLib} (private_key : string) (tx_fee_per_kb : Z) :
    result InternalKey :=
  match from_hex_or_wif private_key with
  | inr e => Err (Anyhow ("invalid private key: " ++ e)%string)
  | inl parsed =>
      if (length parsed =? 32)%nat then
        match seckey_from_array parsed with
        | inr e => Err (Anyhow ("invalid private key: " ++ e)%string)
        | inl seckey => Ok (mkInternalKey keys seckey (derive_pubkey seckey) tx_fee_per_kb)
        end
      else Panic
  end.

(** A key is taken exactly when the libraries take it, and none stops the program as long
    as a key that was read has 32 bytes. *)
Lemma internal_new_spec {keys : KeyLib} private_key fee :
  (∀ bytes, from_hex_or_wif private_key = inl bytes → length bytes = 32%nat) →
  internal_new private_key fee ≠ Panic ∧
  ∀ k, internal_new private_key fee = Ok k ↔
    ∃ bytes s, from_hex_or_wif private_key = inl bytes ∧ seckey_from_array bytes = inl s ∧
      k = mkInternalKey keys s (derive_pubkey s) fee.
Proof.
  intros H. unfold internal_new. destruct (from_hex_or_wif private_key) as [bytes|e].
  2: { split; [done|]. intros k. split; [done|]. by intros (b & x & ? & _). }
  rewrite (H bytes eq_refl). cbn [Nat.eqb]. split; [by destruct (seckey_from_array bytes)|].
  intros k. split.
  - destruct (seckey_from_array bytes) as [s|e] eqn:Es; [|done]. intros [= <-]. eauto.
  - by intros (b & x & [= <-] & -> & ->).
Qed.

(** [src/src/payout/signer/internal.rs:63-80 InternalSigner::sign_and_submit] *)
Definition internal_sign_and_submit {node : HttpNode} (tx_fee_per_kb : Z)
    (data : SignedBatchData) : result string :=
  tx_builder ← build_payout_tx data;
  signed_tx ← tx_sign tx_fee_per_kb DUST_LIMIT tx_builder;
  send_raw_transaction (tx_hex signed_tx).

(** [src/src/payout/signer/external.rs:34-46 ExternalSigner::sign_and_submit (part)] *)
Definition output_json (o : PayoutOutput) : Value :=
  Object [("payout_address"%string, Str (po_payout_address o));
          ("worker_id"%string, json_i64 (po_worker_id o));
          ("amount"%string, json_i64 (po_amount o));
          ("dust_carried_forward"%string, json_i64 (po_dust_carried_forward o))].

(** [src/src/payout/signer/external.rs:48-60 ExternalSigner::sign_and_submit (part)] *)
Definition webhook_payload (data : SignedBatchData) : Value :=
  let plan := sb_plan data in
  Object [("retry_key"%string, Str (pp_retry_key plan));
          ("block_hash"%string, Str (pp_block_hash plan));
          ("block_height"%string, json_i64 (pp_block_height plan));
          ("gross_reward"%string, json_i64 (pp_gross_reward plan));
          ("pool_fee_amount"%string, json_i64 (pp_pool_fee_amount plan));
          ("pool_fee_address"%string,
            match pp_pool_fee_address plan with Some a => Str a | None => Null end);
          ("coinbase_txid"%string, Str (sb_coinbase_txid data));
          ("coinbase_vout"%string, Number (PosInt (sb_coinbase_vout data)));
          ("coinbase_amount"%string, json_i64 (sb_coinbase_amount data));
          ("coinbase_script_pubkey_hex"%string, Str (sb_coinbase_script_pubkey_hex data));
          ("outputs"%string, Array (map output_json (pp_outputs plan)))].

(** The answer of a webhook: no answer, or a status and, when asked for, a body
    that is JSON or not. *)
Inductive webhook_answer : Type :=
  | WebhookDown (e : string)
  | WebhookStatus (status : Z) (body : Value + string).

(** [src/src/payout/signer/external.rs:31-86 ExternalSigner::sign_and_submit] *)
Definition external_sign_and_submit (post : Value → webhook_answer) (data : SignedBatchData) :
    result string :=
  match post (webhook_payload data) with
  | WebhookDown e => Err (Anyhow ("external signer HTTP request failed: " ++ e)%string)
  | WebhookStatus status body =>
      if negb ((200 <=? status) && (status <? 300))
      then Err (Anyhow ("external signer returned HTTP " ++ show_u status)%string)
      else
        match body with
        | inr e => Err (Anyhow ("external signer returned invalid JSON: " ++ e)%string)
        | inl v =>
            ok_or (Anyhow "external signer response missing 'txid' field") (get v "txid" ≫= as_str)
        end
  end.

(** * Properties *)

Definition fixed_value (o : BuilderOutput Script) : Z :=
  match o with Fixed v _ => v | Leftover _ => 0 end.

(** An output pays a miner of the plan. *)
Definition pays (o : PayoutOutput) (b : BuilderOutput Script) : Prop :=
  ∃ s, lotus_address_script (po_payout_address o) = Some s ∧ b = Fixed (po_amount o) s.

Lemma miner_outputs_ok outputs bs : miner_outputs outputs = Ok bs ↔ Forall2 pays outputs bs.
Proof.
  revert bs. induction outputs as [|o rest IH]; intros bs; simpl.
  - split; [intros [= <-]; constructor|by intros ->%Forall2_nil_inv_l].
  - unfold address_to_script, mbind, result_bind. split.
    + destruct (lotus_address_script (po_payout_address o)) as [s|] eqn:Es; [|done]. simpl.
      destruct (miner_outputs rest) as [bs'|e|] eqn:Er; [|done..]. intros [= <-].
      constructor; [by exists s|by apply IH].
    + intros (b & bs' & (s & -> & ->) & Hr & ->)%Forall2_cons_inv_l. simpl.
      apply IH in Hr. by rewrite Hr.
Qed.

(** What the last output of a payout transaction is: the pool's address takes what
    is left when a fee is due. *)
Definition fee_of (plan : PayoutPlan) (fee : list (BuilderOutput Script)) : Prop :=
  match pp_pool_fee_address plan with
  | Some a =>
      if 0 <? pp_pool_fee_amount plan
      then ∃ s, lotus_address_script a = Some s ∧ fee = [Leftover s] else fee = []
  | None => fee = []
  end.

Lemma fee_output_ok plan fee : fee_output plan = Ok fee ↔ fee_of plan fee.
Proof.
  unfold fee_output, fee_of, address_to_script, mbind, result_bind.
  destruct (pp_pool_fee_address plan) as [a|]; [|naive_solver].
  destruct (0 <? _); [|naive_solver].
  destruct (lotus_address_script a); simpl; naive_solver.
Qed.

(** C39: a payout transaction is built exactly when the plan pays
    somebody and every address, the coinbase's id and its script are well formed;
    it spends the coinbase output, pays every output of the plan its amount in
    order, and only when a pool fee is due and the pool has an address it has one
    more output that takes what is left. *)
Theorem payout_tx_spec (data : SignedBatchData) (tx : TxBuilder Txid Script) :
  build_payout_tx data = Ok tx ↔
  ∃ miners fee,
    pp_outputs (sb_plan data) ≠ [] ∧
    txid_from_hex_be (sb_coinbase_txid data) = Some (tb_prev_txid tx) ∧
    hex_decode (sb_coinbase_script_pubkey_hex data) = Some (tb_prev_script tx) ∧
    tb_prev_vout tx = sb_coinbase_vout data ∧ tb_prev_value tx = sb_coinbase_amount data ∧
    Forall2 pays (pp_outputs (sb_plan data)) miners ∧ fee_of (sb_plan data) fee ∧
    tb_outputs tx = miners ++ fee.
Proof.
  unfold build_payout_tx, mbind, result_bind. split.
  - destruct (pp_outputs (sb_plan data)) as [|o os] eqn:Eo; [done|].
    destruct (txid_from_hex_be _) as [t|] eqn:Et; [|done]. cbn [ok_or].
    destruct (hex_decode _) as [s|] eqn:Es; [|done]. cbn [ok_or].
    destruct (miner_outputs (o :: os)) as [ms|e|] eqn:Em; [|done..].
    destruct (fee_output _) as [f|e|] eqn:Ef; [|done..]. intros [= <-].
    exists ms, f. apply miner_outputs_ok in Em. apply fee_output_ok in Ef. done.
  - intros (ms & f & Hne & Ht & Hs & Hv & Ha & Hm & Hf & Ho).
    destruct (pp_outputs (sb_plan data)) as [|o os]; [done|].
    rewrite Ht, Hs. cbn [ok_or]. apply miner_outputs_ok in Hm. rewrite Hm.
    apply fee_output_ok in Hf. rewrite Hf. destruct tx as [t v a s outs]. simpl in *. by subst.
Qed.

Lemma pays_total outputs bs :
  Forall2 pays outputs bs → sumZ fixed_value bs = sumZ po_amount outputs.
Proof.
  induction 1 as [|o b os bs (s & _ & ->) _ IH]; [done|]. cbn [sumZ foldr fixed_value] in *. unfold sumZ in IH. lia.
Qed.

(** A payout transaction for a plan that distributes the
    coinbase output never pays more than the output holds: the fixed outputs sum to
    the reward less the pool's fee and less the dust that is carried forward, so
    fee and dust are what is left for the pool's address and the network fee. *)
Theorem payout_tx_within_coinbase (data : SignedBatchData) (tx : TxBuilder Txid Script) :
  build_payout_tx data = Ok tx →
  let plan := sb_plan data in
  sb_coinbase_amount data = pp_gross_reward plan → 0 ≤ pp_pool_fee_amount plan →
  sumZ (λ o, po_amount o + po_dust_carried_forward o) (pp_outputs plan) =
    pp_gross_reward plan - pp_pool_fee_amount plan →
  Forall (λ o, 0 ≤ po_amount o ∧ 0 ≤ po_dust_carried_forward o) (pp_outputs plan) →
  let paid := sumZ fixed_value (tb_outputs tx) in
  paid ≤ tb_prev_value tx ∧
  tb_prev_value tx - paid =
    pp_pool_fee_amount plan + sumZ po_dust_carried_forward (pp_outputs plan).
Proof.
  intros H plan Hc Hfee Hsum Hnn paid.
  assert (∃ ms f, Forall2 pays (pp_outputs plan) ms ∧ fee_of plan f ∧ tb_outputs tx = ms ++ f ∧
    tb_prev_value tx = sb_coinbase_amount data) as (ms & f & Hm & Hf & Ho & Hv).
  { revert H. unfold build_payout_tx, mbind, result_bind. fold plan.
    destruct (pp_outputs plan) as [|o os] eqn:Eo; [done|].
    destruct (txid_from_hex_be _); [|done]. cbn [ok_or].
    destruct (hex_decode _); [|done]. cbn [ok_or].
    destruct (miner_outputs (o :: os)) as [ms|e|] eqn:Em; [|done..].
    destruct (fee_output _) as [f|e|] eqn:Ef; [|done..]. intros [= <-].
    exists ms, f. apply miner_outputs_ok in Em. apply fee_output_ok in Ef. done. }
  assert (sumZ fixed_value f = 0) as Hf0.
  { unfold fee_of in Hf. destruct (pp_pool_fee_address plan); [|by subst].
    destruct (0 <? _); [|by subst]. by destruct Hf as (? & _ & ->). }
  assert (paid = sumZ po_amount (pp_outputs plan)) as Hp.
  { unfold paid. rewrite Ho, sumZ_app, (pays_total _ _ Hm), Hf0. lia. }
  rewrite sumZ_add in Hsum. rewrite Forall_forall in Hnn.
  pose proof (sumZ_nonneg po_dust_carried_forward (pp_outputs plan) ltac:(intros; by apply Hnn)).
  lia.
Qed.

(** The webhook's answer counts as a payment exactly when it
    has a success status and a JSON body with a string as transaction id. *)
Theorem external_signer_spec (post : Value → webhook_answer) (data : SignedBatchData) (txid : string) :
  external_sign_and_submit post data = Ok txid ↔
  ∃ status v, post (webhook_payload data) = WebhookStatus status (inl v) ∧
    200 ≤ status < 300 ∧ get v "txid" = Some (Str txid).
Proof.
  unfold external_sign_and_submit. split.
  - destruct (post _) as [e|st body]; [done|].
    destruct (Z.leb_spec 200 st), (Z.ltb_spec st 300); try done. simpl.
    destruct body as [v|e]; [|done].
    destruct (get v "txid") as [[]|] eqn:Ev; try done. intros [= ->].
    exists st, v. rewrite Ev. auto.
  - intros (st & v & -> & Hst & Ev). rewrite Ev.
    by rewrite (proj2 (Z.leb_le 200 st)), (proj2 (Z.ltb_lt st 300)) by lia.
Qed.
End signer.
