(* ===== verification/Server.v ===== *)
(** [stratum_protocol/server.rs]: accepting a connection, handling one line of
    input, [mining.submit], and a new job. The state of a connection is its
    session, what was written to the miner, and the line that is being read; the
    job cache and the database are shared with the rest of the pool.

    A [write_all] can fail: the [n]-th write of a connection succeeds when
    [se_writes] says so, and a failed write ends the connection. The clock, the
    node behind the JSON-RPC client, and which optional services are present are
    also given by the environment. *)
From Stdlib Require Import ZArith Lia String Ascii Init.Byte.
From stdpp Require Import base option list numbers strings sets gmap.
From S2P Require Import Prelude Text Float64 VarDiff Json Db ShareRepository AccountingService AccountingSystem Job JobCache Protocol Session Validator JsonRpc.
#[local] Open Scope Z_scope.

(** [json!(x)] of a float: a number when it is finite, else [null]. *)
Definition json_f64 (x : f64) : Value := if f64_finite x then Number (Float x) else Null.

(** [serde_json::to_string] of a response. *)
Definition response_json (r : StratumResponse) : Value :=
  Object [("id"%string, rs_id r); ("result"%string, rs_result r); ("error"%string, rs_error r)].

(** A message from the server: [{"id": null, "method": .., "params": ..}] *)
Definition server_message (method : string) (params : Value) : Value :=
  Object [("id"%string, Null); ("method"%string, Str method); ("params"%string, params)].

(** [src/src/stratum_protocol/server.rs:549-555 create_notify] *)
Definition create_notify (job : MiningJob) : Value :=
  server_message "mining.notify" (notify_params job).

Definition set_difficulty (d : f64) : Value :=
  server_message "mining.set_difficulty" (Array [json_f64 d]).

(** * Accepting a connection *)

(** [{:0width$x}] *)
Definition hex_digit (d : Z) : ascii :=
  ascii_of_N (Z.to_N (if d <? 10 then 48 + d else 87 + d)).

Fixpoint show_hex (width : nat) (n : Z) (acc : string) : string :=
  match width with
  | O => acc
  | S w => show_hex w (n `div` 16) (String (hex_digit (n `mod` 16)) acc)
  end.

(** [src/src/stratum_protocol/server.rs:125-135 StratumServer::run (part)] The id
    and the extranonce of the connection with this number; the masked number has
    at most as many digits as the width. *)
Definition connection_ids (count : Z) : string * string :=
  let session_id := ("sess-" ++ show_u count)%string in
  let wrap_mask := Z.shiftl 1 (EXTRANONCE_1_SIZE * 8) - 1 in
  let extranonce1 :=
    show_hex (Z.to_nat EXTRANONCE_1_HEX_CHARS) (Z.land count wrap_mask) "" in
  (session_id, extranonce1).

Section server.
Context {so : SqlOrder} {hashing : Hashing} {lotus : LotusLib} {la : LotusAddress}.
Context {C : Type} {moka : MokaCache C}.

(** [src/src/stratum_protocol/server.rs:125-149 StratumServer::run (part)] *)
Definition accept (vardiff_config : VarDiffConfig) (cache : JobCache (C := C))
    (session_counter : Z) (now : Z) : result SessionState * Z :=
  let count := session_counter + 1 in
  let '(session_id, extranonce1) := connection_ids count in
  let n_diff := default (f64_of_Z 1)
    (job ← get_latest cache;
     network_target_hex_to_difficulty hex_decode target_to_difficulty
       (j_network_target_hex job)) in
  (SessionState_new session_id extranonce1 vardiff_config n_diff now, count).

(** * One connection *)

Record Conn := mkConn {
  cn_session : SessionState;
  cn_cache : JobCache (C := C);
  cn_db : Db;
  cn_line : string;
  cn_sent : list (list Value);
}.

Record ServerEnv := mkServerEnv {
  se_accounting : bool;
  se_json_rpc : option HttpNode;
  se_from_str : string → Value + string;
  se_writes : nat → bool;
}.

Definition set_session (s : SessionState) (c : Conn) : Conn :=
  mkConn s (cn_cache c) (cn_db c) (cn_line c) (cn_sent c).
Definition set_db (d : Db) (c : Conn) : Conn :=
  mkConn (cn_session c) (cn_cache c) d (cn_line c) (cn_sent c).
Definition set_line (l : string) (c : Conn) : Conn :=
  mkConn (cn_session c) (cn_cache c) (cn_db c) l (cn_sent c).
Definition set_sent (w : list (list Value)) (c : Conn) : Conn :=
  mkConn (cn_session c) (cn_cache c) (cn_db c) (cn_line c) w.

Definition on_db {A} (m : DbM A) : M Conn A := λ c,
  let '(r, d) := m (cn_db c) in (r, set_db d c).
Definition on_session (f : SessionState → SessionState) : M Conn unit := λ c,
  (Ok tt, set_session (f (cn_session c)) c).

(** [writer.write_all(..).await?] of a few lines at once. *)
Definition write_all (env : ServerEnv) (lines : list Value) : M Conn unit := λ c,
  if se_writes env (length (cn_sent c))
  then (Ok tt, set_sent (cn_sent c ++ [lines]) c)
  else (Err (Anyhow "write"), c).

(** [src/src/stratum_protocol/server.rs:560-601 record_authorization_event] *)
Definition record_authorization_event (env : ServerEnv) (req : StratumRequest)
    (auth_resp : StratumResponse) (worker_parsed : WorkerName) : M Conn unit :=
  let worker_name := str_param (default [] (as_array (rq_params req))) 0 in
  let authorized := is_null (rs_error auth_resp) in
  let reason :=
    if negb authorized
    then as_array (rs_error auth_resp) ≫= λ a, a !! 1%nat ≫= as_str
    else None in
  if se_accounting env then
    c ← mget;
    mignore (on_db (insert_authorization_event (mkAuthorizationEvent 0
      (ss_session_id (cn_session c)) worker_name (wn_payout_address worker_parsed)
      (wn_worker_suffix worker_parsed) authorized reason)))
  else mret tt.

(** ** [mining.submit] *)

(** The five parameters of a submission, the empty string for a missing one. *)
Record SubmitParams := mkSubmitParams {
  sp_worker_name : string;
  sp_job_id : string;
  sp_extranonce2 : string;
  sp_ntime : string;
  sp_nonce : string;
}.

(** [src/src/stratum_protocol/server.rs:625-631 handle_submit (part)] *)
Definition submit_params (req : StratumRequest) : SubmitParams :=
  let arr := default [] (as_array (rq_params req)) in
  mkSubmitParams (str_param arr 0) (str_param arr 1) (str_param arr 2) (str_param arr 3)
    (str_param arr 4).

(** [src/src/stratum_protocol/server.rs:633-680 handle_submit (part)] The verdict,
    the template the share belongs to, and its difficulty. *)
Definition classify (session : SessionState) (cached_job : option MiningJob)
    (p : SubmitParams) : result (ValidationResult * Z * Z * f64) :=
  match cached_job with
  | Some job =>
      validation ← validate_share (sp_worker_name p) (sp_job_id p) (sp_extranonce2 p)
        (sp_ntime p) (sp_nonce p) session job;
      Ok (validation, j_template_id job, j_template_epoch job,
          default (current_difficulty session)
            (aj_p_diff <$> get_assigned_job session (sp_job_id p)))
  | None =>
      match get_assigned_job session (sp_job_id p) with
      | Some assigned =>
          let '(recovered_tid, recovered_epoch) :=
            default (0, 0) (parse_template_metadata_from_job_id (sp_job_id p)) in
          Ok (rejected "stale-job", recovered_tid, recovered_epoch, aj_p_diff assigned)
      | None => Ok (rejected "stale-job", 0, 0, current_difficulty session)
      end
  end.

(** [src/src/stratum_protocol/server.rs:712-752 handle_submit (part)] The share is
    stored whatever the verdict, if its worker name is one; the result is the key
    it was stored under. *)
Definition persist (env : ServerEnv) (p : SubmitParams) (validation : ValidationResult)
    (template_id template_epoch : Z) (share_diff : f64) : M Conn string :=
  if se_accounting env then
    match parse_worker_name (sp_worker_name p) with
    | Ok w =>
        c ← mget;
        r ← mtry (on_db (AccountingService.record_share (mkShareSubmission
          (wn_payout_address w) (wn_worker_suffix w) (ss_session_id (cn_session c))
          (sp_job_id p) template_id template_epoch (ss_extranonce1 (cn_session c))
          (sp_extranonce2 p) (sp_ntime p) (sp_nonce p) share_diff
          (if v_accepted validation then "accepted" else "rejected")%string
          (v_reject_reason validation) (v_low_diff_ok validation)
          (v_network_target_ok validation) (v_block_hash validation))));
        mret (match r with inl (_, _, _, dedupe_key) => dedupe_key | inr _ => ""%string end)
    | Err _ => mret ""%string
    | Panic => mpanic
    end
  else mret ""%string.

(** [src/src/stratum_protocol/server.rs:797-851 handle_submit (part)] What the
    node's answer to the block changes in the books. *)
Definition book_submission (env : ServerEnv) (job : MiningJob) (template_id : Z)
    (dedupe_key built_block_hash : string) (answer : result SubmitBlockResult) : M Conn unit :=
  match answer with
  | Ok r =>
      if negb (se_accounting env) then mret tt
      else if sr_accepted r then
        round ← mtry (on_db (svc_resolve_round_for_template template_id));
        match round with
        | inl round =>
            mignore (on_db (svc_record_found_block (r_id round) built_block_hash (j_height job)
              None (Some (j_template_id job)) (Some "json-rpc"%string) (j_coinbase_value job)
              (j_network_target_hex job))) ;;
            mignore (on_db (svc_close_round (r_id round) template_id "found"))
        | inr _ => mret tt
        end ;;
        mignore (on_db (update_share_outcome_node_result dedupe_key "accepted"))
      else
        mignore (on_db (update_share_outcome_node_result dedupe_key
          ("rejected: " ++ default "unknown" (sr_error r))%string))
  | Err _ => mret tt
  | Panic => mpanic
  end.

(** [src/src/stratum_protocol/server.rs:762-863 handle_submit (part)] *)
Definition submit_candidate (env : ServerEnv) (p : SubmitParams) (cached_job : option MiningJob)
    (validation : ValidationResult) (template_id : Z) (dedupe_key : string) : M Conn unit :=
  if v_network_target_ok validation then
    match cached_job, se_json_rpc env with
    | Some job, Some node =>
        match j_block_bytes job with
        | [] => mret tt
        | _ =>
            c ← mget;
            match build_submit_block job (ss_extranonce1 (cn_session c)) (sp_extranonce2 p)
                    (sp_ntime p) (sp_nonce p) (j_block_bytes job) with
            | Ok (block_hex, built_block_hash) =>
                book_submission env job template_id dedupe_key built_block_hash
                  (submitblock (node := node) block_hex)
            | Err _ => mret tt
            | Panic => mpanic
            end
        end
    | _, _ => mret tt
    end
  else mret tt.

(** [src/src/stratum_protocol/server.rs:865-873 handle_submit (part)] *)
Definition retarget_session (now : Z) (validation : ValidationResult) : M Conn (option f64) :=
  if v_accepted validation then
    c ← mget;
    let v := VarDiff.record_share (ss_vardiff (cn_session c)) now in
    on_session (set_vardiff v) ;;
    r ← mlift (maybe_retarget v now);
    on_session (set_vardiff r.2) ;;
    mret r.1
  else mret None.

(** [src/src/stratum_protocol/server.rs:875-887 handle_submit (part)] *)
Definition submit_response (id : Value) (validation : ValidationResult) : StratumResponse :=
  if v_accepted validation then resp_ok id (Bool true)
  else
    let reason_is r := match v_reject_reason validation with
                | Some s => String.eqb s r | None => false end in
    let '(code, reason) :=
      (if reason_is "unauthorized-worker" then (24, "unauthorized-worker")
       else if reason_is "stale-job" then (22, "stale-job")
       else if reason_is "ntime-mismatch" then (21, "ntime-mismatch")
       else if reason_is "low-difficulty-share" then (23, "low-difficulty-share")
       else (20, "invalid-submit-shape"))%string in
    resp_rejected id code reason.

(** [src/src/stratum_protocol/server.rs:610-890 handle_submit] *)
Definition handle_submit (env : ServerEnv) (now : Z) (req : StratumRequest) :
    M Conn (StratumResponse * option f64) :=
  c ← mget;
  let session := cn_session c in
  if negb (ss_is_subscribed session)
  then mret (resp_err (rq_id req) 25 "not-subscribed", None)
  else
    let p := submit_params req in
    let cached_job := get_job (cn_cache c) (sp_job_id p) in
    cl ← mlift (classify session cached_job p);
    let '(validation, template_id, template_epoch, share_diff) := cl in
    dedupe_key ← persist env p validation template_id template_epoch share_diff;
    submit_candidate env p cached_job validation template_id dedupe_key ;;
    new_diff ← retarget_session now validation;
    mret (submit_response (rq_id req) validation, new_diff).

(** ** One line, and one job *)

(** [src/src/stratum_protocol/server.rs:254-344 handle_connection (part)] The
    answer to a request, by its method. *)
Definition dispatch (env : ServerEnv) (now : Z) (req : StratumRequest) : M Conn StratumResponse :=
  match rq_method req with
  | Subscribe =>
      c ← mget;
      let '(resp, s) := handle_subscribe req (cn_session c) in
      on_session (λ _, s) ;; mret resp
  | Authorize =>
      c ← mget;
      let '(auth_resp, s) := handle_authorize req (cn_session c) in
      on_session (λ _, s) ;;
      let worker_name_str := str_param (default [] (as_array (rq_params req))) 0 in
      let worker_parsed :=
        match parse_worker_name worker_name_str with
        | Ok w => w | _ => mkWorkerName worker_name_str None end in
      record_authorization_event env req auth_resp worker_parsed ;;
      mret auth_resp
  | Submit =>
      r ← handle_submit env now req;
      match r.2 with
      | Some diff => write_all env [set_difficulty diff]
      | None => mret tt
      end ;;
      mret r.1
  | Ping => mret (resp_ok (rq_id req) (Bool true))
  | ExtranonceSubscribe => mret (resp_ok (rq_id req) (Bool true))
  | SetDifficulty | SetExtranonce | SuggestDifficulty | Notify | Unknown _ =>
      mret (resp_err (rq_id req) 3 "unknown method")
  end.

(** [src/src/stratum_protocol/server.rs:387-439 handle_connection (part)] The
    difficulty and the latest job, after an authorization. *)
Definition send_first_job (env : ServerEnv) : M Conn unit :=
  c ← mget;
  write_all env [set_difficulty (current_difficulty (cn_session c))] ;;
  match get_latest (cn_cache c) with
  | Some job =>
      write_all env [create_notify job] ;;
      on_session (λ s, record_assigned_job (j_job_id job) (current_difficulty s) (j_ntime job) s)
  | None => mret tt
  end.

(** [src/src/stratum_protocol/server.rs:221-440 handle_connection (part)] One line
    of input, trimmed. *)
Definition handle_line (env : ServerEnv) (now : Z) (trimmed : string) : M Conn unit :=
  if String.eqb trimmed "" then mret tt
  else
    match decode_request_line (se_from_str env) trimmed 4096 with
    | inr _ => write_all env [response_json (resp_err Null 1 "invalid request")]
    | inl req =>
        resp ← dispatch env now req;
        write_all env [response_json resp] ;;
        c ← mget;
        (if bool_decide (rq_method req = Subscribe) && ss_is_subscribed (cn_session c)
         then write_all env [server_message "mining.set_extranonce"
                (Array [Str (ss_extranonce1 (cn_session c));
                        Number (PosInt (ss_extranonce2_size (cn_session c)))])]
         else mret tt) ;;
        (if ss_is_authorized (cn_session c) && bool_decide (rq_method req = Authorize)
         then send_first_job env else mret tt)
    end.

(** [src/src/stratum_protocol/server.rs:451-541 handle_connection (part)] A job
    that the consumer has broadcast. *)
Definition on_new_job (env : ServerEnv) (job : MiningJob) : M Conn unit :=
  c ← mget;
  let '(clamped, vardiff) :=
    match network_target_hex_to_difficulty hex_decode target_to_difficulty
            (j_network_target_hex job) with
    | Some n_diff => update_max (ss_vardiff (cn_session c)) n_diff
    | None => (None, ss_vardiff (cn_session c))
    end in
  on_session (set_vardiff vardiff) ;;
  (if j_clean_jobs job then on_session clear_assigned_jobs else mret tt) ;;
  write_all env (match clamped with Some d => [set_difficulty d] | None => [] end
                 ++ [create_notify job]) ;;
  on_session (λ s, record_assigned_job (j_job_id job) (current_difficulty s) (j_ntime job) s).

(** ** The loop *)

(** What can wake a connection: a piece of a line, the end of a line (both without
    the newline), a job, or a job that was missed because the queue overflowed. *)
Inductive conn_event : Type :=
  | Received (piece : string)
  | EndOfLine (now : Z) (piece : string)
  | JobBroadcast (job : MiningJob)
  | JobLagged.

Context (trim : string → string).

(** [src/src/stratum_protocol/server.rs:210-543 handle_connection (part)] One turn
    of the [select!]. [read_line] keeps what it has read in the future it returns,
    and the future is dropped, with the piece of a line, when another branch is
    taken; the loop then starts with an empty line. *)
Definition turn (env : ServerEnv) (ev : conn_event) : M Conn unit :=
  match ev with
  | Received piece => λ c, (Ok tt, set_line (cn_line c ++ piece)%string c)
  | EndOfLine now piece =>
      c ← mget;
      mput (set_line "" c) ;;
      handle_line env now (trim (cn_line c ++ piece)%string)
  | JobBroadcast job => c ← mget; mput (set_line "" c) ;; on_new_job env job
  | JobLagged => c ← mget; mput (set_line "" c)
  end.

(** [src/src/stratum_protocol/server.rs:197-546 handle_connection] An error ends
    the connection. *)
Definition handle_connection (env : ServerEnv) (evs : list conn_event) : M Conn unit :=
  mfor evs (turn env).

(** * Every effect on the database is a sequence of service calls *)

(** A job as its types make it: 64-bit identifiers and value. *)
Definition typed_job (job : MiningJob) : Prop :=
  in_u64 (j_coinbase_value job) ∧ in_u64 (j_template_id job).

Definition typed_cache (cache : JobCache (C := C)) : Prop :=
  ∀ id job, get_job cache id = Some job → typed_job job.

(** Calls of the service, as long as the jobs of the cache are typed; no handler
    changes the cache. *)
Definition conn_steps (c c' : Conn) : Prop :=
  typed_cache (cn_cache c) → rtc step (cn_db c) (cn_db c') ∧ cn_cache c' = cn_cache c.

#[local] Instance conn_steps_preorder : PreOrder conn_steps.
Proof.
  unfold conn_steps. split; [done|]. intros x y z H1 H2 Ht.
  destruct (H1 Ht) as [S1 E1]. rewrite E1 in H2. destruct (H2 Ht) as [S2 E2].
  split; [by etrans|congruence].
Qed.

Lemma on_db_step {A} (m : DbM A) : (∀ d, step d (m d).2) → Keeps conn_steps (on_db m).
Proof.
  intros Hm c _. unfold on_db. pose proof (Hm (cn_db c)) as H.
  destruct (m (cn_db c)) as [r d]. simpl in *. by split; [apply rtc_once|].
Qed.

Lemma on_session_db f : Keeps conn_steps (on_session f).
Proof. intros c _. by split. Qed.

Lemma write_all_db env lines : Keeps conn_steps (write_all env lines).
Proof. intros c _. unfold write_all. by destruct (se_writes _ _); split. Qed.

#[local] Hint Resolve on_session_db write_all_db : keeps.
#[local] Hint Extern 4 (Keeps conn_steps (on_db _)) =>
  apply on_db_step; intros; first [apply step_auth|apply step_share; by destruct (v_accepted _)|apply step_resolve|
    apply step_close; reflexivity|apply step_node_result] : keeps.

Lemma record_job_db job rid hash :
  typed_job job → Keeps conn_steps (on_db (svc_record_found_block rid hash (j_height job) None
    (Some (j_template_id job)) (Some "json-rpc"%string) (j_coinbase_value job)
    (j_network_target_hex job))).
Proof. intros [H1 H2]. apply on_db_step. intros d. apply step_block; [done|]. by intros z [= <-]. Qed.

Lemma book_submission_db env job t k h r :
  typed_job job → Keeps conn_steps (book_submission env job t k h r).
Proof. intros Hj. unfold book_submission. keeps. by apply record_job_db. Qed.

Lemma persist_db env p v t e d : Keeps conn_steps (persist env p v t e d).
Proof. unfold persist. keeps. Qed.

Lemma submit_candidate_db env p cached v t k :
  (∀ job, cached = Some job → typed_job job) →
  Keeps conn_steps (submit_candidate env p cached v t k).
Proof. intros Hj. unfold submit_candidate. keeps. by apply book_submission_db, Hj. Qed.

Lemma retarget_session_db now v : Keeps conn_steps (retarget_session now v).
Proof. unfold retarget_session. keeps. Qed.

#[local] Hint Resolve persist_db retarget_session_db : keeps.

Lemma handle_submit_db env now req : Keeps conn_steps (handle_submit env now req).
Proof.
  intros c Ht. revert Ht. unfold handle_submit.
  match goal with |- _ → rtc _ _ (cn_db ((mget ≫= ?f) c).2) ∧ _ =>
    change (conn_steps c (f c c).2) end.
  intros Ht. revert Ht. destruct (negb _); [done|]. intros Ht.
  match goal with |- rtc _ _ (cn_db (?m c).2) ∧ _ =>
    enough (Keeps conn_steps m) as Hm by (by apply Hm) end.
  keeps. apply submit_candidate_db. intros job Hj. by eapply Ht.
Qed.

#[local] Hint Resolve handle_submit_db : keeps.

Lemma record_authorization_event_db env req resp w :
  Keeps conn_steps (record_authorization_event env req resp w).
Proof. unfold record_authorization_event. keeps. Qed.

#[local] Hint Resolve record_authorization_event_db : keeps.

Lemma dispatch_db env now req : Keeps conn_steps (dispatch env now req).
Proof. unfold dispatch. keeps. Qed.

Lemma send_first_job_db env : Keeps conn_steps (send_first_job env).
Proof. unfold send_first_job. keeps. Qed.

#[local] Hint Resolve dispatch_db send_first_job_db : keeps.

Lemma handle_line_db env now l : Keeps conn_steps (handle_line env now l).
Proof. unfold handle_line. keeps. Qed.

Lemma on_new_job_db env job : Keeps conn_steps (on_new_job env job).
Proof. unfold on_new_job. keeps. Qed.

Lemma turn_db env ev : Keeps conn_steps (turn env ev).
Proof.
  intros c. destruct ev as [piece|now piece|job|]; [done| | |done].
  - apply (handle_line_db env now (trim (cn_line c ++ piece)%string) (set_line "" c)).
  - apply (on_new_job_db env job (set_line "" c)).
Qed.

(** Whatever a miner sends and whatever jobs arrive, in any
    order and with writes failing at any point, everything a connection does to the
    database is a sequence of calls of the accounting service, so that a reachable
    database stays reachable, and the shared job cache is not touched. *)
Theorem connection_refines env evs c :
  typed_cache (cn_cache c) →
  let c' := (handle_connection env evs c).2 in
  rtc step (cn_db c) (cn_db c') ∧ cn_cache c' = cn_cache c ∧
  ∀ now, reachable now (cn_db c) → reachable now (cn_db c').
Proof.
  intros Ht c'.
  assert (conn_steps c c') as Hs.
  { apply (Keeps_for conn_steps). apply turn_db. }
  destruct (Hs Ht) as [Hr He]. split_and!; [done|done|].
  intros now. by apply reachable_steps.
Qed.

(** * The session along a connection *)

(** A property of sessions that the operations of a session keep: [good] jobs are those
    whose arrival keeps it. *)
Record session_closed (P : SessionState → Prop) (good : MiningJob → bool) : Prop := {
  sc_subscribe req s : P s → P (handle_subscribe req s).2;
  sc_authorize req s : P s → P (handle_authorize req s).2;
  sc_record id d t s : P s → P (record_assigned_job id d t s);
  sc_clear s : P s → P (clear_assigned_jobs s);
  sc_share now s : P s → P (set_vardiff (VarDiff.record_share (ss_vardiff s) now) s);
  sc_retarget now s o v : P s → maybe_retarget (ss_vardiff s) now = Ok (o, v) → P (set_vardiff v s);
  sc_job job n s : P s → good job = true →
    network_target_hex_to_difficulty hex_decode target_to_difficulty (j_network_target_hex job)
      = Some n → P (set_vardiff (update_max (ss_vardiff s) n).2 s);
}.

Section closed.
Context (P : SessionState → Prop) (good : MiningJob → bool) (HP : session_closed P good).

Definition session_rel (c c' : Conn) : Prop := P (cn_session c) → P (cn_session c').

#[local] Instance session_rel_preorder : PreOrder session_rel.
Proof. unfold session_rel. split; red; auto. Qed.

Lemma on_db_session {A} (m : DbM A) : Keeps session_rel (on_db m).
Proof. intros c H. unfold on_db. by destruct (m (cn_db c)). Qed.

Lemma write_all_session env lines : Keeps session_rel (write_all env lines).
Proof. intros c H. unfold write_all. by destruct (se_writes _ _). Qed.

Lemma on_session_closed f : (∀ s, P s → P (f s)) → Keeps session_rel (on_session f).
Proof. intros Hf c H. by apply Hf. Qed.

(** [c ← mget; f c] is [f] at the current state. *)
Lemma mget_session {A} (f : Conn → M Conn A) :
  (∀ c, P (cn_session c) → Keeps session_rel (f c)) → Keeps session_rel (mget ≫= f).
Proof. intros Hf c H. by apply (Hf c H c). Qed.

#[local] Hint Resolve on_db_session write_all_session : keeps.
#[local] Hint Extern 4 (Keeps session_rel (on_session _)) =>
  apply on_session_closed; intros;
  first [by apply (sc_record _ _ HP)|by apply (sc_clear _ _ HP)|done] : keeps.

Lemma retarget_session_closed now v : Keeps session_rel (retarget_session now v).
Proof.
  unfold retarget_session. destruct (v_accepted v); [|keeps].
  intros c H. unfold on_session. munfold. simpl.
  pose proof (sc_share _ _ HP now _ H) as Hs.
  destruct (maybe_retarget _ now) as [[o v']|e|] eqn:E; simpl; [|done..].
  exact (sc_retarget _ _ HP now _ o v' Hs E).
Qed.

#[local] Hint Resolve retarget_session_closed : keeps.

Lemma handle_submit_closed env now req : Keeps session_rel (handle_submit env now req).
Proof. unfold handle_submit, persist, submit_candidate, book_submission. keeps. Qed.

#[local] Hint Resolve handle_submit_closed : keeps.

Lemma dispatch_closed env now req : Keeps session_rel (dispatch env now req).
Proof.
  unfold dispatch, record_authorization_event. destruct (rq_method req). 3-10: keeps.
  all: apply mget_session; intros c H.
  - pose proof (sc_subscribe _ _ HP req _ H). destruct (handle_subscribe req _).
    keeps.
  - pose proof (sc_authorize _ _ HP req _ H). destruct (handle_authorize req _).
    keeps.
Qed.

#[local] Hint Resolve dispatch_closed : keeps.

Lemma handle_line_closed env now l : Keeps session_rel (handle_line env now l).
Proof. unfold handle_line, send_first_job. keeps. Qed.

Lemma set_vardiff_self s : set_vardiff (ss_vardiff s) s = s.
Proof. by destruct s. Qed.

Lemma on_new_job_closed env job : good job = true → Keeps session_rel (on_new_job env job).
Proof.
  intros Hj.
  set (rest o := (if j_clean_jobs job then on_session clear_assigned_jobs else mret tt) ;;
    write_all env (match o with Some d => [set_difficulty d] | None => [] end
                   ++ [create_notify job]) ;;
    on_session (λ s, record_assigned_job (j_job_id job) (current_difficulty s) (j_ntime job) s)).
  assert (∀ o, Keeps session_rel (rest o)) as Hrest by (intros o; unfold rest; keeps).
  intros c H. unfold on_new_job, mbind at 1, M_bind at 1, mget.
  pose proof (λ n, sc_job _ _ HP job n _ H Hj) as Hn.
  destruct (network_target_hex_to_difficulty _ _ _) as [n|].
  - specialize (Hn n eq_refl). destruct (update_max (ss_vardiff (cn_session c)) n) as [o v].
    exact (Hrest o (set_session (set_vardiff v (cn_session c)) c) Hn).
  - apply (Hrest None (set_session (set_vardiff (ss_vardiff (cn_session c)) (cn_session c)) c)).
    simpl. by rewrite set_vardiff_self.
Qed.

Definition event_good (ev : conn_event) : bool :=
  match ev with JobBroadcast job => good job | _ => true end.

Lemma turn_closed env ev : event_good ev = true → Keeps session_rel (turn env ev).
Proof.
  intros He c. destruct ev as [piece|now piece|job|]; [by intros H| | |by intros H].
  - apply (handle_line_closed env now (trim (cn_line c ++ piece)%string) (set_line "" c)).
  - by apply (on_new_job_closed env job He (set_line "" c)).
Qed.
End closed.

(** ** The identity of a session never changes *)

Definition session_id_is (ids : string * string) (s : SessionState) : Prop :=
  (ss_session_id s, ss_extranonce1 s) = ids.

Lemma session_id_closed ids : session_closed (session_id_is ids) (λ _, true).
Proof.
  unfold session_id_is. split; intros; try done.
  unfold handle_authorize. by repeat case_match.
Qed.

(** ** The invariant of a session *)

Context (cfg : VarDiffConfig).

(** A well-formed session whose difficulty is in range. *)
Definition session_ok (s : SessionState) : Prop :=
  session_wf s ∧ in_range (ss_vardiff s) ∧ vd_config (ss_vardiff s) = cfg.

(** The network difficulty of a broadcast job, if its target is one, is not below
    the configured floor. *)
Definition job_above_floor (job : MiningJob) : bool :=
  match network_target_hex_to_difficulty hex_decode target_to_difficulty
          (j_network_target_hex job) with
  | Some n => f64_le (min_floor cfg) n
  | None => true
  end.

Lemma session_ok_closed : session_closed session_ok job_above_floor.
Proof.
  unfold session_ok. split.
  - intros req s (H1 & H2 & H3). split; [by apply session_wf_subscribe|done].
  - intros req s (H1 & H2 & H3). split; [by apply session_wf_authorize|].
    unfold handle_authorize. by repeat case_match.
  - intros id d t s (H1 & H2 & H3). split; [by apply session_wf_record|done].
  - intros s (H1 & H2 & H3). split; [by apply session_wf_clear|done].
  - intros now s (H1 & H2 & H3). split; [by apply session_wf_vardiff|].
    split; [by apply record_share_range|done].
  - intros now s o v (H1 & H2 & H3) [Hr Hc]%maybe_retarget_range; [|done].
    split; [by apply session_wf_vardiff|]. split; [done|]. simpl in *. congruence.
  - intros job n s (H1 & H2 & H3) Hj Hn. unfold job_above_floor in Hj. rewrite Hn, <-H3 in Hj.
    split; [by apply session_wf_vardiff|]. split; [by apply update_max_range|].
    rewrite <-H3. simpl. unfold update_max. by destruct (f64_gt (f64_abs _) _).
Qed.

Lemma accept_ok cache counter now s :
  (accept cfg cache counter now).1 = Ok s →
  f64_finite (initial_pct cfg) = true → f64_finite (vd_max (ss_vardiff s)) = true →
  session_ok s ∧ session_id_is (connection_ids (counter + 1)) s.
Proof.
  intros Ha Hp Hn. unfold accept, session_id_is in *. destruct (connection_ids _) as [i e]. simpl in Ha.
  assert (session_wf s) as Hw by (by eapply session_wf_new). revert Ha.
  unfold SessionState_new, VarDiff_new, mbind, result_bind.
  destruct (f64_clamp _ _ _) as [x|?|] eqn:Ec; intros [= <-]. simpl in *.
  split; [|done]. split; [done|]. split; [|done].
  eapply f64_clamp_range; [|exact Ec]. by apply f64_mul_finite_not_nan.
Qed.

Definition event_ok : conn_event → bool := event_good job_above_floor.

Lemma handle_connection_ok env evs :
  forallb event_ok evs = true → Keeps (session_rel session_ok) (handle_connection env evs).
Proof.
  intros H c. unfold handle_connection. intros Hc.
  apply (mfor_inv (λ c, session_ok (cn_session c))); [|done].
  intros ev s Hev Hs. eapply (turn_closed _ _ session_ok_closed); [|exact Hs].
  eapply forallb_forall in H; [exact H|]. by apply list_elem_of_In.
Qed.

(** From the acceptance of a connection on,
    through any lines and any jobs whose difficulty is not below the floor, and
    wherever a write fails: a session is authorized exactly when it has an
    authorized worker, it then is subscribed, every authorized name is a worker
    name, at most 128 jobs are remembered, and the difficulty the miner works at
    is between the floor and the network difficulty. *)
Theorem connection_session_invariant cache counter now s evs env c :
  (accept cfg cache counter now).1 = Ok s → cn_session c = s →
  f64_finite (initial_pct cfg) = true →
  f64_finite (vd_max (ss_vardiff s)) = true →
  forallb event_ok evs = true →
  let s' := cn_session (handle_connection env evs c).2 in
  session_wf s' ∧ f64_le (min_floor cfg) (current_difficulty s') = true ∧
  f64_le (current_difficulty s') (vd_max (ss_vardiff s')) = true.
Proof.
  intros Ha Hs Hp Hn Hev.
  destruct (accept_ok cache counter now s Ha Hp Hn) as [Hok _].
  destruct (handle_connection_ok env evs Hev c) as (H1 & [H2 H3] & H4); [by rewrite Hs|].
  cbn zeta. rewrite H4 in H2. done.
Qed.

(** * What a new job does *)

(** A job whose notification is written: its difficulty bounds the session's, the
    notification is the last line written, and the assignment the last one recorded. *)
Lemma on_new_job_run env job c :
  se_writes env (length (cn_sent c)) = true →
  ∃ v lines,
    let s0 := set_vardiff v (cn_session c) in
    let s := if j_clean_jobs job then clear_assigned_jobs s0 else s0 in
    on_new_job env job c =
      (Ok tt, mkConn (record_assigned_job (j_job_id job) (current_difficulty s) (j_ntime job) s)
                (cn_cache c) (cn_db c) (cn_line c)
                (cn_sent c ++ [lines ++ [create_notify job]])).
Proof.
  intros Hw. unfold on_new_job, write_all, on_session. munfold.
  destruct (match network_target_hex_to_difficulty _ _ _ with Some _ => _ | None => _ end)
    as [o v].
  exists v, (match o with Some d => [set_difficulty d] | None => [] end).
  simpl. by destruct (j_clean_jobs job); simpl; rewrite Hw.
Qed.

(** * What a submission does *)

#[local] Arguments classify : simpl never.
#[local] Arguments submit_params : simpl never.
#[local] Arguments persist : simpl never.
#[local] Arguments retarget_session : simpl never.
#[local] Arguments submit_candidate : simpl never.

(** The record of a submission in the books: one call of [record_share] when the
    worker name is one, whatever the verdict. *)
Definition recorded (env : ServerEnv) (session : SessionState) (p : SubmitParams)
    (v : ValidationResult) (template_id template_epoch : Z) (share_diff : f64) (d : Db) : Db :=
  match se_accounting env, parse_worker_name (sp_worker_name p) with
  | true, Ok w =>
      (AccountingService.record_share (mkShareSubmission
          (wn_payout_address w) (wn_worker_suffix w) (ss_session_id session)
          (sp_job_id p) template_id template_epoch (ss_extranonce1 session)
          (sp_extranonce2 p) (sp_ntime p) (sp_nonce p) share_diff
          (if v_accepted v then "accepted" else "rejected")%string
          (v_reject_reason v) (v_low_diff_ok v) (v_network_target_ok v) (v_block_hash v)) d).2
  | _, _ => d
  end.

Lemma parse_worker_name_no_panic n : parse_worker_name n ≠ Panic.
Proof. unfold parse_worker_name. repeat case_match; done. Qed.

Lemma set_db_id c : set_db (cn_db c) c = c.
Proof. by destruct c. Qed.

Lemma persist_spec env p v t e d c :
  ∃ key, persist env p v t e d c =
    (Ok key, set_db (recorded env (cn_session c) p v t e d (cn_db c)) c).
Proof.
  unfold persist, recorded. destruct (se_accounting env); [|by rewrite set_db_id; eexists].
  pose proof (parse_worker_name_no_panic (sp_worker_name p)).
  destruct (parse_worker_name _) as [w|?|]; [|by rewrite set_db_id; eexists|done].
  unfold on_db. munfold. simpl.
  match goal with |- context [AccountingService.record_share ?a ?d] =>
    pose proof (record_share_no_panic a d); destruct (AccountingService.record_share a d)
      as [[[[[x y] z] k]|?|] d'] end; simpl in *; [by eexists|by eexists|done].
Qed.

(** The effect of the verdict on the session: an accepted share counts for the
    difficulty, a rejected one changes nothing. *)
Definition verdict_effect (now : Z) (v : ValidationResult) (s : SessionState)
    (new_diff : option f64) (s' : SessionState) : Prop :=
  if v_accepted v
  then ∃ vd, maybe_retarget (VarDiff.record_share (ss_vardiff s) now) now = Ok (new_diff, vd) ∧
         s' = set_vardiff vd s
  else new_diff = None ∧ s' = s.

Lemma retarget_session_spec now v c interval :
  in_range (ss_vardiff (cn_session c)) →
  duration_from_secs_f64 (retarget_secs (vd_config (ss_vardiff (cn_session c)))) = Ok interval →
  ∃ nd s', retarget_session now v c = (Ok nd, set_session s' c) ∧
    verdict_effect now v (cn_session c) nd s'.
Proof.
  intros Hr Hi. unfold retarget_session, verdict_effect.
  destruct (v_accepted v); [|by exists None, (cn_session c); destruct c].
  unfold on_session. munfold. simpl.
  pose proof (maybe_retarget_total (VarDiff.record_share (ss_vardiff (cn_session c)) now)
    now interval (record_share_range _ now Hr) Hi) as Ht.
  destruct (maybe_retarget _ now) as [[o vd]|e|]; [|done..].
  exists o, (set_vardiff vd (cn_session c)). simpl. eauto.
Qed.

(** C10: a subscribed session's submission that is not a block
    candidate always gets an answer: [true] or the refusal that belongs to the
    verdict. With accounting, and a worker name that parses, the books get exactly one
    call of [record_share], accepted or rejected, with the verdict and the difficulty the
    job was assigned with; what that call writes, for a repeated share too, is its own
    matter, and if it fails the answer is the same. Without accounting, or when the worker
    name does not parse, nothing is recorded. Nothing is sent to the node, and only an
    accepted share moves the session's difficulty. Without a subscription nothing happens
    at all. *)
Theorem handle_submit_spec env now req c v template_id template_epoch share_diff interval :
  let s := cn_session c in
  let p := submit_params req in
  in_range (ss_vardiff s) →
  duration_from_secs_f64 (retarget_secs (vd_config (ss_vardiff s))) = Ok interval →
  classify s (get_job (cn_cache c) (sp_job_id p)) p =
    Ok (v, template_id, template_epoch, share_diff) →
  v_network_target_ok v = false →
  if ss_is_subscribed s then
    ∃ nd s', handle_submit env now req c =
      (Ok (submit_response (rq_id req) v, nd),
       set_session s' (set_db (recorded env s p v template_id template_epoch share_diff (cn_db c)) c)) ∧
      verdict_effect now v s nd s' ∧
      (se_accounting env && is_ok (parse_worker_name (sp_worker_name p)) = false →
       recorded env s p v template_id template_epoch share_diff (cn_db c) = cn_db c)
  else handle_submit env now req c = (Ok (resp_err (rq_id req) 25 "not-subscribed", None), c).
Proof.
  intros s p Hr Hi Hc Hn. subst s. unfold handle_submit. fold p. clearbody p. munfold. simpl.
  destruct (ss_is_subscribed (cn_session c)); [|done]. simpl. rewrite Hc.
  destruct (persist_spec env p v template_id template_epoch share_diff c)
    as [key ->]. unfold submit_candidate. rewrite Hn.
  destruct (retarget_session_spec now v (set_db (recorded env (cn_session c) p v
    template_id template_epoch share_diff (cn_db c)) c) interval Hr Hi) as (nd & s' & E & Hv).
  exists nd, s'. munfold. simpl. rewrite E. split_and!; [done|done|].
  unfold recorded. destruct (se_accounting env); [|done].
  by destruct (parse_worker_name (sp_worker_name p)).
Qed.

(** The verdicts that are possible for a job that is not assigned. *)
Lemma classify_unassigned s cached p :
  get_assigned_job s (sp_job_id p) = None →
  ∃ reason t e d, classify s cached p = Ok (rejected reason, t, e, d) ∧
    (reason = "stale-job" ∨ reason = "unauthorized-worker" ∨ reason = "invalid-submit-shape")%string ∧
    (sp_worker_name p ∈ ss_authorized_workers s →
     format_ok (sp_extranonce2 p) (sp_ntime p) (sp_nonce p) → reason = "stale-job"%string).
Proof.
  intros Ha. unfold classify. destruct cached as [job|].
  - unfold validate_share. case_bool_decide as Hw; simpl.
    + destruct (validate_share_format _ _ _) as [r|] eqn:Ef; simpl.
      * apply validate_share_format_reason in Ef as Hr. subst r. do 4 eexists.
        split; [done|]. split; [naive_solver|]. intros _ Hf%validate_share_format_ok. congruence.
      * rewrite Ha. simpl. do 4 eexists. split; [done|]. naive_solver.
    + do 4 eexists. split; [done|]. naive_solver.
  - rewrite Ha. do 4 eexists. split; [done|]. naive_solver.
Qed.

(** C15: once a job with [clean_jobs] has been sent to a miner, a
    submission for any other job is refused: it is answered with [false], the
    session and its difficulty are unchanged, and for an authorized worker and
    well-formed fields the answer is the stale-job refusal, code 22. *)
Theorem clean_job_stales env job c c' now req :
  on_new_job env job c = (Ok tt, c') → j_clean_jobs job = true →
  ss_is_subscribed (cn_session c) = true →
  sp_job_id (submit_params req) ≠ j_job_id job →
  let p := submit_params req in
  ∃ reason d, handle_submit env now req c' =
      (Ok (submit_response (rq_id req) (rejected reason), None), set_db d c') ∧
    rs_result (submit_response (rq_id req) (rejected reason)) = Bool false ∧
    (sp_worker_name p ∈ ss_authorized_workers (cn_session c) →
     format_ok (sp_extranonce2 p) (sp_ntime p) (sp_nonce p) →
     submit_response (rq_id req) (rejected reason) = resp_rejected (rq_id req) 22 "stale-job").
Proof.
  intros Hj Hclean Hsub Hid p. unfold handle_submit. fold p. fold p in Hid. clearbody p.
  assert (∃ s0, cn_session c' = record_assigned_job (j_job_id job)
      (current_difficulty (clear_assigned_jobs s0)) (j_ntime job) (clear_assigned_jobs s0) ∧
      ss_is_subscribed s0 = ss_is_subscribed (cn_session c) ∧
      ss_authorized_workers s0 = ss_authorized_workers (cn_session c)) as (s0 & Hs & H1 & H2).
  { revert Hj. unfold on_new_job. rewrite Hclean.
    unfold write_all, on_session. munfold. simpl.
    destruct (match network_target_hex_to_difficulty _ _ _ with Some _ => _ | None => _ end)
      as [o vd]. simpl. destruct (se_writes env _); [|done]. intros [= <-]. simpl. eexists. done. }
  assert (get_assigned_job (cn_session c') (sp_job_id p) = None) as Ha.
  { rewrite Hs. unfold get_assigned_job, record_assigned_job. simpl.
    destruct (String.eqb_spec (j_job_id job) (sp_job_id p)); [congruence|done]. }
  destruct (classify_unassigned (cn_session c')
    (get_job (cn_cache c') (sp_job_id p)) p Ha)
    as (reason & t & e & d & Hc & Hreason & Hst).
  exists reason. munfold. simpl.
  assert (ss_is_subscribed (cn_session c') = true) as -> by (by rewrite Hs; simpl; rewrite H1).
  simpl. rewrite Hc.
  destruct (persist_spec env p (rejected reason) t e d c') as [key ->].
  unfold submit_candidate, retarget_session. simpl. munfold. eexists. split; [done|].
  split; [unfold submit_response; simpl; by repeat case_match|].
  intros Hw Hf. rewrite Hst; [done| |done]. by rewrite Hs; simpl; rewrite H2.
Qed.

(** When a job arrives while a line has been read in part,
    the part is lost: the connection goes on as if it had never been received, and
    the rest of the line is read as a line of its own. *)
Theorem line_lost_on_new_job env piece job now rest evs c :
  cn_line c = ""%string →
  handle_connection env (Received piece :: JobBroadcast job :: EndOfLine now rest :: evs) c =
  handle_connection env (JobBroadcast job :: EndOfLine now rest :: evs) c.
Proof. intros Hl. destruct c as [s k d l w]. simpl in Hl. subst l. reflexivity. Qed.
End server.

(** * The extranonce of a connection *)

Lemma hex_digit_inj d e : 0 ≤ d < 16 → 0 ≤ e < 16 → hex_digit d = hex_digit e → d = e.
Proof.
  intros Hd He H. apply (f_equal N_of_ascii) in H. unfold hex_digit in H.
  revert H. destruct (Z.ltb_spec d 10), (Z.ltb_spec e 10); intros E;
    rewrite !N_ascii_embedding in E by lia; apply Z2N.inj in E; lia.
Qed.

Lemma hex_digit_hex d : 0 ≤ d < 16 → is_hexdigit (hex_digit d) = true.
Proof.
  intros Hd. unfold is_hexdigit, hex_digit.
  destruct (Z.ltb_spec d 10); rewrite N_ascii_embedding by lia; rewrite Z2N.id by lia;
    rewrite !orb_true_iff, !andb_true_iff, !Z.leb_le; lia.
Qed.

Lemma show_hex_shape w n acc :
  str_all is_hexdigit acc = true →
  String.length (show_hex w n acc) = (w + String.length acc)%nat ∧
  str_all is_hexdigit (show_hex w n acc) = true.
Proof.
  revert n acc. induction w as [|w IH]; intros n acc Ha; [done|]. simpl.
  destruct (IH (n `div` 16) (String (hex_digit (n `mod` 16)) acc)) as [H1 H2].
  { simpl. by rewrite Ha, hex_digit_hex by (apply Z.mod_pos_bound; lia). }
  split; [rewrite H1; simpl; lia|done].
Qed.

Lemma show_hex_inj w n m acc acc' :
  show_hex w n acc = show_hex w m acc' → String.length acc = String.length acc' →
  n `mod` 16 ^ Z.of_nat w = m `mod` 16 ^ Z.of_nat w ∧ acc = acc'.
Proof.
  revert n m acc acc'. induction w as [|w IH]; intros n m acc acc' H Hl.
  { simpl in *. by rewrite !Z.mod_1_r. }
  simpl in H. apply IH in H as [H1 [= H2 H3]]; [|simpl; lia].
  apply hex_digit_inj in H2; [|apply Z.mod_pos_bound; lia..].
  split; [|done]. rewrite Nat2Z.inj_succ, Z.pow_succ_r by lia.
  rewrite !Z.rem_mul_r by lia. by rewrite H1, H2.
Qed.

(** The extranonce of a connection is eight hex digits, and
    the connections with numbers [m] and [n] have the same one exactly when the
    numbers agree modulo two to the 32: no two of the first four billion
    connections share it, and session ids are never shared. *)
Theorem extranonce1_unique (m n : Z) :
  0 ≤ m → 0 ≤ n →
  String.length (connection_ids m).2 = 8%nat ∧
  str_all is_hexdigit (connection_ids m).2 = true ∧
  ((connection_ids m).2 = (connection_ids n).2 ↔ m `mod` 2 ^ 32 = n `mod` 2 ^ 32) ∧
  ((connection_ids m).1 = (connection_ids n).1 ↔ m = n).
Proof.
  intros Hm Hn. unfold connection_ids. cbn [fst snd].
  change (Z.to_nat EXTRANONCE_1_HEX_CHARS) with 8%nat.
  change (Z.shiftl 1 (EXTRANONCE_1_SIZE * 8) - 1) with (Z.ones 32).
  rewrite !Z.land_ones by lia.
  destruct (show_hex_shape 8 (m `mod` 2 ^ 32) "") as [Hl Hh]; [done|].
  split_and!; [done|done| |].
  - split; [|by intros ->]. intros [H _]%show_hex_inj; [|done].
    change (16 ^ Z.of_nat 8) with (2 ^ 32) in H. by rewrite !Zmod_mod in H.
  - split; [|by intros ->]. intros H%string_app_inv_head. by apply show_u_inj.
Qed.

Lemma extranonce1_unique_witness :
  (connection_ids 1).2 = "00000001"%string ∧ (connection_ids 1).2 ≠ (connection_ids 2).2.
Proof.
  split; [vm_compute; reflexivity|].
  destruct (extranonce1_unique 1 2) as (_ & _ & H & _); [lia|lia|].
  intros E. apply H in E. vm_compute in E. discriminate.
Defined.

(** * Examples *)

#[local] Existing Instance example_target_hashing.
#[local] Existing Instance example_lotus.
#[local] Instance example_address : LotusAddress := {| address_error _ := None |}.

Definition example_request (job_id : string) : StratumRequest :=
  mkStratumRequest (Number (PosInt 3)) Submit
    (Array [Str example_worker; Str job_id; Str "00000003"; Str "6adc0c6a0000";
            Str "B02B4ABB3DD6E835"]).

Definition example_env : ServerEnv := mkServerEnv true None (λ _, inr "parse"%string) (λ _, true).

Definition example_conn : Conn (C := BoundedMap) :=
  mkConn example_session (inserts [example_job] (JobCache_new 4))
    (fresh_db "2026-05-20 12:00:00") "" [].

Lemma example_cache_typed : typed_cache (cn_cache example_conn).
Proof.
  intros id job H. unfold get_job in H.
  change (moka_get (jc_cache (cn_cache example_conn)) id)
    with ((<["job-890-100"%string := example_job]> ∅ : gmap string MiningJob) !! id) in H.
  apply lookup_insert_Some in H as [[_ <-]|[_ H]]; [|by rewrite lookup_empty in H].
  split; unfold in_u64, u64_max; simpl; lia.
Qed.

Lemma connection_refines_witness :
  let evs := [EndOfLine 5 "x"; JobBroadcast example_job] in
  let c' := (handle_connection (λ s, s) example_env evs example_conn).2 in
  rtc step (cn_db example_conn) (cn_db c') ∧ length (cn_sent c') = 2%nat.
Proof.
  intros evs c'. split; [|vm_compute; reflexivity].
  apply (connection_refines (λ s, s) example_env evs example_conn example_cache_typed).
Defined.

Definition fresh_session : SessionState :=
  mkSessionState "sess-1" "00000001" 4 false false ∅ []
    (mkVarDiff VarDiffConfig_default (f64_lit 2 100) (f64_of_Z 1) 0 []).

Lemma connection_session_invariant_witness :
  let evs := [EndOfLine 5 "x"; JobBroadcast example_job] in
  let c := mkConn fresh_session (cn_cache example_conn) (cn_db example_conn) "" [] in
  let s' := cn_session (handle_connection (λ s, s) example_env evs c).2 in
  session_wf s' ∧ length (ss_assigned_jobs s') = 1%nat.
Proof.
  intros evs c s'. split; [|vm_compute; reflexivity].
  apply (connection_session_invariant (λ s, s) VarDiffConfig_default (cn_cache example_conn) 0 0
    fresh_session evs example_env c); vm_compute; reflexivity.
Defined.

(** A second submission of a worker that is not authorized. *)
Definition stranger_request : StratumRequest :=
  mkStratumRequest (Number (PosInt 4)) Submit
    (Array [Str "lotus_x.rig"; Str "job-890-100"; Str "00000003"; Str "6adc0c6a0000";
            Str "B02B4ABB3DD6E835"]).

Lemma handle_submit_spec_witness :
  ∃ nd s' d, handle_submit example_env 7 stranger_request example_conn =
    (Ok (resp_rejected (Number (PosInt 4)) 24 "unauthorized-worker", nd),
     set_session s' (set_db d example_conn)) ∧
  verdict_effect 7 (rejected "unauthorized-worker") example_session nd s'.
Proof.
  pose proof (handle_submit_spec example_env 7 stranger_request example_conn
    (rejected "unauthorized-worker") 890 100 (f64_of_Z 1) 60000000000) as H.
  destruct H as (nd & s' & E & Hv & _);
    [split; vm_compute; reflexivity|vm_compute; reflexivity|vm_compute; reflexivity|reflexivity|].
  exists nd, s'. eexists. split; [exact E|exact Hv].
Defined.

Lemma clean_job_stales_witness :
  let c' := (on_new_job example_env example_job example_conn).2 in
  ∃ reason d, handle_submit example_env 7 (example_request "job-889-99") c' =
      (Ok (submit_response (Number (PosInt 3)) (rejected reason), None), set_db d c') ∧
    submit_response (Number (PosInt 3)) (rejected reason) =
      resp_rejected (Number (PosInt 3)) 22 "stale-job".
Proof.
  intros c'.
  destruct (clean_job_stales example_env example_job example_conn c' 7
    (example_request "job-889-99")) as (reason & d & E & _ & Hst);
    [vm_compute; reflexivity|reflexivity|reflexivity|discriminate|].
  exists reason, d. split; [exact E|]. apply Hst.
  - vm_compute. reflexivity.
  - apply validate_share_format_ok. reflexivity.
Defined.

Lemma line_lost_on_new_job_witness :
  handle_connection (λ s, s) example_env
    [Received "{"; JobBroadcast example_job; EndOfLine 5 "}"] example_conn =
  handle_connection (λ s, s) example_env
    [JobBroadcast example_job; EndOfLine 5 "}"] example_conn.
Proof.
  apply (line_lost_on_new_job (λ s, s) example_env "{" example_job 5 "}" [] example_conn).
  reflexivity.
Defined.
