(* ===== verification/BlockFound.v ===== *)
(** A winning share: what [handle_submit] does when the node takes the block. *)
From Stdlib Require Import ZArith Lia String Ascii Init.Byte.
From stdpp Require Import base option list numbers strings sets gmap.
From S2P Require Import Prelude Text Float64 VarDiff Json Db WorkerRepository AccountingEventRepository RoundRepository ShareRepository FoundBlockRepository Frames AccountingService PayoutService AccountingSystem Lifecycle Job JobCache Protocol Session Validator JsonRpc Server.
#[local] Open Scope Z_scope.

Section found.
Context {so : SqlOrder} {hashing : Hashing} {lotus : LotusLib} {la : LotusAddress}.
Context {C : Type} {moka : MokaCache C}.

(** * The books of a found block *)

(** The row of a block that was built from a job, and its round once it is closed. *)
Definition found_row (id round_id : Z) (job : MiningJob) (hash : string) : FoundBlock :=
  mkFoundBlock id round_id hash (j_height job) "immature" None (Some (j_template_id job))
    (Some "json-rpc"%string) None None (j_coinbase_value job) None (j_network_target_hex job).

Definition found_round (template_id : Z) (r : Round) : Round :=
  mkRound (r_id r) (r_start_template_id r) (Some template_id) "found" (r_found_block_hash r).

Definition with_node_result (answer : string) (r : OutcomeRow) : OutcomeRow :=
  let o := or_outcome r in
  mkOutcomeRow (mkShareOutcome (o_id o) (o_share_id o) (o_session_id o) (o_worker_id o)
    (o_job_id o) (o_round_id o) (o_dedupe_key o) (o_status o) (o_reject_reason o)
    (Some answer) (o_low_diff_ok o) (o_network_target_ok o) (o_block_hash o)) (or_created_at r).

(** From [d] to [d']: the block is recorded for the round, the round is closed at the
    template, the share has the node's answer, and nothing else but the log changes. *)
Record booked (round_id template_id : Z) (job : MiningJob) (hash key : string) (d d' : Db) : Prop := {
  bk_blocks : rows (found_blocks d') =
    rows (found_blocks d) ++ [found_row (seq (found_blocks d) + 1) round_id job hash];
  bk_rounds : rows (rounds d') =
    map (λ r, if r_id r =? round_id then found_round template_id r else r) (rows (rounds d));
  bk_outcomes : rows (share_outcomes d') =
    map (λ r, if String.eqb (outcome_key r) key then with_node_result "accepted" r else r)
      (rows (share_outcomes d));
  bk_rest : (workers d', shares d', payout_batches d', payouts d', payout_share_snapshots d',
      dust_balances d', clock d') =
    (workers d, shares d, payout_batches d, payouts d, payout_share_snapshots d,
      dust_balances d, clock d);
}.

Lemma record_found_block_run r h n t v k p d :
  h ∉ map fb_block_hash (rows (found_blocks d)) → has_id r_id r (rounds d) = true →
  t ≤ i64_max → v ≤ i64_max →
  let b := mkFoundBlock (seq (found_blocks d) + 1) r h n "immature" None (Some t) p None None v None k in
  record_found_block r h n None (Some t) p v k d =
    (Ok b, set_found_blocks d (mkTable (rows (found_blocks d) ++ [b]) (seq (found_blocks d) + 1))).
Proof.
  intros Hh Hr Ht%Z.leb_le Hv%Z.leb_le b. unfold record_found_block, bind_opt_u64, bind_u64, stmt.
  munfold. rewrite Ht, Hv.
  destruct (existsb _ _) eqn:E.
  - exfalso. apply existsb_exists in E as (x & Hx & <-%String.eqb_eq).
    apply Hh, elem_of_map. exists x. by rewrite list_elem_of_In.
  - by rewrite Hr.
Qed.

Lemma svc_resolve_in t d r d' :
  svc_resolve_round_for_template t d = (Ok r, d') → has_id r_id (r_id r) (rounds d') = true.
Proof.
  intros (b & d1 & H & -> & _ & _)%svc_resolve_run.
  assert (r ∈ rows (rounds d1)) as Hr.
  { apply resolve_cases in H as [(_ & -> & H & _)|[_ [(_ & -> & H & _)|(_ & _ & _ & ->)]]];
      [done|done|]. simpl. apply elem_of_app. right. by apply list_elem_of_singleton. }
  unfold has_id. apply existsb_exists. exists r. rewrite Z.eqb_refl. split; [by apply list_elem_of_In|done].
Qed.

Lemma mignore_total {S A} (m : M S A) s : (m s).1 ≠ Panic → mignore m s = (Ok tt, (m s).2).
Proof. intros H. by rewrite (surjective_pairing (mignore m s)), mignore_ok, mignore_snd. Qed.

(** A service call whose result is ignored. *)
Lemma mignore_on_db {A} (m : DbM A) (c : Conn (C := C)) :
  (m (cn_db c)).1 ≠ Panic → mignore (on_db m) c = (Ok tt, set_db (m (cn_db c)).2 c).
Proof.
  intros H. assert (on_db m c = ((m (cn_db c)).1, set_db (m (cn_db c)).2 c)) as E.
  { unfold on_db. by destruct (m (cn_db c)). }
  rewrite mignore_total; rewrite E; done.
Qed.

Lemma svc_record_found_block_run r h n t v k p d b d' :
  record_found_block r h n None (Some t) p v k d = (Ok b, d') →
  ∃ e, svc_record_found_block r h n None (Some t) p v k d = (Ok b, (record_event e d').2).
Proof.
  intros E. unfold svc_record_found_block. erewrite bind_run by exact E.
  set (e := mkAccountingEvent _ _ _ _ _ _ _ _ _ _ _ _ _ _). exists e.
  erewrite bind_run by (apply mignore_total, record_event_no_panic). done.
Qed.

Lemma book_accepted env job key hash answer round (c : Conn (C := C)) :
  se_accounting env = true → sr_accepted answer = true →
  svc_resolve_round_for_template (j_template_id job) (cn_db c) = (Ok round, cn_db c) →
  hash ∉ map fb_block_hash (rows (found_blocks (cn_db c))) →
  j_template_id job ≤ i64_max → j_coinbase_value job ≤ i64_max →
  ∃ d', book_submission env job (j_template_id job) key hash (Ok answer) c = (Ok tt, set_db d' c) ∧
    booked (r_id round) (j_template_id job) job hash key (cn_db c) d'.
Proof.
  intros Ha Hs Hr Hh Ht Hv. pose proof (svc_resolve_in _ _ _ _ Hr) as Hin.
  unfold book_submission. rewrite Ha, Hs. cbn [negb].
  pose proof (record_found_block_run (r_id round) hash (j_height job) (j_template_id job)
    (j_coinbase_value job) (j_network_target_hex job) (Some "json-rpc"%string) (cn_db c)
    Hh Hin Ht Hv) as Hrec.
  destruct (svc_record_found_block_run _ _ _ _ _ _ _ _ _ _ Hrec) as [e1 E1].
  set (d1 := (record_event e1 _).2) in E1.
  pose proof (svc_close_round_run (r_id round) (j_template_id job) "found" d1 Ht) as E2.
  set (d2 := (record_event _ _).2) in E2.
  exists (update_share_outcome_node_result key "accepted" d2).2. split.
  - erewrite bind_run.
    2: { unfold on_db. munfold. rewrite Hr, set_db_id. reflexivity. }
    cbn beta iota. erewrite bind_run.
    2: { erewrite bind_run by (rewrite mignore_on_db; [rewrite E1; reflexivity|by rewrite E1]).
         rewrite mignore_on_db; simpl; rewrite E2; [reflexivity|done]. }
    rewrite mignore_on_db; [|done]. by destruct c.
  - subst d2 d1.
    match goal with |- booked _ _ _ _ _ _ (update_share_outcome_node_result key _ (record_event ?e ?x).2).2 =>
      destruct (record_event_frame e x) as [->|(? & _ & _ & _ & ->)] end;
    match goal with |- context [record_event e1 ?x] =>
      destruct (record_event_frame e1 x) as [->|(? & _ & _ & _ & ->)] end; by split.
Qed.

(** * The share and the block *)

(** What [handle_submit] records of a share. *)
Definition submission_of (session : SessionState) (p : SubmitParams) (w : WorkerName)
    (v : ValidationResult) (template_id template_epoch : Z) (share_diff : f64) : ShareSubmission :=
  mkShareSubmission (wn_payout_address w) (wn_worker_suffix w) (ss_session_id session)
    (sp_job_id p) template_id template_epoch (ss_extranonce1 session)
    (sp_extranonce2 p) (sp_ntime p) (sp_nonce p) share_diff
    (if v_accepted v then "accepted" else "rejected")%string
    (v_reject_reason v) (v_low_diff_ok v) (v_network_target_ok v) (v_block_hash v).

(** A candidate has been accepted. *)
Lemma candidate_accepted s cached p v t e x :
  classify s cached p = Ok (v, t, e, x) → v_network_target_ok v = true →
  ∃ job, cached = Some job ∧ t = j_template_id job ∧ e = j_template_epoch job ∧ v_accepted v = true.
Proof.
  unfold classify. destruct cached as [job|].
  - unfold mbind, result_bind. destruct (validate_share _ _ _ _ _ _ _) as [v'|?|] eqn:E; [|done..].
    intros [= <- <- <- <-] Hn. exists job. split_and!; [done..|]. revert E Hn.
    unfold validate_share, check_targets, mbind, result_bind.
    repeat case_match; intros; simplify_eq/=; done.
  - destruct (get_assigned_job _ _); [destruct (default _ _)|]; intros [= <- <- <- <-]; done.
Qed.

(** After the share is recorded its template resolves to its round, and a new outcome is
    in the books as it was submitted. *)
Lemma recorded_share a d sid oid rid key d1 :
  record_share a d = (Ok (sid, oid, rid, key), d1) →
  (∃ r, svc_resolve_round_for_template (sub_template_id a) d1 = (Ok r, d1) ∧ rid = Some (r_id r)) ∧
  found_blocks d1 = found_blocks d ∧
  (Forall (λ r, outcome_key r ≠ key) (rows (share_outcomes d)) →
   ∃ r, r ∈ rows (share_outcomes d1) ∧ o_status (or_outcome r) = sub_status a ∧
     o_network_target_ok (or_outcome r) = Some (sub_network_target_ok a) ∧
     o_block_hash (or_outcome r) = sub_block_hash a).
Proof.
  intros (w & d2 & r & d3 & n & d4 & H1 & H2 & H3 & -> & -> & H4)%record_share_run.
  pose proof (svc_resolve_run _ _ _ _ H2) as (_ & _ & _ & _ & Hd3 & _).
  pose proof (atomic_frame (submission_share a (w_id w))
    (submission_outcome a (w_id w) (Some (r_id r))) d3) as Hd4. rewrite H3 in Hd4. simpl in Hd4.
  assert (∃ t, d1 = set_accounting_events d4 t) as [t ->].
  { destruct n; [|exists (accounting_events d4); subst; by destruct d4].
    subst d1. destruct (record_event_frame (submission_event a w (Some (r_id r))) d4)
      as [->|(x & _ & _ & _ & ->)]; [exists (accounting_events d4); by destruct d4|by eexists]. }
  assert (found_blocks d2 = found_blocks d ∧ share_outcomes d2 = share_outcomes d) as [Hf2 Ho2].
  { unfold upsert in H1. destruct (select_one _ _); by simplify_eq/=. }
  split; [|split].
  - exists r. split; [|done]. apply (svc_resolve_again _ _ _ _ _ H2). rewrite Hd4. done.
  - simpl. rewrite Hd4. simpl. rewrite Hd3. done.
  - intros Hk. apply atomic_ok in H3 as (i & j & sn & on & d5 & E1 & E2 & _ & _ & _).
    apply put_share_ok in E1 as (_ & _ & _ & E1). apply put_outcome_ok in E2 as ((x & Hx & _) & E2).
    assert (share_outcomes d5 = share_outcomes d) as Ho5.
    { rewrite <-Ho2. destruct sn; subst d5; simpl; rewrite Hd3; done. }
    destruct on.
    + exists (outcome_row i (submission_outcome a (w_id w) (Some (r_id r))) (clock d5)
        (seq (share_outcomes d5) + 1)). split; [|done].
      simpl. rewrite E2. simpl. apply elem_of_app. right. by apply list_elem_of_singleton.
    + subst d4. apply find_some in Hx as [Hx Hkey%String.eqb_eq].
      rewrite Ho5, <-list_elem_of_In in Hx. rewrite Forall_forall in Hk. by destruct (Hk x Hx).
Qed.

Lemma persist_run env p w v t e x (c : Conn (C := C)) sid oid rid key d1 :
  se_accounting env = true → parse_worker_name (sp_worker_name p) = Ok w →
  record_share (submission_of (cn_session c) p w v t e x) (cn_db c) = (Ok (sid, oid, rid, key), d1) →
  persist env p v t e x c = (Ok key, set_db d1 c).
Proof.
  intros Ha Hw Hr. unfold persist. rewrite Ha, Hw. unfold on_db. munfold.
  unfold submission_of in Hr. by rewrite Hr.
Qed.

(** C6: a share that solves a block. When the block that is built from it is
    taken by the node, and the books take the share, then the miner is told [true]; the
    block is in the books, immature, with the job's height, template, reward and target and
    for the round of the share, but without the worker that found it; that round is closed
    as found at the template, also when it was closed before and has a block already, and
    its column for the found block stays as it was; the share carries the node's answer; of
    the books nothing but the log and these three tables changes; and, unless the same
    share had been sent before, the books have what a payout of the block needs. *)
Theorem block_found_spec env now req (c : Conn (C := C)) node job v template_id template_epoch
    share_diff interval block_hex hash answer w sid oid rid key d1 :
  let s := cn_session c in
  let p := submit_params req in
  ss_is_subscribed s = true → in_range (ss_vardiff s) →
  duration_from_secs_f64 (retarget_secs (vd_config (ss_vardiff s))) = Ok interval →
  se_accounting env = true → se_json_rpc env = Some node →
  get_job (cn_cache c) (sp_job_id p) = Some job → j_block_bytes job ≠ [] →
  classify s (Some job) p = Ok (v, template_id, template_epoch, share_diff) →
  v_network_target_ok v = true → v_block_hash v = Some hash →
  build_submit_block job (ss_extranonce1 s) (sp_extranonce2 p) (sp_ntime p) (sp_nonce p)
    (j_block_bytes job) = Ok (block_hex, hash) →
  submitblock (node := node) block_hex = Ok answer → sr_accepted answer = true →
  parse_worker_name (sp_worker_name p) = Ok w →
  record_share (submission_of s p w v template_id template_epoch share_diff) (cn_db c) =
    (Ok (sid, oid, Some rid, key), d1) →
  hash ∉ map fb_block_hash (rows (found_blocks (cn_db c))) →
  j_template_id job ≤ i64_max → j_coinbase_value job ≤ i64_max →
  ∃ nd s' d', handle_submit env now req c =
      (Ok (resp_ok (rq_id req) (Bool true), nd), set_session s' (set_db d' c)) ∧
    verdict_effect now v s nd s' ∧
    booked rid template_id job hash key d1 d' ∧
    (Forall (λ r, outcome_key r ≠ key) (rows (share_outcomes (cn_db c))) → payable hash d').
Proof.
  intros s p Hsub Hr Hi Ha Hrpc Hjob Hbytes Hc Hn Hbh Hb Hsb Hacc Hw Hrec Hh Ht Hv.
  destruct (candidate_accepted _ _ _ _ _ _ _ Hc Hn) as (j & [= <-] & -> & -> & Hva).
  pose proof (recorded_share _ _ _ _ _ _ _ Hrec) as ((r & Hres & [= ->]) & Hfb & Hnew).
  destruct (book_accepted env job key hash answer r (set_db d1 c) Ha Hacc Hres) as (d' & Hbook & Hbk);
    [simpl; by rewrite Hfb|done|done|].
  destruct (retarget_session_spec now v (set_db d' (set_db d1 c)) interval Hr Hi) as (nd & s' & E & Hve).
  assert (submit_candidate env p (Some job) v (j_template_id job) key (set_db d1 c) =
    (Ok tt, set_db d' (set_db d1 c))) as Hcand.
  { unfold submit_candidate. rewrite Hn, Hrpc. rewrite <-Hbook.
    destruct (j_block_bytes job) eqn:Eb; [done|]. munfold. change (cn_session (set_db d1 c)) with s.
    by rewrite Hb, Hsb. }
  exists nd, s', d'. split_and!; [|exact Hve|exact Hbk|].
  - unfold handle_submit. fold p s. erewrite bind_run by reflexivity. fold s. rewrite Hsub. cbn [negb].
    rewrite Hjob. erewrite bind_run by (unfold mlift; rewrite Hc; reflexivity). cbn beta iota.
    erewrite bind_run by (by eapply persist_run). erewrite bind_run by exact Hcand.
    erewrite bind_run by exact E. unfold submit_response. rewrite Hva. by destruct c.
  - intros Hk. destruct (Hnew Hk) as (x & Hx & H1 & H2 & H3). split.
    + rewrite (bk_blocks _ _ _ _ _ _ _ Hbk), map_app. apply elem_of_app. right.
      by apply list_elem_of_singleton.
    + apply select_found_at_winning. rewrite (bk_outcomes _ _ _ _ _ _ _ Hbk).
      apply Exists_exists. exists (if String.eqb (outcome_key x) key then with_node_result "accepted" x else x).
      split; [apply elem_of_map; by exists x|].
      unfold winning. simpl in H1, H2, H3. rewrite Hva in H1. rewrite Hn in H2. rewrite Hbh in H3.
      destruct (String.eqb _ _); simpl; rewrite H1, H2, H3; by rewrite !bool_decide_eq_true_2.
Qed.
End found.

(** * Examples *)

#[local] Existing Instance example_target_hashing.
#[local] Existing Instance example_lotus.
#[local] Existing Instance example_address.

(** A node that takes every block. *)
Definition taking_node : HttpNode := {|
  http_post _ := HttpBody 200 (Object [("result"%string, Null)]); display_json _ := ""%string |}.

Definition found_env : ServerEnv :=
  mkServerEnv true (Some taking_node) (λ _, inr "parse"%string) (λ _, true).

Definition found_verdict : ValidationResult := mkValidationResult true None true true (Some "32"%string).
Definition found_worker : WorkerName :=
  mkWorkerName "lotus_16PSJNf1EDEfGvaYzaXJCJZrXH4pgiTo7kyW61iGi" (Some "rig"%string).
Definition found_submission : ShareSubmission :=
  submission_of example_session (submit_params (example_request "job-890-100")) found_worker
    found_verdict 890 100 (f64_of_Z 1).

Lemma block_found_spec_witness :
  ∃ nd s' d', handle_submit found_env 7 (example_request "job-890-100") example_conn =
      (Ok (resp_ok (Number (PosInt 3)) (Bool true), nd), set_session s' (set_db d' example_conn)) ∧
    payable "32" d'.
Proof.
  destruct (record_share found_submission (cn_db example_conn)) as [r d1] eqn:Hrec.
  assert (r = Ok (Some 1, Some 1, Some 1, "1:890:100:00000003:6adc0c6a0000:B02B4ABB3DD6E835"%string))
    as ->.
  { transitivity (record_share found_submission (cn_db example_conn)).1;
      [by rewrite Hrec|vm_compute; reflexivity]. }
  destruct (block_found_spec found_env 7 (example_request "job-890-100") example_conn taking_node
    example_job found_verdict 890 100 (f64_of_Z 1) 60000000000 "32" "32"
    (mkSubmitBlockResult true None None) found_worker (Some 1) (Some 1) 1
    "1:890:100:00000003:6adc0c6a0000:B02B4ABB3DD6E835" d1)
    as (nd & s' & d' & E & _ & _ & Hp); try (vm_compute; reflexivity).
  - split; vm_compute; reflexivity.
  - discriminate.
  - exact Hrec.
  - apply not_elem_of_nil.
  - vm_compute. discriminate.
  - vm_compute. discriminate.
  - exists nd, s', d'. split; [exact E|]. apply Hp. constructor.
Defined.
