(* ===== verification/Conversation.v ===== *)
(** The conversation on a connection: which lines of a miner are answered, in which order
    and with which id, and what the lines that the pool writes look like. *)
From Stdlib Require Import ZArith Lia String.
From stdpp Require Import base option list numbers strings sets gmap.
From S2P Require Import Prelude Text Float64 VarDiff Json Db AccountingService AccountingSystem Job JobCache Protocol Session Validator JsonRpc Server.
#[local] Open Scope Z_scope.

(** * What is sent *)

(** The ids of the responses among the lines that were sent. *)
Definition response_id (v : Value) : option Value := get v "result" ≫= λ _, get v "id".
Definition response_ids (sent : list (list Value)) : list Value := omap response_id (concat sent).

Definition is_str (v : Value) : bool := match v with Str _ => true | _ => false end.
Definition is_number (v : Value) : bool := match v with Number _ => true | _ => false end.
Definition is_bool (v : Value) : bool := match v with Bool _ => true | _ => false end.

(** Each parameter passes its check; those after the checks are optional texts. *)
Fixpoint params_match (checks : list (Value → bool)) (optional : nat) (ps : list Value) : bool :=
  match checks, ps with
  | [], _ => (length ps <=? optional)%nat && forallb is_str ps
  | c :: checks, p :: ps => c p && params_match checks optional ps
  | _ :: _, [] => false
  end.

(** The parameters of the three messages that a server sends unasked. *)
Definition message_params (method : string) (ps : list Value) : bool :=
  if String.eqb method "mining.set_difficulty"
  then params_match [λ v, is_number v || is_null v] 0 ps
  else if String.eqb method "mining.set_extranonce" then params_match [is_str; is_number] 0 ps
  else if String.eqb method "mining.notify"
  then params_match [is_str; is_str; is_str; is_str;
         λ v, match v with Array l => forallb is_str l | _ => false end;
         is_str; is_str; is_str; is_bool; is_number; is_str; is_str; is_number] 1 ps
  else false.

(** A response has a result and no error, or an error with a code and a text. *)
Definition answer_shape (result error : Value) : bool :=
  match error with
  | Null => negb (is_null result)
  | Array [Number _; Str _; Null] => match result with Null | Bool false => true | _ => false end
  | _ => false
  end.

(** A line of the protocol, as a miner can read it. *)
Definition stratum_line (v : Value) : bool :=
  match v with
  | Object [(k1, id); (k2, a); (k3, b)] =>
      String.eqb k1 "id" &&
      (if String.eqb k2 "result" then String.eqb k3 "error" && answer_shape a b
       else String.eqb k2 "method" && String.eqb k3 "params" && is_null id &&
         match a, b with Str m, Array ps => message_params m ps | _, _ => false end)
  | _ => false
  end.

Lemma notify_line job : stratum_line (create_notify job) = true.
Proof.
  assert (∀ l, forallb is_str (map Str l) = true) as Hl by (by induction l).
  unfold create_notify, notify_params, server_message.
  assert (is_number (json_i64 (j_height job)) = true) as Hz by (unfold json_i64; by case_match).
  destruct (json_i64 (j_height job)); try done.
  destruct (String.eqb (j_reason job) ""); cbn; by rewrite Hl.
Qed.
Lemma difficulty_line d : stratum_line (set_difficulty d) = true.
Proof. unfold set_difficulty, json_f64. by destruct (f64_finite d). Qed.

Section conversation.
Context {so : SqlOrder} {hashing : Hashing} {lotus : LotusLib} {la : LotusAddress}.
Context {C : Type} {moka : MokaCache C}.
Context (trim : string → string).

#[local] Abbreviation Conn := (Conn (C := C)).

(** * The expected answers *)

(** The lines that a miner completed: a job that arrives in the middle of a line starts
    a new one. *)
Fixpoint lines_read (line : string) (evs : list conn_event) : list string :=
  match evs with
  | [] => []
  | Received piece :: evs => lines_read (line ++ piece) evs
  | EndOfLine _ piece :: evs => trim (line ++ piece)%string :: lines_read "" evs
  | (JobBroadcast _ | JobLagged) :: evs => lines_read "" evs
  end.

(** A line that is not blank gets one answer: with the id of the request, or without one
    when the line is no request. *)
Definition answer_id (env : ServerEnv) (line : string) : option Value :=
  if String.eqb line "" then None
  else Some (match decode_request_line (se_from_str env) line 4096 with
             | inl req => rq_id req | inr _ => Null end).

Definition answer_ids (env : ServerEnv) (lines : list string) : list Value :=
  omap (answer_id env) lines.

(** * Lines that are no responses *)

(** Code that sends no response, and only lines of the protocol. *)
Definition quiet (c c' : Conn) : Prop :=
  cn_line c' = cn_line c ∧ ∃ more, cn_sent c' = cn_sent c ++ more ∧ response_ids more = [] ∧
    Forall (λ v, stratum_line v = true) (concat more).

#[local] Instance quiet_preorder : PreOrder quiet.
Proof.
  split.
  - intros c. split; [done|]. exists []. by rewrite app_nil_r.
  - intros x y z (L1 & m1 & E1 & H1 & F1) (L2 & m2 & E2 & H2 & F2).
    split; [congruence|]. exists (m1 ++ m2).
    rewrite E2, E1, app_assoc. split; [done|]. unfold response_ids in *.
    rewrite concat_app, omap_app, H1, H2. split; [done|]. by apply Forall_app.
Qed.

Lemma on_db_quiet {A} (m : DbM A) : Keeps quiet (on_db m).
Proof.
  intros c. unfold on_db. destruct (m (cn_db c)). split; [done|]. exists [].
  by rewrite app_nil_r.
Qed.
Lemma on_session_quiet f : Keeps quiet (on_session f).
Proof. intros c. split; [done|]. exists []. by rewrite app_nil_r. Qed.
Lemma write_quiet env lines :
  omap response_id lines = [] → Forall (λ v, stratum_line v = true) lines →
  Keeps quiet (write_all env lines).
Proof.
  intros H1 H2 c. unfold write_all. destruct (se_writes _ _); [|reflexivity].
  split; [done|]. exists [lines]. split; [done|]. unfold response_ids. simpl. by rewrite app_nil_r.
Qed.
#[local] Hint Resolve on_db_quiet on_session_quiet notify_line difficulty_line : keeps.
#[local] Hint Extern 4 (Keeps quiet (write_all _ _)) =>
  apply write_quiet; [done|repeat constructor; auto with keeps] : keeps.

Lemma dispatch_quiet env now req : Keeps quiet (dispatch env now req).
Proof.
  unfold dispatch, record_authorization_event, handle_submit, persist, submit_candidate,
    book_submission, retarget_session. keeps.
Qed.

Lemma on_new_job_quiet env job : Keeps quiet (on_new_job env job).
Proof.
  unfold on_new_job. keeps. apply write_quiet; [by destruct o|].
  destruct o; repeat constructor; auto with keeps.
Qed.

(** * The answer to a request *)

(** A response to the request, of the right shape. *)
Definition answer_to (req : StratumRequest) (resp : StratumResponse) : Prop :=
  rs_id resp = rq_id req ∧ stratum_line (response_json resp) = true.

Lemma ret_ok {A} (a b : A) (c c' : Conn) : (mret a : M Conn A) c = (Ok b, c') → b = a.
Proof. by intros [= ->]. Qed.

Lemma authorize_answer req s : answer_to req (handle_authorize req s).1.
Proof.
  unfold handle_authorize. destruct (negb (ss_is_subscribed s)); [split; reflexivity|].
  destruct (negb (is_ok _)); split; reflexivity.
Qed.

Lemma submit_answer env now req (c : Conn) r c' :
  handle_submit env now req c = (Ok r, c') → answer_to req r.1.
Proof.
  unfold handle_submit. intros (c1 & d1 & _ & H)%bind_ok.
  destruct (negb _); [apply ret_ok in H as ->; by split|].
  apply bind_ok in H as ([[[v t] e] x] & d2 & _ & H). apply bind_ok in H as (k & d3 & _ & H).
  apply bind_ok in H as (u & d4 & _ & H). apply bind_ok in H as (o & d5 & _ & H).
  apply ret_ok in H as ->. unfold submit_response. repeat case_match; simplify_eq/=; by split.
Qed.

Lemma dispatch_answer env now req (c : Conn) resp c' :
  dispatch env now req c = (Ok resp, c') → answer_to req resp.
Proof.
  unfold dispatch. destruct (rq_method req); try (intros ->%ret_ok; by split).
  - intros (c1 & d1 & _ & H)%bind_ok. pose proof (authorize_answer req (cn_session c1)) as Ha.
    revert H Ha. destruct (handle_authorize req (cn_session c1)) as [a s]. intros H Ha.
    apply bind_ok in H as (u & d2 & _ & H). by apply bind_ok in H as (u' & d3 & _ & ->%ret_ok).
  - intros (r & d1 & H1 & H2)%bind_ok. apply bind_ok in H2 as (u & d2 & _ & ->%ret_ok).
    by eapply submit_answer.
Qed.

(** What a turn sends: quiet lines around at most one response. *)
Definition answers (ids : list Value) (r : result unit) (c c' : Conn) : Prop :=
  cn_line c' = cn_line c ∧ ∃ more rest, cn_sent c' = cn_sent c ++ more ∧ ids = response_ids more ++ rest ∧
    (r = Ok tt → rest = []) ∧ Forall (λ v, stratum_line v = true) (concat more).

Lemma quiet_answers r c c' : quiet c c' → answers [] r c c'.
Proof. intros (L & more & E & H & F). split; [done|]. exists more, []. by rewrite H. Qed.

(** An answer that is not sent: the connection stops before it. *)
Lemma quiet_stops ids r c c' : quiet c c' → r ≠ Ok tt → answers ids r c c'.
Proof. intros (L & more & E & H & F) Hr. split; [done|]. exists more, ids. by rewrite H. Qed.

Lemma answers_stop ids ids' r c c' : answers ids r c c' → r ≠ Ok tt → answers (ids ++ ids') r c c'.
Proof.
  intros (L & more & rest & E & I & _ & F) Hr. split; [done|]. exists more, (rest ++ ids').
  by rewrite I, app_assoc.
Qed.

Lemma answers_seq ids1 ids2 r c1 c2 c3 :
  answers ids1 (Ok tt) c1 c2 → answers ids2 r c2 c3 → answers (ids1 ++ ids2) r c1 c3.
Proof.
  intros (L1 & m1 & r1 & E1 & I1 & R1 & F1) (L2 & m2 & r2 & E2 & I2 & R2 & F2).
  rewrite (R1 eq_refl), app_nil_r in I1. split; [congruence|]. exists (m1 ++ m2), r2.
  rewrite E2, E1, app_assoc, I1, I2. unfold response_ids.
  rewrite concat_app, omap_app, app_assoc. split_and!; [done|done|done|]. by apply Forall_app.
Qed.

Lemma write_answer env resp (c : Conn) :
  stratum_line (response_json resp) = true →
  let '(r, c') := write_all env [response_json resp] c in answers [rs_id resp] r c c'.
Proof.
  intros Hl. unfold write_all. destruct (se_writes _ _).
  - split; [done|]. exists [[response_json resp]], []. split_and!; [done|done|done|]. by repeat constructor.
  - by apply quiet_stops.
Qed.

Lemma handle_line_answers env now line (c : Conn) :
  let '(r, c') := handle_line env now line c in
  answers (option_list (answer_id env line)) r c c'.
Proof.
  unfold handle_line, answer_id. destruct (String.eqb line ""); [by apply quiet_answers|]. simpl.
  destruct (decode_request_line _ line 4096) as [req|e]; [|by apply write_answer].
  pose proof (dispatch_quiet env now req c) as Hq.
  pose proof (dispatch_answer env now req c) as Ha. unfold mbind at 1, M_bind at 1.
  destruct (dispatch env now req c) as [[resp|e|] c1]; simpl in Hq;
    [|by apply quiet_stops..].
  destruct (Ha _ _ eq_refl) as [Hid Hl]. pose proof (write_answer env resp c1 Hl) as Hw.
  unfold mbind at 1, M_bind at 1.
  assert (∀ r c2, answers [rs_id resp] r c1 c2 → answers [rq_id req] r c c2) as Hpre.
  { intros r c2 H. rewrite <-Hid. apply (answers_seq [] [rs_id resp] r c c1); [|done].
    by apply quiet_answers. }
  destruct (write_all env [response_json resp] c1) as [[[]|e|] c2]; [|by apply Hpre..].
  match goal with |- let '(_, _) := ?m c2 in _ => assert (Keeps quiet m) as Hrest end.
  { keeps. }
  specialize (Hrest c2). match goal with |- let '(_, _) := ?m c2 in _ => destruct (m c2) as [r c3] end.
  apply (answers_seq [rq_id req] [] r c c2); [by apply Hpre|by apply quiet_answers].
Qed.

(** One turn: the line that is left, and the answers. *)
Definition next_line (line : string) (ev : conn_event) : string :=
  match ev with Received piece => line ++ piece | _ => "" end.
Definition turn_ids (env : ServerEnv) (line : string) (ev : conn_event) : list Value :=
  match ev with
  | EndOfLine _ piece => option_list (answer_id env (trim (line ++ piece)))
  | _ => []
  end.

Lemma lines_read_cons env line ev evs :
  answer_ids env (lines_read line (ev :: evs)) =
    turn_ids env line ev ++ answer_ids env (lines_read (next_line line ev) evs).
Proof.
  destruct ev as [piece|now piece|job|]; try done. unfold answer_ids. cbn.
  by destruct (answer_id env _).
Qed.

Lemma turn_answers env ev (c : Conn) :
  let '(r, c') := turn trim env ev c in
  answers (turn_ids env (cn_line c) ev) r (set_line (next_line (cn_line c) ev) c) c'.
Proof.
  destruct ev as [piece|now piece|job|]; try (by apply quiet_answers).
  - apply (handle_line_answers env now (trim (cn_line c ++ piece)%string) (set_line "" c)).
  - pose proof (on_new_job_quiet env job (set_line "" c)) as Hq.
    change (turn trim env (JobBroadcast job) c) with (on_new_job env job (set_line "" c)).
    destruct (on_new_job env job (set_line "" c)) as [r c']. by apply quiet_answers.
Qed.

Lemma connection_answers env evs (c : Conn) :
  let '(r, c') := handle_connection trim env evs c in
  ∃ more rest, cn_sent c' = cn_sent c ++ more ∧
    answer_ids env (lines_read (cn_line c) evs) = response_ids more ++ rest ∧
    (r = Ok tt → rest = []) ∧ Forall (λ v, stratum_line v = true) (concat more).
Proof.
  revert c. induction evs as [|ev evs IH]; intros c.
  { exists [], []. by rewrite app_nil_r. }
  unfold handle_connection in *. cbn [mfor]. unfold mbind at 1, M_bind at 1.
  rewrite lines_read_cons. pose proof (turn_answers env ev c) as Ht.
  destruct (turn trim env ev c) as [[[]|e|] c1].
  - destruct Ht as (L & m1 & r1 & E1 & I1 & R1 & F1). specialize (IH c1).
    rewrite L in IH. destruct (mfor evs (turn trim env) c1) as [r c'].
    destruct IH as (m2 & r2 & E2 & I2 & R2 & F2).
    rewrite (R1 eq_refl), app_nil_r in I1. exists (m1 ++ m2), r2. cbn in E1, I2.
    rewrite E2, E1, I1, I2, app_assoc. unfold response_ids.
    rewrite concat_app, omap_app, app_assoc. split_and!; [done|done|done|by apply Forall_app].
  - by destruct (answers_stop _ (answer_ids env (lines_read (next_line (cn_line c) ev) evs)) _ _ _ Ht)
      as [_ ?].
  - by destruct (answers_stop _ (answer_ids env (lines_read (next_line (cn_line c) ev) evs)) _ _ _ Ht)
      as [_ ?].
Qed.

(** C14: every line is answered once and in order. Whatever a miner sends, in
    whatever pieces, and whatever jobs arrive in between: the responses on a connection are
    those to the lines that were completed, one to each line that is not blank, in the
    order of the lines, each with the id of its request, and without one for a line that
    is no request. Only when the connection ends early, by an error or a panic, can the
    last ones be missing. A line that a job interrupts is not among those completed. *)
Theorem requests_answered env evs (c : Conn) :
  let '(r, c') := handle_connection trim env evs c in
  ∃ more rest, cn_sent c' = cn_sent c ++ more ∧
    answer_ids env (lines_read (cn_line c) evs) = response_ids more ++ rest ∧
    (r = Ok tt → rest = []).
Proof.
  pose proof (connection_answers env evs c) as H. destruct (handle_connection _ env evs c) as [r c'].
  destruct H as (more & rest & E & I & R & _). by exists more, rest.
Qed.

(** C21: every line that a connection writes, in every state and whatever
    happens, is a line of the protocol: a response with a result and no error, or with a
    numbered error with a text; or one of the messages that set the difficulty, set the
    extranonce or announce a job, with parameters of the types that miners expect in each
    place. *)
Theorem messages_typed env evs (c : Conn) :
  let '(_, c') := handle_connection trim env evs c in
  ∃ more, cn_sent c' = cn_sent c ++ more ∧ Forall (λ v, stratum_line v = true) (concat more).
Proof.
  pose proof (connection_answers env evs c) as H. destruct (handle_connection _ env evs c) as [r c'].
  destruct H as (more & rest & E & _ & _ & F). by exists more.
Qed.
End conversation.

(** * Examples *)

#[local] Existing Instance example_target_hashing.
#[local] Existing Instance example_lotus.
#[local] Existing Instance example_address.

(** A ping in two pieces, a job, a blank line, a line that is no JSON. *)
Example conversation_example :
  let from_str line :=
    if String.eqb line "ping" then
      inl (Object [("id"%string, Number (PosInt 7)); ("method"%string, Str "mining.ping")])
    else inr "parse"%string in
  let c' := (handle_connection (λ s, s) (mkServerEnv true None from_str (λ _, true))
    [Received "pi"; EndOfLine 1 "ng"; JobBroadcast example_job; EndOfLine 2 ""; Received "x";
     EndOfLine 3 "y"] example_conn).2 in
  response_ids (cn_sent c') = [Number (PosInt 7); Null] ∧
  forallb stratum_line (concat (cn_sent c')) = true ∧ length (concat (cn_sent c')) = 4%nat.
Proof. vm_compute. split_and!; reflexivity. Qed.
