(* ===== verification/Template.v ===== *)
(** [node_integration/template.rs]: the conversion of a mining template of the node
    into a job, and the check of its coinbase. A [MiningTemplate] is a type of the
    node library; the record has the fields that the code reads. *)
From Stdlib Require Import ZArith Lia String Init.Byte.
From stdpp Require Import base option list numbers strings sets gmap.
From S2P Require Import Prelude Text Float64 VarDiff Json Job Protocol Session Validator Server.
#[local] Open Scope Z_scope.

Record MiningTemplate := mkMiningTemplate {
  t_template_id : Z;
  t_block : list byte;
  t_header : list byte;
  t_height : Z;
  t_version : Z;
  t_target_hex_be : string;
  t_curtime : Z;
  t_coinbase_value : Z;
  t_coinbase1 : string;
  t_coinbase2 : string;
  t_merkle_branches : list string;
  t_prev_hash_stratum : string;
  t_nbits_stratum : string;
  t_ntime_stratum : string;
}.

(** [src/src/stratum_protocol/params.rs:16-16 EXTRANONCE_TOTAL_SIZE (part)] *)
Definition EXTRANONCE_TOTAL_SIZE : Z := EXTRANONCE_1_SIZE + EXTRANONCE_2_SIZE.

Section template.
Context {hashing : Hashing} {lotus : LotusLib}.

(** The coinbase with an extranonce of zeros. *)
Definition dummy_extranonce : string :=
  hex_encode (replicate (Z.to_nat EXTRANONCE_TOTAL_SIZE) x00).

(** [src/src/node_integration/template.rs:18-76 compute_block_size_with_extranonce]
    The sizes are far below the limits of [i64]; the sum is cast to [u64]. *)
Definition compute_block_size_with_extranonce (template_block : list byte)
    (coinbase1 coinbase2 : string) : result Z :=
  block ← ok_or (Anyhow "failed to deserialize template block") (block_deser template_block);
  match block.2 with
  | [] => Err (Anyhow "template block has no transactions")
  | tx :: _ =>
      let template_coinbase_size := Z.of_nat (length (tx_ser tx)) in
      sample_bytes ← ok_or (Anyhow "failed to hex-decode sample coinbase")
        (hex_decode (coinbase1 ++ dummy_extranonce ++ coinbase2)%string);
      sample_tx ← ok_or (Anyhow "failed to deserialize sample coinbase tx") (tx_deser sample_bytes);
      let candidate_coinbase_size := Z.of_nat (length (tx_ser sample_tx)) in
      let delta := candidate_coinbase_size - template_coinbase_size in
      Ok (as_u64 (Z.of_nat (length template_block) + delta))
  end.

(** [src/src/node_integration/template.rs:93-142 template_to_job] *)
Definition template_to_job (template : MiningTemplate) (clean_jobs : bool) : result MiningJob :=
  let '(epoch_hash, extended_metadata_hash) :=
    match t_header template with
    | [] => (""%string, ""%string)
    | bytes =>
        match header_deser bytes with
        | Some header => (header_epoch_hash header, header_extended_metadata_hash header)
        | None => (""%string, ""%string)
        end
    end in
  block_size ← compute_block_size_with_extranonce (t_block template) (t_coinbase1 template)
                 (t_coinbase2 template);
  Ok (mkMiningJob
    ("job-" ++ show_u (t_template_id template) ++ "-" ++ show_u (t_curtime template))%string
    (t_template_id template) (t_prev_hash_stratum template) (t_coinbase1 template)
    (t_coinbase2 template) (t_merkle_branches template) (show_hex 8 (t_version template) "")
    (t_nbits_stratum template) (t_ntime_stratum template) (t_target_hex_be template) clean_jobs
    (t_curtime template) (t_height template) epoch_hash extended_metadata_hash block_size
    (t_block template) (t_coinbase_value template) "").

(** Why a template's coinbase is refused; the source formats a message. *)
Inductive CoinbaseProblem : Type :=
  | CoinbaseHex
  | CoinbaseTx
  | NoOutputs
  | RewardBurned (outputs : nat) (total : Z).

(** [src/src/node_integration/template.rs:152-188 verify_coinbase_outputs] *)
Definition verify_coinbase_outputs (template : MiningTemplate) : unit + CoinbaseProblem :=
  match hex_decode (t_coinbase1 template ++ dummy_extranonce ++ t_coinbase2 template)%string with
  | None => inr CoinbaseHex
  | Some coinbase_bytes =>
      match tx_deser coinbase_bytes with
      | None => inr CoinbaseTx
      | Some coinbase_tx =>
          let outputs := tx_outputs coinbase_tx in
          match outputs with
          | [] => inr NoOutputs
          | _ =>
              let total_output_value := as_i64 (fold_left Z.add (map fst outputs) 0) in
              let spendable_count :=
                length (List.filter (λ o, (0 <? o.1) && negb o.2) outputs) in
              if (spendable_count =? 0)%nat
              then inr (RewardBurned (length outputs) total_output_value)
              else inl tt
          end
      end
  end.

(** * Properties *)

(** A template passes the check exactly when its coinbase
    can be rebuilt and pays a positive amount to an output that can be spent. *)
Theorem verify_coinbase_spec (template : MiningTemplate) :
  verify_coinbase_outputs template = inl tt ↔
  ∃ bytes tx v, hex_decode (t_coinbase1 template ++ dummy_extranonce ++ t_coinbase2 template)
      = Some bytes ∧ tx_deser bytes = Some tx ∧ (v, false) ∈ tx_outputs tx ∧ 0 < v.
Proof.
  unfold verify_coinbase_outputs. destruct (hex_decode _) as [bytes|]; [|naive_solver].
  destruct (tx_deser bytes) as [tx|] eqn:Et; [|naive_solver].
  set (p := λ o : Z * bool, (0 <? o.1) && negb o.2).
  assert ((∃ v, (v, false) ∈ tx_outputs tx ∧ 0 < v) ↔ List.filter p (tx_outputs tx) ≠ []) as Hp.
  { split.
    - intros (v & Hin & Hv). apply list_elem_of_In in Hin. intros E.
      assert (In (v, false) (List.filter p (tx_outputs tx))) as Hf.
      { apply filter_In. split; [done|]. unfold p. simpl. rewrite andb_true_r. by apply Z.ltb_lt. }
      by rewrite E in Hf.
    - intros Hne. destruct (List.filter p (tx_outputs tx)) as [|[v o] l] eqn:E; [done|].
      assert (In (v, o) (List.filter p (tx_outputs tx))) as Hin by (rewrite E; by left).
      apply filter_In in Hin as [Hin Hpv]. unfold p in Hpv. simpl in Hpv.
      apply andb_true_iff in Hpv as [Hv%Z.ltb_lt Ho]. destruct o; [done|].
      exists v. by rewrite list_elem_of_In. }
  assert (∀ T : Prop, (∃ bytes' tx' v, Some bytes = Some bytes' ∧ tx_deser bytes' = Some tx' ∧
      (v, false) ∈ tx_outputs tx' ∧ 0 < v) ↔ ∃ v, (v, false) ∈ tx_outputs tx ∧ 0 < v) as Hs
    by naive_solver.
  rewrite (Hs True), Hp. destruct (tx_outputs tx) as [|o l]; [done|].
  destruct (List.filter p (o :: l)); simpl; naive_solver.
Qed.

Lemma template_to_job_run template clean job :
  template_to_job template clean = Ok job →
  compute_block_size_with_extranonce (t_block template) (t_coinbase1 template)
    (t_coinbase2 template) = Ok (j_block_size job) ∧
  j_job_id job = job_id_of (t_template_id template) (t_curtime template) ∧
  j_template_id job = t_template_id template ∧ j_template_epoch job = t_curtime template ∧
  j_coinbase1 job = t_coinbase1 template ∧ j_coinbase2 job = t_coinbase2 template ∧
  j_block_bytes job = t_block template ∧ j_clean_jobs job = clean ∧
  j_network_target_hex job = t_target_hex_be template ∧
  j_ntime job = t_ntime_stratum template ∧ j_coinbase_value job = t_coinbase_value template.
Proof.
  unfold template_to_job.
  destruct (match t_header template with [] => _ | _ => _ end) as [e x].
  unfold mbind, result_bind.
  destruct (compute_block_size_with_extranonce _ _ _); intros [= <-]. done.
Qed.

(** The job of a template carries the template's identity, target,
    time and value, and the template id and epoch can be read back from its id, as
    the submit handler does for a job that has left the cache. *)
Theorem template_job_id template clean job :
  template_to_job template clean = Ok job →
  in_u64 (t_template_id template) → in_u64 (t_curtime template) →
  parse_template_metadata_from_job_id (j_job_id job) =
    Some (j_template_id job, j_template_epoch job) ∧
  j_template_id job = t_template_id template ∧ j_template_epoch job = t_curtime template ∧
  j_clean_jobs job = clean ∧ j_ntime job = t_ntime_stratum template ∧
  j_network_target_hex job = t_target_hex_be template ∧
  j_coinbase_value job = t_coinbase_value template.
Proof.
  intros (_ & Hi & Ht & He & _ & _ & _ & Hc & Hn & Htm & Hv)%template_to_job_run H1 H2.
  split_and!; try done. rewrite Hi, Ht, He. by apply parse_job_id.
Qed.

(** C28: a job that was made from a template has the size of the blocks that are built
    from it with extranonces of the announced sizes. When the size of a serialized block
    is that of its coinbase plus a part that depends only on the rest, and the template's
    bytes have the size of their own serialization, then a block built from the job has the
    job's size and as many bytes more (or less) as the coinbase with the miner's extranonces
    has more than the one with eight zero bytes. The size assertion holds as long as that
    is at most one byte; beyond that it fails, and building the block panics, which an
    [extranonce2] of another length than four bytes can bring about: the validator takes
    one to eight. *)
Theorem built_block_size (rest : LotusMeta → list LotusTx → nat) template clean job hd meta tx txs
    sample_bytes sample coinbase_bytes coinbase extranonce1 extranonce2 ntime nonce :
  (∀ h m t ts, length (block_ser (h, m, t :: ts)) = (rest m ts + length (tx_ser t))%nat) →
  template_to_job template clean = Ok job →
  block_deser (t_block template) = Some (hd, meta, tx :: txs) →
  length (t_block template) = length (block_ser (hd, meta, tx :: txs)) →
  hex_decode (t_coinbase1 template ++ dummy_extranonce ++ t_coinbase2 template)
    = Some sample_bytes → tx_deser sample_bytes = Some sample →
  hex_decode (t_coinbase1 template ++ extranonce1 ++ extranonce2 ++ t_coinbase2 template)
    = Some coinbase_bytes → tx_deser coinbase_bytes = Some coinbase →
  in_i64 (Z.of_nat (rest meta txs + length (tx_ser sample))) →
  let delta := Z.of_nat (length (tx_ser coinbase)) - Z.of_nat (length (tx_ser sample)) in
  let built := build_submit_block job extranonce1 extranonce2 ntime nonce (j_block_bytes job) in
  (∀ h, Z.of_nat (length (block_ser (h, meta, coinbase :: txs))) = j_block_size job + delta) ∧
  (Z.abs delta ≤ 1 → built ≠ Panic) ∧
  (∀ header_bytes header,
     build_stratum_header (header_fields job extranonce1 extranonce2 ntime nonce)
       = Some header_bytes → header_deser header_bytes = Some header →
     1 < Z.abs delta → built = Panic).
Proof.
  intros Hser Hj Hb Hlen Hs Hst Hc Hct Hin delta built.
  apply template_to_job_run in Hj as (Hsize & _ & _ & _ & H1 & H2 & H3 & _).
  assert (j_block_size job = Z.of_nat (rest meta txs + length (tx_ser sample))) as Hsz.
  { revert Hsize. unfold compute_block_size_with_extranonce, mbind, result_bind.
    rewrite Hb. simpl. rewrite Hs. simpl. rewrite Hst. simpl. intros [= <-].
    rewrite Hlen, Hser. unfold in_i64 in Hin.
    replace (Z.of_nat (rest meta txs + length (tx_ser tx)) +
      (Z.of_nat (length (tx_ser sample)) - Z.of_nat (length (tx_ser tx))))
      with (Z.of_nat (rest meta txs + length (tx_ser sample))) by lia.
    apply as_u64_id. unfold in_u64, u64_max, i64_min, i64_max in *. lia. }
  assert (∀ h, Z.of_nat (length (block_ser (h, meta, coinbase :: txs))) -
    as_i64 (j_block_size job) = delta) as Hdelta.
  { intros h. rewrite Hser, Hsz, (as_i64_id _ Hin). unfold delta. lia. }
  split; [intros h; rewrite <-(Hdelta h), Hsz, (as_i64_id _ Hin); lia|].
  unfold built, build_submit_block, mbind, result_bind. rewrite H3, Hb. simpl.
  split; [intros Hd|intros hb hdr Hh Hhd Hd; rewrite Hh; simpl; rewrite Hhd].
  - destruct (build_stratum_header _) as [hb|]; [|done]. simpl.
    destruct (header_deser hb) as [hdr|]; [|done]. simpl.
    rewrite H1, H2, Hc. simpl. rewrite Hct. simpl.
    unfold copy_32. rewrite calc_hash_length. simpl.
    by rewrite Hdelta, (proj2 (Z.leb_le _ _) Hd).
  - simpl. rewrite H1, H2, Hc. simpl. rewrite Hct. simpl.
    unfold copy_32. rewrite calc_hash_length. simpl.
    by rewrite Hdelta, (proj2 (Z.leb_gt _ _) Hd).
Qed.
End template.

(** * Examples *)

#[local] Existing Instance example_target_hashing.
#[local] Existing Instance example_lotus.

Definition example_template : MiningTemplate :=
  mkMiningTemplate 890 [x00; x01] [] 1292529 1 "00ff" 100 260000000 "02" "ff" [] "4f7b" "10d0091c"
    "6adc0c6a0000".

Lemma template_job_id_witness :
  ∃ job, template_to_job example_template true = Ok job ∧
    parse_template_metadata_from_job_id (j_job_id job) = Some (890, 100).
Proof.
  eexists. split; [vm_compute; reflexivity|].
  apply (template_job_id example_template true); [vm_compute; reflexivity|..];
    unfold in_u64, u64_max; simpl; lia.
Defined.

(** A decoder that gives the right number of bytes. *)
Definition sized_hashing : Hashing := {|
  hex_decode s := Some (replicate (String.length s / 2) xff);
  target_to_difficulty _ := None |}.

(** A library whose hex texts have two characters for a byte. *)
Definition sized_lotus : LotusLib.
Proof.
  refine {|
    LotusHeader := list byte; LotusTx := list byte; LotusMeta := unit;
    build_stratum_header _ := Some (replicate 32 x00);
    header_deser bs := Some bs;
    calc_hash h := replicate 32 x00;
    header_meets_difficulty _ _ := Some true;
    hex_encode bs := String.concat "" (replicate (length bs) "00"%string);
    u256_from_big_endian := be_value;
    block_deser bs := Some (bs, tt, [bs]);
    block_ser b := concat b.2;
    tx_deser bs := Some bs;
    tx_ser bs := bs;
    tx_outputs _ := [];
    update_merkle_root h _ := h;
    header_height _ := 0;
    header_epoch_hash _ := ""%string;
    header_extended_metadata_hash _ := ""%string |}; done.
Defined.

(** With the announced four bytes the block can be built; with eight, which the validator
    takes, the assertion fails. *)
Lemma built_block_size_witness :
  ∃ job, template_to_job (hashing := sized_hashing) (lotus := sized_lotus) example_template true = Ok job ∧
    build_submit_block (hashing := sized_hashing) (lotus := sized_lotus) job "00000001" "00000002" "6adc0c6a0000"
      "0000000000000001" (j_block_bytes job) ≠ Panic ∧
    validate_share_format "0000000000000002" "6adc0c6a0000" "0000000000000001" = None ∧
    build_submit_block (hashing := sized_hashing) (lotus := sized_lotus) job "00000001" "0000000000000002" "6adc0c6a0000"
      "0000000000000001" (j_block_bytes job) = Panic.
Proof.
  assert (∀ (h : list byte) (m : unit) (t : list byte) (ts : list (list byte)),
    length (concat (t :: ts)) = (length (concat ts) + length t)%nat) as Hser
    by (intros; simpl; rewrite length_app; lia).
  eexists. split; [vm_compute; reflexivity|].
  split; [|split; [vm_compute; reflexivity|]].
  - apply (built_block_size (hashing := sized_hashing) (lotus := sized_lotus)
      (λ _ ts, length (concat ts)) example_template
      true _ [x00; x01] tt [x00; x01] [] (replicate 10 xff) (replicate 10 xff) (replicate 10 xff)
      (replicate 10 xff)); try (vm_compute; reflexivity); [exact Hser| |].
    + unfold in_i64, i64_min, i64_max. simpl. lia.
    + vm_compute. discriminate.
  - eapply (built_block_size (hashing := sized_hashing) (lotus := sized_lotus)
      (λ _ ts, length (concat ts)) example_template
      true _ [x00; x01] tt [x00; x01] [] (replicate 10 xff) (replicate 10 xff) (replicate 14 xff)
      (replicate 14 xff)); try (vm_compute; reflexivity); [exact Hser|].
    unfold in_i64, i64_min, i64_max. simpl. lia.
Defined.
