(* ===== verification/PayoutHandler.v ===== *)
(** [payout/handler.rs]: the task that turns maturation events into payout batches
    and submits them. Events arrive over a channel and are handled one after the
    other; the guard around the submission is not needed in the sequential model.
    A failed call is logged and the loop goes on. *)
From Stdlib Require Import ZArith Lia String.
From stdpp Require Import base option list numbers strings sets gmap.
From S2P Require Import Prelude Text Float64 Json Db VarDiff FoundBlockRepository PayoutRepository AccountingService PayoutService PayoutSubmission AccountingSystem.
#[local] Open Scope Z_scope.

(** [src/src/payout/mod.rs:15-18 PayoutEvent] *)
Inductive PayoutEvent : Type :=
  | BlockMatured (block_hash : string)
  | BlockConnected (txids : list string).

Section handler.
Context {so : SqlOrder} {hashing : Hashing}.

(** [src/src/payout/handler.rs:92-103 PayoutHandler::run (part)] *)
Definition already_paid (d : Db) (block_hash : string) : bool :=
  existsb (λ b, match pb_retry_key b with
                | Some k => starts_with block_hash k
                | None => false
                end) (list_batches d None).

(** [src/src/payout/handler.rs:180-196 PayoutHandler::process_pending_payouts_locked] *)
Definition process_pending_payouts_locked (env : PayoutEnv) (pp : PayoutParams) : DbM unit :=
  mignore (process_pending_payouts env pp).

(** [src/src/payout/handler.rs:75-133 PayoutHandler::run (part)] *)
Definition on_block_matured (env : PayoutEnv) (pp : PayoutParams) (block_hash : string) :
    DbM unit :=
  fb ← query (λ d, Ok (get_by_hash d block_hash));
  match fb with
  | None => mret tt
  | Some found_block =>
      paid ← query (λ d, Ok (already_paid d (fb_block_hash found_block)));
      (if paid : bool then mret tt
       else mignore (create_payout_for_found_block found_block pp)) ;;
      process_pending_payouts_locked env pp
  end.

(** [src/src/payout/handler.rs:141-164 PayoutHandler::run (part)] One submitted batch. *)
Definition confirm_one (txids : list string) (batch : PayoutBatch) : DbM unit :=
  match pb_submitted_txid batch with
  | Some txid =>
      if existsb (String.eqb txid) txids then
        mignore (update_batch_status (pb_id batch) "confirmed") ;;
        fb ← mtry (query (λ d, get_by_round_id d (pb_round_id batch)));
        match fb with
        | inl (Some b) => mignore (update_status (fb_id b) "paid")
        | _ => mret tt
        end
      else mret tt
  | None => mret tt
  end.

(** [src/src/payout/handler.rs:137-166 PayoutHandler::run (part)] *)
Definition confirm_connected (txids : list string) : DbM unit :=
  submitted ← query (λ d, Ok (list_batches d (Some "submitted"%string)));
  mfor submitted (confirm_one txids).

(** [src/src/payout/handler.rs:74-170 PayoutHandler::run (part)] One event. *)
Definition handle_event (env : PayoutEnv) (pp : PayoutParams) (event : PayoutEvent) : DbM unit :=
  match event with
  | BlockMatured block_hash => on_block_matured env pp block_hash
  | BlockConnected txids =>
      confirm_connected txids ;;
      process_pending_payouts_locked env pp
  end.

(** [src/src/payout/handler.rs:72-174 PayoutHandler::run] *)
Definition run (env : PayoutEnv) (pp : PayoutParams) (events : list PayoutEvent) : DbM unit :=
  mfor events (handle_event env pp).

(** * Properties *)

#[local] Hint Resolve read_steps : keeps.
#[local] Hint Extern 4 (Keeps (rtc step) _) =>
  apply call_steps; intros; first [apply step_create|apply step_process|
    apply step_confirm_batch|apply step_pay_block] : keeps.

Lemma handle_event_steps env pp event : Keeps (rtc step) (handle_event env pp event).
Proof.
  unfold handle_event, on_block_matured, confirm_connected, confirm_one,
    process_pending_payouts_locked. keeps.
Qed.

(** Whatever events arrive, everything the payout handler does
    to the database is a sequence of calls of the accounting service: a reachable
    database stays reachable, so that in particular no block is paid twice. *)
Theorem handler_refines env pp events now d :
  reachable now d →
  let d' := (run env pp events d).2 in
  rtc step d d' ∧ reachable now d'.
Proof.
  intros Hd d'.
  assert (rtc step d d') as Hr.
  { apply (Keeps_for (rtc step)). intros e. apply handle_event_steps. }
  split; [done|by eapply reachable_steps].
Qed.

(** ** Confirmations *)

(** The transactions of a block, as the answers of a node that has confirmed
    exactly them. *)
Definition in_block (txids : list string) (txid : string) : result (option Z) :=
  Ok (if existsb (String.eqb txid) txids then Some 1 else None).

Lemma confirmed_in_block txids b :
  confirmed (in_block txids) b =
    match pb_submitted_txid b with Some t => existsb (String.eqb t) txids | None => false end.
Proof.
  unfold confirmed, in_block. destruct (pb_submitted_txid b) as [t|]; [|done].
  by destruct (existsb _ _).
Qed.

Lemma confirm_one_run txids x d :
  blocks_ok d →
  confirm_one txids x d =
    (Ok tt, if confirmed (in_block txids) x then (confirm_batch x d).2 else d).
Proof.
  intros Hd. rewrite confirmed_in_block. unfold confirm_one.
  destruct (pb_submitted_txid x) as [t|]; [|done].
  destruct (existsb _ _); [|done]. unfold confirm_batch, mignore. munfold. unfold query.
  set (d1 := (update_batch_status (pb_id x) "confirmed" d).2).
  change (update_batch_status (pb_id x) "confirmed" d) with (Ok tt, d1). cbn [fst snd].
  rewrite get_by_round_id_ok by done. by destruct (last _).
Qed.

(** The loop of the handler does what the startup reconciliation does with these
    answers. *)
Lemma confirm_loop_reconcile txids xs d :
  blocks_ok d →
  mfor xs (confirm_one txids) d = (Ok tt, (reconcile_submitted_loop (in_block txids) xs d).2).
Proof.
  revert d. induction xs as [|x xs IH]; intros d Hd; [done|].
  cbn [mfor reconcile_submitted_loop]. unfold mbind at 1, M_bind at 1.
  rewrite (confirm_one_run txids x d Hd).
  assert (tx_confirmed (in_block txids) x = Ok (confirmed (in_block txids) x)) as Ec.
  { unfold tx_confirmed, confirmed, in_block. destruct (pb_submitted_txid x); [|done].
    by destruct (existsb _ _). }
  munfold. rewrite Ec. destruct (confirmed (in_block txids) x).
  - destruct (confirm_batch_run x d Hd) as (H1 & H2 & _).
    destruct (confirm_batch x d) as [r d1]. simpl in *. subst r. rewrite IH by done.
    by destruct (reconcile_submitted_loop _ xs d1) as [[] d2].
  - rewrite IH by done. by destruct (reconcile_submitted_loop _ xs d) as [[] d2].
Qed.

(** Only what the node counts as confirmed matters to the reconciliation. *)
Lemma reconcile_loop_ext check check' xs d :
  (∀ x, tx_confirmed check x = tx_confirmed check' x) →
  reconcile_submitted_loop check xs d = reconcile_submitted_loop check' xs d.
Proof.
  intros H. revert d. induction xs as [|x xs IH]; intros d; [done|].
  cbn [reconcile_submitted_loop]. rewrite H. munfold. destruct (tx_confirmed check' x) as [c|e|]; [|done..].
  destruct ((if c then confirm_batch x else _) d) as [[a|e|] d1]; [|done..]. by rewrite IH.
Qed.

(** C26: confirming payouts by the transactions of a connected block, as the
    payout handler does, and by asking the node for every submitted payout, as the startup
    code does, are the same: with a node that counts exactly the transactions of the block as
    confirmed, both leave the same database, whatever is in it. *)
Theorem confirm_equals_reconcile txids check d :
  blocks_ok d → (∀ t, check t ≠ Panic) →
  (∀ t, t ∈ txids ↔ ∃ n, check t = Ok (Some n) ∧ 0 < n) →
  confirm_connected txids d = (Ok tt, (reconcile_submitted_payouts check d).2).
Proof.
  intros Hd Hp Hc. unfold confirm_connected, reconcile_submitted_payouts. rewrite !bind_query.
  rewrite confirm_loop_reconcile by done. f_equal. f_equal. apply reconcile_loop_ext.
  intros x. unfold tx_confirmed, in_block. destruct (pb_submitted_txid x) as [t|]; [|done].
  specialize (Hp t). specialize (Hc t). rewrite list_elem_of_In in Hc.
  destruct (existsb (String.eqb t) txids) eqn:E.
  - apply existsb_exists in E as (y & Hy & <-%String.eqb_eq).
    destruct (proj1 Hc Hy) as (n & -> & Hn). by apply Z.ltb_lt in Hn as ->.
  - destruct (check t) as [[n|]|e|]; [|done..]. f_equal. symmetry. apply Z.ltb_ge.
    apply Z.nlt_ge. intros Hn. assert (In t txids) as Hin by (apply Hc; eauto).
    assert (existsb (String.eqb t) txids = true); [|congruence].
    apply existsb_exists. exists t. by rewrite String.eqb_refl.
Qed.

(** When a block connects, exactly the submitted batches
    whose transaction is in the block become confirmed and the latest block of each
    of their rounds becomes paid; no other batch and no other block changes, and
    the scan never fails. *)
Theorem confirm_connected_spec txids d :
  db_wf d → blocks_ok d →
  let paid b := submitted b &&
    match pb_submitted_txid b with Some t => bool_decide (t ∈ txids) | None => false end in
  let '(r, d') := confirm_connected txids d in
  r = Ok tt ∧
  rows (payout_batches d') =
    map (λ b, if paid b then with_batch_status "confirmed" (pb_submitted_txid b) b else b)
      (rows (payout_batches d)) ∧
  rows (found_blocks d') =
    map (λ fb, if existsb (λ b, paid b &&
                   bool_decide (paid_block (rows (found_blocks d)) (pb_round_id b) = Some (fb_id fb)))
                 (rows (payout_batches d))
               then with_status "paid" fb else fb) (rows (found_blocks d)).
Proof.
  intros Hwf Hd paid.
  assert (∀ b, paid b = submitted b && confirmed (in_block txids) b) as Hp.
  { intros b. unfold paid. rewrite confirmed_in_block. f_equal.
    destruct (pb_submitted_txid b) as [t|]; [|done]. apply eq_true_iff_eq.
    rewrite bool_decide_eq_true, existsb_exists, list_elem_of_In. split.
    - intros H. exists t. by rewrite String.eqb_refl.
    - intros (y & Hy & ->%String.eqb_eq). done. }
  pose proof (reconcile_rows (in_block txids) d Hwf Hd) as Hr.
  unfold confirm_connected. rewrite bind_query. rewrite confirm_loop_reconcile by done. unfold reconcile_submitted_payouts in Hr.
  rewrite bind_query in Hr. destruct Hr as [H1 H2]; [done|].
  split_and!; [done| |].
  - rewrite H1. apply map_ext. intros b. by rewrite <-Hp.
  - rewrite H2. apply map_ext. intros fb. erewrite existsb_ext; [reflexivity|].
    intros b. cbn beta. by rewrite <-Hp.
Qed.

(** A matured block gets its batch, once. *)
Lemma block_matured_paid env pp h b d :
  db_wf d → get_by_hash d h = Some b → select_found_at d h ≠ None →
  let d' := (on_block_matured env pp h d).2 in
  (already_paid d h = false → count_existing d h = 0 → blocks_paid d' = blocks_paid d ++ [h]) ∧
  (already_paid d h = true → blocks_paid d' = blocks_paid d).
Proof.
  intros Hwf Hb Hf d'. subst d'.
  assert (fb_block_hash b = h ∧ fb_round_id b ∈ tids r_id (rounds d)) as [Hh Hr].
  { unfold get_by_hash in Hb. destruct (select_one _ _) as [x|] eqn:E; [|done].
    unfold select_one in E. apply find_some in E as [Hx Hk%String.eqb_eq]. simplify_eq/=.
    split; [done|]. apply (fk_block_round d Hwf). apply elem_of_map. exists x.
    split; [done|by apply list_elem_of_In]. }
  unfold on_block_matured. rewrite bind_query, Hb, bind_query, Hh.
  unfold process_pending_payouts_locked.
  split; intros Ha; rewrite Ha; [intros Hc|].
  - pose proof (create_payout_ok b pp d Hwf) as Hok. rewrite Hh in Hok.
    pose proof (create_payout_blocks b pp d) as Hbl. specialize (Hok Hf Hc Hr).
    unfold mbind, M_bind, mignore at 1, mtry at 1, mbind, M_bind.
    destruct (create_payout_for_found_block b pp d) as [[id|e|] d1]; [|done..]. simpl in *.
    unfold mret, M_ret. rewrite mignore_snd, process_blocks_paid.
    destruct Hbl as [-> _]. by rewrite Hh.
  - unfold mbind at 1, M_bind at 1, mret, M_ret. by rewrite mignore_snd, process_blocks_paid.
Qed.
(** When a block matures that is in the books, whose
    winning share is recorded and for which no batch exists, the handler creates
    its batch, whatever happens to the submission after; and when the handler sees
    a batch for the block it creates none. *)
Theorem matured_block_is_paid env pp h b d :
  db_wf d → get_by_hash d h = Some b → select_found_at d h ≠ None →
  let d' := (on_block_matured env pp h d).2 in
  (already_paid d h = false → count_existing d h = 0 → blocks_paid d' = blocks_paid d ++ [h]) ∧
  (already_paid d h = true → blocks_paid d' = blocks_paid d).
Proof. apply block_matured_paid. Qed.
End handler.

(** * Examples *)

Lemma handler_refines_witness :
  let d' := (run example_env example_params
    [BlockMatured "00aa"; BlockConnected ["paytx"%string]; BlockMatured "00aa"] example_pool).2 in
  reachable "2026-05-20 12:00:00" d' ∧
  map pb_status (rows (payout_batches d')) = ["confirmed"%string].
Proof.
  intros d'. split; [|vm_compute; reflexivity].
  apply (handler_refines example_env example_params
    [BlockMatured "00aa"; BlockConnected ["paytx"%string]; BlockMatured "00aa"] _ example_pool
    example_pool_reachable).
Defined.

Lemma confirm_connected_spec_witness :
  (confirm_connected ["paytx"%string] example_submitted).1 = Ok tt ∧
  map pb_status (rows (payout_batches (confirm_connected ["paytx"%string] example_submitted).2)) =
    ["confirmed"%string].
Proof.
  pose proof (confirm_connected_spec ["paytx"%string] example_submitted) as H.
  destruct (confirm_connected ["paytx"%string] example_submitted) as [r d2].
  destruct H as (H0 & H1 & _).
  - apply process_pending_payouts_wf, example_pending_wf.
  - exact example_submitted_ok.
  - split; [exact H0|]. simpl. rewrite H1. vm_compute. reflexivity.
Defined.

Lemma confirm_equals_reconcile_witness :
  let check t := if String.eqb t "paytx" then Ok (Some 3) else Err (Anyhow "unknown") in
  confirm_connected ["paytx"%string] example_submitted =
    (Ok tt, (reconcile_submitted_payouts check example_submitted).2).
Proof.
  intros check. apply (confirm_equals_reconcile ["paytx"%string] check example_submitted).
  - exact example_submitted_ok.
  - intros t. unfold check. by destruct (String.eqb t "paytx").
  - intros t. unfold check. rewrite list_elem_of_singleton.
    destruct (String.eqb_spec t "paytx") as [->|Hne]; [split; [intros _; by exists 3|done]|].
    split; [done|]. by intros (n & ? & _).
Defined.

Lemma matured_block_is_paid_witness :
  blocks_paid (on_block_matured example_env example_params "00aa" example_pool).2 =
    blocks_paid example_pool ++ ["00aa"%string].
Proof.
  apply (matured_block_is_paid example_env example_params "00aa" example_block example_pool
    example_pool_wf).
  - vm_compute. reflexivity.
  - vm_compute. discriminate.
  - vm_compute. reflexivity.
  - vm_compute. reflexivity.
Defined.
