(* ===== verification/Consumer.v ===== *)
(** [node_integration/nng/consumer.rs]: what the node's events do to the pool. The
    consumer shares the job cache and the database with the rest of the pool, keeps
    the chain tip, sends payout events over a channel and broadcasts new jobs to
    the sessions. The publish/subscribe socket and the template call are library
    code: events and templates are arguments. *)
From Stdlib Require Import ZArith Lia String Sorted Init.Byte.
From stdpp Require Import base option list numbers strings sets gmap.
From S2P Require Import Prelude Text Float64 VarDiff Json Db AccountingEventRepository RoundRepository FoundBlockRepository PayoutRepository AccountingService PayoutService PayoutSubmission AccountingSystem Job JobCache Protocol Session Validator JsonRpc Server Template PayoutHandler.
#[local] Open Scope Z_scope.

(** Why the node has new work: the reasons of the node library. *)
Inductive WorkChangeReason : Type := NewTip | Reorg | MempoolRefresh | ManualInvalidation.

(** [src/src/node_integration/nng/consumer.rs:213-223 miningwrkchg_reason_to_string] *)
Definition miningwrkchg_reason_to_string (reason : WorkChangeReason) : string :=
  match reason with
  | NewTip => "new-tip"
  | Reorg => "reorg"
  | MempoolRefresh => "mempool"
  | ManualInvalidation => "manual"
  end.

(** A block of an event: its hash, its serialized header, the ids of its
    transactions. *)
Record NodeBlock := mkNodeBlock {
  nb_hash_hex : string;
  nb_raw_header : list byte;
  nb_txids : list string;
}.

(** * Coalescing work changes *)

(** [src/src/node_integration/nng/consumer.rs:15-15 MINING_WORK_COALESCE_MS (part)] *)
Definition MINING_WORK_COALESCE_MS : Z := 100.

(** Whether what happens at [deadline], if it ever does, has happened at [now]. *)
Definition happened (deadline : option Z) (now : Z) : bool :=
  match deadline with Some t => t <=? now | None => false end.

(** [src/src/node_integration/nng/consumer.rs:405-426 coalesce_events (part)] The
    inner loop: [latest] arrived at [at_]. An event that comes before the wait ends
    replaces it and starts the wait again. A shutdown during the wait, or one that
    came before, returns: [latest] is lost. When the wait ends the event is
    forwarded, unless the output is closed: then the loop breaks, and it is lost too.
    A closed input ends no wait. Times are in milliseconds, of the same clock;
    [shutdown] is when the signal comes (or its sender is dropped), [closed] when the
    receiver of the output is dropped. Of the branches that are ready at the same
    instant [select!] takes any; here the shutdown comes first, then the end of the
    wait. The output, with room for 32, is taken to have room. *)
Fixpoint coalesce_from {E : Type} (shutdown closed : option Z)
    (at_ : Z) (latest : E) (input : list (Z * E)) : list E :=
  let wake := at_ + MINING_WORK_COALESCE_MS in
  match input with
  | [] => if happened shutdown wake then [] else if happened closed wake then [] else [latest]
  | (t, event) :: rest =>
      if t <? wake then
        if happened shutdown t then [] else coalesce_from shutdown closed t event rest
      else if happened shutdown wake then []
      else if happened closed wake then []
      else latest :: coalesce_from shutdown closed t event rest
  end.

(** [src/src/node_integration/nng/consumer.rs:399-428 coalesce_events] While it waits
    for a first event the coalescer does not look at the shutdown. *)
Definition coalesce_events {E : Type} (shutdown closed : option Z) (input : list (Z * E)) :
    list E :=
  match input with
  | [] => []
  | (t, event) :: rest => coalesce_from shutdown closed t event rest
  end.

Section consumer.
Context {so : SqlOrder} {hashing : Hashing} {lotus : LotusLib}.
Context {C : Type} {moka : MokaCache C}.

(** * The handlers *)

(** [src/src/node_integration/nng/consumer.rs:229-289 handle_block_disconnected] *)
Definition handle_block_disconnected (block_hash : string) : DbM unit :=
  fb ← query (λ d, Ok (get_by_hash d block_hash));
  match fb with
  | None => mret tt
  | Some found =>
      r ← mtry (mark_orphaned block_hash "reorg_detected");
      match r with
      | inr _ => mret tt
      | inl _ =>
          r ← mtry (svc_close_round (fb_round_id found) 0 "orphaned");
          match r with
          | inr _ => mret tt
          | inl _ =>
              mignore (svc_record_event (mkAccountingEvent 0 "found_block_orphaned" "orphaned" None
                (fb_worker_id found) None None (Some (fb_round_id found)) (fb_template_id found)
                None None (Some block_hash) (Some (fb_height found)) None))
          end
      end
  end.

(** [src/src/node_integration/nng/consumer.rs:319-360 handle_block_connected (part)]
    A block of the pool that was orphaned is connected again. *)
Definition reconnect (block_hash : string) : DbM unit :=
  fb ← query (λ d, Ok (get_by_hash d block_hash));
  match fb with
  | Some fb =>
      if String.eqb (fb_status fb) "orphaned" then
        batches ← query (λ d, Ok (get_batches_by_block_hash d block_hash));
        let has_submitted := existsb (λ b, String.eqb (pb_status b) "submitted") batches in
        if has_submitted then mret tt
        else
          let has_pending := existsb (λ b, String.eqb (pb_status b) "pending") batches in
          r ← mtry (un_orphan block_hash);
          match r with
          | inr _ => mret tt
          | inl _ => if has_pending then mignore (mark_matured (fb_id fb)) else mret tt
          end
      else mret tt
  | None => mret tt
  end.

(** What the consumer shares with the other tasks. *)
Record World := mkWorld {
  wd_db : Db;
  wd_cache : JobCache (C := C);
  wd_tip : ChainTip;
  wd_payout_events : list PayoutEvent;
  wd_jobs : list MiningJob;
}.

Definition with_db (d : Db) (w : World) : World :=
  mkWorld d (wd_cache w) (wd_tip w) (wd_payout_events w) (wd_jobs w).
Definition run_db {A} (m : DbM A) : M World A := λ w,
  let '(r, d) := m (wd_db w) in (r, with_db d w).
Definition set_tip (t : ChainTip) : M World unit := λ w,
  (Ok tt, mkWorld (wd_db w) (wd_cache w) t (wd_payout_events w) (wd_jobs w)).
(** [maturation_tx.send(..)]: the channel is unbounded. *)
Definition send_payout (e : PayoutEvent) : M World unit := λ w,
  (Ok tt, mkWorld (wd_db w) (wd_cache w) (wd_tip w) (wd_payout_events w ++ [e]) (wd_jobs w)).
Definition publish (job : MiningJob) : M World unit := λ w,
  (Ok tt, mkWorld (wd_db w) (insert job (wd_cache w)) (wd_tip w) (wd_payout_events w)
            (wd_jobs w ++ [job])).

(** [src/src/node_integration/nng/consumer.rs:296-392 handle_block_connected] *)
Definition handle_block_connected (min_confirmations : Z) (block : NodeBlock) : M World unit :=
  match header_deser (nb_raw_header block) with
  | None => mret tt
  | Some header =>
      w ← mget;
      let tip := update_block_connected (wd_tip w) (header_height header) in
      set_tip tip ;;
      run_db (reconnect (nb_hash_hex block)) ;;
      matured ← mtry (run_db (check_maturation tip min_confirmations));
      match matured with
      | inl blocks => mfor blocks (λ b, send_payout (BlockMatured (fb_block_hash b)))
      | inr _ => mret tt
      end ;;
      send_payout (BlockConnected (nb_txids block))
  end.

Definition with_reason (reason : string) (j : MiningJob) : MiningJob :=
  mkMiningJob (j_job_id j) (j_template_id j) (j_prevhash j) (j_coinbase1 j) (j_coinbase2 j)
    (j_merkle_branches j) (j_version j) (j_nbits j) (j_ntime j) (j_network_target_hex j)
    (j_clean_jobs j) (j_template_epoch j) (j_height j) (j_epoch_hash j)
    (j_extended_metadata_hash j) (j_block_size j) (j_block_bytes j) (j_coinbase_value j) reason.

(** [src/src/node_integration/nng/consumer.rs:146-207 NngEventConsumer::on_mining_work_changed] The
    answer of the node to the template request is an argument. *)
Definition on_mining_work_changed (reason : WorkChangeReason) (answer : result MiningTemplate) :
    M World unit :=
  match answer with
  | Err _ => mret tt
  | Panic => mpanic
  | Ok template =>
      match template_to_job template true with
      | Err _ => mret tt
      | Panic => mpanic
      | Ok job => publish (with_reason (miningwrkchg_reason_to_string reason) job)
      end
  end.

(** What the consumer receives: a coalesced work change, with the answer to the
    template request, and blocks. *)
Inductive node_event : Type :=
  | WorkChanged (reason : WorkChangeReason) (answer : result MiningTemplate)
  | Connected (block : NodeBlock)
  | Disconnected (block : NodeBlock).

(** [src/src/node_integration/nng/consumer.rs:79-137 NngEventConsumer::run (part)] *)
Definition on_event (accounting : bool) (min_confirmations : Z) (ev : node_event) :
    M World unit :=
  match ev with
  | WorkChanged reason answer => on_mining_work_changed reason answer
  | Connected block =>
      if accounting then handle_block_connected min_confirmations block else mret tt
  | Disconnected block =>
      if accounting then run_db (handle_block_disconnected (nb_hash_hex block)) else mret tt
  end.

(** ** The consumer *)

(** What the publishing socket gives: a message of the node, of a kind that the consumer
    knows or not, or an error. *)
Inductive Message : Type :=
  | MiningWorkChanged (reason : WorkChangeReason)
  | BlockConnectedMsg (block : NodeBlock)
  | BlockDisconnectedMsg (block : NodeBlock)
  | OtherMessage.

(** [src/src/node_integration/nng/consumer.rs:33-65 NngEventConsumer::new] The socket is
    opened and subscribed to by the library, which gives the text of its errors. *)
Definition consumer_new (open : string → option string) (subscribe : string → option string)
    (pub_url : string) : result unit :=
  let check (what : string) (e : option string) : result unit :=
    match e with Some e => Err (Anyhow (what ++ e)) | None => Ok tt end in
  check "failed to open NNG pub interface: " (open pub_url) ;;
  check "failed to subscribe to miningwrkchg: " (subscribe "miningwrkchg") ;;
  check "failed to subscribe to blkconnected: " (subscribe "blkconnected") ;;
  check "failed to subscribe to blkdisconctd: " (subscribe "blkdisconctd").

(** What the [select!] of the loop takes: a message, a work change that comes out of the
    coalescer, with the node's answer to the template request, or the shutdown. *)
Inductive consumer_turn : Type :=
  | Incoming (msg : Message + string)
  | Coalesced (reason : WorkChangeReason) (answer : result MiningTemplate)
  | ShuttingDown.

(** [src/src/node_integration/nng/consumer.rs:80-127 NngEventConsumer::run (part)] A work
    change goes to the coalescer and changes nothing by itself. *)
Definition on_message (accounting : bool) (min_confirmations : Z) (msg : Message + string) :
    M World unit :=
  match msg with
  | inl (BlockDisconnectedMsg block) => on_event accounting min_confirmations (Disconnected block)
  | inl (BlockConnectedMsg block) => on_event accounting min_confirmations (Connected block)
  | inl (MiningWorkChanged _) | inl OtherMessage | inr _ => mret tt
  end.

(** [src/src/node_integration/nng/consumer.rs:68-143 NngEventConsumer::run] *)
Fixpoint consumer_run (accounting : bool) (min_confirmations : Z) (turns : list consumer_turn) :
    M World unit :=
  match turns with
  | [] | ShuttingDown :: _ => mret tt
  | Incoming msg :: rest =>
      on_message accounting min_confirmations msg ;; consumer_run accounting min_confirmations rest
  | Coalesced reason answer :: rest =>
      on_event accounting min_confirmations (WorkChanged reason answer) ;;
      consumer_run accounting min_confirmations rest
  end.

(** [src/src/node_integration/nng/consumer.rs:82-90 NngEventConsumer::run (part)] What the
    coalescer gets, with the times of arrival. *)
Definition raw_events (msgs : list (Z * (Message + string))) : list (Z * WorkChangeReason) :=
  omap (λ tm, match tm.2 with inl (MiningWorkChanged reason) => Some (tm.1, reason) | _ => None end) msgs.

(** The events that a run of the consumer acts on. *)
Fixpoint events_of (turns : list consumer_turn) : list node_event :=
  match turns with
  | [] | ShuttingDown :: _ => []
  | Incoming (inl (BlockConnectedMsg block)) :: rest => Connected block :: events_of rest
  | Incoming (inl (BlockDisconnectedMsg block)) :: rest => Disconnected block :: events_of rest
  | Incoming _ :: rest => events_of rest
  | Coalesced reason answer :: rest => WorkChanged reason answer :: events_of rest
  end.

Lemma consumer_run_events accounting m turns w :
  consumer_run accounting m turns w = mfor (events_of turns) (on_event accounting m) w.
Proof.
  revert w. induction turns as [|[[[]|]| |] turns IH]; intros w; simpl;
    first [done|apply IH|idtac]; unfold mbind, M_bind;
    match goal with |- match ?c with _ => _ end = _ => destruct c as [[] ?] end; done || apply IH.
Qed.

(** * Every effect on the database is a sequence of service calls *)

#[local] Hint Resolve read_steps : keeps.
#[local] Hint Extern 4 (Keeps (rtc step) _) =>
  apply call_steps; intros; first [apply step_orphan|apply step_un_orphan|apply step_mark_matured|
    apply step_close; reflexivity|apply step_event|apply step_mature] : keeps.

Definition world_steps (w w' : World) : Prop := rtc step (wd_db w) (wd_db w').
#[local] Instance world_steps_preorder : PreOrder world_steps.
Proof. unfold world_steps. split; red; intros; [reflexivity|etrans; eauto]. Qed.

Lemma run_db_steps {A} (m : DbM A) : Keeps (rtc step) m → Keeps world_steps (run_db m).
Proof.
  intros Hm w. unfold run_db, world_steps. pose proof (Hm (wd_db w)) as H.
  by destruct (m (wd_db w)) as [r d].
Qed.
Lemma set_tip_steps t : Keeps world_steps (set_tip t).
Proof. intros w. unfold world_steps. done. Qed.
Lemma send_payout_steps e : Keeps world_steps (send_payout e).
Proof. intros w. unfold world_steps. done. Qed.
Lemma publish_steps j : Keeps world_steps (publish j).
Proof. intros w. unfold world_steps. done. Qed.
#[local] Hint Resolve set_tip_steps send_payout_steps publish_steps : keeps.
#[local] Hint Extern 5 (Keeps world_steps (run_db _)) => apply run_db_steps : keeps.

Lemma reconnect_steps h : Keeps (rtc step) (reconnect h).
Proof. unfold reconnect. keeps. Qed.

Lemma on_event_steps accounting m ev : Keeps world_steps (on_event accounting m ev).
Proof.
  unfold on_event, on_mining_work_changed, handle_block_connected.
  keeps; apply run_db_steps; unfold handle_block_disconnected, reconnect; keeps.
Qed.

(** Whatever the node reports, and in whatever order, everything
    the consumer does to the database is a sequence of calls of the accounting
    service: a reachable database stays reachable. *)
Theorem consumer_refines accounting min_confirmations turns w now :
  reachable now (wd_db w) →
  let w' := (consumer_run accounting min_confirmations turns w).2 in
  rtc step (wd_db w) (wd_db w') ∧ reachable now (wd_db w').
Proof.
  intros Hd w'.
  assert (world_steps w w') as Hr.
  { subst w'. rewrite consumer_run_events.
    apply (Keeps_for world_steps). intros ev. apply on_event_steps. }
  split; [done|by eapply reachable_steps].
Qed.

(** * New work *)

(** Only new work changes the cache and the channel of jobs. *)
Definition same_jobs (w w' : World) : Prop := wd_cache w' = wd_cache w ∧ wd_jobs w' = wd_jobs w.
#[local] Instance same_jobs_preorder : PreOrder same_jobs.
Proof. unfold same_jobs. split; [done|]. intros x y z [] []. split; congruence. Qed.

Lemma run_db_jobs {A} (m : DbM A) : Keeps same_jobs (run_db m).
Proof. intros w. unfold run_db. by destruct (m (wd_db w)). Qed.
Lemma set_tip_jobs t : Keeps same_jobs (set_tip t).
Proof. by intros w. Qed.
Lemma send_payout_jobs e : Keeps same_jobs (send_payout e).
Proof. by intros w. Qed.
#[local] Hint Resolve run_db_jobs set_tip_jobs send_payout_jobs : keeps.

Lemma on_event_jobs accounting m ev w :
  let w' := (on_event accounting m ev w).2 in
  same_jobs w w' ∨
  ∃ reason t j, ev = WorkChanged reason (Ok t) ∧ template_to_job t true = Ok j ∧
    let job := with_reason (miningwrkchg_reason_to_string reason) j in
    wd_cache w' = insert job (wd_cache w) ∧ wd_jobs w' = wd_jobs w ++ [job].
Proof.
  destruct ev as [reason answer|b|b].
  - simpl. unfold on_mining_work_changed. destruct answer as [t|e|]; [|by left..].
    destruct (template_to_job t true) as [j|e|] eqn:Ej; [|by left..].
    right. by exists reason, t, j.
  - left. revert w. change (Keeps same_jobs (on_event accounting m (Connected b))).
    simpl. unfold handle_block_connected. keeps.
  - left. revert w. change (Keeps same_jobs (on_event accounting m (Disconnected b))).
    simpl. keeps.
Qed.

(** C33: when the node has new work and its template converts, the
    job that is broadcast to the sessions tells the miners to drop all others and
    why, it is the latest job of the cache, and a submission can look it up; when
    the template cannot be had or converted nothing changes. *)
Theorem work_changed_spec reason answer w :
  1 ≤ jc_max_size (wd_cache w) → cache_inv (wd_cache w) →
  let w' := (on_mining_work_changed reason answer w).2 in
  wd_db w' = wd_db w ∧ wd_tip w' = wd_tip w ∧
  match answer ≫= λ t, template_to_job t true with
  | Ok j =>
      let job := with_reason (miningwrkchg_reason_to_string reason) j in
      wd_jobs w' = wd_jobs w ++ [job] ∧ j_clean_jobs job = true ∧
      get_latest (wd_cache w') = Some job ∧
      get_job (wd_cache w') (j_job_id job) = Some job ∧ cache_inv (wd_cache w')
  | _ => w' = w
  end.
Proof.
  intros Hm HI. unfold on_mining_work_changed.
  destruct answer as [t|e|]; [|done..]. simpl.
  destruct (template_to_job t true) as [j|e|] eqn:Ej; [|done..]. simpl.
  apply template_to_job_run in Ej as (_ & _ & _ & _ & _ & _ & _ & Hc & _).
  set (job := with_reason (miningwrkchg_reason_to_string reason) j).
  destruct (insert_spec job (wd_cache w) Hm HI) as (_ & _ & Hg & _).
  split_and!; [done|done|done|done|by apply get_latest_insert|done|by apply cache_inv_insert].
Qed.

(** * Reorganisations *)

Lemma find_unique {A} (key : A → string) (l : list A) x :
  NoDup (map key l) → x ∈ l → List.find (λ y, String.eqb (key y) (key x)) l = Some x.
Proof. intros Hnd Hx. by apply find_NoDup_Some. Qed.

(** What a disconnected block of the pool does. *)
Lemma disconnected_run b d :
  db_wf d → b ∈ rows (found_blocks d) →
  let r := handle_block_disconnected (fb_block_hash b) d in
  r.1 = Ok tt ∧ payout_batches r.2 = payout_batches d ∧
  rows (found_blocks r.2) =
    map (λ x, if String.eqb (fb_block_hash x) (fb_block_hash b)
              then orphan "reorg_detected" x else x) (rows (found_blocks d)) ∧
  rows (rounds r.2) =
    map (λ r, if r_id r =? fb_round_id b then orphan_round r else r) (rows (rounds d)).
Proof.
  intros Hwf Hb. cbn zeta. unfold handle_block_disconnected. rewrite bind_query.
  unfold get_by_hash, select_one. rewrite (find_unique fb_block_hash) by (apply Hwf || done).
  cbn [fmap option_fmap option_map].
  set (d1 := (mark_orphaned (fb_block_hash b) "reorg_detected" d).2).
  rewrite (bind_run _ _ d (inl tt) d1) by done.
  change (fb_round_id (read_block b)) with (fb_round_id b).
  pose proof (svc_close_round_run (fb_round_id b) 0 "orphaned" d1 ltac:(done)) as Hc.
  set (d2 := (svc_close_round (fb_round_id b) 0 "orphaned" d1).2) in *.
  rewrite (bind_run _ _ d1 (inl tt) d2); [|unfold mtry; subst d2; by rewrite Hc].
  match goal with |- context [mignore (svc_record_event ?e)] => set (ev := e) end.
  assert ((mignore (svc_record_event ev) d2).1 = Ok tt) as ->.
  { apply mignore_ok, record_event_no_panic. }
  rewrite mignore_snd. unfold svc_record_event.
  split; [done|].
  assert (∀ T (part : Db → T), (∀ d t, part (set_accounting_events d t) = part d) →
    part (record_event ev d2).2 = part (set_rounds d1 (update_rows (λ r, r_id r =? fb_round_id b)
      (λ r, mkRound (r_id r) (r_start_template_id r) (Some 0) "orphaned" (r_found_block_hash r))
      (rounds d1)))) as Hpart.
  { intros T part Hp. rewrite (record_event_part part) by done. subst d2. rewrite Hc. cbn [snd].
    by rewrite (record_event_part part). }
  split_and!.
  - by rewrite (Hpart _ payout_batches).
  - rewrite (Hpart _ found_blocks) by done. reflexivity.
  - rewrite (Hpart _ rounds) by done. reflexivity.
Qed.

Lemma steps_wf d d' : rtc step d d' → db_wf d → db_wf d'.
Proof. induction 1 as [|d1 d2 d3 Hs _ IH]; [done|]. intros Hw. by apply IH, (step_wf d1). Qed.

Lemma disconnected_wf h d : db_wf d → db_wf (handle_block_disconnected h d).2.
Proof.
  apply steps_wf. enough (Keeps (rtc step) (handle_block_disconnected h)) as H by apply H.
  unfold handle_block_disconnected. keeps.
Qed.

(** The block after it has been connected again. *)
Definition reconnected (d : Db) (x : FoundBlock) : FoundBlock :=
  let has s := existsb (λ p, String.eqb (pb_status p) s)
    (get_batches_by_block_hash d (fb_block_hash x)) in
  let x' := with_orphan_reason None (with_status "immature" x) in
  if has "submitted"%string then x
  else if has "pending"%string then with_matured_at (clock d) (with_status "matured" x') else x'.

Lemma reconnect_run b d :
  db_wf d → b ∈ rows (found_blocks d) → fb_status b = "orphaned"%string →
  let r := reconnect (fb_block_hash b) d in
  r.1 = Ok tt ∧ rounds r.2 = rounds d ∧
  rows (found_blocks r.2) =
    map (λ x, if String.eqb (fb_block_hash x) (fb_block_hash b) then reconnected d x else x)
      (rows (found_blocks d)).
Proof.
  intros Hwf Hb Hs. cbn zeta. unfold reconnect. rewrite bind_query.
  unfold get_by_hash, select_one. rewrite (find_unique fb_block_hash) by (apply Hwf || done).
  cbn [fmap option_fmap option_map].
  change (fb_status (read_block b)) with (fb_status b). rewrite Hs, String.eqb_refl.
  rewrite bind_query. unfold reconnected.
  assert (∀ x, x ∈ rows (found_blocks d) → String.eqb (fb_block_hash x) (fb_block_hash b) =
    (fb_id x =? fb_id b)) as Hid.
  { intros x Hx. apply eq_true_iff_eq. rewrite String.eqb_eq, Z.eqb_eq. split; [|intros E].
    - intros E. pose proof (find_unique fb_block_hash _ x (uq_block d Hwf) Hx) as H1.
      pose proof (find_unique fb_block_hash _ b (uq_block d Hwf) Hb) as H2.
      rewrite E in H1. congruence.
    - f_equal. by apply (table_ok_inj fb_id (found_blocks d)); [apply Hwf|..]. }
  assert (∀ x, x ∈ rows (found_blocks d) →
    String.eqb (fb_block_hash x) (fb_block_hash b) = true → x = b) as Hxb.
  { intros x Hx E. rewrite Hid in E by done. apply Z.eqb_eq in E.
    by apply (table_ok_inj fb_id (found_blocks d)); [apply Hwf|..]. }
  destruct (existsb (λ p, String.eqb (pb_status p) "submitted") _) eqn:Esub.
  { split_and!; [done|done|]. transitivity (map (λ x, x) (rows (found_blocks d))); [by rewrite map_id|].
    apply map_ext_in. intros x Hx%list_elem_of_In.
    destruct (String.eqb _ _) eqn:E; [|done]. rewrite (Hxb x Hx E). by rewrite Esub. }
  set (d1 := (un_orphan (fb_block_hash b) d).2).
  rewrite (bind_run _ _ d (inl tt) d1) by done.
  destruct (existsb (λ p, String.eqb (pb_status p) "pending") _) eqn:Epen.
  - rewrite mignore_snd. split_and!; [done|done|]. simpl. rewrite map_map.
    apply map_ext_in. intros x Hx%list_elem_of_In. simpl.
    destruct (String.eqb (fb_block_hash x) (fb_block_hash b)) eqn:E.
    + rewrite (Hxb x Hx E), Hs, Esub, Epen. simpl. by rewrite Z.eqb_refl.
    + simpl. rewrite <-Hid, E by done. done.
  - split_and!; [done|done|]. simpl.
    apply map_ext_in. intros x Hx%list_elem_of_In. simpl.
    destruct (String.eqb (fb_block_hash x) (fb_block_hash b)) eqn:E; [|done].
    by rewrite (Hxb x Hx E), Hs, Esub, Epen.
Qed.

Lemma const_map_filter {A B} (q : A → bool) (f : A → A) (v : B) l :
  (∀ x, q (f x) = q x) →
  map (λ _, v) (List.filter q (map f l)) = map (λ _, v) (List.filter q l).
Proof.
  intros H. induction l as [|x l IH]; [done|]. simpl. rewrite H.
  destruct (q x); simpl; by rewrite IH.
Qed.

(** C22: a block of the pool that is disconnected becomes orphaned and its
    round is closed as orphaned; when it is connected again it is immature, or
    matured when its payout batch is pending, and stays orphaned when its payout is
    already on its way; no other block changes either way; and its round stays
    orphaned. So orphaned is not a final status of a block. *)
Theorem reorg_spec b d :
  db_wf d → b ∈ rows (found_blocks d) →
  let h := fb_block_hash b in
  let d1 := (handle_block_disconnected h d).2 in
  let d2 := (reconnect h d1).2 in
  let has s := existsb (λ p, String.eqb (pb_status p) s) (get_batches_by_block_hash d h) in
  let after := if has "submitted" then "orphaned"
               else if has "pending" then "matured" else "immature" in
  rows (found_blocks d1) =
    map (λ x, if String.eqb (fb_block_hash x) h then orphan "reorg_detected" x else x)
      (rows (found_blocks d)) ∧
  map (λ x, (fb_id x, fb_status x)) (rows (found_blocks d2)) =
    map (λ x, (fb_id x, if String.eqb (fb_block_hash x) h then after else fb_status x))
      (rows (found_blocks d)) ∧
  rows (rounds d2) =
    map (λ r, if r_id r =? fb_round_id b then orphan_round r else r) (rows (rounds d)).
Proof.
  intros Hwf Hb h d1 d2 has after.
  destruct (disconnected_run b d Hwf Hb) as (_ & Hpb & Hfb & Hr). fold h in Hpb, Hfb, Hr.
  fold d1 in Hpb, Hfb, Hr.
  destruct (reconnect_run (orphan "reorg_detected" b) d1) as (_ & Hr2 & Hfb2).
  - by apply disconnected_wf.
  - rewrite Hfb. apply elem_of_map. exists b. split; [|done]. by rewrite String.eqb_refl.
  - done.
  - change (fb_block_hash (orphan "reorg_detected" b)) with h in Hr2, Hfb2. fold d2 in Hr2, Hfb2.
    assert (get_batches_by_block_hash d1 h = get_batches_by_block_hash d h) as Hbat.
    { unfold get_batches_by_block_hash. rewrite Hpb, Hfb. apply flat_map_ext. intros p.
      apply const_map_filter. intros x.
      destruct (String.eqb (fb_block_hash x) h) eqn:E; simpl; by rewrite E. }
    split_and!; [done| |by rewrite Hr2].
    rewrite Hfb2, Hfb, !map_map. apply map_ext. intros x.
    destruct (String.eqb (fb_block_hash x) h) eqn:E; simpl; rewrite E; [|done].
    unfold reconnected. simpl. apply String.eqb_eq in E. rewrite E, Hbat.
    fold (has "submitted"%string) (has "pending"%string). unfold after.
    by destruct (has "submitted"%string), (has "pending"%string).
Qed.
End consumer.

(** * Coalescing *)

(** What is forwarded, event by event: one after which nothing comes for a tenth of a
    second, if the coalescer and its output live until then. *)
Fixpoint settled {E : Type} (lives : Z → bool) (input : list (Z * E)) : list E :=
  match input with
  | [] => []
  | (t, event) :: rest =>
      let wake := t + MINING_WORK_COALESCE_MS in
      (if lives wake && match rest with [] => true | (t', _) :: _ => wake <=? t' end
       then [event] else []) ++ settled lives rest
  end.

Definition alive (shutdown closed : option Z) (now : Z) : bool :=
  negb (happened shutdown now || happened closed now).

(** Events come one after the other. *)
Definition in_time {E} (a b : Z * E) : Prop := a.1 <= b.1.

(** Two events that follow each other within the window. *)
Definition close {E} (a b : Z * E) : Prop := b.1 - a.1 < MINING_WORK_COALESCE_MS.

Lemma happened_mono deadline a b : a <= b → happened deadline a = true → happened deadline b = true.
Proof. destruct deadline as [t|]; simpl; [rewrite !Z.leb_le; lia|done]. Qed.

Lemma alive_mono shutdown closed a b :
  a <= b → alive shutdown closed a = false → alive shutdown closed b = false.
Proof.
  unfold alive. rewrite !negb_false_iff, !orb_true_iff.
  intros Hab [H|H]; eauto using happened_mono.
Qed.

Lemma settled_dead {E} (lives : Z → bool) t (e : E) input :
  (∀ a b, a <= b → lives a = false → lives b = false) →
  Sorted in_time ((t, e) :: input) → lives (t + MINING_WORK_COALESCE_MS) = false →
  settled lives ((t, e) :: input) = [].
Proof.
  intros Hmono. revert t e. induction input as [|[t' e'] rest IH]; intros t e Hs Hd.
  - simpl. by rewrite Hd.
  - apply Sorted_inv in Hs as [Hs Hh]. apply HdRel_inv in Hh. unfold in_time in Hh. simpl in Hh.
    change (settled lives ((t, e) :: (t', e') :: rest)) with
      ((if lives (t + MINING_WORK_COALESCE_MS) && (t + MINING_WORK_COALESCE_MS <=? t')
        then [e] else []) ++ settled lives ((t', e') :: rest)).
    rewrite Hd, IH; [done|done|]. by eapply Hmono; [|exact Hd]; lia.
Qed.

Lemma coalesce_from_settled {E} shutdown closed t (e : E) input :
  Sorted in_time ((t, e) :: input) →
  coalesce_from shutdown closed t e input = settled (alive shutdown closed) ((t, e) :: input).
Proof.
  revert t e. induction input as [|[t' e'] rest IH]; intros t e Hs.
  - simpl. unfold alive. by destruct (happened shutdown _), (happened closed _).
  - pose proof (Sorted_inv Hs) as [Hs' Hh]. apply HdRel_inv in Hh. unfold in_time in Hh. simpl in Hh.
    pose proof (settled_dead (alive shutdown closed) t' e' rest (λ a b, alive_mono shutdown closed a b) Hs')
      as Hdead.
    assert (MINING_WORK_COALESCE_MS = 100) as Hms by done.
    change (settled (alive shutdown closed) ((t, e) :: (t', e') :: rest)) with
      ((if alive shutdown closed (t + MINING_WORK_COALESCE_MS) &&
           (t + MINING_WORK_COALESCE_MS <=? t')
        then [e] else []) ++ settled (alive shutdown closed) ((t', e') :: rest)).
    cbn [coalesce_from]. rewrite (IH t' e' Hs').
    destruct (t' <? _) eqn:Et.
    + apply Z.ltb_lt in Et. rewrite (proj2 (Z.leb_gt _ _)), andb_false_r by lia. cbn [app].
      destruct (happened shutdown t') eqn:Eh; [|done]. rewrite Hdead; [done|].
      unfold alive. by rewrite (happened_mono shutdown t') by (lia || done).
    + apply Z.ltb_ge in Et. rewrite (proj2 (Z.leb_le _ _)), andb_true_r by lia.
      destruct (alive shutdown closed (t + MINING_WORK_COALESCE_MS)) eqn:Ea;
        unfold alive in Ea at 1.
      * by destruct (happened shutdown _), (happened closed _).
      * rewrite Hdead by (by eapply alive_mono; [|exact Ea]; lia).
        by destruct (happened shutdown _), (happened closed _).
Qed.

Lemma coalesce_from_sublist {E} shutdown closed t (e : E) input :
  coalesce_from shutdown closed t e input `sublist_of` e :: map snd input.
Proof.
  revert t e. induction input as [|[t' e'] rest IH]; intros t e; cbn [coalesce_from map snd];
    repeat case_match; try apply sublist_nil_l; auto using sublist_skip, sublist_cons, sublist_nil.
Qed.

Lemma coalesce_from_last {E} t (e : E) input :
  last (coalesce_from None None t e input) = Some (default e (snd <$> last input)).
Proof.
  revert t e. induction input as [|[t' e'] rest IH]; intros t e; [done|].
  cbn [coalesce_from happened]. rewrite last_cons.
  destruct (_ <? _); [|rewrite last_cons]; rewrite IH; by destruct (last rest).
Qed.

Lemma coalesce_from_close {E} t (e : E) input :
  Sorted close ((t, e) :: input) →
  coalesce_from None None t e input = [default e (snd <$> last input)].
Proof.
  revert t e. induction input as [|[t' e'] rest IH]; intros t e H; [done|].
  cbn [coalesce_from happened]. apply Sorted_inv in H as [Hs Hh]. apply HdRel_inv in Hh.
  unfold close in Hh. simpl in Hh. rewrite (proj2 (Z.ltb_lt _ _)) by lia.
  rewrite (IH t' e' Hs), last_cons. by destruct (last rest).
Qed.

(** C38: with events that come one after the other, the coalescer forwards exactly those
    after which nothing comes for a tenth of a second, in order and none twice, if by the
    end of that wait neither the shutdown has come nor the output has closed. So a
    shutdown during the first wait, or before it, loses every event; a shutdown that
    comes within a tenth of a second of the last event loses that one. As long as there
    is neither, the newest event is always forwarded, and a run in which every event
    follows the one before within less than a tenth of a second is forwarded as its last
    event only, however long it lasts. *)
Theorem coalesce_spec {E : Type} (shutdown closed : option Z) (t : Z) (e : E) (input : list (Z * E)) :
  let run := (t, e) :: input in
  Sorted in_time run →
  coalesce_events shutdown closed run = settled (alive shutdown closed) run ∧
  coalesce_events shutdown closed run `sublist_of` map snd run ∧
  (happened shutdown (t + MINING_WORK_COALESCE_MS) = true →
   coalesce_events shutdown closed run = []) ∧
  last (coalesce_events None None run) = Some (default e (snd <$> last input)) ∧
  (Sorted close run → coalesce_events None None run = [default e (snd <$> last input)]).
Proof.
  cbn zeta. intros Hs. unfold coalesce_events. split_and!.
  - by apply coalesce_from_settled.
  - apply coalesce_from_sublist.
  - intros Hd. rewrite coalesce_from_settled by done.
    apply settled_dead; [intros a b; apply alive_mono|done|]. unfold alive. by rewrite Hd.
  - apply coalesce_from_last.
  - apply coalesce_from_close.
Qed.

Lemma coalesce_spec_witness :
  let run := [(0, 1); (50, 2); (400, 3); (450, 4)] in
  coalesce_events None None run = [2; 4] ∧ coalesce_events (Some 500) None run = [2] ∧
  settled (alive (Some 500) None) run = [2].
Proof.
  intros run.
  assert (Sorted in_time run) as Hs by (repeat constructor; unfold in_time; simpl; lia).
  destruct (coalesce_spec (Some 500) None 0 1 [(50, 2); (400, 3); (450, 4)] Hs) as (H & _).
  split; [reflexivity|]. split; [reflexivity|]. etransitivity; [symmetry; exact H|reflexivity].
Defined.

(** * Examples *)

#[local] Existing Instance example_hashing.
#[local] Existing Instance example_lotus.

Definition example_world : World (C := BoundedMap) :=
  mkWorld example_pool (JobCache_new 4) 100 [] [].

Lemma consumer_refines_witness :
  let w' := (consumer_run true 5 [Incoming (inl (BlockConnectedMsg (mkNodeBlock "00bb" [x00] ["paytx"%string])));
                   Incoming (inr "recv"%string);
                   Incoming (inl (BlockDisconnectedMsg (mkNodeBlock "00aa" [x00] [])));
                   ShuttingDown] example_world).2 in
  reachable "2026-05-20 12:00:00" (wd_db w') ∧ wd_tip w' = 1292529 ∧
  map fb_status (rows (found_blocks (wd_db w'))) = ["orphaned"%string] ∧
  wd_payout_events w' = [BlockMatured "00aa"; BlockConnected ["paytx"%string]].
Proof.
  intros w'. split; [|vm_compute; split_and!; reflexivity].
  apply (consumer_refines true 5 [Incoming (inl (BlockConnectedMsg (mkNodeBlock "00bb" [x00] ["paytx"%string])));
    Incoming (inr "recv"%string); Incoming (inl (BlockDisconnectedMsg (mkNodeBlock "00aa" [x00] [])));
    ShuttingDown] example_world _ example_pool_reachable).
Defined.

Lemma reorg_spec_witness :
  let d1 := (handle_block_disconnected "00aa" example_pool).2 in
  map fb_status (rows (found_blocks d1)) = ["orphaned"%string] ∧
  map (λ x, (fb_id x, fb_status x)) (rows (found_blocks (reconnect "00aa" d1).2)) =
    [(1, "immature"%string)].
Proof.
  destruct (reorg_spec example_block example_pool example_pool_wf) as (_ & H & _).
  - vm_compute. left.
  - intros d1. split; [vm_compute; reflexivity|]. etransitivity; [exact H|]. vm_compute. reflexivity.
Defined.

Lemma work_changed_spec_witness :
  let w' := (on_mining_work_changed (hashing := example_target_hashing) NewTip
    (Ok example_template) example_world).2 in
  ∃ job, wd_jobs w' = [job] ∧ get_latest (wd_cache w') = Some job ∧ j_reason job = "new-tip"%string.
Proof.
  intros w'.
  destruct (work_changed_spec (hashing := example_target_hashing) NewTip (Ok example_template)
    example_world) as (_ & _ & H1 & _ & H2 & _);
    [vm_compute; discriminate|apply cache_inv_new; lia|].
  eexists. split; [exact H1|]. split; [exact H2|]. reflexivity.
Defined.
