(* ===== verification/Pagination.v ===== *)
(** [http_api/pagination.rs]: the limit and offset of the list endpoints and the
    page that is cut out of a list. *)
From Stdlib Require Import ZArith Lia.
From stdpp Require Import base option list numbers.
From S2P Require Import Prelude.
#[local] Open Scope Z_scope.

(** [src/src/http_api/pagination.rs:5-8 PaginationParams] *)
Record PaginationParams := mkPaginationParams {
  pg_limit : option Z;
  pg_offset : option Z;
}.

(** [src/src/http_api/pagination.rs:11-14 PaginationParams (part)] *)
Definition DEFAULT_LIMIT : Z := 100.
Definition MAX_LIMIT : Z := 1000.

(** [src/src/http_api/pagination.rs:17-21 PaginationParams::limit] *)
Definition limit (self : PaginationParams) : Z :=
  match pg_limit self with
  | Some l => Z.max 1 (Z.min l MAX_LIMIT)
  | None => DEFAULT_LIMIT
  end.

(** [src/src/http_api/pagination.rs:24-26 PaginationParams::offset] *)
Definition offset (self : PaginationParams) : Z := Z.max (default 0 (pg_offset self)) 0.

(** [src/src/http_api/pagination.rs:31-35 PaginatedResponse] *)
Record PaginatedResponse (T : Type) := mkPaginatedResponse {
  pr_data : list T;
  pr_total : Z;
  pr_has_more : bool;
}.
Arguments mkPaginatedResponse {T} _ _ _.
Arguments pr_data {T} _.
Arguments pr_total {T} _.
Arguments pr_has_more {T} _.

(** [src/src/http_api/pagination.rs:41-58 PaginatedResponse::new] *)
Definition PaginatedResponse_new {T} (all_data : list T) (total : Z) (params : PaginationParams) :
    PaginatedResponse T :=
  let off := as_u64 (offset params) in
  let lim := as_u64 (limit params) in
  let data := if Z.of_nat (length all_data) <=? off then []
              else take (Z.to_nat lim) (drop (Z.to_nat off) all_data) in
  mkPaginatedResponse data total (as_u64 (off + lim) <? as_u64 total).

(** * Properties *)

Lemma limit_range params : 1 ≤ limit params ≤ MAX_LIMIT.
Proof. unfold limit, MAX_LIMIT, DEFAULT_LIMIT. destruct (pg_limit params); lia. Qed.

(** The page is the run of at most [limit] elements from [offset] on, and a client
    learns whether elements follow it. *)
Lemma page_spec {T} (all : list T) params :
  offset params ≤ i64_max → Z.of_nat (length all) ≤ i64_max →
  let page := PaginatedResponse_new all (Z.of_nat (length all)) params in
  pr_data page = take (Z.to_nat (limit params)) (drop (Z.to_nat (offset params)) all) ∧
  pr_has_more page = bool_decide (offset params + limit params < Z.of_nat (length all)).
Proof.
  intros Ho Hl. pose proof (limit_range params) as Hlim.
  assert (0 ≤ offset params) as Ho0 by (unfold offset; lia).
  unfold MAX_LIMIT, i64_max in *. cbn zeta. unfold PaginatedResponse_new. simpl.
  rewrite !as_u64_id by (unfold in_u64, u64_max; rewrite ?as_u64_id by (unfold in_u64, u64_max; lia); lia).
  split.
  - destruct (Z.leb_spec (Z.of_nat (length all)) (offset params)); [|done].
    rewrite drop_ge by lia. by rewrite take_nil.
  - case_bool_decide; [by apply Z.ltb_lt|apply Z.ltb_ge; lia].
Qed.

Definition numbered (l : Z) (k : nat) : PaginationParams :=
  mkPaginationParams (Some l) (Some (Z.of_nat k * l)).

(** The data of a page needs no bound on its number. *)
Lemma page_data {T} (all : list T) l k :
  1 ≤ l ≤ MAX_LIMIT → Z.of_nat k * l ≤ i64_max →
  pr_data (PaginatedResponse_new all (Z.of_nat (length all)) (numbered l k)) =
    take (Z.to_nat l) (drop (k * Z.to_nat l) all).
Proof.
  intros Hl Hk. unfold MAX_LIMIT, i64_max in *.
  assert (offset (numbered l k) = Z.of_nat k * l) as Ho by (unfold offset; simpl; lia).
  assert (limit (numbered l k) = l) as Hm by (unfold limit, MAX_LIMIT; simpl; lia).
  unfold PaginatedResponse_new. simpl. rewrite Ho, Hm.
  rewrite !as_u64_id by (unfold in_u64, u64_max; lia).
  replace (k * Z.to_nat l)%nat with (Z.to_nat (Z.of_nat k * l)) by lia.
  destruct (Z.leb_spec (Z.of_nat (length all)) (Z.of_nat k * l)); [|done].
  rewrite drop_ge by lia. by rewrite take_nil.
Qed.

Lemma pages_prefix {T} (all : list T) l n :
  1 ≤ l ≤ MAX_LIMIT → Z.of_nat n * l ≤ i64_max →
  concat (map (λ k, pr_data (PaginatedResponse_new all (Z.of_nat (length all)) (numbered l k)))
    (seq 0 n)) = take (n * Z.to_nat l) all.
Proof.
  intros Hl. induction n as [|n IH]; intros Hn; [done|].
  rewrite seq_S, map_app, concat_app, IH by lia. cbn [map concat Nat.add].
  rewrite app_nil_r, page_data by lia.
  rewrite take_take_drop. f_equal. lia.
Qed.

(** C36: a client that asks for page after page of a list reads exactly
    the list: [has_more] says whether elements follow a page, the pages up to one
    are the elements up to its end, and the pages up to the first one without
    [has_more], and no sooner, are the whole list, each element once and in order. *)
Theorem pages_cover {T} (all : list T) (l : Z) (n : nat) :
  1 ≤ l ≤ MAX_LIMIT → Z.of_nat (length all) ≤ i64_max → Z.of_nat (S n) * l ≤ i64_max →
  let page k := PaginatedResponse_new all (Z.of_nat (length all)) (numbered l k) in
  let read := concat (map (λ k, pr_data (page k)) (seq 0 (S n))) in
  read = take (S n * Z.to_nat l) all ∧
  (pr_has_more (page n) = false ↔ read = all) ∧
  Forall (λ k, Z.of_nat (length (pr_data (page k))) ≤ MAX_LIMIT ∧
               pr_total (page k) = Z.of_nat (length all)) (seq 0 (S n)).
Proof.
  intros Hl Hlen Hn page read. unfold read, page. rewrite pages_prefix by done.
  split_and!; [done| |].
  - destruct (page_spec all (numbered l n)) as [_ ->]; [|done|].
    { unfold offset, numbered. simpl. lia. }
    assert (limit (numbered l n) = l) as -> by (unfold limit, MAX_LIMIT in *; simpl; lia).
    assert (offset (numbered l n) = Z.of_nat n * l) as -> by (unfold offset; simpl; lia).
    rewrite bool_decide_eq_false. split; intros H.
    + apply take_ge. lia.
    + apply (f_equal length) in H. rewrite length_take in H. lia.
  - apply Forall_forall. intros k Hk%list_elem_of_In%elem_of_seq. split; [|done].
    rewrite page_data by nia. rewrite length_take. lia.
Qed.

Lemma pages_cover_witness :
  let page k := PaginatedResponse_new [1; 2; 3; 4; 5] 5 (numbered 2 k) in
  concat (map (λ k, pr_data (page k)) (seq 0 3)) = [1; 2; 3; 4; 5] ∧
  pr_has_more (page 1%nat) = true ∧ pr_has_more (page 2%nat) = false.
Proof.
  split_and!; [|vm_compute; reflexivity|vm_compute; reflexivity].
  apply (pages_cover [1; 2; 3; 4; 5] 2 2); vm_compute; (done || (split; discriminate) || discriminate).
Defined.
