(* ===== verification/HttpApi.v ===== *)
(** [http_api]: the router, the token check and the handlers of every endpoint.
    The web framework is library code: a request reaches the model with its
    endpoint, its decoded path and query and its [Authorization] header. The
    repositories of the state are handles on the one database, so a repository
    that may be absent is a flag. *)
From Stdlib Require Import ZArith Lia String Ascii.
From stdpp Require Import base option list numbers strings sets gmap.
From S2P Require Import Prelude Text Float64 Json Db VarDiff Job WorkerRepository RoundRepository ShareRepository FoundBlockRepository PayoutRepository AccountingService PayoutService PayoutSubmission AccountingSystem JsonRpc Pagination.
#[local] Open Scope Z_scope.

(** * State *)

(** [src/src/http_api/server.rs:40-44 ServerStats] *)
Record ServerStats := mkServerStats {
  st_uptime_secs : Z;
  st_connected_miners : Z;
  st_network_difficulty : option string;
}.

(** [src/src/http_api/server.rs:27-37 AppState]
    [PayoutConfig] has the fields of the settings that the payout service takes. *)
Record AppState := mkAppState {
  app_stats : ServerStats;
  app_share_repo : bool;
  app_worker_repo : bool;
  app_round_repo : bool;
  app_found_block_repo : bool;
  app_payout_repo : bool;
  app_api_token : string;
  app_accounting_service : bool;
  app_payout_config : option PayoutParams;
}.

(** [src/src/http_api/server.rs:65-70 AppError] *)
Inductive AppError : Type :=
  | NotFound (msg : string)
  | BadRequest (msg : string)
  | DbNotConfigured
  | Internal (msg : string).

(** [src/src/http_api/server.rs:72-85 AppError::into_response (part)] *)
Definition into_response (e : AppError) : Z * string :=
  match e with
  | NotFound msg => (404, msg)
  | BadRequest msg => (400, msg)
  | DbNotConfigured => (500, "database not configured"%string)
  | Internal msg => (500, msg)
  end.

(** * Bodies *)

(** [src/src/http_api/routes/health.rs:6-10 HealthResponse] *)
Record HealthResponse := mkHealthResponse {
  h_status : string;
  h_uptime_secs : Z;
  h_connected_miners : Z;
}.

(** [src/src/http_api/routes/stats.rs:9-17 StatsResponse] *)
Record StatsResponse := mkStatsResponse {
  sx_total_shares : Z;
  sx_accepted_shares : Z;
  sx_rejected_shares : Z;
  sx_accepted_pct : f64;
  sx_rejection_breakdown : gmap string Z;
  sx_network_difficulty : option string;
  sx_pool_hashrate : Z;
}.

(** [src/src/http_api/routes/workers.rs:10-15 WorkerSummary] *)
Record WorkerSummary := mkWorkerSummary {
  ws_id : Z;
  ws_payout_address : string;
  ws_worker_suffix : option string;
  ws_total_shares : Z;
}.

(** [src/src/http_api/routes/workers.rs:18-23 WorkerDetail] *)
Record WorkerDetail := mkWorkerDetail {
  wd_id : Z;
  wd_payout_address : string;
  wd_worker_suffix : option string;
  wd_total_shares : Z;
}.

(** [src/src/http_api/routes/rounds.rs:10-16 RoundSummary] *)
Record RoundSummary := mkRoundSummary {
  rsm_id : Z;
  rsm_start_template_id : string;
  rsm_end_template_id : option string;
  rsm_status : string;
  rsm_found_block_hash : option string;
}.

(** [src/src/http_api/routes/rounds.rs:36-43 WorkerShareBreakdown] *)
Record WorkerShareBreakdown := mkWorkerShareBreakdown {
  wb_worker_id : Z;
  wb_payout_address : string;
  wb_worker_suffix : option string;
  wb_total_shares : Z;
  wb_accepted_shares : Z;
  wb_rejected_shares : Z;
}.

(** [src/src/http_api/routes/rounds.rs:47-55 RoundDetail] *)
Record RoundDetail := mkRoundDetail {
  rd_id : Z;
  rd_start_template_id : string;
  rd_end_template_id : option string;
  rd_status : string;
  rd_found_block_hash : option string;
  rd_share_breakdown : list WorkerShareBreakdown;
  rd_total_shares : Z;
}.

(** [src/src/http_api/routes/blocks.rs:10-18 BlockSummary] *)
Record BlockSummary := mkBlockSummary {
  bs_id : Z;
  bs_round_id : Z;
  bs_block_hash : string;
  bs_height : Z;
  bs_status : string;
  bs_coinbase_value : string;
  bs_network_target_hex : string;
}.

(** [src/src/http_api/routes/blocks.rs:37-49 BlockDetail] *)
Record BlockDetail := mkBlockDetail {
  bd_id : Z;
  bd_round_id : Z;
  bd_block_hash : string;
  bd_height : Z;
  bd_status : string;
  bd_worker_id : option Z;
  bd_template_id : option string;
  bd_persist_source : option string;
  bd_orphan_reason : option string;
  bd_coinbase_value : string;
  bd_network_target_hex : string;
}.

(** [src/src/http_api/routes/shares.rs:11-24 ShareResponse] *)
Record ShareResponse := mkShareResponse {
  sh_id : Z;
  sh_worker_id : Z;
  sh_session_id : string;
  sh_job_id : string;
  sh_template_id : string;
  sh_template_epoch : string;
  sh_extranonce1 : string;
  sh_extranonce2 : string;
  sh_ntime_hex_6b : string;
  sh_nonce_hex_8b : string;
  sh_difficulty : f64;
  sh_dedupe_key : string;
}.

(** [src/src/http_api/routes/payouts.rs:11-21 PayoutBatchResponse] *)
Record PayoutBatchResponse := mkPayoutBatchResponse {
  br_id : Z;
  br_round_id : Z;
  br_status : string;
  br_total_amount : Z;
  br_pool_fee_amount : Z;
  br_pool_fee_address : option string;
  br_miner_count : Z;
  br_retry_key : option string;
  br_submitted_txid : option string;
}.

(** [src/src/http_api/routes/payouts.rs:24-30 PayoutDetailResponse] *)
Record PayoutDetailResponse := mkPayoutDetailResponse {
  pd_id : Z;
  pd_worker_id : Z;
  pd_payout_address : string;
  pd_amount : Z;
  pd_dust_carried_forward : Z;
}.

(** The body of an answer. [ShareOutcomeResponse] has exactly the fields of the
    outcome. *)
Inductive Body : Type :=
  | Empty
  | Text (s : string)
  | HealthBody (r : HealthResponse)
  | StatsBody (r : StatsResponse)
  | WorkersBody (r : PaginatedResponse WorkerSummary)
  | WorkerBody (r : option WorkerDetail)
  | RoundsBody (r : PaginatedResponse RoundSummary)
  | RoundBody (r : option RoundDetail)
  | BlocksBody (r : PaginatedResponse BlockSummary)
  | BlockBody (r : option BlockDetail)
  | PayoutsBody (r : PaginatedResponse PayoutBatchResponse)
  | PayoutBody (batch : PayoutBatchResponse) (payouts : list PayoutDetailResponse)
  | TriggerBody (v : Value)
  | SharesBody (r : PaginatedResponse ShareResponse)
  | OutcomesBody (r : PaginatedResponse ShareOutcome).

(** * Handlers *)

(** The clock and the library functions a handler uses: SQLite's sum, the text of
    the time half an hour ago as [chrono] formats it, and the text of an error. *)
Record ApiEnv := mkApiEnv {
  ae_sql_sum : list f64 → f64;
  ae_window_start : string;
  ae_error_text : error → string;
}.

Section api.
Context {so : SqlOrder} {hashing : Hashing}.

(** [src/src/http_api/routes/health.rs:12-19 health_handler] *)
Definition health_handler (state : AppState) : HealthResponse :=
  mkHealthResponse "ok" (st_uptime_secs (app_stats state)) (st_connected_miners (app_stats state)).

(** [src/src/constants.rs:24-26 DEFAULT_POOL_HASHRATE_WINDOW_SECS (part)] *)
Definition DEFAULT_POOL_HASHRATE_WINDOW_SECS : Z := 1800.

(** [src/src/http_api/routes/stats.rs:19-58 stats_handler] *)
Definition stats_handler (env : ApiEnv) (state : AppState) (d : Db) : StatsResponse :=
  let '(total_shares, accepted_shares, rejected_shares, rejection_breakdown, pool_hashrate) :=
    if app_share_repo state then
      let sum_diff := sum_difficulty_since (ae_sql_sum env) d (ae_window_start env) in
      (total_count d, count_outcomes_by_status d "accepted", count_outcomes_by_status d "rejected",
       count_rejected_by_reason d,
       f64_as_u64 (f64_div (f64_mul sum_diff (f64_of_Z 4294967296))
                     (f64_of_Z DEFAULT_POOL_HASHRATE_WINDOW_SECS)))
    else (0, 0, 0, ∅, 0) in
  let accepted_pct :=
    if 0 <? total_shares
    then f64_mul (f64_div (f64_of_Z accepted_shares) (f64_of_Z total_shares)) (f64_of_Z 100)
    else f64_zero in
  mkStatsResponse total_shares accepted_shares rejected_shares accepted_pct rejection_breakdown
    (st_network_difficulty (app_stats state)) pool_hashrate.

(** [src/src/http_api/routes/workers.rs:36-40 list_workers (part)] The shares of a
    worker, zero without a share repository. *)
Definition share_count (state : AppState) (d : Db) (worker_id : Z) : Z :=
  if app_share_repo state then count_by_worker d worker_id else 0.

(** [src/src/http_api/routes/workers.rs:25-53 list_workers] *)
Definition list_workers (state : AppState) (params : PaginationParams) (d : Db) :
    PaginatedResponse WorkerSummary :=
  if app_worker_repo state then
    let total := WorkerRepository.count d in
    let all := map (λ w, mkWorkerSummary (w_id w) (w_payout_address w) (w_worker_suffix w)
      (share_count state d (w_id w))) (list_all d) in
    PaginatedResponse_new all total params
  else PaginatedResponse_new [] 0 params.

(** [src/src/http_api/routes/workers.rs:55-80 get_worker] *)
Definition get_worker (state : AppState) (id : Z) (d : Db) : option WorkerDetail :=
  worker ← (if app_worker_repo state then WorkerRepository.get_by_id d id else None);
  Some (mkWorkerDetail (w_id worker) (w_payout_address worker) (w_worker_suffix worker)
    (share_count state d (w_id worker))).

(** [src/src/http_api/routes/rounds.rs:57-103 get_round] *)
Definition get_round (state : AppState) (id : Z) (d : Db) : option RoundDetail :=
  round ← (if app_round_repo state then RoundRepository.get_by_id d id else None);
  let '(share_breakdown, total_shares) :=
    if app_share_repo state then
      let breakdown := map
        (λ '(worker_id, payout_address, worker_suffix, total, accepted, rejected),
          mkWorkerShareBreakdown worker_id payout_address worker_suffix total accepted rejected)
        (count_outcomes_by_round_with_workers d id) in
      (breakdown, sum_i64 (map wb_total_shares breakdown))
    else ([], 0) in
  Some (mkRoundDetail (r_id round) (show_u (r_start_template_id round))
    (show_u <$> r_end_template_id round) (r_status round) (r_found_block_hash round)
    share_breakdown total_shares).

(** [src/src/http_api/routes/rounds.rs:105-127 list_rounds] *)
Definition list_rounds (state : AppState) (status : option string) (params : PaginationParams)
    (d : Db) : PaginatedResponse RoundSummary :=
  let all :=
    if app_round_repo state then
      map (λ r, mkRoundSummary (r_id r) (show_u (r_start_template_id r))
        (show_u <$> r_end_template_id r) (r_status r) (r_found_block_hash r))
        (RoundRepository.list_rounds d status)
    else [] in
  PaginatedResponse_new all (Z.of_nat (length all)) params.

(** [src/src/http_api/routes/blocks.rs:51-74 list_blocks] *)
Definition list_blocks (state : AppState) (status : option string) (params : PaginationParams)
    (d : Db) : result (PaginatedResponse BlockSummary) :=
  blocks ← (if app_found_block_repo state
            then unwrap_or [] (FoundBlockRepository.list_blocks d status) else Ok []);
  let all := map (λ b, mkBlockSummary (fb_id b) (fb_round_id b) (fb_block_hash b) (fb_height b)
    (fb_status b) (show_u (fb_coinbase_value b)) (fb_network_target_hex b)) blocks in
  Ok (PaginatedResponse_new all (Z.of_nat (length all)) params).

(** [src/src/http_api/routes/blocks.rs:76-101 get_block] *)
Definition get_block (state : AppState) (hash : string) (d : Db) : option BlockDetail :=
  b ← (if app_found_block_repo state then get_by_hash d hash else None);
  Some (mkBlockDetail (fb_id b) (fb_round_id b) (fb_block_hash b) (fb_height b) (fb_status b)
    (fb_worker_id b) (show_u <$> fb_template_id b) (fb_persist_source b) (fb_orphan_reason b)
    (show_u (fb_coinbase_value b)) (fb_network_target_hex b)).

(** [src/src/http_api/routes/shares.rs:44-51 ListSharesParams] *)
Record ListSharesParams := mkListSharesParams {
  lp_worker_id : option Z;
  lp_status : option string;
  lp_from : option string;
  lp_to : option string;
  lp_limit : option Z;
  lp_offset : option Z;
}.

(** [src/src/http_api/routes/shares.rs:54-59 pagination_from] *)
Definition pagination_from (params : ListSharesParams) : PaginationParams :=
  mkPaginationParams (lp_limit params) (lp_offset params).

(** [src/src/http_api/routes/shares.rs:62-105 list_shares] *)
Definition list_shares (state : AppState) (params : ListSharesParams) (d : Db) :
    PaginatedResponse ShareResponse + AppError :=
  if app_share_repo state then
    let all := map (λ s, mkShareResponse (s_id s) (s_worker_id s) (s_session_id s) (s_job_id s)
        (show_u (s_template_id s)) (show_u (s_template_epoch s)) (s_extranonce1 s)
        (s_extranonce2 s) (s_ntime_hex_6b s) (s_nonce_hex_8b s) (s_difficulty s) (s_dedupe_key s))
      (ShareRepository.list_shares d (lp_worker_id params) (lp_status params) (lp_from params)
        (lp_to params) None None) in
    let total := count_shares d (lp_worker_id params) (lp_status params) (lp_from params)
                   (lp_to params) in
    inl (PaginatedResponse_new all total (pagination_from params))
  else inr DbNotConfigured.

(** [src/src/http_api/routes/shares.rs:108-152 list_share_outcomes] *)
Definition list_share_outcomes (state : AppState) (params : ListSharesParams) (d : Db) :
    PaginatedResponse ShareOutcome + AppError :=
  if app_share_repo state then
    let all := list_outcomes d (lp_worker_id params) (lp_status params) (lp_from params)
                 (lp_to params) None None in
    let total := count_outcomes d (lp_worker_id params) (lp_status params) (lp_from params)
                   (lp_to params) in
    inl (PaginatedResponse_new all total (pagination_from params))
  else inr DbNotConfigured.

(** [src/src/http_api/routes/payouts.rs:63-73 list_payouts (part)] *)
Definition batch_response (b : PayoutBatch) : PayoutBatchResponse :=
  mkPayoutBatchResponse (pb_id b) (pb_round_id b) (pb_status b) (pb_total_amount b)
    (pb_pool_fee_amount b) (pb_pool_fee_address b) (pb_miner_count b) (pb_retry_key b)
    (pb_submitted_txid b).

(** [src/src/http_api/routes/payouts.rs:55-77 list_payouts] *)
Definition list_payouts (state : AppState) (status : option string) (params : PaginationParams)
    (d : Db) : PaginatedResponse PayoutBatchResponse + AppError :=
  if app_payout_repo state then
    let all := map batch_response (list_batches d status) in
    inl (PaginatedResponse_new all (Z.of_nat (length all)) params)
  else inr DbNotConfigured.

(** [src/src/http_api/routes/payouts.rs:129-162 get_payout] *)
Definition get_payout (state : AppState) (id : Z) (d : Db) :
    (PayoutBatchResponse * list PayoutDetailResponse) + AppError :=
  if app_payout_repo state then
    match get_batch_by_id d id with
    | None => inr (NotFound ("payout batch " ++ show_i id)%string)
    | Some batch =>
        inl (batch_response batch,
          map (λ p, mkPayoutDetailResponse (p_id p) (p_worker_id p) (p_payout_address p)
                      (p_amount p) (p_dust_carried_forward p)) (get_payouts_by_batch d id))
    end
  else inr DbNotConfigured.

(** [src/src/http_api/routes/payouts.rs:81-126 trigger_payout] *)
Definition trigger_payout (env : ApiEnv) (state : AppState) (block_hash : string) :
    DbM (Value + AppError) :=
  if negb (app_accounting_service state) then mret (inr DbNotConfigured) else
  match app_payout_config state with
  | None => mret (inr (Internal "payout config not loaded"))
  | Some config =>
      if negb (app_found_block_repo state) then mret (inr DbNotConfigured) else
      fb ← query (λ d, Ok (get_by_hash d block_hash));
      match fb with
      | None => mret (inr (NotFound ("found block " ++ block_hash)%string))
      | Some found_block =>
          if String.eqb (fb_status found_block) "orphaned"
          then mret (inr (BadRequest "cannot trigger payout for orphaned block"))
          else if String.eqb (fb_status found_block) "paid"
          then mret (inr (BadRequest "block already paid"))
          else
            r ← mtry (create_payout_for_found_block found_block config);
            match r with
            | inr e => mret (inr (Internal (ae_error_text env e)))
            | inl batch_id =>
                mret (inl (Object [("batch_id"%string, json_i64 batch_id);
                  ("status"%string, Str "pending");
                  ("message"%string,
                     Str "payout batch created, waiting for signing (Slice 9)")]))
            end
      end
  end.

(** * Router *)

Inductive Call : Type :=
  | Health
  | Stats
  | Workers (params : PaginationParams)
  | GetWorker (id : Z)
  | Rounds (status : option string) (params : PaginationParams)
  | GetRound (id : Z)
  | Blocks (status : option string) (params : PaginationParams)
  | GetBlock (hash : string)
  | Payouts (status : option string) (params : PaginationParams)
  | GetPayout (id : Z)
  | TriggerPayout (block_hash : string)
  | Shares (params : ListSharesParams)
  | ShareOutcomes (params : ListSharesParams).

Definition json_or {A} (f : A → Body) (r : A + AppError) : Z * Body :=
  match r with
  | inl a => (200, f a)
  | inr e => let '(status, msg) := into_response e in (status, Text msg)
  end.

(** [src/src/http_api/server.rs:99-153 create_router (part)] Which handler an endpoint has. *)
Definition handler (env : ApiEnv) (state : AppState) (c : Call) : DbM (Z * Body) :=
  let read r := query (λ d, Ok (200, r d)) in
  match c with
  | Health => read (λ _, HealthBody (health_handler state))
  | Stats => read (λ d, StatsBody (stats_handler env state d))
  | Workers params => read (λ d, WorkersBody (list_workers state params d))
  | GetWorker id => read (λ d, WorkerBody (get_worker state id d))
  | Rounds status params => read (λ d, RoundsBody (list_rounds state status params d))
  | GetRound id => read (λ d, RoundBody (get_round state id d))
  | Blocks status params =>
      query (λ d, r ← list_blocks state status params d; Ok (200, BlocksBody r))
  | GetBlock hash => read (λ d, BlockBody (get_block state hash d))
  | Payouts status params =>
      query (λ d, Ok (json_or PayoutsBody (list_payouts state status params d)))
  | GetPayout id => query (λ d, Ok (json_or (λ r, PayoutBody r.1 r.2) (get_payout state id d)))
  | TriggerPayout hash => r ← trigger_payout env state hash; mret (json_or TriggerBody r)
  | Shares params => query (λ d, Ok (json_or SharesBody (list_shares state params d)))
  | ShareOutcomes params =>
      query (λ d, Ok (json_or OutcomesBody (list_share_outcomes state params d)))
  end.

(** [HeaderValue::to_str]: only visible ASCII and the tab. *)
Definition header_to_str (v : string) : option string :=
  if str_all (λ c, let n := N_of_ascii c in
       ((32 <=? n)%N && (n <? 127)%N) || (n =? 9)%N) v then Some v else None.

(** [src/src/http_api/server.rs:49-54 auth_middleware (part)] The token of a request. *)
Definition bearer_token (authorization : option string) : string :=
  default ""%string (v ← authorization; s ← header_to_str v; strip_prefix "Bearer " s).

(** [src/src/http_api/server.rs:48-61 auth_middleware] *)
Definition auth_middleware (state : AppState) (authorization : option string)
    (next : DbM (Z * Body)) : DbM (Z * Body) :=
  if negb (String.eqb (bearer_token authorization) (app_api_token state))
  then mret (401, Empty)
  else next.

(** [src/src/http_api/server.rs:99-153 create_router] Only the health endpoint is outside
    the layer that checks the token. *)
Definition create_router (env : ApiEnv) (state : AppState) (authorization : option string)
    (c : Call) : DbM (Z * Body) :=
  match c with
  | Health => handler env state c
  | _ => auth_middleware state authorization (handler env state c)
  end.

(** * Properties *)

(** ** The token *)

Definition visible (s : string) : bool := bool_decide (is_Some (header_to_str s)).

Lemma header_to_str_id v s : header_to_str v = Some s ↔ visible v = true ∧ s = v.
Proof.
  unfold visible, header_to_str. case_bool_decide as H; destruct (str_all _ v); naive_solver.
Qed.

Lemma bearer_prefix_visible s : visible ("Bearer " ++ s)%string = visible s.
Proof. unfold visible, header_to_str. by destruct (str_all _ s) eqn:E; simpl; rewrite E. Qed.

#[local] Arguments strip_prefix : simpl never.
#[local] Arguments String.append : simpl never.

(** The header carries the token [t]. *)
Definition carries (authorization : option string) (t : string) : Prop :=
  visible t = true ∧ authorization = Some ("Bearer " ++ t)%string.

Lemma bearer_token_spec authorization t :
  bearer_token authorization = t ↔
  carries authorization t ∨ t = ""%string ∧ ∀ u, ¬ carries authorization u.
Proof.
  unfold bearer_token, carries. destruct authorization as [v|]; simpl; [|naive_solver].
  destruct (header_to_str v) as [s|] eqn:Ev; simpl.
  - apply header_to_str_id in Ev as [Hv ->].
    destruct (strip_prefix "Bearer " v) as [u|] eqn:Eu; simpl.
    + apply strip_prefix_Some in Eu. subst v. rewrite bearer_prefix_visible in Hv. split.
      * intros ->. auto.
      * intros [[_ H]|[-> Hn]]; [|exfalso; by apply (Hn u)].
        injection H as H. by apply string_app_inv_head in H.
    + split.
      * intros <-. right. split; [done|]. intros u [_ H].
        injection H as ->. by rewrite strip_prefix_app in Eu.
      * intros [[_ H]|[-> _]]; [|done]. injection H as ->. by rewrite strip_prefix_app in Eu.
  - split.
    + intros <-. right. split; [done|]. intros u [Hu H0]. injection H0 as ->.
      rewrite <-bearer_prefix_visible in Hu.
      destruct (header_to_str_id ("Bearer " ++ u)%string ("Bearer " ++ u)%string) as [_ H].
      rewrite H in Ev by done. done.
    + intros [[Hu H0]|[-> _]]; [|done]. injection H0 as ->. rewrite <-bearer_prefix_visible in Hu.
      destruct (header_to_str_id ("Bearer " ++ t)%string ("Bearer " ++ t)%string) as [_ H].
      rewrite H in Ev by done. done.
Qed.

(** A request that gets past the token check. *)
Definition authorized (state : AppState) (authorization : option string) : Prop :=
  carries authorization (app_api_token state) ∨
  app_api_token state = ""%string ∧ ∀ u, ¬ carries authorization u.

Lemma auth_middleware_spec state authorization next d :
  (authorized state authorization → auth_middleware state authorization next d = next d) ∧
  (¬ authorized state authorization →
   auth_middleware state authorization next d = (Ok (401, Empty), d)).
Proof.
  unfold authorized. rewrite <-bearer_token_spec. unfold auth_middleware.
  destruct (String.eqb_spec (bearer_token authorization) (app_api_token state)); done.
Qed.

(** C23: every endpoint but the health check is behind the token. A
    request that does not carry the configured token in its header is answered
    with 401 and has no effect; one that does reaches its handler. Only with an
    empty token are requests without one served. *)
Theorem auth_protects env state authorization c d :
  c ≠ Health →
  let served := create_router env state authorization c d = handler env state c d in
  let refused := create_router env state authorization c d = (Ok (401, Empty), d) in
  (carries authorization (app_api_token state) → served) ∧
  (app_api_token state ≠ ""%string → ¬ carries authorization (app_api_token state) → refused) ∧
  (app_api_token state = ""%string → authorization = None → served).
Proof.
  intros Hc served refused.
  assert (create_router env state authorization c d =
    auth_middleware state authorization (handler env state c) d) as Hr by (by destruct c).
  unfold served, refused. rewrite Hr.
  destruct (auth_middleware_spec state authorization (handler env state c) d) as [H1 H2].
  unfold authorized in *. split_and!.
  - intros H. apply H1. auto.
  - intros Ht H. apply H2. naive_solver.
  - intros Ht ->. apply H1. right. split; [done|]. by intros u [_ ?].
Qed.

(** ** Effects *)

(** The API serves requests one at a time on the database; a handler that panics
    ends its own connection only. *)
Definition serve_all (env : ApiEnv) (state : AppState) (reqs : list (option string * Call)) (d : Db) : Db :=
  foldl (λ d r, (create_router env state r.1 r.2 d).2) d reqs.

Definition is_trigger (c : Call) : bool := match c with TriggerPayout _ => true | _ => false end.

#[local] Instance pagination_params_eq_dec : EqDecision PaginationParams.
Proof. solve_decision. Defined.
#[local] Instance list_shares_params_eq_dec : EqDecision ListSharesParams.
Proof. solve_decision. Defined.
#[local] Instance call_eq_dec : EqDecision Call.
Proof. solve_decision. Defined.

Lemma handler_read env state c d : is_trigger c = false → (handler env state c d).2 = d.
Proof. by destruct c. Qed.

#[local] Hint Resolve read_steps : keeps.
#[local] Hint Extern 4 (Keeps (rtc step) (create_payout_for_found_block _ _)) =>
  apply call_steps; intros; apply step_create : keeps.

Lemma trigger_steps env state h : Keeps (rtc step) (trigger_payout env state h).
Proof. unfold trigger_payout. keeps. Qed.

Lemma handler_steps env state c : Keeps (rtc step) (handler env state c).
Proof.
  intros d. destruct (is_trigger c) eqn:E; [|by rewrite handler_read].
  destruct c; try done. simpl.
  enough (Keeps (rtc step) (r ← trigger_payout env state block_hash; mret (json_or TriggerBody r)))
    as H by apply H.
  apply Keeps_bind; [typeclasses eauto|apply trigger_steps|]. intros a d0. done.
Qed.

Lemma router_effect env state authorization c d :
  let d' := (create_router env state authorization c d).2 in
  rtc step d d' ∧
  (is_trigger c = false ∨ ¬ authorized state authorization → d' = d).
Proof.
  destruct (auth_middleware_spec state authorization (handler env state c) d) as [H1 H2].
  pose proof (handler_steps env state c d) as Hs.
  assert (authorized state authorization ∨ ¬ authorized state authorization) as Hd.
  { unfold authorized. rewrite <-bearer_token_spec.
    destruct (decide (bearer_token authorization = app_api_token state)); auto. }
  intros d'. destruct (decide (c = Health)) as [->|Hc]; [done|].
  assert (d' = (auth_middleware state authorization (handler env state c) d).2) as -> by (by destruct c).
  destruct Hd as [Ha|Ha]; [rewrite (H1 Ha)|by rewrite (H2 Ha)].
  split; [done|]. intros [?|?]; [by apply handler_read|done].
Qed.

(** Whatever requests arrive, in whatever order and with whatever
    headers, the API acts on the database only through calls of the accounting
    service, so that a reachable database stays reachable; and without an
    authorized request to trigger a payout it changes nothing. *)
Theorem api_refines env state reqs now d :
  reachable now d →
  let d' := serve_all env state reqs d in
  rtc step d d' ∧ reachable now d' ∧
  (Forall (λ r, is_trigger r.2 = false ∨ ¬ authorized state r.1) reqs → d' = d).
Proof.
  intros Hd d'. assert (rtc step d d' ∧
    (Forall (λ r, is_trigger r.2 = false ∨ ¬ authorized state r.1) reqs → d' = d)) as [Hs Hr].
  { unfold d', serve_all. clear. revert d. induction reqs as [|[a c] reqs IH]; intros d; [done|].
    simpl. destruct (router_effect env state a c d) as [H1 H2].
    destruct (IH (create_router env state a c d).2) as [H3 H4]. split; [by etrans|].
    intros [Ha Hf]%Forall_cons. rewrite H4, H2; done. }
  split_and!; [done|by eapply reachable_steps|done].
Qed.

(** ** Every request is answered *)

Definition status_of (r : result (Z * Body)) : option Z := fst <$> ok r.

Lemma json_or_status {A} (f : A → Body) (r : A + AppError) :
  (json_or f r).1 ∈ [200; 400; 404; 500].
Proof. destruct r as [a|[]]; simpl; set_solver. Qed.

#[local] Hint Resolve create_payout_no_panic : keeps.

Lemma trigger_payout_answers env state h d : ∃ r, (trigger_payout env state h d).1 = Ok r.
Proof.
  assert (NoPanic (trigger_payout env state h)) as Hn.
  { unfold trigger_payout. no_panic; stmt_no_panic. }
  specialize (Hn d). destruct (trigger_payout env state h d) as [[r|e|] d'] eqn:E;
    [by exists r| |done]. exfalso. revert E. unfold trigger_payout.
  destruct (negb _); [done|]. destruct (app_payout_config state); [|done].
  destruct (negb _); [done|]. rewrite bind_query. destruct (get_by_hash d h); [|done].
  destruct (String.eqb _ _); [done|]. destruct (String.eqb _ _); [done|].
  munfold. by destruct (create_payout_for_found_block _ _ d) as [[] ?].
Qed.

(** C34: on a reachable database every request is answered: no handler
    panics or fails, and the status is one of 200, 400, 401, 404 and 500. *)
Theorem api_answers env state authorization c now d :
  reachable now d →
  ∃ status body, (create_router env state authorization c d).1 = Ok (status, body) ∧
    status ∈ [200; 400; 401; 404; 500].
Proof.
  intros [_ Hb]%reachable_ok.
  assert (∃ r, (handler env state c d).1 = Ok r ∧ r.1 ∈ [200; 400; 404; 500]) as (r & Hr & Hst).
  { destruct c; try (eexists; split; [reflexivity|simpl; set_solver]);
      try (eexists; split; [reflexivity|apply json_or_status]).
    - pose proof (list_blocks_total d status Hb) as Ht. simpl. unfold query, list_blocks, mbind, result_bind.
      destruct (app_found_block_repo state); [|eexists; split; [reflexivity|simpl; set_solver]].
      destruct (FoundBlockRepository.list_blocks d status); [|done..].
      eexists; split; [reflexivity|simpl; set_solver].
    - destruct (trigger_payout_answers env state block_hash d) as [x Hx]. simpl. munfold.
      destruct (trigger_payout env state block_hash d) as [r d']. simpl in Hx. subst r.
      eexists; split; [reflexivity|apply json_or_status]. }
  assert ((create_router env state authorization c d).1 = Ok r ∨
    (create_router env state authorization c d).1 = Ok (401, Empty)) as [Hc|Hc].
  { destruct c; try (by left); unfold create_router, auth_middleware;
      (destruct (negb _); [by right|by left]). }
  - exists r.1, r.2. rewrite Hc, <-surjective_pairing. split; [done|]. set_solver.
  - exists 401, Empty. split; [done|]. set_solver.
Qed.

(** ** The payout trigger *)

(** With a configured service, triggering the payout of a block
    succeeds exactly when the block is known, is neither orphaned nor paid, and its
    batch can be created; it then adds one batch, that of the block, and triggering
    it again is refused and changes nothing. The block need not have matured. *)
Theorem trigger_payout_once env state config h b d :
  app_accounting_service state = true → app_found_block_repo state = true →
  app_payout_config state = Some config →
  blocks_ok d → get_by_hash d h = Some b →
  let '(r, d') := trigger_payout env state h d in
  match r with
  | Ok (inl _) =>
      fb_status b ∉ ["orphaned"%string; "paid"%string] ∧
      d' = (create_payout_for_found_block b config d).2 ∧
      blocks_paid d' = blocks_paid d ++ [h] ∧ h ∉ blocks_paid d ∧
      ∃ e, trigger_payout env state h d' = (Ok (inr e), d')
  | _ => d' = d ∧ (fb_status b ∈ ["orphaned"%string; "paid"%string] ∨
                   is_ok (create_payout_for_found_block b config d).1 = false)
  end.
Proof.
  intros Ha Hf Hc Hbs Hb.
  assert (fb_block_hash b = h) as Hh.
  { rewrite get_by_hash_ok in Hb by done. by apply find_some in Hb as [_ ?%String.eqb_eq]. }
  assert (∀ d1 b1, get_by_hash d1 h = Some b1 → trigger_payout env state h d1 =
    if String.eqb (fb_status b1) "orphaned"
    then (Ok (inr (BadRequest "cannot trigger payout for orphaned block")), d1)
    else if String.eqb (fb_status b1) "paid" then (Ok (inr (BadRequest "block already paid")), d1)
    else match create_payout_for_found_block b1 config d1 with
         | (Ok i, d2) => (Ok (inl (Object [("batch_id"%string, json_i64 i);
                  ("status"%string, Str "pending");
                  ("message"%string,
                     Str "payout batch created, waiting for signing (Slice 9)")])), d2)
         | (Err e, d2) => (Ok (inr (Internal (ae_error_text env e))), d2)
         | (Panic, d2) => (Panic, d2)
         end) as Hrun.
  { intros d1 b1 E. unfold trigger_payout. rewrite Ha, Hf, Hc. cbn [negb]. rewrite bind_query, E.
    destruct (String.eqb _ _); [done|]. destruct (String.eqb _ _); [done|].
    munfold. by destruct (create_payout_for_found_block b1 config d1) as [[] ?]. }
  rewrite (Hrun d b Hb).
  destruct (String.eqb_spec (fb_status b) "orphaned") as [E1|E1]; [split; [done|]; set_solver|].
  destruct (String.eqb_spec (fb_status b) "paid") as [E2|E2]; [split; [done|]; set_solver|].
  pose proof (create_payout_blocks b config d) as Hp.
  pose proof (create_payout_found_blocks b config d) as Hfb.
  destruct (create_payout_for_found_block b config d) as [[i|e|] d'] eqn:Ec; simpl in *; [|auto..].
  rewrite Hh in Hp. destruct Hp as [Hp1 Hp2].
  split_and!; [set_solver|done|done|done|].
  assert (get_by_hash d' h = Some b) as Hb' by (unfold get_by_hash in *; by rewrite Hfb).
  rewrite (Hrun d' b Hb').
  destruct (String.eqb_spec (fb_status b) "orphaned"); [done|].
  destruct (String.eqb_spec (fb_status b) "paid"); [done|].
  pose proof (create_payout_blocks b config d') as Hp'.
  pose proof (create_payout_no_panic b config d') as Hn.
  destruct (create_payout_for_found_block b config d') as [[i'|e'|] d2]; simpl in *.
  - exfalso. destruct Hp' as [_ Hp']. apply Hp'. rewrite Hp1, Hh. set_solver.
  - subst. eauto.
  - done.
Qed.

(** ** Round details *)

(** Rows with a foreign key into a table with distinct ids are the disjoint union of
    the groups of the table's rows. *)
Lemma group_by_foreign_key {A B} (id : A → Z) (key : B → Z) (q : B → bool) ws os :
  NoDup (map id ws) → map key os ⊆ map id ws →
  sumZ (λ w, count_if (λ r, q r && (key r =? id w)) os) ws = count_if q os.
Proof.
  intros Hn. induction os as [|r os IH]; intros Hs.
  { unfold count_if. simpl. clear. induction ws; simpl; lia. }
  assert (sumZ (λ w, if q r && (key r =? id w) then 1 else 0) ws = if q r then 1 else 0) as Hr.
  { assert (key r ∈ map id ws) as Hk by set_solver. clear Hs IH.
    destruct (q r); simpl; [|clear; induction ws; simpl; lia].
    induction ws as [|w ws IH]; simpl in *; [set_solver|]. apply NoDup_cons in Hn as [Hw Hn].
    destruct (Z.eqb_spec (key r) (id w)) as [E|E].
    - rewrite (sumZ_ext _ (λ _, 0)); [clear; induction ws; simpl; lia|].
      intros x Hx. destruct (Z.eqb_spec (key r) (id x)) as [E'|]; [|done].
      exfalso. apply Hw. rewrite <-E, E'. apply elem_of_map. eauto.
    - rewrite IH; [done|done|set_solver]. }
  rewrite count_if_cons, <-Hr, <-IH by set_solver. rewrite <-sumZ_add.
  apply sumZ_ext. intros w _. by rewrite count_if_cons.
Qed.

Definition of_round (round_id : Z) (r : OutcomeRow) : bool :=
  bool_decide (o_round_id (or_outcome r) = Some round_id).

Lemma breakdown_total d id :
  db_wf d →
  sumZ (λ '(_, _, _, total, _, _), total) (count_outcomes_by_round_with_workers d id) =
    count_if (of_round id) (rows (share_outcomes d)).
Proof.
  intros Hd. rewrite <-(group_by_foreign_key w_id (λ r, o_worker_id (or_outcome r)) (of_round id)
    (rows (workers d))); [|by apply StronglySorted_lt_NoDup, Hd|apply Hd].
  unfold count_outcomes_by_round_with_workers.
  induction (rows (workers d)) as [|w ws IH]; [done|].
  match goal with |- _ = sumZ ?f (w :: ws) => change (sumZ f (w :: ws)) with (f w + sumZ f ws) end.
  rewrite <-IH. unfold count_if at 1, of_round at 1. simpl.
  by destruct (List.filter _ (rows (share_outcomes d))) as [|r g].
Qed.

Lemma breakdown_row d id row :
  row ∈ count_outcomes_by_round_with_workers d id →
  let '(w, _, _, total, accepted, rejected) := row in
  w ∈ tids w_id (workers d) ∧ 0 < total ∧ accepted + rejected ≤ total.
Proof.
  unfold count_outcomes_by_round_with_workers. intros (w & Hw & E)%list_elem_of_omap.
  destruct (List.filter _ _) as [|r g]; [done|]. injection E as <-.
  split; [by apply elem_of_map; eauto|]. split; [simpl; lia|].
  assert (∀ l : list OutcomeRow,
    count_if (λ r, String.eqb (o_status (or_outcome r)) "accepted") l +
    count_if (λ r, String.eqb (o_status (or_outcome r)) "rejected") l ≤ Z.of_nat (length l)) as H;
    [|apply (H (r :: g))].
  clear. intros l. induction l as [|x l IH]; [done|]. rewrite !count_if_cons. cbn [length].
  destruct (String.eqb_spec (o_status (or_outcome x)) "accepted") as [->|]; simpl; [lia|].
  destruct (String.eqb _ _); lia.
Qed.

(** The detail of a round counts every submission of the round
    exactly once: the total is the number of its outcomes, the rows of the breakdown
    are of different workers, each with at least one submission and no more accepted
    and rejected ones than submissions; a round that is not stored has no detail. *)
Theorem round_detail_spec state id d :
  db_wf d → app_round_repo state = true → app_share_repo state = true →
  match get_round state id d with
  | None => id ∉ tids r_id (rounds d)
  | Some detail =>
      rd_id detail = id ∧
      rd_total_shares detail = as_i64 (count_if (of_round id) (rows (share_outcomes d))) ∧
      NoDup (map wb_worker_id (rd_share_breakdown detail)) ∧
      Forall (λ w, 0 < wb_total_shares w ∧
                   wb_accepted_shares w + wb_rejected_shares w ≤ wb_total_shares w)
        (rd_share_breakdown detail)
  end.
Proof.
  intros Hd Hr Hs. unfold get_round. rewrite Hr, Hs.
  destruct (RoundRepository.get_by_id d id) as [r|] eqn:Eg; simpl.
  - apply find_some in Eg as [_ Hid%Z.eqb_eq]. split_and!; [done| | |].
    + rewrite sum_i64_spec, !sumZ_map, <-breakdown_total by done. f_equal.
      apply sumZ_ext. by intros [[[[[? ?] ?] ?] ?] ?] _.
    + rewrite map_map. pose proof (StronglySorted_lt_NoDup _ (ids_sorted _ _ (wf_workers d Hd))) as Hn.
      unfold count_outcomes_by_round_with_workers, tids in *.
      induction (rows (workers d)) as [|w ws IH]; simpl in *; [constructor|].
      apply NoDup_cons in Hn as [Hw Hn].
      destruct (List.filter _ _); simpl; [by apply IH|]. apply NoDup_cons. split; [|by apply IH].
      intros (x & Hx & Hin)%elem_of_map. apply Hw.
      apply list_elem_of_omap in Hin as (w' & Hw' & E). destruct (List.filter _ _); [done|].
      injection E as <-. simpl in Hx. rewrite Hx. apply elem_of_map. eauto.
    + apply Forall_map, Forall_forall. intros row Hrow.
      apply breakdown_row in Hrow. destruct row as [[[[[? ?] ?] ?] ?] ?]. apply Hrow.
  - intros (r & Hr' & Hin)%elem_of_map. eapply find_none in Eg; [|by apply list_elem_of_In].
    simpl in Eg. apply Z.eqb_neq in Eg. done.
Qed.

(** ** Listings *)

(** The counters of the share listings count what the listings list, so that the
    total of an answer is the length of the list that its pages are cut from. *)
Lemma share_listings state params d :
  app_share_repo state = true →
  (∃ all, list_shares state params d =
     inl (PaginatedResponse_new all (Z.of_nat (length all)) (pagination_from params)) ∧
     map sh_id all = map s_id (rev (select_shares d (lp_worker_id params) (lp_status params)
                                      (lp_from params) (lp_to params)))) ∧
  (∃ all, list_share_outcomes state params d =
     inl (PaginatedResponse_new all (Z.of_nat (length all)) (pagination_from params)) ∧
     all = rev (select_outcomes d (lp_worker_id params) (lp_status params)
                  (lp_from params) (lp_to params))).
Proof.
  intros H. unfold list_shares, list_share_outcomes. rewrite H.
  unfold ShareRepository.list_shares, list_outcomes, in_memory_page, count_shares, count_outcomes.
  split; (eexists; split; [|try reflexivity]).
  - by rewrite length_map, length_rev.
  - by rewrite map_map.
  - by rewrite length_rev.
Qed.
End api.

(** * Examples *)

Definition example_api_env : ApiEnv := mkApiEnv f64_sum "2026-05-20 11:30:00" (λ _, "error"%string).

Definition example_app : AppState :=
  mkAppState (mkServerStats 60 1 None) true true true true true "secret" true (Some example_params).

Lemma auth_protects_witness :
  create_router example_api_env example_app (Some "Bearer wrong"%string) (TriggerPayout "00aa")
    example_pool = (Ok (401, Empty), example_pool) ∧
  create_router example_api_env example_app (Some "Bearer secret"%string) Stats example_pool =
    handler example_api_env example_app Stats example_pool.
Proof.
  assert (TriggerPayout "00aa" ≠ Health) as H1 by discriminate.
  assert (Stats ≠ Health) as H2 by discriminate. split.
  - destruct (auth_protects example_api_env example_app (Some "Bearer wrong"%string) _ example_pool H1)
      as (_ & H & _). apply H; [discriminate|intros [_ E]; discriminate E].
  - destruct (auth_protects example_api_env example_app (Some "Bearer secret"%string) _ example_pool H2)
      as (H & _). apply H. split; [vm_compute; reflexivity|reflexivity].
Defined.

Lemma api_refines_witness :
  let reqs := [(Some "Bearer secret"%string, TriggerPayout "00aa"); (None, TriggerPayout "00aa");
               (Some "Bearer secret"%string, TriggerPayout "00aa"); (None, Health)] in
  let d' := serve_all example_api_env example_app reqs example_pool in
  reachable "2026-05-20 12:00:00" d' ∧ blocks_paid d' = ["00aa"%string].
Proof.
  intros reqs d'. split; [|vm_compute; reflexivity].
  apply (api_refines example_api_env example_app reqs _ example_pool example_pool_reachable).
Defined.

Lemma api_answers_witness :
  ∃ status body, (create_router example_api_env example_app (Some "Bearer secret"%string)
    (Blocks None (mkPaginationParams None None)) example_pool).1 = Ok (status, body) ∧
    status ∈ [200; 400; 401; 404; 500].
Proof.
  apply (api_answers example_api_env example_app _ _ _ example_pool example_pool_reachable).
Defined.

Lemma trigger_payout_once_witness :
  let '(r, d') := trigger_payout example_api_env example_app "00aa" example_pool in
  is_ok r = true ∧ blocks_paid d' = blocks_paid example_pool ++ ["00aa"%string] ∧
  fb_status example_block = "immature"%string.
Proof.
  pose proof (trigger_payout_once example_api_env example_app example_params "00aa" example_block
    example_pool) as H.
  destruct (trigger_payout _ _ _ _) as [r d'] eqn:E.
  specialize (H eq_refl eq_refl eq_refl).
  assert (is_ok r = true ∧ ∃ v, r = Ok (inl v)) as [Hr [v ->]].
  { replace r with (trigger_payout example_api_env example_app "00aa" example_pool).1 by (by rewrite E).
    vm_compute. eauto. }
  split; [done|]. split; [|vm_compute; reflexivity].
  apply H; [|vm_compute; reflexivity]. apply (reachable_ok _ _ example_pool_reachable).
Defined.

Lemma round_detail_spec_witness :
  match get_round example_app 1 example_pool with
  | Some detail => rd_id detail = 1 ∧ rd_total_shares detail =
      as_i64 (count_if (of_round 1) (rows (share_outcomes example_pool)))
  | None => False
  end.
Proof.
  pose proof (round_detail_spec example_app 1 example_pool example_pool_wf eq_refl eq_refl) as H.
  destruct (get_round example_app 1 example_pool) as [detail|] eqn:E.
  - destruct H as (H1 & H2 & _). split; [exact H1|exact H2].
  - apply H. vm_compute. left.
Defined.
