(* ===== verification/Config.v ===== *)
(** [config.rs]: the settings with their defaults, the overrides from the
    environment, the choice of network and database, and the resolution of the
    pool's mining identity. The TOML parser, URLs, addresses and the file system
    are library code: a parsed file reaches the model as a record in which every
    setting may be missing. *)
From Stdlib Require Import ZArith Lia String Ascii Init.Byte Floats.SpecFloat.
From stdpp Require Import base option list numbers strings sets gmap.
From S2P Require Import Prelude Text Float64 Db VarDiff Job JsonRpc Signer.
#[local] Open Scope Z_scope.

(** * Numbers in the environment

    [str::parse::<f64>]: a decimal number with an optional fraction and exponent,
    or an infinity or a NaN by name, rounded once to the nearest float. *)

Fixpoint take_digits (s : string) (acc : Z) (n : nat) : Z * nat * string :=
  match s with
  | EmptyString => (acc, n, s)
  | String c s' =>
      match char_digit c with
      | Some d => take_digits s' (acc * 10 + d) (S n)
      | None => (acc, n, s)
      end
  end.

Fixpoint str_lower (s : string) : string :=
  match s with
  | EmptyString => EmptyString
  | String c s' => String (ascii_lower c) (str_lower s')
  end.

(** The float next to [m * 10 ^ e]. *)
Definition f64_of_dec (neg : bool) (m e : Z) : f64 :=
  if m =? 0 then S754_zero neg
  else
    let a := if 0 <=? e then f64_of_Z (m * 10 ^ e)
             else let '(q, x, l) := SFdiv_core_binary f64_prec f64_emax m 0 (10 ^ (- e)) 0 in
                  binary_round_aux f64_prec f64_emax false q x l in
    if neg then SFopp a else a.

Definition parse_exponent (s : string) : option Z :=
  match s with
  | EmptyString => Some 0
  | String c s' =>
      if Ascii.eqb (ascii_lower c) "e" then
        let '(neg, s') := match s' with
                          | String "-" t => (true, t)
                          | String "+" t => (false, t)
                          | _ => (false, s')
                          end in
        match take_digits s' 0 0 with
        | (x, S _, EmptyString) => Some (if neg : bool then - x else x)
        | _ => None
        end
      else None
  end.

Definition parse_f64 (s : string) : option f64 :=
  let '(neg, s) := match s with
                   | String "-" t => (true, t)
                   | String "+" t => (false, t)
                   | _ => (false, s)
                   end in
  if existsb (String.eqb (str_lower s)) ["inf"; "infinity"]%string then Some (S754_infinity neg)
  else if String.eqb (str_lower s) "nan" then Some S754_nan
  else
    let '(i, ni, r) := take_digits s 0 0 in
    let '(m, nf, r) := match r with
                       | String "." r' => take_digits r' i 0
                       | _ => (i, 0%nat, r)
                       end in
    if (ni + nf =? 0)%nat then None
    else x ← parse_exponent r; Some (f64_of_dec neg m (x - Z.of_nat nf)).

Definition parse_u32 : string → option Z := parse_u (2 ^ 32 - 1).
Definition parse_u16 : string → option Z := parse_u (2 ^ 16 - 1).

(** The decimal literals of the source are read the same way. *)
Example parse_f64_examples :
  parse_f64 "2.5" = Some (f64_lit 5 2) ∧ parse_f64 ".1" = Some (f64_lit 1 10) ∧
  parse_f64 "-1e3" = Some (f64_of_Z (-1000)) ∧ parse_f64 "." = None ∧ parse_f64 "1e" = None ∧
  parse_f64 "0.30" = Some (f64_lit 3 10) ∧ parse_f64 "+Inf" = Some (S754_infinity false).
Proof. vm_compute. auto 10. Qed.

(** * Settings *)

(** [src/src/config.rs:48-65 VarDiffSettings] *)
Record VarDiffSettings := mkVarDiffSettings {
  vs_min_floor : f64;
  vs_initial_pct : f64;
  vs_target_secs : f64;
  vs_retarget_secs : f64;
  vs_variance_percent : f64;
}.

(** [src/src/config.rs:101-112 FeeSettings] *)
Record FeeSettings := mkFeeSettings {
  fs_enabled : bool;
  fs_fee_bps : Z;
  fs_fee_address : option string;
  fs_fee_script_hex : option string;
}.

(** [src/src/config.rs:160-170 BanningSettings] *)
Record BanningSettings := mkBanningSettings {
  bn_enabled : bool;
  bn_check_threshold : Z;
  bn_invalid_percent : f64;
}.

(** [src/src/config.rs:127-144 PplnsSettings] *)
Record PplnsSettings := mkPplnsSettings {
  pl_n_multiplier : f64;
  pl_min_payout_sat : Z;
  pl_payout_enabled : bool;
  pl_min_confirmations : Z;
  pl_banning : BanningSettings;
}.

(** [src/src/config.rs:184-197 SigningSettings] *)
Record SigningSettings := mkSigningSettings {
  sg_mode : string;
  sg_private_key : option string;
  sg_webhook_url : option string;
  sg_tx_fee_per_kb : Z;
}.

(** [src/src/config.rs:216-226 MiningIdentity] *)
Record MiningIdentity := mkMiningIdentity {
  mi_payout_address : option string;
  mi_payout_script_hex : option string;
  mi_coinbase_identity : option string;
}.

(** [src/src/config.rs:81-96 PoolSettings] *)
Record PoolSettings := mkPoolSettings {
  po_name : option string;
  po_mining_identity : option MiningIdentity;
  po_fee : FeeSettings;
  po_pplns : PplnsSettings;
  po_signing : SigningSettings;
}.

(** [src/src/config.rs:294-304 BitcoindRpcSettings] *)
Record BitcoindRpcSettings := mkBitcoindRpcSettings {
  rpc_url : string;
  rpc_user : string;
  rpc_pass : string;
}.

(** [src/src/config.rs:8-43 Config] *)
Record Config := mkConfig {
  c_stratum_bind : string;
  c_api_bind : string;
  c_nng_rpc_url : string;
  c_nng_pub_url : string;
  c_sqlite_path : string;
  c_network : string;
  c_api_token : string;
  c_vardiff : VarDiffSettings;
  c_pool : PoolSettings;
  c_bitcoind_rpc : BitcoindRpcSettings;
  c_debug : bool;
}.

(** * Defaults *)

(** [src/src/constants.rs:20-22 DEFAULT_TX_FEE_PER_KB (part)] *)
Definition DEFAULT_TX_FEE_PER_KB : Z := 1000.

(** [src/src/config.rs:316-318 default_bitcoind_rpc_url] *)
Definition default_bitcoind_rpc_url : string := "http://127.0.0.1:10604".
(** [src/src/config.rs:320-322 default_vardiff_min_floor] *)
Definition default_vardiff_min_floor : f64 := f64_lit 1 1000.
(** [src/src/config.rs:323-325 default_vardiff_initial_pct] *)
Definition default_vardiff_initial_pct : f64 := f64_lit 1 100.
(** [src/src/config.rs:326-328 default_vardiff_target_secs] *)
Definition default_vardiff_target_secs : f64 := f64_of_Z 20.
(** [src/src/config.rs:329-331 default_vardiff_retarget_secs] *)
Definition default_vardiff_retarget_secs : f64 := f64_of_Z 60.
(** [src/src/config.rs:332-334 default_vardiff_variance_percent] *)
Definition default_vardiff_variance_percent : f64 := f64_lit 3 10.
(** [src/src/config.rs:336-338 default_nng_pub_url] *)
Definition default_nng_pub_url : string := "ipc:///tmp/lotusd.pub".
(** [src/src/config.rs:340-342 default_api_token] *)
Definition default_api_token : string := "devtoken".
(** [src/src/config.rs:344-346 default_fee_enabled] *)
Definition default_fee_enabled : bool := true.
(** [src/src/config.rs:347-349 default_fee_bps] *)
Definition default_fee_bps : Z := 100.
(** [src/src/config.rs:351-353 default_pplns_n_multiplier] *)
Definition default_pplns_n_multiplier : f64 := f64_of_Z 2.
(** [src/src/config.rs:354-356 default_pplns_min_payout_sat] *)
Definition default_pplns_min_payout_sat : Z := DUST_LIMIT.
(** [src/src/config.rs:357-359 default_pplns_payout_enabled] *)
Definition default_pplns_payout_enabled : bool := true.
(** [src/src/config.rs:360-362 default_pplns_min_confirmations] *)
Definition default_pplns_min_confirmations : Z := 100.
(** [src/src/config.rs:364-366 default_banning_enabled] *)
Definition default_banning_enabled : bool := true.
(** [src/src/config.rs:367-369 default_banning_check_threshold] *)
Definition default_banning_check_threshold : Z := 50.
(** [src/src/config.rs:370-372 default_banning_invalid_percent] *)
Definition default_banning_invalid_percent : f64 := f64_of_Z 50.
(** [src/src/config.rs:374-376 default_signing_mode] *)
Definition default_signing_mode : string := "internal".
(** [src/src/config.rs:378-380 default_tx_fee_per_kb] *)
Definition default_tx_fee_per_kb : Z := DEFAULT_TX_FEE_PER_KB.

(** [src/src/config.rs:67-77 VarDiffSettings::default (part)] *)
Definition VarDiffSettings_default : VarDiffSettings :=
  mkVarDiffSettings default_vardiff_min_floor default_vardiff_initial_pct
    default_vardiff_target_secs default_vardiff_retarget_secs default_vardiff_variance_percent.

(** [src/src/config.rs:114-123 FeeSettings::default (part)] *)
Definition FeeSettings_default : FeeSettings :=
  mkFeeSettings default_fee_enabled default_fee_bps None None.

(** [src/src/config.rs:172-180 BanningSettings::default (part)] *)
Definition BanningSettings_default : BanningSettings :=
  mkBanningSettings default_banning_enabled default_banning_check_threshold
    default_banning_invalid_percent.

(** [src/src/config.rs:146-156 PplnsSettings::default (part)] *)
Definition PplnsSettings_default : PplnsSettings :=
  mkPplnsSettings default_pplns_n_multiplier default_pplns_min_payout_sat
    default_pplns_payout_enabled default_pplns_min_confirmations BanningSettings_default.

(** [src/src/config.rs:199-208 SigningSettings::default (part)] *)
Definition SigningSettings_default : SigningSettings :=
  mkSigningSettings default_signing_mode None None default_tx_fee_per_kb.

(** [src/src/config.rs:306-314 BitcoindRpcSettings::default (part)] *)
Definition BitcoindRpcSettings_default : BitcoindRpcSettings :=
  mkBitcoindRpcSettings default_bitcoind_rpc_url "" "".

(** * A parsed file

    What a TOML file says: every setting and every section may be missing. The
    deserializer fills a missing setting with the default its field names, and a
    missing section with the default of its type. *)

Record RawVarDiff := mkRawVarDiff {
  rv_min_floor : option f64; rv_initial_pct : option f64; rv_target_secs : option f64;
  rv_retarget_secs : option f64; rv_variance_percent : option f64 }.
Record RawFee := mkRawFee {
  rf_enabled : option bool; rf_fee_bps : option Z; rf_fee_address : option string;
  rf_fee_script_hex : option string }.
Record RawBanning := mkRawBanning {
  rb_enabled : option bool; rb_check_threshold : option Z; rb_invalid_percent : option f64 }.
Record RawPplns := mkRawPplns {
  rp_n_multiplier : option f64; rp_min_payout_sat : option Z; rp_payout_enabled : option bool;
  rp_min_confirmations : option Z; rp_banning : option RawBanning }.
Record RawSigning := mkRawSigning {
  rg_mode : option string; rg_private_key : option string; rg_webhook_url : option string;
  rg_tx_fee_per_kb : option Z }.
Record RawPool := mkRawPool {
  ro_name : option string; ro_mining_identity : option MiningIdentity; ro_fee : option RawFee;
  ro_pplns : option RawPplns; ro_signing : option RawSigning }.
Record RawRpc := mkRawRpc { rr_url : option string; rr_user : option string; rr_pass : option string }.
Record RawConfig := mkRawConfig {
  rc_stratum_bind : option string; rc_api_bind : option string; rc_nng_rpc_url : option string;
  rc_nng_pub_url : option string; rc_sqlite_path : option string; rc_network : option string;
  rc_api_token : option string; rc_vardiff : option RawVarDiff; rc_pool : option RawPool;
  rc_bitcoind_rpc : option RawRpc; rc_debug : option bool }.

(** [src/src/config.rs:47-65 VarDiffSettings (part)] The [serde] attributes. *)
Definition fill_vardiff (r : RawVarDiff) : VarDiffSettings :=
  mkVarDiffSettings (default default_vardiff_min_floor (rv_min_floor r))
    (default default_vardiff_initial_pct (rv_initial_pct r))
    (default default_vardiff_target_secs (rv_target_secs r))
    (default default_vardiff_retarget_secs (rv_retarget_secs r))
    (default default_vardiff_variance_percent (rv_variance_percent r)).

(** [src/src/config.rs:100-112 FeeSettings (part)] *)
Definition fill_fee (r : RawFee) : FeeSettings :=
  mkFeeSettings (default default_fee_enabled (rf_enabled r))
    (default default_fee_bps (rf_fee_bps r)) (rf_fee_address r) (rf_fee_script_hex r).

(** [src/src/config.rs:159-170 BanningSettings (part)] *)
Definition fill_banning (r : RawBanning) : BanningSettings :=
  mkBanningSettings (default default_banning_enabled (rb_enabled r))
    (default default_banning_check_threshold (rb_check_threshold r))
    (default default_banning_invalid_percent (rb_invalid_percent r)).

(** [src/src/config.rs:126-144 PplnsSettings (part)] *)
Definition fill_pplns (r : RawPplns) : PplnsSettings :=
  mkPplnsSettings (default default_pplns_n_multiplier (rp_n_multiplier r))
    (default default_pplns_min_payout_sat (rp_min_payout_sat r))
    (default default_pplns_payout_enabled (rp_payout_enabled r))
    (default default_pplns_min_confirmations (rp_min_confirmations r))
    (from_option fill_banning BanningSettings_default (rp_banning r)).

(** [src/src/config.rs:183-197 SigningSettings (part)] *)
Definition fill_signing (r : RawSigning) : SigningSettings :=
  mkSigningSettings (default default_signing_mode (rg_mode r)) (rg_private_key r)
    (rg_webhook_url r) (default default_tx_fee_per_kb (rg_tx_fee_per_kb r)).

(** [src/src/config.rs:80-96 PoolSettings (part)] *)
Definition fill_pool (r : RawPool) : PoolSettings :=
  mkPoolSettings (ro_name r) (ro_mining_identity r)
    (from_option fill_fee FeeSettings_default (ro_fee r))
    (from_option fill_pplns PplnsSettings_default (ro_pplns r))
    (from_option fill_signing SigningSettings_default (ro_signing r)).

Definition PoolSettings_default : PoolSettings :=
  mkPoolSettings None None FeeSettings_default PplnsSettings_default SigningSettings_default.

(** [src/src/config.rs:293-304 BitcoindRpcSettings (part)] *)
Definition fill_rpc (r : RawRpc) : BitcoindRpcSettings :=
  mkBitcoindRpcSettings (default default_bitcoind_rpc_url (rr_url r))
    (default ""%string (rr_user r)) (default ""%string (rr_pass r)).

(** [src/src/config.rs:7-43 Config (part)] The two addresses and the URL of the node
    have no default. *)
Definition fill_config (r : RawConfig) : option Config :=
  stratum_bind ← rc_stratum_bind r;
  api_bind ← rc_api_bind r;
  nng_rpc_url ← rc_nng_rpc_url r;
  Some (mkConfig stratum_bind api_bind nng_rpc_url
    (default default_nng_pub_url (rc_nng_pub_url r))
    (default ""%string (rc_sqlite_path r)) (default ""%string (rc_network r))
    (default default_api_token (rc_api_token r))
    (from_option fill_vardiff VarDiffSettings_default (rc_vardiff r))
    (from_option fill_pool PoolSettings_default (rc_pool r))
    (from_option fill_rpc BitcoindRpcSettings_default (rc_bitcoind_rpc r))
    (default false (rc_debug r))).

(** [src/src/config.rs:280-290 VarDiffConfig::from (part)] *)
Definition VarDiffConfig_from (s : VarDiffSettings) : VarDiffConfig :=
  mkVarDiffConfig (vs_min_floor s) (vs_initial_pct s) (vs_target_secs s) (vs_retarget_secs s)
    (vs_variance_percent s).

(** * Overrides *)

Definition with_nng_rpc_url (url : string) (c : Config) : Config :=
  mkConfig (c_stratum_bind c) (c_api_bind c) url (c_nng_pub_url c) (c_sqlite_path c) (c_network c)
    (c_api_token c) (c_vardiff c) (c_pool c) (c_bitcoind_rpc c) (c_debug c).
Definition with_nng_pub_url (url : string) (c : Config) : Config :=
  mkConfig (c_stratum_bind c) (c_api_bind c) (c_nng_rpc_url c) url (c_sqlite_path c) (c_network c)
    (c_api_token c) (c_vardiff c) (c_pool c) (c_bitcoind_rpc c) (c_debug c).
Definition with_sqlite_path (path : string) (c : Config) : Config :=
  mkConfig (c_stratum_bind c) (c_api_bind c) (c_nng_rpc_url c) (c_nng_pub_url c) path (c_network c)
    (c_api_token c) (c_vardiff c) (c_pool c) (c_bitcoind_rpc c) (c_debug c).
Definition with_network (network : string) (c : Config) : Config :=
  mkConfig (c_stratum_bind c) (c_api_bind c) (c_nng_rpc_url c) (c_nng_pub_url c) (c_sqlite_path c)
    network (c_api_token c) (c_vardiff c) (c_pool c) (c_bitcoind_rpc c) (c_debug c).
Definition with_api_token (token : string) (c : Config) : Config :=
  mkConfig (c_stratum_bind c) (c_api_bind c) (c_nng_rpc_url c) (c_nng_pub_url c) (c_sqlite_path c)
    (c_network c) token (c_vardiff c) (c_pool c) (c_bitcoind_rpc c) (c_debug c).
Definition with_pool (f : PoolSettings → PoolSettings) (c : Config) : Config :=
  mkConfig (c_stratum_bind c) (c_api_bind c) (c_nng_rpc_url c) (c_nng_pub_url c) (c_sqlite_path c)
    (c_network c) (c_api_token c) (c_vardiff c) (f (c_pool c)) (c_bitcoind_rpc c) (c_debug c).
Definition with_rpc (f : BitcoindRpcSettings → BitcoindRpcSettings) (c : Config) : Config :=
  mkConfig (c_stratum_bind c) (c_api_bind c) (c_nng_rpc_url c) (c_nng_pub_url c) (c_sqlite_path c)
    (c_network c) (c_api_token c) (c_vardiff c) (c_pool c) (f (c_bitcoind_rpc c)) (c_debug c).
Definition with_debug (c : Config) : Config :=
  mkConfig (c_stratum_bind c) (c_api_bind c) (c_nng_rpc_url c) (c_nng_pub_url c) (c_sqlite_path c)
    (c_network c) (c_api_token c) (c_vardiff c) (c_pool c) (c_bitcoind_rpc c) true.

Definition with_identity (f : MiningIdentity → MiningIdentity) : Config → Config :=
  with_pool (λ p, mkPoolSettings (po_name p)
    (Some (f (default (mkMiningIdentity None None None) (po_mining_identity p))))
    (po_fee p) (po_pplns p) (po_signing p)).
Definition with_fee (f : FeeSettings → FeeSettings) : Config → Config :=
  with_pool (λ p, mkPoolSettings (po_name p) (po_mining_identity p) (f (po_fee p)) (po_pplns p)
    (po_signing p)).
Definition with_pplns (f : PplnsSettings → PplnsSettings) : Config → Config :=
  with_pool (λ p, mkPoolSettings (po_name p) (po_mining_identity p) (po_fee p) (f (po_pplns p))
    (po_signing p)).
Definition with_signing (f : SigningSettings → SigningSettings) : Config → Config :=
  with_pool (λ p, mkPoolSettings (po_name p) (po_mining_identity p) (po_fee p) (po_pplns p)
    (f (po_signing p))).

Definition env_override (env : string → option string) (key : string)
    (set : string → Config → Config) (c : Config) : Config :=
  match env key with Some v => set v c | None => c end.

(** A value that does not parse is ignored. *)
Definition parsed {A} (parse : string → option A) (set : A → Config → Config) (v : string)
    (c : Config) : Config :=
  match parse v with Some a => set a c | None => c end.

(** [src/src/config.rs:394-421 Config::load (part)] *)
Definition connection_overrides (env : string → option string) (c : Config) : Config :=
  let c := env_override env "NNG_RPC_URL" with_nng_rpc_url c in
  let c := env_override env "NNG_PUB_URL" with_nng_pub_url c in
  let c := env_override env "STRATUM_API_TOKEN" with_api_token c in
  let c := env_override env "DATABASE_PATH" with_sqlite_path c in
  let c := env_override env "BITCOIND_RPC_URL" (λ url, with_rpc (λ r,
             mkBitcoindRpcSettings url (rpc_user r) (rpc_pass r))) c in
  let c := env_override env "BITCOIND_RPC_USER" (λ user, with_rpc (λ r,
             mkBitcoindRpcSettings (rpc_url r) user (rpc_pass r))) c in
  env_override env "BITCOIND_RPC_PASS" (λ pass, with_rpc (λ r,
             mkBitcoindRpcSettings (rpc_url r) (rpc_user r) pass)) c.

(** [src/src/config.rs:423-483 Config::load (part)] *)
Definition pool_overrides (env : string → option string) (c : Config) : Config :=
  let c := env_override env "POOL_PAYOUT_ADDRESS" (λ addr, with_identity (λ m,
             mkMiningIdentity (Some addr) (mi_payout_script_hex m) (mi_coinbase_identity m))) c in
  let c := env_override env "POOL_COINBASE_IDENTITY" (λ identity, with_identity (λ m,
             mkMiningIdentity (mi_payout_address m) (mi_payout_script_hex m) (Some identity))) c in
  let c := env_override env "POOL_FEE_ENABLED" (λ val, with_fee (λ f,
             mkFeeSettings (String.eqb val "true" || String.eqb val "1") (fs_fee_bps f)
               (fs_fee_address f) (fs_fee_script_hex f))) c in
  let c := env_override env "POOL_FEE_BPS" (parsed parse_u32 (λ bps, with_fee (λ f,
             mkFeeSettings (fs_enabled f) bps (fs_fee_address f) (fs_fee_script_hex f)))) c in
  let c := env_override env "POOL_FEE_ADDRESS" (λ addr, with_fee (λ f,
             mkFeeSettings (fs_enabled f) (fs_fee_bps f) (Some addr) (fs_fee_script_hex f))) c in
  let c := env_override env "POOL_PPLNS_N_MULTIPLIER" (parsed parse_f64 (λ m, with_pplns (λ p,
             mkPplnsSettings m (pl_min_payout_sat p) (pl_payout_enabled p)
               (pl_min_confirmations p) (pl_banning p)))) c in
  let c := env_override env "POOL_PPLNS_MIN_PAYOUT_SAT" (parsed parse_i64 (λ sat, with_pplns (λ p,
             mkPplnsSettings (pl_n_multiplier p) sat (pl_payout_enabled p)
               (pl_min_confirmations p) (pl_banning p)))) c in
  let c := env_override env "POOL_SIGNING_MODE" (λ mode, with_signing (λ s,
             mkSigningSettings mode (sg_private_key s) (sg_webhook_url s) (sg_tx_fee_per_kb s))) c in
  let c := env_override env "POOL_SIGNING_PRIVATE_KEY" (λ key, with_signing (λ s,
             mkSigningSettings (sg_mode s) (Some key) (sg_webhook_url s) (sg_tx_fee_per_kb s))) c in
  env_override env "DEBUG" (λ val c,
    if String.eqb val "true" || String.eqb val "1" || String.eqb val "yes" then with_debug c
    else c) c.

Class ConfigLib `{TxLib} := {
  script_bytecode : Script → list byte;
  script_is_opreturn : Script → bool;
  (** [Url::parse(s).ok().and_then(|u| u.port())] *)
  url_port : string → option Z;
}.

Section config.
Context {hashing : Hashing} {txlib : TxLib} {clib : ConfigLib}.

(** [src/src/config.rs:526-548 detect_network_from_rpc_port] *)
Definition detect_network_from_rpc_port (rpc_url : string) : result string :=
  let port := match url_port rpc_url with
              | Some p => Some p
              | None => parse_u16 (from_option snd rpc_url (rsplit_at ":" rpc_url))
              end in
  match port with
  | Some 10604 => Ok "mainnet"%string
  | Some 11604 => Ok "testnet"%string
  | Some 12604 => Ok "regtest"%string
  | _ => Err (Anyhow "unknown network for RPC port")
  end.

(** [src/src/config.rs:553-555 default_db_path_for_network] *)
Definition default_db_path_for_network (network : string) : string :=
  ("./dbs/" ++ network ++ "/stratum-accounting.sqlite3")%string.

(** [src/src/config.rs:384-516 Config::load] The parser of the file at the configured path and
    the creation of the parent directory are parameters. *)
Definition load (env : string → option string) (read : string → result RawConfig)
    (create_parent : string → result unit) : result Config :=
  let config_path := default "config.toml"%string (env "CONFIG_PATH"%string) in
  raw ← read config_path;
  cfg ← ok_or (Anyhow "failed to parse config") (fill_config raw);
  let cfg := pool_overrides env (connection_overrides env cfg) in
  network ← (if String.eqb (c_network cfg) ""
             then detect_network_from_rpc_port (rpc_url (c_bitcoind_rpc cfg))
             else Ok (c_network cfg));
  let cfg := with_network network cfg in
  let should_override_db_path :=
    str_contains "stratum-accounting" (c_sqlite_path cfg) || String.eqb (c_sqlite_path cfg) "" in
  let cfg := if should_override_db_path
             then with_sqlite_path (default_db_path_for_network (c_network cfg)) cfg else cfg in
  create_parent (c_sqlite_path cfg) ;;
  if negb (existsb (String.eqb (c_network cfg)) ["mainnet"; "testnet"; "regtest"]%string)
  then Err (Anyhow "network must be one of: mainnet, testnet, regtest")
  else Ok cfg.

(** [bytes.first() == Some(&0x6a)] *)
Definition opreturn_head (bytes : list byte) : bool :=
  match bytes with b :: _ => Byte.eqb b x6a | [] => false end.

(** [src/src/config.rs:236-277 MiningIdentity::resolve] *)
Definition resolve (self : MiningIdentity) : result (list byte * option (list byte)) :=
  coinbase_script ←
    match mi_payout_address self, mi_payout_script_hex self with
    | Some addr, None =>
        script ← ok_or (Anyhow "invalid payout_address") (lotus_address_script addr);
        if script_is_opreturn script
        then Err (Anyhow "payout_address resolves to OP_RETURN — block rewards would be BURNED")
        else Ok (script_bytecode script)
    | None, Some hex =>
        bytes ← ok_or (Anyhow "invalid payout_script_hex") (hex_decode hex);
        if opreturn_head bytes
        then Err (Anyhow "payout_script_hex starts with OP_RETURN — block rewards would be BURNED")
        else Ok bytes
    | Some _, Some _ => Err (Anyhow "set only one of payout_address or payout_script_hex, not both")
    | None, None => Err (Anyhow ("pool.mining_identity.payout_address must be set (or " ++
        "payout_script_hex). Without it lotusd creates OP_RETURN outputs and block rewards are " ++
        "BURNED. See config.example.toml for configuration.")%string)
    end;
  let coinbase_identity :=
    match mi_coinbase_identity self with
    | Some s => if String.eqb s "" then None else Some (list_byte_of_string s)
    | None => None
    end in
  Ok (coinbase_script, coinbase_identity).

(** * Properties *)

Definition known_network (n : string) : bool :=
  existsb (String.eqb n) ["mainnet"; "testnet"; "regtest"]%string.

(** A path that the configuration does not control. *)
Definition derived_path (p : string) : bool :=
  str_contains "stratum-accounting" p || String.eqb p "".

Lemma env_override_keeps {A} (f : Config → A) env key set c :
  (∀ v c, f (set v c) = f c) → f (env_override env key set c) = f c.
Proof. intros H. unfold env_override. destruct (env key); [apply H|done]. Qed.

Lemma pool_overrides_rest env c :
  let c' := pool_overrides env c in
  c_network c' = c_network c ∧ c_sqlite_path c' = c_sqlite_path c ∧
  c_api_token c' = c_api_token c ∧ c_bitcoind_rpc c' = c_bitcoind_rpc c.
Proof.
  set (f := λ c, (c_network c, c_sqlite_path c, c_api_token c, c_bitcoind_rpc c)).
  assert (f (pool_overrides env c) = f c) as H; [|by injection H].
  unfold pool_overrides.
  repeat (rewrite (env_override_keeps f);
    [|intros v c'; first [reflexivity|unfold parsed; case_match; reflexivity|case_match; reflexivity]]).
  done.
Qed.

Lemma connection_overrides_spec env c :
  let c' := connection_overrides env c in
  c_network c' = c_network c ∧
  c_sqlite_path c' = default (c_sqlite_path c) (env "DATABASE_PATH"%string) ∧
  c_api_token c' = default (c_api_token c) (env "STRATUM_API_TOKEN"%string) ∧
  rpc_url (c_bitcoind_rpc c') = default (rpc_url (c_bitcoind_rpc c)) (env "BITCOIND_RPC_URL"%string).
Proof.
  assert (∀ k set (f : Config → string), (∀ v c, f (set v c) = f c) → ∀ c, f (env_override env k set c) = f c)
    as Hk by (intros; by apply env_override_keeps).
  intros c'. unfold c', connection_overrides. split_and!.
  - by rewrite !(Hk _ _ c_network).
  - rewrite !(Hk _ _ c_sqlite_path) by done. unfold env_override at 1.
    destruct (env "DATABASE_PATH"%string); [done|]. by rewrite !(Hk _ _ c_sqlite_path).
  - rewrite !(Hk _ _ c_api_token) by done. unfold env_override at 1.
    destruct (env "STRATUM_API_TOKEN"%string); [done|]. by rewrite !(Hk _ _ c_api_token).
  - rewrite !(Hk _ _ (λ c, rpc_url (c_bitcoind_rpc c))) by done. unfold env_override at 1.
    destruct (env "BITCOIND_RPC_URL"%string); [done|].
    by rewrite !(Hk _ _ (λ c, rpc_url (c_bitcoind_rpc c))).
Qed.

(** C37: when the configuration loads, the network is one of the three known
    ones, as the file says or else as the port of the node's URL, of the environment or
    the file, says: no environment variable names it; the API token is that of the environment, of the file, or the default, in this order; and the
    database is at the path of the environment or the file, except that an empty path
    and every path that contains the name of the accounting database are replaced by
    the path that belongs to the network. *)
Theorem load_spec env read create_parent cfg :
  load env read create_parent = Ok cfg →
  ∃ raw, read (default "config.toml"%string (env "CONFIG_PATH"%string)) = Ok raw ∧
  let file_url := rpc_url (from_option fill_rpc BitcoindRpcSettings_default (rc_bitcoind_rpc raw)) in
  let path := default (default ""%string (rc_sqlite_path raw)) (env "DATABASE_PATH"%string) in
  known_network (c_network cfg) = true ∧
  (if decide (default ""%string (rc_network raw) = ""%string)
   then detect_network_from_rpc_port (default file_url (env "BITCOIND_RPC_URL"%string)) =
          Ok (c_network cfg)
   else c_network cfg = default ""%string (rc_network raw)) ∧
  c_sqlite_path cfg =
    (if derived_path path then default_db_path_for_network (c_network cfg) else path) ∧
  create_parent (c_sqlite_path cfg) = Ok tt ∧
  c_api_token cfg =
    default (default default_api_token (rc_api_token raw)) (env "STRATUM_API_TOKEN"%string).
Proof.
  unfold load, mbind, result_bind. destruct (read _) as [raw|e|] eqn:Er; [|done..].
  destruct (fill_config raw) as [c0|] eqn:Ef; [|done]. cbn [ok_or].
  destruct (connection_overrides_spec env c0) as (N1 & P1 & T1 & U1).
  destruct (pool_overrides_rest env (connection_overrides env c0)) as (N2 & P2 & T2 & U2).
  set (c2 := pool_overrides env (connection_overrides env c0)) in *. clearbody c2.
  rewrite N1 in N2. rewrite P1 in P2. rewrite T1 in T2. rewrite <-U2 in U1. clear U2 N1 P1 T1.
  assert (c_network c0 = default ""%string (rc_network raw) ∧
    c_sqlite_path c0 = default ""%string (rc_sqlite_path raw) ∧
    c_api_token c0 = default default_api_token (rc_api_token raw) ∧
    c_bitcoind_rpc c0 = from_option fill_rpc BitcoindRpcSettings_default (rc_bitcoind_rpc raw))
    as (N0 & P0 & T0 & U0).
  { unfold fill_config, mbind, option_bind in Ef. repeat case_match; simplify_eq/=; auto. }
  rewrite N0 in N2. rewrite P0 in P2. rewrite T0 in T2. rewrite U0 in U1. clear N0 P0 T0 U0.
  assert (∀ n, (create_parent (c_sqlite_path (if derived_path (c_sqlite_path c2)
      then with_sqlite_path (default_db_path_for_network n) (with_network n c2)
      else with_network n c2)) ;;
    (if negb (known_network n) then Err (Anyhow "network must be one of: mainnet, testnet, regtest")
     else Ok (if derived_path (c_sqlite_path c2)
       then with_sqlite_path (default_db_path_for_network n) (with_network n c2)
       else with_network n c2))) = Ok cfg →
    known_network n = true ∧ c_network cfg = n ∧
    c_sqlite_path cfg = (if derived_path (c_sqlite_path c2) then default_db_path_for_network n
                         else c_sqlite_path c2) ∧
    create_parent (c_sqlite_path cfg) = Ok tt ∧ c_api_token cfg = c_api_token c2) as Hend.
  { intros n. unfold mbind, result_bind.
    destruct (create_parent _) as [[]|e|] eqn:Ep; [|done..]. destruct (known_network n); [|done].
    cbn [negb]. intros [= <-]. by destruct (derived_path (c_sqlite_path c2)). }
  intros H. exists raw. split; [done|].
  assert (∃ n, (if String.eqb (c_network c2) "" then detect_network_from_rpc_port
      (rpc_url (c_bitcoind_rpc c2)) else Ok (c_network c2)) = Ok n ∧
    known_network n = true ∧ c_network cfg = n ∧
    c_sqlite_path cfg = (if derived_path (c_sqlite_path c2) then default_db_path_for_network n
                         else c_sqlite_path c2) ∧
    create_parent (c_sqlite_path cfg) = Ok tt ∧ c_api_token cfg = c_api_token c2)
    as (n & Hn & Hk & <- & Hp & Hc & Ht).
  { destruct (if String.eqb _ _ then _ else _) as [n|e|]; [|done..]. exists n. split; [done|].
    apply Hend. revert H. unfold known_network, derived_path, mbind, result_bind.
    cbn [c_network with_network c_sqlite_path].
    by destruct (str_contains _ _ || String.eqb _ _). }
  rewrite P2 in Hp. rewrite T2 in Ht. cbn zeta. split_and!; [done| |done|done|done].
  revert Hn. rewrite N2, U1. case_decide as E; [by rewrite E|].
  rewrite (proj2 (String.eqb_neq _ _) E). by intros [= ->].
Qed.

(** Networks never share a derived database. *)
Lemma default_path_inj n m :
  default_db_path_for_network n = default_db_path_for_network m → n = m.
Proof.
  unfold default_db_path_for_network. intros H%string_app_inv_head.
  revert m H. induction n as [|a n IH]; intros [|b m] H; try done.
  - exfalso. simpl in H. injection H as _ H. apply (f_equal String.length) in H. simpl in H.
    rewrite string_length_app in H. simpl in H. lia.
  - exfalso. simpl in H. injection H as _ H. apply (f_equal String.length) in H. simpl in H.
    rewrite string_length_app in H. simpl in H. lia.
  - simpl in H. injection H as -> H. f_equal. by apply IH.
Qed.

Lemma opreturn_head_false bytes : opreturn_head bytes = false ↔ head bytes ≠ Some x6a.
Proof.
  destruct bytes as [|b bs]; [done|]. simpl. split.
  - intros Eb [= ->]. by vm_compute in Eb.
  - intros Hb. destruct (Byte.eqb b x6a) eqn:Eb; [|done]. apply Byte.byte_dec_bl in Eb. by subst.
Qed.

(** A mining identity resolves exactly when it names one destination, an
    address or a script but not both, that is well formed and does not burn the
    reward; the coinbase script is that of the destination, and the identity tag is
    the text of the setting, none when it is empty. *)
Theorem resolve_spec self script identity :
  resolve self = Ok (script, identity) ↔
  ((∃ addr s, mi_payout_address self = Some addr ∧ mi_payout_script_hex self = None ∧
      lotus_address_script addr = Some s ∧ script_is_opreturn s = false ∧
      script = script_bytecode s) ∨
   (∃ hex, mi_payout_address self = None ∧ mi_payout_script_hex self = Some hex ∧
      hex_decode hex = Some script ∧ head script ≠ Some x6a)) ∧
  identity = (if decide (mi_coinbase_identity self = Some ""%string) then None
              else list_byte_of_string <$> mi_coinbase_identity self).
Proof.
  set (ident := if decide (mi_coinbase_identity self = Some ""%string) then None
              else list_byte_of_string <$> mi_coinbase_identity self).
  assert (match mi_coinbase_identity self with
    | Some s => if String.eqb s "" then None else Some (list_byte_of_string s)
    | None => None end = ident) as Hi.
  { unfold ident. destruct (mi_coinbase_identity self) as [s|]; [|by case_decide].
    destruct (String.eqb_spec s "") as [->|]; case_decide; simpl; congruence. }
  unfold resolve. rewrite Hi. clear Hi. clearbody ident. unfold mbind, result_bind.
  destruct (mi_payout_address self) as [addr|], (mi_payout_script_hex self) as [hex|];
    try (split; [done|]; by intros [[(? & ? & ? & ? & _)|(? & ? & ? & _)] _]); split.
  - destruct (lotus_address_script addr) as [s|] eqn:Es; cbn [ok_or]; [|done].
    destruct (script_is_opreturn s) eqn:Eo; [done|]. intros [= <- <-]. split; [left|done].
    exists addr, s. auto.
  - intros [[(a & s & [= <-] & _ & Hs & Ho & ->)|(? & ? & _)] ->]; [|done].
    rewrite Hs. cbn [ok_or]. by rewrite Ho.
  - destruct (hex_decode hex) as [bs|] eqn:Eh; cbn [ok_or]; [|done].
    destruct (opreturn_head bs) eqn:Eo; [done|]. intros [= <- <-]. split; [right|done].
    exists hex. split_and!; [done..|]. by apply opreturn_head_false.
  - intros [[(? & ? & ? & _)|(h & _ & [= <-] & -> & Hh)] ->]; [done|]. cbn [ok_or].
    apply opreturn_head_false in Hh. by rewrite Hh.
Qed.

(** An address from the environment does not replace a script from the file: the
    two together are refused. *)
Lemma address_override_conflict env c m :
  env "POOL_PAYOUT_ADDRESS"%string ≠ None →
  po_mining_identity (c_pool c) = Some m → mi_payout_script_hex m ≠ None →
  ∃ m', po_mining_identity (c_pool (pool_overrides env c)) = Some m' ∧ is_ok (resolve m') = false.
Proof.
  intros Ha Hm Hs. destruct (env "POOL_PAYOUT_ADDRESS"%string) as [addr|] eqn:Ea; [|done].
  assert (∃ i, po_mining_identity (c_pool (pool_overrides env c)) =
    Some (mkMiningIdentity (Some addr) (mi_payout_script_hex m) i)) as [i Hi].
  { unfold pool_overrides.
    rewrite !(env_override_keeps (λ c, po_mining_identity (c_pool c))) by
      (intros v c'; first [reflexivity|unfold parsed; case_match; reflexivity|case_match; reflexivity]).
    unfold env_override. rewrite Ea. unfold with_identity, with_pool.
    destruct (env "POOL_COINBASE_IDENTITY"%string); cbn [c_pool po_mining_identity default]; rewrite Hm; eauto. }
  eexists. split; [exact Hi|]. unfold resolve. simpl. by destruct (mi_payout_script_hex m).
Qed.
End config.

(** * Examples *)

#[local] Instance example_config_hashing : Hashing := {|
  hex_decode s := Some (list_byte_of_string s); target_to_difficulty _ := None |}.
#[local] Instance example_txlib : TxLib := {|
  Txid := string; Script := list byte; txid_from_hex_be s := Some s;
  lotus_address_script s := Some (list_byte_of_string s);
  tx_sign _ _ _ := Ok []; tx_hex bs := string_of_list_byte bs |}.
#[local] Instance example_configlib : ConfigLib := {|
  script_bytecode s := s; script_is_opreturn s := opreturn_head s; url_port _ := None |}.

Definition example_raw : RawConfig :=
  mkRawConfig (Some "0.0.0.0:3334"%string) (Some "127.0.0.1:18080"%string)
    (Some "ipc:///tmp/lotusd.rpc"%string) None (Some "./my/stratum-accounting.db"%string) None None
    None None None None.

Definition example_env_vars (key : string) : option string :=
  if String.eqb key "STRATUM_API_TOKEN" then Some "secret"%string else None.

Definition example_config : Config :=
  match load example_env_vars (λ _, Ok example_raw) (λ _, Ok tt) with
  | Ok c => c
  | _ => mkConfig "" "" "" "" "" "" "" VarDiffSettings_default PoolSettings_default
           BitcoindRpcSettings_default false
  end.

Lemma load_spec_witness :
  load example_env_vars (λ _, Ok example_raw) (λ _, Ok tt) = Ok example_config ∧
  known_network (c_network example_config) = true ∧
  c_sqlite_path example_config = "./dbs/mainnet/stratum-accounting.sqlite3"%string ∧
  c_api_token example_config = "secret"%string.
Proof.
  assert (load example_env_vars (λ _, Ok example_raw) (λ _, Ok tt) = Ok example_config) as H
    by (vm_compute; reflexivity).
  split; [exact H|].
  destruct (load_spec _ _ _ _ H) as (raw & Hr & Hk & _ & Hp & _ & Ht).
  injection Hr as <-. split; [exact Hk|]. split; [rewrite Hp; vm_compute; reflexivity|].
  rewrite Ht. vm_compute. reflexivity.
Defined.
