(* ===== verification/Startup.v ===== *)
(** [main.rs] and [node_integration/nng/rpc_client.rs]: the client for templates,
    the reconciliation with the chain before the pool serves, the blocks that
    matured while it was down, and the choice of the signer. The tasks that [main]
    spawns are the other components. *)
From Stdlib Require Import ZArith Lia String Init.Byte.
From stdpp Require Import base option list numbers strings sets gmap.
From S2P Require Import Prelude Text Float64 Json Db VarDiff FoundBlockRepository PayoutRepository Frames AccountingService PayoutService PayoutSubmission AccountingSystem Job JsonRpc Signer PayoutHandler Config.
#[local] Open Scope Z_scope.

(** * The template client *)

(** The library's connection: opening it, and asking it for a template with the
    coinbase script and tag, the sizes of the two extranonces, and whether to
    include the transactions. *)
Class NngLib := {
  RpcInterface : Type;
  NngTemplate : Type;
  nng_open : string → result RpcInterface;
  nng_get_mining_template : RpcInterface → option (list byte) → option (list byte) → Z → Z → bool →
    result NngTemplate;
}.

Section client.
Context {nng : NngLib}.

(** [src/src/node_integration/nng/rpc_client.rs:10-19 NngRpcClient] *)
Record NngRpcClient := mkNngRpcClient {
  nc_interface : option RpcInterface;
  nc_rpc_url : string;
  nc_coinbase_script : option (list byte);
  nc_coinbase_identity : option (list byte);
}.

(** [src/src/node_integration/nng/rpc_client.rs:28-39 NngRpcClient::new] *)
Definition NngRpcClient_new (rpc_url : string) (coinbase_script coinbase_identity : option (list byte)) :
    NngRpcClient :=
  mkNngRpcClient None rpc_url coinbase_script coinbase_identity.

(** [src/src/node_integration/nng/rpc_client.rs:42-50 NngRpcClient::connect] *)
Definition connect : M NngRpcClient unit := λ self,
  match nng_open (nc_rpc_url self) with
  | Ok interface =>
      (Ok tt, mkNngRpcClient (Some interface) (nc_rpc_url self) (nc_coinbase_script self)
                (nc_coinbase_identity self))
  | Err _ => (Err (Anyhow "failed to open NNG RPC connection"), self)
  | Panic => (Panic, self)
  end.

(** [src/src/node_integration/nng/rpc_client.rs:53-76 NngRpcClient::get_mining_template] *)
Definition get_mining_template (self : NngRpcClient) : result NngTemplate :=
  interface ← ok_or (Anyhow "NNG RPC client not connected. Call connect() first.")
                (nc_interface self);
  match nng_get_mining_template interface (nc_coinbase_script self) (nc_coinbase_identity self)
          EXTRANONCE_1_SIZE EXTRANONCE_2_SIZE true with
  | Ok template => Ok template
  | Err _ => Err (Anyhow "failed to fetch mining template")
  | Panic => Panic
  end.

(** [src/src/node_integration/nng/rpc_client.rs:79-82 NngRpcClient::is_connected] *)
Definition is_connected (self : NngRpcClient) : bool := bool_decide (is_Some (nc_interface self)).

(** [src/src/node_integration/nng/rpc_client.rs:85-93 NngRpcClient::disconnect] *)
Definition disconnect : M NngRpcClient unit := λ self,
  (Ok tt, mkNngRpcClient None (nc_rpc_url self) (nc_coinbase_script self)
            (nc_coinbase_identity self)).

(** [src/src/main.rs:64-89 main (part)] The client that [main] makes: the mining identity is
    resolved first, so that a wrong one stops the program before it asks for work. *)
Definition main_client {hashing : Hashing} {txlib : TxLib} {clib : ConfigLib} (config : Config) :
    result NngRpcClient :=
  mining_id ← ok_or (Anyhow "[pool.mining_identity] section not found in config.")
                (po_mining_identity (c_pool config));
  id ← resolve mining_id;
  Ok (NngRpcClient_new (c_nng_rpc_url config) (Some id.1) id.2).
End client.

(** * Reconciliation at startup *)

Section startup.
Context {so : SqlOrder} {hashing : Hashing}.

(** [src/src/main.rs:197-220 main (part)] *)
Definition reconcile_blocks_at_startup (node : HttpNode) : DbM unit :=
  match getblockcount with
  | Ok tip_height => mignore (reconcile_found_blocks tip_height getblockhash)
  | Err _ => mret tt
  | Panic => mpanic
  end.

(** [src/src/main.rs:227-248 main (part)] The confirmations of a transaction, none when the
    node does not know it. *)
Definition tx_confirmations (node : HttpNode) (txid : string) : result (option Z) :=
  match get_raw_transaction txid with
  | Ok tx => Ok (Some (default 0 (num_as_i64 (index tx "confirmations"))))
  | Err e =>
      let err_str := error_text e in
      if str_contains "No such mempool" err_str || str_contains "Invalid txid" err_str
      then Ok None else Err e
  | Panic => Panic
  end.

(** [src/src/main.rs:222-268 main (part)] *)
Definition reconcile_payouts_at_startup (node : HttpNode) : DbM unit :=
  mignore (reconcile_submitted_payouts (tx_confirmations node)).

(** [src/src/main.rs:318-350 main (part)] The events for the payout handler. *)
Definition check_maturation_at_startup (node : HttpNode) (min_confirmations : Z) :
    DbM (list PayoutEvent) :=
  match getblockcount with
  | Ok tip_height =>
      r ← mtry (check_maturation tip_height min_confirmations);
      match r with
      | inl matured => mret (map (λ b, BlockMatured (fb_block_hash b)) matured)
      | inr _ => mret []
      end
  | Err _ => mret []
  | Panic => mpanic
  end.

(** [src/src/main.rs:197-268 main (part)] The node may answer differently each time it is asked. *)
Definition startup (node1 node2 node3 : HttpNode) (min_confirmations : Z) : DbM (list PayoutEvent) :=
  reconcile_blocks_at_startup node1 ;;
  reconcile_payouts_at_startup node2 ;;
  check_maturation_at_startup node3 min_confirmations.

(** [src/src/main.rs:157-162 main (part)] The settings that the API and the handler pay by. *)
Definition payout_params (config : Config) : PayoutParams :=
  mkPayoutParams (fs_fee_bps (po_fee (c_pool config))) (fs_fee_address (po_fee (c_pool config)))
    (pl_min_payout_sat (po_pplns (c_pool config))) (pl_n_multiplier (po_pplns (c_pool config))).

Inductive SignerChoice : Type :=
  | InternalSigner (key : string) (tx_fee_per_kb : Z)
  | ExternalSigner (webhook_url : string).

(** [src/src/main.rs:352-375 main (part)] Reading a key is library code. *)
Definition select_signer (read_key : string → result unit) (config : Config) :
    result (option SignerChoice) :=
  let signing := po_signing (c_pool config) in
  if pl_payout_enabled (po_pplns (c_pool config)) then
    if String.eqb (sg_mode signing) "internal" then
      key ← ok_or (Anyhow "pool.signing.private_key required for internal signing mode")
              (sg_private_key signing);
      read_key key ;;
      Ok (Some (InternalSigner key (sg_tx_fee_per_kb signing)))
    else if String.eqb (sg_mode signing) "external" then
      url ← ok_or (Anyhow "pool.signing.webhook_url required for external signing mode")
              (sg_webhook_url signing);
      Ok (Some (ExternalSigner url))
    else Err (Anyhow ("unknown signing mode '" ++ sg_mode signing ++ "'")%string)
  else Ok None.

(** * Properties *)

#[local] Hint Resolve read_steps : keeps.
#[local] Hint Extern 4 (Keeps (rtc step) _) =>
  apply call_steps; intros; first [apply step_reconcile_blocks|apply step_reconcile_payouts|
    apply step_mature] : keeps.

Lemma startup_steps n1 n2 n3 m : Keeps (rtc step) (startup n1 n2 n3 m).
Proof.
  unfold startup, reconcile_blocks_at_startup, reconcile_payouts_at_startup,
    check_maturation_at_startup. keeps.
Qed.

(** ** Blocks do not change their status to [s] *)

Definition no_new (s : string) (d d' : Db) : Prop :=
  ∀ b', b' ∈ rows (found_blocks d') → fb_status b' = s →
  ∃ b, b ∈ rows (found_blocks d) ∧ fb_block_hash b = fb_block_hash b' ∧ fb_status b = s.

#[local] Instance no_new_preorder s : PreOrder (no_new s).
Proof.
  unfold no_new. split.
  - intros d b Hb Hs. eauto.
  - intros d1 d2 d3 H1 H2 b3 Hb3 Hs3. destruct (H2 b3 Hb3 Hs3) as (b2 & Hb2 & E2 & Hs2).
    destruct (H1 b2 Hb2 Hs2) as (b1 & Hb1 & E1 & Hs1). exists b1. split_and!; [done|congruence|done].
Qed.

Lemma Same_no_new s d d' : Same found_blocks d d' → no_new s d d'.
Proof. unfold Same, no_new. intros ->. eauto. Qed.

Lemma update_blocks_no_new s p f :
  (∀ d b, fb_block_hash (f d b) = fb_block_hash b ∧ fb_status (f d b) ≠ s) →
  Keeps (no_new s) (update_blocks p f).
Proof.
  intros Hf d b' Hb' Hs. unfold update_blocks, stmt in Hb'. simpl in Hb'.
  apply elem_of_map in Hb' as (b & -> & Hb). destruct (p b); [|by exists b].
  destruct (Hf d b) as [_ Hn]. done.
Qed.

Section no_new.
Context (s : string) (Ho : s ≠ "orphaned"%string) (Hp : s ≠ "paid"%string).

#[local] Hint Extern 5 (Keeps (no_new s) _) =>
  apply (Keeps_impl (Same found_blocks)); [exact (Same_no_new s)|solve [eauto 3 with keeps]] : keeps.

Lemma mark_orphaned_no_new h r : Keeps (no_new s) (mark_orphaned h r).
Proof. apply update_blocks_no_new. intros d b. split; [done|]. simpl. congruence. Qed.
Lemma paid_no_new i : Keeps (no_new s) (update_status i "paid").
Proof. apply update_blocks_no_new. intros d b. split; [done|]. simpl. congruence. Qed.
#[local] Hint Resolve mark_orphaned_no_new paid_no_new : keeps.

Lemma svc_close_round_no_new i e st : Keeps (no_new s) (svc_close_round i e st).
Proof. unfold svc_close_round. keeps. Qed.
#[local] Hint Resolve svc_close_round_no_new : keeps.

Lemma reconcile_blocks_no_new node : Keeps (no_new s) (reconcile_blocks_at_startup node).
Proof.
  unfold reconcile_blocks_at_startup, reconcile_found_blocks, reconcile_block. keeps.
Qed.

Lemma reconcile_payouts_no_new node : Keeps (no_new s) (reconcile_payouts_at_startup node).
Proof.
  unfold reconcile_payouts_at_startup, reconcile_submitted_payouts.
  assert (∀ c l, Keeps (no_new s) (reconcile_submitted_loop c l)) as Hl.
  { intros c l. induction l as [|b l IH]; simpl; [keeps|]. unfold confirm_batch. keeps. }
  keeps.
Qed.
End no_new.

(** ** Startup always gets to its end *)

Lemma getblockcount_no_panic (node : HttpNode) : getblockcount ≠ Panic.
Proof.
  unfold getblockcount, mbind, result_bind. pose proof (call_no_panic "getblockcount" []) as H.
  destruct (call "getblockcount" []) as [v|e|]; [|done..]. by destruct (num_as_i64 v).
Qed.

Lemma getblockhash_no_panic (node : HttpNode) h : getblockhash h ≠ Panic.
Proof.
  unfold getblockhash. pose proof (call_no_panic "getblockhash" [json_i64 h]) as H.
  destruct (call _ _) as [v|e|]; [by destruct (as_str v)|by destruct (_ || _)|done].
Qed.

Lemma tx_confirmations_no_panic (node : HttpNode) t : tx_confirmations node t ≠ Panic.
Proof.
  unfold tx_confirmations, get_raw_transaction.
  pose proof (call_no_panic "getrawtransaction" [Str t; Bool true]) as H.
  destruct (call _ _) as [v|e|]; [done|by destruct (_ || _)|done].
Qed.

Lemma reconcile_blocks_runs node d : blocks_ok d → (reconcile_blocks_at_startup node d).1 = Ok tt.
Proof.
  intros Hb. unfold reconcile_blocks_at_startup. pose proof (getblockcount_no_panic node).
  destruct getblockcount as [tip|e|]; [|done..]. apply mignore_ok.
  unfold reconcile_found_blocks. rewrite bind_query, list_blocks_ok by done.
  apply NoPanic_for. intros b. unfold reconcile_block, svc_close_round, mark_orphaned, update_blocks.
  pose proof (getblockhash_no_panic node (fb_height b)) as Hg.
  assert (NoPanic (RoundRepository.close_round (fb_round_id b) 0 "orphaned")) as Hc.
  { unfold RoundRepository.close_round, bind_u64. no_panic; stmt_no_panic. }
  no_panic; first [stmt_no_panic|intros ?; apply record_event_no_panic|done].
Qed.

Lemma reconcile_payouts_runs node d : blocks_ok d → (reconcile_payouts_at_startup node d).1 = Ok tt.
Proof.
  intros Hb. apply mignore_ok. unfold reconcile_submitted_payouts. rewrite bind_query.
  destruct (reconcile_loop_run (tx_confirmations node)
    (list_batches d (Some "submitted"%string)) d (tx_confirmations_no_panic node) Hb) as [-> _]. done.
Qed.

Lemma maturation_runs node m d :
  db_wf d → blocks_ok d →
  ∃ ripe : FoundBlock → bool, (∀ b, ripe b = true → fb_status b = "immature"%string) ∧
  let '(r, d') := check_maturation_at_startup node m d in
  r = Ok (map (λ b, BlockMatured (fb_block_hash b)) (rev (List.filter ripe (rows (found_blocks d))))) ∧
  rows (found_blocks d') =
    map (λ b, if ripe b then with_matured_at (clock d) (with_status "matured" b) else b)
      (rows (found_blocks d)).
Proof.
  intros Hwf Hb. unfold check_maturation_at_startup. pose proof (getblockcount_no_panic node).
  destruct getblockcount as [tip|e|]; [| |done].
  - exists (λ b, immature b && matures tip m b). split.
    { intros b [Hi _]%andb_true_iff. by apply String.eqb_eq in Hi. }
    munfold. by rewrite check_maturation_run.
  - exists (λ _, false). split; [done|]. split; [|by rewrite map_id].
    assert (∀ l : list FoundBlock, List.filter (λ _, false) l = []) as Hf by (by induction l).
    by rewrite Hf.
Qed.

(** The two reconciliations never stop the program, and no block becomes immature or
    matured by them. *)
Lemma startup_run n1 n2 n3 m now d :
  reachable now d →
  ∃ d2, startup n1 n2 n3 m d = check_maturation_at_startup n3 m d2 ∧ reachable now d2 ∧
    no_new "immature" d d2 ∧ no_new "matured" d d2.
Proof.
  intros Hd. destruct (reachable_ok now d Hd) as [_ Hb].
  assert (Keeps (rtc step) (reconcile_blocks_at_startup n1) ∧
    Keeps (rtc step) (reconcile_payouts_at_startup n2)) as [S1 S2].
  { unfold reconcile_blocks_at_startup, reconcile_payouts_at_startup. split; keeps. }
  pose proof (reconcile_blocks_runs n1 d Hb) as R1. specialize (S1 d).
  pose proof (λ s Ho, reconcile_blocks_no_new s Ho n1 d) as K1.
  unfold startup, mbind, M_bind.
  destruct (reconcile_blocks_at_startup n1 d) as [r1 d1]. simpl in R1, S1, K1. subst r1.
  apply (reachable_steps now) in S1; [|done].
  destruct (reachable_ok now d1 S1) as [_ Hb1].
  pose proof (reconcile_payouts_runs n2 d1 Hb1) as R2. specialize (S2 d1).
  pose proof (λ s Hp, reconcile_payouts_no_new s Hp n2 d1) as K2.
  destruct (reconcile_payouts_at_startup n2 d1) as [r2 d2]. simpl in R2, S2, K2. subst r2.
  exists d2. split; [done|]. split; [by eapply reachable_steps|].
  split; (etrans; [by apply K1|by apply K2]).
Qed.

(** C24: from any database that the pool can have left behind, and whatever
    the node answers, the startup code gets to its end acting only through calls of the
    accounting service; an event goes to the payout handler for a block exactly when
    the block was immature before and is matured after. So no block matures unnoticed
    while the pool is down; and a block that had matured before is not announced again. *)
Theorem startup_spec n1 n2 n3 min_confirmations now d :
  reachable now d →
  let '(r, d') := startup n1 n2 n3 min_confirmations d in
  rtc step d d' ∧ reachable now d' ∧
  ∃ events, r = Ok events ∧
  (∀ e, e ∈ events → ∃ b b', e = BlockMatured (fb_block_hash b) ∧
     b ∈ rows (found_blocks d) ∧ fb_status b = "immature"%string ∧
     b' ∈ rows (found_blocks d') ∧ fb_block_hash b' = fb_block_hash b ∧
     fb_status b' = "matured"%string) ∧
  (∀ b', b' ∈ rows (found_blocks d') → fb_status b' = "matured"%string →
     BlockMatured (fb_block_hash b') ∈ events ∨
     ∃ b, b ∈ rows (found_blocks d) ∧ fb_block_hash b = fb_block_hash b' ∧
       fb_status b = "matured"%string).
Proof.
  intros Hd. pose proof (startup_steps n1 n2 n3 min_confirmations d) as Hs.
  destruct (startup_run n1 n2 n3 min_confirmations now d Hd) as (d2 & E & Hd2 & Ni & Nm).
  rewrite E in *. destruct (reachable_ok now d2 Hd2) as [Hwf Hb].
  destruct (maturation_runs n3 min_confirmations d2 Hwf Hb) as (ripe & Hripe & Hrun).
  destruct (check_maturation_at_startup n3 min_confirmations d2) as [r d']. simpl in Hs.
  destruct Hrun as [-> Hrows]. split; [done|]. split; [by eapply reachable_steps|].
  eexists. split; [done|]. split.
  - intros e (b2 & -> & Hin)%elem_of_map. rewrite list_elem_of_In, <-in_rev in Hin.
    apply filter_In in Hin as [Hin%list_elem_of_In Hr].
    destruct (Ni b2 Hin (Hripe b2 Hr)) as (b & Hb0 & Eb & Hst).
    exists b, (with_matured_at (clock d2) (with_status "matured" b2)).
    split_and!; [by rewrite Eb|done|done| |done|done].
    rewrite Hrows. apply elem_of_map. exists b2. by rewrite Hr.
  - intros b' Hb' Hst. rewrite Hrows in Hb'. apply elem_of_map in Hb' as (b2 & -> & Hb2).
    destruct (ripe b2) eqn:Er; [left|right; by apply Nm].
    apply elem_of_map. exists b2. split; [done|].
    rewrite list_elem_of_In, <-in_rev. apply filter_In. by rewrite <-list_elem_of_In.
Qed.

(** ** Settings *)

(** Whether the fee is enabled has no influence on what is paid. *)
Lemma fee_enabled_ignored config enabled :
  payout_params (with_fee (λ f, mkFeeSettings enabled (fs_fee_bps f) (fs_fee_address f)
    (fs_fee_script_hex f)) config) = payout_params config.
Proof. done. Qed.

(** A signer is chosen exactly by the mode of the settings, and needs the setting of
    its mode; without payouts none is needed. *)
Lemma select_signer_spec read_key config choice :
  let signing := po_signing (c_pool config) in
  select_signer read_key config = Ok choice ↔
  match choice with
  | None => pl_payout_enabled (po_pplns (c_pool config)) = false
  | Some (InternalSigner key fee) =>
      pl_payout_enabled (po_pplns (c_pool config)) = true ∧ sg_mode signing = "internal"%string ∧
      sg_private_key signing = Some key ∧ read_key key = Ok tt ∧ fee = sg_tx_fee_per_kb signing
  | Some (ExternalSigner url) =>
      pl_payout_enabled (po_pplns (c_pool config)) = true ∧ sg_mode signing = "external"%string ∧
      sg_webhook_url signing = Some url
  end.
Proof.
  intros signing. unfold select_signer, mbind, result_bind, ok_or. fold signing.
  assert (∀ (P Q : Prop), (P → Q) → (Q → P) → (P ↔ Q)) as Hi by tauto.
  repeat case_match;
    repeat match goal with u : unit |- _ => destruct u end; apply Hi; clear Hi; intros; destruct_and?; simplify_eq; auto;
    repeat match goal with H : String.eqb _ _ = true |- _ => apply String.eqb_eq in H end;
    repeat match goal with H : String.eqb _ _ = false |- _ => apply String.eqb_neq in H end;
    split_and?; congruence.
Qed.
End startup.

(** * Examples *)

#[local] Instance example_node : HttpNode := {|
  http_post _ := HttpError "connection refused"; display_json _ := ""%string |}.

(** A node that is at height 199 and knows no transaction. *)
Definition tip_node (height : Z) : HttpNode := {|
  http_post req :=
    match get req "method" with
    | Some (Str "getblockcount") => HttpBody 200 (Object [("result"%string, Number (PosInt height))])
    | _ => HttpError "unknown"
    end;
  display_json _ := ""%string |}.

Lemma startup_spec_witness :
  let '(r, d') := startup example_node example_node (tip_node 199) 100 example_pool in
  reachable "2026-05-20 12:00:00" d' ∧ r = Ok [BlockMatured "00aa"].
Proof.
  pose proof (startup_spec example_node example_node (tip_node 199) 100 _ example_pool
    example_pool_reachable) as H.
  destruct (startup example_node example_node (tip_node 199) 100 example_pool) as [r d'] eqn:E.
  split; [apply H|].
  transitivity (startup example_node example_node (tip_node 199) 100 example_pool).1;
    [by rewrite E|vm_compute; reflexivity].
Defined.
