(* ===== verification/Shutdown.v ===== *)
(** [shutdown/mod.rs]: the coordinator that tells every task to stop and waits for
    them. The broadcast channel is library code and a parameter with the documented
    behaviour of its receivers; a task is the time, counted from now, at which it
    will have ended, if it ever does. *)
From Stdlib Require Import ZArith Lia String.
From stdpp Require Import base option list numbers strings.
From S2P Require Import Prelude.
#[local] Open Scope Z_scope.

(** [pending s r] is the number of values that the receiver [r] can still take: a
    new receiver gets what is sent after it subscribed, and so does a resubscribed
    one; a sent value is kept up to the capacity. *)
Class Broadcast := {
  Sender : Type;
  Receiver : Type;
  channel : nat → Sender;
  subscribe : Sender → Receiver;
  send : Sender → Sender;
  resubscribe : Sender → Receiver → Receiver;
  capacity : Sender → nat;
  pending : Sender → Receiver → nat;
  capacity_channel n : capacity (channel n) = n;
  capacity_send s : capacity (send s) = capacity s;
  pending_subscribe s k : pending (Nat.iter k send s) (subscribe s) = Nat.min k (capacity s);
  pending_resubscribe s r : pending s (resubscribe s r) = 0%nat;
}.

(** Milliseconds from now, none for a task that does not end. *)
Definition Task : Type := option Z.

Section shutdown.
Context {bc : Broadcast}.

(** [src/src/shutdown/mod.rs:13-19 ShutdownCoordinator] *)
Record ShutdownCoordinator := mkShutdownCoordinator {
  sc_shutdown_tx : Sender;
  sc_shutdown_timeout_secs : Z;
  sc_flush_timeout_secs : Z;
  sc_db_conn : bool;
  sc_tasks : list Task;
}.

(** [src/src/shutdown/mod.rs:28-37 ShutdownCoordinator::new] *)
Definition ShutdownCoordinator_new : ShutdownCoordinator :=
  mkShutdownCoordinator (channel 1024) 30 5 false [].

(** [src/src/shutdown/mod.rs:40-49 ShutdownCoordinator::with_db_conn] *)
Definition with_db_conn : ShutdownCoordinator :=
  mkShutdownCoordinator (channel 1024) 30 5 true [].

(** [src/src/shutdown/mod.rs:52-56 ShutdownCoordinator::signal] *)
Definition signal (self : ShutdownCoordinator) : Receiver := subscribe (sc_shutdown_tx self).

(** [src/src/shutdown/mod.rs:59-62 ShutdownCoordinator::initiate_shutdown] *)
Definition initiate_shutdown (self : ShutdownCoordinator) : ShutdownCoordinator :=
  mkShutdownCoordinator (send (sc_shutdown_tx self)) (sc_shutdown_timeout_secs self)
    (sc_flush_timeout_secs self) (sc_db_conn self) (sc_tasks self).

(** [src/src/shutdown/mod.rs:69-71 ShutdownCoordinator::initiate_emergency_shutdown] *)
Definition initiate_emergency_shutdown (self : ShutdownCoordinator) : ShutdownCoordinator := self.

(** [src/src/shutdown/mod.rs:74-80 ShutdownCoordinator::register_task] *)
Definition register_task (handle : Task) (self : ShutdownCoordinator) : ShutdownCoordinator :=
  mkShutdownCoordinator (sc_shutdown_tx self) (sc_shutdown_timeout_secs self)
    (sc_flush_timeout_secs self) (sc_db_conn self) (sc_tasks self ++ [handle]).

(** [src/src/shutdown/mod.rs:100-104 ShutdownCoordinator::wait_for_completion (part)] The tasks are awaited
    one after the other while all of them run: when, from [now] on, the last has ended. *)
Fixpoint wait_all (now : Z) (tasks : list Task) : option Z :=
  match tasks with
  | [] => Some now
  | None :: _ => None
  | Some t :: rest => wait_all (Z.max now t) rest
  end.

(** What waiting did: its outcome, how long it took, and whether the write-ahead log
    was checkpointed. *)
Record Completion := mkCompletion {
  cm_result : result unit;
  cm_elapsed : Z;
  cm_checkpoint : bool;
}.

(** [src/src/shutdown/mod.rs:84-127 ShutdownCoordinator::wait_for_completion] *)
Definition wait_for_completion (self : ShutdownCoordinator) : Completion * ShutdownCoordinator :=
  let tasks := sc_tasks self in
  let self' := mkShutdownCoordinator (sc_shutdown_tx self) (sc_shutdown_timeout_secs self)
    (sc_flush_timeout_secs self) (sc_db_conn self) [] in
  let limit := sc_shutdown_timeout_secs self * 1000 in
  match tasks with
  | [] => (mkCompletion (Ok tt) 0 (sc_db_conn self), self')
  | _ =>
      match wait_all 0 tasks with
      | Some t =>
          if t <=? limit then (mkCompletion (Ok tt) t (sc_db_conn self), self')
          else (mkCompletion (Err (Anyhow "shutdown timeout exceeded")) limit false, self')
      | None => (mkCompletion (Err (Anyhow "shutdown timeout exceeded")) limit false, self')
      end
  end.

(** [src/src/shutdown/mod.rs:130-132 ShutdownCoordinator::flush_timeout] In milliseconds. *)
Definition flush_timeout (self : ShutdownCoordinator) : Z := sc_flush_timeout_secs self * 1000.

(** [src/src/shutdown/mod.rs:148-150 ShutdownSignal::recv] Whether it returns at once. *)
Definition recv_ready (self : ShutdownCoordinator) (rx : Receiver) : bool :=
  (0 <? pending (sc_shutdown_tx self) rx)%nat.

(** [src/src/shutdown/mod.rs:153-156 ShutdownSignal::is_shutdown] *)
Definition is_shutdown (self : ShutdownCoordinator) (rx : Receiver) : bool :=
  (0 <? pending (sc_shutdown_tx self) (resubscribe (sc_shutdown_tx self) rx))%nat.

(** ** The end of the program *)

(** [src/src/main.rs:479-482 ShutdownType] *)
Inductive ShutdownType : Type := Graceful | Emergency.

(** The signals of the system that the program listens to. *)
Inductive SignalKind : Type := SIGINT | SIGTERM | SIGQUIT.

(** [src/src/main.rs:484-503 wait_for_shutdown_signal] The handlers are installed in this order,
    which can fail; [first] is the signal that arrives. *)
Definition wait_for_shutdown_signal (install : SignalKind → result unit) (first : SignalKind) :
    result ShutdownType :=
  install SIGINT ;; install SIGTERM ;; install SIGQUIT ;;
  Ok (match first with SIGINT | SIGTERM => Graceful | SIGQUIT => Emergency end).

(** How the program ends: [main] returns, after it has left the node or not, or the process
    exits with a status. *)
Inductive Ending : Type :=
  | Returned (r : result unit) (disconnected : bool)
  | Exited (status : Z).

(** [src/src/main.rs:450-471 main (part)] With the coordinator at the end, and what waiting did. *)
Definition end_of_main (install : SignalKind → result unit) (first : SignalKind)
    (self : ShutdownCoordinator) : Ending * option Completion * ShutdownCoordinator :=
  match wait_for_shutdown_signal install first with
  | Ok Graceful =>
      let '(c, self') := wait_for_completion (initiate_shutdown self) in
      (Returned (cm_result c) (is_ok (cm_result c)), Some c, self')
  | Ok Emergency => (Exited 1, None, initiate_emergency_shutdown self)
  | Err e => (Returned (Err e) false, None, self)
  | Panic => (Returned Panic false, None, self)
  end.

(** * Properties *)

Lemma wait_all_spec now tasks t :
  wait_all now tasks = Some t ↔
  now ≤ t ∧ (t = now ∨ Some t ∈ tasks) ∧ Forall (λ k, ∃ u, k = Some u ∧ u ≤ t) tasks.
Proof.
  revert now. induction tasks as [|[u|] tasks IH]; intros now; simpl.
  - split; [intros [= ->]; repeat split; [lia|auto|constructor]|].
    intros (_ & [->|[]%not_elem_of_nil] & _). done.
  - rewrite IH, Forall_cons, elem_of_cons. split.
    + intros (H1 & H2 & H3). split; [lia|]. split; [|split; [exists u; split; [done|lia]|done]].
      destruct H2 as [->|H2]; [|auto]. destruct (Z.max_spec now u) as [[_ ->]|[_ ->]]; auto.
    + intros (H1 & H2 & (v & [= <-] & Hv) & H3). split; [lia|]. split; [|done].
      destruct H2 as [->|[[= ->]|H2]]; [left; lia|left; lia|auto].
  - split; [done|]. rewrite Forall_cons. by intros (_ & _ & (v & ? & _) & _).
Qed.

(** Waiting for the tasks: it ends after thirty seconds at the latest, and then the tasks are
    forgotten, so that waiting again succeeds at once. *)
Lemma wait_for_completion_spec self :
  sc_shutdown_timeout_secs self = 30 → Forall (λ k, ∀ t, k = Some t → 0 ≤ t) (sc_tasks self) →
  let '(c, self') := wait_for_completion self in
  0 ≤ cm_elapsed c ≤ 30000 ∧ cm_result c ≠ Panic ∧
  (cm_result c = Ok tt ↔ Forall (λ k, ∃ t, k = Some t ∧ t ≤ 30000) (sc_tasks self)) ∧
  (cm_result c = Ok tt → Forall (λ k, ∃ t, k = Some t ∧ t ≤ cm_elapsed c) (sc_tasks self)) ∧
  cm_checkpoint c = is_ok (cm_result c) && sc_db_conn self ∧
  wait_for_completion self' = (mkCompletion (Ok tt) 0 (sc_db_conn self), self').
Proof.
  intros Ht Hpos. unfold wait_for_completion. rewrite Ht.
  destruct (sc_tasks self) as [|k ks] eqn:Ek.
  { simpl. split_and!; try done; intros; constructor. }
  rewrite <-Ek in *. clear k ks Ek. set (tasks := sc_tasks self) in *.
  assert (∀ t, wait_all 0 tasks = Some t → t > 30000 →
    ¬ Forall (λ k, ∃ u, k = Some u ∧ u ≤ 30000) tasks) as Hlate.
  { intros t (H1 & H2 & H3)%wait_all_spec Hgt Hall. destruct H2 as [->|H2]; [lia|].
    rewrite Forall_forall in Hall. destruct (Hall _ H2) as (u & [= <-] & ?). lia. }
  destruct (wait_all 0 tasks) as [t|] eqn:Ew.
  - pose proof Ew as (H1 & H2 & H3)%wait_all_spec. destruct (Z.leb_spec t (30 * 1000)); simpl.
    + split_and!; try done; [lia..|]. split; [|done]. intros _.
      eapply Forall_impl; [exact H3|]. intros k (u & -> & Hu). exists u. split; [done|lia].
    + split_and!; try done; [lia..|]. split; [done|]. intros Hall. exfalso.
      eapply Hlate; [done| |exact Hall]. lia.
  - simpl. split_and!; try done; [lia..|]. split; [done|]. intros Hall. exfalso.
    clear Hlate Ht. revert Ew. generalize 0. induction tasks as [|k ks IH]; intros z; [done|].
    apply Forall_cons in Hall as [(u & -> & _) Hall]. apply Forall_cons in Hpos as [_ Hpos].
    simpl. by apply IH.
Qed.

Lemma wait_keeps_channel self :
  sc_shutdown_tx (wait_for_completion self).2 = sc_shutdown_tx self.
Proof. unfold wait_for_completion. by repeat case_match. Qed.

(** A signal that was taken before the shutdown is ready after it, but the check that
    does not wait resubscribes first and never sees it. *)
Lemma signal_after_shutdown self :
  (0 < capacity (sc_shutdown_tx self))%nat →
  recv_ready self (signal self) = false ∧
  recv_ready (initiate_shutdown self) (signal self) = true ∧
  ∀ rx, is_shutdown (initiate_shutdown self) rx = false.
Proof.
  intros Hc. unfold recv_ready, is_shutdown, signal, initiate_shutdown. simpl.
  split_and!.
  - pose proof (pending_subscribe (sc_shutdown_tx self) 0) as H. simpl in H. by rewrite H.
  - pose proof (pending_subscribe (sc_shutdown_tx self) 1) as H. cbn [Nat.iter nat_rect] in H.
    rewrite H. apply Nat.ltb_lt. lia.
  - intros rx. by rewrite pending_resubscribe.
Qed.

(** C40: the program ends when it is told to. On an interrupt or a termination
    signal every task is told, and after thirty seconds at the latest [main] returns: with
    success, having left the node and written the log back to the database, exactly when
    every registered task has ended by then. On a quit signal the process exits at once with
    status one, no task is told and nothing is waited for. *)
Theorem shutdown_terminates install first self :
  (∀ s, install s = Ok tt) → sc_shutdown_timeout_secs self = 30 → sc_db_conn self = true →
  (0 < capacity (sc_shutdown_tx self))%nat →
  Forall (λ k, ∀ t, k = Some t → 0 ≤ t) (sc_tasks self) →
  let '(e, c, self') := end_of_main install first self in
  match first with
  | SIGQUIT => e = Exited 1 ∧ c = None ∧ recv_ready self' (signal self) = false
  | _ => recv_ready self' (signal self) = true ∧
      ∃ c0, c = Some c0 ∧ 0 ≤ cm_elapsed c0 ≤ 30000 ∧
        let ended := Forall (λ k, ∃ t, k = Some t ∧ t ≤ 30000) (sc_tasks self) in
        (e = Returned (Ok tt) true ↔ ended) ∧ (cm_checkpoint c0 = true ↔ ended)
  end.
Proof.
  intros Hi Ht Hdb Hc Htasks. unfold end_of_main, wait_for_shutdown_signal, mbind, result_bind.
  rewrite !Hi. destruct (signal_after_shutdown self Hc) as (H0 & H1 & _).
  pose proof (wait_for_completion_spec (initiate_shutdown self) Ht Htasks) as Hw.
  pose proof (wait_keeps_channel (initiate_shutdown self)) as Hk.
  destruct (wait_for_completion (initiate_shutdown self)) as [c self']. simpl in Hk.
  destruct Hw as (He & Hp & Hok & _ & Hcp & _). cbn [sc_db_conn initiate_shutdown] in Hcp. rewrite Hdb, andb_true_r in Hcp.
  assert (recv_ready self' (signal self) = true) as Hr
    by (unfold recv_ready; rewrite Hk; exact H1).
  assert (Returned (cm_result c) (is_ok (cm_result c)) = Returned (Ok tt) true ↔ cm_result c = Ok tt)
    as He2 by (split; [by intros [= ->]|by intros ->]).
  assert (cm_checkpoint c = true ↔ cm_result c = Ok tt) as Hc2
    by (rewrite Hcp; destruct (cm_result c) as [[]| |]; done).
  destruct first; [| |done]; (split; [done|]; exists c; split; [done|]; split; [done|];
    cbn zeta; by rewrite He2, Hc2).
Qed.
End shutdown.

(** * Examples *)

(** A channel that counts what was sent; a receiver is the count at which it began. *)
Lemma counting_iter k cap n :
  Nat.iter k (λ s : nat * nat, (s.1, S s.2)) (cap, n) = (cap, (k + n)%nat).
Proof. induction k as [|k IH]; simpl; [done|by rewrite IH]. Qed.

#[local] Instance counting_broadcast : Broadcast.
Proof.
  refine {| Sender := nat * nat; Receiver := nat;
    channel n := (n, 0%nat); subscribe s := s.2; send s := (s.1, S s.2);
    resubscribe s _ := s.2; capacity s := s.1;
    pending s r := Nat.min (s.2 - r) s.1 |}; [done|done| |].
  - intros [cap n] k. rewrite counting_iter. simpl. lia.
  - intros [cap n] r. simpl. lia.
Defined.

Lemma shutdown_terminates_witness :
  let self := register_task (Some 500) (register_task (Some 20) with_db_conn) in
  end_of_main (λ _, Ok tt) SIGTERM self =
    (Returned (Ok tt) true, Some (mkCompletion (Ok tt) 500 true), initiate_shutdown with_db_conn) ∧
  recv_ready (end_of_main (λ _, Ok tt) SIGTERM self).2 (signal self) = true.
Proof.
  intros self. split; [reflexivity|].
  pose proof (shutdown_terminates (λ _, Ok tt) SIGTERM self (λ _, eq_refl) eq_refl eq_refl) as H.
  destruct (end_of_main (λ _, Ok tt) SIGTERM self) as [[e c] self']. apply H.
  - vm_compute. lia.
  - repeat apply Forall_cons_2; [..|apply Forall_nil_2]; intros t [= <-]; lia.
Defined.
