(* ===== verification/Pool.v ===== *)
(** The running pool: the tasks that [main] spawns, over what they share. A task is
    an acceptor ([StratumServer::run]), the connections, the event consumer, the payout
    handler, the HTTP server and the stats updater; they share the database, the job
    cache, the channel of new jobs and the channel of payout events. A turn of a task
    runs as a whole, and the turns of different tasks interleave in any order.

    The broadcast channel is library code and a parameter with its documented
    behaviour; its state is the list of the jobs sent so far. *)
From Stdlib Require Import ZArith Lia String Init.Byte.
From stdpp Require Import base option list numbers strings sets gmap fin_maps.
From S2P Require Import Prelude Text Float64 VarDiff Json Db PayoutService AccountingSystem Job JobCache Protocol Session Validator JsonRpc Server Template PayoutHandler Consumer Signer HttpApi Config Startup.
#[local] Open Scope Z_scope.

(** What [recv] gives when it does not have to wait. *)
Inductive Recv : Type :=
  | RecvOk (job : MiningJob)
  | RecvLagged.

(** [tokio::sync::broadcast]: a receiver gets the values sent after it subscribed, in
    order; one that is further behind than the channel keeps values for is told so once
    and goes on with the oldest value kept. The channel keeps at least as many values
    as it was made for. *)
Class JobChannel := {
  JobReceiver : Type;
  job_subscribe : list MiningJob → JobReceiver;
  job_recv : list MiningJob → JobReceiver → option (Recv * JobReceiver);
  kept : nat;
  position : JobReceiver → nat;
  kept_enough : (128 ≤ kept)%nat;
  position_subscribe sent : position (job_subscribe sent) = length sent;
  job_recv_wait sent rx : (length sent ≤ position rx)%nat → job_recv sent rx = None;
  job_recv_ok sent rx job :
    (length sent - position rx ≤ kept)%nat → sent !! position rx = Some job →
    ∃ rx', job_recv sent rx = Some (RecvOk job, rx') ∧ position rx' = S (position rx);
  job_recv_lagged sent rx :
    (kept < length sent - position rx)%nat →
    ∃ rx', job_recv sent rx = Some (RecvLagged, rx') ∧ position rx' = (length sent - kept)%nat;
}.

Section pool.
Context {so : SqlOrder} {hashing : Hashing} {lotus : LotusLib} {la : LotusAddress}.
Context {C : Type} {moka : MokaCache C} {jobs : JobChannel}.
(** [serde_json::from_str] and [str::trim]. *)
Context (from_str : string → Value + string) (trim : string → string).
Context (config : Config).

(** * State *)

(** The task of a connection: not started, in its loop, after it, or unwound by a panic. *)
Inductive Phase : Type := Spawned | Serving | Ended | Crashed.

Record Miner := mkMiner {
  mn_session : SessionState;
  mn_line : string;
  mn_sent : list (list Value);
  mn_job_rx : JobReceiver;
  mn_phase : Phase;
}.

(** [src/src/stratum_protocol/server.rs:26-43 StratumServer (part)] with what the other
    tasks share; the connections are numbered by the session counter. A flag says
    whether a task still runs. *)
Record Pool := mkPool {
  pool_world : World (C := C);
  pool_session_counter : Z;
  pool_connected_miners : Z;
  pool_miners : gmap Z Miner;
  pool_stats : ServerStats;
  pool_uptime : Z;
  pool_accepting : bool;
  pool_consuming : bool;
  pool_paying : bool;
}.

Definition set_world (w : World) (p : Pool) : Pool :=
  mkPool w (pool_session_counter p) (pool_connected_miners p) (pool_miners p) (pool_stats p)
    (pool_uptime p) (pool_accepting p) (pool_consuming p) (pool_paying p).
Definition set_miners (connected : Z) (ms : gmap Z Miner) (p : Pool) : Pool :=
  mkPool (pool_world p) (pool_session_counter p) connected ms (pool_stats p)
    (pool_uptime p) (pool_accepting p) (pool_consuming p) (pool_paying p).
Definition set_consuming (b : bool) (p : Pool) : Pool :=
  mkPool (pool_world p) (pool_session_counter p) (pool_connected_miners p) (pool_miners p) (pool_stats p)
    (pool_uptime p) (pool_accepting p) b (pool_paying p).
Definition set_paying (b : bool) (p : Pool) : Pool :=
  mkPool (pool_world p) (pool_session_counter p) (pool_connected_miners p) (pool_miners p) (pool_stats p)
    (pool_uptime p) (pool_accepting p) (pool_consuming p) b.

Definition pool_db (p : Pool) : Db := wd_db (pool_world p).
Definition pool_cache (p : Pool) : JobCache := wd_cache (pool_world p).
(** The jobs sent over [job_tx] so far. *)
Definition pool_sent (p : Pool) : list MiningJob := wd_jobs (pool_world p).

(** A task survives a call that does not panic. *)
Definition survives {A} (r : result A) : bool := match r with Panic => false | _ => true end.

(** * The server, as the other tasks see it *)

(** [src/src/stratum_protocol/server.rs:83-89 StratumServer::notify_new_job] *)
Definition notify_new_job (job : MiningJob) (sent : list MiningJob) : list MiningJob := sent ++ [job].

(** [src/src/stratum_protocol/server.rs:97-99 StratumServer::connected_miners] *)
Definition connected_miners (p : Pool) : Z := pool_connected_miners p.

(** [src/src/stratum_protocol/server.rs:102-104 StratumServer::latest_target_hex] *)
Definition latest_target_hex (p : Pool) : option string := get_latest_target_hex (pool_cache p).

(** * The tasks *)

Definition vardiff_config : VarDiffConfig := VarDiffConfig_from (c_vardiff config).

(** [src/src/stratum_protocol/server.rs:107-195 StratumServer::run (part)] A connection is
    accepted; a panic while its session is made ends the acceptor. *)
Definition accept_miner (now : Z) (p : Pool) : Pool :=
  if pool_accepting p then
    let '(r, count) := accept vardiff_config (pool_cache p) (pool_session_counter p) now in
    let '(ms, alive) :=
      match r with
      | Ok session =>
          (<[count := mkMiner session "" [] (job_subscribe (pool_sent p)) Spawned]> (pool_miners p),
           true)
      | _ => (pool_miners p, false)
      end in
    mkPool (pool_world p) count (pool_connected_miners p) ms (pool_stats p)
      (pool_uptime p) alive (pool_consuming p) (pool_paying p)
  else p.

Definition with_phase (ph : Phase) (m : Miner) : Miner :=
  mkMiner (mn_session m) (mn_line m) (mn_sent m) (mn_job_rx m) ph.

(** [src/src/stratum_protocol/server.rs:159-161 StratumServer::run (part)] *)
Definition start_miner (n : Z) (p : Pool) : Pool :=
  match pool_miners p !! n with
  | Some m =>
      match mn_phase m with
      | Spawned =>
          set_miners (pool_connected_miners p + 1) (<[n := with_phase Serving m]> (pool_miners p)) p
      | _ => p
      end
  | None => p
  end.

(** [n - 1] of a [u64] that wraps below zero. *)
Definition u64_pred (n : Z) : Z := if n =? 0 then u64_max else n - 1.

(** [src/src/stratum_protocol/server.rs:175-177 StratumServer::run (part)] The count is a
    [u64], and the subtraction is that of a release build. *)
Definition finish_miner (n : Z) (p : Pool) : Pool :=
  match pool_miners p !! n with
  | Some m =>
      match mn_phase m with
      | Ended =>
          set_miners (u64_pred (pool_connected_miners p)) (base.delete n (pool_miners p)) p
      | _ => p
      end
  | None => p
  end.

(** [src/src/stratum_protocol/server.rs:217-221 handle_connection (part)] The end of the
    input, a read error, or the shutdown signal. *)
Definition hang_up (n : Z) (p : Pool) : Pool :=
  match pool_miners p !! n with
  | Some m =>
      match mn_phase m with
      | Serving => set_miners (pool_connected_miners p) (<[n := with_phase Ended m]> (pool_miners p)) p
      | _ => p
      end
  | None => p
  end.

(** [src/src/stratum_protocol/server.rs:159-178 StratumServer::run (part)] A turn of the loop
    of a connection, on what it shares with the pool: an error ends the loop, and a panic
    also skips what comes after it. *)
Definition miner_turn (n : Z) (m : Miner) (rx : JobReceiver) (env : ServerEnv)
    (ev : conn_event) (p : Pool) : Pool :=
  let w := pool_world p in
  let '(r, c) := turn trim env ev
    (mkConn (mn_session m) (wd_cache w) (wd_db w) (mn_line m) (mn_sent m)) in
  let phase := match r with Ok _ => Serving | Err _ => Ended | Panic => Crashed end in
  set_world (mkWorld (cn_db c) (cn_cache c) (wd_tip w) (wd_payout_events w) (wd_jobs w))
    (set_miners (pool_connected_miners p)
       (<[n := mkMiner (cn_session c) (cn_line c) (cn_sent c) rx phase]> (pool_miners p)) p).

(** The services of a connection; [main] always gives both. *)
Definition conn_env (node : HttpNode) (writes : nat → bool) : ServerEnv :=
  mkServerEnv true (Some node) from_str writes.

(** [src/src/stratum_protocol/server.rs:214-223 handle_connection (part)] Input, with the
    time when it completes a line. *)
Definition read_input (n : Z) (node : HttpNode) (writes : nat → bool) (line_end : option Z)
    (piece : string) (p : Pool) : Pool :=
  match pool_miners p !! n with
  | Some m =>
      match mn_phase m with
      | Serving =>
          miner_turn n m (mn_job_rx m) (conn_env node writes)
            (match line_end with Some now => EndOfLine now piece | None => Received piece end) p
      | _ => p
      end
  | None => p
  end.

(** [src/src/stratum_protocol/server.rs:451-452 handle_connection (part)] *)
Definition receive_job (n : Z) (node : HttpNode) (writes : nat → bool) (p : Pool) : Pool :=
  match pool_miners p !! n with
  | Some m =>
      match mn_phase m, job_recv (pool_sent p) (mn_job_rx m) with
      | Serving, Some (r, rx) =>
          miner_turn n m rx (conn_env node writes)
            (match r with RecvOk job => JobBroadcast job | RecvLagged => JobLagged end) p
      | _, _ => p
      end
  | None => p
  end.

(** [src/src/main.rs:286-308 main (part)] The consumer of the node's events, with the
    accounting service. *)
Definition consume (ev : node_event) (p : Pool) : Pool :=
  if pool_consuming p then
    let '(r, w) := on_event true (pl_min_confirmations (po_pplns (c_pool config))) ev (pool_world p) in
    set_consuming (survives r) (set_world w p)
  else p.

(** [src/src/main.rs:377-396 main (part)] The handler takes the next event from the
    channel. *)
Definition handle_payout (env : PayoutEnv) (p : Pool) : Pool :=
  let w := pool_world p in
  match wd_payout_events w with
  | e :: rest =>
      if pool_paying p then
        let '(r, d) := handle_event env (payout_params config) e (wd_db w) in
        set_paying (survives r) (set_world (mkWorld d (wd_cache w) (wd_tip w) rest (wd_jobs w)) p)
      else p
  | [] => p
  end.

(** [src/src/main.rs:148-163 main (part)] *)
Definition app_state (p : Pool) : AppState :=
  mkAppState (pool_stats p) true true true true true (c_api_token config) true
    (Some (payout_params config)).

(** [src/src/main.rs:165-186 main (part)] A request, and its answer. *)
Definition serve (env : ApiEnv) (authorization : option string) (c : Call) (p : Pool) :
    result (Z * Body) * Pool :=
  let '(r, d) := create_router env (app_state p) authorization c (pool_db p) in
  (r, set_world (with_db d (pool_world p)) p).

(** [src/src/main.rs:425-447 main (part)] The stats updater, once a second. *)
Definition update_stats (p : Pool) : Pool :=
  let uptime := pool_uptime p + 1 in
  mkPool (pool_world p) (pool_session_counter p) (pool_connected_miners p) (pool_miners p)
    (mkServerStats uptime (connected_miners p) (latest_target_hex p))
    uptime (pool_accepting p) (pool_consuming p) (pool_paying p).

(** * The pool *)

(** What can happen next. *)
Inductive pool_event : Type :=
  | Tick (now : string)
  | Accept (now : Z)
  | Start (n : Z)
  | Read (n : Z) (node : HttpNode) (writes : nat → bool) (line_end : option Z) (piece : string)
  | Receive (n : Z) (node : HttpNode) (writes : nat → bool)
  | HangUp (n : Z)
  | Finish (n : Z)
  | NodeEvent (ev : node_event)
  | HandlePayout (env : PayoutEnv)
  | Request (env : ApiEnv) (authorization : option string) (c : Call)
  | UpdateStats.

Definition pool_step (ev : pool_event) (p : Pool) : Pool :=
  match ev with
  | Tick now => set_world (with_db (set_clock (pool_db p) now) (pool_world p)) p
  | Accept now => accept_miner now p
  | Start n => start_miner n p
  | Read n node writes line_end piece => read_input n node writes line_end piece p
  | Receive n node writes => receive_job n node writes p
  | HangUp n => hang_up n p
  | Finish n => finish_miner n p
  | NodeEvent ev => consume ev p
  | HandlePayout env => handle_payout env p
  | Request env authorization c => (serve env authorization c p).2
  | UpdateStats => update_stats p
  end.

Definition pool_run (evs : list pool_event) (p : Pool) : Pool :=
  fold_left (λ p ev, pool_step ev p) evs p.

(** [src/src/main.rs:116-143 main (part)] From the first template to the tasks. The job goes
    into the cache and over the channel, the books are reconciled with the chain, and the
    blocks that matured while the pool was down go to the payout handler. Without the
    node's events the pool runs without the consumer. *)
Definition boot (read_key : string → result unit) (open subscribe : string → option string)
    (template : MiningTemplate) (node1 node2 node3 : HttpNode) : DbM Pool :=
  job ← mlift (template_to_job template false);
  events ← startup node1 node2 node3 (pl_min_confirmations (po_pplns (c_pool config)));
  signer ← mlift (select_signer read_key config);
  d ← mget;
  mret (mkPool (mkWorld d (insert job (JobCache_new 512)) 0 events (notify_new_job job [])) 0 0 ∅
    (mkServerStats 0 0 (Some (j_network_target_hex job))) 0 true
    (is_ok (consumer_new open subscribe (c_nng_pub_url config))) (bool_decide (is_Some signer))).

(** [src/src/main.rs:49-143 main (part)] What comes before the first job: the database, the mining
    identity, the connection to the node and the first template, in this order; each can
    end the program. [to_template] reads the fields of the library's template. The check of
    the template's coinbase only writes a warning. *)
Definition main_start {nng : NngLib} {txlib : TxLib} {clib : ConfigLib}
    (open_db : string → result Db) (to_template : NngTemplate → MiningTemplate)
    (read_key : string → result unit) (open subscribe : string → option string)
    (node1 node2 node3 : HttpNode) : result (Pool * NngRpcClient) :=
  d ← open_db (c_sqlite_path config);
  client ← main_client config;
  let '(connected, client) := connect client in
  connected ;;
  template ← get_mining_template client;
  p ← (boot read_key open subscribe (to_template template) node1 node2 node3 d).1;
  Ok (p, client).

(** * The invariant *)

(** The values of a template and of a job have the ranges of their types. *)
Definition typed_template (t : MiningTemplate) : Prop :=
  in_u64 (t_coinbase_value t) ∧ in_u64 (t_template_id t).

Definition typed_event (ev : pool_event) : Prop :=
  match ev with NodeEvent (WorkChanged _ (Ok t)) => typed_template t | _ => True end.

Definition counted (m : Miner) : bool := match mn_phase m with Spawned => false | _ => true end.

(** The connections that have been counted and have not been discounted. *)
Definition count_miners (ms : gmap Z Miner) : Z :=
  Z.of_nat (size (base.filter (λ kv : Z * Miner, counted kv.2 = true) ms)).

Lemma count_insert_new n m ms :
  ms !! n = None → count_miners (<[n := m]> ms) = count_miners ms + Z.b2z (counted m).
Proof.
  intros Hn. unfold count_miners. destruct (counted m) eqn:E.
  - rewrite map_filter_insert_True, map_size_insert_None by (done || by apply map_lookup_filter_None; left).
    simpl. lia.
  - rewrite map_filter_insert_not' by (simpl; congruence). simpl. lia.
Qed.

Lemma count_delete n m ms :
  ms !! n = Some m → count_miners ms = count_miners (base.delete n ms) + Z.b2z (counted m).
Proof.
  intros Hn. rewrite <-(insert_delete_id ms n m Hn) at 1.
  by apply count_insert_new, lookup_delete_eq.
Qed.

Lemma count_insert n m m' ms :
  ms !! n = Some m → counted m' = counted m → count_miners (<[n := m']> ms) = count_miners ms.
Proof.
  intros Hn Hc. rewrite <-insert_delete_eq, count_insert_new by apply lookup_delete_eq.
  by rewrite (count_delete n m ms Hn), Hc.
Qed.

(** A connection carries the identity of its number and is not ahead of the channel. *)
Definition miner_ok (p : Pool) (n : Z) (m : Miner) : Prop :=
  1 ≤ n ≤ pool_session_counter p ∧ session_id_is (connection_ids n) (mn_session m) ∧
  (position (mn_job_rx m) ≤ length (pool_sent p))%nat.

Record cache_ok (w : World (C := C)) : Prop := {
  co_inv : cache_inv (wd_cache w);
  co_size : 1 ≤ jc_max_size (wd_cache w);
  co_typed : typed_cache (wd_cache w);
  co_latest : get_latest (wd_cache w) = last (wd_jobs w);
}.

Record pool_ok (p : Pool) : Prop := {
  ok_cache : cache_ok (pool_world p);
  ok_counter : 0 ≤ pool_session_counter p;
  ok_miners : map_Forall (miner_ok p) (pool_miners p);
  ok_connected : pool_connected_miners p = count_miners (pool_miners p);
}.

(** One step: calls of the service on the database, and the invariant. *)
Definition good_step (p p' : Pool) : Prop :=
  pool_ok p → rtc step (pool_db p) (pool_db p') ∧ pool_ok p'.

(** A step that leaves the cache, the channel and the connections alone. *)
Lemma good_step_db p p' :
  rtc step (pool_db p) (pool_db p') →
  pool_cache p' = pool_cache p → pool_sent p' = pool_sent p →
  pool_session_counter p' = pool_session_counter p →
  pool_connected_miners p' = pool_connected_miners p → pool_miners p' = pool_miners p →
  good_step p p'.
Proof.
  unfold pool_cache, pool_sent. intros Hs E1 E2 E3 E4 E5 [[H1 H2 H3 H4] H5 H6 H7].
  split; [done|]. split; [by split; rewrite ?E1, ?E2|by rewrite E3| |by rewrite E4, E5].
  intros n m Hm. rewrite E5 in Hm. unfold miner_ok, pool_sent. rewrite E3, E2. by apply H6.
Qed.

(** A connection changes, and with it at most the database. *)
Lemma good_step_miner p p' n m m' :
  pool_miners p !! n = Some m →
  pool_cache p' = pool_cache p → pool_sent p' = pool_sent p →
  pool_session_counter p' = pool_session_counter p →
  pool_miners p' = <[n := m']> (pool_miners p) →
  pool_connected_miners p' + Z.b2z (counted m) = pool_connected_miners p + Z.b2z (counted m') →
  (miner_ok p n m → miner_ok p n m') →
  pool_ok p → pool_ok p'.
Proof.
  unfold pool_cache, pool_sent. intros Hn E1 E2 E3 E5 E4 Hk [[H1 H2 H3 H4] H5 H6 H7].
  split; [by split; rewrite ?E1, ?E2|by rewrite E3| |].
  - rewrite E5. assert (∀ k x, miner_ok p k x → miner_ok p' k x) as Hw.
    { intros k x. unfold miner_ok, pool_sent. by rewrite E3, E2. }
    intros k x Hx. apply Hw. apply lookup_insert_Some in Hx as [[<- <-]|[_ Hx]]; [|by apply H6].
    apply Hk. by apply H6.
  - rewrite E5, <-insert_delete_eq, count_insert_new by apply lookup_delete_eq.
    pose proof (count_delete n m _ Hn). lia.
Qed.

Lemma miner_turn_good n m rx env ev p :
  pool_miners p !! n = Some m → mn_phase m = Serving →
  ((position (mn_job_rx m) ≤ length (pool_sent p))%nat → (position rx ≤ length (pool_sent p))%nat) →
  good_step p (miner_turn n m rx env ev p).
Proof.
  intros Hn Hph Hrx Hp. pose proof (co_typed _ (ok_cache _ Hp)) as Ht. unfold miner_turn.
  set (c := mkConn (mn_session m) _ _ _ _).
  pose proof (turn_db trim env ev c Ht) as [Hs Hc].
  pose proof (turn_closed trim _ _ (session_id_closed (connection_ids n)) env ev) as Hid.
  assert (event_good (λ _, true) ev = true) as He by (by destruct ev).
  specialize (Hid He c). destruct (turn trim env ev c) as [r c'] eqn:E. simpl in Hs, Hc, Hid.
  split; [exact Hs|].
  eapply (good_step_miner p _ n m); [done|exact Hc|done|done|reflexivity| | |done].
  - simpl. unfold counted. rewrite Hph. simpl. by destruct r.
  - intros (H1 & H2 & H3). split_and!; [apply H1|apply H1|by apply Hid|by apply Hrx].
Qed.

Lemma read_input_good n node writes line_end piece p :
  good_step p (read_input n node writes line_end piece p).
Proof.
  unfold read_input. destruct (pool_miners p !! n) as [m|] eqn:Hn; [|done].
  destruct (mn_phase m) eqn:Hph; try done. by apply miner_turn_good.
Qed.

(** A receiver that does not wait moves forward, and not past the end. *)
Lemma job_recv_position sent rx r rx' :
  job_recv sent rx = Some (r, rx') →
  (position rx < position rx')%nat ∧ (position rx' ≤ length sent)%nat.
Proof.
  intros H. pose proof kept_enough.
  destruct (decide (length sent ≤ position rx)%nat); [by rewrite job_recv_wait in H|].
  destruct (decide (length sent - position rx ≤ kept)%nat).
  - destruct (lookup_lt_is_Some_2 sent (position rx)) as [job Hj]; [lia|].
    destruct (job_recv_ok sent rx job) as (rx2 & E & Hp); [done..|].
    rewrite H in E. simplify_eq. lia.
  - destruct (job_recv_lagged sent rx) as (rx2 & E & Hp); [lia|].
    rewrite H in E. simplify_eq. lia.
Qed.

Lemma receive_job_good n node writes p : good_step p (receive_job n node writes p).
Proof.
  unfold receive_job. destruct (pool_miners p !! n) as [m|] eqn:Hn; [|done].
  destruct (mn_phase m) eqn:Hph; try done.
  destruct (job_recv _ _) as [[r rx]|] eqn:E; [|done].
  apply miner_turn_good; [done..|]. intros _. by apply job_recv_position in E as [_ ?].
Qed.

(** The count, the phase and nothing else. *)
Lemma set_phase_good n m ph connected p :
  pool_miners p !! n = Some m →
  connected + Z.b2z (counted m) =
    pool_connected_miners p + Z.b2z (counted (with_phase ph m)) →
  good_step p (set_miners connected (<[n := with_phase ph m]> (pool_miners p)) p).
Proof.
  intros Hn Hc Hp. split; [done|].
  by eapply (good_step_miner p _ n m); [|done..|reflexivity| | |].
Qed.

Lemma start_miner_good n p : good_step p (start_miner n p).
Proof.
  unfold start_miner. destruct (pool_miners p !! n) as [m|] eqn:Hn; [|done].
  destruct (mn_phase m) eqn:Hph; try done.
  apply set_phase_good; [done|]. unfold counted. rewrite Hph. simpl. lia.
Qed.

Lemma hang_up_good n p : good_step p (hang_up n p).
Proof.
  unfold hang_up. destruct (pool_miners p !! n) as [m|] eqn:Hn; [|done].
  destruct (mn_phase m) eqn:Hph; try done.
  apply set_phase_good; [done|]. unfold counted. by rewrite Hph.
Qed.

Lemma finish_miner_good n p : good_step p (finish_miner n p).
Proof.
  unfold finish_miner. destruct (pool_miners p !! n) as [m|] eqn:Hn; [|done].
  destruct (mn_phase m) eqn:Hph; try done.
  intros [H1 H2 H3 H4]. split; [done|]. pose proof (count_delete n m _ Hn) as Hc.
  unfold counted in Hc. rewrite Hph in Hc. simpl in Hc.
  split; [done|done| |].
  - simpl. intros k x [_ Hx]%lookup_delete_Some. exact (H3 k x Hx).
  - simpl. unfold u64_pred. rewrite H4.
    assert (0 ≤ count_miners (base.delete n (pool_miners p))) by (unfold count_miners; lia).
    destruct (Z.eqb_spec (count_miners (pool_miners p)) 0); lia.
Qed.

Lemma accept_miner_good now p : good_step p (accept_miner now p).
Proof.
  unfold accept_miner. destruct (pool_accepting p); [|done].
  destruct (accept _ _ _ now) as [r count] eqn:E.
  assert (count = pool_session_counter p + 1) as ->.
  { unfold accept in E. destruct (connection_ids _). by simplify_eq/=. }
  intros [H1 H2 H3 H4].
  assert (∀ k x, pool_miners p !! k = Some x → k ≤ pool_session_counter p) as Hb
    by (intros k x Hx; by apply (H3 k x)).
  assert (map_Forall (λ k x, 1 ≤ k ≤ pool_session_counter p + 1 ∧
    session_id_is (connection_ids k) (mn_session x) ∧
    (position (mn_job_rx x) ≤ length (pool_sent p))%nat) (pool_miners p)) as H3'.
  { intros k x Hx. destruct (H3 k x Hx) as (? & ? & ?). split; [lia|done]. }
  destruct r as [session|e|].
  1: split; [done|]; split; [done|simpl; lia| |].
  - apply map_Forall_insert_2; [|done]. split; [simpl; lia|]. split; [|simpl; rewrite position_subscribe; done].
    unfold accept in E. destruct (connection_ids _) as [i e] eqn:Ei. apply (f_equal fst) in E.
    unfold session_id_is. simpl in *. revert E. unfold SessionState_new, mbind, result_bind.
    destruct (VarDiff_new _ _ _); intros E; by simplify_eq/=.
  - simpl. rewrite count_insert_new; [simpl; lia|].
    apply eq_None_not_Some. intros [x Hx]. apply Hb in Hx. lia.
  - by split; [|split; [|simpl; lia| |]].
  - by split; [|split; [|simpl; lia| |]].
Qed.

Lemma cache_ok_insert (w : World) job (w' : World) :
  typed_job job → wd_cache w' = insert job (wd_cache w) → wd_jobs w' = wd_jobs w ++ [job] →
  cache_ok w → cache_ok w'.
Proof.
  intros Hj E1 E2 [H1 H2 H3 H4]. split; rewrite ?E1, ?E2.
  - by apply cache_inv_insert.
  - done.
  - intros k j [->|Hk]%get_job_insert; [done|by eapply H3|done|done].
  - by rewrite get_latest_insert, last_snoc.
Qed.

Lemma typed_template_job t clean job reason :
  typed_template t → template_to_job t clean = Ok job → typed_job (with_reason reason job).
Proof.
  intros [H1 H2] (_ & _ & Ht & _ & _ & _ & _ & _ & _ & _ & Hv)%template_to_job_run.
  unfold typed_job. simpl. by rewrite Ht, Hv.
Qed.

Lemma consume_good ev p : typed_event (NodeEvent ev) → good_step p (consume ev p).
Proof.
  intros Ht. unfold consume. destruct (pool_consuming p); [|done].
  set (mc := pl_min_confirmations _).
  pose proof (on_event_steps true mc ev (pool_world p)) as Hs.
  pose proof (on_event_jobs true mc ev (pool_world p)) as Hj.
  destruct (on_event true mc ev (pool_world p)) as [r w]. simpl in Hs, Hj.
  intros [H1 H2 H3 H4]. split; [exact Hs|].
  assert (cache_ok w ∧ (length (wd_jobs (pool_world p)) ≤ length (wd_jobs w))%nat) as [Hc Hl].
  { destruct Hj as [[E1 E2]|(reason & t & j & -> & Ej & E1 & E2)].
    - destruct H1. rewrite E2. split; [by split; rewrite ?E1, ?E2|done].
    - rewrite E2, length_app. split; [|lia]. eapply cache_ok_insert; [|done..].
      by eapply typed_template_job. }
  split; [done|done| |done].
  intros n m Hm. destruct (H3 n m Hm) as (? & ? & ?). split; [done|]. split; [done|].
  unfold pool_sent in *. simpl. lia.
Qed.

Lemma pool_step_good ev p : typed_event ev → good_step p (pool_step ev p).
Proof.
  destruct ev as [now|now|n|n node writes e piece|n node writes|n|n|ev|env|env a c|]; intros Ht; simpl.
  - apply good_step_db; [|done..]. apply rtc_once, step_tick.
  - apply accept_miner_good.
  - apply start_miner_good.
  - apply read_input_good.
  - apply receive_job_good.
  - apply hang_up_good.
  - apply finish_miner_good.
  - by apply consume_good.
  - unfold handle_payout. destruct (wd_payout_events _) as [|e rest]; [done|].
    destruct (pool_paying p); [|done].
    pose proof (handle_event_steps env (payout_params config) e (wd_db (pool_world p))) as Hs.
    destruct (handle_event _ _ e _) as [r d]. by apply good_step_db.
  - unfold serve. destruct (router_effect env (app_state p) a c (pool_db p)) as [Hs _].
    destruct (create_router _ _ a c _) as [r d]. by apply good_step_db.
  - by apply good_step_db.
Qed.

Lemma pool_run_good evs p : Forall typed_event evs → good_step p (pool_run evs p).
Proof.
  intros Hf. revert p. induction Hf as [|ev evs He _ IH]; intros p Hp; [done|].
  destruct (pool_step_good ev p He Hp) as [H1 H2]. destruct (IH _ H2) as [H3 H4].
  split; [by etrans|done].
Qed.

Lemma boot_good read_key open subscribe template n1 n2 n3 d0 p d :
  boot read_key open subscribe template n1 n2 n3 d0 = (Ok p, d) → typed_template template →
  rtc step d0 (pool_db p) ∧ pool_ok p ∧ pool_miners p = ∅ ∧
  ∃ job, template_to_job template false = Ok job ∧ pool_sent p = [job].
Proof.
  unfold boot. intros H Ht. set (mc := pl_min_confirmations _) in H.
  pose proof (startup_steps n1 n2 n3 mc d0) as Hs. revert H. munfold.
  destruct (template_to_job template false) as [job|e|] eqn:Ej; [|done..].
  destruct (startup n1 n2 n3 mc d0) as [[events|e|] d1]; [|done..].
  destruct (select_signer read_key config) as [signer|e|]; [|done..].
  intros [= <- <-]. split; [done|]. split; [|by eauto]. split; [|done| |done].
  - apply (cache_ok_insert (mkWorld d1 (JobCache_new 512) 0 [] []) job); [|done|done|].
    + exact (typed_template_job _ _ _ (j_reason job) Ht Ej).
    + split; [by apply cache_inv_new|done| |done].
      intros k j. unfold get_job. simpl. by rewrite moka_get_new.
  - by intros n m.
Qed.

(** A pool that starts has been booted with the node's first template, from what the
    database file held, and its client is connected. *)
Lemma main_start_boots {nng : NngLib} {txlib : TxLib} {clib : ConfigLib}
    open_db to_template read_key open subscribe n1 n2 n3 p client :
  main_start open_db to_template read_key open subscribe n1 n2 n3 = Ok (p, client) →
  is_connected client = true ∧ ∃ d template,
    open_db (c_sqlite_path config) = Ok d ∧ get_mining_template client = Ok template ∧
    (boot read_key open subscribe (to_template template) n1 n2 n3 d).1 = Ok p.
Proof.
  unfold main_start. munfold. destruct (open_db _) as [d|e|]; [|done..].
  destruct (main_client config) as [c0|e|]; [|done..].
  destruct (connect c0) as [r c1] eqn:Ec. destruct r as [[]|e|]; [|done..].
  destruct (get_mining_template c1) as [t|e|] eqn:Et; [|done..].
  destruct (boot _ _ _ _ _ _ _ d).1 as [q|e|] eqn:Eb; [|done..]. intros [= <- <-].
  split; [|by exists d, t]. unfold connect in Ec. destruct (nng_open _); [|done..]. by simplify_eq/=.
Qed.

(** * Delivery of jobs *)

(** The connection has been told of the job and remembers it, with the difficulty that
    it is worked at. *)
Definition told (job : MiningJob) (m : Miner) : Prop :=
  (∃ lines, last (mn_sent m) = Some (lines ++ [create_notify job])) ∧
  last (ss_assigned_jobs (mn_session m)) =
    Some (mkAssignedJob (j_job_id job) (current_difficulty (mn_session m)) (j_ntime job)) ∧
  (j_clean_jobs job = true → length (ss_assigned_jobs (mn_session m)) = 1%nat).

Lemma receive_serving n m node writes r rx p :
  pool_miners p !! n = Some m → mn_phase m = Serving → (∀ i, writes i = true) →
  job_recv (pool_sent p) (mn_job_rx m) = Some (r, rx) →
  let q := receive_job n node writes p in
  pool_sent q = pool_sent p ∧ pool_cache q = pool_cache p ∧
  ∃ m', pool_miners q !! n = Some m' ∧ mn_phase m' = Serving ∧ mn_job_rx m' = rx ∧
    match r with RecvOk job => told job m' | RecvLagged => True end.
Proof.
  intros Hn Hph Hw Hr. unfold receive_job. rewrite Hn, Hph, Hr. unfold miner_turn.
  set (c := mkConn _ _ _ _ _). destruct r as [job|].
  - destruct (on_new_job_run (conn_env node writes) job (set_line "" c)) as (v & lines & E); [apply Hw|].
    change (turn trim (conn_env node writes) (JobBroadcast job) c)
      with (on_new_job (conn_env node writes) job (set_line "" c)).
    cbn zeta in E. rewrite E. split_and!; [done|done|].
    eexists. split; [apply lookup_insert_eq|]. split_and!; [done|done|].
    split; [eexists; apply last_snoc|]. simpl. rewrite last_snoc.
    split; [done|]. by intros ->.
  - split_and!; [done|done|]. eexists. by split; [apply lookup_insert_eq|].
Qed.

Lemma receive_waits n m node writes p :
  pool_miners p !! n = Some m → (length (pool_sent p) ≤ position (mn_job_rx m))%nat →
  receive_job n node writes p = p.
Proof. intros Hn Hp. unfold receive_job. rewrite Hn, job_recv_wait by done. by destruct (mn_phase m). Qed.

Lemma drain_waits k n m node writes p :
  pool_miners p !! n = Some m → (length (pool_sent p) ≤ position (mn_job_rx m))%nat →
  pool_run (replicate k (Receive n node writes)) p = p.
Proof.
  intros Hn Hp. induction k as [|k IH]; [done|]. simpl. by rewrite (receive_waits n m).
Qed.

Lemma drain k n m node writes p :
  pool_miners p !! n = Some m → mn_phase m = Serving → (∀ i, writes i = true) →
  (position (mn_job_rx m) < length (pool_sent p))%nat →
  (length (pool_sent p) - position (mn_job_rx m) ≤ k ∨ kept < k)%nat →
  let q := pool_run (replicate k (Receive n node writes)) p in
  pool_sent q = pool_sent p ∧ pool_cache q = pool_cache p ∧
  ∃ m' job, pool_miners q !! n = Some m' ∧ mn_phase m' = Serving ∧
    (length (pool_sent p) ≤ position (mn_job_rx m'))%nat ∧
    last (pool_sent p) = Some job ∧ told job m'.
Proof.
  revert m p. induction k as [|k IH]; intros m p Hn Hph Hw Hlt Hk; [lia|].
  pose proof kept_enough.
  change (pool_run (replicate (S k) (Receive n node writes)) p)
    with (pool_run (replicate k (Receive n node writes)) (receive_job n node writes p)).
  assert (∃ r rx, job_recv (pool_sent p) (mn_job_rx m) = Some (r, rx) ∧
    ((position rx < length (pool_sent p))%nat ∧
       (length (pool_sent p) - position rx ≤ k ∨ kept < k)%nat ∨
     (length (pool_sent p) ≤ position rx)%nat ∧
       ∃ job, r = RecvOk job ∧ last (pool_sent p) = Some job)) as (r & rx & Hr & Hrx).
  { destruct (decide (length (pool_sent p) - position (mn_job_rx m) ≤ kept)%nat).
    - destruct (lookup_lt_is_Some_2 (pool_sent p) (position (mn_job_rx m))) as [job Hj]; [done|].
      destruct (job_recv_ok (pool_sent p) (mn_job_rx m) job) as (rx & E & Hp); [done..|].
      exists (RecvOk job), rx. split; [done|]. rewrite Hp.
      destruct (decide (S (position (mn_job_rx m)) < length (pool_sent p))%nat); [left; lia|].
      right. split; [lia|]. exists job. split; [done|]. rewrite last_lookup, <-Hj. f_equal. lia.
    - destruct (job_recv_lagged (pool_sent p) (mn_job_rx m)) as (rx & E & Hp); [lia|].
      exists RecvLagged, rx. split; [done|]. left. lia. }
  destruct (receive_serving n m node writes r rx p Hn Hph Hw Hr) as (E1 & E2 & m' & Hm' & Hph' & Hrx' & Ht).
  destruct Hrx as [[H1 H2]|[H1 (job & -> & Hl)]].
  - destruct (IH m' _ Hm' Hph' Hw) as (F1 & F2 & F3); [by rewrite E1, Hrx'..|].
    rewrite E1, E2 in *. done.
  - rewrite (drain_waits k n m') by (done || by rewrite E1, Hrx').
    split_and!; [done|done|]. exists m', job. split_and!; [done|done|by rewrite Hrx'|done|done].
Qed.

(** * The sessions *)

(** The difficulty of a job, if its target is one, is a number not below the floor. *)
Definition target_fits (target_hex : string) : bool :=
  match network_target_hex_to_difficulty hex_decode target_to_difficulty target_hex with
  | Some n => f64_le (min_floor vardiff_config) n && f64_finite n
  | None => true
  end.

Definition fit_event (ev : pool_event) : bool :=
  match ev with NodeEvent (WorkChanged _ (Ok t)) => target_fits (t_target_hex_be t) | _ => true end.

Record sessions_ok (p : Pool) : Prop := {
  se_jobs : Forall (λ job, target_fits (j_network_target_hex job) = true) (pool_sent p);
  se_miners : map_Forall (λ _ m, session_ok vardiff_config (mn_session m)) (pool_miners p);
}.

Lemma sessions_ok_insert p p' n m' :
  pool_sent p' = pool_sent p → pool_miners p' = <[n := m']> (pool_miners p) →
  session_ok vardiff_config (mn_session m') → sessions_ok p → sessions_ok p'.
Proof. intros E1 E2 Hm [H1 H2]. split; [by rewrite E1|]. rewrite E2. by apply map_Forall_insert_2. Qed.

Lemma miner_turn_sessions n m rx env ev p :
  pool_miners p !! n = Some m →
  (∀ job, ev = JobBroadcast job → job ∈ pool_sent p) →
  sessions_ok p → sessions_ok (miner_turn n m rx env ev p).
Proof.
  intros Hn Hev Hp. unfold miner_turn. set (c := mkConn (mn_session m) _ _ _ _).
  pose proof (turn_closed trim _ _ (session_ok_closed vardiff_config) env ev) as Hok.
  assert (event_good (job_above_floor vardiff_config) ev = true) as He.
  { destruct ev as [| |job|]; try done. simpl. specialize (Hev job eq_refl).
    pose proof (proj1 (Forall_forall _ _) (se_jobs _ Hp) job Hev) as Hj. cbn beta in Hj.
    unfold target_fits in Hj. unfold job_above_floor.
    destruct (network_target_hex_to_difficulty _ _ _); [|done]. by apply andb_true_iff in Hj as [? _]. }
  specialize (Hok He c (se_miners _ Hp n m Hn)).
  destruct (turn trim env ev c) as [r c']. eapply (sessions_ok_insert p _ _); [done|reflexivity|exact Hok|done].
Qed.

Lemma job_recv_sent sent rx job rx' : job_recv sent rx = Some (RecvOk job, rx') → job ∈ sent.
Proof.
  intros H. destruct (decide (length sent ≤ position rx)%nat); [by rewrite job_recv_wait in H|].
  destruct (decide (length sent - position rx ≤ kept)%nat).
  - destruct (lookup_lt_is_Some_2 sent (position rx)) as [j Hj]; [lia|].
    destruct (job_recv_ok sent rx j) as (rx2 & E & _); [done..|].
    rewrite H in E. simplify_eq. by eapply list_elem_of_lookup_2.
  - destruct (job_recv_lagged sent rx) as (rx2 & E & _); [lia|]. by rewrite H in E.
Qed.

Lemma accept_miner_sessions now p :
  f64_finite (initial_pct vardiff_config) = true → cache_ok (pool_world p) →
  sessions_ok p → sessions_ok (accept_miner now p).
Proof.
  intros Hf [_ _ _ Hl] Hp. unfold accept_miner. destruct (pool_accepting p); [|done].
  destruct (accept _ _ _ now) as [r count] eqn:E. destruct r as [session|e|]; [|by destruct Hp..].
  eapply (sessions_ok_insert p _ _); [done|reflexivity| |done]. cbn [mn_session].
  apply (accept_ok vardiff_config (pool_cache p) (pool_session_counter p) now session);
    [by rewrite E|done|].
  unfold accept in E. destruct (connection_ids _) as [i x]. apply (f_equal fst) in E. revert E.
  unfold SessionState_new, VarDiff_new, mbind, result_bind. simpl.
  destruct (f64_clamp _ _ _); intros [= <-]. simpl. unfold pool_cache. rewrite Hl.
  destruct (last (wd_jobs (pool_world p))) as [job|] eqn:Ej; [|reflexivity]. simpl.
  pose proof (proj1 (Forall_forall _ _) (se_jobs _ Hp) job) as Hj. cbn beta in Hj.
  unfold target_fits in Hj. destruct (network_target_hex_to_difficulty _ _ _); [|reflexivity].
  apply andb_true_iff in Hj as [_ ?]; [done|]. apply last_Some in Ej as [l El]. unfold pool_sent. rewrite El. apply elem_of_app. right. by apply list_elem_of_singleton.
Qed.

Lemma pool_step_sessions ev p :
  f64_finite (initial_pct vardiff_config) = true → fit_event ev = true →
  cache_ok (pool_world p) → sessions_ok p → sessions_ok (pool_step ev p).
Proof.
  intros Hf Hev Hc Hp.
  destruct ev as [now|now|n|n node writes e piece|n node writes|n|n|ev|env|env a c|]; simpl.
  - by destruct Hp.
  - by apply accept_miner_sessions.
  - unfold start_miner. destruct (pool_miners p !! n) as [m|] eqn:Hn; [|done].
    destruct (mn_phase m); try done.
    eapply (sessions_ok_insert p _ _); [done|reflexivity|by apply (se_miners _ Hp n m)|done].
  - unfold read_input. destruct (pool_miners p !! n) as [m|] eqn:Hn; [|done].
    destruct (mn_phase m); try done. apply miner_turn_sessions; [done| |done]. by destruct e.
  - unfold receive_job. destruct (pool_miners p !! n) as [m|] eqn:Hn; [|done].
    destruct (mn_phase m); try done. destruct (job_recv _ _) as [[r rx]|] eqn:E; [|done].
    apply miner_turn_sessions; [done| |done]. intros job Hj.
    destruct r; simplify_eq. by eapply job_recv_sent.
  - unfold hang_up. destruct (pool_miners p !! n) as [m|] eqn:Hn; [|done].
    destruct (mn_phase m); try done.
    eapply (sessions_ok_insert p _ _); [done|reflexivity|by apply (se_miners _ Hp n m)|done].
  - unfold finish_miner. destruct (pool_miners p !! n) as [m|] eqn:Hn; [|done].
    destruct (mn_phase m); try done. destruct Hp as [H1 H2]. split; [done|].
    simpl. intros k x [_ Hx]%lookup_delete_Some. exact (H2 k x Hx).
  - unfold consume. destruct (pool_consuming p); [|done]. set (mc := pl_min_confirmations _).
    pose proof (on_event_jobs true mc ev (pool_world p)) as Hj.
    destruct (on_event true mc ev (pool_world p)) as [r w]. simpl in Hj. destruct Hp as [H1 H2].
    split; [|done]. unfold pool_sent. simpl.
    destruct Hj as [[_ ->]|(reason & t & j & -> & Ej & _ & ->)]; [done|].
    apply Forall_app. split; [done|]. apply Forall_singleton. simpl.
    apply template_to_job_run in Ej as (_ & _ & _ & _ & _ & _ & _ & _ & -> & _). exact Hev.
  - unfold handle_payout. destruct (wd_payout_events _) as [|e rest]; [done|].
    destruct (pool_paying p); [|done]. destruct (handle_event _ _ e _) as [r d]. by destruct Hp.
  - unfold serve. destruct (create_router _ _ a c _) as [r d]. by destruct Hp.
  - by destruct Hp.
Qed.

Lemma pool_run_sessions evs p :
  f64_finite (initial_pct vardiff_config) = true →
  Forall typed_event evs → forallb fit_event evs = true →
  pool_ok p → sessions_ok p → sessions_ok (pool_run evs p).
Proof.
  intros Hf Ht. revert p. induction Ht as [|ev evs He _ IH]; intros p Hev Hok Hp; [done|].
  simpl in Hev. apply andb_true_iff in Hev as [H1 H2].
  destruct (pool_step_good ev p He Hok) as [_ Hok']. apply IH; [done|done|].
  apply pool_step_sessions; [done|done|apply Hok|done].
Qed.

(** * Properties *)

Section booted.
Context (read_key : string → result unit) (open subscribe : string → option string).
Context (template : MiningTemplate).
Context (node1 node2 node3 : HttpNode) (d0 : Db) (p : Pool).

(** C11: from any database that a pool can have left behind, and whatever
    miners, node, payout channel and API clients do, in any interleaving and with any
    task failing on the way: all that the running pool does to the books is a sequence of
    calls of the accounting service, so that the books keep the invariant of the service,
    and no found block is ever in two payout batches. *)
Theorem pool_refines evs now :
  (boot read_key open subscribe template node1 node2 node3 d0).1 = Ok p → reachable now d0 →
  typed_template template → Forall typed_event evs →
  let d := pool_db (pool_run evs p) in
  rtc step d0 d ∧ reachable now d ∧ NoDup (blocks_paid d).
Proof.
  intros Hb Hd Ht He d. destruct (boot _ _ _ _ _ _ _ d0) as [r d1] eqn:E. simpl in Hb. subst r.
  destruct (boot_good _ _ _ _ _ _ _ _ _ _ E Ht) as (H1 & H2 & _).
  destruct (pool_run_good evs p He H2) as [H3 _].
  assert (rtc step d0 d) as Hs by (by etrans). assert (reachable now d) by (by eapply reachable_steps).
  split_and!; [done|done|by eapply reachable_paid_once].
Qed.

(** C18: in every state of a running pool the count of connected miners that
    the API shows is the number of connections whose task has started and not ended (one
    that panicked stays in it), so that it never wraps below zero; each connection has the
    session id and the extranonce of its number, so that no two share an id, and two share
    an extranonce only if a multiple of two to the 32 connections came between them; and
    the latest job of the cache is the last one sent to the sessions. *)
Theorem pool_invariant evs :
  (boot read_key open subscribe template node1 node2 node3 d0).1 = Ok p →
  typed_template template → Forall typed_event evs →
  let p' := pool_run evs p in
  st_connected_miners (pool_stats (update_stats p')) = count_miners (pool_miners p') ∧
  (∀ n m, pool_miners p' !! n = Some m →
     connection_ids n = (ss_session_id (mn_session m), ss_extranonce1 (mn_session m))) ∧
  (∀ n n' m m', pool_miners p' !! n = Some m → pool_miners p' !! n' = Some m' →
     (ss_session_id (mn_session m) = ss_session_id (mn_session m') → n = n') ∧
     (ss_extranonce1 (mn_session m) = ss_extranonce1 (mn_session m') ↔
        n `mod` 2 ^ 32 = n' `mod` 2 ^ 32)) ∧
  get_latest (pool_cache p') = last (pool_sent p').
Proof.
  intros Hb Ht He p'. destruct (boot _ _ _ _ _ _ _ d0) as [r d1] eqn:E. simpl in Hb. subst r.
  destruct (boot_good _ _ _ _ _ _ _ _ _ _ E Ht) as (_ & H2 & _).
  destruct (pool_run_good evs p He H2) as [_ [[_ _ _ Hl] Hc Hm Hn]].
  split_and!; [exact Hn| | |done].
  - intros n m Hx. by destruct (Hm n m Hx) as (_ & <- & _).
  - intros n n' m m' Hx Hx'. destruct (Hm n m Hx) as (Bn & I1 & _).
    destruct (Hm n' m' Hx') as (Bn' & I2 & _). unfold session_id_is in *.
    destruct (extranonce1_unique n n') as (_ & _ & U1 & U2); [lia|lia|].
    rewrite <-I1, <-I2 in U1, U2. simpl in *. split; [apply U2|exact U1].
Qed.

(** C16: as long as the network difficulty is a number and not below the
    configured floor, every session of a running pool, at every point of every
    interleaving, is authorized exactly when it has an authorized worker, then is
    subscribed, has only worker names among its workers and remembers at most 128 jobs, and
    the difficulty its miner works at is between the floor and the network difficulty. *)
Theorem pool_sessions evs n m :
  (boot read_key open subscribe template node1 node2 node3 d0).1 = Ok p →
  typed_template template → Forall typed_event evs →
  f64_finite (initial_pct vardiff_config) = true →
  target_fits (t_target_hex_be template) = true → forallb fit_event evs = true →
  pool_miners (pool_run evs p) !! n = Some m →
  let s := mn_session m in
  session_wf s ∧ f64_le (min_floor vardiff_config) (current_difficulty s) = true ∧
  f64_le (current_difficulty s) (vd_max (ss_vardiff s)) = true.
Proof.
  intros Hb Ht He Hf Hfit Hev Hm. destruct (boot _ _ _ _ _ _ _ d0) as [r d1] eqn:E.
  simpl in Hb. subst r. destruct (boot_good _ _ _ _ _ _ _ _ _ _ E Ht) as (_ & H2 & H3 & job & Ej & H4).
  assert (sessions_ok p) as Hp.
  { split; [|by rewrite H3]. rewrite H4. apply Forall_singleton.
    by apply template_to_job_run in Ej as (_ & _ & _ & _ & _ & _ & _ & _ & -> & _). }
  destruct (se_miners _ (pool_run_sessions evs p Hf He Hev H2 Hp) n m Hm) as (H5 & [H6 H7] & H8).
  cbn zeta. rewrite H8 in H6. done.
Qed.

(** C20: work reaches the miners, whether they have authorized a worker, or subscribed, or
    not: only the first job waits for an authorization. When a connection of a running pool has
    jobs to receive and what it writes arrives, then as many turns as jobs are waiting, and
    no more than one more than the channel keeps jobs however far it is behind, bring it up
    to date: it then waits for the next job, the last line it was sent is the notification
    of the latest job of the cache, and the last assignment that it remembers, the only one
    if the job replaces all others, is that job at the session's difficulty. *)
Theorem latest_job_delivered evs n m node writes k :
  (boot read_key open subscribe template node1 node2 node3 d0).1 = Ok p →
  typed_template template → Forall typed_event evs →
  let q := pool_run evs p in
  pool_miners q !! n = Some m → mn_phase m = Serving → (∀ i, writes i = true) →
  (position (mn_job_rx m) < length (pool_sent q))%nat →
  (length (pool_sent q) - position (mn_job_rx m) ≤ k ∨ kept < k)%nat →
  let q' := pool_run (replicate k (Receive n node writes)) q in
  ∃ m' job, pool_miners q' !! n = Some m' ∧ mn_phase m' = Serving ∧
    get_latest (pool_cache q') = Some job ∧ told job m' ∧
    receive_job n node writes q' = q'.
Proof.
  intros Hb Ht He q Hn Hph Hw Hlt Hk q'.
  destruct (boot _ _ _ _ _ _ _ d0) as [r d1] eqn:E. simpl in Hb. subst r.
  destruct (boot_good _ _ _ _ _ _ _ _ _ _ E Ht) as (_ & H2 & _).
  destruct (pool_run_good evs p He H2) as [_ [[_ _ _ Hl] _ _ _]]. fold q in Hl.
  destruct (drain k n m node writes q Hn Hph Hw Hlt Hk) as (E1 & E2 & m' & job & H3 & H4 & H5 & H6 & H7).
  exists m', job. split_and!; [done|done| |done|].
  - unfold pool_cache in E2 |- *. fold q' in E2. rewrite E2, Hl. done.
  - apply (receive_waits n m'); [done|]. fold q' in E1. by rewrite E1.
Qed.
End booted.
End pool.

(** * Examples *)

#[local] Existing Instance example_target_hashing.
#[local] Existing Instance example_lotus.
#[local] Existing Instance example_address.

(** A channel that keeps 128 jobs; a receiver is its position. *)
Definition queue_recv (sent : list MiningJob) (rx : nat) : option (Recv * nat) :=
  if (length sent <=? rx)%nat then None
  else if (128 <? length sent - rx)%nat then Some (RecvLagged, (length sent - 128)%nat)
  else match sent !! rx with Some job => Some (RecvOk job, S rx) | None => None end.

#[local, refine] Instance queue_channel : JobChannel := {|
  JobReceiver := nat;
  job_subscribe := length (A := MiningJob);
  job_recv := queue_recv;
  kept := 128;
  position rx := rx |}.
Proof.
  - done.
  - done.
  - intros sent rx H. unfold queue_recv. by apply Nat.leb_le in H as ->.
  - intros sent rx job H1 H2. exists (S rx). split; [|done]. unfold queue_recv. rewrite H2.
    apply lookup_lt_Some in H2. destruct (Nat.leb_spec (length sent) rx); [lia|].
    destruct (Nat.ltb_spec 128 (length sent - rx)); [lia|done].
  - intros sent rx H. exists (length sent - 128)%nat. split; [|done]. unfold queue_recv.
    destruct (Nat.leb_spec (length sent) rx); [lia|].
    destruct (Nat.ltb_spec 128 (length sent - rx)); [done|lia].
Defined.

Definition request_json (method : string) (params : list Value) : Value :=
  Object [("id"%string, Number (PosInt 1)); ("method"%string, Str method); ("params"%string, Array params)].

(** Two lines that a miner sends. *)
Definition example_from_str (line : string) : Value + string :=
  if String.eqb line "subscribe" then inl (request_json "mining.subscribe" [])
  else if String.eqb line "authorize" then inl (request_json "mining.authorize" [Str example_worker])
  else inr "parse"%string.

(** A configuration with a signing key. *)
Definition pool_config : Config :=
  pool_overrides (λ key, if String.eqb key "POOL_SIGNING_PRIVATE_KEY" then Some "01"%string else None)
    example_config.

Definition example_boot : DbM (Pool (C := BoundedMap)) :=
  boot pool_config (λ _, Ok tt) (λ _, None) (λ _, None) example_template example_node example_node (tip_node 199).

(** Two miners come, one of them authorizes, and there is new work. *)
Definition events_before : list pool_event :=
  let read n := Read n example_node (λ _, true) (Some 5) in
  [Accept 1; Start 1; read 1 "subscribe"%string; read 1 "authorize"%string; Accept 2; Start 2;
   NodeEvent (WorkChanged NewTip (Ok example_template))].

(** The first gets the work, and the second leaves. *)
Definition example_events : list pool_event :=
  events_before ++
  [Receive 1 example_node (λ _, true); HangUp 2; Finish 2; Request example_api_env None Health;
   UpdateStats].

Definition example_d0 : Db := fresh_db "2026-05-20 12:00:00".

Definition example_start : Pool (C := BoundedMap) :=
  match (example_boot example_d0).1 with
  | Ok p => p
  | _ => mkPool (mkWorld example_d0 (JobCache_new 1) 0 [] []) 0 0 ∅ (mkServerStats 0 0 None) 0
           false false false
  end.

Lemma example_boots : (example_boot example_d0).1 = Ok example_start.
Proof. vm_compute. reflexivity. Qed.

Lemma example_template_typed : typed_template example_template.
Proof. split; unfold in_u64, u64_max; simpl; lia. Qed.

Lemma events_before_typed : Forall typed_event events_before.
Proof.
  unfold events_before. cbv zeta. repeat (apply Forall_cons; split); try exact I; [|apply Forall_nil_2].
  exact example_template_typed.
Qed.

Lemma example_events_typed : Forall typed_event example_events.
Proof.
  unfold example_events. apply Forall_app. split; [exact events_before_typed|].
  repeat (apply Forall_cons; split); try exact I. apply Forall_nil_2.
Qed.

Definition example_end : Pool (C := BoundedMap) :=
  pool_run example_from_str (λ s, s) pool_config example_events example_start.

Lemma pool_refines_witness :
  reachable "2026-05-20 12:00:00" (pool_db example_end) ∧
  length (rows (authorization_events (pool_db example_end))) = 1%nat.
Proof.
  split; [|vm_compute; reflexivity].
  pose proof (pool_refines example_from_str (λ s, s) pool_config (λ _, Ok tt) (λ _, None) (λ _, None) example_template
    example_node example_node (tip_node 199) example_d0 example_start example_events
    "2026-05-20 12:00:00" example_boots (reachable_init _) example_template_typed
    example_events_typed) as (_ & H & _).
  exact H.
Defined.

Lemma pool_invariant_witness :
  st_connected_miners (pool_stats (update_stats example_end)) = 1 ∧
  count_miners (pool_miners example_end) = 1 ∧ is_Some (get_latest (pool_cache example_end)).
Proof.
  destruct (pool_invariant example_from_str (λ s, s) pool_config (λ _, Ok tt) (λ _, None) (λ _, None) example_template
    example_node example_node (tip_node 199) example_d0 example_start example_events
    example_boots example_template_typed example_events_typed) as (H & _ & _ & Hl).
  change (pool_run _ _ _ _ _) with example_end in H, Hl.
  rewrite H, Hl. split; [vm_compute; reflexivity|]. split; [vm_compute; reflexivity|].
  vm_compute. by eexists.
Defined.

(** What the witnesses read off a connection. *)
Definition view (m : Miner) : Phase * nat * bool :=
  (mn_phase m, position (mn_job_rx m), ss_is_authorized (mn_session m)).

Lemma pool_sessions_witness :
  ∃ m, pool_miners example_end !! 1 = Some m ∧ ss_is_authorized (mn_session m) = true ∧
    session_wf (mn_session m).
Proof.
  assert (view <$> pool_miners example_end !! 1 = Some (Serving, 2%nat, true)) as Hv
    by (vm_compute; reflexivity).
  apply fmap_Some in Hv as (m & E & [= _ _ Ha]). exists m. split; [exact E|]. split; [done|].
  apply (pool_sessions example_from_str (λ s, s) pool_config (λ _, Ok tt) (λ _, None) (λ _, None) example_template
    example_node example_node (tip_node 199) example_d0 example_start example_events 1 m
    example_boots example_template_typed example_events_typed);
    [vm_compute; reflexivity..|exact E].
Defined.

(** After the new work and before its receipt, the miner is one job behind. *)
Lemma latest_job_delivered_witness :
  let q := pool_run example_from_str (λ s, s) pool_config events_before example_start in
  let q' := pool_run example_from_str (λ s, s) pool_config [Receive 1 example_node (λ _, true)] q in
  ∃ m' job, pool_miners q' !! 1 = Some m' ∧ get_latest (pool_cache q') = Some job ∧ told job m'.
Proof.
  intros q q'.
  assert (view <$> pool_miners q !! 1 = Some (Serving, 1%nat, true)) as Hv
    by (vm_compute; reflexivity).
  assert (length (pool_sent q) = 2%nat) as Hl by (vm_compute; reflexivity).
  apply fmap_Some in Hv as (m & E & Hm). injection Hm as Hph Hpos _.
  destruct (latest_job_delivered example_from_str (λ s, s) pool_config (λ _, Ok tt) (λ _, None) (λ _, None) example_template
    example_node example_node (tip_node 199) example_d0 example_start events_before 1 m
    example_node (λ _, true) 1 example_boots example_template_typed events_before_typed)
    as (m' & job & H1 & _ & H2 & H3 & _); [exact E|exact (eq_sym Hph)|intros ?; reflexivity|..].
  - fold q. rewrite Hl, <-Hpos. apply le_n.
  - left. fold q. rewrite Hl, <-Hpos. apply le_n.
  - exists m', job. split; [exact H1|]. split; [exact H2|exact H3].
Defined.
