(* ===== verification/PoolPayout.v ===== *)
(** From a matured block to its payout batch, through the running pool: the payout
    handler never stops, and no event of a matured block is lost between the consumer and
    the handler, whatever the other tasks do in between. *)
From Stdlib Require Import ZArith Lia String Ascii Init.Byte.
From stdpp Require Import base option list numbers strings sets gmap fin_maps.
From S2P Require Import Prelude Text Float64 VarDiff Json Db FoundBlockRepository PayoutRepository Frames Plan AccountingService PayoutService PayoutSubmission AccountingSystem Lifecycle Job JobCache Protocol Session Validator JsonRpc Server Template PayoutHandler Consumer HttpApi Config Startup Pool.
#[local] Open Scope Z_scope.

(** * The handler never stops *)

(** Calls of the node and of the signer that give an answer or an error. *)
Record env_total (env : PayoutEnv) : Prop := {
  et_block x : rpc_get_block env x ≠ Panic;
  et_tx x : rpc_get_raw_transaction env x ≠ Panic;
  et_sign x : sign_and_submit env x ≠ Panic;
}.

Section handler.
Context {so : SqlOrder} {hashing : Hashing}.

Lemma steps_blocks d d' : rtc step d d' → blocks_rel d d'.
Proof. induction 1 as [|x y z H _ IH]; [done|]. intros Hx. by apply IH, (step_blocks x). Qed.

Lemma query_safe {A} (f : Db → result A) :
  (∀ d, blocks_ok d → f d ≠ Panic) → Safe blocks_ok (query f).
Proof. intros H d Hd. split; [by apply H|done]. Qed.
Lemma query_ok_safe {A} (f : Db → A) : Safe blocks_ok (query (λ d, Ok (f d))).
Proof. by apply query_safe. Qed.
Lemma query_or_safe {A} e (f : Db → option A) : Safe blocks_ok (query (λ d, ok_or e (f d))).
Proof. apply query_safe. intros d _. by destruct (f d). Qed.
Lemma round_query_safe i : Safe blocks_ok (query (λ d, get_by_round_id d i)).
Proof. apply query_safe. intros d Hd. rewrite get_by_round_id_ok by done. done. Qed.
#[local] Hint Resolve query_ok_safe query_or_safe round_query_safe : keeps.

(** A call of the service that does not panic. *)
Lemma call_safe {A} (c : DbM A) : NoPanic c → (∀ d, step d (c d).2) → Safe blocks_ok c.
Proof. intros H1 H2. apply Safe_of; [done|]. intros d. by apply (step_blocks d). Qed.

Lemma rebuild_safe i pp : Safe blocks_ok (rebuild_payout_plan_for_batch i pp).
Proof.
  unfold rebuild_payout_plan_for_batch. safe.
  - apply Safe_lift. by destruct a0.
  - apply Safe_of; [apply transaction_no_panic|].
    + unfold delete_payouts_by_batch, delete_snapshots_by_batch, record_outputs, carry_dust,
        record_payout, snapshot_share, add_to_dust_balance. no_panic; stmt_no_panic.
    + apply Keeps_transaction; [typeclasses eauto|].
      apply (Keeps_impl (Same found_blocks)); [exact Same_blocks|]. keeps.
Qed.
#[local] Hint Resolve rebuild_safe : keeps.

Lemma update_block_safe p f :
  (∀ d b, fb_coinbase_value (f d b) = fb_coinbase_value b ∧
          fb_template_id (f d b) = fb_template_id b) →
  Safe blocks_ok (update_blocks p f).
Proof.
  intros H. apply Safe_of; [unfold update_blocks; stmt_no_panic|]. by apply update_blocks_blocks.
Qed.
Lemma update_batch_safe i f : Safe blocks_ok (update_batch i f).
Proof. apply Safe_of; [unfold update_batch; stmt_no_panic|]. by intros d Hd. Qed.
#[local] Hint Resolve update_batch_safe : keeps.
#[local] Hint Extern 4 (Safe blocks_ok (update_coinbase_txid _ _)) =>
  by apply update_block_safe : keeps.
#[local] Hint Extern 4 (Safe blocks_ok (update_status _ _)) =>
  by apply update_block_safe : keeps.
#[local] Hint Extern 4 (Safe blocks_ok (mark_batch_submitted _ _)) =>
  apply update_batch_safe : keeps.
#[local] Hint Extern 4 (Safe blocks_ok (update_batch_status _ _)) =>
  apply update_batch_safe : keeps.

Lemma process_pending_safe env pp :
  env_total env → Safe blocks_ok (process_pending_payouts env pp).
Proof.
  intros [H1 H2 H3].
  unfold process_pending_payouts, process_batch, resolve_coinbase_txid, batch_outputs. safe.
  by destruct (H1 (fb_block_hash f)).
Qed.
#[local] Hint Resolve process_pending_safe : keeps.

Lemma handle_event_safe env pp e : env_total env → Safe blocks_ok (handle_event env pp e).
Proof.
  intros He. assert (∀ b, Safe blocks_ok (create_payout_for_found_block b pp)).
  { intros b. apply call_safe; [apply create_payout_no_panic|]. intros d. apply step_create. }
  unfold handle_event, on_block_matured, confirm_connected, confirm_one,
    process_pending_payouts_locked. safe.
Qed.
(** * A matured block gets a batch *)

(** A batch of the block, as the guard against a second one sees it. *)
Definition has_batch (h : string) (d : Db) : Prop := 0 < count_existing d h.

Lemma has_batch_steps h d d' : rtc step d d' → has_batch h d → has_batch h d'.
Proof. intros Hs. by apply count_existing_grows, steps_append_only. Qed.

Lemma payable_steps h d d' : rtc step d d' → payable h d → payable h d'.
Proof. intros Hs. by apply payable_grows, steps_append_only. Qed.

Lemma already_paid_batch d h : already_paid d h = true → has_batch h d.
Proof.
  unfold already_paid, list_batches. intros (b & Hb & Hk)%existsb_exists.
  destruct (pb_retry_key b) as [k|] eqn:Ek; [|done]. unfold starts_with in Hk.
  destruct (strip_prefix h k) as [t|] eqn:Et; [|done]. apply strip_prefix_Some in Et as ->.
  eapply count_existing_pos. apply elem_of_map. exists b. rewrite Ek. split; [done|].
  apply list_elem_of_In. by apply in_rev in Hb.
Qed.

Lemma payable_by_hash h d : payable h d → ∃ b, get_by_hash d h = Some b.
Proof.
  intros [(b & -> & Hb)%elem_of_map _]. unfold get_by_hash, select_one.
  destruct (List.find _ _) as [x|] eqn:E; [by eexists|].
  eapply find_none in E; [|by apply list_elem_of_In]. by rewrite String.eqb_refl in E.
Qed.

Lemma matured_has_batch env pp h d :
  db_wf d → payable h d → has_batch h (handle_event env pp (BlockMatured h) d).2.
Proof.
  intros Hwf Hp. destruct (payable_by_hash h d Hp) as [b Hb].
  pose proof (handle_event_steps env pp (BlockMatured h) d) as Hs.
  destruct (decide (0 < count_existing d h)) as [Hc|Hc]; [by eapply has_batch_steps|].
  destruct (block_matured_paid env pp h b d Hwf Hb (proj2 Hp)) as [Hpaid _].
  apply blocks_paid_count. simpl. rewrite Hpaid; [set_solver| |unfold count_existing in *; lia].
  apply not_true_iff_false. by intros H%already_paid_batch.
Qed.
End handler.

(** ** Hashes and the guard *)

(** A hash as the pool writes one: 64 lower-case hexadecimal digits. *)
Definition lower_hex (c : ascii) : bool :=
  let n := N_of_ascii c in ((48 <=? n) && (n <=? 57) || (97 <=? n) && (n <=? 102))%N.
Definition hash_text (h : string) : bool := (String.length h =? 64)%nat && str_all lower_hex h.

Lemma lower_hex_plain c :
  lower_hex c = true → Ascii.eqb c "%" = false ∧ Ascii.eqb c "_" = false ∧ ascii_lower c = c.
Proof. destruct c as [[] [] [] [] [] [] [] []]; vm_compute; intuition discriminate. Qed.

Lemma like_hash h h' t :
  str_all lower_hex h = true → str_all lower_hex h' = true → String.length h = String.length h' →
  sql_like (h ++ "%")%string (h' ++ t)%string = true → h = h'.
Proof.
  revert h'. induction h as [|c h IH]; intros [|c' h']; simpl; try done.
  rewrite !andb_true_iff. intros [Hc Hh] [Hc' Hh'] [= Hl].
  destruct (lower_hex_plain c Hc) as (-> & -> & ->). destruct (lower_hex_plain c' Hc') as (_ & _ & ->).
  simpl. intros [->%Ascii.eqb_eq H]%andb_true_iff. f_equal. eauto.
Qed.

(** With such hashes the guard sees no batch but the block's. *)
Lemma has_batch_paid h d :
  hash_text h = true →
  Forall (λ b, ∃ h', batch_block b = Some h' ∧ hash_text h' = true) (rows (payout_batches d)) →
  has_batch h d → h ∈ blocks_paid d.
Proof.
  unfold has_batch, count_existing. intros [Hl%Nat.eqb_eq Hh]%andb_true_iff Hk Hc.
  destruct (List.filter _ _) as [|b l] eqn:E; [simpl in Hc; lia|].
  match type of E with List.filter ?f ?r = _ =>
    assert (In b (List.filter f r)) as [Hb Hp]%filter_In by (rewrite E; by left) end.
  apply list_elem_of_In in Hb. rewrite Forall_forall in Hk.
  destruct (Hk b Hb) as (h' & Hbb & [Hl'%Nat.eqb_eq Hh']%andb_true_iff).
  apply list_elem_of_omap. exists b. split; [done|]. rewrite Hbb. f_equal.
  unfold batch_block in Hbb. destruct (pb_retry_key b) as [k|]; [|done]. simpl in Hbb.
  destruct (rsplit_at ":" k) as [[x y]|] eqn:Er; [|done]. simplify_eq/=.
  apply rsplit_at_Some in Er. subst k. symmetry. eapply like_hash; [done|done|congruence|done].
Qed.

(** * Through the channel *)

Section queue.
Context {so : SqlOrder} {hashing : Hashing} {lotus : LotusLib} {la : LotusAddress}.
Context {C : Type} {moka : MokaCache C} {jobs : JobChannel}.
Context (from_str : string → Value + string) (trim : string → string) (config : Config).

(** The events that wait for the payout handler. *)
Definition pool_queue (p : Pool (C := C)) : list PayoutEvent := wd_payout_events (pool_world p).

Definition queue_grows (w w' : World (C := C)) : Prop :=
  wd_payout_events w `prefix_of` wd_payout_events w'.
#[local] Instance queue_grows_preorder : PreOrder queue_grows.
Proof. unfold queue_grows. split; red; intros; [done|by etrans]. Qed.

Lemma run_db_queue {A} (m : DbM A) : Keeps queue_grows (run_db m).
Proof. intros w. unfold run_db, queue_grows. by destruct (m (wd_db w)). Qed.
Lemma set_tip_queue t : Keeps queue_grows (set_tip t).
Proof. intros w. unfold queue_grows. done. Qed.
Lemma send_payout_queue e : Keeps queue_grows (send_payout e).
Proof. intros w. by apply prefix_app_r. Qed.
Lemma publish_queue j : Keeps queue_grows (publish j).
Proof. intros w. unfold queue_grows. done. Qed.
#[local] Hint Resolve run_db_queue set_tip_queue send_payout_queue publish_queue : keeps.

Lemma on_event_queue accounting m ev : Keeps queue_grows (on_event accounting m ev).
Proof. unfold on_event, on_mining_work_changed, handle_block_connected. keeps. Qed.

(** A turn of the payout handler. *)
Definition handles (ev : pool_event) : bool := match ev with HandlePayout _ => true | _ => false end.
Definition handled (evs : list pool_event) : nat := length (List.filter handles evs).
(** The node and the signer answer the handler. *)
Definition answered (ev : pool_event) : Prop :=
  match ev with HandlePayout env => env_total env | _ => True end.

#[local] Abbreviation step_of := (pool_step from_str trim config).
#[local] Abbreviation run_of := (pool_run from_str trim config).

(** The tasks other than the payout handler leave it running and only add to its queue. *)
Lemma step_queue ev p :
  handles ev = false →
  pool_paying (step_of ev p) = pool_paying p ∧ pool_queue p `prefix_of` pool_queue (step_of ev p).
Proof.
  assert (∀ n m rx env e, let q := miner_turn trim n m rx env e p in
    pool_paying q = pool_paying p ∧ pool_queue p `prefix_of` pool_queue q) as Hturn.
  { intros n m rx env e. unfold miner_turn. by destruct (turn _ _ _ _). }
  destruct ev as [now|now|n|n node writes e piece|n node writes|n|n|ev|env|env a c|]; intros Hh; simpl.
  - done.
  - unfold accept_miner. destruct (pool_accepting p); [|done].
    destruct (accept _ _ _ now) as [r count]. by destruct r.
  - unfold start_miner. by repeat case_match.
  - unfold read_input. repeat case_match; done || apply Hturn.
  - unfold receive_job. repeat case_match; done || apply Hturn.
  - unfold hang_up. by repeat case_match.
  - unfold finish_miner. by repeat case_match.
  - unfold consume. destruct (pool_consuming p); [|done]. set (mc := pl_min_confirmations _).
    pose proof (on_event_queue true mc ev (pool_world p)) as Hq.
    by destruct (on_event true mc ev (pool_world p)).
  - done.
  - unfold serve. by destruct (create_router _ _ a c _).
  - done.
Qed.

(** The handler takes the first event, keeps running, and pays a block that matured. *)
Lemma handler_step env p e rest :
  db_wf (pool_db p) → blocks_ok (pool_db p) → env_total env →
  pool_paying p = true → pool_queue p = e :: rest →
  let q := handle_payout config env p in
  pool_paying q = true ∧ pool_queue q = rest ∧
  (∀ h, e = BlockMatured h → payable h (pool_db p) → has_batch h (pool_db q)).
Proof.
  intros Hwf Hb He Hp Hq. unfold handle_payout. unfold pool_queue in Hq. rewrite Hq, Hp.
  destruct (handle_event_safe env (payout_params config) e He (wd_db (pool_world p)) Hb) as [H1 _].
  pose proof (λ h, matured_has_batch env (payout_params config) h (wd_db (pool_world p)) Hwf) as H2.
  destruct (handle_event env (payout_params config) e (wd_db (pool_world p))) as [r d] eqn:E. cbn zeta.
  split_and!; [simpl; by destruct r|done|]. intros h -> Hpay. specialize (H2 h Hpay).
  rewrite E in H2. exact H2.
Qed.

Lemma steps_ok d d' : rtc step d d' → db_wf d → blocks_ok d → db_wf d' ∧ blocks_ok d'.
Proof. intros Hs Hw Hb. split; [by eapply steps_wf|by apply (steps_blocks d)]. Qed.

(** An event in the queue is reached by as many turns of the handler as it is far from
    the head, whatever the other tasks do in between. *)
Lemma queue_drains evs p before h after :
  Forall typed_event evs → Forall answered evs →
  pool_ok p → db_wf (pool_db p) → blocks_ok (pool_db p) → payable h (pool_db p) →
  pool_paying p = true → pool_queue p = before ++ BlockMatured h :: after →
  (length before < handled evs)%nat →
  has_batch h (pool_db (run_of evs p)).
Proof.
  intros Ht. revert p before after.
  induction Ht as [|ev evs Hev Ht IH]; intros p before after Ha Hok Hwf Hb Hpay Hp Hq Hlt;
    [unfold handled in Hlt; simpl in Hlt; lia|].
  apply Forall_cons in Ha as [Ha Has].
  destruct (pool_step_good from_str trim config ev p Hev Hok) as [Hs Hok'].
  destruct (steps_ok _ _ Hs Hwf Hb) as [Hwf' Hb'].
  change (run_of (ev :: evs) p) with (run_of evs (step_of ev p)).
  destruct (handles ev) eqn:Eh.
  - destruct ev as [| | | | | | | |env| |]; try done. unfold handled in Hlt. simpl in Hlt. destruct before as [|e before].
    + destruct (handler_step env p _ _ Hwf Hb Ha Hp Hq) as (_ & _ & H3).
      destruct (pool_run_good from_str trim config evs _ Ht Hok') as [Hr _].
      eapply has_batch_steps; [exact Hr|]. by apply H3.
    + destruct (handler_step env p _ _ Hwf Hb Ha Hp Hq) as (H1 & H2 & _).
      eapply IH; [done|done|done|done|by eapply payable_steps|exact H1|exact H2|].
      simpl in Hlt. unfold handled. lia.
  - destruct (step_queue ev p Eh) as [H1 [more H2]].
    eapply (IH _ before (after ++ more)); [done|done|done|done|by eapply payable_steps|by rewrite H1| |].
    + rewrite H2, Hq, <-app_assoc. done.
    + unfold handled in *. simpl in Hlt. rewrite Eh in Hlt. exact Hlt.
Qed.

(** The handler runs as long as the node and the signer answer it. *)
Lemma paying_run evs p :
  Forall typed_event evs → Forall answered evs →
  pool_ok p → db_wf (pool_db p) → blocks_ok (pool_db p) →
  pool_paying p = true → pool_paying (run_of evs p) = true.
Proof.
  intros Ht. revert p. induction Ht as [|ev evs Hev Ht IH]; intros p Ha Hok Hwf Hb Hp; [done|].
  apply Forall_cons in Ha as [Ha Has].
  destruct (pool_step_good from_str trim config ev p Hev Hok) as [Hs Hok'].
  destruct (steps_ok _ _ Hs Hwf Hb) as [Hwf' Hb'].
  change (run_of (ev :: evs) p) with (run_of evs (step_of ev p)).
  apply IH; [done..|]. destruct (handles ev) eqn:Eh.
  - destruct ev as [| | | | | | | |env| |]; try done. simpl.
    destruct (pool_queue p) as [|e rest] eqn:Eq.
    + unfold handle_payout. unfold pool_queue in Eq. by rewrite Eq.
    + by apply (handler_step env p e rest).
  - by destruct (step_queue ev p Eh) as [-> _].
Qed.

(** ** A block is connected *)

(** Connecting a block again does not touch the blocks that wait. *)
Lemma reconnect_immature h d :
  db_wf d →
  (reconnect h d).1 = Ok tt ∧
  ∀ b, b ∈ rows (found_blocks d) → fb_status b = "immature"%string →
    b ∈ rows (found_blocks (reconnect h d).2).
Proof.
  intros Hwf. destruct (get_by_hash d h) as [fb|] eqn:Eg.
  2: { unfold reconnect. by rewrite bind_query, Eg. }
  destruct (String.eqb (fb_status fb) "orphaned") eqn:Es.
  2: { unfold reconnect. by rewrite bind_query, Eg, Es. }
  unfold get_by_hash, select_one in Eg. destruct (List.find _ _) as [x|] eqn:Ef; [|done].
  simplify_eq/=. apply find_some in Ef as [Hx Hh%String.eqb_eq]. apply list_elem_of_In in Hx.
  apply String.eqb_eq in Es. subst h.
  destruct (reconnect_run x d Hwf Hx Es) as (H1 & _ & H2). split; [done|].
  intros b Hb Hi. rewrite H2. apply elem_of_map. exists b. split; [|done].
  destruct (String.eqb_spec (fb_block_hash b) (fb_block_hash x)) as [E|]; [|done].
  pose proof (find_unique fb_block_hash _ b (uq_block d Hwf) Hb) as F1.
  pose proof (find_unique fb_block_hash _ x (uq_block d Hwf) Hx) as F2. rewrite E in F1. congruence.
Qed.

Lemma send_matured blocks (w : World (C := C)) :
  mfor blocks (λ b, send_payout (BlockMatured (fb_block_hash b))) w =
    (Ok tt, mkWorld (wd_db w) (wd_cache w) (wd_tip w)
      (wd_payout_events w ++ map (λ b, BlockMatured (fb_block_hash b)) blocks) (wd_jobs w)).
Proof.
  revert w. induction blocks as [|b blocks IH]; intros w; simpl.
  - rewrite app_nil_r. by destruct w.
  - unfold mbind, M_bind, send_payout at 1. rewrite IH. simpl. by rewrite <-app_assoc.
Qed.

(** The blocks that have enough confirmations now are announced to the handler. *)
Lemma connected_queues m block header (w : World (C := C)) b :
  db_wf (wd_db w) → blocks_ok (wd_db w) → header_deser (nb_raw_header block) = Some header →
  b ∈ rows (found_blocks (wd_db w)) → fb_status b = "immature"%string →
  matures (update_block_connected (wd_tip w) (header_height header)) m b = true →
  let '(r, w') := handle_block_connected m block w in
  r = Ok tt ∧ BlockMatured (fb_block_hash b) ∈ wd_payout_events w'.
Proof.
  intros Hwf Hb Hh Hin Hi Hm. unfold handle_block_connected. rewrite Hh.
  set (tip := update_block_connected (wd_tip w) (header_height header)) in *.
  erewrite (bind_run mget) by reflexivity. erewrite (bind_run (set_tip _)) by reflexivity. fold tip.
  set (w1 := mkWorld (wd_db w) (wd_cache w) tip (wd_payout_events w) (wd_jobs w)).
  destruct (reconnect_immature (nb_hash_hex block) (wd_db w) Hwf) as [H1 H2].
  assert (rtc step (wd_db w) (reconnect (nb_hash_hex block) (wd_db w)).2) as Hs.
  { apply reconnect_steps. }
  destruct (steps_ok _ _ Hs Hwf Hb) as [Hwf2 Hb2]. specialize (H2 b Hin Hi).
  destruct (reconnect (nb_hash_hex block) (wd_db w)) as [r d2] eqn:Er. simpl in H1, H2, Hwf2, Hb2. subst r.
  rewrite (bind_run _ _ w1 tt (with_db d2 w1)) by (unfold run_db; simpl; by rewrite Er).
  pose proof (check_maturation_run d2 tip m Hwf2 Hb2) as Hc. cbn zeta in Hc.
  set (ripe := List.filter _ _) in Hc. set (d3 := set_found_blocks d2 _) in Hc.
  rewrite (bind_run _ _ (with_db d2 w1) (inl (rev ripe)) (with_db d3 (with_db d2 w1)))
    by (unfold mtry, run_db; simpl; by rewrite Hc).
  erewrite bind_run by apply send_matured. split; [done|]. simpl.
  apply elem_of_app. left. apply elem_of_app. right. apply elem_of_map. exists b. split; [done|].
  rewrite list_elem_of_In, <-in_rev. apply filter_In. rewrite <-list_elem_of_In. split; [done|].
  apply andb_true_iff. split; [|done]. unfold immature. by rewrite Hi.
Qed.

(** * Properties *)

(** C5: a block that the pool found is paid. In a running pool with a signer,
    when the node's chain passes a block in the books that waits for confirmations and
    whose winning share is recorded, then, once the payout handler has had as many turns
    as events were waiting for it, the books have a payout batch for the block: whatever
    miners, node and API clients do in the meantime, in any interleaving, and whatever the
    node and the signer answered the handler. When all hashes have the form of a hash, the
    batch is the block's own. *)
Theorem found_block_gets_batch read_key open subscribe template node1 node2 node3 d0 p now evs1 evs2 block header b :
  (boot config read_key open subscribe template node1 node2 node3 d0).1 = Ok p → reachable now d0 →
  typed_template template → Forall typed_event (evs1 ++ evs2) → Forall answered (evs1 ++ evs2) →
  pool_paying p = true →
  let q := run_of evs1 p in
  pool_consuming q = true → header_deser (nb_raw_header block) = Some header →
  b ∈ rows (found_blocks (pool_db q)) → fb_status b = "immature"%string →
  matures (update_block_connected (wd_tip (pool_world q)) (header_height header))
    (pl_min_confirmations (po_pplns (c_pool config))) b = true →
  payable (fb_block_hash b) (pool_db q) →
  let q' := step_of (NodeEvent (Connected block)) q in
  (length (pool_queue q') ≤ handled evs2)%nat →
  let d := pool_db (run_of evs2 q') in
  has_batch (fb_block_hash b) d ∧
  (hash_text (fb_block_hash b) = true →
   Forall (λ x, ∃ h, batch_block x = Some h ∧ hash_text h = true) (rows (payout_batches d)) →
   fb_block_hash b ∈ blocks_paid d).
Proof.
  intros Hboot Hd0 Htt [Ht1 Ht2]%Forall_app [Ha1 Ha2]%Forall_app Hpay q Hcons Hh Hb Hi Hm Hpb q' Hlen d.
  destruct (boot _ _ _ _ _ _ _ _ d0) as [r d1] eqn:E. simpl in Hboot. subst r.
  destruct (boot_good _ _ _ _ _ _ _ _ _ _ _ E Htt) as (Hs0 & Hok0 & _).
  destruct (reachable_ok now d0 Hd0) as [Hwf00 Hb00].
  destruct (steps_ok _ _ Hs0 Hwf00 Hb00) as [Hwf0 Hb0].
  destruct (pool_run_good from_str trim config evs1 p Ht1 Hok0) as [Hs1 Hok1]. fold q in Hs1, Hok1.
  destruct (steps_ok _ _ Hs1 Hwf0 Hb0) as [Hwf1 Hb1].
  assert (pool_paying q = true) as Hp1 by (by apply paying_run).
  destruct (pool_step_good from_str trim config (NodeEvent (Connected block)) q I Hok1) as [Hs2 Hok2].
  destruct (step_queue (NodeEvent (Connected block)) q eq_refl) as [Hp2 _].
  fold q' in Hs2, Hok2, Hp2. destruct (steps_ok _ _ Hs2 Hwf1 Hb1) as [Hwf2 Hb2].
  assert (BlockMatured (fb_block_hash b) ∈ pool_queue q') as Hq.
  { subst q'. simpl. unfold consume. rewrite Hcons. simpl.
    pose proof (connected_queues (pl_min_confirmations (po_pplns (c_pool config))) block header
      (pool_world q) b Hwf1 Hb1 Hh Hb Hi Hm) as Hc.
    destruct (handle_block_connected _ block (pool_world q)) as [r w]. apply Hc. }
  apply list_elem_of_split in Hq as (before & after & Hq).
  assert (has_batch (fb_block_hash b) d) as Hbatch.
  { eapply (queue_drains evs2 q' before _ after); try done;
      [by eapply payable_steps|by rewrite Hp2|]. rewrite Hq, length_app in Hlen. simpl in Hlen. lia. }
  split; [done|]. intros Hht Hk. by apply has_batch_paid.
Qed.
End queue.

(** * Examples *)

#[local] Existing Instance example_target_hashing.
#[local] Existing Instance example_lotus.
#[local] Existing Instance example_address.
#[local] Existing Instance queue_channel.

(** A pool that starts with a block in its books while the node is away. *)
Definition paying_boot : DbM (Pool (C := BoundedMap)) :=
  boot pool_config (λ _, Ok tt) (λ _, None) (λ _, None) example_template example_node example_node example_node.
Definition paying_start : Pool (C := BoundedMap) :=
  match (paying_boot example_pool).1 with Ok p => p | _ => example_start end.
Lemma paying_boots : (paying_boot example_pool).1 = Ok paying_start.
Proof. vm_compute. reflexivity. Qed.

Definition next_block : NodeBlock := mkNodeBlock "00bb" [x00] [].

Lemma example_env_total : env_total PayoutSubmission.example_env.
Proof. split; intros x; simpl; [done|done|]. by destruct (String.eqb _ _). Qed.

(** A miner comes between the block and the payout. *)
Definition paying_events : list pool_event :=
  [HandlePayout PayoutSubmission.example_env; Accept 1; Start 1;
   HandlePayout PayoutSubmission.example_env].

Lemma found_block_gets_batch_witness :
  let q' := pool_step example_from_str (λ s, s) pool_config (NodeEvent (Connected next_block))
    paying_start in
  has_batch "00aa" (pool_db (pool_run example_from_str (λ s, s) pool_config paying_events q')).
Proof.
  intros q'.
  assert (Forall answered paying_events) as Ha
    by (repeat (apply Forall_cons; split); try exact I; try exact example_env_total; apply Forall_nil_2).
  assert (header_deser (LotusLib := example_lotus) [x00] ≠ None) as Hh by discriminate.
  destruct (header_deser [x00]) as [header|] eqn:Eh; [|done].
  destruct (found_block_gets_batch example_from_str (λ s, s) pool_config (λ _, Ok tt) (λ _, None) (λ _, None) example_template
    example_node example_node example_node example_pool paying_start "2026-05-20 12:00:00"
    [] paying_events next_block header example_block paying_boots example_pool_reachable
    example_template_typed) as [H _].
  - repeat (apply Forall_cons; split); try exact I. apply Forall_nil_2.
  - exact Ha.
  - vm_compute. reflexivity.
  - vm_compute. reflexivity.
  - exact Eh.
  - vm_compute. left.
  - reflexivity.
  - injection Eh as <-. vm_compute. reflexivity.
  - split; [vm_compute; left|]. vm_compute. discriminate.
  - vm_compute. lia.
  - exact H.
Defined.
