(* ===== verification/Testing.v ===== *)
(** The vocabulary of the unit tests of the code ([#[cfg(test)]]), which the files ending in
    [Tests] run on the model. A test is a computation that must not panic: a failed assertion
    and an [unwrap] of an error are panics. *)
From Stdlib Require Import ZArith String Ascii Init.Byte Floats.SpecFloat.
From stdpp Require Import base option list numbers strings.
From S2P Require Import Prelude Float64.
From S2P Require Text Json JsonRpc.
#[local] Open Scope Z_scope.

Definition test : Type := result unit.

(** [assert!], [assert_eq!], [assert_ne!] *)
Definition assert (b : bool) : test := if b then Ok tt else Panic.
Definition assert_eq {A} `{EqDecision A} (x y : A) : test := assert (bool_decide (x = y)).
Definition assert_ne {A} `{EqDecision A} (x y : A) : test := assert (negb (bool_decide (x = y))).

(** [Result::unwrap], [Option::unwrap], [Result::unwrap_err] *)
Definition unwrap {A} (r : result A) : result A := match r with Ok a => Ok a | _ => Panic end.
Definition unwrap_some {A} (o : option A) : result A := match o with Some a => Ok a | None => Panic end.
Definition is_some {A} (o : option A) : bool := match o with Some _ => true | None => false end.
Definition is_none {A} (o : option A) : bool := negb (is_some o).
Definition is_empty {A} (l : list A) : bool := match l with [] => true | _ => false end.
Definition len {A} (l : list A) : Z := Z.of_nat (length l).

(** [v[i]] *)
Definition at_index {A} (l : list A) (i : nat) : result A := unwrap_some (l !! i).

(** [for x in xs { .. }] *)
Fixpoint for_each {A} (xs : list A) (body : A → test) : test :=
  match xs with
  | [] => Ok tt
  | x :: xs' => body x ;; for_each xs' body
  end.

(** [(x - y).abs() < tolerance], mostly at [f64::EPSILON]. *)
Definition within (tolerance x y : f64) : bool := f64_lt (f64_abs (f64_sub x y)) tolerance.
Definition close : f64 → f64 → bool := within f64_epsilon.

(** [==] on floats. *)
Definition f64_eq : f64 → f64 → bool := SFeqb.

(** [f64::round]: half away from zero. *)
Definition f64_round (x : f64) : f64 :=
  match x with
  | S754_finite s m e =>
      if 0 <=? e then x
      else
        let q := (2 * Z.pos m + 2 ^ (- e)) `div` (2 * 2 ^ (- e)) in
        f64_of_Z (if s then - q else q)
  | _ => x
  end.

(** The same in code with state. *)
Definition massert {S} (b : bool) : M S unit := mlift (assert b).
Definition massert_eq {S A} `{EqDecision A} (x y : A) : M S unit := mlift (assert_eq x y).
Definition munwrap {S A} (c : M S A) : M S A := λ s, let '(r, s') := c s in (unwrap r, s').
Definition munwrap_some {S A} (o : option A) : M S A := mlift (unwrap_some o).
(** The outcome of a call that may fail: its value, or its error. *)
Definition mresult {S A} (c : M S A) : M S (A + error) := mtry c.
Definition is_err {A} (r : A + error) : bool := match r with inr _ => true | inl _ => false end.
(** The last value of a test with state, from an initial state. *)
Definition run_test {S} (s : S) (c : M S unit) : test := (c s).1.

(** The call fails, and the text of its error contains [text]. *)
Definition fails_with {A} (r : result A) (text : string) : test :=
  match r with Err e => assert (JsonRpc.str_contains text (JsonRpc.error_text e)) | _ => Panic end.

(** A list of tests passes when each does. *)
Definition passes (t : test) : bool := match t with Ok tt => true | _ => false end.
Definition all_pass : list test → bool := forallb passes.
(** [#[should_panic]] *)
Definition panics {A} (r : result A) : bool := match r with Panic => true | _ => false end.

(** A query in a test with state. *)
Definition mread {S A} (f : S → A) : M S A := λ s, (Ok (f s), s).
Definition mread_ok {S A} (f : S → result A) : M S A := λ s, (unwrap (f s), s).
Definition mread_some {S A} (f : S → option A) : M S A := λ s, (unwrap_some (f s), s).
Definition mat_index {S A} (l : list A) (i : nat) : M S A := mlift (at_index l i).
Definition massert_ne {S A} `{EqDecision A} (x y : A) : M S unit := mlift (assert_ne x y).

(** A text in double quotes, for the JSON of the tests. *)
Definition quoted (s : string) : string :=
  let q := String (Ascii.ascii_of_nat 34) EmptyString in (q ++ s ++ q)%string.

(** [Result::unwrap_err] *)
Definition munwrap_err {S A} (c : M S A) : M S error := λ s,
  match c s with (Err e, s') => (Ok e, s') | (_, s') => (Panic, s') end.

(** [hex::decode] *)
Definition hex_digit (c : ascii) : option Z :=
  let n := Z.of_N (N_of_ascii c) in
  if (48 <=? n) && (n <=? 57) then Some (n - 48)
  else if (97 <=? n) && (n <=? 102) then Some (n - 87)
  else if (65 <=? n) && (n <=? 70) then Some (n - 55)
  else None.
Fixpoint hex_bytes (s : string) : option (list byte) :=
  match s with
  | EmptyString => Some []
  | String _ EmptyString => None
  | String c (String d s') =>
      h ← hex_digit c; l ← hex_digit d; b ← Byte.of_N (Z.to_N (h * 16 + l));
      rest ← hex_bytes s'; Some (b :: rest)
  end.
#[global] Instance byte_eq_dec : EqDecision byte := Byte.byte_eq_dec.

(** ** Requests of a miner *)

Definition number (n : Z) : Json.Value := Json.Number (Json.PosInt n).
Definition member (k : string) (text : string) : string := (quoted k ++ ":" ++ text)%string.
Definition object_text (members : list string) : string :=
  ("{" ++ String.concat "," members ++ "}")%string.
Definition array_text (items : list string) : string :=
  ("[" ++ String.concat "," (map quoted items) ++ "]")%string.

(** The text of a request, and its value. *)
Definition request_text (id : Z) (method : string) (params : list string) : string :=
  object_text [member "id" (Text.show_u id); member "method" (quoted method);
               member "params" (array_text params)].
Definition request_value (id : Z) (method : string) (params : list string) : Json.Value :=
  Json.Object [("id"%string, number id); ("method"%string, Json.Str method);
               ("params"%string, Json.Array (map Json.Str params))].

(** [serde_json::from_str], which knows the given texts. *)
Definition from_str_of (known : list (string * Json.Value)) (line : string) : Json.Value + string :=
  match List.find (λ e, String.eqb e.1 line) known with
  | Some e => inl e.2
  | None => inr "expected value"%string
  end.
