(* ===== verification/DbTesting.v ===== *)
(** The vocabulary of the unit tests on the database: a test starts from the database that
    [init_schema] makes, and writes rows of its own with [INSERT]. *)
From Stdlib Require Import ZArith String.
From stdpp Require Import base option list numbers strings.
From S2P Require Import Prelude Text Float64 Db Testing.
#[local] Open Scope Z_scope.

Definition db_test_at (now : string) (c : DbM unit) : test := run_test (init_schema None now) c.
Definition db_test : DbM unit → test := db_test_at "2026-05-20 12:00:00".

(** Raw inserts with explicit ids, in ascending order. *)
Definition raw_worker (id : Z) (address : string) (suffix : option string) : DbM unit := λ d,
  (Ok tt, set_workers d (mkTable (rows (workers d) ++ [mkWorker id address suffix]) id)).
Definition raw_round (id start_template_id : Z) (status : string) : DbM unit := λ d,
  (Ok tt, set_rounds d
    (mkTable (rows (rounds d) ++ [mkRound id start_template_id None status None]) id)).

(** Raw inserts with the next id, at the current time. *)
Definition raw_share (worker_id template_id template_epoch : Z)
    (extranonce2 ntime nonce dedupe_key : string) : DbM unit := λ d,
  (Ok tt, set_shares d (insert_row (λ i, mkShareRow (mkShare i worker_id "sess-1" "job-1" template_id
    template_epoch "00000001" extranonce2 ntime nonce (f64_of_Z 1) dedupe_key) (clock d))
    (shares d)).2).
Definition raw_outcome (share_id worker_id : Z) (round_id : option Z) (dedupe_key status : string)
    (reject_reason : option string) (low_diff_ok : bool) : DbM unit := λ d,
  (Ok tt, set_share_outcomes d (insert_row (λ i, mkOutcomeRow (mkShareOutcome i share_id "sess-1"
    worker_id "job-1" round_id dedupe_key status reject_reason None (Some low_diff_ok) (Some false)
    None) (clock d)) (share_outcomes d)).2).
