(* ===== verification/VarDiffTests.v ===== *)
(** The unit tests of [share_processing/difficulty.rs], run on [VarDiff]. The three tests of
    the conversion of a target are about library code. *)
From Stdlib Require Import ZArith.
From stdpp Require Import base option list numbers.
From S2P Require Import Prelude Float64 VarDiff Testing.
#[local] Open Scope Z_scope.

(** [Instant::now()], and [now + Duration::from_secs(n)]. *)
Definition now : Z := 5000000000000.
Definition after (secs : Z) : Z := now + secs * ns_per_sec.

(** [src/src/share_processing/difficulty.rs:168-170 tests::default_config] *)
Definition default_config : VarDiffConfig := VarDiffConfig_default.

Definition with_min_floor (c : VarDiffConfig) (x : f64) : VarDiffConfig :=
  mkVarDiffConfig x (initial_pct c) (target_secs c) (retarget_secs c) (variance_percent c).
Definition with_initial_pct (c : VarDiffConfig) (x : f64) : VarDiffConfig :=
  mkVarDiffConfig (min_floor c) x (target_secs c) (retarget_secs c) (variance_percent c).
Definition with_variance (c : VarDiffConfig) (x : f64) : VarDiffConfig :=
  mkVarDiffConfig (min_floor c) (initial_pct c) (target_secs c) (retarget_secs c) x.
Definition with_current (v : VarDiff) (x : f64) : VarDiff :=
  mkVarDiff (vd_config v) x (vd_max v) (vd_last_retarget v) (vd_share_timestamps v).
Definition with_max (v : VarDiff) (x : f64) : VarDiff :=
  mkVarDiff (vd_config v) (vd_current v) x (vd_last_retarget v) (vd_share_timestamps v).
(** A call of [record_share] per element. *)
Definition record_shares (v : VarDiff) (secs : list Z) : VarDiff :=
  fold_left (λ v n, record_share v (after n)) secs v.

Definition f100 : f64 := f64_of_Z 100.

(** [src/src/share_processing/difficulty.rs:173-182 tests::test_initial_difficulty_from_n_diff] *)
Definition test_initial_difficulty_from_n_diff : test :=
  vardiff ← VarDiff_new default_config f100 now;
  assert (close (current vardiff) (f64_of_Z 2)).

(** [src/src/share_processing/difficulty.rs:185-196 tests::test_initial_clamps_to_min_floor] *)
Definition test_initial_clamps_to_min_floor : test :=
  let config := with_min_floor default_config (f64_of_Z 5) in
  vardiff ← VarDiff_new config f100 now;
  assert (close (current vardiff) (f64_of_Z 5)).

(** [src/src/share_processing/difficulty.rs:199-210 tests::test_initial_clamps_to_n_diff] *)
Definition test_initial_clamps_to_n_diff : test :=
  let config := with_initial_pct default_config (f64_of_Z 2) in
  vardiff ← VarDiff_new config f100 now;
  assert (close (current vardiff) f100).

(** [src/src/share_processing/difficulty.rs:213-221 tests::test_record_share_accepts_timestamp] *)
Definition test_record_share_accepts_timestamp : test :=
  vardiff ← VarDiff_new default_config f100 now;
  let vardiff := record_shares vardiff [1; 5; 10] in
  Ok tt.

(** [src/src/share_processing/difficulty.rs:224-254 tests::test_retarget_increases_difficulty_when_fast] *)
Definition test_retarget_increases_difficulty_when_fast : test :=
  vardiff ← VarDiff_new default_config f100 now;
  let vardiff := record_shares vardiff [5; 10; 20; 25; 30; 40] in
  '(result, vardiff) ← maybe_retarget vardiff (after 61);
  assert (is_some result) ;;
  new_diff ← unwrap_some result;
  assert (close new_diff (f64_of_Z 3)) ;;
  assert (close (current vardiff) (f64_of_Z 3)).

(** [src/src/share_processing/difficulty.rs:257-281 tests::test_retarget_decreases_difficulty_when_slow] *)
Definition test_retarget_decreases_difficulty_when_slow : test :=
  vardiff ← VarDiff_new default_config f100 now;
  let vardiff := record_shares vardiff [5] in
  '(result, vardiff) ← maybe_retarget vardiff (after 61);
  assert (is_some result) ;;
  new_diff ← unwrap_some result;
  assert (within (f64_lit 1 1000) new_diff (f64_lit 134 100)) ;;
  assert (within (f64_lit 1 1000) (current vardiff) (f64_lit 134 100)).

(** [src/src/share_processing/difficulty.rs:284-300 tests::test_retarget_no_change_when_on_target] *)
Definition test_retarget_no_change_when_on_target : test :=
  vardiff ← VarDiff_new default_config f100 now;
  let vardiff := record_shares vardiff [10; 30; 50] in
  '(result, vardiff) ← maybe_retarget vardiff (after 61);
  assert (is_none result) ;;
  assert (close (current vardiff) (f64_of_Z 2)).

(** [src/src/share_processing/difficulty.rs:303-324 tests::test_retarget_not_before_interval] *)
Definition test_retarget_not_before_interval : test :=
  vardiff ← VarDiff_new default_config f100 now;
  let vardiff := record_shares vardiff [1; 5; 10; 15; 20; 25] in
  '(result, vardiff) ← maybe_retarget vardiff (after 30);
  assert (is_none result) ;;
  assert (close (current vardiff) (f64_of_Z 2)).

(** [src/src/share_processing/difficulty.rs:327-350 tests::test_retarget_clamps_to_max] *)
Definition test_retarget_clamps_to_max : test :=
  vardiff ← VarDiff_new default_config f100 now;
  let vardiff := with_current vardiff (f64_of_Z 90) in
  let vardiff := record_shares vardiff [5; 10; 15; 20; 25; 30] in
  '(result, vardiff) ← maybe_retarget vardiff (after 61);
  assert (is_some result) ;;
  new_diff ← unwrap_some result;
  assert (close new_diff f100).

(** [src/src/share_processing/difficulty.rs:353-374 tests::test_retarget_clamps_to_min_floor] *)
Definition test_retarget_clamps_to_min_floor : test :=
  let config := with_initial_pct (with_min_floor default_config (f64_lit 1 2)) (f64_lit 1 2) in
  vardiff ← VarDiff_new config f100 now;
  let vardiff := record_shares vardiff [5] in
  '(result, vardiff) ← maybe_retarget vardiff (after 61);
  assert (is_some result) ;;
  new_diff ← unwrap_some result;
  assert (f64_ge new_diff (f64_lit 1 2)).

(** [src/src/share_processing/difficulty.rs:377-405 tests::test_update_max_clamps_current_down] *)
Definition test_update_max_clamps_current_down : test :=
  vardiff ← VarDiff_new default_config f100 now;
  let vardiff := with_max (with_current vardiff (f64_of_Z 150)) f100 in
  let '(result, vardiff) := update_max vardiff (f64_of_Z 50) in
  assert (is_some result) ;;
  new_diff ← unwrap_some result;
  assert (close new_diff (f64_of_Z 50)) ;;
  assert (close (current vardiff) (f64_of_Z 50)) ;;
  assert (close (vd_max vardiff) (f64_of_Z 50)).

(** [src/src/share_processing/difficulty.rs:408-427 tests::test_update_max_higher_no_clamp] *)
Definition test_update_max_higher_no_clamp : test :=
  vardiff ← VarDiff_new default_config f100 now;
  let '(result, vardiff) := update_max vardiff (f64_of_Z 200) in
  assert (is_none result) ;;
  assert (close (current vardiff) (f64_of_Z 2)) ;;
  assert (close (vd_max vardiff) (f64_of_Z 200)).

(** [src/src/share_processing/difficulty.rs:430-447 tests::test_update_max_no_clamp_when_at_or_below_max] *)
Definition test_update_max_no_clamp_when_at_or_below_max : test :=
  vardiff ← VarDiff_new default_config f100 now;
  let '(result, vardiff) := update_max vardiff (f64_of_Z 50) in
  assert (is_none result) ;;
  assert (close (current vardiff) (f64_of_Z 2)) ;;
  assert (f64_eq (vd_max vardiff) (f64_of_Z 50)).

(** [src/src/share_processing/difficulty.rs:450-466 tests::test_deadband_skips_retarget_within_tolerance] *)
Definition test_deadband_skips_retarget_within_tolerance : test :=
  let config := with_variance default_config (f64_lit 30 100) in
  vardiff ← VarDiff_new config f100 now;
  let vardiff := record_shares vardiff [5; 25; 45] in
  '(result, vardiff) ← maybe_retarget vardiff (after 62);
  assert (is_none result).

(** [src/src/share_processing/difficulty.rs:469-494 tests::test_deadband_allows_retarget_outside_tolerance] *)
Definition test_deadband_allows_retarget_outside_tolerance : test :=
  let config := with_variance default_config (f64_lit 30 100) in
  vardiff ← VarDiff_new config f100 now;
  let vardiff := record_shares vardiff [5; 10; 20; 30; 40; 50] in
  '(result, vardiff) ← maybe_retarget vardiff (after 62);
  assert (is_some result) ;;
  new_diff ← unwrap_some result;
  assert (close new_diff (f64_of_Z 3)).

(** [src/src/share_processing/difficulty.rs:497-527 tests::test_expected_scales_with_window_duration] *)
Definition test_expected_scales_with_window_duration : test :=
  let config := with_variance default_config (f64_lit 30 100) in
  vardiff ← VarDiff_new config f100 now;
  let vardiff := record_shares vardiff [5; 25; 45] in
  '(r1, vardiff) ← maybe_retarget vardiff (after 62);
  assert (is_none r1) ;;
  let vardiff := record_shares vardiff [65; 85; 105] in
  '(r2, vardiff) ← maybe_retarget vardiff (after 106);
  assert (is_none r2).

(** [src/src/share_processing/difficulty.rs:542-552 test_vardiff_converges_and_stabilizes (part)]
    The state of the simulation is the controller, its clock and the number of retargets. *)
Definition simulate_window (s : VarDiff * Z * Z) : result (VarDiff * Z * Z) :=
  let '(vardiff, sim_time, retarget_count) := s in
  let exact := f64_div (f64_mul (f64_of_Z 3) f100) (current vardiff) in
  let count := f64_as_u64 (f64_round (f64_max exact (f64_of_Z 1))) in
  let interval := f64_div (f64_of_Z 60) (f64_of_Z count) in
  step ← duration_from_secs_f64 interval;
  let '(vardiff, sim_time) := Nat.iter (Z.to_nat count)
    (λ s, let '(v, t) := s in (record_share v (t + step), t + step)) (vardiff, sim_time) in
  '(result, vardiff) ← maybe_retarget vardiff sim_time;
  Ok (vardiff, sim_time, if is_some result then retarget_count + 1 else retarget_count).

Fixpoint simulate (windows : nat) (s : VarDiff * Z * Z) : result (VarDiff * Z * Z) :=
  match windows with
  | O => Ok s
  | S n => s ← simulate_window s; simulate n s
  end.

(** [src/src/share_processing/difficulty.rs:530-591 tests::test_vardiff_converges_and_stabilizes] *)
Definition test_vardiff_converges_and_stabilizes : test :=
  let config := mkVarDiffConfig (f64_lit 1 1000) (f64_lit 10 100) (f64_of_Z 20) (f64_of_Z 60)
                  (f64_lit 30 100) in
  vardiff ← VarDiff_new config f100 now;
  assert (close (current vardiff) (f64_of_Z 10)) ;;
  '(vardiff, sim_time, retarget_count) ← simulate 12 (vardiff, now, 0);
  let deviation := f64_div (f64_abs (f64_sub (current vardiff) f100)) f100 in
  assert (f64_le deviation (f64_lit 30 100)) ;;
  let before := retarget_count in
  '(_, _, retarget_count) ← simulate 5 (vardiff, sim_time, retarget_count);
  assert_eq retarget_count before.

(** The model passes them. *)
Lemma difficulty_tests_pass :
  all_pass
    [ test_initial_difficulty_from_n_diff; test_initial_clamps_to_min_floor;
      test_initial_clamps_to_n_diff; test_record_share_accepts_timestamp;
      test_retarget_increases_difficulty_when_fast; test_retarget_decreases_difficulty_when_slow;
      test_retarget_no_change_when_on_target; test_retarget_not_before_interval;
      test_retarget_clamps_to_max; test_retarget_clamps_to_min_floor;
      test_update_max_clamps_current_down; test_update_max_higher_no_clamp;
      test_update_max_no_clamp_when_at_or_below_max;
      test_deadband_skips_retarget_within_tolerance;
      test_deadband_allows_retarget_outside_tolerance;
      test_expected_scales_with_window_duration; test_vardiff_converges_and_stabilizes ] = true.
Proof. vm_compute. reflexivity. Qed.
