(* ===== verification/PayoutTests.v ===== *)
(** The unit tests of [payout/mod.rs], [payout/plan.rs] and [payout/pplns.rs], run on [Pplns]
    and [Plan]. *)
From Stdlib Require Import ZArith String.
From stdpp Require Import base option list numbers strings gmap.
From S2P Require Import Prelude Float64 Db Pplns Plan Signer Testing.
#[local] Open Scope Z_scope.

(** * The reward *)

(** [src/src/payout/mod.rs:36-40 tests::test_reward_from_coinbase_even_value] *)
Definition test_reward_from_coinbase_even_value : test :=
  assert_eq (reward_from_coinbase 10000) 5000.

(** [src/src/payout/mod.rs:43-47 tests::test_reward_from_coinbase_odd_value_miner_gets_remainder] *)
Definition test_reward_from_coinbase_odd_value_miner_gets_remainder : test :=
  assert_eq (reward_from_coinbase 9) 5.

(** [src/src/payout/mod.rs:50-52 tests::test_reward_from_coinbase_zero] *)
Definition test_reward_from_coinbase_zero : test := assert_eq (reward_from_coinbase 0) 0.

(** [src/src/payout/mod.rs:55-59 tests::test_reward_from_coinbase_one_sat] *)
Definition test_reward_from_coinbase_one_sat : test := assert_eq (reward_from_coinbase 1) 1.

(** [src/src/payout/mod.rs:62-65 tests::test_reward_from_coinbase_three_sat] *)
Definition test_reward_from_coinbase_three_sat : test := assert_eq (reward_from_coinbase 3) 2.

(** [src/src/payout/mod.rs:68-77 tests::test_reward_from_coinbase_large_value] *)
Definition test_reward_from_coinbase_large_value : test :=
  let coinbase := 39949002900 in
  let reward := reward_from_coinbase coinbase in
  assert_eq reward 19974501450.

(** [src/src/payout/mod.rs:80-86 tests::test_reward_from_coinbase_large_odd_value] *)
Definition test_reward_from_coinbase_large_odd_value : test :=
  let coinbase := 39949002901 in
  let reward := reward_from_coinbase coinbase in
  assert_eq reward 19974501451.

(** [src/src/payout/mod.rs:89-101 tests::test_reward_never_exceeds_coinbase_value] *)
Definition test_reward_never_exceeds_coinbase_value : test :=
  for_each [0; 1; 2; 3; 100; 999; 1000000; 39949002900] (λ val,
    let reward := reward_from_coinbase val in
    assert (reward <=? as_i64 val)).

Lemma reward_tests_pass :
  all_pass
    [ test_reward_from_coinbase_even_value;
      test_reward_from_coinbase_odd_value_miner_gets_remainder; test_reward_from_coinbase_zero;
      test_reward_from_coinbase_one_sat; test_reward_from_coinbase_three_sat;
      test_reward_from_coinbase_large_value; test_reward_from_coinbase_large_odd_value;
      test_reward_never_exceeds_coinbase_value ] = true.
Proof. vm_compute. reflexivity. Qed.

(** * The plan *)

(** [src/src/payout/plan.rs:204-213 tests::make_share] *)
Definition make_share (worker_id : Z) (addr : string) (diff : f64) : PplnsShareEntry :=
  mkPplnsShareEntry 1 1 worker_id addr diff "2026-05-20T12:00:00".

Definition f64_100 : f64 := f64_of_Z 100.
Definition f64_10 : f64 := f64_of_Z 10.

(** [src/src/payout/plan.rs:216-235 tests::test_simple_50_50_split_no_fee] *)
Definition test_simple_50_50_split_no_fee : test :=
  let shares := [make_share 1 "addr1" f64_10; make_share 2 "addr2" f64_10] in
  let plan := build_payout_plan 1 1000 "blockhash" f64_100 100000 0 None 546 [] shares in
  assert_eq (pp_pool_fee_amount plan) 0 ;;
  assert_eq (len (pp_outputs plan)) 2 ;;
  o0 ← at_index (pp_outputs plan) 0;
  o1 ← at_index (pp_outputs plan) 1;
  assert_eq (po_amount o0) 50000 ;;
  assert_eq (po_amount o1) 50000.

(** [src/src/payout/plan.rs:238-255 tests::test_fee_deduction_100_bps] *)
Definition test_fee_deduction_100_bps : test :=
  let shares := [make_share 1 "addr1" f64_10] in
  let plan := build_payout_plan 1 1000 "blockhash" f64_100 100000 100 None 546 [] shares in
  assert_eq (pp_pool_fee_amount plan) 1000 ;;
  assert_eq (len (pp_outputs plan)) 1 ;;
  o0 ← at_index (pp_outputs plan) 0;
  assert_eq (po_amount o0) 99000.

(** [src/src/payout/plan.rs:258-280 tests::test_fee_output_with_fee_address] *)
Definition test_fee_output_with_fee_address : test :=
  let shares := [make_share 1 "addr1" f64_10] in
  let plan :=
    build_payout_plan 1 1000 "blockhash" f64_100 100000 100 (Some "fee_addr"%string) 546 [] shares in
  assert_eq (pp_pool_fee_amount plan) 1000 ;;
  assert_eq (pp_pool_fee_address plan) (Some "fee_addr"%string) ;;
  assert_eq (len (pp_outputs plan)) 1.

(** [src/src/payout/plan.rs:283-300 tests::test_remainder_distribution] *)
Definition test_remainder_distribution : test :=
  let shares := [make_share 1 "addr1" (f64_of_Z 5); make_share 2 "addr2" (f64_of_Z 3);
                 make_share 3 "addr3" (f64_of_Z 2)] in
  let plan := build_payout_plan 1 1000 "blockhash" f64_100 11 0 None 1 [] shares in
  assert_eq (len (pp_outputs plan)) 3 ;;
  let total := sum_i64 (map po_amount (pp_outputs plan)) in
  assert_eq total 11 ;;
  o0 ← at_index (pp_outputs plan) 0;
  o1 ← at_index (pp_outputs plan) 1;
  o2 ← at_index (pp_outputs plan) 2;
  assert_eq (po_amount o0) 6 ;;
  assert_eq (po_amount o1) 3 ;;
  assert_eq (po_amount o2) 2.

(** [src/src/payout/plan.rs:303-327 tests::test_dust_filtering_below_min_payout] *)
Definition test_dust_filtering_below_min_payout : test :=
  let shares := [make_share 1 "addr1" f64_10; make_share 2 "addr2" (f64_lit 1 10)] in
  let plan := build_payout_plan 1 1000 "blockhash" f64_100 1000 0 None 500 [] shares in
  assert (0 <? pp_dust_carried_forward_total plan) ;;
  addr2_output ← unwrap_some
    (List.find (λ o, String.eqb (po_payout_address o) "addr2") (pp_outputs plan));
  assert_eq (po_amount addr2_output) 0 ;;
  assert (0 <? po_dust_carried_forward addr2_output).

(** [src/src/payout/plan.rs:330-349 tests::test_dust_carry_forward_included_in_plan] *)
Definition test_dust_carry_forward_included_in_plan : test :=
  let shares := [make_share 1 "addr1" f64_10] in
  let dust := [("addr1"%string, 500)] in
  let plan := build_payout_plan 1 1000 "blockhash" f64_100 10000 0 None 1 dust shares in
  let total := sum_i64 (map po_amount (pp_outputs plan)) in
  assert_eq total 10000.

(** [src/src/payout/plan.rs:352-356 tests::test_zero_work_units_returns_empty_outputs] *)
Definition test_zero_work_units_returns_empty_outputs : test :=
  let plan := build_payout_plan 1 1000 "blockhash" f64_100 100000 0 None 546 [] [] in
  assert (is_empty (pp_outputs plan)) ;;
  assert (f64_eq (pp_total_work_units plan) f64_zero).

(** [src/src/payout/plan.rs:359-375 tests::test_single_miner_gets_all_net] *)
Definition test_single_miner_gets_all_net : test :=
  let shares := [make_share 1 "addr1" (f64_of_Z 42)] in
  let plan := build_payout_plan 1 1000 "blockhash" f64_100 50000 200 None Signer.DUST_LIMIT [] shares in
  assert_eq (pp_pool_fee_amount plan) 1000 ;;
  o0 ← at_index (pp_outputs plan) 0;
  assert_eq (po_amount o0) 49000.

(** [src/src/payout/plan.rs:378-391 tests::test_deterministic_identical_inputs] *)
Definition test_deterministic_identical_inputs : test :=
  let shares := [make_share 1 "addr1" f64_10; make_share 2 "addr2" (f64_of_Z 5);
                 make_share 3 "addr3" (f64_lit 25 10)] in
  let plan1 := build_payout_plan 1 1000 "hash" f64_100 10000 50 None 100 [] shares in
  let plan2 := build_payout_plan 1 1000 "hash" f64_100 10000 50 None 100 [] shares in
  assert_eq (len (pp_outputs plan1)) (len (pp_outputs plan2)) ;;
  for_each (zip (pp_outputs plan1) (pp_outputs plan2)) (λ '(o1, o2),
    assert_eq (po_amount o1) (po_amount o2) ;;
    assert_eq (po_payout_address o1) (po_payout_address o2)).

Lemma plan_tests_pass :
  all_pass
    [ test_simple_50_50_split_no_fee; test_fee_deduction_100_bps;
      test_fee_output_with_fee_address; test_remainder_distribution;
      test_dust_filtering_below_min_payout; test_dust_carry_forward_included_in_plan;
      test_zero_work_units_returns_empty_outputs; test_single_miner_gets_all_net;
      test_deterministic_identical_inputs ] = true.
Proof. vm_compute. reflexivity. Qed.

(** * The window *)

(** The rows that the tests insert, a table in the order of its ids. *)
(** [src/src/payout/pplns.rs:94-160 tests::setup_shares] *)
Definition setup_shares (d : Db) : Db :=
  let worker i a := mkWorker i a None in
  let round i template status := mkRound i template None status None in
  let share i w s j template epoch diff k :=
    mkShareRow (mkShare i w s j template epoch "e1" "en2" "ntime" "nonce" diff k) "" in
  let outcome i s w j r k created_at :=
    mkOutcomeRow (mkShareOutcome i i s w j (Some r) k "accepted" None None (Some true) (Some false)
      None) created_at in
  let d := set_workers d (mkTable [worker 1 "addr1"; worker 2 "addr2"] 2) in
  let d := set_rounds d (mkTable [round 1 100 "open"; round 2 200 "orphaned"] 2) in
  let d := set_shares d (mkTable
    [ share 1 1 "s1" "j1" 100 1 (f64_lit 15 10) "dk1"; share 2 1 "s1" "j2" 100 2 (f64_of_Z 2) "dk2";
      share 3 2 "s2" "j3" 100 3 (f64_of_Z 4) "dk3"; share 4 1 "s3" "j4" 200 4 (f64_of_Z 999) "dk4" ]
    4)%string in
  set_share_outcomes d (mkTable
    [ outcome 1 "s1" 1 "j1" 1 "dk1" "2026-05-20T12:00:01";
      outcome 2 "s1" 1 "j2" 1 "dk2" "2026-05-20T12:00:02";
      outcome 3 "s2" 2 "j3" 1 "dk3" "2026-05-20T12:00:03";
      outcome 4 "s3" 1 "j4" 2 "dk4" "2026-05-20T12:00:04" ] 4)%string.

Definition conn : Db := setup_shares (fresh_db "2026-05-20 12:00:00").

(** [src/src/payout/pplns.rs:163-183 tests::test_window_selects_shares_up_to_threshold] *)
Definition test_window_selects_shares_up_to_threshold : test :=
  let result := calculate_pplns_window conn "9999-12-31" (f64_of_Z 3) (f64_of_Z 2) in
  assert_eq (len result) 1 ;;
  r0 ← at_index result 0;
  assert (close (pe_difficulty r0) (f64_of_Z 999)).

(** [src/src/payout/pplns.rs:186-203 tests::test_window_returns_all_shares_when_insufficient] *)
Definition test_window_returns_all_shares_when_insufficient : test :=
  let result := calculate_pplns_window conn "9999-12-31" (f64_of_Z 9999) (f64_of_Z 1) in
  assert_eq (len result) 4 ;;
  assert (existsb (λ e, close (pe_difficulty e) (f64_of_Z 999)) result).

(** [src/src/payout/pplns.rs:206-226 tests::test_window_includes_orphaned_round_shares] *)
Definition test_window_includes_orphaned_round_shares : test :=
  let result := calculate_pplns_window conn "9999-12-31" (f64_lit 5 10) (f64_of_Z 1) in
  assert_eq (len result) 1 ;;
  r0 ← at_index result 0;
  assert (close (pe_difficulty r0) (f64_of_Z 999)).

(** [src/src/payout/pplns.rs:229-238 tests::test_window_respects_found_at_timestamp] *)
Definition test_window_respects_found_at_timestamp : test :=
  let result := calculate_pplns_window conn "2000-01-01" (f64_of_Z 1) (f64_of_Z 1) in
  assert (is_empty result).

(** [src/src/payout/pplns.rs:241-259 tests::test_window_aggregates_difficulty_correctly] *)
Definition test_window_aggregates_difficulty_correctly : test :=
  let result := calculate_pplns_window conn "9999-12-31" (f64_lit 275 100) (f64_of_Z 2) in
  assert_eq (len result) 1 ;;
  r0 ← at_index result 0;
  assert (close (pe_difficulty r0) (f64_of_Z 999)).

Lemma pplns_tests_pass :
  all_pass
    [ test_window_selects_shares_up_to_threshold;
      test_window_returns_all_shares_when_insufficient;
      test_window_includes_orphaned_round_shares; test_window_respects_found_at_timestamp;
      test_window_aggregates_difficulty_correctly ] = true.
Proof. vm_compute. reflexivity. Qed.
