(* ===== verification/RepositoryTests.v ===== *)
(** The unit tests of [worker_repository.rs], [round_repository.rs],
    [accounting_event_repository.rs] and [chain_tip.rs], run on the model. A test starts from
    the database that [init_schema] makes. *)
From Stdlib Require Import ZArith String.
From stdpp Require Import base option list numbers strings.
From S2P Require Import Prelude Text Db Testing DbTesting.
From S2P Require WorkerRepository RoundRepository AccountingEventRepository Job.
#[local] Open Scope Z_scope.

(** * Workers *)

Definition address : string := "lotus_16PSJNf1EDEfGvaYzaXJCJZrXH4pgiTo7kyW61iGi".
Definition rig1 : option string := Some "rig1"%string.

(** [src/src/accounting/worker_repository.rs:104-123 tests::test_upsert_new_worker] *)
Definition test_upsert_new_worker : test := db_test (
  worker ← munwrap (WorkerRepository.upsert address rig1);
  massert_eq (w_payout_address worker) address ;;
  massert_eq (w_worker_suffix worker) rig1 ;;
  massert_eq (w_id worker) 1).

(** [src/src/accounting/worker_repository.rs:126-147 tests::test_upsert_existing_worker] *)
Definition test_upsert_existing_worker : test := db_test (
  worker1 ← munwrap (WorkerRepository.upsert address rig1);
  worker2 ← munwrap (WorkerRepository.upsert address rig1);
  massert_eq (w_id worker1) (w_id worker2)).

(** [src/src/accounting/worker_repository.rs:150-161 tests::test_upsert_worker_no_suffix] *)
Definition test_upsert_worker_no_suffix : test := db_test (
  worker ← munwrap (WorkerRepository.upsert address None);
  massert_eq (w_worker_suffix worker) None).

(** [src/src/accounting/worker_repository.rs:164-183 tests::test_get_by_id] *)
Definition test_get_by_id : test := db_test (
  worker ← munwrap (WorkerRepository.upsert address rig1);
  fetched ← mread_some (λ d, WorkerRepository.get_by_id d (w_id worker));
  massert_eq (w_id fetched) (w_id worker) ;;
  massert_eq (w_payout_address fetched) (w_payout_address worker) ;;
  not_found ← mread (λ d, WorkerRepository.get_by_id d 999);
  massert (is_none not_found)).

Lemma worker_tests_pass :
  all_pass
    [ test_upsert_new_worker; test_upsert_existing_worker; test_upsert_worker_no_suffix;
      test_get_by_id ] = true.
Proof. vm_compute. reflexivity. Qed.

(** * Rounds *)

Import RoundRepository.

(** [src/src/accounting/round_repository.rs:193-207 tests::test_get_or_create_current_round_creates_new_round_when_none_exists] *)
Definition test_get_or_create_current_round_creates_new_round_when_none_exists : test :=
  db_test (
  '(round, is_new) ← munwrap (get_or_create_current_round 42);
  massert is_new ;;
  massert_eq (r_status round) "open"%string ;;
  massert_eq (r_start_template_id round) 42 ;;
  massert_eq (r_id round) 1 ;;
  massert (is_none (r_end_template_id round)) ;;
  massert (is_none (r_found_block_hash round))).

(** [src/src/accounting/round_repository.rs:210-224 tests::test_get_or_create_current_round_returns_existing_open_round] *)
Definition test_get_or_create_current_round_returns_existing_open_round : test := db_test (
  '(round1, _) ← munwrap (get_or_create_current_round 42);
  '(round2, is_new) ← munwrap (get_or_create_current_round 99);
  massert (negb is_new) ;;
  massert_eq (r_id round1) (r_id round2) ;;
  massert_eq (r_start_template_id round2) 42 ;;
  massert_eq (r_status round2) "open"%string).

(** [src/src/accounting/round_repository.rs:227-245 tests::test_close_round_marks_round_as_closed] *)
Definition test_close_round_marks_round_as_closed : test := db_test (
  '(round, _) ← munwrap (get_or_create_current_round 42);
  munwrap (close_round (r_id round) 99 "found") ;;
  fetched ← mread_some (λ d, get_by_id d (r_id round));
  massert_eq (r_status fetched) "found"%string ;;
  massert_eq (r_end_template_id fetched) (Some 99) ;;
  '(new_round, is_new) ← munwrap (get_or_create_current_round 100);
  massert is_new ;;
  massert_eq (r_start_template_id new_round) 100 ;;
  massert_ne (r_id new_round) (r_id round)).

(** [src/src/accounting/round_repository.rs:248-260 tests::test_resolve_round_for_template_returns_open_round] *)
Definition test_resolve_round_for_template_returns_open_round : test := db_test (
  munwrap (get_or_create_current_round 42) ;;
  '(resolved, _) ← munwrap (resolve_round_for_template 55);
  massert_eq (r_status resolved) "open"%string).

(** [src/src/accounting/round_repository.rs:263-274 tests::test_resolve_round_for_template_creates_new_round] *)
Definition test_resolve_round_for_template_creates_new_round : test := db_test (
  '(resolved, is_new) ← munwrap (resolve_round_for_template 42);
  massert is_new ;;
  massert_eq (r_start_template_id resolved) 42 ;;
  massert_eq (r_status resolved) "open"%string).

(** [src/src/accounting/round_repository.rs:277-285 tests::test_get_by_id_returns_none_for_missing] *)
Definition test_get_by_id_returns_none_for_missing : test := db_test (
  result ← mread (λ d, get_by_id d 999);
  massert (is_none result)).

(** [src/src/accounting/round_repository.rs:288-306 tests::test_list_rounds] *)
Definition test_list_rounds : test := db_test (
  l ← mread (λ d, list_rounds d None);
  massert (is_empty l) ;;
  munwrap (get_or_create_current_round 1) ;;
  l ← mread (λ d, list_rounds d None);
  massert_eq (len l) 1 ;;
  '(first, _) ← munwrap (get_or_create_current_round 1);
  munwrap (close_round (r_id first) 10 "found") ;;
  munwrap (get_or_create_current_round 11) ;;
  l ← mread (λ d, list_rounds d None);
  massert_eq (len l) 2).

(** [src/src/accounting/round_repository.rs:309-327 tests::test_list_rounds_by_status] *)
Definition test_list_rounds_by_status : test := db_test (
  '(r1, _) ← munwrap (get_or_create_current_round 1);
  munwrap (close_round (r_id r1) 10 "found") ;;
  '(r2, _) ← munwrap (get_or_create_current_round 11);
  open ← mread (λ d, list_rounds d (Some "open"%string));
  massert_eq (len open) 1 ;;
  o0 ← mat_index open 0;
  massert_eq (r_id o0) (r_id r2) ;;
  found ← mread (λ d, list_rounds d (Some "found"%string));
  massert_eq (len found) 1 ;;
  f0 ← mat_index found 0;
  massert_eq (r_id f0) (r_id r1)).

Lemma round_tests_pass :
  all_pass
    [ test_get_or_create_current_round_creates_new_round_when_none_exists;
      test_get_or_create_current_round_returns_existing_open_round;
      test_close_round_marks_round_as_closed; test_resolve_round_for_template_returns_open_round;
      test_resolve_round_for_template_creates_new_round; test_get_by_id_returns_none_for_missing;
      test_list_rounds; test_list_rounds_by_status ] = true.
Proof. vm_compute. reflexivity. Qed.

(** * Events *)

Import AccountingEventRepository.

(** [src/src/accounting/accounting_event_repository.rs:144-161 tests::make_event] *)
Definition make_event (event_type status : string) (round_id : option Z) : AccountingEvent :=
  mkAccountingEvent 0 event_type status None None None None round_id None None None None None None.

(** [src/src/accounting/accounting_event_repository.rs:164-174 tests::test_record_event_creates_event_with_correct_fields] *)
Definition test_record_event_creates_event_with_correct_fields : test := db_test (
  let event := make_event "share_outcome" "accepted" (Some 1) in
  id ← munwrap (record_event event);
  massert_eq id 1).

(** [src/src/accounting/accounting_event_repository.rs:177-195 tests::test_list_by_type_returns_matching_events] *)
Definition test_list_by_type_returns_matching_events : test := db_test (
  munwrap (record_event (make_event "share_outcome" "accepted" (Some 1))) ;;
  munwrap (record_event (make_event "round_opened" "open" None)) ;;
  munwrap (record_event (make_event "share_outcome" "rejected" (Some 1))) ;;
  outcomes ← mread_ok (λ d, list_by_type d "share_outcome" 10 0);
  massert_eq (len outcomes) 2 ;;
  opened ← mread_ok (λ d, list_by_type d "round_opened" 10 0);
  massert_eq (len opened) 1).

(** [src/src/accounting/accounting_event_repository.rs:198-211 tests::test_count_by_type] *)
Definition test_count_by_type : test := db_test (
  munwrap (record_event (make_event "share_outcome" "accepted" None)) ;;
  munwrap (record_event (make_event "share_outcome" "accepted" None)) ;;
  n ← mread (λ d, count_by_type d "share_outcome");
  massert_eq n 2 ;;
  n ← mread (λ d, count_by_type d "round_opened");
  massert_eq n 0).

(** [src/src/accounting/accounting_event_repository.rs:214-232 tests::test_list_by_type_respects_limit_and_offset] *)
Definition test_list_by_type_respects_limit_and_offset : test := db_test (
  mfor [0; 1; 2; 3; 4] (λ i,
    let e := make_event "test_event" "ok" None in
    let e := mkAccountingEvent (ev_id e) (ev_event_type e) (ev_status e) None None None None None
               None None None None None (Some ("event-" ++ show_u i)%string) in
    munwrap (record_event e) ;; mret tt) ;;
  page1 ← mread_ok (λ d, list_by_type d "test_event" 2 0);
  massert_eq (len page1) 2 ;;
  page2 ← mread_ok (λ d, list_by_type d "test_event" 2 2);
  massert_eq (len page2) 2).

(** [src/src/accounting/accounting_event_repository.rs:235-266 tests::test_record_event_stores_context_fields] *)
Definition test_record_event_stores_context_fields : test := db_test (
  let event := mkAccountingEvent 0 "found_block_observed" "confirmed" (Some "sess-1"%string)
    (Some 42) (Some "miner.rig"%string) (Some "lotus_addr"%string) (Some 1) (Some 100) (Some 5)
    (Some "job-100-5"%string) (Some "0000abc"%string) (Some 1292529)
    (Some ("{" ++ quoted "reason" ++ ":" ++ quoted "new_tip" ++ "}")%string) in
  id ← munwrap (record_event event);
  events ← mread_ok (λ d, list_by_type d "found_block_observed" 10 0);
  massert_eq (len events) 1 ;;
  e0 ← mat_index events 0;
  massert_eq (ev_id e0) id ;;
  massert_eq (ev_worker_id e0) (Some 42) ;;
  massert_eq (ev_block_hash e0) (Some "0000abc"%string) ;;
  massert_eq (ev_height e0) (Some 1292529)).

Lemma event_tests_pass :
  all_pass
    [ test_record_event_creates_event_with_correct_fields;
      test_list_by_type_returns_matching_events; test_count_by_type;
      test_list_by_type_respects_limit_and_offset;
      test_record_event_stores_context_fields ] = true.
Proof. vm_compute. reflexivity. Qed.

(** * The chain tip *)

Import Job.

(** [src/src/accounting/chain_tip.rs:62-65 tests::test_starts_at_zero] *)
Definition test_starts_at_zero : test :=
  let tip : ChainTip := 0 in
  assert_eq tip 0.

(** [src/src/accounting/chain_tip.rs:68-72 tests::test_connected_advances_tip] *)
Definition test_connected_advances_tip : test :=
  let tip := update_block_connected 0 10 in
  assert_eq tip 10.

(** [src/src/accounting/chain_tip.rs:75-80 tests::test_connected_does_not_reverse] *)
Definition test_connected_does_not_reverse : test :=
  let tip := update_block_connected 0 10 in
  let tip := update_block_connected tip 5 in
  assert_eq tip 10.

(** [src/src/accounting/chain_tip.rs:83-88 tests::test_disconnected_at_tip_decrements] *)
Definition test_disconnected_at_tip_decrements : test :=
  let tip := update_block_connected 0 10 in
  let tip := update_block_disconnected tip 10 in
  assert_eq tip 9.

(** [src/src/accounting/chain_tip.rs:91-96 tests::test_disconnected_below_tip_noop] *)
Definition test_disconnected_below_tip_noop : test :=
  let tip := update_block_connected 0 10 in
  let tip := update_block_disconnected tip 5 in
  assert_eq tip 10.

(** [src/src/accounting/chain_tip.rs:99-104 tests::test_disconnected_above_tip_noop] *)
Definition test_disconnected_above_tip_noop : test :=
  let tip := update_block_connected 0 10 in
  let tip := update_block_disconnected tip 15 in
  assert_eq tip 10.

(** [src/src/accounting/chain_tip.rs:107-111 tests::test_disconnected_at_zero_is_noop] *)
Definition test_disconnected_at_zero_is_noop : test :=
  let tip := update_block_disconnected 0 0 in
  assert_eq tip 0.

Lemma chain_tip_tests_pass :
  all_pass
    [ test_starts_at_zero; test_connected_advances_tip; test_connected_does_not_reverse;
      test_disconnected_at_tip_decrements; test_disconnected_below_tip_noop;
      test_disconnected_above_tip_noop; test_disconnected_at_zero_is_noop ] = true.
Proof. vm_compute. reflexivity. Qed.
