(* ===== verification/ShareTests.v ===== *)
(** The unit tests of [share_repository.rs], run on [ShareRepository]. *)
From Stdlib Require Import ZArith String.
From stdpp Require Import base option list numbers strings gmap.
From S2P Require Import Prelude Text Float64 Db ShareRepository Testing DbTesting.
#[local] Open Scope Z_scope.

(** [src/src/accounting/share_repository.rs:697-717 tests::create_test_share] *)
Definition create_test_share (worker_id template_id template_epoch : Z) (dedupe_key : string) :
    Share :=
  mkShare 0 worker_id "sess-1" ("job-" ++ show_u template_id ++ "-" ++ show_u template_epoch)
    template_id template_epoch "00000001" "00112233" "001122334455" "0011223344556677"
    (f64_of_Z 1) dedupe_key.

(** [src/src/accounting/share_repository.rs:719-740 tests::create_test_outcome] *)
Definition create_test_outcome (share_id worker_id : Z) (dedupe_key status : string) :
    ShareOutcome :=
  mkShareOutcome 0 share_id "sess-1" worker_id "job-1-12345" None dedupe_key status None None
    (Some true) (Some false) None.

Definition with_reason (o : ShareOutcome) (reason : string) : ShareOutcome :=
  mkShareOutcome (o_id o) (o_share_id o) (o_session_id o) (o_worker_id o) (o_job_id o) (o_round_id o)
    (o_dedupe_key o) (o_status o) (Some reason) (o_node_result o) (o_low_diff_ok o)
    (o_network_target_ok o) (o_block_hash o).

(** The ids are inserted in ascending order. *)
(** [src/src/accounting/share_repository.rs:742-748 tests::setup_worker] *)
Definition setup_worker : Z → string → option string → DbM unit := raw_worker.

Definition some_key : string := "1:42:12345:00112233:001122334455:0011223344556677".

(** [src/src/accounting/share_repository.rs:751-768 tests::test_insert_raw_share] *)
Definition test_insert_raw_share : test := db_test (
  setup_worker 1 "test_address" None ;;
  let share := create_test_share 1 42 12345 some_key in
  id ← munwrap (insert_share share);
  massert (is_some id) ;;
  id ← munwrap_some id;
  massert (0 <? id)).

(** [src/src/accounting/share_repository.rs:771-791 tests::test_dedupe_key_prevents_duplicate_shares] *)
Definition test_dedupe_key_prevents_duplicate_shares : test := db_test (
  setup_worker 1 "test_address" None ;;
  let share := create_test_share 1 42 12345 some_key in
  id1 ← munwrap (insert_share share);
  massert (is_some id1) ;;
  id2 ← munwrap (insert_share share);
  massert (is_some id2) ;;
  massert_eq id1 id2).

(** [src/src/accounting/share_repository.rs:794-818 tests::test_insert_share_outcome] *)
Definition test_insert_share_outcome : test := db_test (
  setup_worker 1 "test_address" None ;;
  let share := create_test_share 1 42 12345 some_key in
  id ← munwrap (insert_share share);
  share_id ← munwrap_some id;
  let outcome := create_test_outcome share_id 1 some_key "accepted" in
  outcome_id ← munwrap (insert_share_outcome outcome);
  massert (is_some outcome_id) ;;
  outcome_id ← munwrap_some outcome_id;
  massert (0 <? outcome_id)).

(** [src/src/accounting/share_repository.rs:821-839 tests::test_insert_authorization_event] *)
Definition test_insert_authorization_event : test := db_test (
  let event := mkAuthorizationEvent 0 "sess-1"
    "lotus_16PSJNf1EDEfGvaYzaXJCJZrXH4pgiTo7kyW61iGi.rig"
    "lotus_16PSJNf1EDEfGvaYzaXJCJZrXH4pgiTo7kyW61iGi" (Some "rig"%string) true None in
  id ← munwrap (insert_authorization_event event);
  massert_eq id 1).

(** [src/src/accounting/share_repository.rs:842-860 tests::test_insert_auth_event_unauthorized] *)
Definition test_insert_auth_event_unauthorized : test := db_test (
  let event := mkAuthorizationEvent 0 "sess-2" "bad.worker" "bad" (Some "worker"%string) false
    (Some "invalid lotus address"%string) in
  id ← munwrap (insert_authorization_event event);
  massert_eq id 1).

(** [src/src/accounting/share_repository.rs:863-880 tests::test_count_by_worker] *)
Definition test_count_by_worker : test := db_test (
  setup_worker 1 "addr1" None ;;
  setup_worker 2 "addr2" None ;;
  munwrap (insert_share (create_test_share 1 1 100 "dk1")) ;;
  munwrap (insert_share (create_test_share 1 1 101 "dk2")) ;;
  munwrap (insert_share (create_test_share 2 1 102 "dk3")) ;;
  n ← mread (λ d, count_by_worker d 1);
  massert_eq n 2 ;;
  n ← mread (λ d, count_by_worker d 2);
  massert_eq n 1).

(** Inserts a share and unwraps its id. *)
Definition new_share (share : Share) : DbM Z := id ← munwrap (insert_share share); munwrap_some id.

(** [src/src/accounting/share_repository.rs:883-910 tests::test_count_outcomes_by_status] *)
Definition test_count_outcomes_by_status : test := db_test (
  setup_worker 1 "test_address" None ;;
  sid1 ← new_share (create_test_share 1 1 100 "dk1");
  munwrap (insert_share_outcome (create_test_outcome sid1 1 "dk1" "accepted")) ;;
  sid2 ← new_share (create_test_share 1 1 101 "dk2");
  munwrap (insert_share_outcome (create_test_outcome sid2 1 "dk2" "accepted")) ;;
  sid3 ← new_share (create_test_share 1 1 102 "dk3");
  let o3 := with_reason (create_test_outcome sid3 1 "dk3" "rejected") "low-difficulty-share" in
  munwrap (insert_share_outcome o3) ;;
  n ← mread (λ d, count_outcomes_by_status d "accepted");
  massert_eq n 2 ;;
  n ← mread (λ d, count_outcomes_by_status d "rejected");
  massert_eq n 1).

(** [src/src/accounting/share_repository.rs:913-928 tests::test_total_count] *)
Definition test_total_count : test := db_test (
  setup_worker 1 "test_address" None ;;
  n ← mread total_count;
  massert_eq n 0 ;;
  munwrap (insert_share (create_test_share 1 1 100 "dk1")) ;;
  munwrap (insert_share (create_test_share 1 1 101 "dk2")) ;;
  n ← mread total_count;
  massert_eq n 2).

(** [src/src/accounting/share_repository.rs:931-969 tests::test_count_rejected_by_reason] *)
Definition test_count_rejected_by_reason : test := db_test (
  setup_worker 1 "test_address" None ;;
  sid1 ← new_share (create_test_share 1 1 100 "dk1");
  let o1 := with_reason (create_test_outcome sid1 1 "dk1" "rejected") "stale-job" in
  munwrap (insert_share_outcome o1) ;;
  sid2 ← new_share (create_test_share 1 1 101 "dk2");
  let o2 := with_reason (create_test_outcome sid2 1 "dk2" "rejected") "low-difficulty-share" in
  munwrap (insert_share_outcome o2) ;;
  sid3 ← new_share (create_test_share 1 1 102 "dk3");
  let o3 := with_reason (create_test_outcome sid3 1 "dk3" "rejected") "low-difficulty-share" in
  munwrap (insert_share_outcome o3) ;;
  sid4 ← new_share (create_test_share 1 1 103 "dk4");
  munwrap (insert_share_outcome (create_test_outcome sid4 1 "dk4" "accepted")) ;;
  reasons ← mread count_rejected_by_reason;
  massert_eq (reasons !! "stale-job"%string) (Some 1) ;;
  massert_eq (reasons !! "low-difficulty-share"%string) (Some 2) ;;
  massert_eq (Z.of_nat (size reasons)) 2 ;;
  massert (is_none (reasons !! "accepted"%string))).

(** [src/src/accounting/share_repository.rs:972-982 tests::test_build_dedupe_key] *)
Definition test_build_dedupe_key : test :=
  let key := build_dedupe_key 1 42 12345 "00112233" "001122334455" "0011223344556677" in
  assert_eq key "1:42:12345:00112233:001122334455:0011223344556677"%string.

(** [src/src/accounting/share_repository.rs:985-995 tests::test_list_shares_empty_when_no_shares] *)
Definition test_list_shares_empty_when_no_shares : test := db_test (
  shares ← mread (λ d, list_shares d None None None None None None);
  massert (is_empty shares)).

(** [src/src/accounting/share_repository.rs:998-1015 tests::test_list_shares_returns_all_shares] *)
Definition test_list_shares_returns_all_shares : test := db_test (
  setup_worker 1 "addr1" None ;;
  setup_worker 2 "addr2" None ;;
  let s1 := create_test_share 1 10 100 "key1" in
  let s2 := create_test_share 2 20 200 "key2" in
  munwrap (insert_share s1) ;;
  munwrap (insert_share s2) ;;
  shares ← mread (λ d, list_shares d None None None None None None);
  massert_eq (len shares) 2).

(** [src/src/accounting/share_repository.rs:1018-1038 tests::test_list_shares_filter_by_worker_id] *)
Definition test_list_shares_filter_by_worker_id : test := db_test (
  setup_worker 1 "addr1" None ;;
  setup_worker 2 "addr2" None ;;
  munwrap (insert_share (create_test_share 1 10 100 "key1")) ;;
  munwrap (insert_share (create_test_share 2 20 200 "key2")) ;;
  munwrap (insert_share (create_test_share 1 30 300 "key3")) ;;
  shares ← mread (λ d, list_shares d (Some 1) None None None None None);
  massert_eq (len shares) 2 ;;
  massert (forallb (λ s, s_worker_id s =? 1) shares)).

(** [src/src/accounting/share_repository.rs:1041-1067 tests::test_list_shares_with_limit_and_offset] *)
Definition test_list_shares_with_limit_and_offset : test := db_test (
  setup_worker 1 "addr1" None ;;
  mfor [0; 1; 2; 3; 4] (λ i,
    let s := create_test_share 1 (10 + i) (100 + i) ("key" ++ show_u i) in
    munwrap (insert_share s) ;; mret tt) ;;
  limited ← mread (λ d, list_shares d None None None None (Some 2) None);
  massert_eq (len limited) 2 ;;
  offset ← mread (λ d, list_shares d None None None None (Some 2) (Some 2));
  massert_eq (len offset) 2 ;;
  l0 ← mat_index limited 0;
  o0 ← mat_index offset 0;
  massert_ne (s_id l0) (s_id o0)).

(** [src/src/accounting/share_repository.rs:1070-1093 tests::test_list_shares_filter_by_status] *)
Definition test_list_shares_filter_by_status : test := db_test (
  setup_worker 1 "addr1" None ;;
  munwrap (insert_share (create_test_share 1 10 100 "key_accept")) ;;
  munwrap (insert_share (create_test_share 1 20 200 "key_reject")) ;;
  munwrap (insert_share_outcome (create_test_outcome 1 1 "key_accept" "accepted")) ;;
  munwrap (insert_share_outcome (create_test_outcome 2 1 "key_reject" "rejected")) ;;
  accepted ← mread (λ d, list_shares d None (Some "accepted"%string) None None None None);
  massert_eq (len accepted) 1 ;;
  a0 ← mat_index accepted 0;
  massert_eq (s_dedupe_key a0) "key_accept"%string).

(** [src/src/accounting/share_repository.rs:1096-1118 tests::test_list_shares_filter_by_date_range] *)
Definition test_list_shares_filter_by_date_range : test := db_test (
  setup_worker 1 "addr1" None ;;
  munwrap (insert_share (create_test_share 1 10 100 "key1")) ;;
  shares ← mread (λ d, list_shares d None None (Some "2020-01-01"%string) (Some "2030-01-01"%string)
                         None None);
  massert (negb (is_empty shares))).

(** [src/src/accounting/share_repository.rs:1121-1134 tests::test_list_outcomes_empty_when_no_outcomes] *)
Definition test_list_outcomes_empty_when_no_outcomes : test := db_test (
  outcomes ← mread (λ d, list_outcomes d None None None None None None);
  massert (is_empty outcomes)).

(** [src/src/accounting/share_repository.rs:1137-1157 tests::test_list_outcomes_returns_all_outcomes] *)
Definition test_list_outcomes_returns_all_outcomes : test := db_test (
  setup_worker 1 "addr1" None ;;
  munwrap (insert_share (create_test_share 1 10 100 "k1")) ;;
  munwrap (insert_share (create_test_share 1 20 200 "k2")) ;;
  munwrap (insert_share_outcome (create_test_outcome 1 1 "k1" "accepted")) ;;
  munwrap (insert_share_outcome (create_test_outcome 2 1 "k2" "rejected")) ;;
  outcomes ← mread (λ d, list_outcomes d None None None None None None);
  massert_eq (len outcomes) 2).

(** [src/src/accounting/share_repository.rs:1160-1185 tests::test_list_outcomes_filter_by_worker_id] *)
Definition test_list_outcomes_filter_by_worker_id : test := db_test (
  setup_worker 1 "addr1" None ;;
  setup_worker 2 "addr2" None ;;
  munwrap (insert_share (create_test_share 1 10 100 "k1")) ;;
  munwrap (insert_share (create_test_share 1 20 200 "k2")) ;;
  munwrap (insert_share (create_test_share 2 30 300 "k3")) ;;
  munwrap (insert_share_outcome (create_test_outcome 1 1 "k1" "accepted")) ;;
  munwrap (insert_share_outcome (create_test_outcome 2 1 "k2" "rejected")) ;;
  munwrap (insert_share_outcome (create_test_outcome 3 2 "k3" "accepted")) ;;
  outcomes ← mread (λ d, list_outcomes d (Some 1) None None None None None);
  massert_eq (len outcomes) 2).

(** [src/src/accounting/share_repository.rs:1188-1209 tests::test_list_outcomes_filter_by_status] *)
Definition test_list_outcomes_filter_by_status : test := db_test (
  setup_worker 1 "addr1" None ;;
  munwrap (insert_share (create_test_share 1 10 100 "k1")) ;;
  munwrap (insert_share (create_test_share 1 20 200 "k2")) ;;
  munwrap (insert_share_outcome (create_test_outcome 1 1 "k1" "accepted")) ;;
  munwrap (insert_share_outcome (create_test_outcome 2 1 "k2" "rejected")) ;;
  outcomes ← mread (λ d, list_outcomes d None (Some "accepted"%string) None None None None);
  massert_eq (len outcomes) 1 ;;
  o0 ← mat_index outcomes 0;
  massert_eq (o_status o0) "accepted"%string).

(** The inserted rows, with the times relative to the clock of [db_test]; SQLite adds up a
    column of doubles in order. *)
(** [src/src/accounting/share_repository.rs:1212-1265 tests::test_sum_difficulty_since] *)
Definition test_sum_difficulty_since : test := db_test (
  setup_worker 1 "test_addr" None ;;
  let share i en2 nt nonce diff k at_ :=
    mkShareRow (mkShare i 1 "sess-1" "job-1" 1 100 "00000001" en2 nt nonce (f64_of_Z diff) k) at_ in
  let outcome i k status at_ :=
    mkOutcomeRow (mkShareOutcome i i "sess-1" 1 "job-1" None k status None None None None None) at_ in
  (λ d, (Ok tt, set_share_outcomes (set_shares d (mkTable
    [ share 1 "11000001" "110000000001" "1100000000000001" 2 "dk1" "2026-05-20 11:59:00";
      share 2 "11000002" "110000000002" "1100000000000002" 2 "dk2" "2026-05-20 11:59:00";
      share 3 "11000003" "110000000003" "1100000000000003" 2 "dk3" "2026-05-20 11:59:00";
      share 4 "11000004" "110000000004" "1100000000000004" 2 "dk4" "2026-05-20 11:59:00";
      share 5 "11000005" "110000000005" "1100000000000005" 1 "dk5" "2026-05-20 11:50:00" ]%string 5))
    (mkTable
    [ outcome 1 "dk1" "accepted" "2026-05-20 11:59:00"; outcome 2 "dk2" "accepted" "2026-05-20 11:59:00";
      outcome 3 "dk3" "stale" "2026-05-20 11:59:00"; outcome 4 "dk4" "rejected" "2026-05-20 11:59:00";
      outcome 5 "dk5" "accepted" "2026-05-20 11:50:00" ]%string 5))) ;;
  sum ← mread (λ d, sum_difficulty_since f64_sum d "1970-01-01 00:00:00");
  let expected_within := f64_add (f64_add (f64_of_Z 2) (f64_of_Z 2)) (f64_of_Z 1) in
  massert (close sum expected_within) ;;
  sum_future ← mread (λ d, sum_difficulty_since f64_sum d "2099-01-01 00:00:00");
  massert (close sum_future f64_zero)).

Lemma share_tests_pass :
  all_pass
    [ test_insert_raw_share; test_dedupe_key_prevents_duplicate_shares;
      test_insert_share_outcome; test_insert_authorization_event;
      test_insert_auth_event_unauthorized; test_count_by_worker; test_count_outcomes_by_status;
      test_total_count; test_count_rejected_by_reason; test_build_dedupe_key;
      test_list_shares_empty_when_no_shares; test_list_shares_returns_all_shares;
      test_list_shares_filter_by_worker_id; test_list_shares_with_limit_and_offset;
      test_list_shares_filter_by_status; test_list_shares_filter_by_date_range;
      test_list_outcomes_empty_when_no_outcomes; test_list_outcomes_returns_all_outcomes;
      test_list_outcomes_filter_by_worker_id; test_list_outcomes_filter_by_status;
      test_sum_difficulty_since ] = true.
Proof. vm_compute. reflexivity. Qed.
