(* ===== verification/BlockTests.v ===== *)
(** The unit tests of [found_block_repository.rs], run on [FoundBlockRepository]. *)
From Stdlib Require Import ZArith String.
From stdpp Require Import base option list numbers strings.
From S2P Require Import Prelude Text Db FoundBlockRepository Testing DbTesting.
#[local] Open Scope Z_scope.

(** Raw inserts, in ascending order of the ids. *)
(** [src/src/accounting/found_block_repository.rs:298-304 tests::create_round] *)
Definition create_round (id start_template_id : Z) : DbM unit := raw_round id start_template_id "open".

(** [src/src/accounting/found_block_repository.rs:306-312 tests::create_worker] *)
Definition create_worker (id : Z) (address : string) : DbM unit := raw_worker id address None.

(** [src/src/accounting/found_block_repository.rs:315-345 tests::test_record_and_get_by_hash] *)
Definition test_record_and_get_by_hash : test := db_test (
  create_round 1 42 ;;
  create_worker 42 "lotus_address" ;;
  block ← munwrap (record_found_block 1 "0000abc" 1292529 (Some 42) (Some 100)
    (Some "json-rpc"%string) 5000000000
    "0000000009d01000000000000000000000000000000000000000000000000000");
  massert_eq (fb_block_hash block) "0000abc"%string ;;
  massert_eq (fb_round_id block) 1 ;;
  massert_eq (fb_height block) 1292529 ;;
  massert_eq (fb_status block) "immature"%string ;;
  massert_eq (fb_persist_source block) (Some "json-rpc"%string) ;;
  fetched ← mread_some (λ d, get_by_hash d "0000abc");
  massert_eq (fb_id fetched) (fb_id block) ;;
  massert_eq (fb_block_hash fetched) "0000abc"%string).

(** [src/src/accounting/found_block_repository.rs:348-356 tests::test_get_by_hash_returns_none_for_missing] *)
Definition test_get_by_hash_returns_none_for_missing : test := db_test (
  result ← mread (λ d, get_by_hash d "nonexistent");
  massert (is_none result)).

(** [src/src/accounting/found_block_repository.rs:359-373 tests::test_mark_orphaned] *)
Definition test_mark_orphaned : test := db_test (
  create_round 1 42 ;;
  munwrap (record_found_block 1 "0000abc" 1292529 None None None 0 "") ;;
  munwrap (mark_orphaned "0000abc" "reorg_detected") ;;
  block ← mread_some (λ d, get_by_hash d "0000abc");
  massert_eq (fb_status block) "orphaned"%string ;;
  massert_eq (fb_orphan_reason block) (Some "reorg_detected"%string)).

(** [src/src/accounting/found_block_repository.rs:376-396 tests::test_un_orphan_restores_status_and_clears_reason] *)
Definition test_un_orphan_restores_status_and_clears_reason : test := db_test (
  create_round 1 42 ;;
  munwrap (record_found_block 1 "block1" 100 None None None 0 "") ;;
  munwrap (mark_orphaned "block1" "reorg") ;;
  block ← mread_some (λ d, get_by_hash d "block1");
  massert_eq (fb_status block) "orphaned"%string ;;
  massert_eq (fb_orphan_reason block) (Some "reorg"%string) ;;
  munwrap (un_orphan "block1") ;;
  block ← mread_some (λ d, get_by_hash d "block1");
  massert_eq (fb_status block) "immature"%string ;;
  massert_eq (fb_orphan_reason block) None).

(** [src/src/accounting/found_block_repository.rs:399-414 tests::test_un_orphan_noop_for_non_orphaned] *)
Definition test_un_orphan_noop_for_non_orphaned : test := db_test (
  create_round 1 42 ;;
  munwrap (record_found_block 1 "block1" 100 None None None 0 "") ;;
  munwrap (un_orphan "block1") ;;
  block ← mread_some (λ d, get_by_hash d "block1");
  massert_eq (fb_status block) "immature"%string ;;
  massert_eq (fb_orphan_reason block) None).

(** [src/src/accounting/found_block_repository.rs:417-425 tests::test_un_orphan_noop_for_nonexistent] *)
Definition test_un_orphan_noop_for_nonexistent : test := db_test (
  munwrap (un_orphan "nonexistent")).

(** [src/src/accounting/found_block_repository.rs:428-443 tests::test_list_all] *)
Definition test_list_all : test := db_test (
  create_round 1 42 ;;
  l ← mread_ok (λ d, list_blocks d None);
  massert (is_empty l) ;;
  munwrap (record_found_block 1 "block1" 100 None None None 0 "") ;;
  munwrap (record_found_block 1 "block2" 101 None None None 0 "") ;;
  l ← mread_ok (λ d, list_blocks d None);
  massert_eq (len l) 2).

(** [src/src/accounting/found_block_repository.rs:446-466 tests::test_list_by_status] *)
Definition test_list_by_status : test := db_test (
  create_round 1 42 ;;
  munwrap (record_found_block 1 "block1" 100 None None None 0 "") ;;
  munwrap (record_found_block 1 "block2" 101 None None None 0 "") ;;
  munwrap (mark_orphaned "block1" "reorg") ;;
  immature ← mread_ok (λ d, list_blocks d (Some "immature"%string));
  massert_eq (len immature) 1 ;;
  i0 ← mat_index immature 0;
  massert_eq (fb_block_hash i0) "block2"%string ;;
  orphaned ← mread_ok (λ d, list_blocks d (Some "orphaned"%string));
  massert_eq (len orphaned) 1 ;;
  o0 ← mat_index orphaned 0;
  massert_eq (fb_block_hash o0) "block1"%string).

(** [src/src/accounting/found_block_repository.rs:469-487 tests::test_duplicate_block_hash_rejected] *)
Definition test_duplicate_block_hash_rejected : test := db_test (
  create_round 1 42 ;;
  munwrap (record_found_block 1 "samehash" 100 None None None 0 "") ;;
  err ← munwrap_err (record_found_block 1 "samehash" 101 None None None 0 "");
  massert_eq err (SqliteConstraint "UNIQUE")).

(** [src/src/accounting/found_block_repository.rs:490-506 tests::test_update_status_transitions] *)
Definition test_update_status_transitions : test := db_test (
  create_round 1 100 ;;
  block ← munwrap (record_found_block 1 "hash1" 100 None None None 50000 "");
  massert_eq (fb_status block) "immature"%string ;;
  munwrap (update_status (fb_id block) "paid") ;;
  updated ← mread_some (λ d, get_by_hash d "hash1");
  massert_eq (fb_status updated) "paid"%string).

(** [src/src/accounting/found_block_repository.rs:509-528 tests::test_update_coinbase_txid] *)
Definition test_update_coinbase_txid : test := db_test (
  create_round 1 100 ;;
  block ← munwrap (record_found_block 1 "hash1" 100 None None None 50000 "");
  massert (is_none (fb_coinbase_txid block)) ;;
  let expected_txid := "a1b2c3d4e5f6a7b8c9d0e1f2a3b4c5d6e7f8a9b0c1d2e3f4a5b6c7d8e9f0a1b2"%string in
  munwrap (update_coinbase_txid (fb_id block) expected_txid) ;;
  updated ← mread_some (λ d, get_by_hash d "hash1");
  massert_eq (fb_coinbase_txid updated) (Some expected_txid)).

(** [src/src/accounting/found_block_repository.rs:531-547 tests::test_new_block_coinbase_txid_defaults_to_null] *)
Definition test_new_block_coinbase_txid_defaults_to_null : test := db_test (
  create_round 1 100 ;;
  block ← munwrap (record_found_block 1 "hash1" 100 None None None 50000 "");
  massert (is_none (fb_coinbase_txid block))).

Lemma found_block_tests_pass :
  all_pass
    [ test_record_and_get_by_hash; test_get_by_hash_returns_none_for_missing; test_mark_orphaned;
      test_un_orphan_restores_status_and_clears_reason; test_un_orphan_noop_for_non_orphaned;
      test_un_orphan_noop_for_nonexistent; test_list_all; test_list_by_status;
      test_duplicate_block_hash_rejected; test_update_status_transitions;
      test_update_coinbase_txid; test_new_block_coinbase_txid_defaults_to_null ] = true.
Proof. vm_compute. reflexivity. Qed.
