(* ===== verification/BatchTests.v ===== *)
(** The unit tests of [payout_repository.rs], run on [PayoutRepository]. *)
From Stdlib Require Import ZArith String.
From stdpp Require Import base option list numbers strings.
From S2P Require Import Prelude Text Float64 Db PayoutRepository Testing DbTesting.
#[local] Open Scope Z_scope.

(** Raw inserts, in ascending order of the ids. *)
(** [src/src/accounting/payout_repository.rs:403-409 tests::create_round] *)
Definition create_round (id start : Z) : DbM unit := raw_round id start "open".

(** [src/src/accounting/payout_repository.rs:411-417 tests::create_worker] *)
Definition create_worker (id : Z) (addr : string) : DbM unit := raw_worker id addr None.

(** [INSERT INTO found_blocks (round_id, block_hash, height, status, coinbase_value, ..)] *)
Definition insert_block (round_id : Z) (hash : string) (height value : Z) : DbM unit := λ d,
  (Ok tt, set_found_blocks d (insert_row (λ i, mkFoundBlock i round_id hash height "immature"
    None None None None None value None "") (found_blocks d)).2).

(** [src/src/accounting/payout_repository.rs:420-439 tests::test_create_and_get_batch] *)
Definition test_create_and_get_batch : test := db_test (
  create_round 1 42 ;;
  batch ← munwrap (create_payout_batch 1 100000 1000 None 3 "hash:3");
  massert_eq (pb_status batch) "pending"%string ;;
  massert_eq (pb_total_amount batch) 100000 ;;
  massert_eq (pb_pool_fee_amount batch) 1000 ;;
  massert_eq (pb_miner_count batch) 3 ;;
  massert (is_some (pb_retry_key batch)) ;;
  fetched ← mread_some (λ d, get_batch_by_id d (pb_id batch));
  massert_eq (pb_id fetched) (pb_id batch) ;;
  massert_eq (pb_total_amount fetched) 100000).

(** [src/src/accounting/payout_repository.rs:442-450 tests::test_get_batch_not_found] *)
Definition test_get_batch_not_found : test := db_test (
  result ← mread (λ d, get_batch_by_id d 999);
  massert (is_none result)).

(** [src/src/accounting/payout_repository.rs:453-466 tests::test_list_batches] *)
Definition test_list_batches : test := db_test (
  create_round 1 42 ;;
  l ← mread (λ d, list_batches d None);
  massert (is_empty l) ;;
  munwrap (create_payout_batch 1 50000 500 None 2 "h1:2") ;;
  munwrap (create_payout_batch 1 60000 600 None 1 "h2:1") ;;
  l ← mread (λ d, list_batches d None);
  massert_eq (len l) 2).

(** [src/src/accounting/payout_repository.rs:469-485 tests::test_list_batches_by_status] *)
Definition test_list_batches_by_status : test := db_test (
  create_round 1 42 ;;
  b ← munwrap (create_payout_batch 1 50000 500 None 1 "h1:1");
  munwrap (update_batch_status (pb_id b) "submitted") ;;
  pending ← mread (λ d, list_batches d (Some "pending"%string));
  massert_eq (len pending) 0 ;;
  submitted ← mread (λ d, list_batches d (Some "submitted"%string));
  massert_eq (len submitted) 1).

(** [src/src/accounting/payout_repository.rs:488-502 tests::test_update_batch_status] *)
Definition test_update_batch_status : test := db_test (
  create_round 1 42 ;;
  b ← munwrap (create_payout_batch 1 50000 500 None 1 "h1:1");
  munwrap (update_batch_status (pb_id b) "failed") ;;
  fetched ← mread_some (λ d, get_batch_by_id d (pb_id b));
  massert_eq (pb_status fetched) "failed"%string).

(** [src/src/accounting/payout_repository.rs:505-525 tests::test_record_and_list_payouts] *)
Definition test_record_and_list_payouts : test := db_test (
  create_round 1 42 ;;
  create_worker 10 "addr1" ;;
  create_worker 20 "addr2" ;;
  batch ← munwrap (create_payout_batch 1 100000 1000 None 2 "hash:2");
  munwrap (record_payout (pb_id batch) 10 "addr1" 60000 0) ;;
  munwrap (record_payout (pb_id batch) 20 "addr2" 39000 0) ;;
  payouts ← mread (λ d, get_payouts_by_batch d (pb_id batch));
  massert_eq (len payouts) 2 ;;
  p0 ← mat_index payouts 0;
  p1 ← mat_index payouts 1;
  massert_eq (p_amount p0) 60000 ;;
  massert_eq (p_amount p1) 39000).

(** [src/src/accounting/payout_repository.rs:528-577 tests::test_delete_payouts_and_snapshots_by_batch] *)
Definition test_delete_payouts_and_snapshots_by_batch : test := db_test (
  create_round 1 42 ;;
  create_worker 10 "addr1" ;;
  (λ d, (Ok tt, set_shares d (mkTable
    [mkShareRow (mkShare 1 10 "s1" "j1" 1 1 "e1" "e2" "ntime" "nonce" (f64_of_Z 1) "dk1") (clock d)]
    1))) ;;
  (λ d, (Ok tt, set_share_outcomes d (mkTable
    [mkOutcomeRow (mkShareOutcome 1 1 "s1" 10 "j1" (Some 1) "dk1" "accepted" None None (Some true)
       (Some false) None) (clock d)] 1))) ;;
  batch ← munwrap (create_payout_batch 1 100000 1000 None 1 "hash:1");
  munwrap (record_payout (pb_id batch) 10 "addr1" 50000 0) ;;
  munwrap (snapshot_shares
    [mkPayoutShareSnapshot 0 (pb_id batch) 1 1 "addr1" (f64_of_Z 10) "2026-01-01T00:00:00"]) ;;
  payouts ← mread (λ d, get_payouts_by_batch d (pb_id batch));
  massert_eq (len payouts) 1 ;;
  snapshots ← mread (λ d, get_snapshots_by_batch d (pb_id batch));
  massert_eq (len snapshots) 1 ;;
  munwrap (delete_payouts_by_batch (pb_id batch)) ;;
  munwrap (delete_snapshots_by_batch (pb_id batch)) ;;
  payouts ← mread (λ d, get_payouts_by_batch d (pb_id batch));
  massert_eq (len payouts) 0 ;;
  snapshots ← mread (λ d, get_snapshots_by_batch d (pb_id batch));
  massert_eq (len snapshots) 0).

(** [src/src/accounting/payout_repository.rs:580-594 tests::test_dust_balance_create_and_update] *)
Definition test_dust_balance_create_and_update : test := db_test (
  '(bal, is_new) ← munwrap (get_or_create_dust_balance "addr1");
  massert_eq bal 0 ;;
  massert is_new ;;
  munwrap (update_dust_balance "addr1" 500) ;;
  '(bal2, is_new2) ← munwrap (get_or_create_dust_balance "addr1");
  massert_eq bal2 500 ;;
  massert (negb is_new2)).

(** [src/src/accounting/payout_repository.rs:597-624 tests::test_get_batches_by_block_hash_found] *)
Definition test_get_batches_by_block_hash_found : test := db_test (
  create_round 1 42 ;;
  create_worker 1 "miner1" ;;
  insert_block 1 "abc" 100 50000 ;;
  batch ← munwrap (create_payout_batch 1 100000 1000 None 1 "hash:abc");
  batches ← mread (λ d, get_batches_by_block_hash d "abc");
  massert_eq (len batches) 1 ;;
  b0 ← mat_index batches 0;
  massert_eq (pb_id b0) (pb_id batch) ;;
  massert_eq (pb_round_id b0) 1 ;;
  massert_eq (pb_status b0) "pending"%string).

(** [src/src/accounting/payout_repository.rs:627-635 tests::test_get_batches_by_block_hash_not_found] *)
Definition test_get_batches_by_block_hash_not_found : test := db_test (
  batches ← mread (λ d, get_batches_by_block_hash d "nonexistent");
  massert (is_empty batches)).

(** [src/src/accounting/payout_repository.rs:638-672 tests::test_get_batches_by_block_hash_multiple_batches_different_rounds] *)
Definition test_get_batches_by_block_hash_multiple_batches_different_rounds : test := db_test (
  create_round 1 42 ;;
  create_round 2 43 ;;
  insert_block 1 "hash1" 100 50000 ;;
  insert_block 2 "hash2" 200 60000 ;;
  munwrap (create_payout_batch 1 100000 1000 None 1 "key1") ;;
  munwrap (create_payout_batch 2 200000 2000 None 1 "key2") ;;
  batches ← mread (λ d, get_batches_by_block_hash d "hash1");
  massert_eq (len batches) 1 ;;
  b0 ← mat_index batches 0;
  massert_eq (pb_round_id b0) 1 ;;
  batches ← mread (λ d, get_batches_by_block_hash d "hash2");
  massert_eq (len batches) 1 ;;
  b0 ← mat_index batches 0;
  massert_eq (pb_round_id b0) 2).

Lemma batch_tests_pass :
  all_pass
    [ test_create_and_get_batch; test_get_batch_not_found; test_list_batches;
      test_list_batches_by_status; test_update_batch_status; test_record_and_list_payouts;
      test_delete_payouts_and_snapshots_by_batch; test_dust_balance_create_and_update;
      test_get_batches_by_block_hash_found; test_get_batches_by_block_hash_not_found;
      test_get_batches_by_block_hash_multiple_batches_different_rounds ] = true.
Proof. vm_compute. reflexivity. Qed.
