(* ===== verification/ServiceTests.v ===== *)
(** The unit tests of [accounting/service.rs] on shares, rounds, blocks and maturation, run on
    [AccountingService]. The calls that the tests count are pure here, so the counters are
    left out; what a counting closure asserts is kept. *)
From Stdlib Require Import ZArith String.
From stdpp Require Import base option list numbers strings.
From S2P Require Import Prelude Text Float64 Db AccountingEventRepository FoundBlockRepository.
From S2P Require Import AccountingService Testing DbTesting.
From S2P Require RoundRepository ShareRepository JsonRpc.
#[local] Open Scope Z_scope.

Definition miner : string := "lotus_16PSJNf1EDEfGvaYzaXJCJZrXH4pgiTo7kyW61iGi".
Definition rig1 : option string := Some "rig1"%string.
Definition json_rpc : option string := Some "json-rpc"%string.

(** The accepted submission that most of the tests make. *)
Definition accepted_share (suffix : option string) : ShareSubmission :=
  mkShareSubmission miner suffix "sess-1" "job-42-100" 42 100 "00000001" "00112233" "001122334455"
    "0011223344556677" (f64_of_Z 1) "accepted" None true false None.

Definition outcome_events (d : Db) (event_type : string) : result (list AccountingEvent) :=
  list_by_type d event_type 10 0.

(** [src/src/accounting/service.rs:1139-1177 tests::test_record_share_full_accounting] *)
Definition test_record_share_full_accounting : test := db_test (
  '(share_id, outcome_id, round_id, _) ← munwrap (record_share (accepted_share rig1));
  massert (is_some share_id) ;;
  massert (is_some outcome_id) ;;
  massert (is_some round_id) ;;
  massert_eq round_id (Some 1) ;;
  events ← mread_ok (λ d, outcome_events d "share_outcome");
  massert_eq (len events) 1 ;;
  e0 ← mat_index events 0;
  massert_eq (ev_status e0) "accepted"%string ;;
  massert_eq (ev_worker_id e0) (Some 1) ;;
  massert_eq (ev_round_id e0) round_id).

(** [src/src/accounting/service.rs:1180-1214 tests::test_record_share_rejected_still_persisted] *)
Definition test_record_share_rejected_still_persisted : test := db_test (
  '(share_id, outcome_id, round_id, _) ← munwrap (record_share
    (mkShareSubmission miner None "sess-2" "job-42-100" 42 100 "00000001" "00112233" "001122334455"
      "0011223344556677" (f64_of_Z 1) "rejected" (Some "low-difficulty-share"%string) false false
      None));
  massert (is_some share_id) ;;
  massert (is_some outcome_id) ;;
  massert (is_some round_id) ;;
  events ← mread_ok (λ d, outcome_events d "share_outcome");
  massert_eq (len events) 1 ;;
  e0 ← mat_index events 0;
  massert_eq (ev_status e0) "rejected"%string).

(** [src/src/accounting/service.rs:1217-1279 tests::test_record_found_block_uses_correct_round_id] *)
Definition test_record_found_block_uses_correct_round_id : test := db_test (
  '(_, _, round_id, _) ← munwrap (record_share (accepted_share rig1));
  massert (is_some round_id) ;;
  round ← munwrap (svc_resolve_round_for_template 42);
  round_id ← munwrap_some round_id;
  massert_eq (r_id round) round_id ;;
  found ← munwrap (svc_record_found_block (r_id round) "0000abc" 1292529 None (Some 42) json_rpc 0 "");
  massert_eq (fb_round_id found) (r_id round) ;;
  massert_eq (fb_block_hash found) "0000abc"%string ;;
  massert_eq (fb_status found) "immature"%string ;;
  events ← mread_ok (λ d, outcome_events d "found_block_observed");
  massert_eq (len events) 1 ;;
  e0 ← mat_index events 0;
  massert_eq (ev_round_id e0) (Some (r_id round))).

Definition stored_hash : string := "0000abcdef12345678900000000000000000000000000000000000000000000000".

(** [src/src/accounting/service.rs:1282-1343 tests::test_reconcile_found_blocks_orphans_when_hash_mismatch] *)
Definition test_reconcile_found_blocks_orphans_when_hash_mismatch : test := db_test (
  munwrap (svc_get_or_create_current_round 42) ;;
  munwrap (svc_record_found_block 1 stored_hash 1000 None (Some 42) json_rpc 0 "") ;;
  munwrap (reconcile_found_blocks 2000 (λ height,
    assert_eq height 1000 ;;
    Ok (Some "ffffffffffffffffffffffffffffffffffffffffffffffffffffffffffffffff"%string))) ;;
  block ← mread_some (λ d, get_by_hash d stored_hash);
  massert_eq (fb_status block) "orphaned"%string ;;
  massert_eq (fb_orphan_reason block) (Some "reorg_detected"%string) ;;
  round ← mread_some (λ d, RoundRepository.get_by_id d 1);
  massert_eq (r_status round) "orphaned"%string).

(** [src/src/accounting/service.rs:1346-1385 tests::test_reconcile_found_blocks_orphans_when_above_tip] *)
Definition test_reconcile_found_blocks_orphans_when_above_tip : test := db_test (
  munwrap (svc_get_or_create_current_round 42) ;;
  munwrap (svc_record_found_block 1 stored_hash 999 None (Some 42) json_rpc 0 "") ;;
  munwrap (reconcile_found_blocks 100 (λ _, Panic)) ;;
  block ← mread_some (λ d, get_by_hash d stored_hash);
  massert_eq (fb_status block) "orphaned"%string ;;
  massert_eq (fb_orphan_reason block) (Some "block_not_found"%string) ;;
  round ← mread_some (λ d, RoundRepository.get_by_id d 1);
  massert_eq (r_status round) "orphaned"%string).

(** [src/src/accounting/service.rs:1388-1445 tests::test_check_maturation_below_threshold] *)
Definition test_check_maturation_below_threshold : test := db_test (
  '(_, _, round_id, _) ← munwrap (record_share (accepted_share rig1));
  round_id ← munwrap_some round_id;
  block ← munwrap (svc_record_found_block round_id "blockhash1" 950 None (Some 42) json_rpc 50000 "");
  massert_eq (fb_status block) "immature"%string ;;
  matured ← munwrap (check_maturation 999 100);
  massert (is_empty matured) ;;
  block ← mread_some (λ d, get_by_hash d "blockhash1");
  massert_eq (fb_status block) "immature"%string).

(** [src/src/accounting/service.rs:1448-1502 tests::test_check_maturation_at_threshold] *)
Definition test_check_maturation_at_threshold : test := db_test (
  '(_, _, round_id, _) ← munwrap (record_share (accepted_share rig1));
  round_id ← munwrap_some round_id;
  block ← munwrap (svc_record_found_block round_id "blockhash2" 950 None (Some 42) json_rpc 50000 "");
  massert_eq (fb_status block) "immature"%string ;;
  matured ← munwrap (check_maturation 1049 100);
  massert_eq (len matured) 1 ;;
  m0 ← mat_index matured 0;
  massert_eq (fb_block_hash m0) "blockhash2"%string ;;
  block ← mread_some (λ d, get_by_hash d "blockhash2");
  massert_eq (fb_status block) "matured"%string ;;
  massert (is_some (fb_matured_at block))).

(** [src/src/accounting/service.rs:1505-1559 tests::test_check_maturation_above_threshold] *)
Definition test_check_maturation_above_threshold : test := db_test (
  '(_, _, round_id, _) ← munwrap (record_share (accepted_share rig1));
  round_id ← munwrap_some round_id;
  block ← munwrap (svc_record_found_block round_id "blockhash3" 950 None (Some 42) json_rpc 50000 "");
  massert_eq (fb_status block) "immature"%string ;;
  matured ← munwrap (check_maturation 1100 100);
  massert_eq (len matured) 1 ;;
  m0 ← mat_index matured 0;
  massert_eq (fb_block_hash m0) "blockhash3"%string ;;
  block ← mread_some (λ d, get_by_hash d "blockhash3");
  massert_eq (fb_status block) "matured"%string).

(** [src/src/accounting/service.rs:1562-1571 tests::test_check_maturation_no_immature_blocks] *)
Definition test_check_maturation_no_immature_blocks : test := db_test (
  matured ← munwrap (check_maturation 999 100);
  massert (is_empty matured)).

(** [src/src/accounting/service.rs:1574-1620 tests::test_check_maturation_does_not_mature_orphaned] *)
Definition test_check_maturation_does_not_mature_orphaned : test := db_test (
  '(_, _, round_id, _) ← munwrap (record_share (accepted_share rig1));
  round_id ← munwrap_some round_id;
  munwrap (svc_record_found_block round_id "orphanedblock" 950 None (Some 42) json_rpc 50000 "") ;;
  munwrap (mark_orphaned "orphanedblock" "reorg") ;;
  matured ← munwrap (check_maturation 1100 100);
  massert (is_empty matured)).

(** [src/src/accounting/service.rs:1623-1694 tests::test_round_closed_on_block_found] *)
Definition test_round_closed_on_block_found : test := db_test (
  '(_, _, round_id, _) ← munwrap (record_share (accepted_share None));
  massert (is_some round_id) ;;
  round_id ← munwrap_some round_id;
  round_before ← mread_some (λ d, RoundRepository.get_by_id d round_id);
  massert_eq (r_status round_before) "open"%string ;;
  let template_id := 42 in
  round ← munwrap (svc_resolve_round_for_template template_id);
  munwrap (svc_record_found_block (r_id round) "foundblockhash" 1000 None (Some template_id) json_rpc
             0 "") ;;
  munwrap (svc_close_round (r_id round) template_id "found") ;;
  round_after ← mread_some (λ d, RoundRepository.get_by_id d (r_id round));
  massert_eq (r_status round_after) "found"%string ;;
  massert_eq (r_end_template_id round_after) (Some template_id) ;;
  events ← mread_ok (λ d, outcome_events d "round_closed");
  massert_eq (len events) 1 ;;
  e0 ← mat_index events 0;
  massert_eq (ev_round_id e0) (Some (r_id round)) ;;
  massert_eq (ev_status e0) "found"%string).

(** [src/src/accounting/service.rs:1697-1741 tests::test_record_share_returns_dedupe_key_with_real_worker_id] *)
Definition test_record_share_returns_dedupe_key_with_real_worker_id : test := db_test (
  '(share_id, outcome_id, round_id, dedupe_key) ← munwrap (record_share (accepted_share rig1));
  massert (is_some share_id) ;;
  massert (is_some outcome_id) ;;
  massert (is_some round_id) ;;
  massert (starts_with "1:" dedupe_key) ;;
  massert (JsonRpc.str_contains "42:100:00112233:001122334455:0011223344556677" dedupe_key)).

(** [src/src/accounting/service.rs:1744-1806 tests::test_record_share_dedupe_correctly] *)
Definition test_record_share_dedupe_correctly : test := db_test (
  '(sid1, _, _, _) ← munwrap (record_share (accepted_share rig1));
  massert (is_some sid1) ;;
  '(sid2, _, _, _) ← munwrap (record_share (accepted_share rig1));
  massert (is_some sid2) ;;
  total_shares ← mread ShareRepository.total_count;
  massert_eq total_shares 1 ;;
  events ← mread_ok (λ d, outcome_events d "share_outcome");
  massert_eq (len events) 1).

Lemma service_tests_pass :
  all_pass
    [ test_record_share_full_accounting; test_record_share_rejected_still_persisted;
      test_record_found_block_uses_correct_round_id;
      test_reconcile_found_blocks_orphans_when_hash_mismatch;
      test_reconcile_found_blocks_orphans_when_above_tip; test_check_maturation_below_threshold;
      test_check_maturation_at_threshold; test_check_maturation_above_threshold;
      test_check_maturation_no_immature_blocks; test_check_maturation_does_not_mature_orphaned;
      test_round_closed_on_block_found; test_record_share_returns_dedupe_key_with_real_worker_id;
      test_record_share_dedupe_correctly ] = true.
Proof. vm_compute. reflexivity. Qed.
