(* ===== verification/PayoutServiceTests.v ===== *)
(** The unit tests of [accounting/service.rs] on payouts, run on [PayoutService]. *)
From Stdlib Require Import ZArith String.
From stdpp Require Import base option list numbers strings.
From S2P Require Import Prelude Text Float64 Db VarDiff FoundBlockRepository PayoutRepository Plan.
From S2P Require Import AccountingService PayoutService Testing DbTesting.
From S2P Require JsonRpc.
#[local] Open Scope Z_scope.

(** The difficulty of the target of the blocks is library code; the tests expect the windows
    that it gives at one. *)
#[local] Instance test_hashing : Hashing := {|
  hex_decode s := if (String.length s =? 64)%nat then Some (repeat Byte.x00 32) else None;
  target_to_difficulty _ := Some (f64_of_Z 1);
|}.

Definition db_test : DbM unit → test := db_test_at "2026-06-02 12:00:00".

Definition json_rpc : option string := Some "json-rpc"%string.
Definition easy_target : string := "0000ffff0000000000000000000000000000000000000000000000000000000000".

(** The raw inserts of the tests. *)
Definition insert_worker (id : Z) (addr : string) : DbM unit := raw_worker id addr None.
Definition insert_round (id template : Z) : DbM unit := raw_round id template "open".
Definition insert_dust (addr : string) (balance : Z) : DbM unit := λ d,
  (Ok tt, set_dust_balances d (insert_row (λ _, mkDustBalance addr balance) (dust_balances d)).2).
(** A share and its accepted outcome, of the same id; [Some hash] is a block. *)
Definition insert_work (id worker : Z) (session job : string) (round template epoch : Z) (diff : f64)
    (key created_at : string) (block : option string) : DbM unit := λ d,
  let s := mkShareRow (mkShare id worker session job template epoch "e1" "en2" "ntime" "nonce" diff key)
             (clock d) in
  let o := mkOutcomeRow (mkShareOutcome id id session worker job (Some round) key "accepted" None None
             (Some true) (Some (is_some block)) block) created_at in
  (Ok tt, set_share_outcomes (set_shares d (mkTable (rows (shares d) ++ [s]) id))
            (mkTable (rows (share_outcomes d) ++ [o]) id)).

(** [src/src/accounting/service.rs:1809-1953 tests::test_snapshot_includes_dusted_miner_shares] *)
Definition test_snapshot_includes_dusted_miner_shares : test := db_test (
  let block_hash := "00000000deadbeef00000000000000000000000000000000000000000000000000"%string in
  insert_worker 1 "big_addr" ;;
  insert_worker 2 "small_addr" ;;
  insert_round 1 100 ;;
  insert_work 1 1 "s1" "j1" 1 100 1 (f64_of_Z 500) "dk1" "2026-05-20T12:00:01" None ;;
  insert_work 2 2 "s2" "j2" 1 100 2 (f64_of_Z 1) "dk2" "2026-05-20T12:00:02" None ;;
  insert_work 3 1 "s1" "j3" 1 100 3 (f64_of_Z 1) "dk3" "2026-05-20T12:00:03" (Some block_hash) ;;
  found_block ← munwrap (svc_record_found_block 1 block_hash 5000 (Some 1) (Some 100) json_rpc 1000
    easy_target);
  batch_id ← munwrap (create_payout_for_found_block found_block
    (mkPayoutParams 0 None 500 (f64_of_Z 10)));
  snapshots ← mread (λ d, get_snapshots_by_batch d batch_id);
  let big_snaps := List.filter (λ s, String.eqb (ps_payout_address s) "big_addr") snapshots in
  let small_snaps := List.filter (λ s, String.eqb (ps_payout_address s) "small_addr") snapshots in
  massert (negb (is_empty big_snaps)) ;;
  massert (negb (is_empty small_snaps)) ;;
  payouts ← mread (λ d, get_payouts_by_batch d batch_id);
  small_payout ← munwrap_some
    (List.find (λ p, String.eqb (p_payout_address p) "small_addr") payouts);
  massert_eq (p_amount small_payout) 0 ;;
  massert (0 <? p_dust_carried_forward small_payout)).

(** Two miners with three quarters and one quarter of the work, and a block of the first. *)
Definition alice_and_bob (block_hash day : string) : DbM unit :=
  insert_worker 1 "alice" ;;
  insert_worker 2 "bob" ;;
  insert_round 1 200 ;;
  insert_work 1 1 "s1" "j1" 1 200 1 (f64_of_Z 300) "dk1" (day ++ "T12:00:01") None ;;
  insert_work 2 2 "s2" "j2" 1 200 2 (f64_of_Z 100) "dk2" (day ++ "T12:00:02") None ;;
  insert_work 3 1 "s1" "j3" 1 200 3 (f64_of_Z 1) "dk3" (day ++ "T12:00:03") (Some block_hash).

Definition fee_pool : PayoutParams := mkPayoutParams 200 (Some "fee_pool"%string) 1 (f64_of_Z 10).

(** [src/src/accounting/service.rs:1956-2137 tests::test_full_payout_flow_integration] *)
Definition test_full_payout_flow_integration : test := db_test (
  let block_hash := "00000000cafebabe00000000000000000000000000000000000000000000000000"%string in
  alice_and_bob block_hash "2026-05-20" ;;
  insert_dust "alice" 50 ;;
  found_block ← munwrap (svc_record_found_block 1 block_hash 9999 (Some 1) (Some 200) json_rpc 10000
    easy_target);
  batch_id ← munwrap (create_payout_for_found_block found_block fee_pool);
  batch ← mread_some (λ d, get_batch_by_id d batch_id);
  massert_eq (pb_status batch) "pending"%string ;;
  massert_eq (pb_round_id batch) 1 ;;
  massert_eq (pb_pool_fee_amount batch) 100 ;;
  massert_eq (pb_pool_fee_address batch) (Some "fee_pool"%string) ;;
  payouts ← mread (λ d, get_payouts_by_batch d batch_id);
  let total_payouts := sum_i64 (map p_amount payouts) in
  let total_dust := sum_i64 (map p_dust_carried_forward payouts) in
  massert_eq (total_payouts + pb_pool_fee_amount batch + total_dust) 5000 ;;
  massert (existsb (λ p, p_worker_id p =? 1) payouts) ;;
  massert (existsb (λ p, p_worker_id p =? 2) payouts) ;;
  snapshots ← mread (λ d, get_snapshots_by_batch d batch_id);
  massert_eq (len snapshots) 2 ;;
  massert (existsb (λ s, String.eqb (ps_payout_address s) "alice") snapshots) ;;
  massert (existsb (λ s, String.eqb (ps_payout_address s) "bob") snapshots) ;;
  retry_key ← munwrap_some (pb_retry_key batch);
  massert (starts_with (block_hash ++ ":") retry_key) ;;
  massert (total_dust =? 0) ;;
  '(alice_dust, _) ← munwrap (get_or_create_dust_balance "alice");
  massert_eq alice_dust 50).

(** [src/src/accounting/service.rs:2140-2240 tests::test_create_payout_rejects_duplicate_block] *)
Definition test_create_payout_rejects_duplicate_block : test := db_test (
  let block_hash := "0000deadbeef000000000000000000000000000000000000000000000000000000"%string in
  alice_and_bob block_hash "2026-05-20" ;;
  found_block ← munwrap (svc_record_found_block 1 block_hash 10000 (Some 1) (Some 200) json_rpc 10000
    easy_target);
  munwrap (create_payout_for_found_block found_block fee_pool) ;;
  err ← munwrap_err (create_payout_for_found_block found_block fee_pool);
  massert (match err with Anyhow msg => JsonRpc.str_contains "already exists" msg | _ => false end)).

(** [src/src/accounting/service.rs:2243-2423 tests::test_dust_accumulates_across_multiple_rounds] *)
Definition test_dust_accumulates_across_multiple_rounds : test := db_test (
  let r1_hash := "00000000000000000000000000000000000000000000000000000000000000aa"%string in
  let r2_hash := "00000000000000000000000000000000000000000000000000000000000000bb"%string in
  insert_worker 1 "big_miner" ;;
  insert_worker 2 "small_miner" ;;
  insert_round 1 100 ;;
  insert_round 2 200 ;;
  insert_work 1 1 "s1" "j1" 1 100 1 (f64_of_Z 8) "dk1" "2026-01-01T12:00:00" None ;;
  insert_work 2 2 "s2" "j2" 1 100 2 (f64_of_Z 2) "dk2" "2026-01-01T12:00:01" None ;;
  insert_work 3 1 "s1" "j3" 1 100 3 (f64_of_Z 1) "dk3" "2026-01-01T12:00:02" (Some r1_hash) ;;
  insert_work 4 1 "s1" "j4" 2 200 4 (f64_of_Z 8) "dk4" "2026-01-02T12:00:00" None ;;
  insert_work 5 2 "s2" "j5" 2 200 5 (f64_of_Z 2) "dk5" "2026-01-02T12:00:01" None ;;
  insert_work 6 1 "s1" "j6" 2 200 6 (f64_of_Z 1) "dk6" "2026-01-02T12:00:02" (Some r2_hash) ;;
  found_block_1 ← munwrap (svc_record_found_block 1 r1_hash 10000 (Some 1) (Some 100) json_rpc 1000
    easy_target);
  found_block_2 ← munwrap (svc_record_found_block 2 r2_hash 10001 (Some 1) (Some 200) json_rpc 1000
    easy_target);
  let pp := mkPayoutParams 0 None 500 (f64_of_Z 10) in
  munwrap (create_payout_for_found_block found_block_1 pp) ;;
  '(dust_after_1, _) ← munwrap (get_or_create_dust_balance "small_miner");
  massert (0 <? dust_after_1) ;;
  munwrap (create_payout_for_found_block found_block_2 pp) ;;
  '(dust_after_2, _) ← munwrap (get_or_create_dust_balance "small_miner");
  massert (dust_after_1 <? dust_after_2)).

Definition cafebabe : string := "00000000cafebabe00000000000000000000000000000000000000000000000000".

(** [src/src/accounting/service.rs:2426-2498 tests::test_reconcile_submitted_payouts_confirms_batch] *)
Definition test_reconcile_submitted_payouts_confirms_batch : test := db_test (
  round ← munwrap (svc_get_or_create_current_round 42);
  munwrap (record_found_block (r_id round) cafebabe 1000 None None None 5000 easy_target) ;;
  batch ← munwrap (create_payout_batch (r_id round) 4900 100 (Some "fee_address"%string) 1 "hash:1");
  let txid := "a1b2c3d4e5f6a7b8c9d0e1f2a3b4c5d6e7f8a9b0c1d2e3f4a5b6c7d8e9f0a1b2"%string in
  munwrap (mark_batch_submitted (pb_id batch) txid) ;;
  let check_tx asked := assert_eq asked txid ;; Ok (Some 6) in
  reconciled ← munwrap (reconcile_submitted_payouts check_tx);
  massert_eq (len reconciled) 1 ;;
  '(id0, txid0, status0) ← mat_index reconciled 0;
  massert_eq id0 (pb_id batch) ;;
  massert_eq txid0 txid ;;
  massert_eq status0 "confirmed"%string ;;
  updated_batch ← mread_some (λ d, get_batch_by_id d (pb_id batch));
  massert_eq (pb_status updated_batch) "confirmed"%string ;;
  fb ← mread_some (λ d, get_by_hash d cafebabe);
  massert_eq (fb_status fb) "paid"%string).

(** [src/src/accounting/service.rs:2501-2541 tests::test_reconcile_submitted_payouts_leaves_unconfirmed_in_mempool] *)
Definition test_reconcile_submitted_payouts_leaves_unconfirmed_in_mempool : test := db_test (
  round ← munwrap (svc_get_or_create_current_round 42);
  munwrap (record_found_block (r_id round) cafebabe 1000 None None None 5000 "") ;;
  batch ← munwrap (create_payout_batch (r_id round) 4900 100 None 1 "hash:1");
  munwrap (mark_batch_submitted (pb_id batch) "tx-in-mempool") ;;
  let check_tx _ := Ok (Some 0) in
  reconciled ← munwrap (reconcile_submitted_payouts check_tx);
  massert (is_empty reconciled) ;;
  updated ← mread_some (λ d, get_batch_by_id d (pb_id batch));
  massert_eq (pb_status updated) "submitted"%string).

(** [src/src/accounting/service.rs:2544-2572 tests::test_reconcile_submitted_payouts_leaves_on_not_found] *)
Definition test_reconcile_submitted_payouts_leaves_on_not_found : test := db_test (
  round ← munwrap (svc_get_or_create_current_round 42);
  munwrap (record_found_block (r_id round) "blockhash" 1000 None None None 5000 "") ;;
  batch ← munwrap (create_payout_batch (r_id round) 4900 100 None 1 "hash:1");
  munwrap (mark_batch_submitted (pb_id batch) "dropped-tx") ;;
  let check_tx _ := Ok None in
  reconciled ← munwrap (reconcile_submitted_payouts check_tx);
  massert (is_empty reconciled) ;;
  updated ← mread_some (λ d, get_batch_by_id d (pb_id batch));
  massert_eq (pb_status updated) "submitted"%string).

(** [src/src/accounting/service.rs:2575-2603 tests::test_reconcile_submitted_payouts_leaves_on_rpc_error] *)
Definition test_reconcile_submitted_payouts_leaves_on_rpc_error : test := db_test (
  round ← munwrap (svc_get_or_create_current_round 42);
  munwrap (record_found_block (r_id round) "blockhash" 1000 None None None 5000 "") ;;
  batch ← munwrap (create_payout_batch (r_id round) 4900 100 None 1 "hash:1");
  munwrap (mark_batch_submitted (pb_id batch) "error-tx") ;;
  let check_tx _ := Err (Anyhow "connection refused") in
  reconciled ← munwrap (reconcile_submitted_payouts check_tx);
  massert (is_empty reconciled) ;;
  updated ← mread_some (λ d, get_batch_by_id d (pb_id batch));
  massert_eq (pb_status updated) "submitted"%string).

(** [src/src/accounting/service.rs:2606-2743 tests::test_rebuild_payout_plan_repopulates_payouts_and_snapshots] *)
Definition test_rebuild_payout_plan_repopulates_payouts_and_snapshots : test := db_test (
  let block_hash := "00000000aaaa000000000000000000000000000000000000000000000000000000"%string in
  alice_and_bob block_hash "2026-06-01" ;;
  found_block ← munwrap (svc_record_found_block 1 block_hash 10000 (Some 1) (Some 200) json_rpc 10000
    easy_target);
  batch_id ← munwrap (create_payout_for_found_block found_block fee_pool);
  original_payouts ← mread (λ d, get_payouts_by_batch d batch_id);
  massert_eq (len original_payouts) 2 ;;
  let original_total := sum_i64 (map p_amount original_payouts) in
  munwrap (delete_payouts_by_batch batch_id) ;;
  deleted ← mread (λ d, get_payouts_by_batch d batch_id);
  massert (is_empty deleted) ;;
  outputs ← munwrap (rebuild_payout_plan_for_batch batch_id fee_pool);
  rebuilt_payouts ← mread (λ d, get_payouts_by_batch d batch_id);
  massert_eq (len rebuilt_payouts) 2 ;;
  let rebuilt_total := sum_i64 (map p_amount rebuilt_payouts) in
  massert_eq rebuilt_total original_total ;;
  massert_eq (len outputs) (len rebuilt_payouts) ;;
  snapshots ← mread (λ d, get_snapshots_by_batch d batch_id);
  massert (negb (is_empty snapshots)) ;;
  batch ← mread_some (λ d, get_batch_by_id d batch_id);
  let total_payouts := sum_i64 (map p_amount rebuilt_payouts) in
  let total_dust := sum_i64 (map p_dust_carried_forward rebuilt_payouts) in
  massert_eq (total_payouts + pb_pool_fee_amount batch + total_dust) 5000 ;;
  massert (existsb (λ p, p_worker_id p =? 1) rebuilt_payouts) ;;
  massert (existsb (λ p, p_worker_id p =? 2) rebuilt_payouts)).

Lemma payout_service_tests_pass :
  all_pass
    [ test_snapshot_includes_dusted_miner_shares; test_full_payout_flow_integration;
      test_create_payout_rejects_duplicate_block; test_dust_accumulates_across_multiple_rounds;
      test_reconcile_submitted_payouts_confirms_batch;
      test_reconcile_submitted_payouts_leaves_unconfirmed_in_mempool;
      test_reconcile_submitted_payouts_leaves_on_not_found;
      test_reconcile_submitted_payouts_leaves_on_rpc_error;
      test_rebuild_payout_plan_repopulates_payouts_and_snapshots ] = true.
Proof. vm_compute. reflexivity. Qed.
