(* ===== verification/StratumTests.v ===== *)
(** The unit tests of [stratum_protocol/session.rs], [job.rs], [protocol.rs] and [params.rs],
    run on [Session], [Job] and [Protocol]. The address library accepts the one address that
    the tests use, and the JSON parser is given by the value of the test's text. *)
From Stdlib Require Import ZArith String Ascii.
From stdpp Require Import base option list numbers strings sets gmap.
From S2P Require Import Prelude Text Float64 VarDiff Json Job Protocol Session Validator Template.
From S2P Require Import Testing.
#[local] Open Scope Z_scope.

Definition address : string := "lotus_16PSJNf1EDEfGvaYzaXJCJZrXH4pgiTo7kyW61iGi".
Definition worker_rig : string := (address ++ ".rig")%string.

#[local] Instance test_address : LotusAddress := {|
  address_error a := if String.eqb a address then None else Some "invalid address"%string |}.

(** [Instant::now()] *)
Definition now : Z := 5000000000000.
Definition f100 : f64 := f64_of_Z 100.
Definition f1 : f64 := f64_of_Z 1.
Definition error_value (v : Value) : bool := negb (is_null v).

(** * [session.rs] *)

(** [src/src/stratum_protocol/session.rs:142-150 tests::test_session] *)
Definition test_session (id : string) : result SessionState :=
  SessionState_new id "00000001" VarDiffConfig_default f100 now.

Definition subscribed (s : SessionState) : SessionState :=
  mkSessionState (ss_session_id s) (ss_extranonce1 s) (ss_extranonce2_size s) true
    (ss_is_authorized s) (ss_authorized_workers s) (ss_assigned_jobs s) (ss_vardiff s).

(** [src/src/stratum_protocol/session.rs:153-168 tests::test_subscribe_creates_session] *)
Definition test_subscribe_creates_session : test :=
  session ← test_session "sess-1";
  let req := mkStratumRequest (number 1) Subscribe (Array []) in
  let '(resp, session) := handle_subscribe req session in
  assert (is_null (rs_error resp)) ;;
  assert (ss_is_subscribed session) ;;
  assert_eq (String.length (ss_extranonce1 session)) 8%nat ;;
  assert (str_all is_hexdigit (ss_extranonce1 session)) ;;
  assert_eq (ss_extranonce2_size session) 4.

Definition authorize_request : StratumRequest :=
  mkStratumRequest (number 2) Authorize (Array [Str worker_rig; Str "x"]).

(** [src/src/stratum_protocol/session.rs:171-184 tests::test_authorize_requires_subscribe] *)
Definition test_authorize_requires_subscribe : test :=
  session ← test_session "sess-2";
  let '(resp, session) := handle_authorize authorize_request session in
  assert (error_value (rs_error resp)) ;;
  assert (negb (ss_is_authorized session)).

(** [src/src/stratum_protocol/session.rs:187-205 tests::test_authorize_with_valid_worker] *)
Definition test_authorize_with_valid_worker : test :=
  session ← test_session "sess-3";
  let session := subscribed session in
  let '(resp, session) := handle_authorize authorize_request session in
  assert (is_null (rs_error resp)) ;;
  assert (ss_is_authorized session) ;;
  assert (bool_decide (worker_rig ∈ ss_authorized_workers session)).

(** ["job-{}"] and ["ntime-{}"] *)
Definition job_n (i : nat) : string := ("job-" ++ show_u (Z.of_nat i))%string.
Definition ntime_n (i : nat) : string := ("ntime-" ++ show_u (Z.of_nat i))%string.

(** [src/src/stratum_protocol/session.rs:208-226 tests::test_assigned_jobs_cap] *)
Definition test_assigned_jobs_cap : test :=
  session ← test_session "sess-8";
  let session := fold_left (λ s i, record_assigned_job (job_n i) f1 (ntime_n i) s)
    (seq 0 (MAX_ASSIGNED_JOBS_PER_SESSION + 10)) session in
  assert_eq (length (ss_assigned_jobs session)) MAX_ASSIGNED_JOBS_PER_SESSION ;;
  assert (is_none (get_assigned_job session "job-0")) ;;
  assert (is_none (get_assigned_job session "job-1")) ;;
  assert (is_some (get_assigned_job session (job_n (MAX_ASSIGNED_JOBS_PER_SESSION + 9)))).

(** [src/src/stratum_protocol/session.rs:229-238 tests::test_clear_assigned_jobs] *)
Definition test_clear_assigned_jobs : test :=
  session ← test_session "sess-9";
  let session := record_assigned_job "job-1" f1 "ntime-1" session in
  let session := record_assigned_job "job-2" f1 "ntime-2" session in
  assert_eq (length (ss_assigned_jobs session)) 2%nat ;;
  let session := clear_assigned_jobs session in
  assert_eq (length (ss_assigned_jobs session)) 0%nat ;;
  assert (is_none (get_assigned_job session "job-1")).

(** [src/src/stratum_protocol/session.rs:241-256 tests::test_current_difficulty] *)
Definition test_current_difficulty : test :=
  session ← test_session "sess-10";
  assert (close (current_difficulty session) (f64_of_Z 2)) ;;
  let session := record_assigned_job "job-1" (f64_of_Z 512) "ntime" session in
  assert (close (current_difficulty session) (f64_of_Z 2)).

(** [src/src/stratum_protocol/session.rs:259-267 tests::test_parse_worker_name_valid] *)
Definition test_parse_worker_name_valid : test :=
  worker ← unwrap (parse_worker_name (address ++ ".rig01"));
  assert_eq (wn_payout_address worker) address ;;
  assert_eq (wn_worker_suffix worker) (Some "rig01"%string).

(** [src/src/stratum_protocol/session.rs:270-277 tests::test_parse_worker_name_no_suffix] *)
Definition test_parse_worker_name_no_suffix : test :=
  worker ← unwrap (parse_worker_name address);
  assert_eq (wn_payout_address worker) address ;;
  assert_eq (wn_worker_suffix worker) None.

(** [src/src/stratum_protocol/session.rs:280-283 tests::test_parse_worker_name_invalid_address] *)
Definition test_parse_worker_name_invalid_address : test :=
  assert (negb (is_ok (parse_worker_name "bad.worker"))) ;;
  assert (negb (is_ok (parse_worker_name "lotusabc.r1"))).

(** [src/src/stratum_protocol/session.rs:286-288 tests::test_parse_worker_name_empty_suffix] *)
Definition test_parse_worker_name_empty_suffix : test :=
  assert (negb (is_ok (parse_worker_name (address ++ ".")))).

(** [src/src/stratum_protocol/session.rs:291-304 tests::test_extranonce1_stores_provided_value] *)
Definition test_extranonce1_stores_provided_value : test :=
  session ← SessionState_new "sess-ext" "deadbeef" VarDiffConfig_default f100 now;
  assert_eq (ss_extranonce1 session) "deadbeef"%string ;;
  assert_eq (String.length (ss_extranonce1 session)) 8%nat ;;
  assert (str_all is_hexdigit (ss_extranonce1 session)).

Lemma session_tests_pass :
  all_pass
    [ test_subscribe_creates_session; test_authorize_requires_subscribe;
      test_authorize_with_valid_worker; test_assigned_jobs_cap; test_clear_assigned_jobs;
      test_current_difficulty; test_parse_worker_name_valid; test_parse_worker_name_no_suffix;
      test_parse_worker_name_invalid_address; test_parse_worker_name_empty_suffix;
      test_extranonce1_stores_provided_value ] = true.
Proof. vm_compute. reflexivity. Qed.

(** * [job.rs] *)

Definition test_job (reason : string) : MiningJob :=
  mkMiningJob "job-890-100" 890
    "4f7bcee63a20eff92f69a7f0e74af36a9f1e60ee7ecc5b0506e1ae3600000000" "abc" "def" ["hash1"]
    "00000001" "10d0091c" "6adc0c6a0000"
    "0000000009d01000000000000000000000000000000000000000000000000000" true 100 1292529
    "00000000061fb84d2a1d30d8767f629a08904b0e70f84587008fd9e91f1583f7"
    "9a538906e6466ebd2617d321f71bc94e56056ce213d366773699e28158e00614" 2588 [] 5000000000
    reason.

(** [src/src/stratum_protocol/job.rs:80-110 tests::test_notify_params_includes_reason_when_set] *)
Definition test_notify_params_includes_reason_when_set : test :=
  arr ← unwrap_some (as_array (notify_params (test_job "new-tip")));
  assert_eq (length arr) 14%nat ;;
  last ← at_index arr 13;
  assert_eq (as_str last) (Some "new-tip"%string).

(** [src/src/stratum_protocol/job.rs:113-142 tests::test_notify_params_omits_reason_when_empty] *)
Definition test_notify_params_omits_reason_when_empty : test :=
  arr ← unwrap_some (as_array (notify_params (test_job "")));
  assert_eq (length arr) 13%nat.

(** [src/src/stratum_protocol/job.rs:145-149 tests::test_parse_template_metadata_from_job_id_standard_format] *)
Definition test_parse_template_metadata_from_job_id_standard_format : test :=
  '(tid, epoch) ← unwrap_some (parse_template_metadata_from_job_id "job-890-100");
  assert_eq tid 890 ;; assert_eq epoch 100.

(** [src/src/stratum_protocol/job.rs:152-156 tests::test_parse_template_metadata_from_job_id_large_numbers] *)
Definition test_parse_template_metadata_from_job_id_large_numbers : test :=
  '(tid, epoch) ← unwrap_some (parse_template_metadata_from_job_id "job-999999-1234567890");
  assert_eq tid 999999 ;; assert_eq epoch 1234567890.

(** [src/src/stratum_protocol/job.rs:159-161 tests::test_parse_template_metadata_from_job_id_missing_prefix] *)
Definition test_parse_template_metadata_from_job_id_missing_prefix : test :=
  assert (is_none (parse_template_metadata_from_job_id "not-a-job")).

(** [src/src/stratum_protocol/job.rs:164-166 tests::test_parse_template_metadata_from_job_id_no_epoch] *)
Definition test_parse_template_metadata_from_job_id_no_epoch : test :=
  assert (is_none (parse_template_metadata_from_job_id "job-42")).

(** [src/src/stratum_protocol/job.rs:169-171 tests::test_parse_template_metadata_from_job_id_non_numeric] *)
Definition test_parse_template_metadata_from_job_id_non_numeric : test :=
  assert (is_none (parse_template_metadata_from_job_id "job-abc-def")).

Lemma job_tests_pass :
  all_pass
    [ test_notify_params_includes_reason_when_set;
      test_notify_params_omits_reason_when_empty;
      test_parse_template_metadata_from_job_id_standard_format;
      test_parse_template_metadata_from_job_id_large_numbers;
      test_parse_template_metadata_from_job_id_missing_prefix;
      test_parse_template_metadata_from_job_id_no_epoch;
      test_parse_template_metadata_from_job_id_non_numeric ] = true.
Proof. vm_compute. reflexivity. Qed.

(** * [params.rs] *)

(** [src/src/stratum_protocol/params.rs:30-36 tests::test_params_constants_have_expected_values] *)
Definition test_params_constants_have_expected_values : test :=
  assert_eq EXTRANONCE_1_SIZE 4 ;;
  assert_eq EXTRANONCE_2_SIZE 4 ;;
  assert_eq EXTRANONCE_TOTAL_SIZE 8 ;;
  assert_eq EXTRANONCE_1_HEX_CHARS 8 ;;
  assert_eq MAX_ASSIGNED_JOBS_PER_SESSION 128%nat.

Lemma params_tests_pass :
  all_pass
    [ test_params_constants_have_expected_values ] = true.
Proof. vm_compute. reflexivity. Qed.

(** * [protocol.rs] *)

(** A request with the given method and parameters. *)
Definition decode_call (id : Z) (method : string) (params : list string) :
    StratumRequest + StratumError :=
  let text := request_text id method params in
  decode_request_line (from_str_of [(text, request_value id method params)]) text 1024.

Definition decodes_as (r : StratumRequest + StratumError) (m : Method) : test :=
  match r with inl req => assert_eq (rq_method req) m | inr _ => Panic end.
Definition invalid_shape (r : StratumRequest + StratumError) : bool :=
  match r with inr InvalidRequestShape => true | _ => false end.

(** [src/src/stratum_protocol/protocol.rs:118-122 tests::test_decode_subscribe] *)
Definition test_decode_subscribe : test :=
  decodes_as (decode_call 1 "mining.subscribe" []) Subscribe.

(** [src/src/stratum_protocol/protocol.rs:125-132 tests::test_decode_authorize] *)
Definition test_decode_authorize : test :=
  decodes_as (decode_call 2 "mining.authorize" [worker_rig; "x"%string]) Authorize.

(** [src/src/stratum_protocol/protocol.rs:135-142 tests::test_decode_submit] *)
Definition test_decode_submit : test :=
  decodes_as (decode_call 3 "mining.submit"
    ["worker"; "job1"; "00112233"; "001122334455"; "0011223344556677"]%string) Submit.

(** [src/src/stratum_protocol/protocol.rs:145-148 tests::test_decode_invalid_json] *)
Definition test_decode_invalid_json : test :=
  let text := ("{" ++ member "id" "1" ++ "," ++ quoted "method" ++ ":")%string in
  let result := decode_request_line (λ _, inr "EOF while parsing a string"%string) text 1024 in
  assert (match result with inr (InvalidJson _) => true | _ => false end).

(** [src/src/stratum_protocol/protocol.rs:151-157 tests::test_decode_line_too_long] *)
Definition test_decode_line_too_long : test :=
  let line := String.concat "" (replicate 20 "x"%string) in
  let result := decode_request_line (λ _, inr "expected value"%string) line 8 in
  assert (match result with inr LineTooLong => true | _ => false end).

(** [src/src/stratum_protocol/protocol.rs:160-163 tests::test_decode_missing_id] *)
Definition test_decode_missing_id : test :=
  let text := object_text [member "method" (quoted "mining.subscribe"); member "params" "[]"] in
  let value := Object [("method", Str "mining.subscribe"); ("params", Array [])]%string in
  assert (invalid_shape (decode_request_line (from_str_of [(text, value)]) text 1024)).

(** [src/src/stratum_protocol/protocol.rs:166-169 tests::test_decode_missing_method] *)
Definition test_decode_missing_method : test :=
  let text := object_text [member "id" "1"; member "params" "[]"] in
  let value := Object [("id"%string, number 1); ("params"%string, Array [])] in
  assert (invalid_shape (decode_request_line (from_str_of [(text, value)]) text 1024)).

(** [src/src/stratum_protocol/protocol.rs:172-178 tests::test_decode_params_not_array] *)
Definition test_decode_params_not_array : test :=
  let text := object_text [member "id" "1"; member "method" (quoted "mining.subscribe");
                           member "params" (quoted "bad")] in
  let value := Object [("id"%string, number 1); ("method"%string, Str "mining.subscribe");
                       ("params"%string, Str "bad")] in
  assert (invalid_shape (decode_request_line (from_str_of [(text, value)]) text 1024)).

Lemma protocol_tests_pass :
  all_pass
    [ test_decode_subscribe; test_decode_authorize; test_decode_submit; test_decode_invalid_json;
      test_decode_line_too_long; test_decode_missing_id; test_decode_missing_method;
      test_decode_params_not_array ] = true.
Proof. vm_compute. reflexivity. Qed.
