(* ===== verification/ValidatorTests.v ===== *)
(** The unit tests of [share_processing/validator.rs], run on [Validator]. Three tests
    (a block that was found, the fields of a header, a difficulty no hash reaches) are about
    the hash of a header and left out; the library of the others is the example of
    [Validator], in which every header meets every target. *)
From Stdlib Require Import ZArith String Ascii.
From stdpp Require Import base option list numbers strings sets gmap.
From S2P Require Import Prelude Text Float64 VarDiff Json Job Protocol Session Validator Testing.
#[local] Open Scope Z_scope.

#[local] Existing Instance example_target_hashing.
#[local] Existing Instance example_lotus.

Definition now : Z := 5000000000000.

(** [src/src/share_processing/validator.rs:248-274 tests::create_test_job] *)
Definition create_test_job : MiningJob :=
  mkMiningJob "job-890-100" 890
    "e6ce7b4ff9ef203af0a7692f6af34ae7ee601e9f055bcc7e36aee10600000000"
    "02000000010000000000000000000000000000000000000000000000000000000000000000ffffffff1900000e2f4c6f747573696120506f6f6c2f"
    "ffffffff0300000000000000000b6a056c6f676f7303f1b8137ecf360d000000001976a914ad8b796954a46f0f32a867d3fd8855043cc506ba88ac7ecf360d000000001976a914053d4d0c28d299dc5c2be1ce5d29bf00cdb61b4088ac00000000"
    ["796f6be745741765f8b19cfa4209ff68447d9e76198fee5d33fbe2c944224f16";
     "4b0ce2ddbf0f5352b721b7688109a1e1007722f96fa07f61ea8e655ac804964f";
     "c3899f315bc3b284015819a8d77404b4e179528d62559886babf89884966a172"]%string
    "00000001" "10d0091c" "6adc0c6a0000"
    "0000000009d01000000000000000000000000000000000000000000000000000" true 100 1292529
    "00000000061fb84d2a1d30d8767f629a08904b0e70f84587008fd9e91f1583f7"
    "9a538906e6466ebd2617d321f71bc94e56056ce213d366773699e28158e00614" 2588 [] 5000000000 "".

Definition worker_rig : string := "lotus_16PSJNf1EDEfGvaYzaXJCJZrXH4pgiTo7kyW61iGi.rig".

(** [src/src/share_processing/validator.rs:276-290 tests::create_authorized_session] *)
Definition create_authorized_session : result SessionState :=
  s ← SessionState_new "sess-1" "00000001" VarDiffConfig_default (f64_of_Z 100) now;
  let s := mkSessionState (ss_session_id s) (ss_extranonce1 s) (ss_extranonce2_size s) true true
    ({[worker_rig]} ∪ ss_authorized_workers s) (ss_assigned_jobs s) (ss_vardiff s) in
  Ok (record_assigned_job "job-890-100" (f64_of_Z 1) "6adc0c6a0000" s).

Definition accepts (extranonce2 ntime nonce : string) : bool :=
  is_none (validate_share_format extranonce2 ntime nonce).

(** [src/src/share_processing/validator.rs:293-299 tests::test_validate_format_valid_params] *)
Definition test_validate_format_valid_params : test :=
  assert (accepts "00000003" "6adc0c6a0000" "B02B4ABB3DD6E835") ;;
  assert (accepts "aabb" "6adc0c6a0000" "B02B4ABB3DD6E835") ;;
  assert (accepts "0011223344556677" "6adc0c6a0000" "B02B4ABB3DD6E835").

(** [src/src/share_processing/validator.rs:302-310 tests::test_validate_format_invalid_extranonce2] *)
Definition test_validate_format_invalid_extranonce2 : test :=
  assert (negb (accepts "" "6adc0c6a0000" "B02B4ABB3DD6E835")) ;;
  assert (negb (accepts "0000000" "6adc0c6a0000" "B02B4ABB3DD6E835")) ;;
  assert (negb (accepts "000000xx" "6adc0c6a0000" "B02B4ABB3DD6E835")) ;;
  assert (negb (accepts "000000030000000000" "6adc0c6a0000" "B02B4ABB3DD6E835")).

(** [src/src/share_processing/validator.rs:313-317 tests::test_validate_format_invalid_ntime] *)
Definition test_validate_format_invalid_ntime : test :=
  assert (negb (accepts "00000003" "5f5f5f" "B02B4ABB3DD6E835")) ;;
  assert (negb (accepts "00000003" "5f5f5f5f5f" "B02B4ABB3DD6E835")) ;;
  assert (negb (accepts "00000003" "zzzzzzzzzzzz" "B02B4ABB3DD6E835")).

(** [src/src/share_processing/validator.rs:320-323 tests::test_validate_format_invalid_nonce] *)
Definition test_validate_format_invalid_nonce : test :=
  assert (negb (accepts "00000003" "6adc0c6a0000" "00112233")) ;;
  assert (negb (accepts "00000003" "6adc0c6a0000" "zzzzzzzzzzzzzzzz")).

(** A share is refused for the reason. *)
Definition refused (session : SessionState) (worker job_id extranonce2 ntime nonce reason : string) :
    test :=
  result ← validate_share worker job_id extranonce2 ntime nonce session create_test_job;
  assert (negb (v_accepted result)) ;;
  assert_eq (v_reject_reason result) (Some reason).

(** [src/src/share_processing/validator.rs:326-342 tests::test_validate_share_unauthorized_worker] *)
Definition test_validate_share_unauthorized_worker : test :=
  session ← create_authorized_session;
  refused session "unauthorized_worker" "job-890-100" "00000003" "6adc0c6a0000" "B02B4ABB3DD6E835"
    "unauthorized-worker".

(** [src/src/share_processing/validator.rs:345-364 tests::test_validate_share_invalid_format] *)
Definition test_validate_share_invalid_format : test :=
  session ← create_authorized_session;
  refused session worker_rig "job-890-100" "00000003" "ssss" "B02B4ABB3DD6E835"
    "invalid-submit-shape".

(** [src/src/share_processing/validator.rs:367-383 tests::test_validate_share_stale_job] *)
Definition test_validate_share_stale_job : test :=
  session ← create_authorized_session;
  refused session worker_rig "unknown-job" "00000003" "6adc0c6a0000" "B02B4ABB3DD6E835"
    "stale-job".

(** [src/src/share_processing/validator.rs:386-402 tests::test_validate_share_ntime_mismatch] *)
Definition test_validate_share_ntime_mismatch : test :=
  session ← create_authorized_session;
  refused session worker_rig "job-890-100" "00000003" "aaaaaaaaaaaa" "B02B4ABB3DD6E835"
    "ntime-mismatch".

(** [src/src/share_processing/validator.rs:405-443 tests::test_validate_share_format_error_codes] *)
Definition test_validate_share_format_error_codes : test :=
  session ← create_authorized_session;
  let cases :=
    [("00000003", "6adc0c6a0000", "xx", "invalid-submit-shape");
     ("00000003", "6adc0c6a0000", "B02B4ABB3DD6E835xx", "invalid-submit-shape");
     ("00000003", "zz", "B02B4ABB3DD6E835", "invalid-submit-shape");
     ("zz", "6adc0c6a0000", "B02B4ABB3DD6E835", "invalid-submit-shape")]%string in
  for_each cases (λ '(extranonce2, ntime, nonce, expected_reason),
    refused session worker_rig "job-890-100" extranonce2 ntime nonce expected_reason).

(** [src/src/share_processing/validator.rs:446-473 tests::test_validate_share_pipeline_consistent] *)
Definition test_validate_share_pipeline_consistent : test :=
  session ← create_authorized_session;
  result ← validate_share worker_rig "job-890-100" "00000003" "6adc0c6a0000" "B02B4ABB3DD6E835"
    session create_test_job;
  if v_accepted result then
    assert (is_none (v_reject_reason result)) ;;
    assert (v_low_diff_ok result) ;;
    (if v_network_target_ok result then assert (is_some (v_block_hash result)) else Ok tt)
  else
    assert (is_some (v_reject_reason result)) ;;
    assert (negb (v_low_diff_ok result)) ;;
    assert (negb (v_network_target_ok result)) ;;
    assert (is_none (v_block_hash result)).

(** [src/src/share_processing/validator.rs:476-497 tests::test_validate_share_rejects_when_not_authorized] *)
Definition test_validate_share_rejects_when_not_authorized : test :=
  session ← SessionState_new "sess-unauth" "00000002" VarDiffConfig_default (f64_of_Z 100) now;
  refused session worker_rig "job-890-100" "00000003" "6adc0c6a0000" "B02B4ABB3DD6E835"
    "unauthorized-worker".

(** [src/src/share_processing/validator.rs:500-519 tests::test_validate_share_empty_extranonce2] *)
Definition test_validate_share_empty_extranonce2 : test :=
  session ← create_authorized_session;
  refused session worker_rig "job-890-100" "" "6adc0c6a0000" "B02B4ABB3DD6E835"
    "invalid-submit-shape".

Lemma validator_tests_pass :
  all_pass
    [ test_validate_format_valid_params; test_validate_format_invalid_extranonce2;
      test_validate_format_invalid_ntime; test_validate_format_invalid_nonce;
      test_validate_share_unauthorized_worker; test_validate_share_invalid_format;
      test_validate_share_stale_job; test_validate_share_ntime_mismatch;
      test_validate_share_format_error_codes; test_validate_share_pipeline_consistent;
      test_validate_share_rejects_when_not_authorized;
      test_validate_share_empty_extranonce2 ] = true.
Proof. vm_compute. reflexivity. Qed.
