(* ===== verification/JobCacheTests.v ===== *)
(** The unit tests of [node_integration/job_cache.rs], run on [JobCache] with the bounded map
    that meets the interface of the cache library. *)
From Stdlib Require Import ZArith String.
From stdpp Require Import base option list numbers strings.
From S2P Require Import Prelude Text Job Testing JobCache.
#[local] Open Scope Z_scope.

Definition new (n : Z) : JobCache (C := BoundedMap) := JobCache_new n.

(** [src/src/node_integration/job_cache.rs:95-118 tests::create_test_job] *)
Definition create_test_job (job_id : string) (template_id : Z) : MiningJob :=
  mkMiningJob job_id template_id
    "0000000000000000000000000000000000000000000000000000000000000000" "coinbase1" "coinbase2" []
    "00000000" "1d00ffff" "6adc0c6a0000" "ffffffff" false 0 0 "" "" 0 [] 0 "".

(** [insert] of the test job of an id and a template. *)
Definition insert_test (id : string) (n : Z) : JobCache → JobCache := insert (create_test_job id n).
Definition with_target (job : MiningJob) (target : string) : MiningJob :=
  mkMiningJob (j_job_id job) (j_template_id job) (j_prevhash job) (j_coinbase1 job)
    (j_coinbase2 job) (j_merkle_branches job) (j_version job) (j_nbits job) (j_ntime job) target
    (j_clean_jobs job) (j_template_epoch job) (j_height job) (j_epoch_hash job)
    (j_extended_metadata_hash job) (j_block_size job) (j_block_bytes job)
    (j_coinbase_value job) (j_reason job).

(** [src/src/node_integration/job_cache.rs:121-132 tests::test_insert_and_get] *)
Definition test_insert_and_get : test :=
  let cache := insert_test "job-1" 1 (new 10) in
  let retrieved := get_job cache "job-1" in
  assert (is_some retrieved) ;;
  job ← unwrap_some retrieved;
  assert_eq (j_job_id job) "job-1"%string ;;
  assert_eq (j_template_id job) 1.

(** [src/src/node_integration/job_cache.rs:135-140 tests::test_get_nonexistent] *)
Definition test_get_nonexistent : test :=
  assert (is_none (get_job (new 10) "nonexistent")).

(** [src/src/node_integration/job_cache.rs:143-159 tests::test_lru_eviction] *)
Definition test_lru_eviction : test :=
  let cache := insert_test "job-3" 3 (insert_test "job-2" 2 (insert_test "job-1" 1 (new 3))) in
  let cache := insert_test "job-4" 4 cache in
  assert (is_none (get_job cache "job-1")) ;;
  assert (is_some (get_job cache "job-2")) ;;
  assert (is_some (get_job cache "job-3")) ;;
  assert (is_some (get_job cache "job-4")).

(** [src/src/node_integration/job_cache.rs:162-171 tests::test_len] *)
Definition test_len : test :=
  let cache := new 10 in
  assert_eq (len cache) 0%nat ;;
  let cache := insert_test "job-1" 1 cache in
  assert_eq (len cache) 1%nat ;;
  let cache := insert_test "job-2" 2 cache in
  assert_eq (len cache) 2%nat.

(** [src/src/node_integration/job_cache.rs:174-180 tests::test_is_empty] *)
Definition test_is_empty : test :=
  let cache := new 10 in
  assert (is_empty cache) ;;
  let cache := insert_test "job-1" 1 cache in
  assert (negb (is_empty cache)).

(** [src/src/node_integration/job_cache.rs:183-193 tests::test_clear] *)
Definition test_clear : test :=
  let cache := insert_test "job-2" 2 (insert_test "job-1" 1 (new 10)) in
  let cache := clear cache in
  assert (is_empty cache) ;;
  assert (is_none (get_job cache "job-1")) ;;
  assert (is_none (get_job cache "job-2")).

(** [src/src/node_integration/job_cache.rs:196-216 tests::test_get_latest_target] *)
Definition test_get_latest_target : test :=
  let cache := new 10 in
  assert (is_none (get_latest_target_hex cache)) ;;
  let job1 := with_target (create_test_job "job-1" 1) "target1" in
  let cache := insert job1 cache in
  let job2 := with_target (create_test_job "job-2" 2) "target2" in
  let cache := insert job2 cache in
  assert_eq (get_latest_target_hex cache) (Some "target2"%string).

(** [src/src/node_integration/job_cache.rs:219-241 tests::test_lru_order_maintained] *)
Definition test_lru_order_maintained : test :=
  let cache := insert_test "job-3" 3 (insert_test "job-2" 2 (insert_test "job-1" 1 (new 3))) in
  let cache := insert_test "job-4" 4 cache in
  let cache := insert_test "job-5" 5 cache in
  assert (is_none (get_job cache "job-1")) ;;
  assert (is_none (get_job cache "job-2")) ;;
  assert (is_some (get_job cache "job-3")) ;;
  assert (is_some (get_job cache "job-4")) ;;
  assert (is_some (get_job cache "job-5")).

(** [src/src/node_integration/job_cache.rs:244-263 tests::test_get_latest_returns_most_recent] *)
Definition test_get_latest_returns_most_recent : test :=
  let cache := new 10 in
  assert (is_none (get_latest cache)) ;;
  let cache := insert_test "job-1" 1 cache in
  let latest := get_latest cache in
  assert (is_some latest) ;;
  job ← unwrap_some latest;
  assert_eq (j_job_id job) "job-1"%string ;;
  let cache := insert_test "job-2" 2 cache in
  job ← unwrap_some (get_latest cache);
  assert_eq (j_job_id job) "job-2"%string ;;
  let cache := insert_test "job-3" 3 cache in
  job ← unwrap_some (get_latest cache);
  assert_eq (j_job_id job) "job-3"%string.

(** [src/src/node_integration/job_cache.rs:266-277 tests::test_len_matches_cache_size] *)
Definition test_len_matches_cache_size : test :=
  let cache := new 10 in
  assert_eq (len cache) 0%nat ;;
  let cache := insert_test "job-1" 1 cache in
  assert_eq (len cache) 1%nat ;;
  let cache := insert_test "job-3" 3 (insert_test "job-2" 2 cache) in
  assert_eq (len cache) 3%nat.

Lemma job_cache_tests_pass :
  all_pass
    [ test_insert_and_get; test_get_nonexistent; test_lru_eviction; test_len; test_is_empty;
      test_clear; test_get_latest_target; test_lru_order_maintained;
      test_get_latest_returns_most_recent; test_len_matches_cache_size ] = true.
Proof. vm_compute. reflexivity. Qed.
