(* ===== verification/TemplateTests.v ===== *)
(** The unit tests of [node_integration/template.rs], run on [Template]. The library of the
    tests is a table of what their byte strings encode: two blocks, a header and the coinbases.
    The tests of the byte order of a target and of the size of a serialized block are about
    library code and left out. *)
From Stdlib Require Import ZArith Lia String Ascii Init.Byte.
From stdpp Require Import base option list numbers strings.
From S2P Require Import Prelude Text Float64 VarDiff Json Job Validator JsonRpc Template Testing.
#[local] Open Scope Z_scope.

#[local] Instance test_hashing : Hashing := {|
  hex_decode := hex_bytes; target_to_difficulty _ := None |}.

(** ** The values of the tests *)

Definition coinbase1 : string :=
  "02000000010000000000000000000000000000000000000000000000000000000000000000ffffffff1900000e2f4c6f747573696120506f6f6c2f".
Definition zeros : string := "0000000000000000".
Definition p2pkh_coinbase2 : string :=
  "ffffffff0300000000000000000b6a056c6f676f7303f1b8137ecf360d000000001976a914ad8b796954a46f0f32a867d3fd8855043cc506ba88ac7ecf360d000000001976a914053d4d0c28d299dc5c2be1ce5d29bf00cdb61b4088ac00000000".
Definition op_return_coinbase2 : string := "ffffffff010000000000000000076a056c6f676f7300000000".
Definition no_outputs_coinbase2 : string := "ffffffff0000000000".
Definition mixed_coinbase2 : string :=
  "ffffffff020000000000000000076a056c6f676f737ecf360d000000001976a914ad8b796954a46f0f32a867d3fd8855043cc506ba88ac00000000".

(** The coinbases and their outputs: the value, and whether the script is an [OP_RETURN]. *)
Definition coinbases : list (string * list (Z * bool)) :=
  [(p2pkh_coinbase2, [(0, true); (221695870, false); (221695870, false)]);
   (op_return_coinbase2, [(0, true)]);
   (no_outputs_coinbase2, []);
   (mixed_coinbase2, [(0, true); (221695870, false)])].
Definition coinbase_bytes (coinbase2 : string) : list byte :=
  default [] (hex_bytes (coinbase1 ++ zeros ++ coinbase2)).
Definition outputs_of (bytes : list byte) : option (list (Z * bool)) :=
  snd <$> List.find (λ e, bool_decide (coinbase_bytes e.1 = bytes)) coinbases.

(** The bytes of a block with the coinbase of the tests and of one without transactions, and
    of the header of the block at height 1292529. *)
Definition block_bytes : list byte := replicate 190 x01.
Definition empty_tx_block : list byte := replicate 160 x02.
Definition zero_header : list byte := replicate 160 x03.
Definition real_header : list byte := replicate 160 x04.

Definition epoch_1292529 : string :=
  "00000000061fb84d2a1d30d8767f629a08904b0e70f84587008fd9e91f1583f7".
Definition metadata_1292529 : string :=
  "9a538906e6466ebd2617d321f71bc94e56056ce213d366773699e28158e00614".

#[local] Program Instance test_lotus : LotusLib := {|
  LotusHeader := list byte;
  LotusTx := list byte;
  LotusMeta := unit;
  build_stratum_header _ := None;
  header_deser bs := if bool_decide (bs = zero_header ∨ bs = real_header) then Some bs else None;
  calc_hash _ := replicate 32 x00;
  header_meets_difficulty _ _ := None;
  hex_encode bs := String.concat "" (map (λ _, "00") bs)%string;
  u256_from_big_endian := be_value;
  block_deser bs :=
    if bool_decide (bs = block_bytes) then Some (zero_header, tt, [coinbase_bytes p2pkh_coinbase2])
    else if bool_decide (bs = empty_tx_block) then Some (zero_header, tt, [])
    else None;
  block_ser b := b.1.1 ++ concat b.2;
  tx_deser bs := (λ _, bs) <$> outputs_of bs;
  tx_ser bs := bs;
  tx_outputs bs := default [] (outputs_of bs);
  update_merkle_root h _ := h;
  header_height _ := 1292529;
  header_epoch_hash h := epoch_1292529;
  header_extended_metadata_hash h :=
    if bool_decide (h = real_header) then metadata_1292529 else String.concat "" (replicate 64 "0")%string;
|}.
Next Obligation. done. Qed.
Next Obligation. done. Qed.

(** [src/src/node_integration/template.rs:242-268 tests::create_test_template (part)] *)
Definition create_test_template : MiningTemplate :=
  mkMiningTemplate 890 block_bytes zero_header 1292529 1 (zeros ++ zeros ++ zeros ++ zeros) 100
    5000000000 coinbase1 p2pkh_coinbase2
    ["796f6be745741765f8b19cfa4209ff68447d9e76198fee5d33fbe2c944224f16";
     "4b0ce2ddbf0f5352b721b7688109a1e1007722f96fa07f61ea8e655ac804964f";
     "c3899f315bc3b284015819a8d77404b4e179528d62559886babf89884966a172"]
    "4f7bcee63a20eff92f69a7f0e74af36a9f1e60ee7ecc5b0506e1ae3600000000" "10d0091c" "6adc0c6a0000".

Definition with_block (t : MiningTemplate) (block : list byte) : MiningTemplate :=
  mkMiningTemplate (t_template_id t) block (t_header t) (t_height t) (t_version t)
    (t_target_hex_be t) (t_curtime t) (t_coinbase_value t) (t_coinbase1 t) (t_coinbase2 t)
    (t_merkle_branches t) (t_prev_hash_stratum t) (t_nbits_stratum t) (t_ntime_stratum t).
Definition with_header (t : MiningTemplate) (header : list byte) : MiningTemplate :=
  mkMiningTemplate (t_template_id t) (t_block t) header (t_height t) (t_version t)
    (t_target_hex_be t) (t_curtime t) (t_coinbase_value t) (t_coinbase1 t) (t_coinbase2 t)
    (t_merkle_branches t) (t_prev_hash_stratum t) (t_nbits_stratum t) (t_ntime_stratum t).
Definition with_branches (t : MiningTemplate) (branches : list string) : MiningTemplate :=
  mkMiningTemplate (t_template_id t) (t_block t) (t_header t) (t_height t) (t_version t)
    (t_target_hex_be t) (t_curtime t) (t_coinbase_value t) (t_coinbase1 t) (t_coinbase2 t)
    branches (t_prev_hash_stratum t) (t_nbits_stratum t) (t_ntime_stratum t).

(** ** [template_to_job] *)

(** [src/src/node_integration/template.rs:272-288 tests::test_template_to_job_basic_conversion] *)
Definition test_template_to_job_basic_conversion : test :=
  let template := create_test_template in
  job ← unwrap (template_to_job template false);
  assert_eq (j_job_id job) "job-890-100"%string ;;
  assert_eq (j_template_id job) 890 ;;
  assert_eq (j_prevhash job) (t_prev_hash_stratum template) ;;
  assert_eq (j_coinbase1 job) (t_coinbase1 template) ;;
  assert_eq (j_coinbase2 job) (t_coinbase2 template) ;;
  assert_eq (j_merkle_branches job) (t_merkle_branches template) ;;
  assert_eq (j_version job) "00000001"%string ;;
  assert_eq (j_nbits job) (t_nbits_stratum template) ;;
  assert_eq (j_ntime job) (t_ntime_stratum template) ;;
  assert_eq (j_template_epoch job) (t_curtime template) ;;
  assert_eq (j_clean_jobs job) false.

(** [src/src/node_integration/template.rs:291-298 tests::test_template_to_job_clean_jobs_false_explicit] *)
Definition test_template_to_job_clean_jobs_false_explicit : test :=
  job ← unwrap (template_to_job create_test_template false);
  assert_eq (j_clean_jobs job) false.

(** [src/src/node_integration/template.rs:301-308 tests::test_template_to_job_clean_jobs_true] *)
Definition test_template_to_job_clean_jobs_true : test :=
  job ← unwrap (template_to_job create_test_template true);
  assert_eq (j_clean_jobs job) true.

(** [src/src/node_integration/template.rs:335-349 tests::test_template_to_job_multiple_merkle_branches] *)
Definition test_template_to_job_multiple_merkle_branches : test :=
  let template := with_branches create_test_template ["branch1"; "branch2"; "branch3"]%string in
  job ← unwrap (template_to_job template false);
  assert_eq (length (j_merkle_branches job)) 3%nat ;;
  assert_eq (j_merkle_branches job !! 0%nat) (Some "branch1"%string) ;;
  assert_eq (j_merkle_branches job !! 1%nat) (Some "branch2"%string) ;;
  assert_eq (j_merkle_branches job !! 2%nat) (Some "branch3"%string).

(** [src/src/node_integration/template.rs:352-391 tests::test_template_to_job_populates_header_fields] *)
Definition test_template_to_job_populates_header_fields : test :=
  let template := with_header create_test_template real_header in
  job ← unwrap (template_to_job template false);
  assert_eq (j_height job) 1292529 ;;
  assert_eq (j_epoch_hash job) epoch_1292529 ;;
  assert_eq (j_extended_metadata_hash job) metadata_1292529.

(** [src/src/node_integration/template.rs:519-532 tests::test_template_to_job_fails_on_empty_block] *)
Definition test_template_to_job_fails_on_empty_block : test :=
  let template := with_block create_test_template [] in
  fails_with (template_to_job template false) "failed to deserialize template block".

(** [src/src/node_integration/template.rs:535-575 tests::test_template_to_job_fails_on_empty_txs] *)
Definition test_template_to_job_fails_on_empty_txs : test :=
  let template := with_block create_test_template empty_tx_block in
  fails_with (template_to_job template false) "no transactions".

(** ** [verify_coinbase_outputs] *)

(** [src/src/node_integration/template.rs:582-606 tests::template_with_coinbase2] *)
Definition template_with_coinbase2 (coinbase2 : string) : MiningTemplate :=
  mkMiningTemplate 999 [] [] 1000 1 (zeros ++ zeros ++ zeros ++ zeros) 100 5000000000 coinbase1
    coinbase2 [] "" "" "".

Definition passes_check (t : MiningTemplate) : bool :=
  match verify_coinbase_outputs t with inl _ => true | inr _ => false end.

(** [src/src/node_integration/template.rs:609-618 tests::test_verify_coinbase_outputs_p2pkh_passes] *)
Definition test_verify_coinbase_outputs_p2pkh_passes : test :=
  assert (passes_check (template_with_coinbase2 p2pkh_coinbase2)).

(** [src/src/node_integration/template.rs:621-633 tests::test_verify_coinbase_outputs_op_return_only_fails] *)
Definition test_verify_coinbase_outputs_op_return_only_fails : test :=
  assert (match verify_coinbase_outputs (template_with_coinbase2 op_return_coinbase2) with
          | inr (RewardBurned _ _) => true | _ => false end).

(** [src/src/node_integration/template.rs:636-646 tests::test_verify_coinbase_outputs_zero_outputs_fails] *)
Definition test_verify_coinbase_outputs_zero_outputs_fails : test :=
  assert (match verify_coinbase_outputs (template_with_coinbase2 no_outputs_coinbase2) with
          | inr NoOutputs => true | _ => false end).

(** [src/src/node_integration/template.rs:649-652 tests::test_verify_coinbase_outputs_empty_fails] *)
Definition test_verify_coinbase_outputs_empty_fails : test :=
  assert (negb (passes_check (template_with_coinbase2 ""))).

(** [src/src/node_integration/template.rs:655-665 tests::test_verify_coinbase_outputs_mixed_passes] *)
Definition test_verify_coinbase_outputs_mixed_passes : test :=
  assert (passes_check (template_with_coinbase2 mixed_coinbase2)).

Lemma template_tests_pass :
  all_pass
    [ test_template_to_job_basic_conversion; test_template_to_job_clean_jobs_false_explicit;
      test_template_to_job_clean_jobs_true; test_template_to_job_multiple_merkle_branches;
      test_template_to_job_populates_header_fields; test_template_to_job_fails_on_empty_block;
      test_template_to_job_fails_on_empty_txs; test_verify_coinbase_outputs_p2pkh_passes;
      test_verify_coinbase_outputs_op_return_only_fails;
      test_verify_coinbase_outputs_zero_outputs_fails; test_verify_coinbase_outputs_empty_fails;
      test_verify_coinbase_outputs_mixed_passes ] = true.
Proof. vm_compute. reflexivity. Qed.
