(* ===== verification/ShutdownTests.v ===== *)
(** The unit tests of [shutdown/mod.rs] and [http_api/pagination.rs], run on [Shutdown] (with
    the channel that counts what was sent) and [Pagination]. *)
From Stdlib Require Import ZArith String.
From stdpp Require Import base option list numbers strings.
From S2P Require Import Prelude Pagination Shutdown Testing.
#[local] Open Scope Z_scope.

#[local] Existing Instance counting_broadcast.

(** * [shutdown/mod.rs] *)

(** [src/src/shutdown/mod.rs:164-175 tests::test_shutdown_signal] *)
Definition test_shutdown_signal : test :=
  let coordinator := ShutdownCoordinator_new in
  let rx := signal coordinator in
  let coordinator := initiate_shutdown coordinator in
  assert (recv_ready coordinator rx).

(** The task waits for the signal before it is sent. *)
(** [src/src/shutdown/mod.rs:178-201 tests::test_shutdown_recv] *)
Definition test_shutdown_recv : test :=
  let coordinator := ShutdownCoordinator_new in
  let rx := signal coordinator in
  assert (negb (recv_ready coordinator rx)) ;;
  let coordinator := initiate_shutdown coordinator in
  assert (recv_ready coordinator rx).

(** [src/src/shutdown/mod.rs:204-211 tests::test_wait_for_completion] *)
Definition test_wait_for_completion : test :=
  let coordinator := initiate_shutdown ShutdownCoordinator_new in
  let '(result, coordinator) := wait_for_completion coordinator in
  assert (is_ok (cm_result result)).

(** The task ends 500 ms after the signal, and then sets the flag. *)
(** [src/src/shutdown/mod.rs:214-243 tests::test_wait_for_completion_awaits_tasks] *)
Definition test_wait_for_completion_awaits_tasks : test :=
  let coordinator := initiate_shutdown ShutdownCoordinator_new in
  let coordinator := register_task (Some 500) coordinator in
  let '(result, coordinator) := wait_for_completion coordinator in
  let completed := 500 <=? cm_elapsed result in
  assert (is_ok (cm_result result)) ;;
  assert completed.

Lemma shutdown_tests_pass :
  all_pass
    [ test_shutdown_signal; test_shutdown_recv; test_wait_for_completion;
      test_wait_for_completion_awaits_tasks ] = true.
Proof. vm_compute. reflexivity. Qed.

(** * [http_api/pagination.rs] *)

(** [(0..n).collect()] *)
Definition range (n : Z) : list Z := seqZ 0 n.

(** [src/src/http_api/pagination.rs:66-70 tests::test_pagination_params_defaults] *)
Definition test_pagination_params_defaults : test :=
  let params := mkPaginationParams None None in
  assert_eq (limit params) DEFAULT_LIMIT ;;
  assert_eq (offset params) 0.

(** [src/src/http_api/pagination.rs:73-79 tests::test_pagination_params_caps_max_limit] *)
Definition test_pagination_params_caps_max_limit : test :=
  let params := mkPaginationParams (Some 9999) None in
  assert_eq (limit params) MAX_LIMIT.

(** [src/src/http_api/pagination.rs:82-88 tests::test_pagination_params_clamps_min_limit] *)
Definition test_pagination_params_clamps_min_limit : test :=
  let params := mkPaginationParams (Some 0) None in
  assert_eq (limit params) 1.

(** [src/src/http_api/pagination.rs:91-100 tests::test_paginated_response_has_more_true] *)
Definition test_paginated_response_has_more_true : test :=
  let resp := PaginatedResponse_new (range 5) 5 (mkPaginationParams (Some 3) None) in
  assert_eq (len (pr_data resp)) 3 ;;
  assert (pr_has_more resp).

(** [src/src/http_api/pagination.rs:103-112 tests::test_paginated_response_has_more_false] *)
Definition test_paginated_response_has_more_false : test :=
  let resp := PaginatedResponse_new (range 3) 3 (mkPaginationParams (Some 5) None) in
  assert_eq (len (pr_data resp)) 3 ;;
  assert (negb (pr_has_more resp)).

(** [src/src/http_api/pagination.rs:115-124 tests::test_paginated_response_with_offset] *)
Definition test_paginated_response_with_offset : test :=
  let resp := PaginatedResponse_new (range 10) 10 (mkPaginationParams (Some 3) (Some 5)) in
  assert_eq (pr_data resp) [5; 6; 7] ;;
  assert (pr_has_more resp).

(** [src/src/http_api/pagination.rs:127-136 tests::test_paginated_response_offset_past_end] *)
Definition test_paginated_response_offset_past_end : test :=
  let resp := PaginatedResponse_new (range 5) 5 (mkPaginationParams (Some 10) (Some 10)) in
  assert (is_empty (pr_data resp)) ;;
  assert (negb (pr_has_more resp)).

Lemma pagination_tests_pass :
  all_pass
    [ test_pagination_params_defaults; test_pagination_params_caps_max_limit;
      test_pagination_params_clamps_min_limit; test_paginated_response_has_more_true;
      test_paginated_response_has_more_false; test_paginated_response_with_offset;
      test_paginated_response_offset_past_end ] = true.
Proof. vm_compute. reflexivity. Qed.
