(* ===== verification/ConfigTests.v ===== *)
(** The unit tests of [config.rs], run on [Config]. A file of the tests is given by what it
    says (its parsed form; that a file which is not TOML is refused is the parser's), and the
    address library knows the one address of the tests. *)
From Stdlib Require Import ZArith String Init.Byte.
From stdpp Require Import base option list numbers strings.
From S2P Require Import Prelude Text Float64 VarDiff Json JsonRpc Signer Config Testing.
#[local] Open Scope Z_scope.

(** A script that pays to the hash of a public key. *)
Definition p2pkh (hash : list byte) : list byte := [x76; xa9; x14] ++ hash ++ [x88; xac].
Definition pool_address : string := "lotus_16PSJNRge55cpi1srcnK6A3YXuTZKpzrUir3ZBwTD".

#[local] Instance test_hashing : Hashing := {|
  hex_decode := hex_bytes; target_to_difficulty _ := None |}.
#[local] Instance test_txlib : TxLib := {|
  Txid := string; Script := list byte; txid_from_hex_be s := Some s;
  lotus_address_script s :=
    if String.eqb s pool_address then Some (p2pkh (replicate 20 x00)) else None;
  tx_sign _ _ _ := Ok []; tx_hex _ := ""%string |}.
#[local] Instance test_configlib : ConfigLib := {|
  script_bytecode s := s; script_is_opreturn s := opreturn_head s; url_port _ := None |}.

(** * Files *)

(** The four settings that every file of the tests has but the first has other values for. *)
Definition file (token : option string) (vardiff : option RawVarDiff) (pool : option RawPool)
    (debug : option bool) : RawConfig :=
  mkRawConfig (Some "0.0.0.0:3334"%string) (Some "127.0.0.1:18080"%string)
    (Some "ipc:///tmp/lotusd.rpc"%string) None (Some "./test.db"%string) None token vardiff pool
    None debug.
Definition from_str (raw : RawConfig) : result Config := unwrap_some (fill_config raw).

(** [config.toml] in a temporary directory. *)
(** [src/src/config.rs:563-567 tests::create_test_config] *)
Definition create_test_config (content : RawConfig) (path : string) : result RawConfig :=
  if String.eqb path "config.toml" then Ok content else Err (Anyhow "no such file").

(** [src/src/config.rs:570-591 tests::test_parse_toml] *)
Definition test_parse_toml : test :=
  raw ← unwrap (create_test_config (file (Some "mytoken"%string) None None None) "config.toml");
  cfg ← from_str raw;
  assert_eq (c_stratum_bind cfg) "0.0.0.0:3334"%string ;;
  assert_eq (c_api_bind cfg) "127.0.0.1:18080"%string ;;
  assert_eq (c_nng_rpc_url cfg) "ipc:///tmp/lotusd.rpc"%string ;;
  assert_eq (c_sqlite_path cfg) "./test.db"%string ;;
  assert_eq (c_api_token cfg) "mytoken"%string.

(** [src/src/config.rs:594-610 tests::test_default_api_token] *)
Definition test_default_api_token : test :=
  raw ← unwrap (create_test_config (file None None None None) "config.toml");
  cfg ← from_str raw;
  assert_eq (c_api_token cfg) "devtoken"%string.

Definition vardiff_is (cfg : Config) (min_floor initial_pct target_secs retarget_secs : f64) : test :=
  assert (close (vs_min_floor (c_vardiff cfg)) min_floor) ;;
  assert (close (vs_initial_pct (c_vardiff cfg)) initial_pct) ;;
  assert (close (vs_target_secs (c_vardiff cfg)) target_secs) ;;
  assert (close (vs_retarget_secs (c_vardiff cfg)) retarget_secs).

(** [src/src/config.rs:619-632 tests::test_vardiff_config_defaults] *)
Definition test_vardiff_config_defaults : test :=
  cfg ← from_str (file None None None None);
  vardiff_is cfg (f64_lit 1 1000) (f64_lit 1 100) (f64_of_Z 20) (f64_of_Z 60).

(** [src/src/config.rs:635-653 tests::test_vardiff_config_custom] *)
Definition test_vardiff_config_custom : test :=
  let section := mkRawVarDiff (Some (f64_lit 1 100)) (Some (f64_lit 5 100)) (Some (f64_of_Z 15))
                   (Some (f64_of_Z 30)) None in
  cfg ← from_str (file None (Some section) None None);
  vardiff_is cfg (f64_lit 1 100) (f64_lit 5 100) (f64_of_Z 15) (f64_of_Z 30).

(** [src/src/config.rs:656-672 tests::test_vardiff_config_partial] *)
Definition test_vardiff_config_partial : test :=
  let section := mkRawVarDiff (Some (f64_lit 1 2)) None None None None in
  cfg ← from_str (file None (Some section) None None);
  vardiff_is cfg (f64_lit 1 2) (f64_lit 1 100) (f64_of_Z 20) (f64_of_Z 60).

(** [src/src/config.rs:675-685 tests::test_debug_default_false] *)
Definition test_debug_default_false : test :=
  cfg ← from_str (file None None None None);
  assert (negb (c_debug cfg)).

(** [src/src/config.rs:688-698 tests::test_debug_true_from_toml] *)
Definition test_debug_true_from_toml : test :=
  cfg ← from_str (file None None None (Some true));
  assert (c_debug cfg).

(** [src/src/config.rs:705-730 tests::test_pool_mining_identity_deserializes] *)
Definition test_pool_mining_identity_deserializes : test :=
  let identity := mkMiningIdentity (Some pool_address) None (Some "/Lotusia Pool/"%string) in
  let pool := mkRawPool (Some "Lotusia Pool"%string) (Some identity) None None None in
  cfg ← from_str (file None None (Some pool) None);
  id ← unwrap_some (po_mining_identity (c_pool cfg));
  assert_eq (mi_payout_address id) (Some pool_address) ;;
  assert_eq (mi_coinbase_identity id) (Some "/Lotusia Pool/"%string) ;;
  assert (is_none (mi_payout_script_hex id)).

(** [src/src/config.rs:733-745 tests::test_pool_mining_identity_defaults_to_none_when_absent] *)
Definition test_pool_mining_identity_defaults_to_none_when_absent : test :=
  cfg ← from_str (file None None None None);
  assert (is_none (po_mining_identity (c_pool cfg))).

(** * The mining identity *)

(** [src/src/config.rs:748-771 tests::test_mining_identity_resolve_payout_address] *)
Definition test_mining_identity_resolve_payout_address : test :=
  let id := mkMiningIdentity (Some pool_address) None (Some "/Lotusia Pool/"%string) in
  '(script_bytes, identity_bytes) ← unwrap (resolve id);
  assert_eq (len script_bytes) 25 ;;
  assert_eq (script_bytes !! 0%nat) (Some x76) ;;
  assert_eq (script_bytes !! 1%nat) (Some xa9) ;;
  assert_eq (script_bytes !! 2%nat) (Some x14) ;;
  assert_eq (script_bytes !! 23%nat) (Some x88) ;;
  assert_eq (script_bytes !! 24%nat) (Some xac) ;;
  assert_eq identity_bytes (Some (list_byte_of_string "/Lotusia Pool/")).

Definition script_hex : string := "76a914ad8b796954a46f0f32a867d3fd8855043cc506ba88ac".

(** [src/src/config.rs:774-792 tests::test_mining_identity_resolve_payout_script_hex] *)
Definition test_mining_identity_resolve_payout_script_hex : test :=
  let id := mkMiningIdentity None (Some script_hex) None in
  '(script_bytes, identity_bytes) ← unwrap (resolve id);
  assert_eq (len script_bytes) 25 ;;
  assert_eq (script_bytes !! 0%nat) (Some x76) ;;
  assert_eq (script_bytes !! 1%nat) (Some xa9) ;;
  assert_eq identity_bytes None.

(** [src/src/config.rs:795-808 tests::test_mining_identity_resolve_op_return_hex_fails] *)
Definition test_mining_identity_resolve_op_return_hex_fails : test :=
  fails_with (resolve (mkMiningIdentity None (Some "6a056c6f676f73"%string) None)) "BURNED".

(** [src/src/config.rs:811-824 tests::test_mining_identity_resolve_neither_fails] *)
Definition test_mining_identity_resolve_neither_fails : test :=
  fails_with (resolve (mkMiningIdentity None None None)) "payout_address".

(** [src/src/config.rs:827-842 tests::test_mining_identity_resolve_both_fails] *)
Definition test_mining_identity_resolve_both_fails : test :=
  fails_with (resolve (mkMiningIdentity (Some pool_address) (Some script_hex) None)) "only one".

(** [src/src/config.rs:845-856 tests::test_mining_identity_resolve_identity_empty_string] *)
Definition test_mining_identity_resolve_identity_empty_string : test :=
  let id := mkMiningIdentity (Some pool_address) None (Some ""%string) in
  '(_, identity_bytes) ← unwrap (resolve id);
  assert_eq identity_bytes None.

(** [src/src/config.rs:859-870 tests::test_mining_identity_resolve_address_invalid_fails] *)
Definition test_mining_identity_resolve_address_invalid_fails : test :=
  let id := mkMiningIdentity (Some "not-a-valid-address"%string) None None in
  fails_with (resolve id) "invalid payout_address".

Lemma config_tests_pass :
  all_pass
    [ test_parse_toml; test_default_api_token; test_vardiff_config_defaults;
      test_vardiff_config_custom; test_vardiff_config_partial; test_debug_default_false;
      test_debug_true_from_toml; test_pool_mining_identity_deserializes;
      test_pool_mining_identity_defaults_to_none_when_absent;
      test_mining_identity_resolve_payout_address;
      test_mining_identity_resolve_payout_script_hex;
      test_mining_identity_resolve_op_return_hex_fails;
      test_mining_identity_resolve_neither_fails; test_mining_identity_resolve_both_fails;
      test_mining_identity_resolve_identity_empty_string;
      test_mining_identity_resolve_address_invalid_fails ] = true.
Proof. vm_compute. reflexivity. Qed.
