(* ===== verification/ClientTests.v ===== *)
(** The unit tests of the clients and the signers: [node_integration/json_rpc/client.rs],
    [node_integration/nng/rpc_client.rs], [payout/signer/internal.rs] and
    [payout/signer/external.rs], run on [JsonRpc], [Startup] and [Signer]. A mock server of the
    tests is the function that answers a request; the test with a live node is left out. *)
From Stdlib Require Import ZArith String Init.Byte.
From stdpp Require Import base option list numbers strings.
From S2P Require Import Prelude Text Float64 VarDiff Json Plan PayoutService JsonRpc Signer.
From S2P Require Import Startup Testing.
#[local] Open Scope Z_scope.

(** * The JSON-RPC client *)

(** [display_json] is not called in the tests. *)
(** [src/src/node_integration/json_rpc/client.rs:214-236 tests::spawn_mock_server] *)
Definition spawn_mock_server (response : Value) : HttpNode := {|
  http_post _ := HttpBody 200 response; display_json _ := ""%string |}.

(** [json!({"result": .., "error": .., "id": 1})] *)
Definition answer (result error : Value) : Value :=
  Object [("result"%string, result); ("error"%string, error); ("id"%string, Number (PosInt 1))].

(** [src/src/node_integration/json_rpc/client.rs:239-253 tests::test_submitblock_success] *)
Definition test_submitblock_success : test :=
  let node := spawn_mock_server (answer Null Null) in
  result ← unwrap (submitblock "deadbeef");
  assert (sr_accepted result) ;;
  assert (is_none (sr_error result)).

(** [src/src/node_integration/json_rpc/client.rs:256-270 tests::test_submitblock_rejected_duplicate] *)
Definition test_submitblock_rejected_duplicate : test :=
  let node := spawn_mock_server (answer (Str "duplicate") Null) in
  result ← unwrap (submitblock "deadbeef");
  assert (negb (sr_accepted result)) ;;
  assert_eq (sr_error result) (Some "duplicate"%string).

(** [src/src/node_integration/json_rpc/client.rs:273-285 tests::test_getblockcount_success] *)
Definition test_getblockcount_success : test :=
  let node := spawn_mock_server (answer (Number (PosInt 1292529)) Null) in
  count ← unwrap getblockcount;
  assert_eq count 1292529.

(** [src/src/node_integration/json_rpc/client.rs:288-304 tests::test_json_rpc_error_response] *)
Definition test_json_rpc_error_response : test :=
  let error := Object [("code"%string, Number (NegInt (-32601)));
                       ("message"%string, Str "Method not found")] in
  let node := spawn_mock_server (answer Null error) in
  fails_with (submitblock "deadbeef") "-32601" ;;
  fails_with (submitblock "deadbeef") "Method not found".

(** [src/src/node_integration/json_rpc/client.rs:307-313 tests::test_http_connection_refused] *)
Definition test_http_connection_refused : test :=
  let node := {| http_post _ := HttpError "connection refused"; display_json _ := ""%string |} in
  fails_with (submitblock "deadbeef") "HTTP error".

Lemma json_rpc_tests_pass :
  all_pass
    [ test_submitblock_success; test_submitblock_rejected_duplicate; test_getblockcount_success;
      test_json_rpc_error_response; test_http_connection_refused ] = true.
Proof. vm_compute. reflexivity. Qed.

(** * The NNG client *)

(** No connection is opened in the tests. *)
#[local] Instance no_nng : NngLib := {|
  RpcInterface := unit; NngTemplate := unit; nng_open _ := Err (Anyhow "connection refused");
  nng_get_mining_template _ _ _ _ _ _ := Err (Anyhow "closed") |}.

Definition script : option (list byte) := Some [x76; xa9; x14; x00; x88; xac].
Definition identity : option (list byte) := Some (list_byte_of_string "/Test/").

(** [src/src/node_integration/nng/rpc_client.rs:118-120 tests::test_client] *)
Definition test_client : NngRpcClient := NngRpcClient_new "ipc://test" None None.

(** [src/src/node_integration/nng/rpc_client.rs:123-126 tests::test_client_not_connected_initially] *)
Definition test_client_not_connected_initially : test :=
  assert (negb (is_connected test_client)).

(** [src/src/node_integration/nng/rpc_client.rs:129-139 tests::test_get_template_fails_when_not_connected] *)
Definition test_get_template_fails_when_not_connected : test :=
  let client := NngRpcClient_new "ipc://test" script identity in
  fails_with (get_mining_template client) "not connected".

(** [src/src/node_integration/nng/rpc_client.rs:142-148 tests::test_accepts_script_and_identity_params] *)
Definition test_accepts_script_and_identity_params : test :=
  assert (negb (is_connected (NngRpcClient_new "ipc://test" script identity))).

(** [src/src/node_integration/nng/rpc_client.rs:151-155 tests::test_accepts_script_only] *)
Definition test_accepts_script_only : test :=
  assert (negb (is_connected (NngRpcClient_new "ipc://test" script None))).

(** [src/src/node_integration/nng/rpc_client.rs:158-162 tests::test_accepts_identity_only] *)
Definition test_accepts_identity_only : test :=
  assert (negb (is_connected (NngRpcClient_new "ipc://test" None identity))).

Lemma nng_client_tests_pass :
  all_pass
    [ test_client_not_connected_initially; test_get_template_fails_when_not_connected;
      test_accepts_script_and_identity_params; test_accepts_script_only;
      test_accepts_identity_only ] = true.
Proof. vm_compute. reflexivity. Qed.

(** * The signers *)

Definition miner1 : string := "lotus_miner1".
Definition miner2 : string := "lotus_miner2".
Definition fee_addr : string := "lotus_fee".

(** An address of the tests is the payment to a hash; a signed transaction starts with its
    version, which is 2. *)
Definition lotus_addr_from_hash (address : string) : option (list byte) :=
  let p2pkh index := Some ([x76; xa9; x14] ++ replicate 20 index ++ [x88; xac]) in
  if String.eqb address miner1 then p2pkh x01
  else if String.eqb address miner2 then p2pkh x02
  else if String.eqb address fee_addr then p2pkh xaa
  else None.

#[local] Instance test_hashing : Hashing := {|
  hex_decode := hex_bytes; target_to_difficulty _ := None |}.
Definition signed_tx_hex (outputs : nat) : string :=
  ("02000000" ++ String.concat "" (replicate (100 + 34 * outputs) "00"))%string.
#[local] Instance test_txlib : TxLib := {|
  Txid := list byte; Script := list byte;
  txid_from_hex_be s := bs ← hex_bytes s; if (length bs =? 32)%nat then Some bs else None;
  lotus_address_script := lotus_addr_from_hash;
  tx_sign _ _ tx := Ok (replicate (length (tb_outputs tx)) x01);
  tx_hex bs := signed_tx_hex (length bs) |}.

Definition hex_key : string := "000102030405060708090a0b0c0d0e0f101112131415161718191a1b1c1d1e1f".
Definition wif_key : string := "cPymiBZp9Ak8aVAmrnh8TL8E4yoibD61KE7weuhXNbaMsJt2murF".
#[local] Instance test_keys : KeyLib := {|
  SecKey := list byte; PubKey := list byte;
  from_hex_or_wif s :=
    if String.eqb s hex_key || String.eqb s wif_key then inl (replicate 32 x01)
    else inr "not hex, not WIF"%string;
  seckey_from_array bs := inl bs;
  derive_pubkey bs := x02 :: bs |}.

(** [src/src/payout/signer/internal.rs:212-252 tests::test_signed_batch_data] *)
Definition test_signed_batch_data : SignedBatchData :=
  mkSignedBatchData
    (mkPayoutPlan 1 1000 "0000000000000000000000000000000000000000000000000000000000000000"
      (f64_of_Z 100) (f64_of_Z 5000) 50000 500 (Some fee_addr)
      [mkPayoutOutput miner1 1 30000 0; mkPayoutOutput miner2 2 19500 0] 0 "test:2")
    "0000000000000000000000000000000000000000000000000000000000000001" 0 50000
    "76a914000000000000000000000000000000000000000088ac".

Definition with_outputs (data : SignedBatchData) (outputs : list PayoutOutput) : SignedBatchData :=
  let p := sb_plan data in
  mkSignedBatchData
    (mkPayoutPlan (pp_round_id p) (pp_block_height p) (pp_block_hash p) (pp_network_difficulty p)
      (pp_total_work_units p) (pp_gross_reward p) (pp_pool_fee_amount p) (pp_pool_fee_address p)
      outputs (pp_dust_carried_forward_total p) (pp_retry_key p))
    (sb_coinbase_txid data) (sb_coinbase_vout data) (sb_coinbase_amount data)
    (sb_coinbase_script_pubkey_hex data).

(** ** The internal signer *)

(** What the tests check of the request that the server captured: a [sendrawtransaction] of
    a transaction with version 2 and more than 200 digits. *)
Definition sends_transaction (request : Value) : bool :=
  match get request "method", get request "params" with
  | Some (Str method), Some (Array (Str tx_hex :: _)) =>
      String.eqb method "sendrawtransaction" && starts_with "02000000" tx_hex &&
      (200 <? Z.of_nat (String.length tx_hex))
  | _, _ => false
  end.

(** The server answers only such a request. *)
Definition spawn_mock_rpc (txid : string) : HttpNode := {|
  http_post request :=
    if sends_transaction request then HttpBody 200 (answer (Str txid) Null)
    else HttpError "unexpected request";
  display_json _ := ""%string |}.

Definition signs_and_broadcasts (key expected_txid : string) : test :=
  let node := spawn_mock_rpc expected_txid in
  signer ← unwrap (internal_new key 1000);
  txid ← unwrap (internal_sign_and_submit (ik_tx_fee_per_kb signer) test_signed_batch_data);
  assert_eq txid expected_txid.

(** [src/src/payout/signer/internal.rs:257-317 tests::test_internal_signer_signs_and_broadcasts] *)
Definition test_internal_signer_signs_and_broadcasts : test :=
  signs_and_broadcasts hex_key "a1b2c3d4e5f6a7b8c9d0e1f2a3b4c5d6e7f8a9b0c1d2e3f4a5b6c7d8e9f0a1b2".

(** [src/src/payout/signer/internal.rs:322-376 tests::test_internal_signer_with_wif_key] *)
Definition test_internal_signer_with_wif_key : test :=
  signs_and_broadcasts wif_key "b1b2b3b4b5b6b7b8b9c0c1c2c3c4c5c6c7c8c9d0d1d2d3d4d5d6d7d8d9e0e1e2".

(** [src/src/payout/signer/internal.rs:381-407 tests::test_internal_signer_rejects_empty_outputs] *)
Definition test_internal_signer_rejects_empty_outputs : test :=
  let node := spawn_mock_rpc "deadbeef00000000000000000000000000000000000000000000000000000000" in
  signer ← unwrap (internal_new hex_key 1000);
  let data := with_outputs test_signed_batch_data [] in
  fails_with (internal_sign_and_submit (ik_tx_fee_per_kb signer) data) "zero miner outputs".

(** [src/src/payout/signer/internal.rs:411-427 tests::test_internal_signer_rejects_invalid_key] *)
Definition test_internal_signer_rejects_invalid_key : test :=
  fails_with (internal_new "not-a-valid-key" 1000) "invalid private key".

Lemma internal_signer_tests_pass :
  all_pass
    [ test_internal_signer_signs_and_broadcasts; test_internal_signer_with_wif_key;
      test_internal_signer_rejects_empty_outputs;
      test_internal_signer_rejects_invalid_key ] = true.
Proof. vm_compute. reflexivity. Qed.

(** ** The external signer *)

(** The webhook answers a body that has what the test expects of it. *)
Definition posts_plan (body : Value) : bool :=
  match get body "retry_key", get body "coinbase_txid", get body "outputs" with
  | Some (Str key), Some _, Some (Array (output :: _)) =>
      String.eqb key "test:2" &&
      match get output "amount" with Some (Number (PosInt n)) => n =? 30000 | _ => false end
  | _, _, _ => false
  end.

Definition spawn_mock_webhook (response : Value) (body : Value) : webhook_answer :=
  if posts_plan body then WebhookStatus 200 (inl response) else WebhookDown "unexpected body".

(** [src/src/payout/signer/external.rs:182-222 tests::test_external_signer_posts_to_webhook] *)
Definition test_external_signer_posts_to_webhook : test :=
  let expected_txid := "ext-txid-12345"%string in
  let post := spawn_mock_webhook (Object [("txid"%string, Str expected_txid)]) in
  txid ← unwrap (external_sign_and_submit post test_signed_batch_data);
  assert_eq txid expected_txid.

(** [src/src/payout/signer/external.rs:226-248 tests::test_external_signer_handles_http_error] *)
Definition test_external_signer_handles_http_error : test :=
  let post (_ : Value) := WebhookStatus 500 (inr "EOF while parsing a value"%string) in
  fails_with (external_sign_and_submit post test_signed_batch_data) "500".

(** [src/src/payout/signer/external.rs:252-266 tests::test_external_signer_handles_missing_txid] *)
Definition test_external_signer_handles_missing_txid : test :=
  let post := spawn_mock_webhook (Object [("status"%string, Str "accepted")]) in
  fails_with (external_sign_and_submit post test_signed_batch_data) "txid".

Lemma external_signer_tests_pass :
  all_pass
    [ test_external_signer_posts_to_webhook; test_external_signer_handles_http_error;
      test_external_signer_handles_missing_txid ] = true.
Proof. vm_compute. reflexivity. Qed.
