(* ===== verification/ApiTests.v ===== *)
(** The unit tests of the HTTP API, run on [HttpApi]: the token check, the health endpoint, and
    the handlers of statistics, workers, rounds, blocks, shares and payouts. A request reaches
    the model with its endpoint and its [Authorization] header. *)
From Stdlib Require Import ZArith String.
From stdpp Require Import base option list numbers strings gmap.
From S2P Require Import Prelude Text Float64 Db VarDiff AccountingService PayoutService Pagination.
From S2P Require Import HttpApi Testing DbTesting.
From S2P Require WorkerRepository RoundRepository FoundBlockRepository.
#[local] Open Scope Z_scope.

(** The difficulty of a target is not asked for in the tests. *)
#[local] Instance test_hashing : Hashing := {|
  hex_decode := hex_bytes; target_to_difficulty _ := None |}.

(** The texts of errors are not looked at; the clock is half an hour after the window begins. *)
Definition env : ApiEnv := mkApiEnv f64_sum "2026-05-20 11:30:00" (λ _, ""%string).

(** [ServerStats::default()], and a state with the given repositories. *)
Definition default_stats : ServerStats := mkServerStats 0 0 None.
Definition state_with (stats : ServerStats) (token : string) (share worker round block payout : bool) :
    AppState := mkAppState stats share worker round block payout token false None.
Definition no_repo : AppState := state_with default_stats "test" false false false false false.

(** * The server *)

(** [src/src/http_api/server.rs:162-174 tests::test_state] *)
Definition test_state (token : string) : AppState :=
  state_with default_stats token false false false false false.

(** The status of the answer to a request to the server with the state. *)
(** [src/src/http_api/server.rs:187-212 tests::http_get] *)
Definition http_get (state : AppState) (c : Call) (token : option string) : result Z :=
  let header := (λ t, "Bearer " ++ t)%string <$> token in
  '(status, _) ← (create_router env state header c (fresh_db "2026-05-20 12:00:00")).1;
  Ok status.

(** [src/src/http_api/server.rs:215-219 tests::test_auth_health_without_token] *)
Definition test_auth_health_without_token : test :=
  status ← http_get (test_state "secret") Health None;
  assert_eq status 200.

(** [src/src/http_api/server.rs:222-226 tests::test_auth_stats_without_token] *)
Definition test_auth_stats_without_token : test :=
  status ← http_get (test_state "secret") Stats None;
  assert_eq status 401.

(** [src/src/http_api/server.rs:229-233 tests::test_auth_stats_with_wrong_token] *)
Definition test_auth_stats_with_wrong_token : test :=
  status ← http_get (test_state "secret") Stats (Some "wrong"%string);
  assert_eq status 401.

(** [src/src/http_api/server.rs:236-240 tests::test_auth_stats_with_correct_token] *)
Definition test_auth_stats_with_correct_token : test :=
  status ← http_get (test_state "secret") Stats (Some "secret"%string);
  assert_eq status 200.

Lemma api_server_tests_pass :
  all_pass
    [ test_auth_health_without_token; test_auth_stats_without_token;
      test_auth_stats_with_wrong_token; test_auth_stats_with_correct_token ] = true.
Proof. vm_compute. reflexivity. Qed.

(** * Health and statistics *)

(** [src/src/http_api/routes/health.rs:29-52 tests::test_health_response] *)
Definition test_health_response : test :=
  let state := state_with (mkServerStats 100 5 None) "test" false false false false false in
  let response := health_handler state in
  assert_eq (h_status response) "ok"%string ;;
  assert_eq (h_uptime_secs response) 100 ;;
  assert_eq (h_connected_miners response) 5.

(** [src/src/http_api/routes/stats.rs:72-95 tests::test_stats_response_correct_without_db] *)
Definition test_stats_response_correct_without_db : test := db_test (
  response ← mread (stats_handler env no_repo);
  massert_eq (sx_total_shares response) 0 ;;
  massert_eq (sx_accepted_shares response) 0 ;;
  massert_eq (sx_rejected_shares response) 0 ;;
  massert (f64_eq (sx_accepted_pct response) f64_zero) ;;
  massert_eq (sx_rejection_breakdown response) ∅ ;;
  massert_eq (sx_pool_hashrate response) 0).

(** [src/src/http_api/routes/stats.rs:98-118 tests::test_stats_response_with_network_difficulty] *)
Definition test_stats_response_with_network_difficulty : test := db_test (
  let stats := mkServerStats 0 0 (Some "ffffffff"%string) in
  response ← mread (stats_handler env (state_with stats "test" false false false false false));
  massert_eq (sx_network_difficulty response) (Some "ffffffff"%string)).

(** [src/src/http_api/routes/stats.rs:121-194 tests::test_stats_response_queries_repository] *)
Definition test_stats_response_queries_repository : test := db_test (
  raw_worker 1 "test_addr" (Some "rig1"%string) ;;
  raw_share 1 1 100 "00112233" "001122334455" "0011223344556677" "dk1" ;;
  raw_share 1 1 101 "00112234" "001122334456" "0011223344556678" "dk2" ;;
  raw_share 1 1 102 "00112235" "001122334457" "0011223344556679" "dk3" ;;
  raw_outcome 1 1 None "dk1" "accepted" None true ;;
  raw_outcome 2 1 None "dk2" "accepted" None true ;;
  raw_outcome 3 1 None "dk3" "rejected" (Some "low-difficulty-share"%string) false ;;
  response ← mread (stats_handler env (state_with default_stats "test" true false false false false));
  massert_eq (sx_total_shares response) 3 ;;
  massert_eq (sx_accepted_shares response) 2 ;;
  massert_eq (sx_rejected_shares response) 1 ;;
  massert (within (f64_lit 1 100) (sx_accepted_pct response) (f64_lit 6667 100)) ;;
  massert_eq (sx_rejection_breakdown response !! "low-difficulty-share"%string) (Some 1) ;;
  massert_eq (sx_pool_hashrate response) 4772185).

Lemma api_stats_tests_pass :
  all_pass
    [ test_health_response; test_stats_response_correct_without_db;
      test_stats_response_with_network_difficulty;
      test_stats_response_queries_repository ] = true.
Proof. vm_compute. reflexivity. Qed.

(** * Workers *)

(** [src/src/http_api/routes/workers.rs:95-100 tests::no_pagination] *)
Definition no_pagination : PaginationParams := mkPaginationParams None None.

Definition worker_state : AppState := state_with default_stats "test" true true false false false.
Definition upsert (address suffix : string) : DbM Worker :=
  munwrap (WorkerRepository.upsert address (Some suffix)).

(** [src/src/http_api/routes/workers.rs:103-124 tests::test_list_workers_empty] *)
Definition test_list_workers_empty : test := db_test (
  response ← mread (list_workers no_repo no_pagination);
  massert (is_empty (pr_data response)) ;;
  massert_eq (pr_total response) 0 ;;
  massert (negb (pr_has_more response))).

(** [src/src/http_api/routes/workers.rs:127-160 tests::test_list_workers_with_data] *)
Definition test_list_workers_with_data : test := db_test (
  upsert "addr1" "rig1" ;;
  upsert "addr2" "rig2" ;;
  response ← mread (list_workers worker_state no_pagination);
  massert_eq (len (pr_data response)) 2 ;;
  w0 ← mat_index (pr_data response) 0;
  massert_eq (ws_payout_address w0) "addr1"%string ;;
  w1 ← mat_index (pr_data response) 1;
  massert_eq (ws_payout_address w1) "addr2"%string ;;
  massert_eq (pr_total response) 2).

(** [src/src/http_api/routes/workers.rs:163-192 tests::test_get_worker_by_id] *)
Definition test_get_worker_by_id : test := db_test (
  worker ← upsert "addr1" "rig1";
  response ← mread (get_worker worker_state (w_id worker));
  massert (is_some response) ;;
  detail ← munwrap_some response;
  massert_eq (wd_payout_address detail) "addr1"%string).

(** [src/src/http_api/routes/workers.rs:195-221 tests::test_get_worker_not_found] *)
Definition test_get_worker_not_found : test := db_test (
  response ← mread (get_worker worker_state 999);
  massert (is_none response)).

Lemma api_worker_tests_pass :
  all_pass
    [ test_list_workers_empty; test_list_workers_with_data; test_get_worker_by_id;
      test_get_worker_not_found ] = true.
Proof. vm_compute. reflexivity. Qed.

(** * Rounds *)

Definition round_state : AppState := state_with default_stats "test" false false true false false.
Definition current_round (template : Z) : DbM Round :=
  '(round, _) ← munwrap (RoundRepository.get_or_create_current_round template); mret round.

(** [src/src/http_api/routes/rounds.rs:141-160 tests::test_get_round_not_found] *)
Definition test_get_round_not_found : test := db_test (
  response ← mread (get_round no_repo 999);
  massert (is_none response)).

(** The row of a worker of the breakdown has the counts. *)
Definition row_has (detail : RoundDetail) (worker total accepted rejected : Z) : DbM unit :=
  row ← munwrap_some (List.find (λ w, wb_worker_id w =? worker) (rd_share_breakdown detail));
  massert_eq (wb_total_shares row) total ;;
  massert_eq (wb_accepted_shares row) accepted ;;
  massert_eq (wb_rejected_shares row) rejected.

(** [src/src/http_api/routes/rounds.rs:163-253 tests::test_get_round_with_share_breakdown] *)
Definition test_get_round_with_share_breakdown : test := db_test (
  round ← current_round 1;
  w1 ← upsert "addr1" "rig1";
  w2 ← upsert "addr2" "rig2";
  let dedupe_base i := ("round_detail_" ++ show_u i)%string in
  mfor [1; 2; 3] (λ i,
    let dedupe := dedupe_base i in
    raw_share (w_id w1) 1 100 "00112233" "001122334455" "0011223344556677" dedupe ;;
    raw_outcome i (w_id w1) (Some (r_id round)) dedupe "accepted" None true) ;;
  let dedupe_r := dedupe_base 10 in
  raw_share (w_id w2) 1 100 "00112233" "001122334455" "0011223344556677" dedupe_r ;;
  raw_outcome 4 (w_id w2) (Some (r_id round)) dedupe_r "rejected"
    (Some "low-difficulty-share"%string) false ;;
  let state := state_with default_stats "test" true true true false false in
  detail ← mread_some (get_round state (r_id round));
  massert_eq (rd_id detail) (r_id round) ;;
  massert_eq (rd_total_shares detail) 4 ;;
  massert_eq (len (rd_share_breakdown detail)) 2 ;;
  row_has detail (w_id w1) 3 3 0 ;;
  row_has detail (w_id w2) 1 0 1).

(** [src/src/http_api/routes/rounds.rs:256-280 tests::test_list_rounds_empty] *)
Definition test_list_rounds_empty : test := db_test (
  response ← mread (list_rounds no_repo None no_pagination);
  massert (is_empty (pr_data response))).

(** [src/src/http_api/routes/rounds.rs:283-317 tests::test_list_rounds_with_data] *)
Definition test_list_rounds_with_data : test := db_test (
  current_round 1 ;;
  current_round 10 ;;
  response ← mread (list_rounds round_state None no_pagination);
  massert_eq (len (pr_data response)) 1 ;;
  massert_eq (pr_total response) 1 ;;
  r0 ← mat_index (pr_data response) 0;
  massert_eq (rsm_status r0) "open"%string).

(** [src/src/http_api/routes/rounds.rs:320-379 tests::test_list_rounds_filter_by_status] *)
Definition test_list_rounds_filter_by_status : test := db_test (
  r1 ← current_round 1;
  munwrap (RoundRepository.close_round (r_id r1) 5 "found") ;;
  current_round 6 ;;
  open_rounds ← mread (list_rounds round_state (Some "open"%string) no_pagination);
  massert_eq (len (pr_data open_rounds)) 1 ;;
  r0 ← mat_index (pr_data open_rounds) 0;
  massert_eq (rsm_start_template_id r0) "6"%string ;;
  found_rounds ← mread (list_rounds round_state (Some "found"%string) no_pagination);
  massert_eq (len (pr_data found_rounds)) 1 ;;
  r0 ← mat_index (pr_data found_rounds) 0;
  massert_eq (rsm_start_template_id r0) "1"%string).

Lemma api_round_tests_pass :
  all_pass
    [ test_get_round_not_found; test_get_round_with_share_breakdown; test_list_rounds_empty;
      test_list_rounds_with_data; test_list_rounds_filter_by_status ] = true.
Proof. vm_compute. reflexivity. Qed.

(** * Blocks *)

Definition block_state : AppState := state_with default_stats "test" false false false true false.

(** [src/src/http_api/routes/blocks.rs:128-146 tests::setup_db] *)
Definition setup_db : DbM unit := raw_round 1 42 "open" ;; raw_worker 42 "lotus_test" None.

Definition record_block (hash : string) (height : Z) : DbM FoundBlock :=
  munwrap (FoundBlockRepository.record_found_block 1 hash height None None None 0 "").
Definition blocks_of (state : AppState) (status : option string) :
    DbM (PaginatedResponse BlockSummary) := mread_ok (list_blocks state status no_pagination).

(** [src/src/http_api/routes/blocks.rs:149-158 tests::test_list_blocks_empty] *)
Definition test_list_blocks_empty : test := db_test (
  response ← blocks_of no_repo None;
  massert (is_empty (pr_data response))).

(** [src/src/http_api/routes/blocks.rs:161-179 tests::test_list_blocks_with_data] *)
Definition test_list_blocks_with_data : test := db_test (
  setup_db ;;
  record_block "block1" 100 ;;
  record_block "block2" 101 ;;
  response ← blocks_of block_state None;
  massert_eq (len (pr_data response)) 2 ;;
  massert_eq (pr_total response) 2 ;;
  b0 ← mat_index (pr_data response) 0;
  massert_eq (bs_block_hash b0) "block2"%string ;;
  b1 ← mat_index (pr_data response) 1;
  massert_eq (bs_block_hash b1) "block1"%string).

(** [src/src/http_api/routes/blocks.rs:182-209 tests::test_list_blocks_by_status] *)
Definition test_list_blocks_by_status : test := db_test (
  setup_db ;;
  record_block "block1" 100 ;;
  record_block "block2" 101 ;;
  munwrap (FoundBlockRepository.mark_orphaned "block1" "reorg") ;;
  immature ← blocks_of block_state (Some "immature"%string);
  massert_eq (len (pr_data immature)) 1 ;;
  b0 ← mat_index (pr_data immature) 0;
  massert_eq (bs_block_hash b0) "block2"%string ;;
  orphaned ← blocks_of block_state (Some "orphaned"%string);
  massert_eq (len (pr_data orphaned)) 1 ;;
  b0 ← mat_index (pr_data orphaned) 0;
  massert_eq (bs_block_hash b0) "block1"%string).

(** [src/src/http_api/routes/blocks.rs:212-235 tests::test_get_block_by_hash] *)
Definition test_get_block_by_hash : test := db_test (
  setup_db ;;
  munwrap (FoundBlockRepository.record_found_block 1 "blockhash123" 500 (Some 42) (Some 100)
    (Some "json-rpc"%string) 0 "") ;;
  detail ← mread_some (get_block block_state "blockhash123");
  massert_eq (bd_block_hash detail) "blockhash123"%string ;;
  massert_eq (bd_height detail) 500 ;;
  massert_eq (bd_status detail) "immature"%string ;;
  massert_eq (bd_worker_id detail) (Some 42) ;;
  massert_eq (bd_persist_source detail) (Some "json-rpc"%string)).

(** [src/src/http_api/routes/blocks.rs:238-243 tests::test_get_block_not_found] *)
Definition test_get_block_not_found : test := db_test (
  setup_db ;;
  response ← mread (get_block block_state "nonexistent");
  massert (is_none response)).

Lemma api_block_tests_pass :
  all_pass
    [ test_list_blocks_empty; test_list_blocks_with_data; test_list_blocks_by_status;
      test_get_block_by_hash; test_get_block_not_found ] = true.
Proof. vm_compute. reflexivity. Qed.

(** * Shares and payouts *)

Definition share_state : AppState := state_with default_stats "test" true false false false false.
Definition all_shares : ListSharesParams := mkListSharesParams None None None None None None.

(** [.await.unwrap()] of a handler. *)
Definition answered {A} (f : Db → A + AppError) : DbM A :=
  mread_some (λ d, match f d with inl a => Some a | inr _ => None end).

(** [src/src/http_api/routes/shares.rs:187-200 tests::test_list_shares_empty] *)
Definition test_list_shares_empty : test := db_test (
  response ← answered (list_shares share_state all_shares);
  massert (is_empty (pr_data response)) ;;
  massert_eq (pr_total response) 0).

(** [src/src/http_api/routes/shares.rs:203-218 tests::test_list_share_outcomes_empty] *)
Definition test_list_share_outcomes_empty : test := db_test (
  response ← answered (list_share_outcomes share_state all_shares);
  massert (is_empty (pr_data response)) ;;
  massert_eq (pr_total response) 0).

(** [src/src/http_api/routes/payouts.rs:182-206 tests::test_list_payouts_empty] *)
Definition test_list_payouts_empty : test := db_test (
  let state := state_with default_stats "test" false false false false true in
  result ← answered (list_payouts state None no_pagination);
  massert (is_empty (pr_data result))).

Lemma api_share_and_payout_tests_pass :
  all_pass
    [ test_list_shares_empty; test_list_share_outcomes_empty; test_list_payouts_empty ] = true.
Proof. vm_compute. reflexivity. Qed.
