(* ===== verification/ConsumerTests.v ===== *)
(** The unit tests of [node_integration/nng/consumer.rs] and [payout/handler.rs], run on
    [Consumer] and the repositories. The library of the tests serializes a header as the four
    bytes of its height. Left out: the parsing of such a header, which is library code, an
    ignored test without a body, and the test of the lock of the payout handler. *)
From Stdlib Require Import ZArith Lia String Init.Byte.
From stdpp Require Import base option list numbers strings.
From S2P Require Import Prelude Text Float64 VarDiff Db AccountingEventRepository.
From S2P Require Import FoundBlockRepository PayoutRepository AccountingService PayoutService Job.
From S2P Require Import JobCache Validator PayoutHandler Consumer Testing DbTesting.
From S2P Require RoundRepository.
#[local] Open Scope Z_scope.

(** * The header library *)

Definition byte_of (n : Z) : byte := default x00 (Byte.of_N (Z.to_N (n `mod` 256))).
Definition le_bytes (n : Z) : list byte :=
  [byte_of n; byte_of (n `div` 256); byte_of (n `div` 65536); byte_of (n `div` 16777216)].

#[local] Instance test_hashing : Hashing := {|
  hex_decode := hex_bytes; target_to_difficulty _ := None |}.
#[local] Program Instance test_lotus : LotusLib := {|
  LotusHeader := list byte; LotusTx := unit; LotusMeta := unit;
  build_stratum_header _ := None;
  header_deser bs := if (length bs =? 4)%nat then Some bs else None;
  calc_hash _ := replicate 32 x00;
  header_meets_difficulty _ _ := None;
  hex_encode _ := ""%string;
  u256_from_big_endian := be_value;
  block_deser _ := None; block_ser _ := []; tx_deser _ := None; tx_ser _ := []; tx_outputs _ := [];
  update_merkle_root h _ := h;
  header_height h := be_value (rev h);
  header_epoch_hash _ := ""%string; header_extended_metadata_hash _ := ""%string;
|}.
Next Obligation. done. Qed.
Next Obligation. done. Qed.

Definition zero_hash : string :=
  "0000000000000000000000000000000000000000000000000000000000000000".

(** The serialized header of the library of the tests. *)
Definition make_header_bytes (height : Z) : list byte := le_bytes height.

(** [src/src/node_integration/nng/consumer.rs:461-479 tests::make_block_connected] *)
Definition make_block_connected (height : Z) : NodeBlock :=
  mkNodeBlock zero_hash (make_header_bytes height) [].

(** [src/src/node_integration/nng/consumer.rs:481-499 tests::make_block_disconnected] *)
Definition make_block_disconnected (hash_hex : string) : NodeBlock :=
  mkNodeBlock hash_hex [] [].

(** * Coalescing *)

(** An event of the tests: its height and its epoch. *)
(** [src/src/node_integration/nng/consumer.rs:504-529 tests::test_coalesce_single_event_passthrough] *)
Definition test_coalesce_single_event_passthrough : test :=
  received ← at_index (coalesce_events None None [(0, (1000, 42))]) 0;
  assert_eq (fst received) 1000 ;;
  assert_eq (snd received) 42.

(** The events are sent at once; then nothing comes for 150 ms. *)
(** [src/src/node_integration/nng/consumer.rs:532-569 tests::test_coalesce_multiple_events_merged] *)
Definition test_coalesce_multiple_events_merged : test :=
  let coalesced := coalesce_events None None [(0, (1000, 1)); (0, (1000, 2)); (0, (1000, 3))] in
  received ← at_index coalesced 0;
  assert_eq (snd received) 3 ;;
  assert (is_none (coalesced !! 1%nat)).

Lemma coalesce_tests_pass :
  all_pass
    [ test_coalesce_single_event_passthrough; test_coalesce_multiple_events_merged ] = true.
Proof. vm_compute. reflexivity. Qed.

(** * Disconnected blocks *)

Definition json_rpc : option string := Some "json-rpc"%string.
Definition orphan_events (d : Db) : result (list AccountingEvent) :=
  list_by_type d "found_block_orphaned" 10 0.

Definition block_abc1 : string :=
  "000000000000000000000000000000000000000000000000000000000000abc1".

(** [src/src/node_integration/nng/consumer.rs:574-628 tests::test_handle_block_disconnected_orphans_matching_block] *)
Definition test_handle_block_disconnected_orphans_matching_block : test := db_test (
  raw_round 1 42 "open" ;;
  munwrap (record_found_block 1 block_abc1 1000 None (Some 42) json_rpc 0 "") ;;
  let event := make_block_disconnected block_abc1 in
  handle_block_disconnected (nb_hash_hex event) ;;
  found ← mread_some (λ d, get_by_hash d block_abc1);
  massert_eq (fb_status found) "orphaned"%string ;;
  massert_eq (fb_orphan_reason found) (Some "reorg_detected"%string) ;;
  round ← mread_some (λ d, RoundRepository.get_by_id d 1);
  massert_eq (r_status round) "orphaned"%string ;;
  events ← mread_ok orphan_events;
  massert_eq (len events) 1 ;;
  e0 ← mat_index events 0;
  massert_eq (ev_block_hash e0) (Some block_abc1) ;;
  massert_eq (ev_status e0) "orphaned"%string).

(** [src/src/node_integration/nng/consumer.rs:631-679 tests::test_handle_block_disconnected_ignores_unknown_block] *)
Definition test_handle_block_disconnected_ignores_unknown_block : test := db_test (
  let known := "000000000000000000000000000000000000000000000000000000000000000a"%string in
  raw_round 1 42 "open" ;;
  munwrap (record_found_block 1 known 1000 None (Some 42) json_rpc 0 "") ;;
  let event := make_block_disconnected
    "ffffffffffffffffffffffffffffffffffffffffffffffffffffffffffffffff" in
  handle_block_disconnected (nb_hash_hex event) ;;
  found ← mread_some (λ d, get_by_hash d known);
  massert_eq (fb_status found) "immature"%string ;;
  events ← mread_ok orphan_events;
  massert (is_empty events)).

Lemma disconnected_tests_pass :
  all_pass
    [ test_handle_block_disconnected_orphans_matching_block;
      test_handle_block_disconnected_ignores_unknown_block ] = true.
Proof. vm_compute. reflexivity. Qed.

(** * Reasons *)

(** [src/src/node_integration/nng/consumer.rs:682-688 tests::test_miningwrkchg_reason_to_string_new_tip] *)
Definition test_miningwrkchg_reason_to_string_new_tip : test :=
  assert_eq (miningwrkchg_reason_to_string NewTip) "new-tip"%string.
(** [src/src/node_integration/nng/consumer.rs:691-697 tests::test_miningwrkchg_reason_to_string_reorg] *)
Definition test_miningwrkchg_reason_to_string_reorg : test :=
  assert_eq (miningwrkchg_reason_to_string Reorg) "reorg"%string.
(** [src/src/node_integration/nng/consumer.rs:700-706 tests::test_miningwrkchg_reason_to_string_mempool] *)
Definition test_miningwrkchg_reason_to_string_mempool : test :=
  assert_eq (miningwrkchg_reason_to_string MempoolRefresh) "mempool"%string.
(** [src/src/node_integration/nng/consumer.rs:709-715 tests::test_miningwrkchg_reason_to_string_manual] *)
Definition test_miningwrkchg_reason_to_string_manual : test :=
  assert_eq (miningwrkchg_reason_to_string ManualInvalidation) "manual"%string.

Lemma reason_tests_pass :
  all_pass
    [ test_miningwrkchg_reason_to_string_new_tip; test_miningwrkchg_reason_to_string_reorg;
      test_miningwrkchg_reason_to_string_mempool;
      test_miningwrkchg_reason_to_string_manual ] = true.
Proof. vm_compute. reflexivity. Qed.

(** * Connected blocks *)

(** A test of the consumer, with [ChainTip::new(0)] and an empty payout channel. *)
Definition world_test (c : M (World (C := BoundedMap)) unit) : test :=
  run_test (mkWorld (fresh_db "2026-05-20 12:00:00") (JobCache_new 4) 0 [] []) c.

(** [handle_block_connected(event, .., 100)] *)
Definition connected (height : Z) : M (World (C := BoundedMap)) unit :=
  handle_block_connected 100 (make_block_connected height).
Definition the_block (hash : string) : M (World (C := BoundedMap)) FoundBlock :=
  mread_some (λ w, get_by_hash (wd_db w) hash).

(** [src/src/node_integration/nng/consumer.rs:743-755 tests::test_blkconnected_updates_chain_tip] *)
Definition test_blkconnected_updates_chain_tip : test := world_test (
  connected 500 ;;
  tip ← mread wd_tip;
  massert_eq tip 500).

(** An immature block at height 100. *)
Definition block1_at_100 : M (World (C := BoundedMap)) unit :=
  run_db (
    round ← munwrap (svc_resolve_round_for_template 42);
    munwrap (svc_record_found_block (r_id round) "block1" 100 None (Some 42) json_rpc 50000
      "00000000ffff0000000000000000000000000000000000000000000000000000") ;;
    mret tt).

Definition is_matured (hash : string) (e : PayoutEvent) : bool :=
  match e with BlockMatured h => String.eqb h hash | _ => false end.
Definition is_connected (e : PayoutEvent) : bool :=
  match e with BlockConnected _ => true | _ => false end.

(** [src/src/node_integration/nng/consumer.rs:758-799 tests::test_blkconnected_triggers_maturation] *)
Definition test_blkconnected_triggers_maturation : test := world_test (
  block1_at_100 ;;
  connected 200 ;;
  found ← the_block "block1";
  massert_eq (fb_status found) "matured"%string ;;
  events ← mread wd_payout_events;
  received ← mat_index events 0;
  massert (is_matured "block1" received)).

(** [src/src/node_integration/nng/consumer.rs:802-849 tests::test_blkconnected_sends_both_matured_and_connected] *)
Definition test_blkconnected_sends_both_matured_and_connected : test := world_test (
  block1_at_100 ;;
  connected 200 ;;
  events ← mread wd_payout_events;
  first ← mat_index events 0;
  massert (is_matured "block1" first) ;;
  second ← mat_index events 1;
  massert (is_connected second)).

(** [src/src/node_integration/nng/consumer.rs:852-878 tests::test_blkconnected_no_pool_blocks] *)
Definition test_blkconnected_no_pool_blocks : test := world_test (
  run_db (raw_round 1 42 "open") ;;
  connected 99999 ;;
  tip ← mread wd_tip;
  massert_eq tip 99999 ;;
  events ← mread wd_payout_events;
  first ← mat_index events 0;
  massert (is_connected first)).

(** The block of the event, in a round that found it. *)
Definition zero_block : DbM FoundBlock :=
  raw_round 1 42 "found" ;;
  munwrap (record_found_block 1 zero_hash 100 None None None 50000 "").
Definition orphan_it : DbM unit := munwrap (mark_orphaned zero_hash "reorg_detected").
Definition retry_key : string := ("hash:" ++ zero_hash)%string.

(** [src/src/node_integration/nng/consumer.rs:881-920 tests::test_blkconnected_un_orphans_block_without_batch] *)
Definition test_blkconnected_un_orphans_block_without_batch : test := world_test (
  run_db (zero_block ;; orphan_it) ;;
  connected 200 ;;
  fb ← the_block zero_hash;
  massert_eq (fb_status fb) "matured"%string ;;
  massert_eq (fb_orphan_reason fb) None).

(** [src/src/node_integration/nng/consumer.rs:923-969 tests::test_blkconnected_un_orphans_block_with_pending_batch] *)
Definition test_blkconnected_un_orphans_block_with_pending_batch : test := world_test (
  run_db (
    fb ← zero_block;
    munwrap (mark_matured (fb_id fb)) ;;
    munwrap (create_payout_batch 1 100000 1000 None 1 retry_key) ;;
    orphan_it) ;;
  connected 200 ;;
  fb ← the_block zero_hash;
  massert_eq (fb_status fb) "matured"%string ;;
  massert_eq (fb_orphan_reason fb) None).

Definition txid_a1 : string :=
  "a1b2c3d4e5f6a7b8c9d0e1f2a3b4c5d6e7f8a9b0c1d2e3f4a5b6c7d8e9f0a1b2".

(** [src/src/node_integration/nng/consumer.rs:972-1029 tests::test_blkconnected_does_not_un_orphan_with_submitted_batch] *)
Definition test_blkconnected_does_not_un_orphan_with_submitted_batch : test := world_test (
  run_db (
    fb ← zero_block;
    munwrap (mark_matured (fb_id fb)) ;;
    batch ← munwrap (create_payout_batch 1 100000 1000 None 1 retry_key);
    munwrap (mark_batch_submitted (pb_id batch) txid_a1) ;;
    orphan_it) ;;
  connected 200 ;;
  fb ← the_block zero_hash;
  massert_eq (fb_status fb) "orphaned"%string ;;
  massert_eq (fb_orphan_reason fb) (Some "reorg_detected"%string)).

Lemma connected_tests_pass :
  all_pass
    [ test_blkconnected_updates_chain_tip; test_blkconnected_triggers_maturation;
      test_blkconnected_sends_both_matured_and_connected; test_blkconnected_no_pool_blocks;
      test_blkconnected_un_orphans_block_without_batch;
      test_blkconnected_un_orphans_block_with_pending_batch;
      test_blkconnected_does_not_un_orphan_with_submitted_batch ] = true.
Proof. vm_compute. reflexivity. Qed.

(** * The payout handler *)

(** A batch of round 1 that is submitted with [txid_a1]. *)
Definition submitted_batch : DbM PayoutBatch :=
  batch ← munwrap (create_payout_batch 1 100000 1000 None 1 "hash:abc");
  munwrap (mark_batch_submitted (pb_id batch) txid_a1) ;;
  mret batch.

(** What the tests do with every submitted batch whose transaction is in the block. *)
Definition confirm_batches (txids : list string) (confirmed : PayoutBatch → DbM unit) : DbM unit :=
  submitted ← mread (λ d, list_batches d (Some "submitted"%string));
  mfor submitted (λ batch,
    match pb_submitted_txid batch with
    | Some submitted_txid =>
        if bool_decide (submitted_txid ∈ txids) then
          munwrap (update_batch_status (pb_id batch) "confirmed") ;; confirmed batch
        else mret tt
    | None => mret tt
    end).

(** [src/src/payout/handler.rs:251-334 tests::test_block_connected_confirms_matching_payout] *)
Definition test_block_connected_confirms_matching_payout : test := db_test (
  raw_round 1 42 "found" ;;
  (λ d, (Ok tt, set_found_blocks d (insert_row (λ i, mkFoundBlock i 1 "abc" 100 "matured" None None
    None None None 50000 None "") (found_blocks d)).2)) ;;
  batch ← submitted_batch;
  confirm_batches [txid_a1] (λ batch,
    fb ← mread_ok (λ d, get_by_round_id d (pb_round_id batch));
    match fb with
    | Some fb => munwrap (update_status (fb_id fb) "paid")
    | None => mret tt
    end) ;;
  updated_batch ← mread_some (λ d, get_batch_by_id d (pb_id batch));
  massert_eq (pb_status updated_batch) "confirmed"%string ;;
  fb ← mread_some (λ d, get_by_hash d "abc");
  massert_eq (fb_status fb) "paid"%string).

(** [src/src/payout/handler.rs:337-390 tests::test_block_connected_does_not_confirm_non_matching_txid] *)
Definition test_block_connected_does_not_confirm_non_matching_txid : test := db_test (
  raw_round 1 42 "found" ;;
  batch ← submitted_batch;
  confirm_batches [zero_hash] (λ _, mret tt) ;;
  updated_batch ← mread_some (λ d, get_batch_by_id d (pb_id batch));
  massert_eq (pb_status updated_batch) "submitted"%string).

Lemma handler_tests_pass :
  all_pass
    [ test_block_connected_confirms_matching_payout;
      test_block_connected_does_not_confirm_non_matching_txid ] = true.
Proof. vm_compute. reflexivity. Qed.
