(* ===== verification/ServerTests.v ===== *)
(** The unit tests of [stratum_protocol/server.rs], run on [Server]. A test plays a miner: it
    sends lines over its connection and reads what the server writes; a read that would have to
    wait fails. Whether the hash of a header meets a target is library code, and the tests that
    submit a share allow for both answers: they pass with a library that says always yes and
    with one that says always no. Left out: the test that a server can be made. *)
From Stdlib Require Import ZArith Lia String Init.Byte.
From stdpp Require Import base option list numbers strings gmap.
From S2P Require Import Prelude Text Float64 VarDiff Json Db AccountingEventRepository.
From S2P Require Import ShareRepository Job JobCache Protocol Session Validator Server Testing.
From S2P Require Import DbTesting.
From S2P Require Pool.
#[local] Open Scope Z_scope.

(** * Libraries *)

Definition worker_rig : string := "lotus_16PSJNf1EDEfGvaYzaXJCJZrXH4pgiTo7kyW61iGi.rig".
Definition other_rig : string := "lotus_16PSJHGmfZkU8zFrzU8Gw198o4j2XUryNnrMccuvZ.rig".

#[local] Instance test_address : LotusAddress := {|
  address_error a :=
    if existsb (String.eqb a) ["lotus_16PSJNf1EDEfGvaYzaXJCJZrXH4pgiTo7kyW61iGi";
                               "lotus_16PSJHGmfZkU8zFrzU8Gw198o4j2XUryNnrMccuvZ"]%string
    then None else Some "invalid address"%string |}.

(** A target's difficulty is the quotient of the target of difficulty one by it. *)
#[local] Instance test_hashing : Hashing := {|
  hex_decode := hex_bytes;
  target_to_difficulty bytes :=
    Some (f64_div (f64_of_Z (65535 * 2 ^ 208)) (f64_of_Z (be_value bytes))) |}.

(** The answer to whether a hash meets a difficulty. *)
#[local] Program Instance lotus_that_says (meets : bool) : LotusLib := {|
  LotusHeader := list byte; LotusTx := unit; LotusMeta := unit;
  build_stratum_header _ := Some [];
  header_deser bs := Some bs;
  calc_hash _ := replicate 32 (if meets then x00 else xff);
  header_meets_difficulty _ _ := Some meets;
  hex_encode _ := String.concat "" (replicate 64 "0")%string;
  u256_from_big_endian := be_value;
  block_deser _ := None; block_ser _ := []; tx_deser _ := None; tx_ser _ := []; tx_outputs _ := [];
  update_merkle_root h _ := h; header_height _ := 0;
  header_epoch_hash _ := ""%string; header_extended_metadata_hash _ := ""%string;
|}.
Next Obligation. by intros []. Qed.
Next Obligation. done. Qed.

(** [src/src/stratum_protocol/server.rs:901-928 tests::create_test_job] *)
Definition create_test_job : MiningJob :=
  mkMiningJob "job-890-100" 890
    "4f7bcee63a20eff92f69a7f0e74af36a9f1e60ee7ecc5b0506e1ae3600000000"
    "02000000010000000000000000000000000000000000000000000000000000000000000000ffffffff1900000e2f4c6f747573696120506f6f6c2f"
    "ffffffff0300000000000000000b6a056c6f676f7303f1b8137ecf360d000000001976a914ad8b796954a46f0f32a867d3fd8855043cc506ba88ac7ecf360d000000001976a914053d4d0c28d299dc5c2be1ce5d29bf00cdb61b4088ac00000000"
    ["796f6be745741765f8b19cfa4209ff68447d9e76198fee5d33fbe2c944224f16";
     "4b0ce2ddbf0f5352b721b7688109a1e1007722f96fa07f61ea8e655ac804964f";
     "c3899f315bc3b284015819a8d77404b4e179528d62559886babf89884966a172"]%string
    "00000001" "10d0091c" "6adc0c6a0000"
    "0000000009d01000000000000000000000000000000000000000000000000000" false 100 1292529
    "00000000061fb84d2a1d30d8767f629a08904b0e70f84587008fd9e91f1583f7"
    "9a538906e6466ebd2617d321f71bc94e56056ce213d366773699e28158e00614" 2588 [] 5000000000 "".

(** * The server without a connection *)

(** [src/src/stratum_protocol/server.rs:931-960 tests::test_notify_new_job_broadcasts] *)
Definition test_notify_new_job_broadcasts : test :=
  let job := create_test_job in
  let job_rx := Pool.job_subscribe (JobChannel := Pool.queue_channel) [] in
  let sent := Pool.notify_new_job job [] in
  match Pool.job_recv (JobChannel := Pool.queue_channel) sent job_rx with
  | Some (Pool.RecvOk received, _) => assert_eq (j_job_id received) (j_job_id job)
  | _ => Panic
  end.

(** [src/src/stratum_protocol/server.rs:983-1015 tests::test_session_id_generation] *)
Definition test_session_id_generation : test :=
  assert_eq (connection_ids 1).1 "sess-1"%string ;;
  assert_eq (connection_ids 2).1 "sess-2"%string ;;
  assert_eq (connection_ids 3).1 "sess-3"%string.

(** Parts of a message. *)
Definition at_param (v : Value) (i : nat) : Value :=
  default Null (as_array (index v "params") ≫= λ l, l !! i).
Definition method_is (v : Value) (m : string) : bool :=
  match index v "method" with Str s => String.eqb s m | _ => false end.
Definition str_is (v : Value) (s : string) : bool :=
  match v with Str t => String.eqb t s | _ => false end.
Definition bool_is (v : Value) (b : bool) : bool :=
  match v with Bool c => Bool.eqb c b | _ => false end.

(** [src/src/stratum_protocol/server.rs:1018-1029 tests::test_create_notify] *)
Definition test_create_notify : test :=
  let job := create_test_job in
  let notify := create_notify job in
  assert (method_is notify "mining.notify") ;;
  assert (is_null (index notify "id")) ;;
  params ← unwrap_some (as_array (index notify "params"));
  assert (str_is (at_param notify 0) "job-890-100") ;;
  assert (str_is (at_param notify 1) (j_prevhash job)) ;;
  assert_eq (length params) 13%nat.

Lemma server_tests_pass :
  all_pass
    [ test_notify_new_job_broadcasts; test_session_id_generation; test_create_notify ] = true.
Proof. vm_compute. reflexivity. Qed.

(** * A miner *)

Section miner.
Context {lotus : LotusLib}.

(** The connection, and the number of lines the miner has read. *)
Record Client := mkClient { cl_conn : Conn (C := BoundedMap); cl_read : nat }.

Definition now : Z := 5000000000000.

Definition subscribe : Z * string * list string := (1, "mining.subscribe"%string, []).
Definition authorize (id : Z) : Z * string * list string :=
  (id, "mining.authorize"%string, [worker_rig; "x"%string]).
Definition extranonce_subscribe : Z * string * list string :=
  (2, "mining.extranonce.subscribe"%string, []).
Definition submit (id : Z) (params : list string) : Z * string * list string :=
  (id, "mining.submit"%string, params).
Definition a_share : list string :=
  [worker_rig; "job-890-100"; "00000003"; "6adc0c6a0000"; "B02B4ABB3DD6E835"]%string.
Definition share_of_other : list string :=
  [other_rig; "job-890-100"; "00000003"; "6adc0c6a0000"; "B02B4ABB3DD6E835"]%string.
Definition share_of_no_job : list string :=
  [worker_rig; "nonexistent-job"; "00000003"; "6adc0c6a0000"; "B02B4ABB3DD6E835"]%string.
Definition share_of_other_time : list string :=
  [worker_rig; "job-890-100"; "00000003"; "aaaaaaaaaaaa"; "B02B4ABB3DD6E835"]%string.
Definition share_cut_off : list string := [worker_rig; "job-890-100"]%string.

(** The requests that the parser knows: all that the tests send. *)
Definition known : list (string * Value) :=
  map (λ '(id, method, params), (request_text id method params, request_value id method params))
    [subscribe; authorize 1; authorize 2; extranonce_subscribe; submit 3 a_share;
     submit 2 share_of_other; submit 3 share_of_no_job; submit 3 share_of_other_time;
     submit 3 share_cut_off].

(** The server's environment: with or without the accounting, without a node. *)
Definition env (accounting : bool) : ServerEnv :=
  mkServerEnv accounting None (from_str_of known) (λ _, true).

(** The first connection to a server whose cache has the job of the tests. *)
Definition connect (c : M Client unit) : test :=
  let cache := insert create_test_job (JobCache_new 10) in
  session ← (accept VarDiffConfig_default cache 0 now).1;
  run_test (mkClient (mkConn session cache (fresh_db "2026-05-20 12:00:00") "" []) 0) c.

Definition on_conn (c : M (Conn (C := BoundedMap)) unit) : M Client unit := λ cl,
  let '(r, conn) := c (cl_conn cl) in (unwrap r, mkClient conn (cl_read cl)).
(** [write_half.write_all(..)] of a line. *)
Definition send_line (accounting : bool) (line : string) : M Client unit :=
  on_conn (turn (λ s, s) (env accounting) (EndOfLine now line)).
Definition send (accounting : bool) (request : Z * string * list string) : M Client unit :=
  let '(id, method, params) := request in send_line accounting (request_text id method params).
(** [reader.read_line(..)] *)
Definition read_line : M Client Value := λ cl,
  match concat (cn_sent (cl_conn cl)) !! cl_read cl with
  | Some v => (Ok v, mkClient (cl_conn cl) (S (cl_read cl)))
  | None => (Panic, cl)
  end.
Definition the_db : M Client Db := mread (λ cl, cn_db (cl_conn cl)).

(** The start of most of the tests. *)
Definition subscribe_first (accounting : bool) : M Client unit :=
  send accounting subscribe ;; read_line ;; read_line ;; mret tt.
Definition subscribe_and_authorize (accounting : bool) : M Client unit :=
  subscribe_first accounting ;;
  send accounting (authorize 2) ;; read_line ;; read_line ;; read_line ;; mret tt.

(** [src/src/stratum_protocol/server.rs:1034-1097 tests::test_subscribe_sends_set_extranonce] *)
Definition test_subscribe_sends_set_extranonce : test := connect (
  send false subscribe ;;
  resp ← read_line;
  massert (is_null (index resp "error")) ;;
  result ← munwrap_some (as_array (index resp "result"));
  massert_eq (length result) 3%nat ;;
  r1 ← mat_index result 1;
  extranonce1 ← munwrap_some (as_str r1);
  massert_eq (String.length extranonce1) 8%nat ;;
  massert (str_all is_hexdigit extranonce1) ;;
  r2 ← mat_index result 2;
  massert_eq (num_as_u64 r2) (Some 4) ;;
  set_en ← read_line;
  massert (method_is set_en "mining.set_extranonce") ;;
  massert (is_null (index set_en "id")) ;;
  params ← munwrap_some (as_array (index set_en "params"));
  massert_eq (length params) 2%nat ;;
  massert (str_is (at_param set_en 0) extranonce1) ;;
  massert_eq (num_as_u64 (at_param set_en 1)) (Some 4)).

(** [src/src/stratum_protocol/server.rs:1101-1153 tests::test_extranonce_subscribe_returns_success] *)
Definition test_extranonce_subscribe_returns_success : test := connect (
  subscribe_first false ;;
  send false extranonce_subscribe ;;
  resp ← read_line;
  massert (is_null (index resp "error")) ;;
  massert (bool_is (index resp "result") true)).

(** [src/src/stratum_protocol/server.rs:1157-1243 tests::test_integration_subscribe_authorize_submit] *)
Definition test_integration_subscribe_authorize_submit : test := connect (
  send false subscribe ;;
  resp ← read_line;
  massert (is_null (index resp "error")) ;;
  result ← munwrap_some (as_array (index resp "result"));
  massert_eq (length result) 3%nat ;;
  read_line ;;
  send false (authorize 2) ;;
  resp ← read_line;
  massert (is_null (index resp "error")) ;;
  massert (bool_is (index resp "result") true) ;;
  set_diff ← read_line;
  massert (method_is set_diff "mining.set_difficulty") ;;
  diff_val ← munwrap_some (as_f64 (at_param set_diff 0));
  massert (f64_gt diff_val f64_zero) ;;
  notify ← read_line;
  massert (method_is notify "mining.notify") ;;
  massert (str_is (at_param notify 0) "job-890-100") ;;
  send false (submit 3 a_share) ;;
  resp ← read_line;
  massert (is_some (get resp "result"))).

(** [src/src/stratum_protocol/server.rs:1253-1287 tests::test_authorize_requires_subscribe] *)
Definition test_authorize_requires_subscribe : test := connect (
  send false (authorize 1) ;;
  resp ← read_line;
  massert (negb (is_null (index resp "error"))) ;;
  error ← munwrap_some (as_array (index resp "error"));
  message ← mat_index error 1;
  massert (str_is message "not-subscribed")).

(** [src/src/stratum_protocol/server.rs:1290-1323 tests::test_invalid_json_request] *)
Definition test_invalid_json_request : test := connect (
  send_line false "not valid json" ;;
  resp ← read_line;
  massert (negb (is_null (index resp "error")))).

(** [src/src/stratum_protocol/server.rs:1327-1412 tests::test_graceful_shutdown_persists_in_flight_shares] *)
Definition test_graceful_shutdown_persists_in_flight_shares : test := connect (
  subscribe_and_authorize true ;;
  send true (submit 3 a_share) ;;
  resp ← read_line;
  massert (is_some (get resp "result")) ;;
  d ← the_db;
  massert_eq (total_count d) 1 ;;
  massert_eq (total_outcome_count d) 1).

(** [src/src/stratum_protocol/server.rs:1416-1489 tests::test_authorization_event_recorded] *)
Definition test_authorization_event_recorded : test := connect (
  subscribe_and_authorize true ;;
  d ← the_db;
  let of_session := List.filter (λ e, String.eqb (ae_session_id e) "sess-1")
    (rows (authorization_events d)) in
  massert_eq (len of_session) 1).

(** The share is answered with [false], and its outcome is stored with the reason. *)
Definition rejected_with (request : Z * string * list string) (reason : string) : M Client unit :=
  send true request ;;
  resp ← read_line;
  massert (bool_is (index resp "result") false) ;;
  d ← the_db;
  massert (1 <=? total_outcome_count d) ;;
  massert_eq (count_rejected_by_reason d !! reason) (Some 1).

(** [src/src/stratum_protocol/server.rs:1493-1565 tests::test_rejected_share_unauthorized_persists_outcome] *)
Definition test_rejected_share_unauthorized_persists_outcome : test := connect (
  subscribe_first true ;;
  rejected_with (submit 2 share_of_other) "unauthorized-worker" ;;
  d ← the_db;
  massert_eq (total_outcome_count d) 1).

(** [src/src/stratum_protocol/server.rs:1569-1655 tests::test_rejected_share_stale_job_persists_outcome] *)
Definition test_rejected_share_stale_job_persists_outcome : test := connect (
  subscribe_and_authorize true ;;
  rejected_with (submit 3 share_of_no_job) "stale-job").

(** [src/src/stratum_protocol/server.rs:1659-1745 tests::test_rejected_share_ntime_mismatch_persists_outcome] *)
Definition test_rejected_share_ntime_mismatch_persists_outcome : test := connect (
  subscribe_and_authorize true ;;
  rejected_with (submit 3 share_of_other_time) "ntime-mismatch").

(** [src/src/stratum_protocol/server.rs:1749-1835 tests::test_rejected_share_invalid_shape_persists_outcome] *)
Definition test_rejected_share_invalid_shape_persists_outcome : test := connect (
  subscribe_and_authorize true ;;
  rejected_with (submit 3 share_cut_off) "invalid-submit-shape").

(** [src/src/stratum_protocol/server.rs:1840-1935 tests::test_accounting_event_recorded_in_submission_path] *)
Definition test_accounting_event_recorded_in_submission_path : test := connect (
  subscribe_and_authorize true ;;
  send true (submit 3 a_share) ;;
  read_line ;;
  events ← mread_ok (λ cl, list_by_type (cn_db (cl_conn cl)) "share_outcome" 10 0);
  massert (negb (is_empty events)) ;;
  e0 ← mat_index events 0;
  massert (String.eqb (ev_status e0) "accepted" || String.eqb (ev_status e0) "rejected") ;;
  massert_eq (ev_event_type e0) "share_outcome"%string ;;
  massert (is_some (ev_session_id e0)) ;;
  massert (is_some (ev_worker_id e0))).

(** [src/src/stratum_protocol/server.rs:1940-2031 tests::test_deduplicate_identical_share_tcp] *)
Definition test_deduplicate_identical_share_tcp : test := connect (
  subscribe_and_authorize true ;;
  send true (submit 3 a_share) ;;
  read_line ;;
  send true (submit 3 a_share) ;;
  read_line ;;
  d ← the_db;
  massert_eq (total_count d) 1 ;;
  massert_eq (total_outcome_count d) 1).

Definition new_job : MiningJob :=
  let j := create_test_job in
  mkMiningJob "job-891-101" 891 (j_prevhash j) (j_coinbase1 j) (j_coinbase2 j)
    (j_merkle_branches j) (j_version j) (j_nbits j) (j_ntime j)
    "ffffffffffffffffffffffffffffffffffffffffffffffffffffffffffffffff" true 101 (j_height j)
    (j_epoch_hash j) (j_extended_metadata_hash j) (j_block_size j) (j_block_bytes j)
    (j_coinbase_value j) (j_reason j).

(** [src/src/stratum_protocol/server.rs:2046-2155 tests::test_vardiff_ceiling_clamped_on_new_job_broadcast] *)
Definition test_vardiff_ceiling_clamped_on_new_job_broadcast : test := connect (
  subscribe_first false ;;
  send false (authorize 2) ;;
  read_line ;;
  set_diff ← read_line;
  massert (method_is set_diff "mining.set_difficulty") ;;
  initial_p_diff ← munwrap_some (as_f64 (at_param set_diff 0));
  massert (f64_gt initial_p_diff f64_zero) ;;
  read_line ;;
  on_conn (turn (λ s, s) (env false) (JobBroadcast new_job)) ;;
  clamped ← read_line;
  massert (method_is clamped "mining.set_difficulty") ;;
  clamped_p_diff ← munwrap_some (as_f64 (at_param clamped 0));
  massert (f64_lt clamped_p_diff initial_p_diff)).

(** The tests, with either library. *)
Definition miner_tests : list test :=
  [ test_subscribe_sends_set_extranonce; test_extranonce_subscribe_returns_success;
    test_integration_subscribe_authorize_submit; test_authorize_requires_subscribe;
    test_invalid_json_request; test_graceful_shutdown_persists_in_flight_shares;
    test_authorization_event_recorded; test_rejected_share_unauthorized_persists_outcome;
    test_rejected_share_stale_job_persists_outcome;
    test_rejected_share_ntime_mismatch_persists_outcome;
    test_rejected_share_invalid_shape_persists_outcome;
    test_accounting_event_recorded_in_submission_path; test_deduplicate_identical_share_tcp;
    test_vardiff_ceiling_clamped_on_new_job_broadcast ].
End miner.

Lemma miner_tests_pass meets : all_pass (miner_tests (lotus := lotus_that_says meets)) = true.
Proof. by destruct meets; vm_compute. Qed.
